(* ===== verification/_CoqProject ===== *)
-Q . S2P
Prelude.v
Double.v
IperfTime.v
Timer.v
Text.v
Units.v
Dscp.v
Cjson.v
Iperf.v
Error.v
Sys.v
Queue.v
Net.v
Json.v
Buffer.v
Minify.v
Items.v
Util.v
Api.v
Frame.v
Params.v
Printf.v
Output.v
Args.v
Results.v
Udp.v
Traffic.v
Stats.v
Sockets.v
Streams.v
Report.v
Control.v
Client.v
Server.v
Wire.v
State.v
Exit.v
Restart.v
Destroy.v
Summary.v
Session.v
Protocol.v
