(* ===== verification/Prelude.v ===== *)
(** * A verification library for iperf3, the engine of the iperf application

    The program under src/Source/iperf3 measures the throughput between two
    hosts.  A client and a server open a control connection, agree on the
    parameters of a test, open one data connection per stream, move data for a
    while (a thread per stream), exchange their counters and print reports.
    The library models the C code function by function and proves what makes
    each part correct.  The configuration is that of the application
    (iperf_config.h on Darwin): no SSL, SCTP, TCP_INFO, congestion control or
    CPU affinity; code of other configurations is not modelled.

    ** How code becomes definitions

    A C function is a definition of the same name.  Integers are [Z] with the
    wrap-around of their width written out ([u8] ... [i64] below); [double] is
    binary64 (Double.v); a structure is a record in a module of its name
    (Iperf.v); a C string is a [string].  Fallible code keeps its result codes.
    Undefined behaviour (null or dangling pointers, casts out of range) is
    [None], so a theorem that an operation returns also says that it is safe.
    Stateful code runs in the state monad of Sys.v, over a [world]:
    the answers the system will give and the calls made so far.  A theorem for
    every script holds whatever the system does.  [prog] (Api.v) is a test, the
    timers and the world together; code of a worker thread runs on a [worker]
    (Traffic.v) or [flow].

    ** The files, in the order of their dependencies

    - Prelude: machine integers, lists.  Double: C doubles.
      Text: C text functions and number formats.
    - IperfTime (iperf_time.c): timestamps are numbers of microseconds.
    - Timer (timer.c): the pointer-level timer lists implement a sorted list;
      a run fires exactly what is due; destruction frees everything.
    - Units (units.c), Dscp (dscp.c): reading numbers with suffixes exactly, and
      names of services.
    - Cjson (cjson.c): the printer and the parser; what is printed reads back,
      and the parser terminates on every text.
    - Iperf (iperf.h, iperf_api.h): constants and structures.  Error
      (iperf_error.c): messages fit their buffer and are distinct.
    - Sys: the monad and the system.  Queue (queue.h): linked lists and tail
      queues do what the lists of this library do.  Net (net.c): sockets; the loops of Nread
      and Nwrite deliver exactly what the system moved, and no path leaks a
      descriptor.
    - Buffer (cjson.c): the printer in memory, write by write: no store leaves
      the block, and no block is lost when memory is refused.  Minify: white
      space and comments taken out of a text in place.  Items: JSON items in
      memory; what is done to their pointers is what the operations on lists and
      trees say, and a copy is exact or leaves nothing behind.
    - Json, Params, Results (iperf_api.c): messages on the control connection,
      and that the other side ends up with the parameters and results sent.
    - Util (iperf_util.c), Api (iperf_api.c): utilities, accessors, the life of
      a test object.  Args (iperf_api.c): the command line; what it accepts is
      within the limits that it checks, and it configures a test as the setters
      do.
    - Frame: relations between the states before and after that a program keeps
      if every step does; what programs leave alone is stated through them.
    - Udp (iperf_udp.c), Traffic (iperf_tcp.c, iperf_api.c): datagrams, the
      statistics of a receiver in any order of arrival, the rounds of a worker,
      pacing, file streams.
    - Stats (iperf_api.c): intervals, with the work of the threads that falls
      between reading and clearing the counters, and the limit on the total
      rate, a ring that implements a window over the whole history.
    - Sockets (iperf_tcp.c, iperf_udp.c): data connections and their cookie;
      Streams (iperf_api.c, iperf_client_api.c): making streams.
    - Printf (iperf_util.c, iperf_locale.c), Output (iperf_api.c,
      iperf_error.c): the two formatters, the messages about connections, and
      the JSON document from its start to its text, which parses back to it.
      Report (iperf_api.c): the reports in text and JSON.
    - Control (iperf_api.c and code that both ends have), Client
      (iperf_client_api.c), Server (iperf_server_api.c): timers of a test,
      handlers of messages, main loops, clean-up.
    - Wire: which parts of the program neither read nor write on a descriptor,
      the control connection above all.
    - State: only the protocol changes the state of a test.  The handlers of
      both ends implement scripts, the lists of what they send and await: every
      message of the script is sent or read, in its order, and no other.
    - Exit (iperf_api.c, iperf_error.c): signals, exits and the file with the
      number of the process; an interrupted client ends the test on the server.
    - Summary: the final report adds up, and the report of the client, made
      after the exchange of results, shows the totals that the server counted
      and reported before it.
    - Restart: what a reset sets back, so that the next client finds a new
      server.
    - Destroy: a test that is destroyed closes its files and cancels its timers,
      and no others.
    - Session: the opening and the end of a test on the server.  Its function
      cleans up on every way out but two, and the test records no socket and no
      timer then; a connection that is given up before a stream records it is
      lost (accept_stream_leaks).
    - Protocol: two ends that follow the scripts, in every interleaving, never
      misunderstand each other and always finish.

    ** The groups of theorems

    Refinement: the timer lists, the ring of totals, the statistics of a UDP
    receiver, the handlers on the control connection, the print buffer and the chains of JSON items against
    their specifications.  Round trips: JSON text, messages, parameters, results,
    the report.  Safety: descriptors, the clean-up, the destruction of a test,
    copies of items.  Invariants:
    traffic and interval counters add up.  Termination and liveness: the parser,
    the timers, the protocol.  Bounds and errors: messages of errors, numbers.

    ** Fuel and bounds

    Recursion follows the data where it can.  Loops over sockets take fuel from
    the bytes asked for, which every turn that goes on reduces (Net.v); the
    parser's fuel is the length of the text plus one and is proved enough
    (Cjson.v).  A timer run needs one unit per firing; the backlog of the
    timers gives a number that is proved enough.  The main loops take a list of
    rounds, each with what the other threads do during its wait: the theorems
    hold for every list, and the result [None] means only that the list ended
    before the test.  The protocol needs 25 steps and two for each stream.

    ** Not modelled

    Text printed at debug level, by warning, and for standard error or a log file
    when the program fails; flushing;
    allocation failure except where a component says otherwise; the callback
    for JSON text; locks, since the threads' shared
    counters are modelled by what other threads do between two steps, and a
    race inside one step shows only where a theorem says so (Stats.v).
    getopt_long, whose answers are the input of the command line.  The random
    bytes come with the calls that need them.  The text of the usage message and
    the strings of the JSON items as blocks of memory are left out, and so is
    code that this configuration does not compile: iperf_auth.c, the SCTP
    sockets of iperf_sctp.c, flow labels, congestion control, pacing by the
    kernel, and the replacements of daemon and getline.  iperf_pthread.c is for
    Android, tcp_window_size.c is never called, and the user interface in Objective-C is not part of the engine. *)

From Stdlib Require Export ZArith Lia.
From stdpp Require Export base numbers option strings gmap list.

#[global] Open Scope Z_scope.

(** ** Machine integers

    A C integer is a [Z]; every arithmetic result is put back in its type by
    one of the four conversions below (LP64: [int] is 32 bits wide, [long] and
    [int64_t] 64 bits). *)

Definition u8 (z : Z) : Z := z mod 2 ^ 8.
Definition u32 (z : Z) : Z := z mod 2 ^ 32.
Definition u64 (z : Z) : Z := z mod 2 ^ 64.
Definition i8 (z : Z) : Z := (z + 2 ^ 7) mod 2 ^ 8 - 2 ^ 7.
Definition i32 (z : Z) : Z := (z + 2 ^ 31) mod 2 ^ 32 - 2 ^ 31.
Definition i64 (z : Z) : Z := (z + 2 ^ 63) mod 2 ^ 64 - 2 ^ 63.

Definition in_u8 (z : Z) : Prop := 0 <= z < 2 ^ 8.
Definition in_u32 (z : Z) : Prop := 0 <= z < 2 ^ 32.
Definition in_u64 (z : Z) : Prop := 0 <= z < 2 ^ 64.
Definition in_i8 (z : Z) : Prop := - 2 ^ 7 <= z < 2 ^ 7.
Definition in_i32 (z : Z) : Prop := - 2 ^ 31 <= z < 2 ^ 31.
Definition in_i64 (z : Z) : Prop := - 2 ^ 63 <= z < 2 ^ 63.

(** [widths] unfolds the integer types, so that [lia] sees powers of two as
    numerals and [mod] as Euclidean division. *)
Ltac widths :=
  unfold in_u8, in_u32, in_u64, in_i8, in_i32, in_i64, u8, u32, u64, i8, i32, i64 in *;
  change (2 ^ 7) with 128 in *; change (2 ^ 8) with 256 in *;
  change (2 ^ 31) with 2147483648 in *; change (2 ^ 32) with 4294967296 in *;
  change (2 ^ 63) with 9223372036854775808 in *;
  change (2 ^ 64) with 18446744073709551616 in *.

(** [zlia] is the arithmetic closer of the development. *)
Ltac zlia := widths; Z.to_euclidean_division_equations; lia.

Create HintDb widths.
Create Rewrite HintDb widths.

Lemma u8_range z : in_u8 (u8 z).
Proof. zlia. Qed.
Lemma u32_range z : in_u32 (u32 z).
Proof. zlia. Qed.
Lemma u64_range z : in_u64 (u64 z).
Proof. zlia. Qed.
Lemma i32_range z : in_i32 (i32 z).
Proof. zlia. Qed.
Lemma i64_range z : in_i64 (i64 z).
Proof. zlia. Qed.
Lemma u8_id z : in_u8 z -> u8 z = z.
Proof. zlia. Qed.
Lemma u32_id z : in_u32 z -> u32 z = z.
Proof. zlia. Qed.
Lemma u64_id z : in_u64 z -> u64 z = z.
Proof. zlia. Qed.
Lemma i8_id z : in_i8 z -> i8 z = z.
Proof. zlia. Qed.
Lemma i32_id z : in_i32 z -> i32 z = z.
Proof. zlia. Qed.
Lemma i64_id z : in_i64 z -> i64 z = z.
Proof. zlia. Qed.
#[export] Hint Resolve u8_range u32_range u64_range i32_range i64_range : widths.
#[export] Hint Rewrite u8_id u32_id u64_id i8_id i32_id i64_id using (zlia) : widths.

(** ** Record update

    [r <| f := v |>] assigns a field, [r <| f ::= g |>] modifies it.  A record
    type declares its eta-expansion once as a [Settable] instance; the setter
    of a field is then computed from it by abstracting the projection. *)

Class Settable (R : Type) := eta_of : R -> R.
Class Setter {R T : Type} (proj : R -> T) := modify_field : (T -> T) -> R -> R.
#[global] Typeclasses Opaque Settable Setter.

Ltac derive_setter proj :=
  match type of proj with
  | ?R -> _ =>
      let inst := constr:(_ : Settable R) in
      let e := eval hnf in inst in
      let p := eval pattern proj in e in
      match p with
      | ?g _ => let s := eval cbv beta in (fun f => g (fun r => f (proj r))) in exact s
      end
  end.
#[export] Hint Extern 1 (Setter ?proj) => derive_setter proj : typeclass_instances.

Declare Scope record_scope.
Notation "r <| f := v |>" := (@modify_field _ _ f _ (fun _ => v) r)
  (at level 12, left associativity, format "r  <|  f  :=  v  |>") : record_scope.
Notation "r <| f ::= g |>" := (@modify_field _ _ f _ g r)
  (at level 12, left associativity, format "r  <|  f  ::=  g  |>") : record_scope.
#[global] Open Scope record_scope.
#[global] Arguments modify_field {R T} proj {_} _ _ /.

(** ** Lists *)

Lemma filter_id {A} (P : A -> Prop) `{forall x, Decision (P x)} (l : list A) :
  (forall x, x ∈ l -> P x) -> filter P l = l.
Proof.
  induction l as [|x l IH]; intros Hl; [done|].
  rewrite filter_cons_True by (apply Hl; by left). f_equal. apply IH. intros y Hy; apply Hl; by right.
Qed.

(** Updating a key that is present is [alter]. *)
Lemma insert_alter {K V} `{Countable K} (m : gmap K V) (k : K) (v : V) (f : V -> V) :
  m !! k = Some v -> <[k := f v]> m = alter f k m.
Proof.
  intros Hk. apply map_eq. intros j. rewrite lookup_insert, lookup_alter.
  destruct (decide (k = j)) as [<-|]; [by rewrite Hk|done].
Qed.

Lemma size_nodup_keys {K V} `{Countable K} (m : gmap K V) (l : list K) :
  NoDup l -> (forall k, k ∈ l -> is_Some (m !! k)) -> (length l <= size m)%nat.
Proof.
  intros Hnd Hl. rewrite <-(size_list_to_set (C := gset K) l Hnd), <-size_dom.
  apply subseteq_size. intros k Hk%elem_of_list_to_set. apply elem_of_dom. auto.
Qed.

Lemma alter_alter {K V} `{Countable K} (m : gmap K V) (k : K) (f g : V -> V) :
  alter f k (alter g k m) = alter (fun v => f (g v)) k m.
Proof.
  apply map_eq. intros j. rewrite !lookup_alter. destruct (decide (k = j)) as [<-|]; [|done].
  rewrite decide_True by done. by destruct (m !! k).
Qed.
