(* ===== verification/Double.v ===== *)
(** * C doubles and floats

    The type [double] is binary64 of the Standard Library's [SpecFloat]
    (round to nearest even), so every floating-point expression of the sources
    is evaluated as the hardware does.  The lemmas give the two facts that the
    integer code of iperf3 relies on: integers up to 2^53 survive the trip
    through a double, and comparing them as doubles compares them. *)
From S2P Require Import Prelude.
From Stdlib Require Import SpecFloat.
#[local] Open Scope Z_scope.

Abbreviation double := spec_float.

Definition dprec : Z := 53.
Definition demax : Z := 1024.
Definition dadd : double -> double -> double := SFadd dprec demax.
Definition dsub : double -> double -> double := SFsub dprec demax.
Definition dmul : double -> double -> double := SFmul dprec demax.
Definition ddiv : double -> double -> double := SFdiv dprec demax.
Definition dopp : double -> double := SFopp.
Definition dltb : double -> double -> bool := SFltb.
Definition dleb : double -> double -> bool := SFleb.
Definition deqb : double -> double -> bool := SFeqb.
Definition dzero : double := S754_zero false.

(** [(double) z] for an integer [z]. *)
Definition Z2d (z : Z) : double := binary_normalize dprec demax z 0 false.

(** The value of a C floating literal [num/den] (correctly rounded). *)
Definition dlit (num den : Z) : double := ddiv (Z2d num) (Z2d den).

(** [(float) d]. *)
Definition d2f (d : double) : double :=
  match d with
  | S754_finite s m e => binary_normalize 24 128 (if s then Zneg m else Zpos m) e s
  | _ => d
  end.

(** Truncation towards zero; [None] for infinities and NaN. *)
Definition d2Z (d : double) : option Z :=
  match d with
  | S754_zero _ => Some 0
  | S754_finite s m e =>
      let a := if 0 <=? e then Zpos m * 2 ^ e else Zpos m / 2 ^ (- e) in
      Some (if s then - a else a)
  | _ => None
  end.

(** Conversions of a double to an integer type: undefined ([None]) when the
    truncated value does not fit. *)
Definition cast (lo hi : Z) (d : double) : option Z :=
  match d2Z d with
  | Some z => if (lo <=? z) && (z <? hi) then Some z else None
  | None => None
  end.
Definition d2u64 : double -> option Z := cast 0 (2 ^ 64).
Definition d2i64 : double -> option Z := cast (- 2 ^ 63) (2 ^ 63).
Definition d2i32 : double -> option Z := cast (- 2 ^ 31) (2 ^ 31).

Example Z2d_1000 : d2u64 (dmul (Z2d 1000) (dlit 1 2)) = Some 500.
Proof. reflexivity. Qed.
Example dlit_tenth : dlit 1 10 = S754_finite false 7205759403792794 (-56).
Proof. reflexivity. Qed.

(** ** Exactness on integers *)

(** The exact representation of a positive integer below 2^53. *)
Definition canon (p : positive) : positive :=
  match (53 - Zpos (digits2_pos p))%Z with Zpos d => Pos.iter xO p d | _ => p end.

Lemma digits2_bounds p : 2 ^ (Zpos (digits2_pos p) - 1) <= Zpos p < 2 ^ Zpos (digits2_pos p).
Proof.
  induction p as [p IH|p IH|]; cbn [digits2_pos]; [| |done];
    rewrite Pos2Z.inj_succ;
    replace (Z.succ (Zpos (digits2_pos p)) - 1) with (Z.succ (Zpos (digits2_pos p) - 1)) by lia;
    rewrite !Z.pow_succ_r by lia; lia.
Qed.

Lemma digits2_le p n : 0 <= n -> Zpos p < 2 ^ n -> Zpos (digits2_pos p) <= n.
Proof.
  intros Hn Hp. pose proof (digits2_bounds p) as [Hl _].
  destruct (Z.le_gt_cases (Zpos (digits2_pos p)) n) as [|Hgt]; [done|].
  assert (2 ^ n <= 2 ^ (Zpos (digits2_pos p) - 1)) by (apply Z.pow_le_mono_r; lia). lia.
Qed.

Lemma iter_xO_value p d : Zpos (Pos.iter xO p d) = Zpos p * 2 ^ Zpos d.
Proof.
  induction d as [|d IH] using Pos.peano_ind; [cbn; lia|].
  rewrite Pos.iter_succ, Pos2Z.inj_succ, Pos2Z.inj_xO, IH, Z.pow_succ_r by lia. lia.
Qed.

Lemma digits2_iter_xO p d :
  Zpos (digits2_pos (Pos.iter xO p d)) = Zpos (digits2_pos p) + Zpos d.
Proof.
  induction d as [|d IH] using Pos.peano_ind; [cbn; lia|].
  rewrite Pos.iter_succ. cbn [digits2_pos]. lia.
Qed.

Lemma canon_digits p : Zpos p < 2 ^ 53 -> Zpos (digits2_pos (canon p)) = 53.
Proof.
  intros Hp. apply digits2_le in Hp as Hd; [|lia]. unfold canon.
  destruct (53 - Zpos (digits2_pos p)) as [|d|d] eqn:E; [lia| |lia].
  rewrite digits2_iter_xO. lia.
Qed.

Lemma canon_value p :
  Zpos p < 2 ^ 53 -> Zpos (canon p) = Zpos p * 2 ^ (53 - Zpos (digits2_pos p)).
Proof.
  intros Hp. apply digits2_le in Hp as Hd; [|lia]. unfold canon.
  destruct (53 - Zpos (digits2_pos p)) as [|d|d] eqn:E; [cbn; lia| |lia].
  apply iter_xO_value.
Qed.

(** Rounding leaves a full-length mantissa in the exponent range alone. *)
Lemma round_canonical s m e :
  Zpos (digits2_pos m) = 53 -> -1074 <= e <= 971 ->
  binary_round_aux dprec demax s (Zpos m) e loc_Exact = S754_finite s m e.
Proof.
  intros Hm He. unfold binary_round_aux, shr_fexp. cbn [Zdigits2]. rewrite Hm.
  unfold fexp, emin, dprec, demax in *.
  replace (Z.max (53 + e - 53) (3 - 1024 - 53) - e) with 0 by lia.
  cbn [shr shr_record_of_loc loc_of_shr_record round_nearest_even shr_m]. cbn [Zdigits2].
  rewrite Hm. replace (Z.max (53 + e - 53) (3 - 1024 - 53) - e) with 0 by lia.
  cbn [shr shr_record_of_loc shr_m].
  destruct (Z.leb_spec e (1024 - 53)); [done|lia].
Qed.

Lemma Z2d_round s p :
  Zpos p < 2 ^ 53 ->
  binary_round dprec demax s p 0 = S754_finite s (canon p) (Zpos (digits2_pos p) - 53).
Proof.
  intros Hp. apply digits2_le in Hp as Hd; [|lia].
  pose proof (canon_digits p Hp) as Hc. unfold binary_round.
  assert (shl_align p 0 (fexp dprec demax (Zpos (digits2_pos p) + 0))
          = (canon p, Zpos (digits2_pos p) - 53)) as ->.
  { unfold shl_align, canon, fexp, emin, dprec, demax.
    replace (Z.max (Zpos (digits2_pos p) + 0 - 53) (3 - 1024 - 53) - 0)
      with (- (53 - Zpos (digits2_pos p))) by lia.
    destruct (53 - Zpos (digits2_pos p)) as [|d|d] eqn:E; [| |lia]; cbn [Z.opp]; f_equal; lia. }
  apply round_canonical; lia.
Qed.

Lemma Z2d_pos p :
  Zpos p < 2 ^ 53 -> Z2d (Zpos p) = S754_finite false (canon p) (Zpos (digits2_pos p) - 53).
Proof. apply Z2d_round. Qed.
Lemma Z2d_neg p :
  Zpos p < 2 ^ 53 -> Z2d (Zneg p) = S754_finite true (canon p) (Zpos (digits2_pos p) - 53).
Proof. apply Z2d_round. Qed.

(** Integers of magnitude below 2^53 convert to doubles without loss. *)
Lemma d2Z_Z2d z : - 2 ^ 53 < z < 2 ^ 53 -> d2Z (Z2d z) = Some z.
Proof.
  intros Hz.
  assert (Hp : forall p, Zpos p < 2 ^ 53 ->
    (if 0 <=? Zpos (digits2_pos p) - 53 then Zpos (canon p) * 2 ^ (Zpos (digits2_pos p) - 53)
     else Zpos (canon p) / 2 ^ (- (Zpos (digits2_pos p) - 53))) = Zpos p).
  { intros p Hp. apply digits2_le in Hp as Hd; [|lia]. rewrite (canon_value p Hp).
    destruct (Z.leb_spec 0 (Zpos (digits2_pos p) - 53)) as [H0|H0].
    - replace (Zpos (digits2_pos p)) with 53 by lia. cbn; lia.
    - replace (- (Zpos (digits2_pos p) - 53)) with (53 - Zpos (digits2_pos p)) by lia.
      apply Z.div_mul. apply Z.pow_nonzero; lia. }
  destruct z as [|p|p]; [done| |]; [rewrite Z2d_pos by lia|rewrite Z2d_neg by lia];
    unfold d2Z; rewrite Hp by lia; reflexivity.
Qed.

Lemma cast_Z2d lo hi z :
  - 2 ^ 53 < z < 2 ^ 53 -> lo <= z < hi -> cast lo hi (Z2d z) = Some z.
Proof.
  intros Hz Hr. unfold cast. rewrite d2Z_Z2d by done.
  destruct (Z.leb_spec lo z), (Z.ltb_spec z hi); try lia; done.
Qed.

(** ** Exact products *)

Lemma iter_pos_iter {A} (f : A -> A) n x : iter_pos f n x = Pos.iter f x n.
Proof.
  revert x; induction n as [n IH|n IH|]; intros x; cbn [iter_pos Pos.iter]; [|by rewrite !IH|done].
  rewrite !IH, <-!Pos.iter_swap. done.
Qed.

Lemma shr_exact q k : iter_pos shr_1 k (Build_shr_record (Zpos (Pos.iter xO q k)) false false)
                      = Build_shr_record (Zpos q) false false.
Proof.
  rewrite iter_pos_iter. induction k as [|k IH] using Pos.peano_ind; [done|].
  rewrite Pos.iter_succ_r, Pos.iter_succ. cbn. done.
Qed.

Lemma round_shift s q k e :
  Zpos (digits2_pos q) = 53 -> -1074 <= e + Zpos k <= 971 ->
  binary_round_aux dprec demax s (Zpos (Pos.iter xO q k)) e loc_Exact = S754_finite s q (e + Zpos k).
Proof.
  intros Hq He. rewrite <-(round_canonical s q (e + Zpos k)) by done.
  unfold binary_round_aux at 1, shr_fexp. cbn [Zdigits2]. rewrite digits2_iter_xO, Hq.
  unfold fexp at 1, emin. change dprec with 53 at 1 2 4. change demax with 1024 at 1.
  replace (Z.max (53 + Zpos k + e - 53) (3 - 1024 - 53) - e) with (Zpos k) by lia.
  cbn [shr shr_record_of_loc]. rewrite shr_exact. cbn [loc_of_shr_record round_nearest_even shr_m].
  unfold binary_round_aux, shr_fexp. cbn [Zdigits2]. rewrite Hq. unfold fexp, emin, dprec, demax.
  replace (Z.max (53 + (e + Zpos k) - 53) (3 - 1024 - 53) - (e + Zpos k)) with 0 by lia.
  cbn [shr shr_record_of_loc loc_of_shr_record round_nearest_even shr_m Zdigits2]. rewrite Hq.
  replace (Z.max (53 + (e + Zpos k) - 53) (3 - 1024 - 53) - (e + Zpos k)) with 0 by lia. done.
Qed.

Lemma digits2_mul a b :
  Zpos (digits2_pos a) + Zpos (digits2_pos b) - 1 <= Zpos (digits2_pos (a * b)).
Proof.
  destruct (digits2_bounds a) as [Ha _], (digits2_bounds b) as [Hb _].
  destruct (digits2_bounds (a * b)) as [_ Hab]. rewrite Pos2Z.inj_mul in Hab.
  set (x := Zpos (digits2_pos a)) in *. set (y := Zpos (digits2_pos b)) in *.
  set (z := Zpos (digits2_pos (a * b))) in *.
  destruct (Z.le_gt_cases (x + y - 1) z) as [|Hgt]; [done|].
  assert (2 ^ z <= 2 ^ ((x - 1) + (y - 1))) by (apply Z.pow_le_mono_r; lia).
  rewrite Z.pow_add_r in * by lia.
  assert (2 ^ (x - 1) * 2 ^ (y - 1) <= Zpos a * Zpos b) by (apply Z.mul_le_mono_nonneg; lia). lia.
Qed.

Lemma canon_mul a b :
  Zpos a * Zpos b < 2 ^ 53 ->
  exists k, (canon a * canon b)%positive = Pos.iter xO (canon (a * b)) k /\
    Zpos k = 53 - Zpos (digits2_pos a) - Zpos (digits2_pos b) + Zpos (digits2_pos (a * b)).
Proof.
  intros Hab. assert (Ha : Zpos a < 2 ^ 53) by nia. assert (Hb : Zpos b < 2 ^ 53) by nia.
  assert (Hp : Zpos (a * b) < 2 ^ 53) by lia.
  pose proof (digits2_mul a b) as Hd. apply digits2_le in Hp as Hdp; [|lia].
  apply digits2_le in Ha as Hda; [|lia]. apply digits2_le in Hb as Hdb; [|lia].
  destruct (53 - Zpos (digits2_pos a) - Zpos (digits2_pos b) + Zpos (digits2_pos (a * b)))
    as [|k|k] eqn:Ek; [lia| |lia].
  exists k. split; [|done]. apply Pos2Z.inj.
  rewrite iter_xO_value, Pos2Z.inj_mul, !canon_value, Pos2Z.inj_mul by done.
  set (da := Zpos (digits2_pos a)) in *. set (db := Zpos (digits2_pos b)) in *.
  set (dp := Zpos (digits2_pos (a * b))) in *.
  transitivity (Zpos a * Zpos b * 2 ^ ((53 - da) + (53 - db))); [rewrite Z.pow_add_r by lia; ring|].
  replace ((53 - da) + (53 - db)) with ((53 - dp) + Zpos k) by lia. rewrite Z.pow_add_r by lia. ring.
Qed.

(** A product of integers that stays below 2^53 is computed exactly. *)
Lemma dmul_Z2d a b :
  0 <= a -> 0 <= b -> a * b < 2 ^ 53 -> a < 2 ^ 53 -> b < 2 ^ 53 ->
  dmul (Z2d a) (Z2d b) = Z2d (a * b).
Proof.
  intros Ha Hb Hab Hal Hbl.
  destruct a as [|a|a]; [|destruct b as [|b|b]|lia].
  - destruct b as [|b|b]; [done| |lia]. by rewrite Z2d_pos by lia.
  - rewrite Z.mul_0_r. by rewrite Z2d_pos by lia.
  - rewrite <-Pos2Z.inj_mul in *. rewrite !Z2d_pos by lia. unfold dmul, SFmul.
    destruct (canon_mul a b) as (k & -> & Hk); [lia|].
    change (xorb false false) with false.
    rewrite round_shift; [f_equal; lia|by apply canon_digits; lia|].
    pose proof (digits2_le (a * b) 53). lia.
  - lia.
Qed.

(** ** Upper bounds *)

(** What an operation returns has at most 53 bits. *)
Definition narrow (d : double) : Prop := match d with S754_finite _ m _ => Zpos m < 2 ^ 53 | _ => True end.
Lemma shr_1_half r : 2 * shr_m (shr_1 r) <= Z.max 0 (shr_m r).
Proof. destruct r as [[|[p|p|]|[p|p|]] ? ?]; cbn; lia. Qed.
Lemma shr_below r e n : shr_m (shr r e n).1 * 2 ^ Z.max 0 n <= Z.max 0 (shr_m r).
Proof.
  destruct n as [|n|n]; cbn [shr fst]; [change (2 ^ Z.max 0 0) with 1; lia| |change (2 ^ Z.max 0 (Zneg n)) with 1; lia]. change (Z.max 0 (Zpos n)) with (Zpos n). rewrite iter_pos_iter.
  induction n as [|n IH] using Pos.peano_ind; [pose proof (shr_1_half r); cbn [Pos.iter]; change (2 ^ 1) with 2; lia|].
  rewrite Pos.iter_succ, Pos2Z.inj_succ, Z.pow_succ_r by lia. pose proof (shr_1_half (Pos.iter shr_1 r n)).
  assert (0 < 2 ^ Zpos n) by (apply Z.pow_pos_nonneg; lia). nia.
Qed.
Lemma shr_fexp_below m e l : shr_m (shr_fexp dprec demax m e l).1 < 2 ^ 53.
Proof.
  unfold shr_fexp. set (n := fexp _ _ _ - e). pose proof (shr_below (shr_record_of_loc m l) e n) as H.
  replace (shr_m (shr_record_of_loc m l)) with m in H by (by destruct l as [|[]]).
  set (x := shr_m _) in *. clearbody x.
  assert (Hp : 0 < 2 ^ Z.max 0 n) by (apply Z.pow_pos_nonneg; lia).
  destruct m as [|p|p]; [nia| |nia]. cbn [Z.max Z.compare] in H.
  assert (Hn : Zpos (digits2_pos p) <= 53 + Z.max 0 n) by (unfold n, fexp, dprec, demax; cbn [Zdigits2]; lia).
  destruct (digits2_bounds p) as [_ Hd]. apply (Z.pow_le_mono_r 2) in Hn; [|lia]. rewrite Z.pow_add_r in Hn by lia. nia.
Qed.
Lemma narrow_round s m e l : narrow (binary_round_aux dprec demax s m e l).
Proof.
  unfold binary_round_aux. destruct (shr_fexp dprec demax m e l) as [r e1].
  pose proof (shr_fexp_below (round_nearest_even (shr_m r) (loc_of_shr_record r)) e1 loc_Exact) as H.
  destruct (shr_fexp _ _ _ e1 loc_Exact) as [r2 e2]. cbn [fst] in H. destruct (shr_m r2); [done| |done]. by destruct (_ <=? _).
Qed.
Lemma narrow_normalize m e s : narrow (binary_normalize dprec demax m e s).
Proof. unfold binary_normalize, binary_round. destruct m; [done|..]; destruct (shl_align _ _ _); apply narrow_round. Qed.
Lemma narrow_dmul a b : narrow (dmul a b).
Proof. destruct a as [[]|[]| |[] m e], b as [[]|[]| |[] m' e']; try done; apply narrow_round. Qed.

(** A double that is not greater than an integer truncates to no more. *)
Lemma d2Z_le n d z : 0 < n < 2 ^ 53 -> narrow d -> dltb (Z2d n) d = false -> d2Z d = Some z -> z <= n.
Proof.
  intros Hn Hd Hlt Hz. destruct n as [|p|]; try lia. rewrite Z2d_pos in Hlt by lia.
  destruct d as [s|s| |s m e]; try done; [injection Hz as <-; lia|]. cbn [d2Z] in Hz. cbv zeta in Hz. injection Hz as <-.
  assert (Hpos : 0 <= if 0 <=? e then Zpos m * 2 ^ e else Zpos m / 2 ^ (- e)).
  { destruct (Z.leb_spec 0 e); [apply Z.mul_nonneg_nonneg; [lia|apply Z.pow_nonneg; lia]|apply Z.div_pos; [lia|apply Z.pow_pos_nonneg; lia]]. }
  destruct s; [lia|]. clear Hpos. destruct Hn as [_ Hn]. apply digits2_le in Hn as Hdig; [|lia]. pose proof (canon_value p Hn) as Hc.
  destruct (digits2_bounds p) as [Hlow _]. set (k := 53 - Zpos (digits2_pos p)) in *.
  replace (Zpos (digits2_pos p) - 53) with (- k) in Hlt by lia. cbn in Hd.
  assert (Hcases : e < - k \/ e = - k /\ (m <= canon p)%positive).
  { unfold dltb, SFltb, SFcompare in Hlt. destruct (Z.compare_spec (- k) e) as [E|E|E]; [right|done|left; lia].
    split; [done|]. change (Pos.compare_cont Eq (canon p) m) with (canon p ?= m)%positive in Hlt.
    destruct (Pos.compare_spec (canon p) m); (done || lia). }
  destruct Hcases as [He|[-> Hm]].
  - destruct (Z.leb_spec 0 e); [lia|]. assert (Zpos m / 2 ^ (- e) < 2 ^ (Zpos (digits2_pos p) - 1)); [|lia].
    apply Z.div_lt_upper_bound; [apply Z.pow_pos_nonneg; lia|]. rewrite <-Z.pow_add_r by lia.
    eapply Z.lt_le_trans; [exact Hd|]. apply Z.pow_le_mono_r; lia.
  - assert (Hp : 0 < 2 ^ k) by (apply Z.pow_pos_nonneg; lia). destruct (Z.leb_spec 0 (- k)) as [H|H].
    + replace (- k) with 0 by lia. replace k with 0 in Hc by lia. lia.
    + rewrite Z.opp_involutive. apply Z.div_le_upper_bound; lia.
Qed.
