(* ===== verification/IperfTime.v ===== *)
(** * Timestamps: iperf_time.c

    [iperf_time] is the pair of unsigned 32-bit counters of iperf_time.h.  The
    reference point is [in_usecs]: the timestamp as one number of microseconds.
    The theorems say that every routine is the corresponding integer operation
    on that number, with the overflow bounds under which this is so. *)
From S2P Require Import Prelude Double.
#[local] Open Scope Z_scope.

Record iperf_time := Time { secs : Z; usecs : Z }.

#[export] Instance iperf_time_eta : Settable iperf_time := fun r => Time (secs r) (usecs r).
#[export] Instance iperf_time_eq_dec : EqDecision iperf_time.
Proof. solve_decision. Defined.

(** [iperf_time_now]: [ts] is what clock_gettime stored, [None] when it
    failed; the timestamp is left alone on failure. *)
Definition iperf_time_now (ts : option (Z * Z)) (time1 : iperf_time) : Z * iperf_time :=
  match ts with
  | Some (tv_sec, tv_nsec) => (0, Time (u32 tv_sec) (u32 tv_nsec / 1000))
  | None => (-1, time1)
  end.

Definition iperf_time_add_usecs (time1 : iperf_time) (us : Z) : iperf_time :=
  let total_usecs := u64 (usecs time1 + us) in
  time1 <| secs ::= fun s => u32 (s + total_usecs / 1000000) |>
        <| usecs := u32 (total_usecs mod 1000000) |>.

Definition iperf_time_in_usecs (time : iperf_time) : Z :=
  u64 (secs time * 1000000 + usecs time).

Definition iperf_time_in_secs (time : iperf_time) : double :=
  dadd (Z2d (secs time)) (ddiv (Z2d (usecs time)) (Z2d 1000000)).

Definition iperf_time_compare (time1 time2 : iperf_time) : Z :=
  if secs time1 <? secs time2 then -1
  else if secs time2 <? secs time1 then 1
  else if usecs time1 <? usecs time2 then -1
  else if usecs time2 <? usecs time1 then 1
  else 0.

(** [iperf_time_diff] returns the flag [past] and the difference. *)
Definition iperf_time_diff (time1 time2 : iperf_time) : Z * iperf_time :=
  let cmp := iperf_time_compare time1 time2 in
  let sub a b :=
    let d := Time (u32 (secs a - secs b)) (usecs a) in
    let d := if usecs d <? usecs b
             then d <| secs ::= fun s => u32 (s - 1) |> <| usecs ::= fun u => u32 (u + 1000000) |>
             else d in
    d <| usecs ::= fun u => u32 (u - usecs b) |> in
  if cmp =? 0 then (1, Time 0 0)
  else if cmp =? 1 then (0, sub time1 time2)
  else (1, sub time2 time1).

(** ** Reference semantics *)

(** The range of the C type, and the normalised timestamps that every routine
    of the library produces. *)
Definition time_typed (t : iperf_time) : Prop := in_u32 (secs t) /\ in_u32 (usecs t).
Definition time_ok (t : iperf_time) : Prop := in_u32 (secs t) /\ 0 <= usecs t < 1000000.
Definition in_usecs (t : iperf_time) : Z := secs t * 1000000 + usecs t.

(** Comparison with no fuss: the order of the program's timestamps. *)
Definition time_le (a b : iperf_time) : Prop := iperf_time_compare a b <= 0.
#[export] Instance time_le_dec a b : Decision (time_le a b).
Proof. unfold time_le. apply _. Defined.

Ltac time_cases :=
  unfold time_le, iperf_time_diff, iperf_time_compare in *;
  repeat (match goal with
    | |- context [?a <? ?b] => destruct (Z.ltb_spec a b)
    | H : context [?a <? ?b] |- _ => destruct (Z.ltb_spec a b)
    end; cbn [Z.eqb secs usecs] in *).

Lemma iperf_time_in_usecs_exact t : time_typed t -> iperf_time_in_usecs t = in_usecs t.
Proof. intros [? ?]. unfold iperf_time_in_usecs, in_usecs. zlia. Qed.

Lemma time_ok_typed t : time_ok t -> time_typed t.
Proof. intros [? ?]. split; zlia. Qed.
#[export] Hint Resolve time_ok_typed : core.

Lemma in_usecs_inj a b : time_ok a -> time_ok b -> in_usecs a = in_usecs b -> a = b.
Proof. destruct a, b; unfold time_ok, in_usecs; cbn; intros; f_equal; lia. Qed.

Lemma compare_range a b :
  iperf_time_compare a b = -1 \/ iperf_time_compare a b = 0 \/ iperf_time_compare a b = 1.
Proof. time_cases; lia. Qed.

(** On normalised timestamps the comparison is that of the microseconds. *)
Lemma compare_spec a b :
  time_ok a -> time_ok b ->
  (iperf_time_compare a b < 0 <-> in_usecs a < in_usecs b) /\
  (iperf_time_compare a b = 0 <-> in_usecs a = in_usecs b) /\
  (iperf_time_compare a b > 0 <-> in_usecs a > in_usecs b).
Proof. unfold time_ok, in_usecs; intros; time_cases; lia. Qed.

Lemma time_le_usecs a b : time_ok a -> time_ok b -> time_le a b <-> in_usecs a <= in_usecs b.
Proof. intros Ha Hb. unfold time_le. pose proof (compare_spec a b Ha Hb). lia. Qed.

(** The comparison is a total order on all typed values, normalised or not. *)
#[export] Instance time_le_total : TotalOrder time_le.
Proof.
  repeat split.
  - intros t. time_cases; lia.
  - intros a b c Hab Hbc. time_cases; lia.
  - intros [a1 a2] [b1 b2] Hab Hba. time_cases; f_equal; lia.
  - intros a b. unfold strict, time_le. destruct a as [a1 a2], b as [b1 b2].
    destruct (Z.lt_trichotomy a1 b1) as [|[->|]];
      [left; time_cases; lia| |right; right; time_cases; lia].
    destruct (Z.lt_trichotomy a2 b2) as [|[->|]];
      [left; time_cases; lia|right; left; done|right; right; time_cases; lia].
Qed.

Lemma compare_antisym a b : iperf_time_compare a b = - iperf_time_compare b a.
Proof. time_cases; lia. Qed.

Lemma add_usecs_ok t us : time_ok (iperf_time_add_usecs t us).
Proof. unfold time_ok, iperf_time_add_usecs; cbn. zlia. Qed.
#[export] Hint Resolve add_usecs_ok : core.

Lemma add_usecs_exact t us :
  time_ok t -> 0 <= us < 2 ^ 63 -> in_usecs t + us < 2 ^ 32 * 1000000 ->
  in_usecs (iperf_time_add_usecs t us) = in_usecs t + us.
Proof.
  unfold time_ok, in_usecs, iperf_time_add_usecs; cbn. intros [? ?] ? ?.
  rewrite (u64_id (usecs t + us)) by zlia. zlia.
Qed.

Lemma diff_exact a b :
  time_ok a -> time_ok b ->
  let '(past, d) := iperf_time_diff a b in
  time_ok d /\ in_usecs d = Z.abs (in_usecs a - in_usecs b) /\
  past = (if in_usecs a <=? in_usecs b then 1 else 0).
Proof.
  destruct a as [s1 u1], b as [s2 u2]. unfold time_ok, in_usecs; cbn [secs usecs].
  intros [? ?] [? ?]. time_cases;
    repeat match goal with |- context [?x <=? ?y] => destruct (Z.leb_spec x y) end;
    try (cbn; zlia).
Qed.

(**  The time-difference routine is subtraction: on normalised
    timestamps the difference is normalised, it is the absolute difference in
    microseconds, [past] is set exactly when the first timestamp is not later
    than the second, and adding the difference back restores the first. *)
Lemma iperf_time_diff_correct (a b : iperf_time) :
  time_ok a -> time_ok b ->
  let '(past, d) := iperf_time_diff a b in
  time_ok d /\ iperf_time_in_usecs d = Z.abs (in_usecs a - in_usecs b) /\
  past = (if in_usecs a <=? in_usecs b then 1 else 0) /\
  (past = 0 -> iperf_time_add_usecs b (iperf_time_in_usecs d) = a).
Proof.
  intros Ha Hb. pose proof (diff_exact a b Ha Hb) as Hd.
  destruct (iperf_time_diff a b) as [past d]. destruct Hd as (Hok & Hus & Hpast).
  rewrite iperf_time_in_usecs_exact by auto. repeat split; try apply Hok; try done.
  intros ->. destruct (Z.leb_spec (in_usecs a) (in_usecs b)) as [|Hlt]; [done|].
  assert (in_usecs a < 2 ^ 32 * 1000000) by (unfold in_usecs; destruct Ha; zlia).
  assert (0 <= in_usecs b) by (unfold in_usecs; destruct Hb; zlia).
  apply in_usecs_inj; auto. rewrite add_usecs_exact; auto; lia.
Qed.
Lemma iperf_time_diff_correct_witness :
  iperf_time_diff (Time 5 2) (Time 3 999999) = (0, Time 1 3) /\
  let '(past, d) := iperf_time_diff (Time 5 2) (Time 3 999999) in
  time_ok d /\ iperf_time_in_usecs d = Z.abs (in_usecs (Time 5 2) - in_usecs (Time 3 999999)) /\
  past = (if in_usecs (Time 5 2) <=? in_usecs (Time 3 999999) then 1 else 0) /\
  (past = 0 -> iperf_time_add_usecs (Time 3 999999) (iperf_time_in_usecs d) = Time 5 2).
Proof.
  split; [reflexivity|].
  apply (iperf_time_diff_correct (Time 5 2) (Time 3 999999)); split; cbn; zlia.
Defined.
