(* ===== verification/Timer.v ===== *)
(** * The timer package: timer.c

    The package keeps two intrusive lists in global variables: the active
    timers, doubly linked and sorted by expiry time, and the free list.  The
    model keeps the pointers: a heap of [Timer] structures, the two list heads,
    and one definition per function.  [None] is undefined behaviour (a null or
    dangling dereference) or exhausted fuel, so a theorem that an operation is
    [Some] says that it is memory safe and terminates.

    The abstract state is a list of (location, timer) pairs: [timers_repr]
    relates it to the heap, and the theorems show that the pointer code
    implements insertion into, and removal from, a sorted list. *)
From Stdlib Require Import Sorted.
From S2P Require Import Prelude Double IperfTime.
#[local] Open Scope Z_scope.

(** ** Data: timer.h *)

Definition loc := positive.

(** The fields of [struct TimerStruct] other than the links ([hash] is never
    used).  [timer_proc] is the function pointer, [client_data] its argument,
    [per] the flag [periodic], [at_] the field [time]. *)
Record timer_body := Body {
  timer_proc : Z; client_data : Z; t_usecs : Z; periodic : Z; at_ : iperf_time }.
Record Timer := mkTimer { body : timer_body; prev : option loc; next : option loc }.

(** The heap and the static variables [timers] and [free_timers]. *)
Record timer_state := TS {
  heap : gmap loc Timer; timers : option loc; free_timers : option loc }.

#[export] Instance timer_body_eta : Settable timer_body :=
  fun r => Body (timer_proc r) (client_data r) (t_usecs r) (periodic r) (at_ r).
#[export] Instance Timer_eta : Settable Timer := fun r => mkTimer (body r) (prev r) (next r).
#[export] Instance timer_state_eta : Settable timer_state :=
  fun r => TS (heap r) (timers r) (free_timers r).

(** [p->f] and [p->f = v]. *)
Definition load (st : timer_state) (p : loc) : option Timer := heap st !! p.
Definition store (st : timer_state) (p : loc) (f : Timer -> Timer) : option timer_state :=
  t ← load st p; Some (st <| heap ::= <[p := f t]> |>).

(** ** Operations: timer.c *)

Definition getnow (nowP : option iperf_time) (clock : iperf_time) : iperf_time :=
  match nowP with Some now => now | None => clock end.

(** The loop of [list_add]: [t2prev] and [t2] walk the active list. *)
Fixpoint list_add_walk (fuel : nat) (t t2prev : loc) (t2 : option loc) (st : timer_state)
    : option timer_state :=
  match fuel with
  | O => None
  | S fuel =>
    match t2 with
    | None =>
        st ← store st t2prev (fun x => x <| next := Some t |>);
        st ← store st t (fun x => x <| prev := Some t2prev |>);
        store st t (fun x => x <| next := None |>)
    | Some l2 =>
        tt ← load st t; tt2 ← load st l2;
        if iperf_time_compare (at_ (body tt)) (at_ (body tt2)) <? 0 then
          st ← store st t2prev (fun x => x <| next := Some t |>);
          st ← store st t (fun x => x <| prev := Some t2prev |>);
          st ← store st t (fun x => x <| next := Some l2 |>);
          store st l2 (fun x => x <| prev := Some t |>)
        else list_add_walk fuel t l2 (next tt2) st
    end
  end.

Definition list_add (t : loc) (st : timer_state) : option timer_state :=
  match timers st with
  | None => store (st <| timers := Some t |>) t (fun x => x <| prev := None |> <| next := None |>)
  | Some h =>
      tt ← load st t; th ← load st h;
      if iperf_time_compare (at_ (body tt)) (at_ (body th)) <? 0 then
        st ← store st t (fun x => x <| prev := None |>);
        st ← store st t (fun x => x <| next := Some h |>);
        st ← store st h (fun x => x <| prev := Some t |>);
        Some (st <| timers := Some t |>)
      else list_add_walk (S (size (heap st))) t h (next th) st
  end.

Definition list_remove (t : loc) (st : timer_state) : option timer_state :=
  tt ← load st t;
  st ← (match prev tt with
        | None => Some (st <| timers := next tt |>)
        | Some p => store st p (fun x => x <| next := next tt |>)
        end);
  tt ← load st t;
  match next tt with
  | None => Some st
  | Some n => store st n (fun x => x <| prev := prev tt |>)
  end.

Definition list_resort (t : loc) (st : timer_state) : option timer_state :=
  st ← list_remove t st; list_add t st.

(** [tmr_create]: [mal] is the result of malloc, used when the free list is
    empty.  The result is the new timer, [None] when malloc failed. *)
Definition tmr_create (nowP : option iperf_time) (clock : iperf_time) (mal : option loc)
    (proc cd us per : Z) (st : timer_state) : option (option loc * timer_state) :=
  let now := getnow nowP clock in
  let body := Body proc cd us per (iperf_time_add_usecs now (u64 us)) in
  match free_timers st with
  | Some t =>
      tt ← load st t;
      let st := st <| free_timers := next tt |> in
      st ← store st t (fun x => mkTimer body (prev x) (next x));
      st ← list_add t st; Some (Some t, st)
  | None =>
      match mal with
      | None => Some (None, st)
      | Some t =>
          st ← list_add t (st <| heap ::= <[t := mkTimer body None None]> |>); Some (Some t, st)
      end
  end.

(** [tmr_timeout]: the struct timeval, [None] for the null pointer. *)
Definition tmr_timeout (nowP : option iperf_time) (clock : iperf_time) (st : timer_state)
    : option (option (Z * Z)) :=
  let now := getnow nowP clock in
  match timers st with
  | None => Some None
  | Some h =>
      th ← load st h;
      let '(past, diff) := iperf_time_diff (at_ (body th)) now in
      let us := if negb (past =? 0) then 0 else i64 (iperf_time_in_usecs diff) in
      Some (Some (Z.quot us 1000000, Z.rem us 1000000))
  end.

Definition tmr_cancel (t : loc) (st : timer_state) : option timer_state :=
  st ← list_remove t st;
  st ← store st t (fun x => x <| next := free_timers st |>);
  let st := st <| free_timers := Some t |> in
  store st t (fun x => x <| prev := None |>).

Definition tmr_reset (nowP : option iperf_time) (clock : iperf_time) (t : loc)
    (st : timer_state) : option timer_state :=
  let now := getnow nowP clock in
  st ← store st t (fun x =>
         x <| body ::= fun b => b <| at_ := iperf_time_add_usecs now (u64 (t_usecs b)) |> |>);
  list_resort t st.

(** [tmr_run] calls the timer procedures; [run_proc] stands for them: it maps
    the function pointer, its argument and [now] to a change of the timer state
    and of the rest of the program's state, [W]. *)
Section tmr_run.
Context {W : Type}.
Variable run_proc : Z -> Z -> iperf_time -> timer_state * W -> option (timer_state * W).

Fixpoint tmr_run_loop (fuel : nat) (now : iperf_time) (t : option loc) (s : timer_state * W)
    : option (timer_state * W) :=
  match fuel with
  | O => None
  | S fuel =>
    match t with
    | None => Some s
    | Some l =>
        tt ← load s.1 l;
        let nx := next tt in
        if 0 <? iperf_time_compare (at_ (body tt)) now then Some s
        else
          s ← run_proc (timer_proc (body tt)) (client_data (body tt)) now s;
          tt ← load s.1 l;
          st ← (if negb (periodic (body tt) =? 0) then
                  st ← store s.1 l (fun x => x <| body ::= fun b =>
                         b <| at_ ::= fun a => iperf_time_add_usecs a (u64 (t_usecs b)) |> |>);
                  list_resort l st
                else tmr_cancel l s.1);
          tmr_run_loop fuel now nx (st, s.2)
    end
  end.

Definition tmr_run (fuel : nat) (nowP : option iperf_time) (clock : iperf_time)
    (s : timer_state * W) : option (timer_state * W) :=
  tmr_run_loop fuel (getnow nowP clock) (timers s.1) s.
End tmr_run.

Fixpoint tmr_cleanup (fuel : nat) (st : timer_state) : option timer_state :=
  match fuel with
  | O => None
  | S fuel =>
    match free_timers st with
    | None => Some st
    | Some t =>
        tt ← load st t;
        tmr_cleanup fuel (st <| free_timers := next tt |> <| heap ::= delete t |>)
    end
  end.

Fixpoint tmr_destroy_loop (fuel : nat) (st : timer_state) : option timer_state :=
  match fuel with
  | O => None
  | S fuel =>
    match timers st with
    | None => Some st
    | Some t => st ← tmr_cancel t st; tmr_destroy_loop fuel st
    end
  end.

Definition tmr_destroy (fuel : nat) (st : timer_state) : option timer_state :=
  st ← tmr_destroy_loop fuel st; tmr_cleanup fuel st.

(** ** Abstract state *)

(** An abstract timer is a location with its fields. *)
Abbreviation atimer := (loc * timer_body)%type.
Implicit Types (ts a b : list atimer) (fs : list loc) (x : atimer).

(** The order of the active list. *)
Definition key_le (x y : atimer) : Prop := time_le (at_ x.2) (at_ y.2).
Definition key_lt (x y : atimer) : bool := iperf_time_compare (at_ x.2) (at_ y.2) <? 0.

Fixpoint insert_sorted x ts : list atimer :=
  match ts with
  | [] => [x]
  | y :: ts' => if key_lt x y then x :: y :: ts' else y :: insert_sorted x ts'
  end.
Definition remove_loc (l : loc) ts : list atimer := filter (fun x => x.1 <> l) ts.

(** Doubly linked segments: [pv] precedes the first cell, [nx] follows the
    last one. *)
Definition first_of ts (nx : option loc) : option loc :=
  match ts with [] => nx | x :: _ => Some x.1 end.
Fixpoint last_of ts (pv : option loc) : option loc :=
  match ts with [] => pv | x :: ts' => last_of ts' (Some x.1) end.
Fixpoint dseg (h : gmap loc Timer) (pv : option loc) ts (nx : option loc) : Prop :=
  match ts with
  | [] => True
  | x :: ts' => h !! x.1 = Some (mkTimer x.2 pv (first_of ts' nx)) /\ dseg h (Some x.1) ts' nx
  end.
Fixpoint sseg (h : gmap loc Timer) fs : Prop :=
  match fs with
  | [] => True
  | l :: fs' => (exists t, h !! l = Some t /\ next t = head fs') /\ sseg h fs'
  end.

Record timers_repr (st : timer_state) ts fs : Prop := {
  repr_head : timers st = first_of ts None;
  repr_active : dseg (heap st) None ts None;
  repr_sorted : StronglySorted key_le ts;
  repr_free_head : free_timers st = head fs;
  repr_free : sseg (heap st) fs;
  repr_nodup : NoDup (ts.*1 ++ fs) }.

(** ** The abstract operations *)

Lemma key_lt_le x y : key_lt x y = true -> key_le x y.
Proof. unfold key_lt, key_le, time_le. lia. Qed.
Lemma key_nlt_le x y : key_lt x y = false -> key_le y x.
Proof. unfold key_lt, key_le, time_le. rewrite (compare_antisym (at_ x.2)). lia. Qed.
#[export] Instance key_le_trans : Transitive key_le.
Proof. intros a b c. unfold key_le. apply transitivity. Qed.

Lemma insert_sorted_perm x ts : insert_sorted x ts ≡ₚ x :: ts.
Proof.
  induction ts as [|y ts IH]; [done|]. cbn. destruct (key_lt x y); [done|].
  rewrite IH. constructor.
Qed.

Lemma insert_sorted_sorted x ts :
  StronglySorted key_le ts -> StronglySorted key_le (insert_sorted x ts).
Proof.
  induction 1 as [|y ts Hs IH Hy]; cbn; [repeat constructor|].
  destruct (key_lt x y) eqn:E.
  - repeat constructor; try done; [by apply key_lt_le|].
    eapply Forall_impl; [exact Hy|]. intros z Hz. etrans; [by apply key_lt_le|done].
  - constructor; [done|]. rewrite insert_sorted_perm. constructor; [by apply key_nlt_le|done].
Qed.

(** Where the insertion happens. *)
Lemma insert_sorted_split x ts :
  exists a b, ts = a ++ b /\ insert_sorted x ts = a ++ x :: b /\
    Forall (fun y => key_lt x y = false) a /\
    match b with [] => True | y :: _ => key_lt x y = true end.
Proof.
  induction ts as [|y ts (a & b & -> & Hi & Ha & Hb)]; [by exists [], []|].
  cbn. destruct (key_lt x y) eqn:E.
  - by exists [], (y :: a ++ b).
  - exists (y :: a), b. rewrite Hi. repeat split; auto.
Qed.

Lemma remove_loc_split l d a b :
  NoDup ((a ++ (l, d) :: b).*1) -> remove_loc l (a ++ (l, d) :: b) = a ++ b.
Proof.
  rewrite fmap_app, fmap_cons. intros (Ha & Hd & Hb)%NoDup_app. apply NoDup_cons in Hb as [Hlb _].
  unfold remove_loc. rewrite filter_app, filter_cons_False by (cbn; auto).
  rewrite !filter_id; [done|..]; intros [k e] Hin <-;
    apply (list_elem_of_fmap_2 fst) in Hin; cbn in *; [by apply Hlb|].
  eapply Hd; [done|]. by left.
Qed.

Lemma StronglySorted_remove a x b :
  StronglySorted key_le (a ++ x :: b) -> StronglySorted key_le (a ++ b).
Proof.
  induction a as [|y a IH]; cbn; intros H; apply StronglySorted_inv in H as [Hs Hf]; [done|].
  constructor; [auto|]. rewrite Forall_app, Forall_cons in *. tauto.
Qed.

(** ** Segments *)

Lemma first_of_app a b nx : first_of (a ++ b) nx = first_of a (first_of b nx).
Proof. by destruct a. Qed.
Lemma last_of_app a b pv : last_of (a ++ b) pv = last_of b (last_of a pv).
Proof. revert pv; induction a as [|x a IH]; cbn; auto. Qed.
Lemma last_of_In a pv p : last_of a pv = Some p -> pv = Some p \/ p ∈ a.*1.
Proof.
  revert pv; induction a as [|x a IH]; cbn; intros pv H; [auto|].
  apply IH in H as [[=->]|H]; right; [left|by right].
Qed.
Lemma dseg_app h pv a b nx :
  dseg h pv (a ++ b) nx <-> dseg h pv a (first_of b nx) /\ dseg h (last_of a pv) b nx.
Proof.
  revert pv; induction a as [|x a IH]; intros pv; cbn; [tauto|].
  rewrite IH, first_of_app. tauto.
Qed.

Lemma dseg_frame h h' pv ts nx :
  (forall l, l ∈ ts.*1 -> h' !! l = h !! l) -> dseg h pv ts nx -> dseg h' pv ts nx.
Proof.
  revert pv; induction ts as [|x ts IH]; intros pv Hl; cbn; [done|].
  intros [Hx Hs]. rewrite Hl by (by left). split; [done|]. apply IH; [|done].
  intros l Hin; apply Hl; by right.
Qed.

Lemma sseg_frame h h' fs :
  (forall l, l ∈ fs -> h' !! l = h !! l) -> sseg h fs -> sseg h' fs.
Proof.
  induction fs as [|l fs IH]; intros Hl; cbn; [done|].
  intros [Hx Hs]. rewrite Hl by (by left). split; [done|]. apply IH; [|done].
  intros k Hin; apply Hl; by right.
Qed.

Lemma dseg_lookup h pv ts nx x :
  dseg h pv ts nx -> x ∈ ts -> exists p n, h !! x.1 = Some (mkTimer x.2 p n).
Proof.
  revert pv; induction ts as [|y ts IH]; intros pv; cbn; [by intros _ ?%not_elem_of_nil|].
  intros [Hy Hs] [->|Hx]%elem_of_cons; eauto.
Qed.

(** Writing one link. *)
Lemma dseg_alter_ne h pv ts nx l f :
  l ∉ ts.*1 -> dseg h pv ts nx -> dseg (alter f l h) pv ts nx.
Proof. intros Hl. apply dseg_frame. intros k Hk. rewrite lookup_alter_ne; [done|set_solver]. Qed.
Lemma sseg_alter_ne h fs l f : l ∉ fs -> sseg h fs -> sseg (alter f l h) fs.
Proof. intros Hl. apply sseg_frame. intros k Hk. rewrite lookup_alter_ne; [done|set_solver]. Qed.
Lemma dseg_set_prev h pv pv' x ts nx :
  x.1 ∉ ts.*1 -> dseg h pv (x :: ts) nx ->
  dseg (alter (fun c => c <| prev := pv' |>) x.1 h) pv' (x :: ts) nx.
Proof.
  intros Hx [Hc Hs]; cbn. rewrite lookup_alter_eq, Hc.
  split; [done|]. by apply dseg_alter_ne.
Qed.
Lemma dseg_set_next h pv a x nx nx' :
  x.1 ∉ a.*1 -> dseg h pv (a ++ [x]) nx ->
  dseg (alter (fun c => c <| next := nx' |>) x.1 h) pv (a ++ [x]) nx'.
Proof.
  intros Hx. rewrite !dseg_app. cbn. rewrite lookup_alter_eq. intros (Ha & -> & _).
  repeat split; auto. by apply dseg_alter_ne.
Qed.

Lemma dseg_length h pv ts nx :
  dseg h pv ts nx -> NoDup ts.*1 -> (length ts <= size h)%nat.
Proof.
  intros Hs Hnd. rewrite <-(length_fmap fst). apply size_nodup_keys; [done|].
  intros l (x & -> & Hx)%list_elem_of_fmap_1. destruct (dseg_lookup _ _ _ _ _ Hs Hx) as (p & n & ->). eauto.
Qed.

(** ** The pointer operations *)

Lemma load_Some st l : load st l = heap st !! l.
Proof. done. Qed.
Lemma store_Some st l f t :
  heap st !! l = Some t -> store st l f = Some (st <| heap ::= alter f l |>).
Proof. intros Hl. unfold store, load. rewrite Hl. cbn. by rewrite (insert_alter _ _ _ f Hl). Qed.

(** The active part of the state, and what an operation on it leaves alone. *)
Record active_repr (st : timer_state) ts : Prop := {
  act_head : timers st = first_of ts None;
  act_dseg : dseg (heap st) None ts None;
  act_nodup : NoDup ts.*1 }.
Definition keeps (L : list loc) (st st' : timer_state) : Prop :=
  free_timers st' = free_timers st /\ forall l, l ∉ L -> heap st' !! l = heap st !! l.

(** [p->next = v] and [p->prev = v], skipped when [p] is null. *)
Definition link_next (p v : option loc) (h : gmap loc Timer) : gmap loc Timer :=
  match p with Some p => alter (fun c => c <| next := v |>) p h | None => h end.
Definition link_prev (p v : option loc) (h : gmap loc Timer) : gmap loc Timer :=
  match p with Some p => alter (fun c => c <| prev := v |>) p h | None => h end.

Lemma link_next_ne p v h l : p <> Some l -> link_next p v h !! l = h !! l.
Proof. destruct p; cbn; [intros ?; rewrite lookup_alter_ne; congruence|done]. Qed.
Lemma link_prev_ne p v h l : p <> Some l -> link_prev p v h !! l = h !! l.
Proof. destruct p; cbn; [intros ?; rewrite lookup_alter_ne; congruence|done]. Qed.
Lemma last_of_not_in a l : l ∉ a.*1 -> last_of a None <> Some l.
Proof. by intros Hl [|]%last_of_In. Qed.
Lemma first_of_not_in b l : l ∉ b.*1 -> first_of b None <> Some l.
Proof. destruct b; cbn; [done|set_solver]. Qed.
#[local] Hint Resolve last_of_not_in first_of_not_in : core.

Lemma link_next_last h a nx v :
  NoDup a.*1 -> dseg h None a nx -> dseg (link_next (last_of a None) v h) None a v.
Proof.
  intros Hnd Hs. destruct a as [|p a _] using rev_ind; [done|].
  rewrite last_of_app; cbn. eapply dseg_set_next; [|done].
  rewrite fmap_app, NoDup_app in Hnd. set_solver.
Qed.
Lemma link_prev_first h b pv nx v :
  NoDup b.*1 -> dseg h pv b nx -> dseg (link_prev (first_of b None) v h) v b nx.
Proof.
  intros Hnd Hs. destruct b as [|n b]; [done|]. cbn [first_of link_prev].
  apply NoDup_cons in Hnd as [? _]. by eapply dseg_set_prev.
Qed.
Lemma link_next_dseg h p v pv b nx :
  (forall l, p = Some l -> l ∉ b.*1) -> dseg h pv b nx -> dseg (link_next p v h) pv b nx.
Proof. destruct p; cbn; [|done]. intros Hl. apply dseg_alter_ne; auto. Qed.
Lemma link_prev_dseg h p v pv b nx :
  (forall l, p = Some l -> l ∉ b.*1) -> dseg h pv b nx -> dseg (link_prev p v h) pv b nx.
Proof. destruct p; cbn; [|done]. intros Hl. apply dseg_alter_ne; auto. Qed.
Lemma last_of_disjoint a b l :
  NoDup (a.*1 ++ b.*1) -> last_of a None = Some l -> l ∉ b.*1.
Proof. intros (_ & H & _)%NoDup_app [|]%last_of_In; [done|auto]. Qed.
Lemma first_of_disjoint a b l :
  NoDup (a.*1 ++ b.*1) -> first_of b None = Some l -> l ∉ a.*1.
Proof. intros (_ & H & _)%NoDup_app Hb Ha. destruct b; simplify_eq/=. eapply H; [done|by left]. Qed.

(** Linking a cell between two adjacent segments: the stores of [list_add]. *)
Definition link_between (t : loc) (pv nx : option loc) (h : gmap loc Timer) : gmap loc Timer :=
  link_prev nx (Some t) (link_next (Some t) nx (link_prev (Some t) pv (link_next pv (Some t) h))).

Lemma link_between_spec h t d p0 n0 a b :
  h !! t = Some (mkTimer d p0 n0) -> t ∉ (a ++ b).*1 -> NoDup (a ++ b).*1 ->
  dseg h None (a ++ b) None ->
  dseg (link_between t (last_of a None) (first_of b None) h) None (a ++ (t, d) :: b) None.
Proof.
  rewrite fmap_app. intros Ht Hnt Hnd Hs.
  assert (Hta : t ∉ a.*1) by set_solver. assert (Htb : t ∉ b.*1) by set_solver.
  pose proof (NoDup_app a.*1 b.*1) as [Hnd' _]. destruct (Hnd' Hnd) as (Ha & _ & Hb).
  apply dseg_app in Hs as [Hsa Hsb]. apply dseg_app. cbn [first_of dseg fst snd].
  unfold link_between. split_and!.
  - apply link_prev_dseg; [intros l; by apply first_of_disjoint|].
    do 2 (apply dseg_alter_ne; [done|]). by eapply link_next_last.
  - rewrite link_prev_ne by auto. cbn [link_next link_prev]. rewrite !lookup_alter_eq.
    rewrite link_next_ne by auto. by rewrite Ht.
  - eapply link_prev_first; [done|]. do 2 (apply dseg_alter_ne; [done|]).
    apply link_next_dseg; [|done]. intros l; by apply last_of_disjoint.
Qed.

Lemma link_between_ne t a b h l :
  l ∉ t :: (a ++ b).*1 ->
  link_between t (last_of a None) (first_of b None) h !! l = h !! l.
Proof.
  rewrite fmap_app. intros Hl. unfold link_between.
  rewrite link_prev_ne, link_next_ne, link_prev_ne, link_next_ne;
    [done|apply last_of_not_in|..|apply first_of_not_in]; set_solver.
Qed.

(** Unlinking the cell between two segments: [list_remove]. *)
Definition unlink (pv nx : option loc) (h : gmap loc Timer) : gmap loc Timer :=
  link_prev nx pv (link_next pv nx h).

Lemma unlink_spec h x a b :
  NoDup (a ++ x :: b).*1 -> dseg h None (a ++ x :: b) None ->
  dseg (unlink (last_of a None) (first_of b None) h) None (a ++ b) None.
Proof.
  rewrite fmap_app, fmap_cons. intros Hnd Hs.
  assert (Hab : NoDup (a.*1 ++ b.*1)).
  { rewrite NoDup_app, NoDup_cons in *. set_solver. }
  pose proof (NoDup_app a.*1 b.*1) as [Hnd' _]. destruct (Hnd' Hab) as (Ha & _ & Hb).
  apply dseg_app in Hs as (Hsa & _ & Hsb). apply dseg_app. unfold unlink. split.
  - apply link_prev_dseg; [intros l; by apply first_of_disjoint|]. by eapply link_next_last.
  - eapply link_prev_first; [done|]. apply link_next_dseg; [|done]. intros l; by apply last_of_disjoint.
Qed.

Lemma unlink_ne a b h l :
  l ∉ (a ++ b).*1 -> unlink (last_of a None) (first_of b None) h !! l = h !! l.
Proof.
  rewrite fmap_app. intros Hl. unfold unlink.
  rewrite link_prev_ne, link_next_ne; [done|apply last_of_not_in|apply first_of_not_in]; set_solver.
Qed.

Lemma store_ok st l f :
  is_Some (heap st !! l) -> store st l f = Some (st <| heap ::= alter f l |>).
Proof. intros [t Ht]. by eapply store_Some. Qed.

(** [run_stores] executes the stores of a goal: cells that are present stay
    present under updates. *)
Ltac present :=
  cbn [heap modify_field timer_state_eta eta_of];
  rewrite ?lookup_alter_is_Some; eauto.
Ltac run_stores := repeat (rewrite store_ok by present; cbn [mbind option_bind]).

Lemma list_add_walk_spec fuel t d st a p b :
  (exists p0 n0, heap st !! t = Some (mkTimer d p0 n0)) ->
  last_of a None = Some p -> dseg (heap st) None (a ++ b) None ->
  (length b < fuel)%nat ->
  exists b1 b2, b = b1 ++ b2 /\ insert_sorted (t, d) b = b1 ++ (t, d) :: b2 /\
    list_add_walk fuel t p (first_of b None) st =
      Some (st <| heap ::= link_between t (last_of (a ++ b1) None) (first_of b2 None) |>).
Proof.
  revert a p fuel; induction b as [|y b IH]; intros a p [|fuel] (p0 & n0 & Ht) Hp Hs Hf;
    try (cbn in Hf; lia).
  all: assert (Hpp : is_Some (heap st !! p)).
  1,3: destruct a as [|z a _] using rev_ind; [done|]; rewrite last_of_app in Hp; simplify_eq/=;
    rewrite !dseg_app in Hs; cbn in Hs; destruct Hs as ((_ & -> & _) & _); eauto.
  - exists [], []. rewrite (app_nil_r a), Hp. split_and!; [done..|]. cbn.
    run_stores. done.
  - apply dseg_app in Hs as Hs'. destruct Hs' as (_ & Hy & Hb). cbn.
    rewrite !load_Some, Ht, Hy. cbn. unfold key_lt at 1. cbn.
    destruct (iperf_time_compare (at_ d) (at_ y.2) <? 0) eqn:E.
    + exists [], (y :: b). rewrite (app_nil_r a), Hp. split_and!; [done..|].
      run_stores. done.
    + destruct (IH (a ++ [y]) y.1 fuel) as (b1 & b2 & -> & Hi & Hw); [eauto|..].
      * by rewrite last_of_app.
      * by rewrite <-app_assoc.
      * cbn in Hf; lia.
      * exists (y :: b1), b2. rewrite Hi, Hw, <-app_assoc. by split_and!.
Qed.

Lemma list_add_spec t d p0 n0 st ts :
  active_repr st ts -> heap st !! t = Some (mkTimer d p0 n0) -> t ∉ ts.*1 ->
  exists st', list_add t st = Some st' /\
    active_repr st' (insert_sorted (t, d) ts) /\ keeps (t :: ts.*1) st st'.
Proof.
  intros [Hh Hs Hnd] Ht Hnt.
  assert (exists a b, ts = a ++ b /\ insert_sorted (t, d) ts = a ++ (t, d) :: b /\
    list_add t st = Some (st <| timers := first_of (insert_sorted (t, d) ts) None |>
      <| heap ::= link_between t (last_of a None) (first_of b None) |>))
    as (a & b & -> & Hi & Hadd).
  { unfold list_add. remember (S (size (heap st))) as fuel eqn:Hfuel. rewrite Hh. destruct ts as [|x ts]; cbn [first_of].
    - exists [], []. split_and!; [done..|]. run_stores. f_equal.
      cbn. f_equal. unfold link_between; cbn. by rewrite alter_alter.
    - cbn in Hs. destruct Hs as [Hx Hs]. rewrite !load_Some, Ht, Hx. cbn. unfold key_lt. cbn.
      destruct (iperf_time_compare (at_ d) (at_ x.2) <? 0) eqn:E.
      + exists [], (x :: ts). split_and!; [done..|]. run_stores. done.
      + destruct (list_add_walk_spec fuel t d st [x] x.1 ts)
          as (b1 & b2 & -> & Hi & Hw); [eauto|done|by split| |].
        { apply dseg_length in Hs; [lia|]. by apply NoDup_cons in Hnd as [_ ?]. }
        exists (x :: b1), b2. cbn. rewrite Hi, Hw. split_and!; [done..|]. f_equal.
        destruct st; cbn in *. by rewrite Hh. }
  eexists; split; [exact Hadd|]. split; [split|split; [done|]]; cbn.
  - done.
  - rewrite Hi. by eapply link_between_spec.
  - rewrite insert_sorted_perm. cbn. by apply NoDup_cons.
  - intros l Hl. by apply link_between_ne.
Qed.

Lemma list_remove_spec t d st a b :
  active_repr st (a ++ (t, d) :: b) ->
  exists st', list_remove t st = Some st' /\ active_repr st' (a ++ b) /\
    heap st' !! t = heap st !! t /\ keeps ((a ++ b).*1) st st'.
Proof.
  intros [Hh Hs Hnd].
  assert (Hx : heap st !! t = Some (mkTimer d (last_of a None) (first_of b None))).
  { apply dseg_app in Hs as (_ & Hx & _). done. }
  assert (Hnt : t ∉ (a ++ b).*1).
  { rewrite fmap_app, fmap_cons, NoDup_app, NoDup_cons in Hnd. rewrite fmap_app. set_solver. }
  assert (Hrem : list_remove t st = Some (st <| timers := first_of (a ++ b) None |>
      <| heap ::= unlink (last_of a None) (first_of b None) |>)).
  { unfold list_remove. rewrite load_Some, Hx. cbn. rewrite first_of_app in *.
    assert (Hn : forall n, first_of b None = Some n -> is_Some (heap st !! n)).
    { intros n Hn. apply dseg_app in Hs as (_ & _ & Hs).
      destruct b; simplify_eq/=. destruct Hs as [-> _]. eauto. }
    destruct a as [|p a _] using rev_ind; cbn.
    - rewrite load_Some; cbn. rewrite Hx; cbn. destruct (first_of b None) as [n|] eqn:Eb; [|done].
      run_stores. done.
    - rewrite last_of_app in *; cbn in *.
      assert (is_Some (heap st !! p.1)).
      { rewrite !dseg_app in Hs. cbn in Hs. destruct Hs as ((_ & -> & _) & _). eauto. }
      rewrite store_ok by done. cbn. rewrite load_Some; cbn.
      rewrite fmap_app, fmap_app in Hnt; cbn in Hnt.
      rewrite lookup_alter_ne by set_solver. rewrite Hx; cbn.
      assert (Ht0 : timers st = first_of (a ++ [p]) (first_of b None)).
      { rewrite Hh, first_of_app. by destruct a. }
      unfold unlink; cbn.
      destruct (first_of b None) as [n|] eqn:Eb; [rewrite store_ok by (present; auto)|];
        destruct st; cbn in *; by rewrite Ht0. }
  eexists; split; [exact Hrem|]. split_and!; [split|..]; cbn.
  - done.
  - by eapply (unlink_spec _ (t, d)).
  - rewrite fmap_app in *. rewrite fmap_cons, NoDup_app, NoDup_cons in Hnd.
    rewrite NoDup_app. set_solver.
  - by apply unlink_ne.
  - split; [done|]. intros l Hl; by apply unlink_ne.
Qed.

(** ** Refinement of the exported operations *)

Lemma repr_active_repr st ts fs : timers_repr st ts fs -> active_repr st ts.
Proof. intros []. split; [done..|]. by apply NoDup_app in repr_nodup0 as [? _]. Qed.

Lemma repr_disjoint st ts fs l : timers_repr st ts fs -> l ∈ ts.*1 -> l ∉ fs.
Proof. intros Hr. pose proof (repr_nodup _ _ _ Hr) as (_ & Hd & _)%NoDup_app. auto. Qed.

(** Rebuilding the representation after an operation on the active list. *)
Lemma repr_intro st ts fs :
  active_repr st ts -> StronglySorted key_le ts -> free_timers st = head fs ->
  sseg (heap st) fs -> NoDup (ts.*1 ++ fs) -> timers_repr st ts fs.
Proof. intros [] ? ? ? ?. by split. Qed.

Lemma keeps_sseg L st st' fs :
  keeps L st st' -> (forall l, l ∈ L -> l ∉ fs) -> sseg (heap st) fs -> sseg (heap st') fs.
Proof. intros [_ Hk] Hd. apply sseg_frame. intros l Hl. apply Hk. intros Hin. by eapply Hd. Qed.

Lemma elem_of_locs ts l d : (l, d) ∈ ts -> l ∈ ts.*1.
Proof. intros H. by apply (list_elem_of_fmap_2 fst) in H. Qed.
Lemma not_elem_locs h ts l nx :
  dseg h None ts nx -> h !! l = None -> l ∉ ts.*1.
Proof.
  intros Hs Hl (x & -> & Hx)%list_elem_of_fmap_1.
  destruct (dseg_lookup _ _ _ _ _ Hs Hx) as (? & ? & ?). congruence.
Qed.

(** Splitting a sorted list at one of its timers. *)
Lemma repr_split st ts fs l d :
  timers_repr st ts fs -> (l, d) ∈ ts ->
  exists a b, ts = a ++ (l, d) :: b /\ remove_loc l ts = a ++ b /\ (l ∉ (a ++ b).*1) /\ l ∉ fs.
Proof.
  intros Hr Hin. apply list_elem_of_split in Hin as (a & b & ->).
  pose proof (act_nodup _ _ (repr_active_repr _ _ _ Hr)) as Hnd. exists a, b. split_and!.
  - done.
  - by apply (remove_loc_split l d).
  - rewrite fmap_app, fmap_cons in *. rewrite NoDup_app, NoDup_cons in Hnd. set_solver.
  - eapply repr_disjoint; [exact Hr|]. rewrite fmap_app, fmap_cons. set_solver.
Qed.

(** The body that [tmr_create] and [tmr_reset] give to a timer. *)
Definition armed (now : iperf_time) (proc cd us per : Z) : timer_body :=
  Body proc cd us per (iperf_time_add_usecs now (u64 us)).
Definition rearm (now : iperf_time) (d : timer_body) : timer_body :=
  d <| at_ := iperf_time_add_usecs now (u64 (t_usecs d)) |>.

(** C38. Creating a timer arms it at [now + usecs] and inserts it in order: the
    cell comes from the free list if there is one, else from malloc; when
    malloc fails the state is untouched and the null pointer is returned. *)
Theorem tmr_create_refines (st : timer_state) ts fs now mal proc cd us per :
  timers_repr st ts fs -> (forall l, mal = Some l -> heap st !! l = None) ->
  match fs, mal with
  | f :: fs', _ => exists st', tmr_create (Some now) now mal proc cd us per st = Some (Some f, st') /\
      timers_repr st' (insert_sorted (f, armed now proc cd us per) ts) fs'
  | [], Some l => exists st', tmr_create (Some now) now mal proc cd us per st = Some (Some l, st') /\
      timers_repr st' (insert_sorted (l, armed now proc cd us per) ts) []
  | [], None => tmr_create (Some now) now mal proc cd us per st = Some (None, st)
  end.
Proof.
  intros Hr Hmal. destruct (repr_active_repr _ _ _ Hr) as [Hh Hs Hnd].
  destruct Hr as [_ _ Hsort Hfh Hf Hall]. unfold tmr_create; cbn [getnow]. rewrite Hfh.
  destruct fs as [|f fs]; cbn [head].
  - destruct mal as [l|]; [|done]. specialize (Hmal l eq_refl).
    assert (Hl : l ∉ ts.*1) by (by eapply not_elem_locs).
    edestruct (list_add_spec l (armed now proc cd us per) None None
      (st <| heap ::= <[l := mkTimer (armed now proc cd us per) None None]> |>) ts)
      as (st' & Hadd & Hact & Hk); [split; cbn; [done| |done]|by cbn; rewrite lookup_insert_eq|done|].
    { eapply dseg_frame; [|done]. intros k Hk. rewrite lookup_insert_ne; [done|set_solver]. }
    unfold armed in Hadd. rewrite Hadd. eexists; split; [done|].
    apply repr_intro;
      [done|by apply insert_sorted_sorted|by destruct Hk as [-> _]|done|].
    rewrite app_nil_r. apply Hact.
  - destruct Hf as [(t & Ht & Hn) Hf]. rewrite load_Some, Ht. cbn.
    apply NoDup_app in Hall as (_ & Hdis & Hall). apply NoDup_cons in Hall as [Hff Hall].
    assert (Hfts : f ∉ ts.*1) by set_solver.
    rewrite (store_Some _ _ _ t) by done. cbn.
    edestruct (list_add_spec f (armed now proc cd us per) (prev t) (next t)
      (st <| free_timers := next t |> <| heap ::= alter (fun c =>
         mkTimer (armed now proc cd us per) (prev c) (next c)) f |>) ts)
      as (st' & Hadd & Hact & Hk); [split; cbn; [done| |done]|by cbn; rewrite lookup_alter_eq, Ht|done|].
    { by apply dseg_alter_ne. }
    unfold armed in Hadd. cbn in Hadd. rewrite Hadd. cbn. eexists; split; [done|].
    apply repr_intro; [done|by apply insert_sorted_sorted|by destruct Hk as [-> _]|..].
    + eapply keeps_sseg; [exact Hk|set_solver|]. cbn. by apply sseg_alter_ne.
    + rewrite insert_sorted_perm. cbn. apply NoDup_cons. rewrite NoDup_app. set_solver.
Qed.

Lemma cancel_repr (st : timer_state) ts fs l d :
  timers_repr st ts fs -> (l, d) ∈ ts ->
  exists st', tmr_cancel l st = Some st' /\ timers_repr st' (remove_loc l ts) (l :: fs).
Proof.
  intros Hr Hin. destruct (repr_split _ _ _ _ _ Hr Hin) as (a & b & -> & -> & Hl & Hlf).
  pose proof (repr_active_repr _ _ _ Hr) as Hact. destruct Hr as [_ Hs Hsort Hfh Hf Hall].
  destruct (list_remove_spec l d st a b Hact) as (st1 & Hrem & [Hh1 Hs1 Hnd1] & Hl1 & Hk).
  apply dseg_app in Hs as (_ & Hlc & _). cbn in Hlc. unfold tmr_cancel. rewrite Hrem. cbn.
  assert (is_Some (heap st1 !! l)) by (rewrite Hl1, Hlc; eauto).
  run_stores. eexists; split; [done|]. apply repr_intro; cbn.
  - split; cbn; [done| |done]. do 2 (apply dseg_alter_ne; [done|]); done.
  - by eapply StronglySorted_remove.
  - done.
  - rewrite !lookup_alter_eq, Hl1, Hlc. split.
    + eexists; split; [done|]. cbn. destruct Hk as [-> _]. done.
    + do 2 (apply sseg_alter_ne; [done|]). eapply keeps_sseg; [exact Hk| |done].
      intros k Hk'. rewrite fmap_app, fmap_cons, NoDup_app in Hall. rewrite fmap_app in *. set_solver.
  - rewrite fmap_app, fmap_cons in Hall. rewrite fmap_app.
    rewrite !NoDup_app, ?NoDup_cons in *. rewrite fmap_app in Hl. set_solver.
Qed.

Lemma resort_repr (st : timer_state) ts fs g l d :
  timers_repr st ts fs -> (l, d) ∈ ts ->
  exists st', (st1 ← store st l (fun c => c <| body ::= g |>); list_resort l st1) = Some st' /\
    timers_repr st' (insert_sorted (l, g d) (remove_loc l ts)) fs.
Proof.
  intros Hr Hin. destruct (repr_split _ _ _ _ _ Hr Hin) as (a & b & -> & -> & Hl & Hlf).
  destruct (repr_active_repr _ _ _ Hr) as [Hh Hs Hnd].
  assert (Hs' : dseg (alter (fun c => c <| body ::= g |>) l (heap st)) None
                  (a ++ (l, g d) :: b) None).
  { rewrite !dseg_app in *. cbn in *. destruct Hs as (Ha & Hc & Hb).
    rewrite fmap_app in Hl. rewrite lookup_alter_eq, Hc.
    split_and!; [apply dseg_alter_ne; [set_solver|]|done|apply dseg_alter_ne; [set_solver|]]; done. }
  destruct (list_remove_spec l (g d)
    (st <| heap ::= alter (fun c => c <| body ::= g |>) l |>) a b)
    as (st1 & Hrem & Hact1 & Hl1 & Hk1).
  { split; cbn; [by rewrite Hh, !first_of_app|done|]. by rewrite fmap_app in *. }
  assert (Hc : heap st !! l = Some (mkTimer d (last_of a None) (first_of b None))).
  { apply dseg_app in Hs as (_ & Hc & _). done. }
  rewrite store_ok by (rewrite Hc; eauto). cbn [mbind option_bind]. unfold list_resort.
  rewrite Hrem. cbn in Hl1. rewrite lookup_alter_eq, Hc in Hl1. cbn in Hl1 |- *.
  destruct (list_add_spec l (g d) _ _ st1 (a ++ b) Hact1 Hl1 Hl)
    as (st' & Hadd & Hact & Hk). rewrite Hadd. eexists; split; [done|].
  destruct Hr as [_ _ Hsort Hfh Hf Hall]. apply repr_intro.
  - done.
  - apply insert_sorted_sorted. by eapply StronglySorted_remove.
  - destruct Hk as [-> _], Hk1 as [-> _]. done.
  - rewrite fmap_app, fmap_cons, NoDup_app in Hall.
    eapply keeps_sseg; [exact Hk|rewrite fmap_app; set_solver|].
    eapply keeps_sseg; [exact Hk1|rewrite fmap_app; set_solver|]. cbn. by apply sseg_alter_ne.
  - rewrite insert_sorted_perm. cbn. rewrite fmap_app, fmap_cons in *.
    apply NoDup_cons. rewrite !NoDup_app, ?NoDup_cons in *. set_solver.
Qed.

(** Cancelling an active timer removes it from the active list and puts
    its cell at the head of the free list. *)
Lemma tmr_cancel_refines (st : timer_state) ts fs l d :
  timers_repr st ts fs -> (l, d) ∈ ts ->
  exists st', tmr_cancel l st = Some st' /\ timers_repr st' (remove_loc l ts) (l :: fs).
Proof. apply cancel_repr. Qed.

(** Resetting a timer moves it to [now] plus its own period and back into
    its place in the order; every other timer is kept. *)
Lemma tmr_reset_refines (st : timer_state) ts fs now l d :
  timers_repr st ts fs -> (l, d) ∈ ts ->
  exists st', tmr_reset (Some now) now l st = Some st' /\
    timers_repr st' (insert_sorted (l, rearm now d) (remove_loc l ts)) fs.
Proof. apply (resort_repr st ts fs (rearm now)). Qed.

(** ** Timeouts *)

Definition times_ok ts : Prop := forall x, x ∈ ts -> time_ok (at_ x.2).
Definition us_left (now : iperf_time) x : Z := Z.max 0 (in_usecs (at_ x.2) - in_usecs now).

Lemma key_le_usecs x y : time_ok (at_ x.2) -> time_ok (at_ y.2) ->
  key_le x y <-> in_usecs (at_ x.2) <= in_usecs (at_ y.2).
Proof. apply time_le_usecs. Qed.

(** [tmr_timeout] returns null exactly when no timer is active; otherwise
    the normalised timeval it returns is the least time to expiry over all
    active timers, zero when one is overdue. *)
Lemma tmr_timeout_least (st : timer_state) ts fs now :
  timers_repr st ts fs -> times_ok ts -> time_ok now ->
  match ts with
  | [] => tmr_timeout (Some now) now st = Some None
  | _ => exists s u, tmr_timeout (Some now) now st = Some (Some (s, u)) /\
           0 <= u < 1000000 /\
           (exists x, x ∈ ts /\ s * 1000000 + u = us_left now x) /\
           (forall x, x ∈ ts -> s * 1000000 + u <= us_left now x)
  end.
Proof.
  intros [Hh Hs Hsort _ _ _] Hok Hnow. unfold tmr_timeout. rewrite Hh.
  destruct ts as [|x ts]; [done|]. cbn [first_of getnow].
  destruct Hs as [Hx _]. rewrite load_Some, Hx. cbn [mbind option_bind body].
  assert (Hxok : time_ok (at_ x.2)) by (apply Hok; by left).
  pose proof (diff_exact (at_ x.2) now Hxok Hnow) as Hd.
  destruct (iperf_time_diff (at_ x.2) now) as [past diff]. destruct Hd as (Hdok & Hdu & ->).
  rewrite iperf_time_in_usecs_exact by auto. rewrite Hdu.
  set (us := if negb _ then 0 else _).
  assert (Hus : us = us_left now x).
  { unfold us, us_left. destruct (Z.leb_spec (in_usecs (at_ x.2)) (in_usecs now)); cbn; [lia|].
    assert (0 <= in_usecs now) by (unfold in_usecs; destruct Hnow; zlia).
    assert (in_usecs (at_ x.2) < 2 ^ 32 * 1000000) by (unfold in_usecs; destruct Hxok; zlia).
    rewrite i64_id by zlia. lia. }
  clearbody us. assert (0 <= us) by (rewrite Hus; unfold us_left; lia).
  exists (Z.quot us 1000000), (Z.rem us 1000000).
  assert (Z.quot us 1000000 * 1000000 + Z.rem us 1000000 = us) as -> by
    (pose proof (Z.quot_rem us 1000000); lia).
  split_and!; [done|by apply Z.rem_bound_pos; lia..|exists x; split; [by left|done]|].
  intros y Hy. rewrite Hus. apply StronglySorted_inv in Hsort as [_ Hall].
  apply elem_of_cons in Hy as [->|Hy]; [done|].
  rewrite Forall_forall in Hall. specialize (Hall y Hy).
  apply key_le_usecs in Hall; [|done|apply Hok; by right]. unfold us_left. lia.
Qed.

(** ** Running the timers *)

Definition bump (d : timer_body) : timer_body :=
  d <| at_ ::= fun c => iperf_time_add_usecs c (u64 (t_usecs d)) |>.
Definition due (now : iperf_time) x : Prop := in_usecs (at_ x.2) <= in_usecs now.

(** A timer whose next period stays in the range of the clock. *)
Definition advancing (now : iperf_time) x : Prop :=
  periodic x.2 <> 0 -> 0 < t_usecs x.2 < 2 ^ 63 /\ in_usecs now + t_usecs x.2 < 2 ^ 32 * 1000000.

(** Microseconds of overdue time still to be consumed: the loop's measure. *)
Definition overdue (now : iperf_time) x : Z := Z.max 0 (in_usecs now + 1 - in_usecs (at_ x.2)).
Fixpoint backlog (now : iperf_time) ts : Z :=
  match ts with [] => 0 | x :: ts => overdue now x + backlog now ts end.

(** What [k] firings leave of a timer. *)
Definition evolved (k : nat) x ts fs : Prop :=
  match k with
  | O => x ∈ ts
  | S _ => if decide (periodic x.2 = 0) then x.1 ∈ fs else (x.1, Nat.iter k bump x.2) ∈ ts
  end.
Definition firings (l : loc) (fired : list atimer) : list atimer := filter (fun x => x.1 = l) fired.
Definition fires (l : loc) (fired : list atimer) : nat := length (firings l fired).
(** The firings of a timer, in order: each time as it was, moved on by a period
    per firing before; a one-shot timer fires once at most. *)
Definition history x (fired : list atimer) : Prop :=
  firings x.1 fired = map (fun k => (x.1, Nat.iter k bump x.2)) (seq 0 (fires x.1 fired)) /\
  (periodic x.2 = 0 -> (fires x.1 fired <= 1)%nat).

(** Callbacks that leave the timer package alone. *)
Definition neutral {W} (step : Z -> Z -> iperf_time -> W -> W)
    (run_proc : Z -> Z -> iperf_time -> timer_state * W -> option (timer_state * W)) : Prop :=
  forall p c now st w, run_proc p c now (st, w) = Some (st, step p c now w).

Lemma fires_cons l x fired :
  fires l (x :: fired) = ((if decide (x.1 = l) then 1 else 0) + fires l fired)%nat.
Proof. unfold fires, firings. rewrite filter_cons. by destruct (decide (x.1 = l)). Qed.
Lemma history_none x fired : fires x.1 fired = 0%nat -> history x fired.
Proof. intros H. unfold history. rewrite H. split; [by apply length_zero_iff_nil in H|lia]. Qed.
Lemma history_once x fired : fires x.1 fired = 0%nat -> history x (x :: fired).
Proof.
  intros H. unfold history. rewrite fires_cons, decide_True, H by done. split; [|lia]. unfold firings. rewrite filter_cons_True by done.
  apply length_zero_iff_nil in H. unfold firings in H. rewrite H. by destruct x.
Qed.
Lemma history_again l d fired : periodic d <> 0 -> history (l, bump d) fired -> history (l, d) ((l, d) :: fired).
Proof.
  intros Hp [H _]. unfold history. rewrite fires_cons, decide_True by done. cbn [fst snd] in *. split; [|done].
  unfold firings in *. rewrite filter_cons_True, H by done. cbn [Nat.add seq map Nat.iter]. f_equal. rewrite <-seq_shift, map_map.
  apply map_ext. intros k. by rewrite <-Nat.iter_succ_r.
Qed.
Lemma history_other x z fired : z.1 <> x.1 -> history x fired -> history x (z :: fired).
Proof. intros Hz. unfold history. rewrite fires_cons, decide_False by done. unfold firings. by rewrite filter_cons_False. Qed.
Lemma fires_none l fired : (forall z, z ∈ fired -> z.1 <> l) -> fires l fired = 0%nat.
Proof.
  induction fired as [|x fired IH]; intros Hl; [done|]. rewrite fires_cons, IH.
  - rewrite decide_False; [done|]. apply Hl; by left.
  - intros z Hz; apply Hl; by right.
Qed.

Lemma insert_sorted_app x a b :
  Forall (fun y => key_lt x y = false) a -> insert_sorted x (a ++ b) = a ++ insert_sorted x b.
Proof. induction 1 as [|y a Hy _ IH]; cbn; [done|]. by rewrite Hy, IH. Qed.

Lemma overdue_nonneg now x : 0 <= overdue now x.
Proof. unfold overdue; lia. Qed.
Lemma backlog_nonneg now ts : 0 <= backlog now ts.
Proof. induction ts as [|x ts IH]; cbn; [lia|]. pose proof (overdue_nonneg now x); lia. Qed.
Lemma backlog_perm now a b : a ≡ₚ b -> backlog now a = backlog now b.
Proof. induction 1; cbn; lia. Qed.

(** Bumping a due timer moves it forward by exactly its period. *)
Lemma bump_usecs now l d :
  time_ok (at_ d) -> due now (l, d) -> advancing now (l, d) -> periodic d <> 0 ->
  in_usecs (at_ (bump d)) = in_usecs (at_ d) + t_usecs d /\ 0 < t_usecs d.
Proof.
  unfold due, advancing; cbn. intros Hok Hdue Hadv Hper. destruct (Hadv Hper) as [Hu Hr].
  split; [|lia]. rewrite u64_id by zlia. apply add_usecs_exact; [done|lia|lia].
Qed.

Lemma not_due_later now x post :
  times_ok (x :: post) -> StronglySorted key_le (x :: post) -> ~ due now x ->
  forall y, y ∈ x :: post -> ~ due now y.
Proof.
  intros Hok [_ Hall]%StronglySorted_inv Hx y [->|Hy]%elem_of_cons; [done|].
  rewrite Forall_forall in Hall. specialize (Hall y Hy).
  apply key_le_usecs in Hall; [|apply Hok; by left|apply Hok; by right]. unfold due in *. lia.
Qed.

(** Where the rescheduled timer goes: nothing before it moves, and the saved
    pointer [next] still separates what the walk has passed. *)
Lemma bump_cut pre l d post :
  StronglySorted key_le (pre ++ (l, d) :: post) -> key_le (l, d) (l, bump d) ->
  exists pre' post', insert_sorted (l, bump d) (pre ++ post) = pre' ++ post' /\
    first_of post' None = first_of post None /\
    ((pre' = pre ++ [(l, bump d)] /\ post' = post) \/
     (pre' = pre /\ post' = insert_sorted (l, bump d) post)).
Proof.
  intros Hs Hle. rewrite insert_sorted_app.
  2:{ clear -Hs Hle. induction pre as [|y pre IH]; cbn in Hs; [done|].
      apply StronglySorted_inv in Hs as [Hs Hall]. constructor; [|auto].
      rewrite Forall_app, Forall_cons in Hall. destruct Hall as (_ & Hy & _).
      unfold key_lt. assert (key_le y (l, bump d)) as Hyb by (by etrans).
      unfold key_le, time_le in Hyb. rewrite (compare_antisym (at_ (l, bump d).2)). lia. }
  destruct post as [|y post].
  - exists (pre ++ [(l, bump d)]), []. split_and!; [by rewrite app_nil_r|done|by left].
  - cbn. destruct (key_lt (l, bump d) y) eqn:E.
    + exists (pre ++ [(l, bump d)]), (y :: post). rewrite <-app_assoc. split_and!; [done..|by left].
    + exists pre, (y :: insert_sorted (l, bump d) post). split_and!; [done..|by right].
Qed.

(** What the walk leaves of the timers at and after the cursor. *)
Definition walked (now : iperf_time) post fired ts' fs' : Prop :=
  Forall (due now) fired /\ (forall z, z ∈ fired -> z.1 ∈ post.*1) /\
  (forall y, y ∈ post -> evolved (fires y.1 fired) y ts' fs' /\
                        (due now y <-> (1 <= fires y.1 fired)%nat) /\ history y fired).

Lemma walked_stop now post ts fs :
  (forall y, y ∈ post -> ~ due now y) -> (forall y, y ∈ post -> y ∈ ts) -> walked now post [] ts fs.
Proof.
  intros Hd Hin. split_and!; [constructor|by intros z ?%not_elem_of_nil|].
  intros y Hy. cbn. split; [auto|]. specialize (Hd y Hy). split; [split; [done|lia]|by apply history_none].
Qed.

Lemma evolved_S k l d ts fs :
  periodic d <> 0 -> evolved k (l, bump d) ts fs -> evolved (S k) (l, d) ts fs.
Proof.
  intros Hp. unfold evolved. cbn [snd]. rewrite !decide_False by exact Hp.
  destruct k as [|k]; [intros H; exact H|]. cbn [fst]. by rewrite (Nat.iter_succ_r (S k)).
Qed.

Lemma locs_unique l d1 d2 ts : NoDup ts.*1 -> (l, d1) ∈ ts -> (l, d2) ∈ ts -> d1 = d2.
Proof.
  induction ts as [|[k d] ts IH]; cbn; [by intros _ ?%not_elem_of_nil|].
  rewrite NoDup_cons. intros [Hk Hnd] [|H1]%elem_of_cons [|H2]%elem_of_cons; simplify_eq.
  - done.
  - by apply elem_of_locs in H2.
  - by apply elem_of_locs in H1.
  - auto.
Qed.

(** One firing of a periodic timer, then the rest of the walk. *)
Lemma walked_periodic now l d pre post pre' post' fired ts' fs' :
  NoDup (pre ++ (l, d) :: post).*1 -> due now (l, d) -> periodic d <> 0 ->
  (pre' = pre ++ [(l, bump d)] /\ post' = post) \/
    (pre' = pre /\ post' = insert_sorted (l, bump d) post) ->
  (forall y, y ∈ pre' -> y ∈ ts') ->
  walked now post' fired ts' fs' -> walked now ((l, d) :: post) ((l, d) :: fired) ts' fs'.
Proof.
  rewrite fmap_app, fmap_cons, NoDup_app, NoDup_cons. cbn [fst].
  intros (_ & _ & Hl & _) Hdue Hper Hcut Hpre (Hd & Hf & Hw).
  assert (Hsub : forall y, y ∈ post -> y ∈ post').
  { destruct Hcut as [[_ ->]|[_ ->]]; [done|]. intros y Hy. rewrite insert_sorted_perm. by right. }
  split_and!.
  - by constructor.
  - intros z [->|Hz]%elem_of_cons; [by left|]. apply Hf in Hz.
    destruct Hcut as [[_ ->]|[_ ->]]; [by right|]. by rewrite insert_sorted_perm in Hz.
  - intros y [->|Hy]%elem_of_cons.
    + assert (Hev : evolved (fires l fired) (l, bump d) ts' fs' /\ history (l, bump d) fired).
      { destruct Hcut as [[-> ->]|[-> ->]].
        - assert (H0 : fires l fired = 0%nat) by (apply fires_none; intros z Hz Heq; apply Hf in Hz; by rewrite Heq in Hz).
          rewrite H0. split; [apply Hpre; set_solver|by apply history_none].
        - destruct (Hw (l, bump d)) as (He & _ & Hh); [rewrite insert_sorted_perm; by left|]. done. }
      destruct Hev as [Hev Hh]. rewrite fires_cons, decide_True by done. split_and!; [by apply evolved_S|split; [lia|done]|by apply history_again].
    + assert (Hne : (l, d).1 <> y.1) by (cbn; intros ->; apply Hl; by apply list_elem_of_fmap_2).
      destruct (Hw y (Hsub y Hy)) as (He & Hd1 & Hh). rewrite fires_cons, decide_False by done. split_and!; [done..|by apply history_other].
Qed.

Lemma walked_oneshot now l d pre post fired ts' fs' :
  NoDup (pre ++ (l, d) :: post).*1 -> due now (l, d) -> periodic d = 0 -> l ∈ fs' ->
  walked now post fired ts' fs' -> walked now ((l, d) :: post) ((l, d) :: fired) ts' fs'.
Proof.
  rewrite fmap_app, fmap_cons, NoDup_app, NoDup_cons. cbn [fst].
  intros (_ & _ & Hl & _) Hdue Hper Hlf (Hd & Hf & Hw). split_and!.
  - by constructor.
  - intros z [->|Hz]%elem_of_cons; [by left|right; auto].
  - intros y [->|Hy]%elem_of_cons.
    + assert (H0 : fires l fired = 0%nat) by (apply fires_none; intros z Hz Heq; apply Hf in Hz; by rewrite Heq in Hz).
      rewrite fires_cons, decide_True by done. split_and!; [|split; [lia|done]|by apply history_once].
      unfold evolved. cbn. by rewrite decide_True.
    + assert (Hne : (l, d).1 <> y.1) by (cbn; intros ->; apply Hl; by apply list_elem_of_fmap_2).
      destruct (Hw y Hy) as (He & Hd1 & Hh). rewrite fires_cons, decide_False by done. split_and!; [done..|by apply history_other].
Qed.

Lemma key_le_bump now l d :
  time_ok (at_ d) -> due now (l, d) -> advancing now (l, d) -> periodic d <> 0 ->
  key_le (l, d) (l, bump d).
Proof.
  intros Hok Hdue Hadv Hper. destruct (bump_usecs now l d Hok Hdue Hadv Hper) as [Hb Hp].
  apply key_le_usecs; cbn; [done|apply add_usecs_ok|]. cbn in Hb. rewrite Hb. lia.
Qed.

Lemma backlog_bump now l d post post' :
  time_ok (at_ d) -> due now (l, d) -> advancing now (l, d) -> periodic d <> 0 ->
  post' = post \/ post' = insert_sorted (l, bump d) post ->
  (Z.to_nat (backlog now post') < Z.to_nat (backlog now ((l, d) :: post)))%nat.
Proof.
  intros Hok Hdue Hadv Hper Hpost. destruct (bump_usecs now l d Hok Hdue Hadv Hper) as [Hb Hp].
  pose proof (backlog_nonneg now post) as Hn. unfold due in Hdue. cbn [backlog].
  assert (0 < overdue now (l, d)) by (unfold overdue; lia).
  destruct Hpost as [->| ->]; [lia|].
  rewrite (backlog_perm now _ _ (insert_sorted_perm _ _)). cbn [backlog].
  assert (overdue now (l, bump d) < overdue now (l, d)).
  { unfold overdue. cbn [snd] in *. rewrite Hb. lia. }
  pose proof (overdue_nonneg now (l, bump d)). lia.
Qed.

Section run_spec.
Context {W : Type} (step : Z -> Z -> iperf_time -> W -> W)
  (run_proc : Z -> Z -> iperf_time -> timer_state * W -> option (timer_state * W))
  (Hneutral : neutral step run_proc) (now : iperf_time) (Hnow : time_ok now).

Definition call (w : W) (x : atimer) : W := step (timer_proc x.2) (client_data x.2) now w.

Lemma tmr_run_loop_spec fuel : forall pre post fs st w,
  timers_repr st (pre ++ post) fs -> times_ok (pre ++ post) ->
  (forall y, y ∈ post -> advancing now y) -> (Z.to_nat (backlog now post) < fuel)%nat ->
  exists fired st' ts' fs',
    tmr_run_loop run_proc fuel now (first_of post None) (st, w) = Some (st', foldl call w fired) /\
    timers_repr st' ts' fs' /\ (forall l, l ∈ fs -> l ∈ fs') /\ (forall y, y ∈ pre -> y ∈ ts') /\
    walked now post fired ts' fs'.
Proof.
  induction fuel as [|fuel IH]; intros pre post fs st w Hr Hok Hadv Hfuel; [lia|].
  destruct post as [|[l d] post].
  { exists [], st, (pre ++ []), fs. split_and!; try done; [set_solver|].
    apply walked_stop; intros y ?%not_elem_of_nil; done. }
  cbn [tmr_run_loop first_of]. rewrite load_Some. cbn [fst].
  pose proof (repr_active _ _ _ Hr) as Hs. apply dseg_app in Hs as (_ & Hl & _).
  cbn [fst snd] in Hl. rewrite Hl. cbn [mbind option_bind body next].
  assert (Hdok : time_ok (at_ d)) by (apply (Hok (l, d)); set_solver).
  pose proof (compare_spec (at_ d) now Hdok Hnow) as (_ & _ & Hcmp).
  destruct (Z.ltb_spec 0 (iperf_time_compare (at_ d) now)) as [Hgt|Hle].
  { exists [], st, (pre ++ (l, d) :: post), fs. split_and!; try done; [set_solver|].
    apply walked_stop; [|set_solver]. apply not_due_later.
    - intros y Hy; apply Hok; set_solver.
    - pose proof (repr_sorted _ _ _ Hr) as Hsort. clear -Hsort.
      induction pre as [|y pre IHp]; [done|]. by apply StronglySorted_inv in Hsort as [? _]; auto.
    - unfold due; cbn. lia. }
  assert (Hdue : due now (l, d)) by (unfold due; cbn; lia).
  assert (Hadvl : advancing now (l, d)) by (apply Hadv; by left).
  pose proof (act_nodup _ _ (repr_active_repr _ _ _ Hr)) as Hnd.
  rewrite Hneutral. cbn [mbind option_bind]. rewrite load_Some. cbn [fst]. rewrite Hl.
  cbn [mbind option_bind body]. destruct (Z.eqb_spec (periodic d) 0) as [Hp|Hp]; cbn [negb].
  - destruct (cancel_repr st (pre ++ (l, d) :: post) fs l d Hr) as (st1 & -> & Hr1); [set_solver|].
    cbn [mbind option_bind snd]. rewrite (remove_loc_split l d) in Hr1 by done.
    destruct (IH pre post (l :: fs) st1 (call w (l, d)) Hr1)
      as (fired & st' & ts' & fs' & Hrun & Hr' & Hfs & Hpre & Hw).
    { intros y Hy; apply Hok; set_solver. }
    { intros y Hy; apply Hadv; by right. }
    { cbn [backlog] in Hfuel. pose proof (backlog_nonneg now post).
      assert (0 < overdue now (l, d)) by (unfold due, overdue in *; lia). lia. }
    exists ((l, d) :: fired), st', ts', fs'. split_and!; [exact Hrun|done|set_solver|done|].
    eapply walked_oneshot; try done. set_solver.
  - destruct (resort_repr st (pre ++ (l, d) :: post) fs bump l d Hr) as (st1 & Hst1 & Hr1);
      [set_solver|].
    unfold bump in Hst1. rewrite Hst1. cbn [mbind option_bind snd].
    rewrite (remove_loc_split l d) in Hr1 by done.
    destruct (bump_cut pre l d post (repr_sorted _ _ _ Hr)) as (pre' & post' & Heq & Hfst & Hcut);
      [by eapply key_le_bump|].
    rewrite Heq in Hr1. rewrite <-Hfst.
    assert (Hmem : forall y, y ∈ pre' ++ post' -> y = (l, bump d) \/ y ∈ pre ++ post).
    { intros y. rewrite <-Heq, insert_sorted_perm. apply elem_of_cons. }
    assert (Hpost' : forall y, y ∈ post' -> y = (l, bump d) \/ y ∈ post).
    { intros y. destruct Hcut as [[_ ->]|[_ ->]]; [by right|].
      rewrite insert_sorted_perm. apply elem_of_cons. }
    destruct (IH pre' post' fs st1 (call w (l, d)) Hr1)
      as (fired & st' & ts' & fs' & Hrun & Hr' & Hfs & Hpre & Hw).
    { intros y [->|Hy]%Hmem; [apply add_usecs_ok|]. apply Hok; set_solver. }
    { intros y [->|Hy]%Hpost'; [exact Hadvl|]. apply Hadv; by right. }
    { eapply Nat.lt_le_trans; [apply (backlog_bump now l d post)|]; try done; [|lia].
      destruct Hcut as [[_ ->]|[_ ->]]; auto. }
    exists ((l, d) :: fired), st', ts', fs'. split_and!; [exact Hrun|done|done| |].
    + intros y Hy. apply Hpre. destruct Hcut as [[-> _]|[-> _]]; set_solver.
    + by eapply walked_periodic.
Qed.
End run_spec.

Lemma bumped_same k d : timer_proc (Nat.iter k bump d) = timer_proc d /\ client_data (Nat.iter k bump d) = client_data d.
Proof. by induction k as [|k IH]. Qed.

(** C30. With callbacks that leave the timer package alone, [tmr_run] returns.
    The callbacks that run, one after the other on the program's state, are those
    of timers of the list, with their own client data: of every timer that is
    due, at least once, of a one-shot timer exactly once, and of no other timer.
    Each fired periodic timer has been moved on by exactly one period per firing
    and is active again, each fired one-shot timer is on the free list, and every
    other timer is as before. *)
Theorem tmr_run_fires_due {W} (step : Z -> Z -> iperf_time -> W -> W) run_proc now fuel st ts fs w :
  neutral step run_proc -> time_ok now -> timers_repr st ts fs -> times_ok ts ->
  (forall y, y ∈ ts -> advancing now y) -> (Z.to_nat (backlog now ts) < fuel)%nat ->
  exists fired st' ts' fs',
    tmr_run run_proc fuel (Some now) now (st, w) =
      Some (st', foldl (fun w x => step (timer_proc x.2) (client_data x.2) now w) w fired) /\
    timers_repr st' ts' fs' /\ Forall (due now) fired /\
    (forall z, z ∈ fired -> exists y k, y ∈ ts /\ due now y /\ z = (y.1, Nat.iter k bump y.2) /\
       timer_proc z.2 = timer_proc y.2 /\ client_data z.2 = client_data y.2) /\
    (forall y, y ∈ ts -> evolved (fires y.1 fired) y ts' fs' /\
                         (due now y <-> (1 <= fires y.1 fired)%nat) /\ history y fired).
Proof.
  intros Hn Hnow Hr Hok Hadv Hf.
  destruct (tmr_run_loop_spec step run_proc Hn now Hnow fuel [] ts fs st w)
    as (fired & st' & ts' & fs' & Hrun & Hr' & _ & _ & Hd & Hin & Hw); try done.
  exists fired, st', ts', fs'. split_and!; try done.
  - unfold tmr_run. cbn [getnow fst]. by rewrite (repr_head _ _ _ Hr).
  - intros z Hz. destruct (proj1 (list_elem_of_fmap _ _ _) (Hin z Hz)) as (y & Hzy & Hy). destruct (Hw y Hy) as (_ & Hdue & Hh & _).
    assert (Hzf : z ∈ firings y.1 fired) by (apply list_elem_of_filter; done).
    assert (Hdy : due now y) by (apply Hdue; unfold fires; destruct (firings y.1 fired); [by apply not_elem_of_nil in Hzf|cbn; lia]).
    rewrite Hh in Hzf. apply list_elem_of_In, in_map_iff in Hzf as (k & <- & _). exists y, k. split_and!; try done; apply bumped_same.
Qed.

(** ** Destruction *)

Lemma tmr_cleanup_spec fuel st ts fs :
  timers_repr st ts fs -> (length fs < fuel)%nat ->
  exists st', tmr_cleanup fuel st = Some st' /\ timers_repr st' ts [] /\
    forall l, l ∈ fs -> heap st' !! l = None.
Proof.
  revert st fuel; induction fs as [|l fs IH]; intros st [|fuel] Hr Hf; try (cbn in Hf; lia);
    pose proof (repr_free_head _ _ _ Hr) as Hh; cbn in Hh |- *; rewrite Hh.
  - exists st. split_and!; [done..|set_solver].
  - destruct (repr_free _ _ _ Hr) as [(t & Ht & Hn) Hs]. rewrite load_Some, Ht. cbn.
    pose proof (repr_nodup _ _ _ Hr) as Hnd. rewrite NoDup_app, NoDup_cons in Hnd.
    set (st1 := st <| free_timers := next t |> <| heap ::= delete l |>).
    assert (Hr1 : timers_repr st1 ts fs).
    { destruct Hr. split; cbn; try done.
      - eapply dseg_frame; [|done]. intros k Hk. rewrite lookup_delete_ne; [done|set_solver].
      - eapply sseg_frame; [|done]. intros k Hk. rewrite lookup_delete_ne; [done|set_solver].
      - rewrite NoDup_app. set_solver. }
    destruct (IH st1 fuel Hr1) as (st' & Hc & Hr' & Hd); [cbn in Hf; lia|].
    exists st'. split_and!; [done..|]. intros k [->|Hk]%elem_of_cons; [|auto].
    assert (Hl : heap st1 !! l = None) by (cbn; by rewrite lookup_delete_eq). clearbody st1; clear -Hl Hc.
    revert st1 Hl Hc; induction fuel as [|fuel IHf]; intros st1 Hl; cbn; [done|].
    destruct (free_timers st1) as [k|]; [|by intros [= <-]].
    destruct (load st1 k); cbn; [|done]. apply IHf. cbn. rewrite lookup_delete, Hl. by case_decide.
Qed.

Lemma tmr_destroy_loop_spec fuel st ts fs :
  timers_repr st ts fs -> (length ts < fuel)%nat ->
  exists st', tmr_destroy_loop fuel st = Some st' /\ timers_repr st' [] (rev ts.*1 ++ fs).
Proof.
  revert st fs fuel; induction ts as [|[l d] ts IH]; intros st fs [|fuel] Hr Hf;
    try (cbn in Hf; lia); cbn [tmr_destroy_loop]; rewrite (repr_head _ _ _ Hr); cbn [first_of fst].
  - by exists st.
  - destruct (cancel_repr st ((l, d) :: ts) fs l d Hr) as (st1 & -> & Hr1); [by left|].
    pose proof (remove_loc_split l d [] ts (act_nodup _ _ (repr_active_repr _ _ _ Hr))) as Hrm.
    cbn [app] in Hrm. rewrite Hrm in Hr1.
    destruct (IH st1 (l :: fs) fuel Hr1) as (st' & Hd & Hr'); [cbn in Hf; lia|].
    exists st'. split; [exact Hd|]. cbn. by rewrite <-app_assoc.
Qed.

(** [tmr_destroy] returns, leaves both lists empty and frees the cell of
    every timer, active or on the free list. *)
Lemma tmr_destroy_frees_all fuel st ts fs :
  timers_repr st ts fs -> (length ts + length fs < fuel)%nat ->
  exists st', tmr_destroy fuel st = Some st' /\ timers st' = None /\ free_timers st' = None /\
    forall l, l ∈ ts.*1 ++ fs -> heap st' !! l = None.
Proof.
  intros Hr Hf. unfold tmr_destroy.
  destruct (tmr_destroy_loop_spec fuel st ts fs Hr) as (st1 & -> & Hr1); [lia|]. cbn.
  destruct (tmr_cleanup_spec fuel st1 _ _ Hr1) as (st' & Hc & Hr' & Hfree).
  { rewrite length_app, length_rev, length_fmap. lia. }
  exists st'. split_and!; [done|by apply Hr'|by apply Hr'|].
  intros l Hl. apply Hfree. rewrite elem_of_app in *. by rewrite <-Permutation_rev.
Qed.

(** ** Witnesses *)

Definition empty_state : timer_state := TS ∅ None None.
Definition two_timers (d1 d2 : timer_body) : timer_state :=
  TS {[1%positive := mkTimer d1 None (Some 2%positive); 2%positive := mkTimer d2 (Some 1%positive) None]}
     (Some 1%positive) None.

Lemma empty_repr : timers_repr empty_state [] [].
Proof. split; cbn; try done; constructor. Qed.
Lemma two_timers_repr d1 d2 :
  time_le (at_ d1) (at_ d2) -> timers_repr (two_timers d1 d2) [(1%positive, d1); (2%positive, d2)] [].
Proof.
  intros Hle. split; try done.
  - repeat constructor; done.
  - apply (bool_decide_unpack _). reflexivity.
Qed.

Definition d_once : timer_body := Body 7 0 2500000 0 (Time 12 999990).
Definition d_per : timer_body := Body 8 0 1000000 1 (Time 13 0).
Lemma demo_repr :
  timers_repr (two_timers d_once d_per) [(1%positive, d_once); (2%positive, d_per)] [].
Proof. apply two_timers_repr. unfold time_le. cbn. lia. Qed.
Lemma demo_ok : times_ok [(1%positive, d_once); (2%positive, d_per)].
Proof.
  intros x [->|[->|H%not_elem_of_nil]%elem_of_cons]%elem_of_cons; [| |done]; split; cbn; zlia.
Qed.

Lemma tmr_create_refines_witness :
  exists st', tmr_create (Some (Time 5 0)) (Time 5 0) (Some 3%positive) 1 2 1500000 0 empty_state
                = Some (Some 3%positive, st') /\
    timers_repr st' (insert_sorted (3%positive, armed (Time 5 0) 1 2 1500000 0) []) [].
Proof.
  apply (tmr_create_refines empty_state [] [] (Time 5 0) (Some 3%positive) 1 2 1500000 0).
  - exact empty_repr.
  - intros l _. reflexivity.
Defined.

Lemma tmr_cancel_refines_witness :
  exists st', tmr_cancel 1%positive (two_timers d_once d_per) = Some st' /\
    timers_repr st' (remove_loc 1%positive [(1%positive, d_once); (2%positive, d_per)]) [1%positive].
Proof. apply (tmr_cancel_refines _ _ _ _ d_once); [exact demo_repr|by left]. Defined.

Lemma tmr_reset_refines_witness :
  exists st', tmr_reset (Some (Time 20 0)) (Time 20 0) 1%positive (two_timers d_once d_per) = Some st' /\
    timers_repr st' (insert_sorted (1%positive, rearm (Time 20 0) d_once)
      (remove_loc 1%positive [(1%positive, d_once); (2%positive, d_per)])) [].
Proof. apply (tmr_reset_refines _ _ _ _ _ d_once); [exact demo_repr|by left]. Defined.

Lemma tmr_timeout_least_witness :
  exists s u, tmr_timeout (Some (Time 10 500000)) (Time 10 500000) (two_timers d_once d_per)
                = Some (Some (s, u)) /\
    0 <= u < 1000000 /\
    (exists x, x ∈ [(1%positive, d_once); (2%positive, d_per)] /\
       s * 1000000 + u = us_left (Time 10 500000) x) /\
    (forall x, x ∈ [(1%positive, d_once); (2%positive, d_per)] ->
       s * 1000000 + u <= us_left (Time 10 500000) x).
Proof.
  apply (tmr_timeout_least _ _ _ (Time 10 500000) demo_repr demo_ok). split; cbn; zlia.
Defined.

Definition count_calls (p c : Z) (now : iperf_time) (n : nat) : nat := S n.
Lemma tmr_run_fires_due_witness :
  exists fired st' ts' fs',
    tmr_run (fun p c now s => Some (s.1, count_calls p c now s.2)) 100 (Some (Time 13 10)) (Time 13 10)
      (two_timers d_once d_per, 0%nat) =
      Some (st', foldl (fun w x => count_calls (timer_proc x.2) (client_data x.2) (Time 13 10) w) 0%nat fired) /\
    timers_repr st' ts' fs' /\ Forall (due (Time 13 10)) fired /\
    (forall z, z ∈ fired -> exists y k, y ∈ [(1%positive, d_once); (2%positive, d_per)] /\ due (Time 13 10) y /\
       z = (y.1, Nat.iter k bump y.2) /\ timer_proc z.2 = timer_proc y.2 /\ client_data z.2 = client_data y.2) /\
    (forall y, y ∈ [(1%positive, d_once); (2%positive, d_per)] ->
      evolved (fires y.1 fired) y ts' fs' /\
      (due (Time 13 10) y <-> (1 <= fires y.1 fired)%nat) /\ history y fired).
Proof.
  apply (tmr_run_fires_due count_calls _ (Time 13 10) 100
           (two_timers d_once d_per) [(1%positive, d_once); (2%positive, d_per)] []).
  - intros p c now st w. reflexivity.
  - split; cbn; zlia.
  - exact demo_repr.
  - exact demo_ok.
  - intros x [->|[->|H%not_elem_of_nil]%elem_of_cons]%elem_of_cons; [| |done];
      unfold advancing, in_usecs; cbn; lia.
  - cbn [backlog]. unfold overdue, in_usecs. cbn. lia.
Defined.

Lemma tmr_destroy_frees_all_witness :
  exists st', tmr_destroy 3 (two_timers d_once d_per) = Some st' /\ timers st' = None /\
    free_timers st' = None /\
    forall l, l ∈ [(1%positive, d_once); (2%positive, d_per)].*1 ++ [] -> heap st' !! l = None.
Proof. apply (tmr_destroy_frees_all _ _ _ _ demo_repr). cbn. lia. Defined.
