(* ===== verification/Text.v ===== *)
(** * C text functions

    The pieces of <string.h>, <ctype.h>, <stdlib.h> and <stdio.h> that the
    sources use on text: case-insensitive comparison, strtol, the number
    conversions of sscanf, and the number formats of printf.  A C string is a
    [string] (its bytes up to the terminating zero).  The lemmas give the round
    trip of decimal numbers, which the options and the JSON text rely on. *)
From Stdlib Require Import Ascii String SpecFloat.
From stdpp Require Import strings.
From S2P Require Import Prelude Double.
#[local] Open Scope string_scope.
#[local] Open Scope Z_scope.

(** ** Characters *)

Definition bit_cons (b : bool) (z : Z) : Z :=
  match z with Zpos p => Zpos (if b then xI p else xO p) | _ => if b then 1 else 0 end.
Definition code (c : ascii) : Z :=
  let '(Ascii b0 b1 b2 b3 b4 b5 b6 b7) := c in
  bit_cons b0 (bit_cons b1 (bit_cons b2 (bit_cons b3 (bit_cons b4 (bit_cons b5 (bit_cons b6 (bit_cons b7 0))))))).
Definition chr (z : Z) : ascii := ascii_of_N (Z.to_N z).

Definition in_chars (lo hi c : ascii) : bool := (code lo <=? code c) && (code c <=? code hi).
Definition isupper : ascii -> bool := in_chars "A" "Z".
Definition islower : ascii -> bool := in_chars "a" "z".
Definition isdigit : ascii -> bool := in_chars "0" "9".
Definition isspace (c : ascii) : bool :=
  (code c =? 32) || ((9 <=? code c) && (code c <=? 13)).
Definition tolower (c : ascii) : ascii := if isupper c then chr (code c + 32) else c.
Definition toupper (c : ascii) : ascii := if islower c then chr (code c - 32) else c.

Fixpoint map_string (f : ascii -> ascii) (s : string) : string :=
  match s with EmptyString => EmptyString | String c s => String (f c) (map_string f s) end.

(** [strcasecmp(a, b) == 0]. *)
Definition strcaseeq (a b : string) : bool :=
  bool_decide (map_string tolower a = map_string tolower b).

Fixpoint skip_spaces (s : string) : string :=
  match s with
  | String c s' => if isspace c then skip_spaces s' else s
  | EmptyString => EmptyString
  end.

(** The character [*s], zero at the end. *)
Definition head_char (s : string) : option ascii :=
  match s with EmptyString => None | String c _ => Some c end.

(** ** Reading integers *)

Definition digit_val (c : ascii) : option Z :=
  if isdigit c then Some (code c - 48)
  else if in_chars "a" "f" c then Some (code c - 87)
  else if in_chars "A" "F" c then Some (code c - 55) else None.

(** The longest prefix of digits of base [b]: its value and the rest. *)
Fixpoint scan_digits (b : Z) (acc : Z) (s : string) : Z * string :=
  match s with
  | String c s' =>
      match digit_val c with
      | Some d => if d <? b then scan_digits b (acc * b + d) s' else (acc, s)
      | None => (acc, s)
      end
  | EmptyString => (acc, s)
  end.

(** The number of digits of base [b] at the head of [s]. *)
Fixpoint count_digits (b : Z) (s : string) : nat :=
  match s with
  | String c s' =>
      match digit_val c with
      | Some d => if d <? b then S (count_digits b s') else O
      | None => O
      end
  | EmptyString => O
  end.

Definition scan_sign (s : string) : bool * string :=
  match s with
  | String "-" s' => (true, s')
  | String "+" s' => (false, s')
  | _ => (false, s)
  end.

Definition LONG_MAX : Z := 2 ^ 63 - 1.
Definition LONG_MIN : Z := - 2 ^ 63.

(** [strtol(s, &end, base)] for base 0 or 10: the value, clamped to [long],
    and the string at [end] ([s] itself when there are no digits). *)
Definition strtol (base : Z) (s : string) : Z * string :=
  let '(neg, s1) := scan_sign (skip_spaces s) in
  let '(b, s2) :=
    match s1 with
    | String "0" (String x s2) =>
        if (base =? 0) && strcaseeq (String x "") "x" && (0 <? count_digits 16 s2)%nat
        then (16, s2) else (if base =? 0 then 8 else base, s1)
    | _ => (if base =? 0 then (match s1 with String "0" _ => 8 | _ => 10 end) else base, s1)
    end in
  if (count_digits b s2 =? 0)%nat then (0, s)
  else
    let '(v, rest) := scan_digits b 0 s2 in
    let v := if neg then - v else v in
    (Z.max LONG_MIN (Z.min LONG_MAX v), rest).

(** [atoi]: [(int) strtol(s, NULL, 10)]. *)
Definition atoi (s : string) : Z := i32 (strtol 10 s).1.

(** ** Reading floating-point numbers *)

(** A quotient of integers, correctly rounded. *)
Definition ratio (neg : bool) (num den : positive) : double :=
  let '(mz, ez, lz) := SFdiv_core_binary dprec demax (Zpos num) 0 (Zpos den) 0 in
  binary_round_aux dprec demax neg mz ez lz.

(** The double nearest to [m * 10^e]. *)
Definition decimal (neg : bool) (m e : Z) : double :=
  match m with
  | Zpos p =>
      if 0 <=? e then binary_normalize dprec demax (if neg then - (m * 10 ^ e) else m * 10 ^ e) 0 neg
      else ratio neg p (Z.to_pos (10 ^ (- e)))
  | _ => S754_zero neg
  end.

Lemma narrow_decimal neg m e : narrow (decimal neg m e).
Proof.
  unfold decimal. destruct m as [|p|p]; [done| |done]. destruct (0 <=? e); [apply narrow_normalize|].
  unfold ratio. destruct (SFdiv_core_binary _ _ _ _ _ _) as [[mz ez] lz]. apply narrow_round.
Qed.

(** Digits with an optional fraction: the digits as one integer, the number of
    integer and of fraction digits, and the rest. *)
Definition scan_mantissa (s : string) : Z * nat * nat * string :=
  let ni := count_digits 10 s in
  let '(m, s2) := scan_digits 10 0 s in
  match s2 with
  | String "." s2' => let '(m', s3) := scan_digits 10 m s2' in (m', ni, count_digits 10 s2', s3)
  | _ => (m, ni, O, s2)
  end.

(** An exponent part [e[+-]digits]; [None] when there is no [e], [Some None]
    when no digits follow it. *)
Definition scan_exponent (s : string) : option (option (Z * string)) :=
  match s with
  | String c s4 =>
      if strcaseeq (String c "") "e" then
        let '(eneg, s5) := scan_sign s4 in
        if (count_digits 10 s5 =? 0)%nat then Some None
        else let '(e, s6) := scan_digits 10 0 s5 in Some (Some (if eneg then - e else e, s6))
      else None
  | EmptyString => None
  end.

(** The conversion [%lf] of sscanf: the value and the rest of the input, [None]
    on a matching failure.  Decimal numbers with an optional fraction and
    exponent are read; the forms inf, nan and 0x are outside the model. *)
Definition scan_lf (s : string) : option (double * string) :=
  let '(neg, s1) := scan_sign (skip_spaces s) in
  let '(m, ni, nf, s3) := scan_mantissa s1 in
  if (ni + nf =? 0)%nat then None
  else
    match scan_exponent s3 with
    | Some None => None
    | Some (Some (e, s4)) => Some (decimal neg m (e - Z.of_nat nf), s4)
    | None =>
        match s3 with
        | String c _ =>
            if strcaseeq (String c "") "x" && (m =? 0) && (ni =? 1)%nat && (nf =? 0)%nat then None
            else Some (decimal neg m (- Z.of_nat nf), s3)
        | EmptyString => Some (decimal neg m (- Z.of_nat nf), s3)
        end
    end.

(** [strtod] on the same numbers: an exponent without digits is not part of
    the number; [None] when there is no number. *)
Definition strtod (s : string) : option (double * string) :=
  let '(neg, s1) := scan_sign (skip_spaces s) in
  let '(m, ni, nf, s3) := scan_mantissa s1 in
  if (ni + nf =? 0)%nat then None
  else
    match scan_exponent s3 with
    | Some (Some (e, s4)) => Some (decimal neg m (e - Z.of_nat nf), s4)
    | _ => Some (decimal neg m (- Z.of_nat nf), s3)
    end.
Definition atof (s : string) : double :=
  match strtod s with Some (d, _) => d | None => dzero end.

Lemma narrow_scan_lf s d rest : scan_lf s = Some (d, rest) -> narrow d.
Proof.
  unfold scan_lf. destruct (scan_sign _) as [neg s1], (scan_mantissa s1) as [[[m ni] nf] s3]. intros H.
  repeat case_match; try discriminate H; injection H as <- _; apply narrow_decimal.
Qed.

(** ** Printing integers *)

Definition digit_char (d : Z) : ascii := if d <? 10 then chr (48 + d) else chr (87 + d).
Fixpoint print_go (fuel : nat) (b n : Z) (acc : string) : string :=
  match fuel with
  | O => acc
  | S fuel =>
      let acc := String (digit_char (n mod b)) acc in
      if n <? b then acc else print_go fuel b (n / b) acc
  end.
Definition print_nat (b n : Z) : string := print_go (S (Z.to_nat (Z.log2 n))) b n "".

(** [%d], [%ld], [%lld]. *)
Definition dec (z : Z) : string := if z <? 0 then String "-" (print_nat 10 (- z)) else print_nat 10 z.

Fixpoint repeat_char (c : ascii) (n : nat) : string :=
  match n with O => "" | S n => String c (repeat_char c n) end.
Definition pad_left (c : ascii) (w : nat) (s : string) : string :=
  repeat_char c (w - String.length s) ++ s.
(** [%0wx]. *)
Definition hex_pad (w : nat) (z : Z) : string := pad_left "0" w (print_nat 16 z).

(** ** Printing floating-point numbers *)

(** The integer nearest to [num / den], ties to even. *)
Definition round_div (num den : Z) : Z :=
  let q := num / den in
  match 2 * (num mod den) ?= den with
  | Lt => q
  | Gt => q + 1
  | Eq => if Z.even q then q else q + 1
  end.

(** [%w.pf]: the exact binary value rounded to [p] decimals. *)
Definition fixed (w p : nat) (d : double) : string :=
  let body (neg : bool) (m e : Z) :=
    let scale := 10 ^ Z.of_nat p in
    let n := if 0 <=? e then m * 2 ^ e * scale else round_div (m * scale) (2 ^ (- e)) in
    (if neg then "-" else "") ++ print_nat 10 (n / scale) ++
    (match p with O => "" | _ => "." ++ pad_left "0" p (print_nat 10 (n mod scale)) end) in
  pad_left " " w
    match d with
    | S754_zero neg => body neg 0 0
    | S754_finite neg m e => body neg (Zpos m) e
    | S754_infinity neg => (if neg then "-" else "") ++ "inf"
    | S754_nan => "nan"
    end.

(** [%.pg]: [p] significant digits, trailing zeros dropped, in fixed notation
    for exponents from -4 to [p - 1]. *)
Fixpoint strip_zeros (fuel : nat) (n : Z) (k : nat) : Z * nat :=
  match fuel with
  | O => (n, k)
  | S fuel => if (0 <? k)%nat && (n mod 10 =? 0) then strip_zeros fuel (n / 10) (k - 1) else (n, k)
  end.
(** The digits [n] with a decimal point before the last [k] of them. *)
Definition with_fraction (n : Z) (k : nat) : string :=
  let '(n, k) := strip_zeros k n k in
  let scale := 10 ^ Z.of_nat k in
  print_nat 10 (n / scale) ++
  match k with O => "" | _ => "." ++ pad_left "0" k (print_nat 10 (n mod scale)) end.
(** The decimal exponent of [num / den]: the number of digits before the point
    less one, or minus the zeros after it. *)
Fixpoint leading_zeros (fuel : nat) (num den : Z) : Z :=
  match fuel with
  | O => 0
  | S fuel => if num <? den then 1 + leading_zeros fuel (10 * num) den else 0
  end.
Definition exponent10 (num den : Z) : Z :=
  if den <=? num then Z.of_nat (String.length (print_nat 10 (num / den))) - 1
  else - leading_zeros 400 num den.
Definition general (p : nat) (d : double) : string :=
  match d with
  | S754_zero neg => if neg then "-0" else "0"
  | S754_finite neg m e =>
      let num := if 0 <=? e then Zpos m * 2 ^ e else Zpos m in
      let den := if 0 <=? e then 1 else 2 ^ (- e) in
      let k := exponent10 num den in
      let sh := Z.of_nat p - 1 - k in
      let n := if 0 <=? sh then round_div (num * 10 ^ sh) den else round_div num (den * 10 ^ (- sh)) in
      let '(n, k) := if n =? 10 ^ Z.of_nat p then (n / 10, k + 1) else (n, k) in
      (if neg then "-" else "") ++
      if (-4 <=? k) && (k <? Z.of_nat p) then with_fraction n (Z.to_nat (Z.of_nat p - 1 - k))
      else with_fraction n (p - 1) ++ "e" ++ (if k <? 0 then "-" else "+") ++
           pad_left "0" 2 (print_nat 10 (Z.abs k))
  | S754_infinity neg => (if neg then "-" else "") ++ "inf"
  | S754_nan => "nan"
  end.

(** [snprintf] into a buffer of [n] bytes keeps [n - 1] characters. *)
Definition truncate (n : nat) (s : string) : string := String.substring 0 (n - 1) s.

Example strtol_hex : strtol 0 " 0x1fz" = (31, "z").
Proof. reflexivity. Qed.
Example strtol_octal : strtol 0 "010" = (8, "").
Proof. reflexivity. Qed.
Example scan_lf_rate : scan_lf "1.5M" = Some (ddiv (Z2d 3) (Z2d 2), "M").
Proof. reflexivity. Qed.
Example scan_lf_tenth : scan_lf "1e-1" = Some (dlit 1 10, "").
Proof. reflexivity. Qed.
Example general_forms : (general 15 (dlit 1 10), general 6 (dlit 1 3), general 15 (decimal false 25 19),
  general 17 (dlit 1 10), general 6 (dlit 1 100000)) =
  ("0.1", "0.333333", "2.5e+20", "0.10000000000000001", "1e-05").
Proof. vm_compute. reflexivity. Qed.
Example fixed_half_even : (fixed 4 1 (dlit 1 4), fixed 4 2 (Z2d 3), hex_pad 2 7) = (" 0.2", "3.00", "07").
Proof. reflexivity. Qed.

(** ** Concatenation *)

Lemma append_cons c s t : String c s ++ t = String c (s ++ t).
Proof. done. Qed.
Lemma append_nil t : "" ++ t = t.
Proof. done. Qed.
Create Rewrite HintDb text.
#[export] Hint Rewrite append_cons append_nil : text.
Lemma append_assoc s t u : (s ++ t) ++ u = s ++ (t ++ u).
Proof. induction s as [|c s IH]; [done|]. autorewrite with text. by rewrite IH. Qed.
Lemma append_nil_r s : s ++ "" = s.
Proof. induction s as [|c s IH]; [done|]. autorewrite with text. by rewrite IH. Qed.
Lemma length_append s t : String.length (s ++ t) = (String.length s + String.length t)%nat.
Proof. induction s as [|c s IH]; [done|]. autorewrite with text. cbn. lia. Qed.

(** ** The decimal round trip *)

Definition no_digit (b : Z) (s : string) : Prop := count_digits b s = O.

Lemma scan_no_digit b acc s : no_digit b s -> scan_digits b acc s = (acc, s).
Proof.
  unfold no_digit. destruct s as [|c s]; cbn; [done|]. destruct (digit_val c) as [d|]; [|done].
  by destruct (d <? b).
Qed.

Lemma digit_val_char d : 0 <= d < 16 -> digit_val (digit_char d) = Some d.
Proof.
  intros Hd. assert (d = 0 \/ d = 1 \/ d = 2 \/ d = 3 \/ d = 4 \/ d = 5 \/ d = 6 \/ d = 7 \/
    d = 8 \/ d = 9 \/ d = 10 \/ d = 11 \/ d = 12 \/ d = 13 \/ d = 14 \/ d = 15) by lia.
  repeat match goal with H : _ \/ _ |- _ => destruct H as [H|H] end; subst; reflexivity.
Qed.

(** Printing [n] in front of [acc] and scanning it back from [a]. *)
Lemma scan_print_go fuel b n acc a :
  1 < b <= 16 -> 0 <= n -> (Z.to_nat (Z.log2 n) < fuel)%nat ->
  exists k, scan_digits b a (print_go fuel b n acc) = scan_digits b (a * b ^ k + n) acc /\ 0 < k /\
    (count_digits b (print_go fuel b n acc) = Z.to_nat k + count_digits b acc)%nat.
Proof.
  intros Hb. revert n acc a; induction fuel as [|fuel IH]; intros n acc a Hn Hf; [lia|].
  cbn [print_go].
  assert (Hmod : 0 <= n mod b < b) by (apply Z.mod_pos_bound; lia).
  assert (Hd : digit_val (digit_char (n mod b)) = Some (n mod b)) by (apply digit_val_char; lia).
  assert (Hlt : (n mod b <? b) = true) by lia.
  destruct (Z.ltb_spec n b) as [Hnb|Hnb].
  - exists 1. cbn [scan_digits count_digits]. rewrite Hd, Hlt, Z.mod_small by lia.
    split; [f_equal; lia|split; [lia|lia]].
  - assert (Hlog : Z.log2 (n / b) < Z.log2 n).
    { assert (0 < n / b) by (apply Z.div_str_pos; lia).
      assert (n / b <= n / 2) by (apply Z.div_le_compat_l; lia).
      apply Z.le_lt_trans with (Z.log2 (n / 2)); [by apply Z.log2_le_mono|].
      assert (Z.log2 n = Z.succ (Z.log2 (n / 2))); [|lia].
      assert (Hs : Z.log2 (Z.shiftr n 1) = Z.max 0 (Z.log2 n - 1)) by (apply Z.log2_shiftr; lia).
      rewrite Z.shiftr_div_pow2, Z.pow_1_r in Hs by lia. rewrite Hs.
      assert (1 <= Z.log2 n) by (apply Z.log2_le_pow2; lia). lia. }
    pose proof (Z.log2_nonneg (n / b)).
    destruct (IH (n / b) (String (digit_char (n mod b)) acc) a) as (k & Hk & Hk0 & Hc);
      [apply Z.div_pos; lia|lia|].
    exists (k + 1). rewrite Hk, Hc. cbn [scan_digits count_digits]. rewrite Hd, Hlt.
    split; [f_equal|split; lia]. rewrite Z.pow_add_r, Z.pow_1_r by lia.
    pose proof (Z.div_mod n b). lia.
Qed.

Lemma print_go_app fuel b n s t : print_go fuel b n (s ++ t) = print_go fuel b n s ++ t.
Proof.
  revert n s; induction fuel as [|fuel IH]; intros n s; [done|]. cbn.
  destruct (n <? b); [done|]. apply (IH _ (String (digit_char (n mod b)) s)).
Qed.

Lemma scan_print_nat b n t :
  1 < b <= 16 -> 0 <= n -> no_digit b t ->
  scan_digits b 0 (print_nat b n ++ t) = (n, t) /\ (count_digits b (print_nat b n ++ t) <> 0)%nat.
Proof.
  intros Hb Hn Ht. unfold print_nat. rewrite <-print_go_app. change ("" ++ t) with t.
  destruct (scan_print_go (S (Z.to_nat (Z.log2 n))) b n t 0) as (k & Hs & Hk & Hc); [done|done|lia|].
  rewrite Hs, Hc, scan_no_digit by done. split; [f_equal; lia|lia].
Qed.

(** The printed form starts with a digit. *)
Lemma print_nat_head b n : 1 < b <= 16 -> 0 <= n ->
  exists d s, print_nat b n = String (digit_char d) s /\ 0 <= d < b.
Proof.
  intros Hb Hn. unfold print_nat. generalize (Z.to_nat (Z.log2 n)) as fuel.
  assert (forall fuel n acc, (exists d s, acc = String (digit_char d) s /\ 0 <= d < b) ->
    exists d s, print_go fuel b n acc = String (digit_char d) s /\ 0 <= d < b) as Hgo.
  { induction fuel as [|fuel IH]; intros n' acc Hacc; [done|]. cbn.
    assert (0 <= n' mod b < b) by (apply Z.mod_pos_bound; lia).
    destruct (n' <? b); [eauto|]. apply IH; eauto. }
  intros fuel. cbn. assert (0 <= n mod b < b) by (apply Z.mod_pos_bound; lia).
  destruct (n <? b); [eauto|]. apply Hgo; eauto.
Qed.

(** Number syntax that would continue a printed integer. *)
Definition stops_number (t : string) : Prop :=
  match t with
  | EmptyString => True
  | String c _ => digit_val c = None /\ c <> "."%char /\ strcaseeq (String c "") "x" = false
  end.

Lemma stops_no_digit b t : stops_number t -> no_digit b t.
Proof. destruct t as [|c t]; [done|]. intros (Hc & _). unfold no_digit. cbn. by rewrite Hc. Qed.

Lemma digit_plain d : 0 <= d < 10 ->
  isspace (digit_char d) = false /\ (digit_char d <> "-"%char) /\ (digit_char d <> "+"%char).
Proof.
  intros Hd. assert (d = 0 \/ d = 1 \/ d = 2 \/ d = 3 \/ d = 4 \/ d = 5 \/ d = 6 \/ d = 7 \/
    d = 8 \/ d = 9) by lia.
  repeat match goal with H : _ \/ _ |- _ => destruct H as [H|H] end; by subst.
Qed.

Lemma scan_sign_plain c s :
  c <> "-"%char -> c <> "+"%char -> scan_sign (String c s) = (false, String c s).
Proof. unfold scan_sign. intros H1 H2. destruct c as [[] [] [] [] [] [] [] []]; done. Qed.

Lemma scan_start n t : 0 <= n ->
  scan_sign (skip_spaces (print_nat 10 n ++ t)) = (false, print_nat 10 n ++ t).
Proof.
  intros Hn. destruct (print_nat_head 10 n) as (d & s & -> & Hd); [lia..|].
  destruct (digit_plain d Hd) as (Hs & H1 & H2). cbn [append skip_spaces].
  change (String (digit_char d) s ++ t) with (String (digit_char d) (s ++ t)).
  cbn [skip_spaces]. rewrite Hs. by apply scan_sign_plain.
Qed.

Lemma decimal_integer n : 0 <= n -> decimal false n 0 = Z2d n.
Proof.
  intros Hn. destruct n as [|p|p]; [done| |lia]. unfold decimal, Z2d.
  replace (Zpos p * 10 ^ 0) with (Zpos p) by lia. done.
Qed.

Lemma scan_mantissa_nat n t :
  0 <= n -> stops_number t ->
  scan_mantissa (print_nat 10 n ++ t) = (n, count_digits 10 (print_nat 10 n ++ t), O, t).
Proof.
  intros Hn Ht. unfold scan_mantissa.
  destruct (scan_print_nat 10 n t) as [-> _]; [lia|done|by apply stops_no_digit|].
  destruct t as [|c t]; [done|]. destruct Ht as (_ & Hdot & _).
  destruct c as [[] [] [] [] [] [] [] []]; done.
Qed.
Lemma stops_no_exponent t : stops_number t -> scan_exponent t = None.
Proof.
  destruct t as [|c t]; [done|]. intros (Hd & _). cbn.
  assert (strcaseeq (String c "") "e" = false) as ->; [|done].
  apply bool_decide_eq_false. intros He.
  destruct c as [[] [] [] [] [] [] [] []]; vm_compute in Hd, He; congruence.
Qed.

(** Scanning a printed natural number as a double. *)
Lemma scan_lf_nat n t :
  0 <= n -> stops_number t -> scan_lf (print_nat 10 n ++ t) = Some (Z2d n, t).
Proof.
  intros Hn Ht. unfold scan_lf. rewrite scan_start by done.
  rewrite scan_mantissa_nat by done.
  destruct (scan_print_nat 10 n t) as [_ Hc]; [lia|done|by apply stops_no_digit|].
  set (ni := count_digits 10 (print_nat 10 n ++ t)) in *. clearbody ni.
  rewrite Nat.add_0_r. destruct (Nat.eqb_spec ni 0); [done|].
  rewrite stops_no_exponent by done. destruct t as [|c t]; [by rewrite decimal_integer|].
  destruct Ht as (_ & _ & ->). cbn [andb]. by rewrite decimal_integer.
Qed.
Lemma strtod_nat n t :
  0 <= n -> stops_number t -> strtod (print_nat 10 n ++ t) = Some (Z2d n, t).
Proof.
  intros Hn Ht. unfold strtod. rewrite scan_start by done. rewrite scan_mantissa_nat by done.
  destruct (scan_print_nat 10 n t) as [_ Hc]; [lia|done|by apply stops_no_digit|].
  rewrite Nat.add_0_r. destruct (Nat.eqb_spec (count_digits 10 (print_nat 10 n ++ t)) 0); [done|].
  rewrite stops_no_exponent by done. cbn. by rewrite decimal_integer.
Qed.

(** Scanning a printed natural number as a long. *)
Lemma strtol_nat n t :
  0 <= n < 2 ^ 63 -> no_digit 10 t -> strtol 10 (print_nat 10 n ++ t) = (n, t).
Proof.
  intros Hn Ht. unfold strtol. rewrite scan_start by lia.
  destruct (scan_print_nat 10 n t) as [Hs Hc]; [lia|lia|done|].
  set (s1 := print_nat 10 n ++ t) in *.
  assert (Hb : match s1 with
    | String "0" (String x s2) =>
        if (10 =? 0) && strcaseeq (String x "") "x" && (0 <? count_digits 16 s2)%nat
        then (16, s2) else (if 10 =? 0 then 8 else 10, s1)
    | _ => (if 10 =? 0 then (match s1 with String "0" _ => 8 | _ => 10 end) else 10, s1)
    end = (10, s1)).
  { destruct s1 as [|[[] [] [] [] [] [] [] []] [|? ?]]; done. }
  rewrite Hb. destruct (Nat.eqb_spec (count_digits 10 s1) 0); [done|].
  rewrite Hs. unfold LONG_MIN, LONG_MAX. f_equal. lia.
Qed.

(** The number of digits printed. *)
Lemma print_go_length fuel n acc k :
  0 <= n < 10 ^ Z.of_nat k -> (0 < k)%nat ->
  (String.length (print_go fuel 10 n acc) <= k + String.length acc)%nat.
Proof.
  revert n acc k; induction fuel as [|fuel IH]; intros n acc k Hn Hk; cbn [print_go]; [lia|].
  destruct (Z.ltb_spec n 10) as [|Hn10]; [cbn; lia|].
  destruct k as [|k]; [lia|]. rewrite Nat2Z.inj_succ, Z.pow_succ_r in Hn by lia.
  destruct k as [|k]; [cbn in Hn; lia|].
  etrans; [apply (IH _ _ (S k))|cbn; lia]; [|lia].
  split; [apply Z.div_pos; lia|apply Z.div_lt_upper_bound; lia].
Qed.
Lemma print_nat_length n k :
  0 <= n < 10 ^ Z.of_nat k -> (0 < k)%nat -> (String.length (print_nat 10 n) <= k)%nat.
Proof.
  intros Hn Hk. pose proof (print_go_length (S (Z.to_nat (Z.log2 n))) n "" k Hn Hk) as H.
  cbn [String.length] in H. unfold print_nat. lia.
Qed.

(** Every character printed is a decimal digit. *)
Fixpoint all_chars (f : ascii -> bool) (s : string) : bool :=
  match s with EmptyString => true | String c s => f c && all_chars f s end.
Lemma print_nat_digits n : 0 <= n -> all_chars isdigit (print_nat 10 n) = true.
Proof.
  unfold print_nat. generalize (S (Z.to_nat (Z.log2 n))) as fuel. intros fuel.
  assert (Hgo : forall n acc, 0 <= n -> all_chars isdigit acc = true ->
    all_chars isdigit (print_go fuel 10 n acc) = true); [|by intros; apply Hgo].
  induction fuel as [|fuel IH]; intros m acc Hm Hacc; cbn [print_go]; [done|].
  assert (Hd : all_chars isdigit (String (digit_char (m mod 10)) acc) = true).
  { cbn. rewrite Hacc, andb_true_r. assert (Hb : 0 <= m mod 10 < 10) by (apply Z.mod_pos_bound; lia).
    assert (Hm10 : m mod 10 = 0 \/ m mod 10 = 1 \/ m mod 10 = 2 \/ m mod 10 = 3 \/ m mod 10 = 4 \/
      m mod 10 = 5 \/ m mod 10 = 6 \/ m mod 10 = 7 \/ m mod 10 = 8 \/ m mod 10 = 9) by lia.
    repeat destruct Hm10 as [Hm10|Hm10]; by rewrite Hm10. }
  destruct (m <? 10); [done|]. apply IH; [apply Z.div_pos; lia|done].
Qed.
Lemma strtod_neg_nat n t :
  0 < n -> stops_number t -> strtod (String "-" (print_nat 10 n ++ t)) = Some (Z2d (- n), t).
Proof.
  intros Hn Ht. unfold strtod. cbn [skip_spaces isspace]. change (isspace "-") with false. cbn [scan_sign].
  rewrite scan_mantissa_nat by (done || lia).
  destruct (scan_print_nat 10 n t) as [_ Hc]; [lia|lia|by apply stops_no_digit|].
  rewrite Nat.add_0_r. destruct (Nat.eqb_spec (count_digits 10 (print_nat 10 n ++ t)) 0); [done|].
  rewrite stops_no_exponent by done. cbn [Z.of_nat Z.opp]. f_equal. f_equal.
  change (- Z.of_nat 0) with 0. destruct n as [|p|p]; [lia| |lia]. unfold decimal.
  replace (Zpos p * 10 ^ 0) with (Zpos p) by lia. done.
Qed.
