(* ===== verification/Units.v ===== *)
(** * Numbers with unit suffixes: units.c

    Reading sizes and rates (10M, 1.5G, ...) and printing amounts in a chosen
    or adaptive unit.  [None] is undefined behaviour: a number that does not
    scan leaves [n] uninitialised, and the cast of [unit_atoi] may overflow. *)
From Stdlib Require Import Ascii String.
From S2P Require Import Prelude Double Text.
#[local] Open Scope string_scope.
#[local] Open Scope Z_scope.

Definition KILO_UNIT : double := Z2d 1024.
Definition MEGA_UNIT : double := dmul (Z2d 1024) (Z2d 1024).
Definition GIGA_UNIT : double := dmul MEGA_UNIT (Z2d 1024).
Definition TERA_UNIT : double := dmul GIGA_UNIT (Z2d 1024).
Definition KILO_RATE_UNIT : double := Z2d 1000.
Definition MEGA_RATE_UNIT : double := dmul (Z2d 1000) (Z2d 1000).
Definition GIGA_RATE_UNIT : double := dmul MEGA_RATE_UNIT (Z2d 1000).
Definition TERA_RATE_UNIT : double := dmul GIGA_RATE_UNIT (Z2d 1000).

(** [sscanf(s, "%lf%c", &n, &suffix)]. *)
Definition scan_number (s : string) : option (double * option ascii) :=
  '(n, rest) ← scan_lf s; Some (n, head_char rest).

Definition unit_atof (s : string) : option double :=
  '(n, suffix) ← scan_number s;
  Some (match suffix with
        | Some "t"%char | Some "T"%char => dmul n TERA_UNIT
        | Some "g"%char | Some "G"%char => dmul n GIGA_UNIT
        | Some "m"%char | Some "M"%char => dmul n MEGA_UNIT
        | Some "k"%char | Some "K"%char => dmul n KILO_UNIT
        | _ => n
        end).

Lemma unit_atof_narrow s d : unit_atof s = Some d -> narrow d.
Proof.
  unfold unit_atof, scan_number. destruct (scan_lf s) as [[n rest]|] eqn:E; [|done]. apply narrow_scan_lf in E. cbn. intros [= <-].
  repeat case_match; first [exact E|apply narrow_dmul].
Qed.

Definition unit_atof_rate (s : string) : option double :=
  '(n, suffix) ← scan_number s;
  Some (match suffix with
        | Some "t"%char | Some "T"%char => dmul n TERA_RATE_UNIT
        | Some "g"%char | Some "G"%char => dmul n GIGA_RATE_UNIT
        | Some "m"%char | Some "M"%char => dmul n MEGA_RATE_UNIT
        | Some "k"%char | Some "K"%char => dmul n KILO_RATE_UNIT
        | _ => n
        end).

(** The result type is [iperf_size_t], an unsigned 64-bit integer. *)
Definition unit_atoi (s : string) : option Z :=
  '(n, suffix) ← scan_number s;
  d2u64 (match suffix with
         | Some "t"%char | Some "T"%char => dmul n TERA_UNIT
         | Some "g"%char | Some "G"%char => dmul n GIGA_UNIT
         | Some "m"%char | Some "M"%char => dmul n MEGA_UNIT
         | Some "k"%char | Some "K"%char => dmul n KILO_UNIT
         | _ => n
         end).

(** ** Printing *)

Definition UNIT_CONV := 0%nat.
Definition KILO_CONV := 1%nat.
Definition MEGA_CONV := 2%nat.
Definition GIGA_CONV := 3%nat.
Definition TERA_CONV := 4%nat.

(** The tables, indexed by the constants above. *)
Fixpoint inverse_power (base : Z) (n : nat) : double :=
  match n with O => Z2d 1 | S n => ddiv (inverse_power base n) (Z2d base) end.
Definition conversion_bytes : nat -> double := inverse_power 1024.
Definition conversion_bits : nat -> double := inverse_power 1000.
Definition label_byte (conv : nat) : string :=
  nth conv ["Byte"; "KByte"; "MByte"; "GByte"; "TByte"] "".
Definition label_bit (conv : nat) : string :=
  nth conv ["bit"; "Kbit"; "Mbit"; "Gbit"; "Tbit"] "".

(** The adaptive loop: [steps] is [TERA_CONV - conv]. *)
Fixpoint adaptive (base : double) (steps : nat) (tmpNum : double) (conv : nat) : nat :=
  match steps with
  | O => conv
  | S steps => if dleb base tmpNum then adaptive base steps (ddiv tmpNum base) (S conv) else conv
  end.

Definition unit_snprintf (inLen : nat) (inNum : double) (inFormat : ascii) : string :=
  let bits := negb (isupper inFormat) in
  let inNum := if bits then dmul inNum (Z2d 8) else inNum in
  let conv :=
    match toupper inFormat with
    | "B"%char => UNIT_CONV
    | "K"%char => KILO_CONV
    | "M"%char => MEGA_CONV
    | "G"%char => GIGA_CONV
    | "T"%char => TERA_CONV
    | _ => if bits then adaptive (Z2d 1000) TERA_CONV inNum UNIT_CONV
           else adaptive (Z2d 1024) TERA_CONV inNum UNIT_CONV
    end in
  let '(inNum, suffix) :=
    if bits then (dmul inNum (conversion_bits conv), label_bit conv)
    else (dmul inNum (conversion_bytes conv), label_byte conv) in
  let places :=
    if dltb inNum (dlit 9995 1000) then 2%nat
    else if dltb inNum (dlit 9995 100) then 1%nat
    else if dltb inNum (dlit 9995 10) then 0%nat else 0%nat in
  truncate inLen (fixed 4 places inNum ++ " " ++ suffix).

Example snprintf_adaptive :
  (unit_snprintf 32 (Z2d 1500000) "a", unit_snprintf 32 (Z2d 10240) "A") = ("12.0 Mbit", "10.0 KByte").
Proof. reflexivity. Qed.

(** ** Exactness *)

(** The factor of a suffix letter, for base 1024 or 1000. *)
Definition suffix_factor (base : Z) (c : ascii) : Z :=
  match toupper c with
  | "K"%char => base | "M"%char => base ^ 2 | "G"%char => base ^ 3 | "T"%char => base ^ 4 | _ => 1
  end.

Lemma units_Z2d :
  KILO_UNIT = Z2d 1024 /\ MEGA_UNIT = Z2d (1024 ^ 2) /\ GIGA_UNIT = Z2d (1024 ^ 3) /\
  TERA_UNIT = Z2d (1024 ^ 4) /\ KILO_RATE_UNIT = Z2d 1000 /\ MEGA_RATE_UNIT = Z2d (1000 ^ 2) /\
  GIGA_RATE_UNIT = Z2d (1000 ^ 3) /\ TERA_RATE_UNIT = Z2d (1000 ^ 4).
Proof. vm_compute. repeat split. Qed.

Lemma scan_number_nat n t :
  0 <= n -> stops_number t -> scan_number (print_nat 10 n ++ t) = Some (Z2d n, head_char t).
Proof. intros Hn Ht. unfold scan_number. by rewrite scan_lf_nat. Qed.

(** A suffix that the switch statements know, or none. *)
Definition unit_suffix (o : option ascii) : bool :=
  match o with None => true | Some c => negb (suffix_factor 2 c =? 1) end.
Definition suffix_text (o : option ascii) : string :=
  match o with None => "" | Some c => String c "" end.
Definition factor (base : Z) (o : option ascii) : Z :=
  match o with None => 1 | Some c => suffix_factor base c end.

Lemma unit_suffix_stops o : unit_suffix o = true -> stops_number (suffix_text o).
Proof.
  destruct o as [[[] [] [] [] [] [] [] []]|]; cbn; try done; intros _; split_and!; done.
Qed.

(** The three switch statements multiply by the factor of the suffix. *)
Lemma suffix_switch (x kilo mega giga tera : double) (o : option ascii) base :
  unit_suffix o = true ->
  kilo = Z2d base -> mega = Z2d (base ^ 2) -> giga = Z2d (base ^ 3) -> tera = Z2d (base ^ 4) ->
  (match o with
   | Some "t"%char | Some "T"%char => dmul x tera
   | Some "g"%char | Some "G"%char => dmul x giga
   | Some "m"%char | Some "M"%char => dmul x mega
   | Some "k"%char | Some "K"%char => dmul x kilo
   | _ => x
   end) = match o with None => x | Some _ => dmul x (Z2d (factor base o)) end.
Proof.
  intros Ho -> -> -> ->. destruct o as [[[] [] [] [] [] [] [] []]|]; vm_compute in Ho; done.
Qed.

Lemma factor_bounds base o : 1 <= base -> 1 <= factor base o <= base ^ 4.
Proof.
  intros Hb. assert (Hp : forall k, 0 <= k <= 4 -> 1 <= base ^ k <= base ^ 4).
  { intros k Hk. split; [|apply Z.pow_le_mono_r; lia].
    pose proof (Z.pow_pos_nonneg base k). lia. }
  pose proof (Hp 1) as H1. rewrite Z.pow_1_r in H1. pose proof (Hp 2). pose proof (Hp 3). pose proof (Hp 4).
  destruct o as [c|]; cbn [factor]; [|lia]. unfold suffix_factor.
  destruct (toupper c) as [[] [] [] [] [] [] [] []]; lia.
Qed.

Lemma scaled_exact n base o :
  0 <= n -> 1 <= base <= 1024 -> n * factor base o < 2 ^ 53 ->
  match o with None => Z2d n | Some _ => dmul (Z2d n) (Z2d (factor base o)) end
  = Z2d (n * factor base o).
Proof.
  intros Hn Hb Hlt. pose proof (factor_bounds base o) as Hf.
  assert (base ^ 4 <= 1024 ^ 4) by (apply Z.pow_le_mono_l; lia).
  destruct o as [c|]; [|cbn; f_equal; lia]. change (1024 ^ 4) with 1099511627776 in *.
  apply dmul_Z2d; zlia || nia.
Qed.

(** A number followed by a unit letter (or by nothing) is read exactly as
    long as the product stays below 2^53: [unit_atoi] and [unit_atof] multiply
    by the power of 1024 of the letter, [unit_atof_rate] by that of 1000. *)
Lemma unit_scan_exact (n : Z) (o : option ascii) :
  0 <= n -> unit_suffix o = true -> n * factor 1024 o < 2 ^ 53 ->
  unit_atoi (print_nat 10 n ++ suffix_text o) = Some (n * factor 1024 o) /\
  unit_atof (print_nat 10 n ++ suffix_text o) = Some (Z2d (n * factor 1024 o)) /\
  (n * factor 1000 o < 2 ^ 53 ->
   unit_atof_rate (print_nat 10 n ++ suffix_text o) = Some (Z2d (n * factor 1000 o))).
Proof.
  intros Hn Ho Hlt. destruct units_Z2d as (K & M & G & T & KR & MR & GR & TR).
  pose proof (factor_bounds 1024 o). unfold unit_atoi, unit_atof, unit_atof_rate.
  rewrite scan_number_nat by (try apply unit_suffix_stops; done). cbn [mbind option_bind].
  assert (head_char (suffix_text o) = o) as -> by by destruct o.
  rewrite !(suffix_switch _ _ _ _ _ o 1024 Ho K M G T).
  rewrite !(suffix_switch _ _ _ _ _ o 1000 Ho KR MR GR TR).
  rewrite scaled_exact by lia. split_and!; [|done|].
  - apply cast_Z2d; zlia.
  - intros Hr. by rewrite scaled_exact by lia.
Qed.
Lemma unit_scan_exact_witness :
  unit_atoi "128K" = Some 131072 /\ unit_atof "128K" = Some (Z2d 131072) /\
  (128 * 1000 < 2 ^ 53 -> unit_atof_rate "128K" = Some (Z2d 128000)).
Proof. apply (unit_scan_exact 128 (Some "K"%char)); [lia|reflexivity|reflexivity]. Defined.
