(* ===== verification/Dscp.v ===== *)
(** * Type-of-service names: dscp.c

    [parse_qos] reads a --dscp argument (a code-point name or a number),
    [iptos2str] prints a type-of-service byte. *)
From Stdlib Require Import Ascii String.
From S2P Require Import Prelude Text.
#[local] Open Scope string_scope.
#[local] Open Scope Z_scope.

(** The table [ipqos], without its sentinel. *)
Definition ipqos : list (string * Z) :=
  [("af11", 0x28); ("af12", 0x30); ("af13", 0x38); ("af21", 0x48); ("af22", 0x50);
   ("af23", 0x58); ("af31", 0x68); ("af32", 0x70); ("af33", 0x78); ("af41", 0x88);
   ("af42", 0x90); ("af43", 0x98); ("cs0", 0x00); ("cs1", 0x20); ("cs2", 0x40);
   ("cs3", 0x60); ("cs4", 0x80); ("cs5", 0xa0); ("cs6", 0xc0); ("cs7", 0xe0);
   ("ef", 0xb8); ("va", 0xb0); ("lowdelay", 0x10); ("throughput", 0x08);
   ("reliability", 0x04)].

Fixpoint find_name (cp : string) (table : list (string * Z)) : option Z :=
  match table with
  | [] => None
  | (name, value) :: table => if strcaseeq cp name then Some value else find_name cp table
  end.
Fixpoint find_value (v : Z) (table : list (string * Z)) : option string :=
  match table with
  | [] => None
  | (name, value) :: table => if value =? v then Some name else find_value v table
  end.

(** The argument is [None] for the null pointer. *)
Definition parse_qos (cp : option string) : Z :=
  match cp with
  | None => -1
  | Some cp =>
      match find_name cp ipqos with
      | Some value => value
      | None =>
          let '(val, ep) := strtol 0 cp in
          if bool_decide (cp = "") || negb (bool_decide (ep = "")) || (val <? 0) || (63 <? val)
          then -1 else Z.shiftl val 2
      end
  end.

Definition iptos2str (iptos : Z) : string :=
  let iptos := if (iptos <? 0) || (64 <? iptos) then 0 else iptos in
  match find_value iptos ipqos with
  | Some name => name
  | None => truncate 5 ("0x" ++ hex_pad 2 iptos)
  end.

(** ** Properties *)

Lemma find_name_In cp v table : find_name cp table = Some v -> exists name, (name, v) ∈ table.
Proof.
  induction table as [|[n w] table IH]; cbn; [done|]. destruct (strcaseeq cp n).
  - intros [= ->]. exists n. by left.
  - intros [name Hn]%IH. exists name. by right.
Qed.

Lemma ipqos_values : Forall (fun nv => nv.2 mod 4 = 0 /\ 0 <= nv.2 <= 252) ipqos.
Proof. repeat constructor; cbn; lia. Qed.

Lemma strcaseeq_refl s : strcaseeq s s = true.
Proof. by apply bool_decide_eq_true. Qed.
Lemma strcaseeq_trans a b c : strcaseeq a b = true -> strcaseeq a c = strcaseeq b c.
Proof. unfold strcaseeq. intros ->%bool_decide_eq_true. done. Qed.

Lemma find_name_case cp name table :
  strcaseeq cp name = true -> find_name cp table = find_name name table.
Proof.
  intros H. induction table as [|[n w] table IH]; cbn; [done|].
  by rewrite (strcaseeq_trans _ _ n H), IH.
Qed.

Lemma ipqos_find : Forall (fun nv => find_name nv.1 ipqos = Some nv.2) ipqos.
Proof. repeat constructor. Qed.

(** Every result of [parse_qos] is -1 or a code point shifted into the
    type-of-service byte; a name of the table, in any letter case, gives its
    value, and the decimal text of a code point gives the code point. *)
Lemma parse_qos_correct (cp : option string) :
  (parse_qos cp = -1 \/ (parse_qos cp mod 4 = 0 /\ 0 <= parse_qos cp <= 252)) /\
  (forall name v, (name, v) ∈ ipqos ->
     (exists s, cp = Some s /\ strcaseeq s name = true) -> parse_qos cp = v) /\
  (forall d, 0 <= d <= 63 -> cp = Some (print_nat 10 d) -> parse_qos cp = 4 * d).
Proof.
  pose proof ipqos_values as Hv. rewrite Forall_forall in Hv.
  pose proof ipqos_find as Hf. rewrite Forall_forall in Hf. split_and!.
  - destruct cp as [cp|]; [|by left]. unfold parse_qos. destruct (find_name cp ipqos) as [v|] eqn:E.
    + right. apply find_name_In in E as [name Hin]. apply (Hv _ Hin).
    + destruct (strtol 0 cp) as [val ep].
      destruct (bool_decide (cp = "")), (bool_decide (ep = "")); cbn; try by left.
      destruct (Z.ltb_spec val 0); [by left|]. destruct (Z.ltb_spec 63 val); [by left|]. right.
      rewrite Z.shiftl_mul_pow2 by lia. change (2 ^ 2) with 4. cbn [orb]. split; [|lia].
      by rewrite Z.mod_mul.
  - intros name v Hin (s & -> & Hs). unfold parse_qos. rewrite (find_name_case _ _ _ Hs).
    pose proof (Hf _ Hin) as Hn. cbn [fst snd] in Hn. by rewrite Hn.
  - intros d Hd ->.
    assert (Hall : Forall (fun d => parse_qos (Some (print_nat 10 d)) = 4 * d) (seqZ 0 64)).
    { apply (bool_decide_unpack _). vm_compute. exact I. }
    rewrite Forall_forall in Hall. apply Hall. apply elem_of_seqZ. lia.
Qed.

(** Printing a code point of the table and reading it back gives the
    code point when it is at most 64 and 0 ("cs0") otherwise: [iptos2str] does
    not know the larger ones that [parse_qos] produces. *)
Lemma iptos2str_roundtrip (name : string) (v : Z) :
  (name, v) ∈ ipqos ->
  parse_qos (Some (iptos2str v)) = (if v <=? 64 then v else 0) /\
  (64 < v -> iptos2str v = "cs0").
Proof.
  assert (Forall (fun nv => parse_qos (Some (iptos2str nv.2)) = (if nv.2 <=? 64 then nv.2 else 0) /\
    (64 < nv.2 -> iptos2str nv.2 = "cs0")) ipqos) as Hall.
  { repeat constructor; cbn; lia || done. }
  rewrite Forall_forall in Hall. intros Hin. apply (Hall _ Hin).
Qed.
Lemma iptos2str_roundtrip_witness :
  parse_qos (Some (iptos2str 0x68)) = (if 0x68 <=? 64 then 0x68 else 0) /\
  (64 < 0x68 -> iptos2str 0x68 = "cs0").
Proof.
  apply (iptos2str_roundtrip "af31" 0x68). do 6 right. left.
Defined.
