(* ===== verification/Cjson.v ===== *)
(** * JSON values and their text: cjson.c

    A [cJSON] item is a tree; the [string] of an object's child is kept beside
    it in the parent's list of children.  The tree functions, the printer
    ([print_value]) and the parser ([parse_value]) follow the source function
    by function on C strings; how the printer gets its memory is in Buffer.v.
    The main theorems are that the parser terminates on every input, and that it
    reads back what the printer wrote. *)
From Stdlib Require Import Ascii String SpecFloat.
From S2P Require Import Prelude Double Text.
#[local] Open Scope string_scope.
#[local] Open Scope Z_scope.

(** ** Items *)

Inductive cJSON :=
| cJSON_False | cJSON_True | cJSON_NULL
| cJSON_Number (valuedouble : double) (valueint : Z)
| cJSON_String (valuestring : string)
| cJSON_Array (child : list cJSON)
| cJSON_Object (child : list (string * cJSON))
| cJSON_Raw (valuestring : string).

Definition LLONG_MAX : Z := 2 ^ 63 - 1.
Definition LLONG_MIN : Z := - 2 ^ 63.

(** The [valueint] of a number: the double truncated, with saturation. *)
Definition saturate (number : double) : Z :=
  if dleb (Z2d LLONG_MAX) number then LLONG_MAX
  else if dleb number (Z2d LLONG_MIN) then LLONG_MIN
  else default LLONG_MIN (d2i64 number).

Definition cJSON_CreateNumber (num : double) : cJSON := cJSON_Number num (saturate num).
Definition cJSON_CreateBool (boolean : Z) : cJSON := if boolean =? 0 then cJSON_False else cJSON_True.
Definition cJSON_CreateString (s : string) : cJSON := cJSON_String s.
Definition cJSON_CreateArray : cJSON := cJSON_Array [].
Definition cJSON_CreateObject : cJSON := cJSON_Object [].

(** Appending; items that have no children are not used as containers. *)
Definition cJSON_AddItemToArray (array item : cJSON) : cJSON :=
  match array with cJSON_Array child => cJSON_Array (child ++ [item])%list | _ => array end.
Definition cJSON_AddItemToObject (object : cJSON) (name : string) (item : cJSON) : cJSON :=
  match object with cJSON_Object child => cJSON_Object (child ++ [(name, item)])%list | _ => object end.
Definition cJSON_AddNumberToObject (object : cJSON) (name : string) (number : double) : cJSON :=
  cJSON_AddItemToObject object name (cJSON_CreateNumber number).
Definition cJSON_AddStringToObject (object : cJSON) (name s : string) : cJSON :=
  cJSON_AddItemToObject object name (cJSON_CreateString s).
Definition cJSON_AddTrueToObject (object : cJSON) (name : string) : cJSON :=
  cJSON_AddItemToObject object name cJSON_True.

Definition cJSON_GetArraySize (array : cJSON) : Z :=
  match array with
  | cJSON_Array child => Z.of_nat (length child)
  | cJSON_Object child => Z.of_nat (length child)
  | _ => 0
  end.
Definition cJSON_GetArrayItem (array : cJSON) (index : Z) : option cJSON :=
  if index <? 0 then None
  else match array with
       | cJSON_Array child => child !! Z.to_nat index
       | cJSON_Object child => child.*2 !! Z.to_nat index
       | _ => None
       end.

(** The first child whose name agrees, case-insensitively.  The children of an
    array have no name. *)
Fixpoint find_item (child : list (string * cJSON)) (name : string) : option cJSON :=
  match child with
  | [] => None
  | (s, j) :: child => if strcaseeq name s then Some j else find_item child name
  end.
Definition cJSON_GetObjectItem (object : cJSON) (name : string) : option cJSON :=
  match object with cJSON_Object child => find_item child name | _ => None end.

Fixpoint detach (child : list (string * cJSON)) (name : string) : option (cJSON * list (string * cJSON)) :=
  match child with
  | [] => None
  | (s, j) :: child =>
      if strcaseeq name s then Some (j, child)
      else '(x, rest) ← detach child name; Some (x, (s, j) :: rest)
  end.
(** The detached item and the object without it. *)
Definition cJSON_DetachItemFromObject (object : cJSON) (name : string) : option (cJSON * cJSON) :=
  match object with
  | cJSON_Object child => '(x, rest) ← detach child name; Some (x, cJSON_Object rest)
  | _ => None
  end.

Definition valuedouble (j : cJSON) : double :=
  match j with cJSON_Number d _ => d | _ => dzero end.
Definition valueint (j : cJSON) : Z :=
  match j with cJSON_Number _ n => n | _ => 0 end.
Definition valuestring (j : cJSON) : string :=
  match j with cJSON_String s => s | cJSON_Raw s => s | _ => "" end.

(** ** Printing *)

Definition dabs : double -> double := SFabs.
Definition DBL_EPSILON : double := dlit 1 (2 ^ 52).
Definition compare_double (a b : double) : bool :=
  let maxVal := if dltb (dabs b) (dabs a) then dabs a else dabs b in
  dleb (dabs (dsub a b)) (dmul maxVal DBL_EPSILON).

(** The text of a number; [None] when it does not fit the 26-byte buffer. *)
Definition print_number (d : double) (vi : Z) : option string :=
  let number_buffer :=
    match d with
    | S754_nan | S754_infinity _ => "null"
    | _ =>
        if deqb d (Z2d vi) then dec vi
        else
          let short := general 15 d in
          match scan_lf short with
          | Some (test, _) => if compare_double test d then short else general 17 d
          | None => general 17 d
          end
    end in
  if (25 <? String.length number_buffer)%nat then None else Some number_buffer.

Definition dquote : ascii := chr 34.
Definition backslash : ascii := chr 92.

(** One character of a string literal. *)
Definition escape (c : ascii) : string :=
  let n := code c in
  if (31 <? n) && negb (n =? 34) && negb (n =? 92) then String c ""
  else String backslash
    (if n =? 92 then String backslash ""
     else if n =? 34 then String dquote ""
     else if n =? 8 then "b" else if n =? 12 then "f" else if n =? 10 then "n"
     else if n =? 13 then "r" else if n =? 9 then "t"
     else "u" ++ hex_pad 4 n).
Fixpoint escape_all (s : string) : string :=
  match s with EmptyString => "" | String c s => escape c ++ escape_all s end.
Definition print_string_ptr (s : string) : string :=
  String dquote (escape_all s ++ String dquote "").

Definition tabs (n : nat) : string := repeat_char (chr 9) n.
Definition newline : string := String (chr 10) "".

(** The loops of [print_array] and [print_object] over the printer of the
    elements: [format] selects the indented layout. *)
Definition print_array (format : bool) (print : cJSON -> option string)
    : list cJSON -> option string :=
  fix go child :=
    match child with
    | [] => Some ""
    | x :: rest =>
        s ← print x;
        more ← go rest;
        Some (s ++ (match rest with [] => "" | _ => if format then ", " else "," end) ++ more)
    end.
Definition print_object (format : bool) (depth : nat) (print : cJSON -> option string)
    : list (string * cJSON) -> option string :=
  fix go child :=
    match child with
    | [] => Some ""
    | (k, x) :: rest =>
        s ← print x;
        more ← go rest;
        Some ((if format then tabs depth else "") ++ print_string_ptr k ++
              (if format then ":" ++ tabs 1 else ":") ++ s ++
              (match rest with [] => "" | _ => "," end) ++
              (if format then newline else "") ++ more)
    end.

(** [depth] is the current nesting depth. *)
Fixpoint print_value (format : bool) (depth : nat) (item : cJSON) : option string :=
  match item with
  | cJSON_NULL => Some "null"
  | cJSON_False => Some "false"
  | cJSON_True => Some "true"
  | cJSON_Number d vi => print_number d vi
  | cJSON_Raw s => Some s
  | cJSON_String s => Some (print_string_ptr s)
  | cJSON_Array child =>
      body ← print_array format (print_value format (S depth)) child;
      Some ("[" ++ body ++ "]")
  | cJSON_Object child =>
      body ← print_object format (S depth) (print_value format (S depth)) child;
      Some ("{" ++ (if format then newline else "") ++ body ++
            (if format then tabs depth else "") ++ "}")
  end.

Definition cJSON_Print (item : cJSON) : option string := print_value true 0 item.
Definition cJSON_PrintUnformatted (item : cJSON) : option string := print_value false 0 item.

(** ** Parsing *)

Inductive presult (A : Type) := Done (a : A) (rest : string) | ParseError | OutOfFuel.
Arguments Done {A}. Arguments ParseError {A}. Arguments OutOfFuel {A}.

Definition pbind {A B} (r : presult A) (k : A -> string -> presult B) : presult B :=
  match r with Done a s => k a s | ParseError => ParseError | OutOfFuel => OutOfFuel end.

(** [buffer_skip_whitespace]: characters up to 32. *)
Fixpoint skip_whitespace (s : string) : string :=
  match s with
  | String c s' => if code c <=? 32 then skip_whitespace s' else s
  | EmptyString => EmptyString
  end.

(** The first [n] characters that can belong to a number, and the rest. *)
Definition number_char (c : ascii) : bool :=
  isdigit c || (code c =? 43) || (code c =? 45) || (code c =? 101) || (code c =? 69) || (code c =? 46).
Fixpoint take_number (n : nat) (s : string) : string * string :=
  match n, s with
  | S n, String c s' =>
      if number_char c then let '(a, b) := take_number n s' in (String c a, b) else ("", s)
  | _, _ => ("", s)
  end.

Definition parse_number (s : string) : presult cJSON :=
  let '(number_c_string, rest) := take_number 63 s in
  match strtod number_c_string with
  | Some (number, after_end) => Done (cJSON_Number number (saturate number)) (after_end ++ rest)
  | None => ParseError
  end.

(** Four hexadecimal digits, 0 when one is invalid. *)
Fixpoint parse_hex (n : nat) (h : Z) (s : string) : option Z :=
  match n, s with
  | O, _ => Some h
  | S n, String c s => d ← digit_val c; parse_hex n (16 * h + d) s
  | S _, EmptyString => None
  end.
Definition parse_hex4 (s : string) : Z := default 0 (parse_hex 4 0 s).

Fixpoint drop_string (n : nat) (s : string) : string :=
  match n, s with S n, String _ s => drop_string n s | _, _ => s end.

(** The UTF-8 encoding of a code point. *)
Definition utf8_encode (cp : Z) : string :=
  let mark m := chr (Z.land (Z.lor cp m) 0xFF) in
  let cont k := chr (Z.land (Z.lor (Z.shiftr cp (6 * k)) 0x80) 0xBF) in
  let lead k m := chr (Z.land (Z.lor (Z.shiftr cp (6 * k)) m) 0xFF) in
  if cp <? 0x80 then String (chr (Z.land cp 0x7F)) ""
  else if cp <? 0x800 then String (lead 1 0xC0) (String (cont 0) "")
  else if cp <? 0x10000 then String (lead 2 0xE0) (String (cont 1) (String (cont 0) ""))
  else String (lead 3 0xF0) (String (cont 2) (String (cont 1) (String (cont 0) ""))).

(** [utf16_literal_to_utf8]: [n] characters of [s] (which starts at the
    backslash) are before the closing quote.  The result is the output and the
    length of the sequence. *)
Definition utf16_literal_to_utf8 (n : nat) (s : string) : option (string * nat) :=
  if (n <? 6)%nat then None
  else
    let first_code := parse_hex4 (drop_string 2 s) in
    if (0xDC00 <=? first_code) && (first_code <=? 0xDFFF) then None
    else if (0xD800 <=? first_code) && (first_code <=? 0xDBFF) then
      let second := drop_string 6 s in
      if (n - 6 <? 6)%nat then None
      else match second with
           | String b (String u _) =>
               if negb ((code b =? 92) && (code u =? 117)) then None
               else
                 let second_code := parse_hex4 (drop_string 2 second) in
                 if (second_code <? 0xDC00) || (0xDFFF <? second_code) then None
                 else Some (utf8_encode (0x10000 + Z.lor (Z.shiftl (Z.land first_code 0x3FF) 10)
                                                         (Z.land second_code 0x3FF)), 12%nat)
           | _ => None
           end
    else Some (utf8_encode first_code, 6%nat).

(** The distance to the closing quote. *)
Fixpoint find_quote (s : string) : option nat :=
  match s with
  | EmptyString => None
  | String c s' =>
      if code c =? 34 then Some O
      else if code c =? 92 then
        match s' with
        | EmptyString => None
        | String _ s'' => n ← find_quote s''; Some (S (S n))
        end
      else n ← find_quote s'; Some (S n)
  end.

(** The loop of [parse_string]: [n] characters remain before the quote, and
    [fuel] bounds the number of rounds. *)
Fixpoint unescape (fuel n : nat) (s : string) : option string :=
  match fuel with
  | O => Some ""
  | S fuel =>
    match n, s with
    | S n', String c s' =>
        if negb (code c =? 92) then out ← unescape fuel n' s'; Some (String c out)
        else
          match s' with
          | EmptyString => None
          | String e s'' =>
              let simple o := out ← unescape fuel (n - 2) s''; Some (String o out) in
              let k := code e in
              if k =? 98 then simple (chr 8) else if k =? 102 then simple (chr 12)
              else if k =? 110 then simple (chr 10) else if k =? 114 then simple (chr 13)
              else if k =? 116 then simple (chr 9)
              else if (k =? 34) || (k =? 92) || (k =? 47) then simple e
              else if k =? 117 then
                '(enc, len) ← utf16_literal_to_utf8 n s;
                out ← unescape fuel (n - len) (drop_string len s); Some (enc ++ out)
              else None
          end
    | _, _ => Some ""
    end
  end.

(** A C string ends at its first zero byte. *)
Fixpoint c_string (s : string) : string :=
  match s with
  | String c s => if code c =? 0 then "" else String c (c_string s)
  | EmptyString => ""
  end.

Definition parse_string (s : string) : presult string :=
  match s with
  | String q s' =>
      if negb (code q =? 34) then ParseError
      else match find_quote s' with
           | None => ParseError
           | Some n =>
               match unescape n n s' with
               | Some out => Done (c_string out) (drop_string (S n) s')
               | None => ParseError
               end
           end
  | EmptyString => ParseError
  end.

Definition CJSON_NESTING_LIMIT : nat := 1000.
Fixpoint starts (p s : string) : bool :=
  match p, s with
  | EmptyString, _ => true
  | String a p, String b s => Ascii.eqb a b && starts p s
  | String _ _, EmptyString => false
  end.

(** The three mutually recursive parsers; [parse_elements] and
    [parse_members] are the loops of [parse_array] and [parse_object], from
    the character after the bracket or comma. *)
Fixpoint parse_value (fuel depth : nat) (s : string) : presult cJSON :=
  match fuel with
  | O => OutOfFuel
  | S fuel =>
    if starts "null" s then Done cJSON_NULL (drop_string 4 s)
    else if starts "false" s then Done cJSON_False (drop_string 5 s)
    else if starts "true" s then Done cJSON_True (drop_string 4 s)
    else
      match s with
      | EmptyString => ParseError
      | String c s' =>
          if code c =? 34 then pbind (parse_string s) (fun v r => Done (cJSON_String v) r)
          else if (code c =? 45) || isdigit c then parse_number s
          else if code c =? 91 then
            if (CJSON_NESTING_LIMIT <=? depth)%nat then ParseError
            else match skip_whitespace s' with
                 | String "]" r => Done (cJSON_Array []) r
                 | s1 => pbind (parse_elements fuel (S depth) s1) (fun l r => Done (cJSON_Array l) r)
                 end
          else if code c =? 123 then
            if (CJSON_NESTING_LIMIT <=? depth)%nat then ParseError
            else match skip_whitespace s' with
                 | String "}" r => Done (cJSON_Object []) r
                 | s1 => pbind (parse_members fuel (S depth) s1) (fun l r => Done (cJSON_Object l) r)
                 end
          else ParseError
      end
  end
with parse_elements (fuel depth : nat) (s : string) : presult (list cJSON) :=
  match fuel with
  | O => OutOfFuel
  | S fuel =>
    pbind (parse_value fuel depth (skip_whitespace s)) (fun v r =>
    match skip_whitespace r with
    | String "," r' => pbind (parse_elements fuel depth r') (fun vs r'' => Done (v :: vs) r'')
    | String "]" r' => Done [v] r'
    | _ => ParseError
    end)
  end
with parse_members (fuel depth : nat) (s : string) : presult (list (string * cJSON)) :=
  match fuel with
  | O => OutOfFuel
  | S fuel =>
    pbind (parse_string (skip_whitespace s)) (fun k r =>
    match skip_whitespace r with
    | String ":" r1 =>
        pbind (parse_value fuel depth (skip_whitespace r1)) (fun v r2 =>
        match skip_whitespace r2 with
        | String "," r' => pbind (parse_members fuel depth r') (fun vs r'' => Done ((k, v) :: vs) r'')
        | String "}" r' => Done [(k, v)] r'
        | _ => ParseError
        end)
    | _ => ParseError
    end)
  end.

(** [skip_utf8_bom]. *)
Definition skip_utf8_bom (s : string) : string :=
  if (4 <=? String.length s)%nat && starts (String (chr 0xEF) (String (chr 0xBB) (String (chr 0xBF) ""))) s
  then drop_string 3 s else s.

(** [cJSON_Parse]; the fuel is enough by [parse_total]. *)
Definition cJSON_Parse (s : string) : option cJSON :=
  let s' := skip_whitespace (skip_utf8_bom s) in
  match parse_value (S (2 * String.length s')) 0 s' with Done j _ => Some j | _ => None end.

(** ** Termination of the parser *)

Lemma drop_string_length n s : (String.length (drop_string n s) <= String.length s)%nat.
Proof. revert s; induction n as [|n IH]; intros [|c s]; cbn; [lia..|]. specialize (IH s). lia. Qed.
Lemma skip_whitespace_length s : (String.length (skip_whitespace s) <= String.length s)%nat.
Proof. induction s as [|c s IH]; cbn; [lia|]. destruct (code c <=? 32); cbn; lia. Qed.
Lemma scan_digits_length b acc s : (String.length (scan_digits b acc s).2 <= String.length s)%nat.
Proof.
  revert acc; induction s as [|c s IH]; intros acc; cbn; [lia|].
  destruct (digit_val c) as [d|]; cbn; [|lia]. destruct (d <? b); cbn; [|lia].
  specialize (IH (acc * b + d)). lia.
Qed.
Lemma count_digits_consumes b acc s :
  count_digits b s <> O -> (String.length (scan_digits b acc s).2 < String.length s)%nat.
Proof.
  destruct s as [|c s]; cbn; [done|]. destruct (digit_val c) as [d|]; cbn; [|done].
  destruct (d <? b); cbn; [|done]. intros _. pose proof (scan_digits_length b (acc * b + d) s). lia.
Qed.
Lemma scan_sign_length s : (String.length (scan_sign s).2 <= String.length s)%nat.
Proof. destruct s as [|[[] [] [] [] [] [] [] []] s]; cbn; lia. Qed.
Lemma skip_spaces_length s : (String.length (skip_spaces s) <= String.length s)%nat.
Proof. induction s as [|c s IH]; cbn; [lia|]. destruct (isspace c); cbn; lia. Qed.

Lemma scan_mantissa_length s m ni nf r :
  scan_mantissa s = (m, ni, nf, r) -> (ni + nf <> 0)%nat -> (String.length r < String.length s)%nat.
Proof.
  unfold scan_mantissa. destruct (scan_digits 10 0 s) as [m1 s2] eqn:E1.
  pose proof (scan_digits_length 10 0 s) as Hl. pose proof (count_digits_consumes 10 0 s) as Hc.
  rewrite E1 in Hl, Hc. cbn [snd] in Hl, Hc.
  assert (Hplain : (m1, count_digits 10 s, O, s2) = (m, ni, nf, r) -> (ni + nf <> 0)%nat ->
    (String.length r < String.length s)%nat).
  { intros [= <- <- <- <-] Hn. apply Hc. lia. }
  destruct s2 as [|c s2]; [done|].
  destruct c as [[] [] [] [] [] [] [] []]; try exact Hplain.
  destruct (scan_digits 10 m1 s2) as [m2 s3] eqn:E2.
  pose proof (scan_digits_length 10 m1 s2) as Hl2. rewrite E2 in Hl2.
  intros [= <- <- <- <-] _. cbn in *. lia.
Qed.
Lemma scan_exponent_length s e r :
  scan_exponent s = Some (Some (e, r)) -> (String.length r <= String.length s)%nat.
Proof.
  destruct s as [|c s]; [done|]. cbn. destruct (strcaseeq (String c "") "e"); [|done].
  destruct (scan_sign s) as [sg s1] eqn:E1. destruct ((count_digits 10 s1 =? 0)%nat); [done|].
  destruct (scan_digits 10 0 s1) as [e' s2] eqn:E2. intros [= _ <-].
  pose proof (scan_sign_length s) as H1. pose proof (scan_digits_length 10 0 s1) as H2.
  rewrite E1 in H1. rewrite E2 in H2. cbn in *. lia.
Qed.

(** A number that is read consumes input. *)
Lemma strtod_length s d r : strtod s = Some (d, r) -> (String.length r < String.length s)%nat.
Proof.
  unfold strtod. destruct (scan_sign (skip_spaces s)) as [neg s1] eqn:E1.
  destruct (scan_mantissa s1) as [[[m ni] nf] s3] eqn:E2.
  destruct (Nat.eqb_spec (ni + nf) 0) as [|Hn]; [done|].
  pose proof (scan_mantissa_length _ _ _ _ _ E2 Hn) as Hm.
  pose proof (scan_sign_length (skip_spaces s)) as Hs. rewrite E1 in Hs. cbn in Hs.
  pose proof (skip_spaces_length s).
  destruct (scan_exponent s3) as [[[e s4]|]|] eqn:E3; intros [= _ <-]; [|lia..].
  apply scan_exponent_length in E3. lia.
Qed.
Lemma take_number_app n s : let '(a, b) := take_number n s in s = a ++ b.
Proof.
  revert s; induction n as [|n IH]; intros [|c s]; cbn; try done.
  destruct (number_char c); [|done]. specialize (IH s). destruct (take_number n s) as [a b].
  rewrite IH. done.
Qed.

(** What a parser may do: it never runs out of fuel, and consumes input. *)
Definition consumes {A} (s : string) (r : presult A) : Prop :=
  match r with
  | Done _ t => (String.length t < String.length s)%nat
  | ParseError => True
  | OutOfFuel => False
  end.

Lemma parse_number_consumes s : consumes s (parse_number s).
Proof.
  unfold parse_number. pose proof (take_number_app 63 s) as Ht.
  destruct (take_number 63 s) as [a b]. destruct (strtod a) as [[d r]|] eqn:E; [|done].
  apply strtod_length in E. cbn. subst s. rewrite !length_append. lia.
Qed.
Lemma parse_string_consumes s : consumes s (parse_string s).
Proof.
  destruct s as [|q s]; [done|]. cbn [parse_string]. destruct (negb _); [done|].
  destruct (find_quote s) as [n|]; [|done]. destruct (unescape n n s); [|done].
  cbn [consumes]. pose proof (drop_string_length (S n) s). cbn [String.length]. lia.
Qed.

Lemma consumes_bind {A B} s (r : presult A) (k : A -> string -> presult B) :
  consumes s r -> (forall a t, (String.length t < String.length s)%nat -> consumes s (k a t)) ->
  consumes s (pbind r k).
Proof. destruct r; cbn; auto. Qed.
Lemma consumes_weaken {A} s s' (r : presult A) :
  (String.length s' <= String.length s)%nat -> consumes s' r -> consumes s r.
Proof. destruct r; cbn; [lia|done..]. Qed.
Lemma done_prefix {A} p s (a : A) n :
  starts p s = true -> (0 < n)%nat -> p <> "" -> consumes s (Done a (drop_string n s)).
Proof.
  intros Hp Hn Hne. destruct p as [|c p]; [done|]. destruct s as [|c' s]; [done|].
  destruct n as [|n]; [lia|]. cbn. pose proof (drop_string_length n s). lia.
Qed.

Lemma parse_consumes fuel :
  (forall depth s, (2 * String.length s < fuel)%nat -> consumes s (parse_value fuel depth s)) /\
  (forall depth s, (2 * String.length s + 1 < fuel)%nat -> consumes s (parse_elements fuel depth s)) /\
  (forall depth s, (2 * String.length s + 1 < fuel)%nat -> consumes s (parse_members fuel depth s)).
Proof.
  induction fuel as [|fuel (IHv & IHe & IHm)]; [split_and!; intros; lia|]. split_and!; intros depth s Hs.
  - cbn [parse_value].
    destruct (starts "null" s) eqn:E1; [by eapply done_prefix; [|lia|]|].
    destruct (starts "false" s) eqn:E2; [by eapply done_prefix; [|lia|]|].
    destruct (starts "true" s) eqn:E3; [by eapply done_prefix; [|lia|]|].
    destruct s as [|c s']; [done|]. cbn [String.length] in Hs.
    destruct (code c =? 34).
    { apply consumes_bind; [apply parse_string_consumes|auto]. }
    destruct ((code c =? 45) || isdigit c); [apply parse_number_consumes|].
    pose proof (skip_whitespace_length s') as Hw.
    destruct (code c =? 91); [|destruct (code c =? 123); [|done]];
      (destruct (CJSON_NESTING_LIMIT <=? depth)%nat; [done|]).
    + assert (Hgen : consumes (String c s') (pbind (parse_elements fuel (S depth) (skip_whitespace s'))
        (fun l r => Done (cJSON_Array l) r))).
      { apply consumes_bind; [|auto].
        eapply consumes_weaken; [|apply IHe; lia]. cbn; lia. }
      destruct (skip_whitespace s') as [|[[] [] [] [] [] [] [] []] r] eqn:E; try exact Hgen.
      cbn in *. lia.
    + assert (Hgen : consumes (String c s') (pbind (parse_members fuel (S depth) (skip_whitespace s'))
        (fun l r => Done (cJSON_Object l) r))).
      { apply consumes_bind; [|auto].
        eapply consumes_weaken; [|apply IHm; lia]. cbn; lia. }
      destruct (skip_whitespace s') as [|[[] [] [] [] [] [] [] []] r] eqn:E; try exact Hgen.
      cbn in *. lia.
  - cbn [parse_elements]. pose proof (skip_whitespace_length s).
    apply consumes_bind; [eapply consumes_weaken; [|apply IHv]; lia|]. intros v r Hr.
    pose proof (skip_whitespace_length r).
    destruct (skip_whitespace r) as [|[[] [] [] [] [] [] [] []] r'] eqn:E; try exact I; cbn in *.
    + lia.
    + apply consumes_bind; [|by intros; cbn; lia]. eapply consumes_weaken; [|apply IHe]; lia.
  - cbn [parse_members]. pose proof (skip_whitespace_length s).
    apply consumes_bind; [eapply consumes_weaken; [|apply parse_string_consumes]; lia|]. intros k r Hr.
    pose proof (skip_whitespace_length r).
    destruct (skip_whitespace r) as [|[[] [] [] [] [] [] [] []] r1] eqn:E; try exact I.
    pose proof (skip_whitespace_length r1). cbn [String.length] in *.
    apply consumes_bind; [eapply consumes_weaken; [|apply IHv]; lia|]. intros v r2 Hr2.
    pose proof (skip_whitespace_length r2).
    destruct (skip_whitespace r2) as [|[[] [] [] [] [] [] [] []] r'] eqn:E2; try exact I; cbn in *.
    + lia.
    + apply consumes_bind; [|by intros; cbn; lia]. eapply consumes_weaken; [|apply IHm]; lia.
Qed.

(** C36. The parser terminates on every input: with the fuel that [cJSON_Parse]
    gives it, [parse_value] never runs out, and a value that is read leaves a
    strictly shorter rest. *)
Theorem parse_total (depth : nat) (s : string) :
  match parse_value (S (2 * String.length s)) depth s with
  | Done _ rest => (String.length rest < String.length s)%nat
  | ParseError => True
  | OutOfFuel => False
  end.
Proof. apply (parse_consumes (S (2 * String.length s))). lia. Qed.

(** ** Reading back what was printed *)

(** String literals: one character at a time. *)
Ltac eval_escape :=
  repeat match goal with
  | |- context [escape ?c] => let e := eval vm_compute in (escape c) in change (escape c) with e
  end.
Lemma find_quote_escape c r :
  find_quote (escape c ++ r) = (n ← find_quote r; Some (String.length (escape c) + n)%nat).
Proof.
  destruct c as [[] [] [] [] [] [] [] []]; eval_escape; autorewrite with text; cbn; destruct (find_quote r); reflexivity.
Qed.
Lemma find_quote_literal s t :
  find_quote (escape_all s ++ String dquote t) = Some (String.length (escape_all s)).
Proof.
  induction s as [|c s IH]; [done|]. cbn [escape_all]. rewrite append_assoc, find_quote_escape, IH.
  cbn. by rewrite length_append.
Qed.

Lemma unescape_escape c fuel n r :
  code c <> 0 ->
  unescape (S fuel) (String.length (escape c) + n) (escape c ++ r) =
    (out ← unescape fuel n r; Some (String c out)).
Proof.
  intros Hc. destruct c as [[] [] [] [] [] [] [] []]; try (exfalso; apply Hc; reflexivity);
    eval_escape; autorewrite with text; cbn -[utf16_literal_to_utf8];
    try match goal with
    | |- context [utf16_literal_to_utf8 ?k ?s] =>
        let e := eval vm_compute in (utf16_literal_to_utf8 k s) in change (utf16_literal_to_utf8 k s) with e
    end;
    cbn; rewrite ?Nat.sub_0_r; destruct (unescape fuel n r); reflexivity.
Qed.

Definition no_nul (s : string) : bool := bool_decide (c_string s = s).
Lemma no_nul_cons c s : no_nul (String c s) = true <-> code c <> 0 /\ no_nul s = true.
Proof.
  unfold no_nul. rewrite !bool_decide_eq_true. cbn [c_string].
  destruct (Z.eqb_spec (code c) 0) as [Hc|Hc]; [split; [done|by intros [? _]]|].
  split; [intros [= H]; done|intros [_ H]; by rewrite H].
Qed.

Lemma unescape_literal s t fuel :
  no_nul s = true -> (String.length s <= fuel)%nat ->
  unescape fuel (String.length (escape_all s)) (escape_all s ++ t) = Some s.
Proof.
  revert fuel; induction s as [|c s IH]; intros [|fuel] Hs Hf; try (cbn in Hf; lia); [done|by destruct t|].
  apply no_nul_cons in Hs as [Hc Hs]. cbn [escape_all].
  rewrite length_append, append_assoc, unescape_escape by done. rewrite IH; [done|done|]. cbn in Hf. lia.
Qed.
Lemma drop_string_app s t n : n = String.length s -> drop_string n (s ++ t) = t.
Proof. intros ->. induction s as [|c s IH]; [by destruct t|]. rewrite append_cons. exact IH. Qed.
Lemma escape_length s : (String.length s <= String.length (escape_all s))%nat.
Proof.
  induction s as [|c s IH]; [done|]. cbn [escape_all]. rewrite length_append.
  assert (1 <= String.length (escape c))%nat; [|cbn; lia].
  unfold escape. destruct (_ && _ && _); cbn; lia.
Qed.

Lemma parse_string_literal s t :
  no_nul s = true -> parse_string (print_string_ptr s ++ t) = Done s t.
Proof.
  intros Hs. unfold print_string_ptr. rewrite append_cons, append_assoc, append_cons, append_nil.
  unfold parse_string. change (negb (code dquote =? 34)) with false.
  rewrite find_quote_literal, unescape_literal by (try apply escape_length; done).
  f_equal; [by apply bool_decide_eq_true in Hs|].
  change (drop_string (S (String.length (escape_all s))) (escape_all s ++ String dquote t) = t).
  replace (escape_all s ++ String dquote t) with ((escape_all s ++ String dquote "") ++ t).
  - apply drop_string_app. rewrite length_append. cbn. lia.
  - by rewrite append_assoc.
Qed.

(** Numbers whose text is read back as the same number. *)
#[export] Instance spec_float_eq_dec : EqDecision spec_float.
Proof. solve_decision. Defined.
Definition number_start (s : string) : bool :=
  match s with String c _ => (code c =? 45) || isdigit c | _ => false end.
Definition wire_number (d : double) (vi : Z) : bool :=
  match print_number d vi with
  | Some txt =>
      number_start txt && bool_decide (take_number 63 txt = (txt, "")) &&
      bool_decide (strtod txt = Some (d, "")) && (saturate d =? vi)
  | None => false
  end.

(** What may follow a value. *)
Definition delimited (t : string) : Prop :=
  match t with String c _ => number_char c = false | EmptyString => True end.

Lemma take_number_delim n s t :
  take_number n s = (s, "") -> delimited t -> take_number n (s ++ t) = (s, t).
Proof.
  revert n; induction s as [|c s IH]; intros n Hs Ht.
  - rewrite append_nil. destruct n as [|n], t as [|c t]; cbn in *; try done. by rewrite Ht.
  - destruct n as [|n]; [done|]. rewrite append_cons. cbn in *.
    destruct (number_char c); [|done].
    destruct (take_number n s) as [a b] eqn:E. injection Hs as -> ->. by rewrite (IH n).
Qed.

Lemma parse_number_printed d vi txt t :
  wire_number d vi = true -> print_number d vi = Some txt -> delimited t ->
  parse_number (txt ++ t) = Done (cJSON_Number d vi) t.
Proof.
  unfold wire_number. intros Hw Hp Ht. rewrite Hp in Hw.
  rewrite !andb_true_iff, !bool_decide_eq_true, Z.eqb_eq in Hw. destruct Hw as [[[_ H1] H2] <-].
  unfold parse_number. by rewrite (take_number_delim _ _ _ H1 Ht), H2.
Qed.

(** ** The round trip of values *)

(** Items that survive the trip: every number does, no raw text, C strings. *)
Fixpoint wire_ok (j : cJSON) : bool :=
  match j with
  | cJSON_False | cJSON_True | cJSON_NULL => true
  | cJSON_Number d vi => wire_number d vi
  | cJSON_String s => no_nul s
  | cJSON_Array l => forallb wire_ok l
  | cJSON_Object l => forallb (fun kx => no_nul kx.1 && wire_ok kx.2) l
  | cJSON_Raw _ => false
  end.
Fixpoint nesting (j : cJSON) : nat :=
  match j with
  | cJSON_Array l => S (max_list_with nesting l)
  | cJSON_Object l => S (max_list_with (fun kx => nesting kx.2) l)
  | _ => O
  end.

Lemma cJSON_nested_ind (P : cJSON -> Prop) :
  P cJSON_False -> P cJSON_True -> P cJSON_NULL ->
  (forall d vi, P (cJSON_Number d vi)) -> (forall s, P (cJSON_String s)) ->
  (forall l, Forall P l -> P (cJSON_Array l)) ->
  (forall l, Forall (fun kx => P kx.2) l -> P (cJSON_Object l)) ->
  (forall s, P (cJSON_Raw s)) -> forall j, P j.
Proof.
  intros Hf Ht Hn Hd Hs Ha Ho Hr. fix IH 1.
  intros [| | |d vi|s|l|l|s]; [exact Hf|exact Ht|exact Hn|exact (Hd d vi)|exact (Hs s)| | |exact (Hr s)].
  - apply Ha. induction l as [|x l IHl]; constructor; [apply IH|exact IHl].
  - apply Ho. induction l as [|[k x] l IHl]; constructor; [apply IH|exact IHl].
Qed.

(** A printed value starts with a character that is neither white space nor a
    closing bracket. *)
Definition value_start (s : string) : bool :=
  match s with
  | String c _ => negb (code c <=? 32) && (code c <? 128) && negb (code c =? 93) && negb (code c =? 125)
  | EmptyString => false
  end.
Lemma value_start_skip s t : value_start s = true -> skip_whitespace (s ++ t) = s ++ t.
Proof.
  destruct s as [|c s]; [done|]. rewrite append_cons. cbn. by destruct (code c <=? 32).
Qed.
Lemma number_value_start s : number_start s = true -> value_start s = true.
Proof.
  destruct s as [|c s]; [done|]. cbn. unfold isdigit, in_chars.
  rewrite !orb_true_iff, !andb_true_iff, !negb_true_iff, !Z.leb_le, !Z.leb_gt, Z.ltb_lt, !Z.eqb_neq, Z.eqb_eq.
  change (code "0") with 48. change (code "9") with 57. lia.
Qed.

Lemma print_value_start format depth j txt :
  wire_ok j = true -> print_value format depth j = Some txt -> value_start txt = true.
Proof.
  destruct j as [| | |d vi|s|l|l|s]; cbn [wire_ok print_value]; intros Hw Hp; try (by injection Hp as <-).
  all: try match goal with
       | H : (?m ≫= _) = Some _ |- _ => destruct m; [|done]; by injection H as <-
       end.
  apply number_value_start. unfold wire_number in Hw. rewrite Hp in Hw.
  by destruct (number_start txt).
Qed.

Lemma skip_tabs n s : skip_whitespace (tabs n ++ s) = skip_whitespace s.
Proof. induction n as [|n IH]; [done|]. exact IH. Qed.
Lemma skip_newline s : skip_whitespace (newline ++ s) = skip_whitespace s.
Proof. done. Qed.
Lemma string_skip s t : skip_whitespace (print_string_ptr s ++ t) = print_string_ptr s ++ t.
Proof. by apply value_start_skip. Qed.

(** What [parse_value] has to do on the text of [j]. *)
Definition reads_back (format : bool) (j : cJSON) : Prop :=
  forall depth pdepth fuel txt t,
    wire_ok j = true -> (pdepth + nesting j <= CJSON_NESTING_LIMIT)%nat ->
    print_value format depth j = Some txt -> delimited t ->
    (2 * String.length txt < fuel)%nat -> parse_value fuel pdepth (txt ++ t) = Done j t.

Lemma parse_elements_printed format depth pdepth l :
  Forall (reads_back format) l -> l <> [] -> forallb wire_ok l = true ->
  (pdepth + max_list_with nesting l <= CJSON_NESTING_LIMIT)%nat ->
  forall fuel body s t, print_array format (print_value format depth) l = Some body ->
    skip_whitespace s = body ++ String "]" t -> (2 * String.length body + 1 < fuel)%nat ->
    parse_elements fuel pdepth s = Done l t.
Proof.
  intros Hl. induction Hl as [|x l Hx Hl IH]; [done|]. intros _ Hw Hn fuel body s t Hb Hs Hf.
  cbn [forallb max_list_with] in Hw, Hn. apply andb_true_iff in Hw as [Hwx Hwl].
  cbn [print_array] in Hb. destruct (print_value format depth x) as [sx|] eqn:Ex; [|done].
  cbn [mbind option_bind] in Hb.
  destruct (print_array format (print_value format depth) l) as [more|] eqn:El; [|by destruct l].
  destruct fuel as [|fuel]; [lia|]. cbn [mbind option_bind] in Hb.
  destruct l as [|y l].
  - injection El as <-. injection Hb as <-. rewrite !append_nil_r in *. cbn [parse_elements].
    rewrite Hs, (Hx depth pdepth fuel sx) by (try done; cbn in *; lia). done.
  - injection Hb as <-. set (sep := if format then ", " else ",") in *.
    assert (Hsep : exists w, sep = String "," w /\ forall r, skip_whitespace (w ++ r) = skip_whitespace r).
    { unfold sep. destruct format; [exists " "|exists ""]; done. }
    destruct Hsep as (w & Hsepw & Hskip). rewrite Hsepw in Hs, Hf. clear sep Hsepw.
    rewrite !append_assoc, append_cons in Hs. rewrite !length_append in Hf. cbn [String.length] in Hf.
    cbn [parse_elements]. rewrite Hs, (Hx depth pdepth fuel sx); [|done|lia|done|done|cbn in *; lia].
    cbn [pbind]. change (skip_whitespace (String "," (w ++ more ++ String "]" t)))
      with (String "," (w ++ more ++ String "]" t)). cbn beta iota.
    rewrite (IH ltac:(done) Hwl ltac:(lia) fuel more _ t eq_refl); [done| |cbn in *; lia].
    rewrite Hskip. apply value_start_skip. cbn [print_array] in El.
    apply andb_true_iff in Hwl as [Hwy _].
    destruct (print_value format depth y) as [sy|] eqn:Ey; [|done]. cbn [mbind option_bind] in El.
    apply print_value_start in Ey; [|done]. destruct sy as [|c sy]; [done|].
    destruct (print_array format (print_value format depth) l); [|done]. by injection El as <-.
Qed.

Lemma parse_members_printed format depth pdepth l :
  Forall (fun kx => reads_back format kx.2) l -> l <> [] ->
  forallb (fun kx => no_nul kx.1 && wire_ok kx.2) l = true ->
  (pdepth + max_list_with (fun kx => nesting kx.2) l <= CJSON_NESTING_LIMIT)%nat ->
  forall n fuel body ws s t, print_object format n (print_value format depth) l = Some body ->
    skip_whitespace s = skip_whitespace (body ++ ws ++ String "}" t) ->
    (forall r, skip_whitespace (ws ++ r) = skip_whitespace r) -> delimited (ws ++ String "}" t) ->
    (2 * String.length body + 1 < fuel)%nat -> parse_members fuel pdepth s = Done l t.
Proof.
  intros Hl. induction Hl as [|[k x] l Hx Hl IH]; [done|]. intros _ Hw Hn m fuel body ws s t Hb Hs Hws Hdws Hf.
  cbn [forallb max_list_with fst snd] in Hw, Hn, Hx. rewrite !andb_true_iff in Hw. destruct Hw as [[Hk Hwx] Hwl].
  cbn [print_object] in Hb. destruct (print_value format depth x) as [sx|] eqn:Ex; [|done].
  cbn [mbind option_bind] in Hb.
  destruct (print_object format m (print_value format depth) l) as [more|] eqn:El; [|by destruct l].
  destruct fuel as [|fuel]; [lia|]. cbn [mbind option_bind] in Hb. injection Hb as <-.
  set (pre := if format then tabs m else "") in *.
  set (colon := if format then ":" ++ tabs 1 else ":") in *.
  set (nl := if format then newline else "") in *.
  assert (Hpre : forall r, skip_whitespace (pre ++ r) = skip_whitespace r).
  { intros r. unfold pre. destruct format; [apply skip_tabs|done]. }
  assert (Hcolon : exists w, colon = String ":" w /\ forall r, skip_whitespace (w ++ r) = skip_whitespace r).
  { unfold colon. destruct format; [exists (tabs 1)|exists ""]; done. }
  assert (Hnl : forall r, skip_whitespace (nl ++ r) = skip_whitespace r).
  { unfold nl. destruct format; done. }
  assert (Hdnl : forall r, delimited r -> delimited (nl ++ r)).
  { unfold nl. destruct format; done. }
  destruct Hcolon as (w & Hcw & Hw'). rewrite Hcw in Hs, Hf. clear colon Hcw. clearbody pre nl.
  rewrite !length_append in Hf. cbn [String.length] in Hf.
  assert (Hs' : skip_whitespace s = print_string_ptr k ++ String ":" (w ++ sx ++
    (match l with [] => "" | _ => "," end) ++ nl ++ more ++ ws ++ String "}" t)).
  { rewrite Hs, !append_assoc, Hpre, string_skip, append_cons. done. }
  cbn [parse_members]. rewrite Hs', parse_string_literal by done. cbn [pbind].
  assert (Hc : forall c r, (code c <=? 32) = false -> skip_whitespace (String c r) = String c r).
  { intros c r Hcr. cbn. by rewrite Hcr. }
  rewrite Hc by done. rewrite Hw', value_start_skip by (by eapply print_value_start).
  destruct l as [|y l].
  - injection El as <-. rewrite !append_nil in *.
    rewrite (Hx depth pdepth fuel sx); [cbn [pbind]|done|lia|done|by apply Hdnl|cbn in *; lia].
    rewrite Hnl, Hws, Hc by done. done.
  - rewrite append_cons, append_nil.
    rewrite (Hx depth pdepth fuel sx); [cbn [pbind]|done|lia|done|done|cbn in *; lia].
    rewrite Hc by done.
    rewrite (IH ltac:(done) Hwl ltac:(lia) m fuel more ws _ t El); [done|by rewrite Hnl|done|done|].
    cbn in *; lia.
Qed.

Lemma parse_value_array fuel depth s :
  (depth < CJSON_NESTING_LIMIT)%nat ->
  parse_value (S fuel) depth (String "[" s) =
    match skip_whitespace s with
    | String "]" r => Done (cJSON_Array []) r
    | s1 => pbind (parse_elements fuel (S depth) s1) (fun l r => Done (cJSON_Array l) r)
    end.
Proof.
  intros Hd. cbn [parse_value]. apply Nat.leb_gt in Hd. rewrite Hd. reflexivity.
Qed.
Lemma parse_value_object fuel depth s :
  (depth < CJSON_NESTING_LIMIT)%nat ->
  parse_value (S fuel) depth (String "{" s) =
    match skip_whitespace s with
    | String "}" r => Done (cJSON_Object []) r
    | s1 => pbind (parse_members fuel (S depth) s1) (fun l r => Done (cJSON_Object l) r)
    end.
Proof.
  intros Hd. cbn [parse_value]. apply Nat.leb_gt in Hd. rewrite Hd. reflexivity.
Qed.

Lemma value_reads_back format j : reads_back format j.
Proof.
  induction j as [| | |d vi|s|l IH|l IH|s] using cJSON_nested_ind;
    intros depth pdepth fuel txt t Hw Hn Hp Ht Hf; (destruct fuel as [|fuel]; [lia|]); cbn [print_value] in Hp;
    try (injection Hp as <-; done).
  - assert (Hst : number_start txt = true).
    { cbn in Hw. unfold wire_number in Hw. rewrite Hp in Hw. by destruct (number_start txt). }
    destruct txt as [|c txt]; [done|]. cbn [wire_ok] in Hw.
    pose proof (parse_number_printed _ _ _ t Hw Hp Ht) as Hpn. rewrite append_cons in *.
    cbn [number_start] in Hst. cbn [parse_value]. rewrite Hst, Hpn.
    assert (Hq : code c <> 34 /\ code c <> 110 /\ code c <> 102 /\ code c <> 116).
    { revert Hst. unfold isdigit, in_chars. rewrite orb_true_iff, andb_true_iff, !Z.leb_le, Z.eqb_eq.
      change (code "0") with 48. change (code "9") with 57. lia. }
    destruct (Z.eqb_spec (code c) 34); [lia|].
    assert (Hno : forall p, (exists x r, p = String x r /\ (code x = 110 \/ code x = 102 \/ code x = 116)) ->
      starts p (String c (txt ++ t)) = false).
    { intros p (x & r & -> & Hx). cbn. destruct (Ascii.eqb_spec x c) as [<-|]; [lia|done]. }
    rewrite !Hno; [done|eauto 10..].
  - injection Hp as <-. cbn [wire_ok] in Hw. cbn [parse_value].
    rewrite (parse_string_literal s t Hw). unfold print_string_ptr. rewrite append_cons. done.
  - destruct (print_array _ _ l) as [body|] eqn:Eb; [|done]. injection Hp as <-.
    cbn [wire_ok nesting] in Hw, Hn. rewrite !length_append in Hf. cbn [String.length] in Hf.
    rewrite append_cons, append_nil, append_cons, append_assoc, append_cons, append_nil.
    rewrite parse_value_array by lia. destruct l as [|x l].
    { injection Eb as <-. done. }
    assert (Hvs : exists c r, body = String c r /\ (code c <=? 32) = false /\ code c <> 93).
    { cbn [print_array] in Eb. cbn [forallb] in Hw. apply andb_true_iff in Hw as [Hwx _].
      destruct (print_value format (S depth) x) as [sx|] eqn:Ex; [|done]. cbn [mbind option_bind] in Eb.
      destruct (print_array format _ l); [|done]. injection Eb as <-.
      apply print_value_start in Ex; [|done]. destruct sx as [|c sx]; [done|].
      eexists c, _. rewrite append_cons. split; [done|]. cbn in Ex. revert Ex.
      destruct (code c <=? 32), (code c <? 128), (Z.eqb_spec (code c) 93); done. }
    destruct Hvs as (c & r & -> & Hc & Hc'). rewrite append_cons.
    assert (Hskip : skip_whitespace (String c (r ++ String "]" t)) = String c (r ++ String "]" t))
      by (cbn; by rewrite Hc).
    pose proof (parse_elements_printed format (S depth) (S pdepth) (x :: l) IH ltac:(done) Hw
      ltac:(lia) fuel _ (String c (r ++ String "]" t)) t Eb) as He.
    rewrite append_cons in He. specialize (He Hskip ltac:(cbn in *; lia)).
    rewrite Hskip. destruct c as [[] [] [] [] [] [] [] []]; try (by rewrite He); by destruct Hc'.
  - destruct (print_object _ _ _ l) as [body|] eqn:Eb; [|done]. injection Hp as <-.
    cbn [wire_ok nesting] in Hw, Hn. rewrite !length_append in Hf. cbn [String.length] in Hf.
    set (nl := if format then newline else "") in *. set (ws := if format then tabs depth else "") in *.
    rewrite append_cons, append_nil, append_cons, !append_assoc, append_cons, append_nil.
    rewrite parse_value_object by lia.
    assert (Hnl : forall r, skip_whitespace (nl ++ r) = skip_whitespace r) by (unfold nl; by destruct format).
    assert (Hws : forall r, skip_whitespace (ws ++ r) = skip_whitespace r).
    { intros r. unfold ws. destruct format; [apply skip_tabs|done]. }
    assert (Hdws : delimited (ws ++ String "}" t)).
    { unfold ws. destruct format; [|done]. by destruct depth. }
    destruct l as [|[k x] l].
    { injection Eb as <-. by rewrite Hnl, append_nil, Hws. }
    assert (Hvs : exists r, skip_whitespace (body ++ ws ++ String "}" t) = String dquote r).
    { cbn [print_object] in Eb.
      destruct (print_value format (S depth) x) as [sx|] eqn:Ex; [|done]. cbn [mbind option_bind] in Eb.
      destruct (print_object format _ _ l); [|done]. injection Eb as <-.
      rewrite !append_assoc. destruct format; [rewrite skip_tabs|rewrite append_nil];
        rewrite string_skip; unfold print_string_ptr; rewrite append_cons; eauto. }
    destruct Hvs as (r & Hr). rewrite Hnl, Hr.
    change (pbind (parse_members fuel (S pdepth) (String dquote r)) (fun l r => Done (cJSON_Object l) r)
            = Done (cJSON_Object ((k, x) :: l)) t).
    rewrite (parse_members_printed format (S depth) (S pdepth) ((k, x) :: l) IH ltac:(done) Hw
      ltac:(lia) (S depth) fuel _ ws (String dquote r) t Eb); [done| |done|done|cbn in *; lia].
    rewrite Hr. done.
Qed.

Lemma wire_ok_prints format j : forall depth, wire_ok j = true ->
  exists txt, print_value format depth j = Some txt.
Proof.
  induction j as [| | |d vi|s|l IH|l IH|s] using cJSON_nested_ind; intros depth Hw; cbn [print_value wire_ok] in *; eauto.
  - unfold wire_number in Hw. destruct (print_number d vi); [eauto|done].
  - assert (exists body, print_array format (print_value format (S depth)) l = Some body) as [b ->]; [|cbn; eauto].
    induction IH as [|x l Hx _ IHl]; cbn [forallb print_array] in *; [eauto|].
    apply andb_true_iff in Hw as [Hwx Hwl]. destruct (Hx (S depth) Hwx) as [tx ->].
    destruct (IHl Hwl) as [b ->]. cbn; eauto.
  - assert (exists body, print_object format (S depth) (print_value format (S depth)) l = Some body) as [b ->];
      [|cbn; eauto].
    induction IH as [|[k x] l Hx _ IHl]; cbn [forallb print_object fst snd] in *; [eauto|].
    rewrite !andb_true_iff in Hw. destruct Hw as [[_ Hwx] Hwl]. destruct (Hx (S depth) Hwx) as [tx ->].
    destruct (IHl Hwl) as [b ->]. cbn; eauto.
Qed.

Lemma printed_parses format j txt :
  wire_ok j = true -> (nesting j <= CJSON_NESTING_LIMIT)%nat ->
  print_value format 0 j = Some txt -> cJSON_Parse txt = Some j.
Proof.
  intros Hw Hn Hp. pose proof (print_value_start _ _ _ _ Hw Hp) as Hst. unfold cJSON_Parse, skip_utf8_bom.
  destruct txt as [|c txt]; [done|].
  assert (Hb : starts (String (chr 0xEF) (String (chr 0xBB) (String (chr 0xBF) ""))) (String c txt) = false).
  { cbn [starts]. destruct (Ascii.eqb_spec (chr 0xEF) c) as [<-|]; [done|done]. }
  rewrite Hb, andb_false_r. rewrite <-(append_nil_r (String c txt)), (value_start_skip _ _ Hst).
  rewrite (append_nil_r (String c txt)) at 1.
  rewrite (value_reads_back format j 0%nat 0%nat _ _ "" Hw ltac:(lia) Hp I); [done|lia].
Qed.

(** ** Integers on the wire *)

Lemma saturate_Z2d z : - 2 ^ 53 < z < 2 ^ 53 -> saturate (Z2d z) = z.
Proof.
  intros Hz. unfold saturate.
  assert (Z2d LLONG_MAX = S754_finite false 4503599627370496 11) as -> by (vm_compute; reflexivity).
  assert (Z2d LLONG_MIN = S754_finite true 4503599627370496 11) as -> by (vm_compute; reflexivity).
  assert (Hmax : dleb (S754_finite false 4503599627370496 11) (Z2d z) = false).
  { destruct z as [|p|p]; [done| |by rewrite Z2d_neg by lia].
    rewrite Z2d_pos by lia. pose proof (digits2_le p 53 ltac:(lia) ltac:(lia)).
    unfold dleb, SFleb, SFcompare. destruct (Z.compare_spec 11 (Zpos (digits2_pos p) - 53)); [lia|lia|done]. }
  assert (Hmin : dleb (Z2d z) (S754_finite true 4503599627370496 11) = false).
  { destruct z as [|p|p]; [done|by rewrite Z2d_pos by lia|].
    rewrite Z2d_neg by lia. pose proof (digits2_le p 53 ltac:(lia) ltac:(lia)).
    unfold dleb, SFleb, SFcompare. destruct (Z.compare_spec (Zpos (digits2_pos p) - 53) 11); [lia|done|lia]. }
  rewrite Hmax, Hmin. unfold d2i64. rewrite cast_Z2d by (zlia). done.
Qed.

Lemma deqb_refl_Z2d z : - 2 ^ 53 < z < 2 ^ 53 -> deqb (Z2d z) (Z2d z) = true.
Proof.
  intros Hz. destruct z as [|p|p]; [done|rewrite Z2d_pos by lia|rewrite Z2d_neg by lia];
    unfold deqb, SFeqb, SFcompare; rewrite Z.compare_refl, Pos.compare_refl; done.
Qed.
Lemma Z2d_finite z : - 2 ^ 53 < z < 2 ^ 53 ->
  match Z2d z with S754_nan | S754_infinity _ => False | _ => True end.
Proof. intros Hz. destruct z as [|p|p]; [done|by rewrite Z2d_pos by lia|by rewrite Z2d_neg by lia]. Qed.

Lemma print_number_int z : - 2 ^ 53 < z < 2 ^ 53 ->
  print_number (Z2d z) z = if (25 <? String.length (dec z))%nat then None else Some (dec z).
Proof.
  intros Hz. unfold print_number. pose proof (Z2d_finite z Hz) as Hf. pose proof (deqb_refl_Z2d z Hz) as He.
  destruct (Z2d z) eqn:E; try done; by rewrite He.
Qed.

Lemma dec_length z : - 2 ^ 53 < z < 2 ^ 53 -> (String.length (dec z) <= 17)%nat.
Proof.
  intros Hz. unfold dec. destruct (Z.ltb_spec z 0).
  - cbn [String.length]. pose proof (print_nat_length (- z) 16). lia.
  - pose proof (print_nat_length z 16). lia.
Qed.
Lemma all_number_chars s n : all_chars isdigit s = true -> (String.length s <= n)%nat -> take_number n s = (s, "").
Proof.
  revert n; induction s as [|c s IH]; intros [|n] Hs Hn; cbn in *; try done; [lia|].
  apply andb_true_iff in Hs as [Hc Hs]. unfold number_char. rewrite Hc. cbn. rewrite (IH n Hs); [done|lia].
Qed.

(** Integers below 2^53 in magnitude travel exactly. *)
Lemma wire_integer z : - 2 ^ 53 < z < 2 ^ 53 -> wire_number (Z2d z) z = true.
Proof.
  intros Hz. unfold wire_number. rewrite print_number_int by done. pose proof (dec_length z Hz) as Hl.
  destruct (Nat.ltb_spec 25 (String.length (dec z))); [lia|].
  rewrite saturate_Z2d, Z.eqb_refl, andb_true_r by done. unfold dec in *.
  destruct (Z.ltb_spec z 0) as [Hneg|Hpos]; cbn [String.length] in Hl.
  - rewrite !andb_true_iff, !bool_decide_eq_true. split_and!; [done| |].
    + change (take_number 63 (String "-" (print_nat 10 (- z)))) with
        (let '(a, b) := take_number 62 (print_nat 10 (- z)) in (String "-" a, b)).
      rewrite all_number_chars; [done|apply print_nat_digits; lia|lia].
    + rewrite <-(append_nil_r (print_nat 10 (- z))), strtod_neg_nat by (done || lia). by rewrite Z.opp_involutive.
  - rewrite !andb_true_iff, !bool_decide_eq_true. split_and!.
    + destruct (print_nat_head 10 z) as (d & s & He & Hd); [lia..|].
      pose proof (print_nat_digits z Hpos) as Hall. rewrite He in *. cbn in *. destruct (isdigit _); [|done].
      by rewrite orb_true_r.
    + apply all_number_chars; [by apply print_nat_digits|lia].
    + rewrite <-(append_nil_r (print_nat 10 z)), strtod_nat by (done || lia). done.
Qed.
Lemma create_integer z : - 2 ^ 53 < z < 2 ^ 53 -> cJSON_CreateNumber (Z2d z) = cJSON_Number (Z2d z) z.
Proof. intros Hz. unfold cJSON_CreateNumber. by rewrite saturate_Z2d. Qed.
Create HintDb wire.
#[export] Hint Resolve wire_integer : wire.

(** C16. Parsing reads back what printing wrote, in both layouts: an item
    without raw text, nested at most 1000 deep, whose strings are C strings and
    whose numbers each survive the trip through their text, always prints, and
    the parser returns that very item. *)
Theorem print_parse_roundtrip (format : bool) (j : cJSON) :
  wire_ok j = true -> (nesting j <= CJSON_NESTING_LIMIT)%nat ->
  exists txt, print_value format 0 j = Some txt /\ cJSON_Parse txt = Some j.
Proof.
  intros Hw Hn. destruct (wire_ok_prints format j 0 Hw) as [txt Hp].
  exists txt. split; [done|]. by eapply printed_parses.
Qed.
Definition sample : cJSON :=
  cJSON_Object [("tcp", cJSON_True); ("time", cJSON_Number (Z2d 10) 10);
    ("jitter", cJSON_CreateNumber (dlit 1 8)); ("list", cJSON_Array [cJSON_String "a\b"; cJSON_NULL])].
Lemma print_parse_roundtrip_witness :
  exists txt, print_value true 0 sample = Some txt /\ cJSON_Parse txt = Some sample.
Proof. apply (print_parse_roundtrip true sample); [vm_compute; reflexivity|vm_compute; lia]. Defined.
