(* ===== verification/Iperf.v ===== *)
(** * The data of the program: iperf.h and iperf_api.h

    The constants of the two headers and the structures of iperf.h, each in a
    module named after it so that the fields keep their names.  A structure
    held by pointer is a value; timers are the locations of Timer.v, sockets
    file descriptors, and a C string held by pointer an [option string]. *)
From Stdlib Require Import Ascii String.
From stdpp Require Import strings.
From S2P Require Import Prelude Double IperfTime Cjson.
#[local] Open Scope string_scope.
#[local] Open Scope Z_scope.

(** ** Constants *)

Definition COOKIE_SIZE : Z := 37.
Definition PORT : Z := 5201.
Definition uS_TO_NS : Z := 1000.
Definition mS_TO_US : Z := 1000.
Definition SEC_TO_mS : Z := 1000.
Definition SEC_TO_US : Z := 1000000.
Definition UDP_RATE : Z := 1024 * 1024.
Definition OMIT : Z := 0.
Definition DURATION : Z := 10.
Definition SEC_TO_NS : Z := 1000000000.
Definition MAX_PARAMS_JSON_STRING : Z := 8 * 1024.
Definition MB : Z := 1024 * 1024.
Definition MAX_TCP_BUFFER : Z := 512 * MB.
Definition MAX_BLOCKSIZE : Z := MB.
Definition MIN_UDP_BLOCKSIZE : Z := 4 + 4 + 8.
Definition MAX_UDP_BLOCKSIZE : Z := 65535 - 8 - 20.
Definition MAX_TIME : Z := 86400.
Definition MAX_OMIT_TIME : Z := 600.
Definition MAX_BURST : Z := 1000.
Definition MAX_MSS : Z := 9 * 1024.
Definition MAX_STREAMS : Z := 128.
Definition UDP_CONNECT_MSG : Z := 0x36373839.
Definition UDP_CONNECT_REPLY : Z := 0x39383736.
Definition LEGACY_UDP_CONNECT_REPLY : Z := 987654321.
Definition UDP_BUFFER_EXTRA : Z := 1024.
Definition MAX_REVERSE_OUT_OF_ORDER_PACKETS : Z := 2.
Definition Ptcp : Z := 1.
Definition Pudp : Z := 2.
Definition Psctp : Z := 12.
Definition DEFAULT_UDP_BLKSIZE : Z := 1460.
Definition DEFAULT_TCP_BLKSIZE : Z := 128 * 1024.
Definition DEFAULT_SCTP_BLKSIZE : Z := 64 * 1024.
Definition DEFAULT_PACING_TIMER : Z := 1000.
Definition DEFAULT_NO_MSG_RCVD_TIMEOUT : Z := 120000.
Definition MIN_NO_MSG_RCVD_TIMEOUT : Z := 100.
Definition TEST_START : Z := 1.
Definition TEST_RUNNING : Z := 2.
Definition TEST_END : Z := 4.
Definition PARAM_EXCHANGE : Z := 9.
Definition CREATE_STREAMS : Z := 10.
Definition SERVER_TERMINATE : Z := 11.
Definition CLIENT_TERMINATE : Z := 12.
Definition EXCHANGE_RESULTS : Z := 13.
Definition DISPLAY_RESULTS : Z := 14.
Definition IPERF_START : Z := 15.
Definition IPERF_DONE : Z := 16.
Definition ACCESS_DENIED : Z := -1.
Definition SERVER_ERROR : Z := -2.
Definition MIN_INTERVAL : double := dlit 1 10.
Definition MAX_INTERVAL : double := Z2d 60.
Definition SENDER : Z := 1.
Definition RECEIVER : Z := 0.
Definition BIDIRECTIONAL : Z := -1.

(** SOCK_STREAM and SOCK_DGRAM are the values of [Ptcp] and [Pudp]. *)

(** ** Structures *)

(** The send and receive routines that the function pointers of a stream and of
    a protocol take as values. *)
Inductive routine :=
| iperf_tcp_send | iperf_tcp_recv | iperf_udp_send | iperf_udp_recv | diskfile_send | diskfile_recv.
#[export] Instance routine_eq_dec : EqDecision routine.
Proof. solve_decision. Defined.

(** A protocol; its accept, listen, connect and init functions are selected by
    [id]. *)
Module Protocol.
Record protocol := mk { id : Z; name : string; send : routine; recv : routine }.
End Protocol.

(** One interval of one stream.  The TCP_INFO fields are kept as plain counters. *)
Module Interval.
Record iperf_interval_results := mk {
  bytes_transferred : Z; interval_start_time : iperf_time; interval_end_time : iperf_time;
  interval_duration : double; interval_packet_count : Z; interval_outoforder_packets : Z;
  interval_cnt_error : Z; packet_count : Z; jitter : double; outoforder_packets : Z;
  cnt_error : Z; omitted : Z; interval_retrans : Z; snd_cwnd : Z; snd_wnd : Z; rtt : Z;
  rttvar : Z; pmtu : Z }.
#[global] Instance eta : Settable iperf_interval_results :=
  fun r => mk (r.(bytes_transferred)) (r.(interval_start_time)) (r.(interval_end_time))
    (r.(interval_duration)) (r.(interval_packet_count)) (r.(interval_outoforder_packets))
    (r.(interval_cnt_error)) (r.(packet_count)) (r.(jitter)) (r.(outoforder_packets))
    (r.(cnt_error)) (r.(omitted)) (r.(interval_retrans)) (r.(snd_cwnd)) (r.(snd_wnd)) (r.(rtt))
    (r.(rttvar)) (r.(pmtu)).
(** The structure as calloc leaves it. *)
Definition zero : iperf_interval_results := mk 0 (Time 0 0) (Time 0 0) dzero 0 0 0 0 dzero 0 0 0 0
   0 0 0 0 0.
End Interval.
Abbreviation iperf_interval_results := Interval.iperf_interval_results.

(** The byte counters and interval list of a stream. *)
Module Result.
Record iperf_stream_result := mk {
  bytes_received : Z; bytes_sent : Z; bytes_received_this_interval : Z;
  bytes_sent_this_interval : Z; bytes_sent_omit : Z; stream_prev_total_retrans : Z;
  stream_retrans : Z; stream_max_rtt : Z; stream_min_rtt : Z; stream_sum_rtt : Z;
  stream_count_rtt : Z; stream_max_snd_cwnd : Z; stream_max_snd_wnd : Z; start_time : iperf_time;
  end_time : iperf_time; start_time_fixed : iperf_time; sender_time : double;
  receiver_time : double; interval_results : list Interval.iperf_interval_results }.
#[global] Instance eta : Settable iperf_stream_result :=
  fun r => mk (r.(bytes_received)) (r.(bytes_sent)) (r.(bytes_received_this_interval))
    (r.(bytes_sent_this_interval)) (r.(bytes_sent_omit)) (r.(stream_prev_total_retrans))
    (r.(stream_retrans)) (r.(stream_max_rtt)) (r.(stream_min_rtt)) (r.(stream_sum_rtt))
    (r.(stream_count_rtt)) (r.(stream_max_snd_cwnd)) (r.(stream_max_snd_wnd)) (r.(start_time))
    (r.(end_time)) (r.(start_time_fixed)) (r.(sender_time)) (r.(receiver_time))
    (r.(interval_results)).
(** The structure as calloc leaves it. *)
Definition zero : iperf_stream_result := mk 0 0 0 0 0 0 0 0 0 0 0 0 0 (Time 0 0) (Time 0 0)
   (Time 0 0) dzero dzero [].
End Result.
Abbreviation iperf_stream_result := Result.iperf_stream_result.

(** Everything but the authentication fields, which the configuration leaves out. *)
Module Settings.
Record iperf_settings := mk {
  domain : Z; socket_bufsize : Z; blksize : Z; rate : Z; bitrate_limit : Z;
  bitrate_limit_interval : double; bitrate_limit_stats_per_interval : Z; fqrate : Z;
  pacing_timer : Z; burst : Z; mss : Z; ttl : Z; tos : Z; flowlabel : Z; bytes : Z; blocks : Z;
  unit_format : ascii; num_ostreams : Z; dont_fragment : Z; skip_rx_copy : Z;
  connect_timeout : Z; idle_timeout : Z; snd_timeout : Z; rcv_timeout : iperf_time; cntl_ka : Z;
  cntl_ka_keepidle : Z; cntl_ka_interval : Z; cntl_ka_count : Z }.
#[global] Instance eta : Settable iperf_settings :=
  fun r => mk (r.(domain)) (r.(socket_bufsize)) (r.(blksize)) (r.(rate)) (r.(bitrate_limit))
    (r.(bitrate_limit_interval)) (r.(bitrate_limit_stats_per_interval)) (r.(fqrate))
    (r.(pacing_timer)) (r.(burst)) (r.(mss)) (r.(ttl)) (r.(tos)) (r.(flowlabel)) (r.(bytes))
    (r.(blocks)) (r.(unit_format)) (r.(num_ostreams)) (r.(dont_fragment)) (r.(skip_rx_copy))
    (r.(connect_timeout)) (r.(idle_timeout)) (r.(snd_timeout)) (r.(rcv_timeout)) (r.(cntl_ka))
    (r.(cntl_ka_keepidle)) (r.(cntl_ka_interval)) (r.(cntl_ka_count)).
(** The structure as calloc leaves it. *)
Definition zero : iperf_settings := mk 0 0 0 0 0 dzero 0 0 0 0 0 0 0 0 0 0 "000"%char 0 0 0 0 0 0
   (Time 0 0) 0 0 0 0.
End Settings.
Abbreviation iperf_settings := Settings.iperf_settings.

(** A stream; [settings] and [test] are the ones of the test that holds it.  The
    function pointers are values of [routine], the sockets file descriptors. *)
Module Stream.
Record iperf_stream := mk {
  thread_created : Z; done : Z; local_port : Z; remote_port : Z; socket : Z; id : Z; sender : Z;
  local_addr : string * Z; remote_addr : string * Z;
  result : Result.iperf_stream_result; send_timer : option positive; green_light : Z;
  buffer_fd : Z; buffer : list Z; pending_size : Z; diskfile_fd : Z; diskfile_left : Z;
  packet_count : Z; peer_packet_count : Z; peer_omitted_packet_count : Z;
  omitted_packet_count : Z; jitter : double; prev_transit : double; outoforder_packets : Z;
  omitted_outoforder_packets : Z; cnt_error : Z; omitted_cnt_error : Z; target : Z;
  rcv : option routine; snd : option routine; rcv2 : option routine; snd2 : option routine }.
#[global] Instance eta : Settable iperf_stream :=
  fun r => mk (r.(thread_created)) (r.(done)) (r.(local_port)) (r.(remote_port)) (r.(socket))
    (r.(id)) (r.(sender)) (r.(local_addr)) (r.(remote_addr)) (r.(result)) (r.(send_timer)) (r.(green_light)) (r.(buffer_fd))
    (r.(buffer)) (r.(pending_size)) (r.(diskfile_fd)) (r.(diskfile_left)) (r.(packet_count))
    (r.(peer_packet_count)) (r.(peer_omitted_packet_count)) (r.(omitted_packet_count))
    (r.(jitter)) (r.(prev_transit)) (r.(outoforder_packets)) (r.(omitted_outoforder_packets))
    (r.(cnt_error)) (r.(omitted_cnt_error)) (r.(target)) (r.(rcv)) (r.(snd)) (r.(rcv2)) (r.(snd2)).
(** The structure as calloc leaves it. *)
Definition zero : iperf_stream := mk 0 0 0 0 0 0 0 (""%string, 0) (""%string, 0) Result.zero None 0 0 [] 0 0 0 0 0 0 0 dzero
   dzero 0 0 0 0 0 None None None None.
End Stream.
Abbreviation iperf_stream := Stream.iperf_stream.

(** The test structure, without locks and callbacks.  The
    handles of the JSON report point into one tree; here each holds what was
    added through it, [json_top] the members behind the first three
    (report_document in Api.v puts the tree together).  [outfile] is the log
    file once it is open, [None] for the standard output.  Timers are the
    locations of timer.c, [None] for the null pointer. *)
Module Test.
Record iperf_test := mk {
  role : ascii; mode : Z; sender_has_retransmits : Z; other_side_has_retransmits : Z;
  protocol : option Protocol.protocol; state : Z; server_hostname : option string;
  tmp_template : option string; bind_address : option string; bind_dev : option string;
  bind_port : Z; server_port : Z; omit : Z; duration : Z; diskfile_name : option string;
  affinity : Z; server_affinity : Z; title : option string; extra_data : option string;
  congestion : option string; congestion_used : option string;
  remote_congestion_used : option string; pidfile : option string; logfile : option string;
  ctrl_sck : Z; mapped_v4 : Z; listener : Z; prot_listener : Z; ctrl_sck_mss : Z; daemon : Z;
  one_off : Z; no_delay : Z; reverse : Z; bidirectional : Z; verbose : Z; json_output : Z;
  json_stream : Z; zerocopy : Z; debug : Z; debug_level : Z; get_server_output : Z;
  udp_counters_64bit : Z; forceflush : Z; multisend : Z; repeating_payload : Z; timestamps : Z;
  timestamp_format : option string; mptcp : Z; max_fd : Z; read_set : gset Z; write_set : gset Z;
  omitting : Z; stats_interval : double; reporter_interval : double;
  omit_timer : option positive; timer : option positive; done : Z; stats_timer : option positive;
  reporter_timer : option positive; cpu_util : list double; remote_cpu_util : list double;
  num_streams : Z; bytes_sent : Z; blocks_sent : Z; bytes_received : Z; blocks_received : Z;
  bitrate_limit_stats_count : Z; bitrate_limit_intervals_traffic_bytes : list Z;
  bitrate_limit_last_interval_index : Z; bitrate_limit_exceeded : Z; server_last_run_rc : Z;
  server_forced_idle_restarts_count : Z; server_forced_no_msg_restarts_count : Z;
  server_test_number : Z; cookie : string; streams : list Stream.iperf_stream;
  settings : Settings.iperf_settings; protocols : list Protocol.protocol;
  server_output_text : option string; json_server_output : option cJSON;
  json_intervals : option cJSON; json_end : option cJSON; server_output_list : list string;
  xbind_addrs : list string; json_top : option cJSON; json_start : option cJSON;
  json_connected : option cJSON; outfile : option Z }.
#[global] Instance eta : Settable iperf_test :=
  fun r => mk (r.(role)) (r.(mode)) (r.(sender_has_retransmits)) (r.(other_side_has_retransmits))
    (r.(protocol)) (r.(state)) (r.(server_hostname)) (r.(tmp_template)) (r.(bind_address))
    (r.(bind_dev)) (r.(bind_port)) (r.(server_port)) (r.(omit)) (r.(duration)) (r.(diskfile_name))
    (r.(affinity)) (r.(server_affinity)) (r.(title)) (r.(extra_data)) (r.(congestion))
    (r.(congestion_used)) (r.(remote_congestion_used)) (r.(pidfile)) (r.(logfile)) (r.(ctrl_sck))
    (r.(mapped_v4)) (r.(listener)) (r.(prot_listener)) (r.(ctrl_sck_mss)) (r.(daemon))
    (r.(one_off)) (r.(no_delay)) (r.(reverse)) (r.(bidirectional)) (r.(verbose)) (r.(json_output))
    (r.(json_stream)) (r.(zerocopy)) (r.(debug)) (r.(debug_level)) (r.(get_server_output))
    (r.(udp_counters_64bit)) (r.(forceflush)) (r.(multisend)) (r.(repeating_payload))
    (r.(timestamps)) (r.(timestamp_format)) (r.(mptcp)) (r.(max_fd)) (r.(read_set))
    (r.(write_set)) (r.(omitting)) (r.(stats_interval)) (r.(reporter_interval)) (r.(omit_timer))
    (r.(timer)) (r.(done)) (r.(stats_timer)) (r.(reporter_timer)) (r.(cpu_util))
    (r.(remote_cpu_util)) (r.(num_streams)) (r.(bytes_sent)) (r.(blocks_sent))
    (r.(bytes_received)) (r.(blocks_received)) (r.(bitrate_limit_stats_count))
    (r.(bitrate_limit_intervals_traffic_bytes)) (r.(bitrate_limit_last_interval_index))
    (r.(bitrate_limit_exceeded)) (r.(server_last_run_rc)) (r.(server_forced_idle_restarts_count))
    (r.(server_forced_no_msg_restarts_count)) (r.(server_test_number)) (r.(cookie)) (r.(streams))
    (r.(settings)) (r.(protocols)) (r.(server_output_text)) (r.(json_server_output))
    (r.(json_intervals)) (r.(json_end)) (r.(server_output_list)) (r.(xbind_addrs))
    (r.(json_top)) (r.(json_start)) (r.(json_connected)) (r.(outfile)).
(** The structure as calloc leaves it. *)
Definition zero : iperf_test := mk "000"%char 0 0 0 None 0 None None None None 0 0 0 0 None 0 0
   None None None None None None None 0 0 0 0 0 0 0 0 0 0 0 0 0 0 0 0 0 0 0 0 0 0 None 0 0 ∅ ∅ 0
   dzero dzero None None 0 None None [] [] 0 0 0 0 0 0 [] 0 0 0 0 0 0 "" [] Settings.zero [] None
   None None None [] [] None None None None.
End Test.
Abbreviation iperf_test := Test.iperf_test.
