(* ===== verification/Error.v ===== *)
(** * Error codes and their messages: iperf_error.c and the enum of iperf_api.h

    [i_errno] holds one of the codes; [iperf_strerror] turns it into the text
    shown to the user.  The switch statement is split into four functions of
    consecutive cases.  strerror and gai_strerror are the C library's. *)
From Stdlib Require Import Ascii String.
From stdpp Require Import strings.
From S2P Require Import Prelude Text Iperf.
#[local] Open Scope string_scope.
#[local] Open Scope Z_scope.

(** ** The enumeration *)

Inductive iperf_error :=
  | IENONE | IESERVCLIENT | IENOROLE | IESERVERONLY | IECLIENTONLY | IEDURATION | IENUMSTREAMS
  | IEBLOCKSIZE | IEBUFSIZE | IEINTERVAL | IEMSS | IENOSENDFILE | IEOMIT | IEUNIMP | IEFILE
  | IEBURST | IEENDCONDITIONS | IELOGFILE | IENOSCTP | IEBIND | IEUDPBLOCKSIZE | IEBADTOS
  | IESETCLIENTAUTH | IESETSERVERAUTH | IEBADFORMAT | IEREVERSEBIDIR | IEBADPORT | IETOTALRATE
  | IETOTALINTERVAL | IESKEWTHRESHOLD | IEIDLETIMEOUT | IERCVTIMEOUT | IERVRSONLYRCVTIMEOUT
  | IESNDTIMEOUT | IEUDPFILETRANSFER | IESERVERAUTHUSERS | IECNTLKA | IENEWTEST | IEINITTEST
  | IELISTEN | IECONNECT | IEACCEPT | IESENDCOOKIE | IERECVCOOKIE | IECTRLWRITE | IECTRLREAD
  | IECTRLCLOSE | IEMESSAGE | IESENDMESSAGE | IERECVMESSAGE | IESENDPARAMS | IERECVPARAMS
  | IEPACKAGERESULTS | IESENDRESULTS | IERECVRESULTS | IESELECT | IECLIENTTERM | IESERVERTERM
  | IEACCESSDENIED | IESETNODELAY | IESETMSS | IESETBUF | IESETTOS | IESETCOS | IESETFLOW
  | IEREUSEADDR | IENONBLOCKING | IESETWINDOWSIZE | IEPROTOCOL | IEAFFINITY | IEDAEMON
  | IESETCONGESTION | IEPIDFILE | IEV6ONLY | IESETSCTPDISABLEFRAG | IESETSCTPNSTREAM
  | IESETSCTPBINDX | IESETPACING | IESETBUF2 | IEAUTHTEST | IEBINDDEV | IENOMSG
  | IESETDONTFRAGMENT | IEBINDDEVNOSUPPORT | IEHOSTDEV | IESETUSERTIMEOUT | IEPTHREADCREATE
  | IEPTHREADCANCEL | IEPTHREADJOIN | IEPTHREADATTRINIT | IEPTHREADATTRDESTROY | IESETCNTLKA
  | IESETCNTLKAKEEPIDLE | IESETCNTLKAINTERVAL | IESETCNTLKACOUNT | IEPTHREADSIGMASK
  | IECREATESTREAM | IEINITSTREAM | IESTREAMLISTEN | IESTREAMCONNECT | IESTREAMACCEPT
  | IESTREAMWRITE | IESTREAMREAD | IESTREAMCLOSE | IESTREAMID | IENEWTIMER | IEUPDATETIMER.
#[export] Instance iperf_error_eq_dec : EqDecision iperf_error.
Proof. solve_decision. Defined.

Definition error_code (e : iperf_error) : Z :=
  match e with
  | IENONE => 0 | IESERVCLIENT => 1 | IENOROLE => 2 | IESERVERONLY => 3 | IECLIENTONLY => 4
  | IEDURATION => 5 | IENUMSTREAMS => 6 | IEBLOCKSIZE => 7 | IEBUFSIZE => 8 | IEINTERVAL => 9
  | IEMSS => 10 | IENOSENDFILE => 11 | IEOMIT => 12 | IEUNIMP => 13 | IEFILE => 14
  | IEBURST => 15 | IEENDCONDITIONS => 16 | IELOGFILE => 17 | IENOSCTP => 18 | IEBIND => 19
  | IEUDPBLOCKSIZE => 20 | IEBADTOS => 21 | IESETCLIENTAUTH => 22 | IESETSERVERAUTH => 23
  | IEBADFORMAT => 24 | IEREVERSEBIDIR => 25 | IEBADPORT => 26 | IETOTALRATE => 27
  | IETOTALINTERVAL => 28 | IESKEWTHRESHOLD => 29 | IEIDLETIMEOUT => 30 | IERCVTIMEOUT => 31
  | IERVRSONLYRCVTIMEOUT => 32 | IESNDTIMEOUT => 33 | IEUDPFILETRANSFER => 34
  | IESERVERAUTHUSERS => 35 | IECNTLKA => 36 | IENEWTEST => 100 | IEINITTEST => 101
  | IELISTEN => 102 | IECONNECT => 103 | IEACCEPT => 104 | IESENDCOOKIE => 105
  | IERECVCOOKIE => 106 | IECTRLWRITE => 107 | IECTRLREAD => 108 | IECTRLCLOSE => 109
  | IEMESSAGE => 110 | IESENDMESSAGE => 111 | IERECVMESSAGE => 112 | IESENDPARAMS => 113
  | IERECVPARAMS => 114 | IEPACKAGERESULTS => 115 | IESENDRESULTS => 116 | IERECVRESULTS => 117
  | IESELECT => 118 | IECLIENTTERM => 119 | IESERVERTERM => 120 | IEACCESSDENIED => 121
  | IESETNODELAY => 122 | IESETMSS => 123 | IESETBUF => 124 | IESETTOS => 125 | IESETCOS => 126
  | IESETFLOW => 127 | IEREUSEADDR => 128 | IENONBLOCKING => 129 | IESETWINDOWSIZE => 130
  | IEPROTOCOL => 131 | IEAFFINITY => 132 | IEDAEMON => 133 | IESETCONGESTION => 134
  | IEPIDFILE => 135 | IEV6ONLY => 136 | IESETSCTPDISABLEFRAG => 137 | IESETSCTPNSTREAM => 138
  | IESETSCTPBINDX => 139 | IESETPACING => 140 | IESETBUF2 => 141 | IEAUTHTEST => 142
  | IEBINDDEV => 143 | IENOMSG => 144 | IESETDONTFRAGMENT => 145 | IEBINDDEVNOSUPPORT => 146
  | IEHOSTDEV => 147 | IESETUSERTIMEOUT => 148 | IEPTHREADCREATE => 150
  | IEPTHREADCANCEL => 151 | IEPTHREADJOIN => 152 | IEPTHREADATTRINIT => 153
  | IEPTHREADATTRDESTROY => 154 | IESETCNTLKA => 155 | IESETCNTLKAKEEPIDLE => 156
  | IESETCNTLKAINTERVAL => 157 | IESETCNTLKACOUNT => 158 | IEPTHREADSIGMASK => 159
  | IECREATESTREAM => 200 | IEINITSTREAM => 201 | IESTREAMLISTEN => 202
  | IESTREAMCONNECT => 203 | IESTREAMACCEPT => 204 | IESTREAMWRITE => 205 | IESTREAMREAD => 206
  | IESTREAMCLOSE => 207 | IESTREAMID => 208 | IENEWTIMER => 300 | IEUPDATETIMER => 301
  end.

Definition all_errors : list iperf_error :=
  [IENONE; IESERVCLIENT; IENOROLE; IESERVERONLY; IECLIENTONLY; IEDURATION; IENUMSTREAMS;
   IEBLOCKSIZE; IEBUFSIZE; IEINTERVAL; IEMSS; IENOSENDFILE; IEOMIT; IEUNIMP; IEFILE; IEBURST;
   IEENDCONDITIONS; IELOGFILE; IENOSCTP; IEBIND; IEUDPBLOCKSIZE; IEBADTOS; IESETCLIENTAUTH;
   IESETSERVERAUTH; IEBADFORMAT; IEREVERSEBIDIR; IEBADPORT; IETOTALRATE; IETOTALINTERVAL;
   IESKEWTHRESHOLD; IEIDLETIMEOUT; IERCVTIMEOUT; IERVRSONLYRCVTIMEOUT; IESNDTIMEOUT;
   IEUDPFILETRANSFER; IESERVERAUTHUSERS; IECNTLKA; IENEWTEST; IEINITTEST; IELISTEN; IECONNECT;
   IEACCEPT; IESENDCOOKIE; IERECVCOOKIE; IECTRLWRITE; IECTRLREAD; IECTRLCLOSE; IEMESSAGE;
   IESENDMESSAGE; IERECVMESSAGE; IESENDPARAMS; IERECVPARAMS; IEPACKAGERESULTS; IESENDRESULTS;
   IERECVRESULTS; IESELECT; IECLIENTTERM; IESERVERTERM; IEACCESSDENIED; IESETNODELAY; IESETMSS;
   IESETBUF; IESETTOS; IESETCOS; IESETFLOW; IEREUSEADDR; IENONBLOCKING; IESETWINDOWSIZE;
   IEPROTOCOL; IEAFFINITY; IEDAEMON; IESETCONGESTION; IEPIDFILE; IEV6ONLY;
   IESETSCTPDISABLEFRAG; IESETSCTPNSTREAM; IESETSCTPBINDX; IESETPACING; IESETBUF2; IEAUTHTEST;
   IEBINDDEV; IENOMSG; IESETDONTFRAGMENT; IEBINDDEVNOSUPPORT; IEHOSTDEV; IESETUSERTIMEOUT;
   IEPTHREADCREATE; IEPTHREADCANCEL; IEPTHREADJOIN; IEPTHREADATTRINIT; IEPTHREADATTRDESTROY;
   IESETCNTLKA; IESETCNTLKAKEEPIDLE; IESETCNTLKAINTERVAL; IESETCNTLKACOUNT; IEPTHREADSIGMASK;
   IECREATESTREAM; IEINITSTREAM; IESTREAMLISTEN; IESTREAMCONNECT; IESTREAMACCEPT;
   IESTREAMWRITE; IESTREAMREAD; IESTREAMCLOSE; IESTREAMID; IENEWTIMER; IEUPDATETIMER].

(** An error constant is its code wherever an integer is expected. *)
Coercion error_code : iperf_error >-> Z.

(** The enumeration constant of a code. *)
Definition error_of_code (n : Z) : option iperf_error :=
  list_find (fun e => error_code e = n) all_errors ≫= fun ie => Some ie.2.

(** ** The switch *)

(** The text of a case and the flags [herr] and [perr]. *)
Record message := Msg { text : string; herr : bool; perr : bool }.
Definition newline : string := String (chr 10) "".

Definition options_message (e : iperf_error) : option message :=
  match e with
  | IENONE =>
      Some (Msg ("no error")
            false false)
  | IESERVCLIENT =>
      Some (Msg ("cannot be both server and client")
            false false)
  | IENOROLE =>
      Some (Msg ("must either be a client (-c) or server (-s)")
            false false)
  | IESERVERONLY =>
      Some (Msg ("some option you are trying to set is server only")
            false false)
  | IECLIENTONLY =>
      Some (Msg ("some option you are trying to set is client only")
            false false)
  | IEDURATION =>
      Some (Msg ("test duration valid values are 0 to " ++ dec MAX_TIME ++ " seconds")
            false false)
  | IENUMSTREAMS =>
      Some (Msg ("number of parallel streams too large (maximum = " ++ dec MAX_STREAMS ++ ")")
            false false)
  | IEBLOCKSIZE =>
      Some (Msg ("block size too large (maximum = " ++ dec MAX_BLOCKSIZE ++ " bytes)")
            false false)
  | IEBUFSIZE =>
      Some (Msg ("socket buffer size too large (maximum = " ++ dec MAX_TCP_BUFFER ++ " bytes)")
            false false)
  | IEINTERVAL =>
      Some (Msg ("invalid report interval (min = 0.1, max = 60 seconds)")
            false false)
  | IEBIND =>
      Some (Msg ("--bind must be specified to use --cport")
            false false)
  | IEUDPBLOCKSIZE =>
      Some (Msg ("block size invalid (minimum = " ++ dec MIN_UDP_BLOCKSIZE ++ " bytes, maximum = " ++ dec MAX_UDP_BLOCKSIZE ++ " bytes)")
            false false)
  | IEBADTOS =>
      Some (Msg ("bad TOS value (must be between 0 and 255 inclusive)")
            false false)
  | IESETCLIENTAUTH =>
      Some (Msg ("you must specify a username, password, and path to a valid RSA public key")
            false false)
  | IESETSERVERAUTH =>
      Some (Msg ("you must specify a path to a valid RSA private key and a user credential file")
            false false)
  | IESERVERAUTHUSERS =>
      Some (Msg ("cannot access authorized users file")
            false false)
  | IEBADFORMAT =>
      Some (Msg ("bad format specifier (valid formats are in the set [kmgtKMGT])")
            false false)
  | IEBADPORT =>
      Some (Msg ("port number must be between 1 and 65535 inclusive")
            false false)
  | IEMSS =>
      Some (Msg ("TCP MSS too large (maximum = " ++ dec MAX_MSS ++ " bytes)")
            false false)
  | IENOSENDFILE =>
      Some (Msg ("this OS does not support sendfile")
            false false)
  | IEOMIT =>
      Some (Msg ("bogus value for --omit (maximum = " ++ dec MAX_OMIT_TIME ++ " seconds)")
            false false)
  | IEUNIMP =>
      Some (Msg ("an option you are trying to set is not implemented yet")
            false false)
  | IEFILE =>
      Some (Msg ("unable to open -F file")
            false true)
  | IEBURST =>
      Some (Msg ("invalid burst count (maximum = " ++ dec MAX_BURST ++ ")")
            false false)
  | IEENDCONDITIONS =>
      Some (Msg ("only one test end condition (-t, -n, -k) may be specified")
            false false)
  | IELOGFILE =>
      Some (Msg ("unable to open log file")
            false true)
  | IENOSCTP =>
      Some (Msg ("no SCTP support available")
            false false)
  | _ => None
  end.

Definition test_message (e : iperf_error) : option message :=
  match e with
  | IENEWTEST =>
      Some (Msg ("unable to create a new test")
            false true)
  | IEINITTEST =>
      Some (Msg ("test initialization failed")
            false true)
  | IEAUTHTEST =>
      Some (Msg ("test authorization failed")
            false false)
  | IELISTEN =>
      Some (Msg ("unable to start listener for connections")
            true true)
  | IECONNECT =>
      Some (Msg ("unable to connect to server - server may have stopped running or use a different port, firewall issue, etc.")
            true true)
  | IEACCEPT =>
      Some (Msg ("unable to accept connection from client")
            true true)
  | IESENDCOOKIE =>
      Some (Msg ("unable to send cookie to server")
            false true)
  | IERECVCOOKIE =>
      Some (Msg ("unable to receive cookie at server")
            false true)
  | IECTRLWRITE =>
      Some (Msg ("unable to write to the control socket")
            false true)
  | IECTRLREAD =>
      Some (Msg ("unable to read from the control socket")
            false true)
  | IECTRLCLOSE =>
      Some (Msg ("control socket has closed unexpectedly")
            false false)
  | IEMESSAGE =>
      Some (Msg ("received an unknown control message (ensure other side is iperf3 and not iperf)")
            false false)
  | IESENDMESSAGE =>
      Some (Msg ("unable to send control message - port may not be available, the other side may have stopped running, etc.")
            false true)
  | IERECVMESSAGE =>
      Some (Msg ("unable to receive control message - port may not be available, the other side may have stopped running, etc.")
            false true)
  | IESENDPARAMS =>
      Some (Msg ("unable to send parameters to server")
            false true)
  | IERECVPARAMS =>
      Some (Msg ("unable to receive parameters from client")
            false true)
  | IEPACKAGERESULTS =>
      Some (Msg ("unable to package results")
            false true)
  | IESENDRESULTS =>
      Some (Msg ("unable to send results")
            false true)
  | IERECVRESULTS =>
      Some (Msg ("unable to receive results")
            false true)
  | IESELECT =>
      Some (Msg ("select failed")
            false true)
  | IECLIENTTERM =>
      Some (Msg ("the client has terminated")
            false false)
  | IESERVERTERM =>
      Some (Msg ("the server has terminated")
            false false)
  | IEACCESSDENIED =>
      Some (Msg ("the server is busy running a test. try again later")
            false false)
  | IESETNODELAY =>
      Some (Msg ("unable to set TCP/SCTP NODELAY")
            false true)
  | IESETMSS =>
      Some (Msg ("unable to set TCP/SCTP MSS")
            false true)
  | IESETBUF =>
      Some (Msg ("unable to set socket buffer size")
            false true)
  | IESETTOS =>
      Some (Msg ("unable to set IP TOS")
            false true)
  | IESETCOS =>
      Some (Msg ("unable to set IPv6 traffic class")
            false true)
  | IESETFLOW =>
      Some (Msg ("unable to set IPv6 flow label")
            false false)
  | IEREUSEADDR =>
      Some (Msg ("unable to reuse address on socket")
            false true)
  | IENONBLOCKING =>
      Some (Msg ("unable to set socket to non-blocking")
            false true)
  | IESETWINDOWSIZE =>
      Some (Msg ("unable to set socket window size")
            false true)
  | IEPROTOCOL =>
      Some (Msg ("protocol does not exist")
            false false)
  | IEAFFINITY =>
      Some (Msg ("unable to set CPU affinity")
            false true)
  | IERCVTIMEOUT =>
      Some (Msg ("receive timeout value is incorrect or not in range")
            false true)
  | IESNDTIMEOUT =>
      Some (Msg ("send timeout value is incorrect or not in range")
            false true)
  | IEUDPFILETRANSFER =>
      Some (Msg ("cannot transfer file using UDP")
            false false)
  | IERVRSONLYRCVTIMEOUT =>
      Some (Msg ("client receive timeout is valid only in receiving mode")
            false true)
  | IEDAEMON =>
      Some (Msg ("unable to become a daemon")
            false true)
  | _ => None
  end.

Definition stream_message (e : iperf_error) : option message :=
  match e with
  | IECREATESTREAM =>
      Some (Msg ("unable to create a new stream")
            true true)
  | IEINITSTREAM =>
      Some (Msg ("unable to initialize stream")
            true true)
  | IESTREAMLISTEN =>
      Some (Msg ("unable to start stream listener")
            true true)
  | IESTREAMCONNECT =>
      Some (Msg ("unable to connect stream")
            true true)
  | IESTREAMACCEPT =>
      Some (Msg ("unable to accept stream connection")
            false true)
  | IESTREAMWRITE =>
      Some (Msg ("unable to write to stream socket")
            false true)
  | IESTREAMREAD =>
      Some (Msg ("unable to read from stream socket")
            false true)
  | IESTREAMCLOSE =>
      Some (Msg ("stream socket has closed unexpectedly")
            false false)
  | IESTREAMID =>
      Some (Msg ("stream has an invalid id")
            false false)
  | IENEWTIMER =>
      Some (Msg ("unable to create new timer")
            false true)
  | IEUPDATETIMER =>
      Some (Msg ("unable to update timer")
            false true)
  | IESETCONGESTION =>
      Some (Msg ("unable to set TCP_CONGESTION: Supplied congestion control algorithm not supported on this host")
            false false)
  | _ => None
  end.

Definition other_message (e : iperf_error) : option message :=
  match e with
  | IEPIDFILE =>
      Some (Msg ("unable to write PID file")
            false true)
  | IEV6ONLY =>
      Some (Msg ("Unable to set/reset IPV6_V6ONLY")
            false true)
  | IESETSCTPDISABLEFRAG =>
      Some (Msg ("unable to set SCTP_DISABLE_FRAGMENTS")
            false true)
  | IESETSCTPNSTREAM =>
      Some (Msg ("unable to set SCTP_INIT num of SCTP streams" ++ newline)
            false true)
  | IESETPACING =>
      Some (Msg ("unable to set socket pacing")
            false true)
  | IESETBUF2 =>
      Some (Msg ("socket buffer size not set correctly")
            false false)
  | IEREVERSEBIDIR =>
      Some (Msg ("cannot be both reverse and bidirectional")
            false false)
  | IETOTALRATE =>
      Some (Msg ("total required bandwidth is larger than server limit")
            false false)
  | IESKEWTHRESHOLD =>
      Some (Msg ("skew threshold must be a positive number")
            false false)
  | IEIDLETIMEOUT =>
      Some (Msg ("idle timeout parameter is not positive or larger than allowed limit")
            false false)
  | IEBINDDEV =>
      Some (Msg ("Unable to bind-to-device (check perror, maybe permissions?)")
            false false)
  | IEBINDDEVNOSUPPORT =>
      Some (Msg ("`<ip>%<dev>` is not supported as system does not support bind to device")
            false false)
  | IEHOSTDEV =>
      Some (Msg ("host device name (ip%<dev>) is supported (and required) only for IPv6 link-local address")
            false false)
  | IENOMSG =>
      Some (Msg ("idle timeout for receiving data")
            false false)
  | IESETDONTFRAGMENT =>
      Some (Msg ("unable to set IP Do-Not-Fragment flag")
            false false)
  | IESETUSERTIMEOUT =>
      Some (Msg ("unable to set TCP USER_TIMEOUT")
            false true)
  | IEPTHREADCREATE =>
      Some (Msg ("unable to create thread")
            false true)
  | IEPTHREADCANCEL =>
      Some (Msg ("unable to cancel thread")
            false true)
  | IEPTHREADJOIN =>
      Some (Msg ("unable to join thread")
            false true)
  | IEPTHREADATTRINIT =>
      Some (Msg ("unable to create thread attributes")
            false true)
  | IEPTHREADSIGMASK =>
      Some (Msg ("unable to change mask of blocked signals")
            false false)
  | IEPTHREADATTRDESTROY | IECNTLKA =>
      Some (Msg ("control connection Keepalive period should be larger than the full retry period (interval * count)")
            false true)
  | IESETCNTLKA =>
      Some (Msg ("unable to set socket keepalive (SO_KEEPALIVE) option")
            false true)
  | IESETCNTLKAKEEPIDLE =>
      Some (Msg ("unable to set socket keepalive TCP period (TCP_KEEPIDLE) option")
            false true)
  | IESETCNTLKAINTERVAL =>
      Some (Msg ("unable to set/get socket keepalive TCP retry interval (TCP_KEEPINTVL) option")
            false true)
  | IESETCNTLKACOUNT =>
      Some (Msg ("unable to set/get socket keepalive TCP number of retries (TCP_KEEPCNT) option")
            false true)
  | _ => None
  end.

Definition switch_message (e : iperf_error) : option message :=
  match options_message e with
  | Some m => Some m
  | None => match test_message e with
            | Some m => Some m
            | None => match stream_message e with Some m => Some m | None => other_message e end
            end
  end.

(** The buffer [errstr] has [len] bytes; [strncat] appends what fits. *)
Definition len : nat := 256.
Definition strncat (buf s : string) : string := truncate len (buf ++ s).

(** The result is the text and the new value of [gerror]. *)
Definition iperf_strerror (strerror gai_strerror : Z -> string) (errno gerror : Z) (int_errno : Z)
    : string * Z :=
  let m := match error_of_code int_errno with
           | Some e => switch_message e
           | None => None
           end in
  let m := match m with Some m => m | None => Msg ("int_errno=" ++ dec int_errno) false true end in
  let errstr := truncate len (text m) in
  let errstr := if herr m || perr m then strncat errstr ": " else errstr in
  if negb (errno =? 0) && perr m then (strncat errstr (strerror errno), gerror)
  else if herr m && negb (gerror =? 0) then (strncat errstr (gai_strerror gerror), 0)
  else (errstr, gerror).

(** ** Properties *)

Lemma error_of_code_code e : error_of_code (error_code e) = Some e.
Proof. destruct e; vm_compute; reflexivity. Qed.

Lemma truncate_length n s : (0 < n)%nat -> (String.length (truncate n s) < n)%nat.
Proof.
  intros Hn. unfold truncate. assert (String.length (String.substring 0 (n - 1) s) <= n - 1)%nat; [|lia].
  generalize (n - 1)%nat as k. clear. intros k. revert s; induction k as [|k IH]; intros [|c s]; cbn; try lia.
  specialize (IH s). lia.
Qed.
Lemma truncate_id n s : (String.length s < n)%nat -> truncate n s = s.
Proof.
  unfold truncate. intros Hn. assert (Hk : (String.length s <= n - 1)%nat) by lia. revert Hk.
  generalize (n - 1)%nat as k. clear. induction s as [|c s IH]; intros [|k] Hk; cbn in *; try done; [lia|].
  f_equal. apply IH. lia.
Qed.

(** The errors that the switch does not handle, and the one whose case falls
    through into the next and takes its text. *)
Definition unhandled (e : iperf_error) : bool :=
  bool_decide (e = IETOTALINTERVAL) || bool_decide (e = IESETSCTPBINDX).
Definition falls_through (e : iperf_error) : bool := bool_decide (e = IEPTHREADATTRDESTROY).

Definition message_text (e : iperf_error) : string :=
  match switch_message e with Some m => text m | None => "" end.

Lemma messages_distinct :
  NoDup (map message_text (filter (fun e => unhandled e || falls_through e = false) all_errors)).
Proof. apply (bool_decide_unpack _). vm_compute. exact I. Qed.
Lemma messages_short : Forall (fun e => (String.length (message_text e) < 254)%nat) all_errors.
Proof. apply (bool_decide_unpack _). vm_compute. exact I. Qed.
Lemma all_errors_all e : e ∈ all_errors.
Proof. apply (bool_decide_unpack _). destruct e; vm_compute; exact I. Qed.
Lemma handled_some e : unhandled e = false -> exists m, switch_message e = Some m.
Proof. destruct e; vm_compute; try done; eauto. Qed.
Lemma NoDup_map_inj {A B} (f : A -> B) (l : list A) x y :
  NoDup (map f l) -> x ∈ l -> y ∈ l -> f x = f y -> x = y.
Proof.
  induction l as [|z l IH]; cbn; [by intros _ ?%not_elem_of_nil|].
  rewrite NoDup_cons. intros [Hz Hl] [->|Hx]%elem_of_cons [->|Hy]%elem_of_cons Hf; [done| | |auto].
  - exfalso. apply Hz. rewrite Hf. by apply (list_elem_of_fmap_2 f).
  - exfalso. apply Hz. rewrite <-Hf. by apply (list_elem_of_fmap_2 f).
Qed.

(** Whatever the code and the texts of the C library, the message fits
    its buffer of 256 bytes; and for a handled code it is the text of the code,
    followed, when that fits, by a colon and the system's text, which depends
    on the flags of the case and on [errno] and [gerror]. *)
Lemma iperf_strerror_correct (strerror gai_strerror : Z -> string) (errno gerror int_errno : Z) :
  (String.length (iperf_strerror strerror gai_strerror errno gerror int_errno).1 < 256)%nat /\
  (forall e m, int_errno = error_code e -> switch_message e = Some m ->
     let detail := if negb (errno =? 0) && perr m then strerror errno
                   else if herr m && negb (gerror =? 0) then gai_strerror gerror else "" in
     let full := text m ++ (if herr m || perr m then ": " ++ detail else "") in
     (String.length full < 256)%nat ->
     (iperf_strerror strerror gai_strerror errno gerror int_errno).1 = full).
Proof.
  split.
  - unfold iperf_strerror. destruct (_ && _); [apply truncate_length; unfold len; lia|].
    destruct (_ && _); [apply truncate_length; unfold len; lia|].
    cbn [fst]. destruct (_ || _); apply truncate_length; unfold len; lia.
  - intros e m -> Hm detail full Hlen. unfold iperf_strerror. rewrite error_of_code_code, Hm.
    subst detail full.
    assert (Ht : (String.length (text m) < 254)%nat).
    { pose proof messages_short as Hs. rewrite Forall_forall in Hs.
      specialize (Hs e (all_errors_all e)). unfold message_text in Hs. by rewrite Hm in Hs. }
    rewrite (truncate_id len (text m)) by (unfold len; lia). unfold strncat.
    destruct m as [tx [] []]; cbn [herr perr text orb andb] in *;
      rewrite ?append_nil_r in *; rewrite ?andb_true_r, ?andb_false_r in *;
      destruct (errno =? 0), (gerror =? 0); cbn [negb andb fst] in *;
      rewrite ?append_nil_r in *; rewrite ?length_append in *;
      rewrite ?(truncate_id len (tx ++ ": ")) by (rewrite length_append; cbn; unfold len; lia);
      rewrite ?append_assoc;
      rewrite ?truncate_id by (rewrite ?length_append; cbn in *; unfold len; lia); done.
Qed.

(** Two handled errors never share a message, the only exception being
    IEPTHREADATTRDESTROY, whose case lacks its break and shows the message of
    IECNTLKA; and the two errors without a case show their number. *)
Lemma iperf_strerror_distinct (e1 e2 : iperf_error) :
  (unhandled e1 = false -> unhandled e2 = false -> falls_through e1 = false -> falls_through e2 = false ->
   message_text e1 = message_text e2 -> e1 = e2) /\
  switch_message IEPTHREADATTRDESTROY = switch_message IECNTLKA /\
  (unhandled e1 = true -> switch_message e1 = None).
Proof.
  split_and!.
  - intros U1 U2 F1 F2. apply (NoDup_map_inj _ _ _ _ messages_distinct);
      apply list_elem_of_filter; (split; [by rewrite ?U1, ?U2, ?F1, ?F2|apply all_errors_all]).
  - reflexivity.
  - by destruct e1.
Qed.
