(* ===== verification/Sys.v ===== *)
(** * The operating system as a script

    Code that talks to the operating system runs in a state monad.  A [world]
    holds the answers the system will give, in order, and the calls made so
    far with their answers; a program that asks for an answer when none is left
    is blocked, [None] ([None] also stands for undefined behaviour).  A theorem
    about all scripts is a theorem about every behaviour of the system; what a
    theorem assumes of the system is a predicate on the recorded calls.  Error
    numbers and flags are those of Darwin, the platform of the application. *)
From Stdlib Require Import String.
From stdpp Require Import strings.
From S2P Require Import Prelude IperfTime.
#[local] Open Scope Z_scope.

(** ** The monad *)

Definition M (S A : Type) : Type := S -> option (A * S).
Definition mret {S A} (a : A) : M S A := fun s => Some (a, s).
Definition mbnd {S A B} (m : M S A) (k : A -> M S B) : M S B :=
  fun s => match m s with Some (a, s') => k a s' | None => None end.
Definition mget {S} : M S S := fun s => Some (s, s).
Definition mmod {S} (f : S -> S) : M S unit := fun s => Some (tt, f s).
Definition mfail {S A} : M S A := fun _ => None.
(** An option as a computation. *)
Definition mopt {S A} (o : option A) : M S A := fun s => match o with Some a => Some (a, s) | None => None end.

Declare Scope prog_scope.
Notation "'let!' x := m 'in' k" := (mbnd m (fun x => k))
  (at level 10, x pattern, m at level 200, k at level 200, format "'[v' 'let!'  x  :=  m  'in' '/' k ']'") : prog_scope.
Notation "m ;; k" := (mbnd m (fun _ => k)) (at level 100, k at level 200, right associativity) : prog_scope.
#[global] Open Scope prog_scope.

(** Running a program on a part of a bigger state. *)
Definition lift {S T A} (get : S -> T) (put : T -> S -> S) (m : M T A) : M S A :=
  fun s => match m (get s) with Some (a, t) => Some (a, put t s) | None => None end.

(** ** Calls and answers *)

Definition fd := Z.

Inductive call :=
| Cread (f : fd) (n : Z) | Crecv (f : fd) (n opt : Z) | Cwrite (f : fd) (bytes : list Z)
| Csendfile (from to off n : Z) | Cselect (rd : list fd) (timeout : option (Z * Z))
| Cpoll (f : fd) (timeout : Z) | Cclock_gettime
| Csocket (domain type proto : Z) | Cgetaddrinfo (name : option string) (port : option Z)
| Cbind (f : fd) | Clisten (f backlog : Z) | Cconnect (f : fd) | Caccept (f : fd) | Cclose (f : fd)
| Cgetsockopt (f lvl opt : Z) | Csetsockopt (f lvl opt v : Z) | Cfcntl (f cmd arg : Z)
| Cgetsockname (f : fd) | Cgetpeername (f : fd) | Crecvfrom (f : fd) (n : Z)
| Copen (name : string) (flags : Z) | Cgetenv (name : string) | Cmkstemp (template : string) | Cunlink (template : string)
| Cftruncate (f : fd) (n : Z) | Cmmap (f : fd) (n : Z) | Cmunmap (n : Z) | Crandom (n : Z)
| Cgetrusage | Cclock | Cnanosleep (ns : Z)
| Cpthread_attr_init | Cpthread_attr_destroy | Cpthread_create (stream : Z) | Cpthread_cancel (stream : Z)
| Cpthread_join (stream : Z)
| Cfprintf (text : string) | Cstrftime (format : string) | Cfstat (f : fd) | Cstat (name : string) | Cinet_pton (name : string)
| Cuname | Cstrerror (errno gerror : Z)
| Csignal (sig : Z) | Cstrsignal (sig : Z) | Ckill (pid sig : Z) | Cgetpid.

(** The return value, the error number when it is negative, the bytes stored
    through a buffer argument, and other output arguments. *)
Record reply := Reply { ret : Z; err : Z; data : list Z; outs : list Z }.

Record world := World {
  script : list reply; trace : list (call * reply);
  errno : Z; gerror : Z; i_errno : Z }.
#[export] Instance world_eta : Settable world :=
  fun r => World (script r) (trace r) (errno r) (gerror r) (i_errno r).

(** One call: the next answer, recorded; a negative result sets [errno]. *)
Definition sys (c : call) : M world reply := fun w =>
  match script w with
  | [] => None
  | r :: rest => Some (r, w <| script := rest |> <| trace ::= fun t => t ++ [(c, r)] |>
                           <| errno ::= fun e => if ret r <? 0 then err r else e |>)
  end.
Definition get_errno : M world Z := fun w => Some (errno w, w).
Definition set_errno (e : Z) : M world unit := mmod (fun w => w <| errno := e |>).
Definition set_i_errno (e : Z) : M world unit := mmod (fun w => w <| i_errno := e |>).

(** [iperf_time_now] into an uninitialised variable, which stays so (undefined
    behaviour when read) if the clock fails. *)
Definition time_now : M world iperf_time :=
  let! r := sys Cclock_gettime in
  if ret r =? 0
  then mret (iperf_time_now (Some (nth 0 (outs r) 0, nth 1 (outs r) 0)) (Time 0 0)).2 else mfail.

(** ** Constants of the C library *)

Definition EINTR := 4.
Definition ENOMEM := 12.
Definition EAGAIN := 35.
Definition EINPROGRESS := 36.
Definition EAFNOSUPPORT := 47.
Definition ENOBUFS := 55.
Definition ETIMEDOUT := 60.
Definition AF_UNSPEC := 0.
Definition AF_INET := 2.
Definition AF_INET6 := 30.
Definition SOCK_STREAM := 1.
Definition SOCK_DGRAM := 2.
Definition MSG_TRUNC := 0x10.
Definition O_NONBLOCK := 4.
Definition F_GETFL := 3.
Definition F_SETFL := 4.
Definition SOL_SOCKET := 0xffff.
Definition SO_ERROR := 0x1007.
Definition SO_REUSEADDR := 4.
Definition SO_BINDTODEVICE := 0x1134.
Definition IPPROTO_IPV6 := 41.
Definition IPV6_V6ONLY := 27.
Definition INT_MAX := 2 ^ 31 - 1.

(** ** What a run recorded *)

(** The calls made by a program are appended to the trace, and the script left
    is a suffix of the script given. *)
Definition extends (w w' : world) : Prop :=
  exists new, trace w' = trace w ++ new /\ script w = map snd new ++ script w'.

#[export] Instance extends_refl : Reflexive extends.
Proof. intros w. exists []. by rewrite app_nil_r. Qed.
#[export] Instance extends_trans : Transitive extends.
Proof.
  intros a b c (n1 & H1 & S1) (n2 & H2 & S2). exists (n1 ++ n2).
  rewrite H2, H1, S1, S2, map_app, <-!app_assoc. done.
Qed.
Lemma sys_extends c w r w' : sys c w = Some (r, w') -> extends w w'.
Proof.
  unfold sys. destruct (script w) as [|x rest] eqn:E; [done|]. intros [= <- <-].
  exists [(c, x)]. cbn. by rewrite E.
Qed.

(** The new part of the trace. *)
Definition calls (w w' : world) : list (call * reply) := drop (length (trace w)) (trace w').
Lemma calls_app w w' new : trace w' = trace w ++ new -> calls w w' = new.
Proof. unfold calls. intros ->. by rewrite drop_app_length. Qed.

Lemma bind_assoc {S A B C} (m : M S A) (k : A -> M S B) (h : B -> M S C) s :
  mbnd (mbnd m k) h s = mbnd m (fun a => mbnd (k a) h) s.
Proof. unfold mbnd. by destruct (m s) as [[a s1]|]. Qed.
(** Inversion of a bind. *)
Lemma mbnd_inv {S A B} (m : M S A) (k : A -> M S B) s b s' :
  mbnd m k s = Some (b, s') -> exists a s1, m s = Some (a, s1) /\ k a s1 = Some (b, s').
Proof. unfold mbnd. destruct (m s) as [[a s1]|]; [eauto|done]. Qed.
Lemma bind_run {S A B} (m : M S A) (k : A -> M S B) s a s1 : m s = Some (a, s1) -> mbnd m k s = k a s1.
Proof. unfold mbnd. by intros ->. Qed.

(** [run_prog] runs the commands of the goal. *)
Ltac run_prog := cbn [mbnd mret mget mmod mfail mopt sys script trace errno gerror i_errno ret err data outs
  modify_field world_eta eta_of lift fst snd].

(** ** Reasoning about the calls a program makes

    [emits m Q]: every run of [m] extends the trace by some calls [t], using up
    the answers recorded in them, and [Q] holds of the result and of [t]. *)
Definition emits {A} (m : M world A) (Q : A -> list (call * reply) -> Prop) : Prop :=
  forall w a w', m w = Some (a, w') ->
    exists t, trace w' = trace w ++ t /\ script w = map snd t ++ script w' /\ Q a t.

Lemma emits_calls {A} (m : M world A) Q w a w' :
  emits m Q -> m w = Some (a, w') -> Q a (calls w w') /\ extends w w'.
Proof.
  intros Hm Hr. destruct (Hm w a w' Hr) as (t & Ht & Hs & HQ).
  rewrite (calls_app _ _ _ Ht). split; [done|by exists t].
Qed.
Lemma emits_ret {A} (a : A) (Q : A -> list (call * reply) -> Prop) : Q a [] -> emits (mret a) Q.
Proof. intros HQ w b w' [= -> ->]. exists []. by rewrite app_nil_r. Qed.
Lemma emits_fail {A} (Q : A -> list (call * reply) -> Prop) : emits mfail Q.
Proof. done. Qed.
Lemma emits_bind {A B} (m : M world A) (k : A -> M world B) Q :
  emits m (fun a t1 => emits (k a) (fun b t2 => Q b (t1 ++ t2))) -> emits (mbnd m k) Q.
Proof.
  intros Hm w b w' Hr. apply mbnd_inv in Hr as (a & w1 & H1 & H2).
  destruct (Hm _ _ _ H1) as (t1 & Ht1 & Hs1 & Hk). destruct (Hk _ _ _ H2) as (t2 & Ht2 & Hs2 & HQ).
  exists (t1 ++ t2). rewrite Ht2, Ht1, Hs1, Hs2, map_app, <-!app_assoc. done.
Qed.
Lemma emits_sys c (Q : reply -> list (call * reply) -> Prop) : (forall r, Q r [(c, r)]) -> emits (sys c) Q.
Proof.
  intros HQ w r w' Hr. exists [(c, r)]. unfold sys in Hr.
  destruct (script w) as [|x rest] eqn:E; [done|]. injection Hr as <- <-. cbn. auto.
Qed.
Lemma emits_mono {A} (m : M world A) (P Q : A -> list (call * reply) -> Prop) :
  emits m P -> (forall a t, P a t -> Q a t) -> emits m Q.
Proof. intros Hm HPQ w a w' Hr. destruct (Hm _ _ _ Hr) as (t & ? & ? & ?). eauto 6. Qed.
Lemma emits_silent {A} (m : M world A) (Q : A -> list (call * reply) -> Prop) :
  (forall w a w', m w = Some (a, w') -> trace w' = trace w /\ script w' = script w) ->
  (forall a, Q a []) -> emits m Q.
Proof.
  intros Hm HQ w a w' Hr. destruct (Hm _ _ _ Hr) as [Ht Hs]. exists [].
  rewrite app_nil_r, Ht, Hs. done.
Qed.
Lemma emits_get_errno (Q : Z -> list (call * reply) -> Prop) : (forall e, Q e []) -> emits get_errno Q.
Proof. apply emits_silent. by intros w a w' [= <- <-]. Qed.
Lemma emits_set_errno e (Q : unit -> list (call * reply) -> Prop) : Q tt [] -> emits (set_errno e) Q.
Proof. intros HQ. apply emits_silent; [intros w [] w' Hw; injection Hw as <-; done|by intros []]. Qed.
Lemma emits_set_i_errno e (Q : unit -> list (call * reply) -> Prop) : Q tt [] -> emits (set_i_errno e) Q.
Proof. intros HQ. apply emits_silent; [intros w [] w' Hw; injection Hw as <-; done|by intros []]. Qed.
Lemma emits_mod_gerror f (Q : unit -> list (call * reply) -> Prop) :
  Q tt [] -> emits (mmod (fun w => w <| gerror ::= f |>)) Q.
Proof. intros HQ. apply emits_silent; [intros w [] w' Hw; injection Hw as <-; done|by intros []]. Qed.
Lemma emits_time_now (Q : iperf_time -> list (call * reply) -> Prop) :
  (forall t r, Q t [(Cclock_gettime, r)]) -> emits time_now Q.
Proof.
  intros HQ. unfold time_now. apply emits_bind, emits_sys. intros r.
  destruct (ret r =? 0); [apply emits_ret; exact (HQ _ _)|apply emits_fail].
Qed.

(** One step of symbolic execution of an [emits] goal. *)
Ltac emit_step :=
  match goal with
  | |- emits (mbnd _ _) _ => apply emits_bind
  | |- emits (sys _) _ => apply emits_sys; intros ?
  | |- emits (mret _) _ => apply emits_ret
  | |- emits mfail _ => apply emits_fail
  | |- emits get_errno _ => apply emits_get_errno; intros ?
  | |- emits (set_errno _) _ => apply emits_set_errno
  | |- emits (set_i_errno _) _ => apply emits_set_i_errno
  | |- emits time_now _ => apply emits_time_now; intros ? ?
  | |- emits (mmod (fun w => w <| gerror := _ |>)) _ => apply emits_mod_gerror
  | |- emits (if ?b then _ else _) _ => let E := fresh "E" in destruct b eqn:E
  | |- emits (match ?o with Some _ => _ | None => _ end) _ => destruct o
  | |- emits (let '(_, _) := ?p in _) _ => destruct p
  end; cbn beta.
Ltac emit := repeat emit_step.

(** Descriptors opened and not closed by a sequence of calls. *)
Fixpoint open_fds (open : list fd) (t : list (call * reply)) : list fd :=
  match t with
  | [] => open
  | (Csocket _ _ _, r) :: t | (Caccept _, r) :: t =>
      open_fds (if ret r <? 0 then open else ret r :: open) t
  | (Copen _ _, r) :: t | (Cmkstemp _, r) :: t => open_fds (if ret r <? 0 then open else ret r :: open) t
  | (Cclose f, _) :: t => open_fds (filter (fun g => g <> f) open) t
  | _ :: t => open_fds open t
  end.

Lemma open_fds_app open t1 t2 : open_fds open (t1 ++ t2) = open_fds (open_fds open t1) t2.
Proof. revert open; induction t1 as [|[[] r] t1 IH]; intros open; cbn; auto. Qed.

(** Calls that open and close nothing. *)
Definition quiet (t : list (call * reply)) : Prop := forall open, open_fds open t = open.

(** ** Running a program on a known script *)

Definition answered (c : call) (r : reply) (w : world) : world :=
  w <| script ::= tail |> <| trace ::= fun t => t ++ [(c, r)] |>
    <| errno ::= fun e => if ret r <? 0 then err r else e |>.

Lemma run_sys {B} c (k : reply -> M world B) w r rest :
  script w = r :: rest -> mbnd (sys c) k w = k r (answered c r w).
Proof. intros Hs. unfold mbnd, sys, answered. rewrite Hs. cbn. by rewrite Hs. Qed.
Lemma script_answered c r w x rest : script w = x :: rest -> script (answered c r w) = rest.
Proof. cbn. by intros ->. Qed.
Lemma run_errno {B} (k : Z -> M world B) w : mbnd get_errno k w = k (errno w) w.
Proof. done. Qed.
Lemma run_time {B} (k : iperf_time -> M world B) w s ns l rest :
  script w = Reply 0 0 l [s; ns] :: rest ->
  mbnd time_now k w = k (Time (u32 s) (u32 ns / 1000)) (answered Cclock_gettime (Reply 0 0 l [s; ns]) w).
Proof. intros Hs. unfold time_now, mbnd at 1. by rewrite (run_sys _ _ _ _ _ Hs). Qed.
