(* ===== verification/Queue.v ===== *)
(** * The lists of queue.h

    The streams and protocols of a test are singly-linked lists, the intervals
    and the kept output are tail queues, whose back pointers are the addresses
    of the pointers that lead to an element.  The macros run here on a heap of
    such elements, and are shown to be the operations on lists that the rest of
    the library uses. *)
From S2P Require Import Prelude Sys.

Definition first_of (ls : list positive) (nx : option positive) : option positive := match ls with [] => nx | l :: _ => Some l end.

(** ** Singly-linked lists *)

Module Slist.
(** The head and the pointer in each element. *)
Record slist := mk { slh_first : option positive; sle_next : gmap positive (option positive) }.
#[global] Instance eta : Settable slist := fun r => mk (slh_first r) (sle_next r).
Abbreviation L := (M slist).

(** The link of an element; a null or unknown one is undefined. *)
Definition link (elm : option positive) : L (option positive) := fun s =>
  match elm with Some l => x ← sle_next s !! l; Some (x, s) | None => None end.
Definition set_link (elm : positive) (x : option positive) : L unit := fun s =>
  match sle_next s !! elm with Some _ => Some (tt, s <| sle_next ::= <[elm := x]> |>) | None => None end.
Definition SLIST_FIRST : L (option positive) := let! s := mget in mret (slh_first s).
Definition SLIST_EMPTY : L bool := let! f := SLIST_FIRST in mret (match f with None => true | Some _ => false end).
Definition SLIST_NEXT := link.
Definition SLIST_INIT : L unit := mmod (fun s => s <| slh_first := None |>).
Definition SLIST_INSERT_AFTER (slistelm elm : positive) : L unit :=
  let! x := link (Some slistelm) in set_link elm x ;; set_link slistelm (Some elm).
Definition SLIST_INSERT_HEAD (elm : positive) : L unit :=
  let! f := SLIST_FIRST in set_link elm f ;; mmod (fun s => s <| slh_first := Some elm |>).
Definition SLIST_REMOVE_HEAD : L unit :=
  let! f := SLIST_FIRST in let! x := link f in mmod (fun s => s <| slh_first := x |>).
(** The elements that a loop visits. *)
Fixpoint foreach (fuel : nat) (var : option positive) : L (list positive) :=
  match var, fuel with
  | None, _ => mret []
  | Some _, O => mfail
  | Some l, S fuel => let! x := SLIST_NEXT var in let! ls := foreach fuel x in mret (l :: ls)
  end.
Definition SLIST_FOREACH : L (list positive) := let! s := mget in let! f := SLIST_FIRST in foreach (size (sle_next s)) f.

(** The elements of [ls] in a row, the last one pointing to [nx]. *)
Fixpoint chain (h : gmap positive (option positive)) (ls : list positive) (nx : option positive) : Prop :=
  match ls with [] => True | l :: ls => h !! l = Some (first_of ls nx) /\ chain h ls nx end.
Record holds (s : slist) (ls : list positive) : Prop := {
  h_first : slh_first s = first_of ls None; h_chain : chain (sle_next s) ls None; h_nodup : NoDup ls }.

Lemma slist_frame h h' ls nx : (forall l, l ∈ ls -> h' !! l = h !! l) -> chain h ls nx -> chain h' ls nx.
Proof.
  induction ls as [|l ls IH]; [done|]. intros Hh [Hl Hc]. split; [rewrite Hh; [done|by left]|]. apply IH; [|done].
  intros x Hx. apply Hh. by right.
Qed.
Lemma slist_app h a b nx : chain h (a ++ b) nx <-> chain h a (first_of b nx) /\ chain h b nx.
Proof. induction a as [|l a IH]; cbn; [naive_solver|]. rewrite IH. destruct a; naive_solver. Qed.
Lemma link_run s l x : sle_next s !! l = Some x -> link (Some l) s = Some (x, s).
Proof. unfold link. by intros ->. Qed.
Lemma set_link_run s l x : is_Some (sle_next s !! l) -> set_link l x s = Some (tt, s <| sle_next ::= <[l := x]> |>).
Proof. unfold set_link. by intros [y ->]. Qed.

Lemma slist_insert_head s ls elm : holds s ls -> is_Some (sle_next s !! elm) -> elm ∉ ls ->
  exists s', SLIST_INSERT_HEAD elm s = Some (tt, s') /\ holds s' (elm :: ls).
Proof.
  intros [Hf Hc Hd] Hy Hn. unfold SLIST_INSERT_HEAD, SLIST_FIRST. eexists. split.
  - unfold mbnd, mget, mret, mmod. by rewrite set_link_run.
  - split; cbn; [done| |by apply NoDup_cons]. split; [by rewrite lookup_insert_eq, Hf|].
    eapply slist_frame; [|exact Hc]. intros l Hl. apply lookup_insert_ne. by intros ->.
Qed.
Lemma insert_after_holds s pre l post elm : holds s (pre ++ l :: post) -> is_Some (sle_next s !! elm) -> elm ∉ pre ++ l :: post ->
  exists s', SLIST_INSERT_AFTER l elm s = Some (tt, s') /\ holds s' (pre ++ l :: elm :: post).
Proof.
  intros [Hf Hc Hd] Hy Hn. apply slist_app in Hc as (Hp & Hl & Ho). cbn [first_of] in Hp. unfold SLIST_INSERT_AFTER.
  rewrite (bind_run _ _ _ _ _ (link_run _ _ _ Hl)), (bind_run _ _ _ _ _ (set_link_run _ _ _ Hy)).
  assert (elm <> l) as Hne by (intros ->; apply Hn; apply elem_of_app; right; by left).
  rewrite set_link_run by (cbn; rewrite lookup_insert_ne by done; eauto). eexists. split; [done|].
  assert ((l ∉ pre) /\ (l ∉ post)) as [Hlp Hlo] by (apply NoDup_app in Hd as (_ & Hx & [? _]%NoDup_cons); split; [intros Hin; apply (Hx l Hin); by left|done]).
  split; cbn.
  - rewrite Hf. by destruct pre.
  - apply slist_app. cbn [first_of chain]. split; [|split; [by rewrite lookup_insert_eq|split; [by rewrite lookup_insert_ne, lookup_insert_eq by done|]]].
    + eapply slist_frame; [|exact Hp]. intros x Hx. rewrite !lookup_insert_ne; [done|set_solver..].
    + eapply slist_frame; [|exact Ho]. intros x Hx. rewrite !lookup_insert_ne; [done|set_solver..].
  - rewrite !NoDup_app, !NoDup_cons in *. set_solver.
Qed.
Lemma remove_head_holds s l ls : holds s (l :: ls) -> exists s', SLIST_REMOVE_HEAD s = Some (tt, s') /\ holds s' ls.
Proof.
  intros [Hf [Hl Hc] [_ Hd]%NoDup_cons]. unfold SLIST_REMOVE_HEAD, SLIST_FIRST, mbnd, mget, mret, mmod. rewrite Hf. cbn [first_of].
  rewrite (link_run _ _ _ Hl). by eexists.
Qed.
Lemma slist_foreach_run s ls : forall fuel, chain (sle_next s) ls None -> (length ls <= fuel)%nat -> foreach fuel (first_of ls None) s = Some (ls, s).
Proof.
  induction ls as [|l ls IH]; intros fuel Hc Hf; [by destruct fuel|]. destruct Hc as [Hl Hc]. destruct fuel as [|fuel]; [cbn in Hf; lia|].
  cbn [first_of foreach]. unfold SLIST_NEXT. rewrite (bind_run _ _ _ _ _ (link_run _ _ _ Hl)). cbn in Hf.
  by rewrite (bind_run _ _ _ _ _ (IH fuel Hc ltac:(lia))).
Qed.
Lemma slist_size h ls nx : chain h ls nx -> NoDup ls -> (length ls <= size h)%nat.
Proof.
  intros Hc Hd. rewrite <-size_dom, <-(size_list_to_set (C := gset positive) ls) by done. apply subseteq_size. intros l Hl.
  apply elem_of_list_to_set in Hl. apply elem_of_dom. clear Hd. induction ls as [|x ls IH]; [by apply not_elem_of_nil in Hl|].
  destruct Hc as [Hx Hc]. apply elem_of_cons in Hl as [->|Hl]; eauto.
Qed.
Lemma slist_visits s ls : holds s ls -> SLIST_FOREACH s = Some (ls, s).
Proof.
  intros [Hf Hc Hd]. unfold SLIST_FOREACH, SLIST_FIRST, mbnd at 1, mget, mbnd at 1, mbnd at 1, mret. rewrite Hf.
  apply slist_foreach_run; [done|by eapply slist_size].
Qed.
End Slist.

(** ** Tail queues *)

Module Tailq.
(** Where a pointer to an element is stored: in the head or in an element. *)
Inductive slot := Head | After (l : positive).
Record entry := Entry { tqe_next : option positive; tqe_prev : slot }.
#[global] Instance entry_eta : Settable entry := fun r => Entry (tqe_next r) (tqe_prev r).
Record tailq := mk { tqh_first : option positive; tqh_last : slot; entries : gmap positive entry }.
#[global] Instance eta : Settable tailq := fun r => mk (tqh_first r) (tqh_last r) (entries r).
Abbreviation Q := (M tailq).

Definition get (l : positive) : Q entry := fun q => e ← entries q !! l; Some (e, q).
Definition put (l : positive) (f : entry -> entry) : Q unit := fun q =>
  match entries q !! l with Some e => Some (tt, q <| entries ::= <[l := f e]> |>) | None => None end.
Definition deref (s : slot) : Q (option positive) :=
  match s with Head => let! q := mget in mret (tqh_first q) | After l => let! e := get l in mret (tqe_next e) end.
Definition store (s : slot) (x : option positive) : Q unit :=
  match s with Head => mmod (fun q => q <| tqh_first := x |>) | After l => put l (fun e => e <| tqe_next := x |>) end.

Definition TAILQ_FIRST : Q (option positive) := let! q := mget in mret (tqh_first q).
Definition TAILQ_EMPTY : Q bool := let! f := TAILQ_FIRST in mret (match f with None => true | Some _ => false end).
Definition TAILQ_NEXT (elm : positive) : Q (option positive) := let! e := get elm in mret (tqe_next e).
(** A head and an entry are laid out alike: the slot is read as a head, whose
    second pointer is followed. *)
Definition second (s : slot) : Q slot :=
  match s with Head => let! q := mget in mret (tqh_last q) | After l => let! e := get l in mret (tqe_prev e) end.
Definition TAILQ_LAST : Q (option positive) := let! q := mget in let! s := second (tqh_last q) in deref s.
Definition TAILQ_INIT : Q unit := mmod (fun q => q <| tqh_first := None |>) ;; mmod (fun q => q <| tqh_last := Head |>).
Definition TAILQ_INSERT_HEAD (elm : positive) : Q unit :=
  let! f := TAILQ_FIRST in
  put elm (fun e => e <| tqe_next := f |>) ;;
  match f with
  | Some n => put n (fun e => e <| tqe_prev := After elm |>)
  | None => mmod (fun q => q <| tqh_last := After elm |>)
  end ;;
  mmod (fun q => q <| tqh_first := Some elm |>) ;; put elm (fun e => e <| tqe_prev := Head |>).
Definition TAILQ_INSERT_TAIL (elm : positive) : Q unit :=
  put elm (fun e => e <| tqe_next := None |>) ;;
  let! q := mget in put elm (fun e => e <| tqe_prev := tqh_last q |>) ;;
  let! q := mget in store (tqh_last q) (Some elm) ;;
  mmod (fun q => q <| tqh_last := After elm |>).
Definition TAILQ_REMOVE (elm : positive) : Q unit :=
  let! e := get elm in
  match tqe_next e with
  | Some n => put n (fun x => x <| tqe_prev := tqe_prev e |>)
  | None => mmod (fun q => q <| tqh_last := tqe_prev e |>)
  end ;;
  let! e := get elm in store (tqe_prev e) (tqe_next e).
Fixpoint foreach (fuel : nat) (var : option positive) : Q (list positive) :=
  match var, fuel with
  | None, _ => mret []
  | Some _, O => mfail
  | Some l, S fuel => let! x := TAILQ_NEXT l in let! ls := foreach fuel x in mret (l :: ls)
  end.
Definition TAILQ_FOREACH : Q (list positive) := let! q := mget in let! f := TAILQ_FIRST in foreach (size (entries q)) f.

(** The elements of [ls] behind the slot [s], the last one pointing to [nx]. *)
Fixpoint chain (h : gmap positive entry) (s : slot) (ls : list positive) (nx : option positive) : Prop :=
  match ls with [] => True | l :: ls => h !! l = Some (Entry (first_of ls nx) s) /\ chain h (After l) ls nx end.
Fixpoint end_of (s : slot) (ls : list positive) : slot := match ls with [] => s | l :: ls => end_of (After l) ls end.
Record holds (q : tailq) (ls : list positive) : Prop := {
  h_first : tqh_first q = first_of ls None; h_last : tqh_last q = end_of Head ls;
  h_chain : chain (entries q) Head ls None; h_nodup : NoDup ls }.

Lemma tailq_frame h h' ls : forall s nx, (forall l, l ∈ ls -> h' !! l = h !! l) -> chain h s ls nx -> chain h' s ls nx.
Proof.
  induction ls as [|l ls IH]; [done|]. intros s nx Hh [Hl Hc]. split; [rewrite Hh; [done|by left]|]. apply IH; [|done].
  intros x Hx. apply Hh. by right.
Qed.
Lemma tailq_app h a b : forall s nx, chain h s (a ++ b) nx <-> chain h s a (first_of b nx) /\ chain h (end_of s a) b nx.
Proof. induction a as [|l a IH]; intros s nx; cbn; [naive_solver|]. rewrite IH. destruct a; naive_solver. Qed.
Lemma end_of_app a b : forall s, end_of s (a ++ b) = end_of (end_of s a) b.
Proof. induction a as [|l a IH]; [done|]. intros s. apply IH. Qed.
(** The end of a row that is not empty is in its last element. *)
Lemma end_of_snoc s a l : end_of s (a ++ [l]) = After l.
Proof. by rewrite end_of_app. Qed.
Lemma tailq_first_app a b nx : first_of (a ++ b) nx = first_of a (first_of b nx).
Proof. by destruct a. Qed.

Lemma get_run q l e : entries q !! l = Some e -> get l q = Some (e, q).
Proof. unfold get. by intros ->. Qed.
Lemma put_run q l e f : entries q !! l = Some e -> put l f q = Some (tt, q <| entries ::= <[l := f e]> |>).
Proof. unfold put. by intros ->. Qed.
(** The row in front of a slot points to something else. *)
Lemma tailq_store_run q pre x nx : tqh_first q = first_of pre x -> chain (entries q) Head pre x -> NoDup pre ->
  exists q', store (end_of Head pre) nx q = Some (tt, q') /\ tqh_first q' = first_of pre nx /\ tqh_last q' = tqh_last q /\
    chain (entries q') Head pre nx /\ (forall l, l ∉ pre -> entries q' !! l = entries q !! l).
Proof.
  destruct pre as [|z pre _] using rev_ind; intros Hf Hc Hd; [by eexists|].
  rewrite end_of_snoc. cbn [store]. apply tailq_app in Hc as [Hp [Hz _]]. cbn [first_of] in *.
  apply NoDup_app in Hd as (_ & Hd & _). eexists. split; [by apply (put_run _ _ _ _ Hz)|]. cbn.
  split; [by rewrite Hf, !tailq_first_app|]. split; [done|]. split.
  - apply tailq_app. split; [|by split; [rewrite lookup_insert_eq|]]. eapply tailq_frame; [|exact Hp].
    intros l Hl. apply lookup_insert_ne. intros <-. apply (Hd z Hl). by left.
  - intros l Hl. apply lookup_insert_ne. set_solver.
Qed.

Lemma insert_tail_holds q ls elm : holds q ls -> is_Some (entries q !! elm) -> elm ∉ ls ->
  exists q', TAILQ_INSERT_TAIL elm q = Some (tt, q') /\ holds q' (ls ++ [elm]).
Proof.
  intros [Hf Hl Hc Hd] [e He] Hn. unfold TAILQ_INSERT_TAIL. rewrite (bind_run _ _ _ _ _ (put_run _ _ _ _ He)).
  set (q1 := q <| entries ::= _ |>). assert (entries q1 !! elm = Some (e <| tqe_next := None |>)) as H1 by (cbn; by rewrite lookup_insert_eq).
  rewrite (bind_run mget _ q1 q1 q1) by done. rewrite (bind_run _ _ _ _ _ (put_run _ _ _ _ H1)). set (q2 := q1 <| entries ::= _ |>).
  rewrite (bind_run mget _ q2 q2 q2) by done. change (tqh_last q2) with (tqh_last q). rewrite Hl.
  assert (forall l, l <> elm -> entries q2 !! l = entries q !! l) as Hout by (intros l Hne; cbn; by rewrite !lookup_insert_ne by done).
  destruct (tailq_store_run q2 ls None (Some elm)) as (q3 & Hr & Hf3 & Hl3 & Hc3 & Ho3); [exact Hf| |done|].
  { eapply tailq_frame; [|exact Hc]. intros l Hin. apply Hout. by intros ->. }
  rewrite (bind_run _ _ _ _ _ Hr). eexists. split; [done|]. split; cbn.
  - by rewrite Hf3, tailq_first_app.
  - by rewrite end_of_snoc.
  - apply tailq_app. split; [exact Hc3|]. split; [|done]. rewrite Ho3 by done. cbn. rewrite lookup_insert_eq. cbn. by rewrite Hl.
  - apply NoDup_app. split; [done|]. split; [set_solver|apply NoDup_singleton].
Qed.
Lemma tailq_insert_head q ls elm : holds q ls -> is_Some (entries q !! elm) -> elm ∉ ls ->
  exists q', TAILQ_INSERT_HEAD elm q = Some (tt, q') /\ holds q' (elm :: ls).
Proof.
  intros [Hf Hl Hc Hd] [e He] Hn. unfold TAILQ_INSERT_HEAD, TAILQ_FIRST.
  rewrite (bind_run _ _ q (tqh_first q) q) by done. rewrite (bind_run _ _ _ _ _ (put_run _ _ _ _ He)), Hf.
  destruct ls as [|n ls]; cbn [first_of].
  - eexists. split; [unfold mbnd, mmod, put; cbn; by rewrite lookup_insert_eq|]. split; [done|done| |apply NoDup_singleton].
    cbn. by rewrite lookup_insert_eq.
  - destruct Hc as [Hn1 Hc]. assert (n <> elm) as Hne by (intros ->; apply Hn; by left). apply NoDup_cons in Hd as [Hd1 Hd].
    eexists. split.
    + unfold mbnd, mmod, put. cbn. rewrite lookup_insert_ne by done. rewrite Hn1. cbn. by rewrite lookup_insert_ne, lookup_insert_eq by done.
    + split; [done|by rewrite Hl| |apply NoDup_cons; split; [done|by apply NoDup_cons]].
      cbn. split; [by rewrite lookup_insert_eq|]. split; [by rewrite lookup_insert_ne, lookup_insert_eq by done|].
      eapply tailq_frame; [|exact Hc]. intros l Hin. rewrite !lookup_insert_ne; [done|set_solver..].
Qed.
Lemma remove_holds q pre elm post : holds q (pre ++ elm :: post) -> exists q', TAILQ_REMOVE elm q = Some (tt, q') /\ holds q' (pre ++ post).
Proof.
  intros [Hf Hl Hc Hd]. apply tailq_app in Hc as (Hp & He & Ho). cbn [first_of] in Hp. unfold TAILQ_REMOVE.
  rewrite (bind_run _ _ _ _ _ (get_run _ _ _ He)). cbn [tqe_next tqe_prev]. rewrite tailq_first_app in Hf. rewrite end_of_app in Hl. cbn [first_of end_of] in Hf, Hl.
  apply NoDup_app in Hd as (Hd1 & Hd2 & [Hd3 Hd4]%NoDup_cons).
  set (mid := match first_of post None with Some n => _ | None => _ end).
  assert (exists q1, mid q = Some (tt, q1) /\ tqh_first q1 = tqh_first q /\ tqh_last q1 = end_of (end_of Head pre) post /\
    chain (entries q1) (end_of Head pre) post None /\ (forall l, l ∉ post -> entries q1 !! l = entries q !! l)) as (q1 & Hr & Hf1 & Hl1 & Hc1 & Ho1).
  { subst mid. destruct post as [|n post]; [by eexists|]. destruct Ho as [Hn Ho]. cbn [first_of].
    eexists. split; [by apply (put_run _ _ _ _ Hn)|]. cbn. split; [done|]. split; [done|].
    apply NoDup_cons in Hd4 as [Hd4 _]. split; [|intros l Hin; apply lookup_insert_ne; set_solver].
    split; [by rewrite lookup_insert_eq|]. eapply tailq_frame; [|exact Ho]. intros l Hin. apply lookup_insert_ne. by intros ->. }
  rewrite (bind_run _ _ _ _ _ Hr). rewrite <-(Ho1 elm Hd3) in He. rewrite (bind_run _ _ _ _ _ (get_run _ _ _ He)). cbn [tqe_next tqe_prev].
  destruct (tailq_store_run q1 pre (Some elm) (first_of post None)) as (q2 & Hr2 & Hf2 & Hl2 & Hc2 & Ho2); [by rewrite Hf1| |done|].
  { eapply tailq_frame; [|exact Hp]. intros l Hin. apply Ho1. intros Hx. apply (Hd2 l Hin). by right. }
  exists q2. split; [exact Hr2|]. split.
  - by rewrite Hf2, tailq_first_app.
  - by rewrite Hl2, Hl1, end_of_app.
  - apply tailq_app. split; [done|]. eapply tailq_frame; [|exact Hc1]. intros l Hin. apply Ho2. intros Hx. apply (Hd2 l Hx). by right.
  - apply NoDup_app. split; [done|]. split; [|done]. intros l Hin Hx. apply (Hd2 l Hin). by right.
Qed.
Lemma last_found q ls : holds q ls -> TAILQ_LAST q = Some (last ls, q).
Proof.
  intros [Hf Hl Hc Hd]. unfold TAILQ_LAST. rewrite (bind_run mget _ q q q) by done. rewrite Hl.
  destruct ls as [|z ls _] using rev_ind; [cbn; unfold mbnd, mget, mret; rewrite Hl; cbn; unfold mbnd, mget, mret; by rewrite Hf|].
  rewrite end_of_snoc, last_snoc. apply tailq_app in Hc as [Hp [Hz _]]. cbn [second].
  assert ((let! e := get z in mret (tqe_prev e)) q = Some (end_of Head ls, q)) as Hs by (rewrite (bind_run _ _ _ _ _ (get_run _ _ _ Hz)); done).
  rewrite (bind_run _ _ _ _ _ Hs). rewrite tailq_first_app in Hf.
  destruct ls as [|y ls _] using rev_ind; [cbn; unfold mbnd, mget, mret; by rewrite Hf|].
  rewrite end_of_snoc. apply tailq_app in Hp as [_ [Hy _]]. cbn [deref]. by rewrite (bind_run _ _ _ _ _ (get_run _ _ _ Hy)).
Qed.
Lemma tailq_foreach_run q ls : forall fuel s, chain (entries q) s ls None -> (length ls <= fuel)%nat -> foreach fuel (first_of ls None) q = Some (ls, q).
Proof.
  induction ls as [|l ls IH]; intros fuel s Hc Hf; [by destruct fuel|]. destruct Hc as [Hl Hc]. destruct fuel as [|fuel]; [cbn in Hf; lia|].
  cbn [first_of foreach]. unfold TAILQ_NEXT. rewrite bind_assoc, (bind_run _ _ _ _ _ (get_run _ _ _ Hl)). cbn in Hf. rewrite (bind_run (mret _) _ q (first_of ls None) q) by done.
  by rewrite (bind_run _ _ _ _ _ (IH fuel _ Hc ltac:(lia))).
Qed.
Lemma tailq_size h s ls nx : chain h s ls nx -> NoDup ls -> (length ls <= size h)%nat.
Proof.
  intros Hc Hd. rewrite <-size_dom, <-(size_list_to_set (C := gset positive) ls) by done. apply subseteq_size. intros l Hl.
  apply elem_of_list_to_set in Hl. apply elem_of_dom. clear Hd. revert s Hc. induction ls as [|x ls IH]; intros s Hc; [by apply not_elem_of_nil in Hl|].
  destruct Hc as [Hx Hc]. apply elem_of_cons in Hl as [->|Hl]; eauto.
Qed.
Lemma tailq_visits q ls : holds q ls -> TAILQ_FOREACH q = Some (ls, q).
Proof.
  intros [Hf Hl Hc Hd]. unfold TAILQ_FOREACH. rewrite (bind_run mget _ q q q) by done. rewrite (bind_run TAILQ_FIRST _ q (tqh_first q) q) by done.
  rewrite Hf. by eapply tailq_foreach_run; [|eapply tailq_size].
Qed.
End Tailq.
