(* ===== verification/Net.v ===== *)
(** * Sockets: net.c

    Connecting, listening, and the read and write loops.  Every system call is
    a call of Sys.v, so the theorems hold whatever the system answers: the
    loops deliver exactly the bytes the system transferred, in order, and no
    error path leaks a descriptor. *)
From Stdlib Require Import String.
From stdpp Require Import strings.
From S2P Require Import Prelude IperfTime Iperf Sys.
#[local] Open Scope Z_scope.

Definition NET_SOFTERROR : Z := -1.
Definition NET_HARDERROR : Z := -2.
Definition nread_read_timeout : Z := 10.
Definition nread_overall_timeout : Z := 30.

(** ** Connecting *)

Definition timeout_connect (s : fd) (timeout : Z) : M world Z :=
  let! setup :=
    (if negb (timeout =? -1) then
       let! flags := sys (Cfcntl s F_GETFL 0) in
       let! r := sys (Cfcntl s F_SETFL (Z.lor (ret flags) O_NONBLOCK)) in
       mret (ret r =? -1, ret flags)
     else mret (false, 0)) in
  let '(failed, flags) := setup in
  if failed then mret (-1)
  else
    let! c := sys (Cconnect s) in
    let! e := get_errno in
    let! r :=
      (if negb (ret c =? 0) && (e =? EINPROGRESS) then
         let! p := sys (Cpoll s timeout) in
         if ret p =? 1 then
           let! o := sys (Cgetsockopt s SOL_SOCKET SO_ERROR) in
           if ret o =? 0 then
             let optval := nth 0 (outs o) 0 in
             set_errno optval ;; mret (if optval =? 0 then 0 else -1)
           else mret (ret o)
         else if ret p =? 0 then set_errno ETIMEDOUT ;; mret (-1)
         else mret (-1)
       else mret (ret c)) in
    if negb (timeout =? -1) then
      let! f := sys (Cfcntl s F_SETFL flags) in
      mret (if ret f =? -1 then -1 else r)
    else mret r.

(** [getaddrinfo]: the return value goes to [gerror]; the result is the address
    family of the first address. *)
Definition getaddrinfo (name : option string) (port : option Z) : M world (option Z) :=
  let! r := sys (Cgetaddrinfo name port) in
  mmod (fun w => w <| gerror := ret r |>) ;;
  mret (if ret r =? 0 then Some (nth 0 (outs r) 0) else None).

(** [close] between saving and restoring [errno]. *)
Definition close_keeping_errno (s : fd) : M world unit :=
  let! saved_errno := get_errno in
  sys (Cclose s) ;; set_errno saved_errno.

(** [snprintf(portstr, 6, "%d", port)] is kept as the number. *)
Definition create_socket (domain type proto : Z) (local bind_dev : option string) (local_port : Z)
    (server : string) (port : Z) : M world Z :=
  let! local_res :=
    (match local with
     | Some _ => getaddrinfo local None
     | None => mret (Some 0)
     end) in
  match local_res with
  | None => mret (-1)
  | Some _ =>
    let! server_res := getaddrinfo (Some server) (Some port) in
    match server_res with
    | None => mret (-1)
    | Some ai_family =>
      let! s := sys (Csocket ai_family type proto) in
      let s := ret s in
      if s <? 0 then mret (-1)
      else
        let! bound :=
          (match bind_dev with
           | Some _ => let! r := sys (Csetsockopt s SOL_SOCKET SO_BINDTODEVICE 0) in mret (0 <=? ret r)
           | None => mret true
           end) in
        if negb bound then close_keeping_errno s ;; mret (-1)
        else
          match local with
          | Some _ =>
              let! b := sys (Cbind s) in
              if ret b <? 0 then close_keeping_errno s ;; mret (-1) else mret s
          | None =>
              if local_port =? 0 then mret s
              else if (ai_family =? AF_INET) || (ai_family =? AF_INET6) then
                let! b := sys (Cbind s) in
                if ret b <? 0 then close_keeping_errno s ;; mret (-1) else mret s
              else sys (Cclose s) ;; set_errno EAFNOSUPPORT ;; mret (-1)
          end
    end
  end.

Definition netdial (domain proto : Z) (local bind_dev : option string) (local_port : Z)
    (server : string) (port timeout : Z) : M world Z :=
  let! s := create_socket domain proto 0 local bind_dev local_port server port in
  if s <? 0 then mret (-1)
  else
    let! c := timeout_connect s timeout in
    let! e := get_errno in
    if (c <? 0) && negb (e =? EINPROGRESS) then close_keeping_errno s ;; mret (-1)
    else mret s.

Definition netannounce (domain proto : Z) (local bind_dev : option string) (port : Z) : M world Z :=
  let! res := getaddrinfo local (Some port) in
  match res with
  | None => mret (-1)
  | Some ai_family =>
    let! s := sys (Csocket ai_family proto 0) in
    let s := ret s in
    if s <? 0 then mret (-1)
    else
      let! bound :=
        (match bind_dev with
         | Some _ => let! r := sys (Csetsockopt s SOL_SOCKET SO_BINDTODEVICE 0) in mret (0 <=? ret r)
         | None => mret true
         end) in
      if negb bound then close_keeping_errno s ;; mret (-1)
      else
        let! r := sys (Csetsockopt s SOL_SOCKET SO_REUSEADDR 1) in
        if ret r <? 0 then close_keeping_errno s ;; mret (-1)
        else
          let! v6 :=
            (if (ai_family =? AF_INET6) && ((domain =? AF_UNSPEC) || (domain =? AF_INET6)) then
               let! r := sys (Csetsockopt s IPPROTO_IPV6 IPV6_V6ONLY (if domain =? AF_UNSPEC then 0 else 1)) in
               mret (0 <=? ret r)
             else mret true) in
          if negb v6 then close_keeping_errno s ;; mret (-1)
          else
            let! b := sys (Cbind s) in
            if ret b <? 0 then close_keeping_errno s ;; mret (-1)
            else if proto =? SOCK_STREAM then
              let! l := sys (Clisten s INT_MAX) in
              if ret l <? 0 then close_keeping_errno s ;; mret (-1) else mret s
            else mret s
  end.

(** ** Reading *)

(** EWOULDBLOCK is EAGAIN. *)
Definition soft_errno (e : Z) : bool := (e =? EINTR) || (e =? EAGAIN).

Definition read_call (f : fd) (nleft sock_opt : Z) : call :=
  if sock_opt =? 0 then Cread f nleft else Crecv f nleft sock_opt.

(** The bytes by which one answer moves the buffer pointer. *)
Definition copied (sock_opt r nleft : Z) : Z :=
  if negb (Z.land sock_opt MSG_TRUNC =? 0) then (if nleft <? r then nleft else r) else r.

(** The loop of [Nrecv]; the result is the return value and the bytes stored
    in the buffer.  Every round uses up an answer, which bounds the fuel. *)
Fixpoint Nrecv_loop (fuel : nat) (f : fd) (sock_opt count nleft : Z) (buf : list Z)
    (ftimeout : iperf_time) : M world (Z * list Z) :=
  match fuel with
  | O => mfail
  | S fuel =>
    if nleft <=? 0 then mret (i32 (count - nleft), buf)
    else
      let! r := sys (read_call f nleft sock_opt) in
      let! e := get_errno in
      if ret r <? 0 then
        mret (if soft_errno e then i32 (count - nleft) else NET_HARDERROR, buf)
      else if ret r =? 0 then mret (i32 (count - nleft), buf)
      else
        let nleft := u64 (nleft - copied sock_opt (ret r) nleft) in
        let buf := buf ++ data r in
        if 0 <? nleft then
          let! now := time_now in
          let ftimeout :=
            if secs ftimeout =? 0 then iperf_time_add_usecs now (nread_overall_timeout * 1000000)
            else ftimeout in
          if iperf_time_compare ftimeout now <? 0 then mret (i32 (count - nleft), buf)
          else
            let! s := sys (Cselect [f] (Some (nread_read_timeout, 0))) in
            if ret s <? 0 then mret (NET_HARDERROR, buf)
            else if ret s =? 0 then mret (i32 (count - nleft), buf)
            else Nrecv_loop fuel f sock_opt count nleft buf ftimeout
        else Nrecv_loop fuel f sock_opt count nleft buf ftimeout
  end.

Definition Nrecv (f : fd) (count prot sock_opt : Z) : M world (Z * list Z) :=
  let! s := sys (Cselect [f] (Some (nread_read_timeout, 0))) in
  if ret s <? 0 then mret (NET_HARDERROR, [])
  else if ret s =? 0 then mret (0, [])
  else fun w => Nrecv_loop (S (length (script w))) f sock_opt count count [] (Time 0 0) w.

Definition Nread (f : fd) (count prot : Z) : M world (Z * list Z) := Nrecv f count prot 0.

Fixpoint Nrecv_no_select_loop (fuel : nat) (f : fd) (sock_opt count nleft : Z) (buf : list Z)
    : M world (Z * list Z) :=
  match fuel with
  | O => mfail
  | S fuel =>
    if nleft <=? 0 then mret (i32 (count - nleft), buf)
    else
      let! r := sys (read_call f nleft sock_opt) in
      let! e := get_errno in
      if ret r <? 0 then
        mret (if soft_errno e then i32 (count - nleft) else NET_HARDERROR, buf)
      else if ret r =? 0 then mret (i32 (count - nleft), buf)
      else
        Nrecv_no_select_loop fuel f sock_opt count
          (u64 (nleft - copied sock_opt (ret r) nleft)) (buf ++ data r)
  end.

Definition Nrecv_no_select (f : fd) (count prot sock_opt : Z) : M world (Z * list Z) :=
  fun w => Nrecv_no_select_loop (S (length (script w))) f sock_opt count count [] w.
Definition Nread_no_select (f : fd) (count prot : Z) : M world (Z * list Z) :=
  Nrecv_no_select f count prot 0.

(** ** Writing *)

Fixpoint Nwrite_loop (fuel : nat) (f : fd) (count : Z) (buf : list Z) : M world Z :=
  match fuel with
  | O => mfail
  | S fuel =>
    let nleft := Z.of_nat (length buf) in
    if nleft <=? 0 then mret (i32 count)
    else
      let! r := sys (Cwrite f buf) in
      let! e := get_errno in
      if ret r <? 0 then
        if soft_errno e then mret (if count =? nleft then NET_SOFTERROR else i32 (count - nleft))
        else if e =? ENOBUFS then mret NET_SOFTERROR
        else mret NET_HARDERROR
      else if ret r =? 0 then mret NET_SOFTERROR
      else Nwrite_loop fuel f count (drop (Z.to_nat (ret r)) buf)
  end.

Definition Nwrite (f : fd) (buf : list Z) (prot : Z) : M world Z :=
  fun w => Nwrite_loop (S (length (script w))) f (Z.of_nat (length buf)) buf w.

Definition has_sendfile : Z := 1.

(** The Darwin branch of [Nsendfile]: [sent] is the value-result argument. *)
Fixpoint Nsendfile_loop (fuel : nat) (fromfd tofd : fd) (count nleft : Z) : M world Z :=
  match fuel with
  | O => mfail
  | S fuel =>
    if nleft <=? 0 then mret (i32 count)
    else
      let! r := sys (Csendfile fromfd tofd (count - nleft) nleft) in
      let nleft := u64 (nleft - nth 0 (outs r) 0) in
      let! e := get_errno in
      if ret r <? 0 then
        if soft_errno e then mret (if count =? nleft then NET_SOFTERROR else i32 (count - nleft))
        else if (e =? ENOBUFS) || (e =? ENOMEM) then mret NET_SOFTERROR
        else mret NET_HARDERROR
      else Nsendfile_loop fuel fromfd tofd count nleft
  end.
Definition Nsendfile (fromfd tofd : fd) (count : Z) : M world Z :=
  fun w => Nsendfile_loop (S (length (script w))) fromfd tofd count count w.

Definition setnonblocking (f : fd) (nonblocking : Z) : M world Z :=
  let! r := sys (Cfcntl f F_GETFL 0) in
  let flags := ret r in
  if flags <? 0 then mret (-1)
  else
    let newflags := if negb (nonblocking =? 0) then Z.lor flags O_NONBLOCK else Z.ldiff flags O_NONBLOCK in
    if negb (newflags =? flags) then
      let! s := sys (Cfcntl f F_SETFL newflags) in
      mret (if ret s <? 0 then -1 else 0)
    else mret 0.

Definition getsockdomain (sock : fd) : M world Z :=
  let! r := sys (Cgetsockname sock) in
  mret (if ret r <? 0 then -1 else nth 0 (outs r) 0).

(** ** No descriptor leaks *)

(** A function that opens a socket returns it, or leaves nothing open. *)
Definition owns (s : Z) (t : list (call * reply)) : Prop :=
  if s <? 0 then s = -1 /\ open_fds [] t = [] else open_fds [] t = [s].

Ltac leak :=
  repeat (emit_step || (unfold getaddrinfo, close_keeping_errno)).
Ltac owned :=
  unfold owns; cbn [app open_fds Z.ltb Z.compare];
  repeat match goal with H : (?a <? 0) = _ |- _ => rewrite H end; cbn [open_fds];
  rewrite ?filter_cons_False by (intros ?; auto); cbn; auto.

Lemma create_socket_owns domain type proto local bind_dev local_port server port :
  emits (create_socket domain type proto local bind_dev local_port server port) owns.
Proof. unfold create_socket. leak; owned. Qed.

Lemma netannounce_owns domain proto local bind_dev port :
  emits (netannounce domain proto local bind_dev port) owns.
Proof. unfold netannounce. leak; owned. Qed.

Lemma timeout_connect_quiet s timeout : emits (timeout_connect s timeout) (fun _ t => quiet t).
Proof. unfold timeout_connect. emit; intros open; reflexivity. Qed.

Lemma netdial_owns domain proto local bind_dev local_port server port timeout :
  emits (netdial domain proto local bind_dev local_port server port timeout) owns.
Proof.
  unfold netdial. apply emits_bind. eapply emits_mono; [apply create_socket_owns|].
  intros s t1 Hs. unfold owns in Hs. destruct (s <? 0) eqn:E.
  { destruct Hs as [-> Hs]. apply emits_ret. rewrite app_nil_r. by split. }
  apply emits_bind. eapply emits_mono; [apply timeout_connect_quiet|]. intros c t2 Hq. cbn beta.
  unfold close_keeping_errno. emit; unfold owns; rewrite !open_fds_app, Hs, Hq; cbn [open_fds].
  - rewrite filter_cons_False by (intros ?; auto). done.
  - by rewrite E.
Qed.

(** C37. No path of [netannounce] or [netdial] leaks a descriptor: when the
    call fails it returns -1 and every socket it opened has been closed again,
    when it succeeds the socket it returns is the only one left open. *)
Theorem net_no_leak (domain proto : Z) (local bind_dev : option string) (local_port : Z)
    (server : string) (port timeout : Z) (w w' : world) (s : Z) :
  netannounce domain proto local bind_dev port w = Some (s, w') \/
  netdial domain proto local bind_dev local_port server port timeout w = Some (s, w') ->
  if s <? 0 then s = -1 /\ open_fds [] (calls w w') = [] else open_fds [] (calls w w') = [s].
Proof.
  intros [H|H]; [apply (emits_calls _ _ _ _ _ (netannounce_owns _ _ _ _ _)) in H as [H _]
                |apply (emits_calls _ _ _ _ _ (netdial_owns _ _ _ _ _ _ _ _)) in H as [H _]]; exact H.
Qed.
Definition refused : world :=
  World [Reply 0 0 [] [AF_INET]; Reply 7 0 [] []; Reply (-1) 61 [] []; Reply 0 0 [] []] [] 0 0 0.
Lemma net_no_leak_witness :
  exists w', netdial 0 1 None None 0 "host" 5201 (-1) refused = Some (-1, w') /\
    (if -1 <? 0 then -1 = -1 /\ open_fds [] (calls refused w') = [] else open_fds [] (calls refused w') = [-1]).
Proof.
  eexists. split; [reflexivity|].
  apply (net_no_leak 0 1 None None 0 "host" 5201 (-1)). right. reflexivity.
Defined.

(** ** Reading delivers the bytes received *)

Definition received_by (c : call) (r : reply) : list Z :=
  match c with
  | Cread _ _ | Crecv _ _ _ => if 0 <? ret r then data r else []
  | _ => []
  end.
Fixpoint received (t : list (call * reply)) : list Z :=
  match t with [] => [] | (c, r) :: t => received_by c r ++ received t end.
Lemma received_app t1 t2 : received (t1 ++ t2) = received t1 ++ received t2.
Proof. induction t1 as [|[c r] t1 IH]; cbn; [done|]. by rewrite IH, app_assoc. Qed.

(** What read(2) promises: it returns the number of bytes stored, at most the
    number asked for. *)
Definition sane_read (cr : call * reply) : Prop :=
  match cr.1 with
  | Cread _ n => ret cr.2 <= n /\ (0 < ret cr.2 -> Z.of_nat (length (data cr.2)) = ret cr.2)
  | _ => True
  end.

(** A read that brought bytes. *)
Definition brings (cr : call * reply) : bool :=
  match cr.1 with Cread _ _ | Crecv _ _ _ => 0 <? ret cr.2 | _ => false end.

(** The contract of the read loops. *)
Definition reads (count : Z) (buf : list Z) (res : Z * list Z) (t : list (call * reply)) : Prop :=
  Forall sane_read t ->
  res.2 = buf ++ received t /\
  (res.1 = NET_HARDERROR \/
   (res.1 = Z.of_nat (length res.2) /\ res.1 <= count /\
    (res.1 < count -> exists cr, last t = Some cr /\ brings cr = false))).

Lemma reads_stop count nleft buf c r :
  0 < nleft -> nleft = count - Z.of_nat (length buf) -> 0 <= count < 2 ^ 31 -> brings (c, r) = false ->
  received_by c r = [] ->
  reads count buf (i32 (count - nleft), buf) [(c, r)] /\ reads count buf (NET_HARDERROR, buf) [(c, r)].
Proof.
  intros Hp Hn Hc Hb Hr. split; intros _; cbn [fst snd received]; rewrite Hr, !app_nil_r;
    (split; [done|]); [right|by left].
  rewrite i32_id by zlia. split; [lia|]. split; [lia|]. intros _. by exists (c, r).
Qed.

#[export] Instance sane_read_dec cr : Decision (sane_read cr).
Proof. destruct cr as [[] ?]; cbn; apply _. Defined.

Lemma Nrecv_loop_tracks fuel f sock_opt count nleft buf ft :
  emits (Nrecv_loop fuel f sock_opt count nleft buf ft) (fun _ _ => True).
Proof.
  revert nleft buf ft; induction fuel as [|fuel IH]; intros nleft buf ft; [apply emits_fail|].
  cbn [Nrecv_loop]. emit; try done; apply IH.
Qed.

Lemma reads_more count buf bs c r mid t2 res :
  brings (c, r) = true -> received_by c r = bs -> received mid = [] ->
  reads count (buf ++ bs) res t2 -> reads count buf res ((c, r) :: mid ++ t2).
Proof.
  intros Hb Hr Hmid H2 Hs. apply Forall_cons in Hs as [_ Hs]. apply Forall_app in Hs as [_ Hs].
  destruct (H2 Hs) as [Hbuf Hres]. split.
  - rewrite Hbuf. cbn [received]. rewrite Hr, received_app, Hmid, <-app_assoc. done.
  - destruct Hres as [|(H & Hle & Hlast)]; [by left|]. right. split_and!; [done..|].
    intros Hlt. destruct (Hlast Hlt) as (cr & Hl & Hbr). exists cr. split; [|done].
    change ((c, r) :: mid ++ t2) with (((c, r) :: mid) ++ t2).
    apply last_Some in Hl as [l ->]. by rewrite app_assoc, last_snoc.
Qed.

Lemma Nrecv_loop_reads fuel f count : forall nleft buf ft,
  nleft = count - Z.of_nat (length buf) -> 0 <= nleft -> 0 <= count < 2 ^ 31 ->
  emits (Nrecv_loop fuel f 0 count nleft buf ft) (reads count buf).
Proof.
  induction fuel as [|fuel IH]; intros nleft buf ft Hn H0 Hc; [apply emits_fail|].
  cbn [Nrecv_loop]. destruct (Z.leb_spec nleft 0) as [Hle|Hgt].
  { apply emits_ret. intros _. cbn. rewrite app_nil_r. split; [done|]. right.
    rewrite i32_id by zlia. split; [lia|]. split; lia. }
  apply emits_bind, emits_sys. intros r. apply emits_bind, emits_get_errno. intros e. cbn beta.
  change (read_call f nleft 0) with (Cread f nleft). change (copied 0 (ret r) nleft) with (ret r).
  destruct (Z.ltb_spec (ret r) 0) as [Hneg|Hpos].
  { assert (Hb : brings (Cread f nleft, r) = false) by (cbn; lia).
    destruct (reads_stop count nleft buf (Cread f nleft) r) as [H1 H2]; try done; [cbn; by rewrite (proj2 (Z.ltb_ge 0 (ret r)) ltac:(lia))|].
    apply emits_ret. by destruct (soft_errno e). }
  destruct (Z.eqb_spec (ret r) 0) as [Hz|Hnz].
  { apply emits_ret. apply (reads_stop count nleft buf (Cread f nleft) r); try done; cbn; by rewrite Hz. }
  assert (Hb : brings (Cread f nleft, r) = true) by (cbn; lia).
  assert (Hrec : received_by (Cread f nleft) r = data r) by (cbn; by rewrite (proj2 (Z.ltb_lt 0 (ret r)) ltac:(lia))).
  destruct (decide (sane_read (Cread f nleft, r))) as [[Hmax Hlen]|Hins]; cycle 1.
  { eapply emits_mono with (P := fun _ _ => True).
    - emit; try done; apply Nrecv_loop_tracks.
    - intros res t _ Hs. exfalso. by apply Forall_cons in Hs as [Hs _]. }
  cbn in Hmax, Hlen. specialize (Hlen ltac:(lia)). rewrite (u64_id (nleft - ret r)) by zlia.
  assert (Hn' : nleft - ret r = count - Z.of_nat (length (buf ++ data r))) by (rewrite length_app; lia).
  assert (Hstop : forall mid cr, brings cr = false -> received mid = [] -> received_by cr.1 cr.2 = [] -> 0 < nleft - ret r ->
    reads count buf (i32 (count - (nleft - ret r)), buf ++ data r) ((Cread f nleft, r) :: mid ++ [cr]) /\
    reads count buf (NET_HARDERROR, buf ++ data r) ((Cread f nleft, r) :: mid ++ [cr])).
  { intros mid [c2 r2] Hb2 Hm2 Hr2 Hp2.
    destruct (reads_stop count (nleft - ret r) (buf ++ data r) c2 r2) as [H1 H2]; try done.
    split; eapply reads_more; done. }
  destruct (Z.ltb_spec 0 (nleft - ret r)) as [Hmore|Hdone].
  - apply emits_bind, emits_time_now. intros now rn. cbn beta.
    set (ft' := if secs ft =? 0 then _ else ft).
    destruct (iperf_time_compare ft' now <? 0).
    { apply emits_ret. by apply (Hstop [] (Cclock_gettime, rn)). }
    apply emits_bind, emits_sys. intros rs. cbn beta. rewrite app_nil_l || idtac.
    destruct (ret rs <? 0); [|destruct (ret rs =? 0)].
    + apply emits_ret. by apply (Hstop [(Cclock_gettime, rn)] (Cselect [f] (Some (nread_read_timeout, 0)), rs)).
    + apply emits_ret. by apply (Hstop [(Cclock_gettime, rn)] (Cselect [f] (Some (nread_read_timeout, 0)), rs)).
    + eapply emits_mono; [apply IH; [done|lia|done]|]. intros res t2 H2.
      by apply (reads_more count buf (data r) (Cread f nleft) r [(Cclock_gettime, rn); (Cselect [f] (Some (nread_read_timeout, 0)), rs)]).
  - eapply emits_mono; [apply IH; [done|lia|done]|]. intros res t2 H2.
    by apply (reads_more count buf (data r) (Cread f nleft) r []).
Qed.

Lemma Nread_reads f count prot :
  0 <= count < 2 ^ 31 -> emits (Nread f count prot) (reads count []).
Proof.
  intros Hc. unfold Nread, Nrecv. apply emits_bind, emits_sys. intros s. cbn beta.
  assert (Hstop : forall z, z = NET_HARDERROR \/ z = 0 ->
    reads count [] (z, []) ([(Cselect [f] (Some (nread_read_timeout, 0)), s)] ++ [])).
  { intros z [->| ->] _; (split; [done|]); [by left|]. right. split_and!; [done|cbn; lia|].
    intros _. by exists (Cselect [f] (Some (nread_read_timeout, 0)), s). }
  destruct (ret s <? 0); [apply emits_ret, Hstop; auto|].
  destruct (ret s =? 0); [apply emits_ret, Hstop; auto|].
  intros w res w' Hr.
  destruct (Nrecv_loop_reads _ f count count [] (Time 0 0) ltac:(cbn; lia) ltac:(lia) Hc _ _ _ Hr)
    as (t & Ht & Hs & Hreads).
  exists t. split_and!; [done..|]. intros Hsane. apply Forall_cons in Hsane as [_ Hsane].
  destruct (Hreads Hsane) as [Hb Hres]. split; [exact Hb|].
  destruct Hres as [|(H1 & H2 & H3)]; [by left|]. right. split_and!; [done..|].
  intros Hlt. destruct (H3 Hlt) as (cr & Hl & Hbr). exists cr. split; [|done].
  apply last_Some in Hl as [l ->]. by rewrite app_assoc, last_snoc.
Qed.

(** C31. Whatever the system does, as long as read(2) keeps its promise,
    [Nread] stores exactly the bytes received, in order; unless it reports a
    hard error it returns their number, never more than asked for, and it
    returns fewer only after a call that brought nothing (end of file, a soft
    error or a timeout). *)
Theorem Nread_delivers (f count prot : Z) (w w' : world) (r : Z) (bs : list Z) :
  0 <= count < 2 ^ 31 -> Nread f count prot w = Some ((r, bs), w') -> Forall sane_read (calls w w') ->
  bs = received (calls w w') /\
  (r = NET_HARDERROR \/
   (r = Z.of_nat (length bs) /\ r <= count /\
    (r < count -> exists cr, last (calls w w') = Some cr /\ brings cr = false))).
Proof.
  intros Hc Hr Hs. apply (emits_calls _ _ _ _ _ (Nread_reads f count prot Hc)) in Hr as [Hr _].
  exact (Hr Hs).
Qed.
Definition short_read : world :=
  World [Reply 1 0 [] []; Reply 2 0 [7; 8] []; Reply 0 0 [] [5; 0]; Reply 0 0 [] []] [] 0 0 0.
Lemma Nread_delivers_witness :
  exists w', Nread 3 4 0 short_read = Some ((2, [7; 8]), w') /\
    [7; 8] = received (calls short_read w') /\
    (2 = NET_HARDERROR \/
     (2 = Z.of_nat (length [7; 8]) /\ 2 <= 4 /\
      (2 < 4 -> exists cr, last (calls short_read w') = Some cr /\ brings cr = false))).
Proof.
  eexists. split; [vm_compute; reflexivity|].
  eapply (Nread_delivers 3 4 0 short_read); [lia|vm_compute; reflexivity|].
  apply (bool_decide_unpack _). vm_compute. exact I.
Defined.

(** ** Any segmentation is reassembled *)

(** The answers by which the system delivers a message in chunks, the first
    select apart: each chunk but the last is followed by a clock reading and a
    select that finds more data. *)
Fixpoint feed (chunks : list (list Z * (Z * Z))) : list reply :=
  match chunks with
  | [] => []
  | (bs, (s, ns)) :: rest =>
      Reply (Z.of_nat (length bs)) 0 bs [] ::
      match rest with
      | [] => []
      | _ => Reply 0 0 [] [s; ns] :: Reply 1 0 [] [] :: feed rest
      end
  end.
Definition chunk_bytes (chunks : list (list Z * (Z * Z))) : list Z := concat chunks.*1.

(** The clock stays within the overall timeout of 30 seconds. *)
Definition clock_within (lo : Z) (c : Z * Z) : Prop :=
  lo <= c.1 /\ c.1 <= lo + 29 /\ 0 <= c.2 < 1000000000.
#[export] Instance clock_within_dec lo c : Decision (clock_within lo c).
Proof. unfold clock_within. apply _. Defined.

Lemma feed_loop fuel f count lo : forall chunks nleft buf ft rest w,
  chunks <> [] -> Forall (fun c => c.1 <> []) chunks -> Forall (fun c => clock_within lo c.2) chunks ->
  0 < lo < 2 ^ 31 -> (secs ft = 0 \/ lo + 30 <= secs ft) ->
  nleft = Z.of_nat (length (chunk_bytes chunks)) -> count = Z.of_nat (length buf) + nleft -> count < 2 ^ 31 ->
  (length chunks < fuel)%nat -> script w = feed chunks ++ rest ->
  exists w', Nrecv_loop fuel f 0 count nleft buf ft w = Some ((count, buf ++ chunk_bytes chunks), w') /\
    script w' = rest.
Proof.
  induction fuel as [|fuel IH]; intros chunks nleft buf ft rest w Hne Hfull Hclk Hlo Hft Hn Hcount Hc Hf Hs; [lia|].
  destruct chunks as [|[bs [s ns]] chunks]; [done|].
  apply Forall_cons in Hfull as [Hbs Hfull]. apply Forall_cons in Hclk as [Hck Hclk]. cbn [fst snd] in *.
  assert (Hbl : 0 < Z.of_nat (length bs)) by (destruct bs; [done|cbn; lia]).
  assert (Hcb : chunk_bytes ((bs, (s, ns)) :: chunks) = bs ++ chunk_bytes chunks) by done.
  rewrite Hcb, length_app in Hn. cbn [Nrecv_loop]. destruct (Z.leb_spec nleft 0); [lia|].
  cbn [feed] in Hs. rewrite <-app_comm_cons in Hs.
  rewrite (run_sys _ _ _ _ _ Hs), run_errno. apply (script_answered (Cread f nleft) (Reply (Z.of_nat (length bs)) 0 bs [])) in Hs.
  change (read_call f nleft 0) with (Cread f nleft). cbn [ret data].
  set (w1 := answered _ _ w) in *. clearbody w1.
  destruct (Z.ltb_spec (Z.of_nat (length bs)) 0); [lia|].
  destruct (Z.eqb_spec (Z.of_nat (length bs)) 0); [lia|]. change (copied 0 ?r ?n) with r.
  rewrite u64_id by zlia. replace (nleft - Z.of_nat (length bs)) with (Z.of_nat (length (chunk_bytes chunks))) by lia.
  destruct chunks as [|[bs2 t2] chunks].
  - change (Z.of_nat (length (chunk_bytes []))) with 0. change (0 <? 0) with false. cbn iota.
    destruct fuel as [|fuel]; [cbn in Hf; lia|]. cbn [Nrecv_loop Z.leb Z.compare].
    change (Z.of_nat (length (chunk_bytes []))) with 0 in Hn. rewrite Hcb. change (chunk_bytes []) with (@nil Z).
    rewrite app_nil_r, Z.sub_0_r, i32_id by zlia. exists w1. by split.
  - assert (0 < Z.of_nat (length (chunk_bytes ((bs2, t2) :: chunks)))).
    { apply Forall_cons in Hfull as [Hb2 _]. unfold chunk_bytes. cbn. rewrite length_app.
      destruct bs2; [done|cbn; lia]. }
    destruct (Z.ltb_spec 0 (Z.of_nat (length (chunk_bytes ((bs2, t2) :: chunks))))); [|lia].
    rewrite <-app_comm_cons in Hs. rewrite (run_time _ _ _ _ _ _ Hs).
    apply (script_answered Cclock_gettime (Reply 0 0 [] [s; ns])) in Hs.
    set (w2 := answered _ _ w1) in *. clearbody w2.
    destruct Hck as (Hl1 & Hl2 & Hns). cbn [fst snd] in Hl1, Hl2, Hns.
    set (now := Time (u32 s) (u32 ns / 1000)).
    assert (Hsecs : secs now = s) by (apply u32_id; zlia).
    set (ft' := if secs ft =? 0 then iperf_time_add_usecs now (nread_overall_timeout * 1000000) else ft).
    assert (Hft' : lo + 30 <= secs ft').
    { unfold ft'. destruct (Z.eqb_spec (secs ft) 0); [|lia].
      unfold iperf_time_add_usecs, nread_overall_timeout. cbn [secs modify_field iperf_time_eta eta_of].
      rewrite Hsecs. subst now. cbn. zlia. }
    assert ((iperf_time_compare ft' now <? 0) = false) as -> by
      (unfold iperf_time_compare; rewrite Hsecs; destruct (Z.ltb_spec (secs ft') s); [lia|];
       destruct (Z.ltb_spec s (secs ft')); [done|lia]).
    rewrite <-app_comm_cons in Hs. rewrite (run_sys _ _ _ _ _ Hs).
    apply (script_answered (Cselect [f] (Some (nread_read_timeout, 0))) (Reply 1 0 [] [])) in Hs.
    set (w3 := answered _ _ w2) in *. clearbody w3. cbn [ret Z.ltb Z.eqb Z.compare].
    rewrite Hcb. match goal with |- context [Nrecv_loop fuel f 0 count ?n ?b ?t ?W] =>
      destruct (IH ((bs2, t2) :: chunks) n b t rest W) as (w' & Hrun & Hsw) end;
      try done; try (cbn in Hf |- *; lia).
    + rewrite length_app. lia.
    + exists w'. rewrite app_assoc. split; [exact Hrun|exact Hsw].
Qed.

Lemma Nread_fed (f prot lo : Z) (chunks : list (list Z * (Z * Z))) (rest : list reply) (w : world) :
  chunks <> [] -> Forall (fun c => c.1 <> []) chunks -> Forall (fun c => clock_within lo c.2) chunks ->
  0 < lo < 2 ^ 31 -> Z.of_nat (length (chunk_bytes chunks)) < 2 ^ 31 ->
  script w = Reply 1 0 [] [] :: feed chunks ++ rest ->
  exists w', Nread f (Z.of_nat (length (chunk_bytes chunks))) prot w =
      Some ((Z.of_nat (length (chunk_bytes chunks)), chunk_bytes chunks), w') /\ script w' = rest.
Proof.
  intros Hne Hfull Hclk Hlo Hlen Hs. unfold Nread, Nrecv. rewrite (run_sys _ _ _ _ _ Hs).
  apply (script_answered (Cselect [f] (Some (nread_read_timeout, 0))) (Reply 1 0 [] [])) in Hs.
  cbn [ret Z.ltb Z.eqb Z.compare].
  assert (Hfl : forall c, (length c <= length (feed c))%nat).
  { induction c as [|[bs [s ns]] c IH]; [done|]. destruct c; cbn in *; lia. }
  specialize (Hfl chunks). pose proof (f_equal length Hs) as Hlens. rewrite length_app in Hlens.
  apply (feed_loop _ f _ lo chunks _ [] (Time 0 0) rest); try done; [by left|].
  apply Nat.lt_succ_r. etransitivity; [exact Hfl|].
  etransitivity; [|apply Nat.eq_le_incl; symmetry; exact Hlens]. lia.
Qed.

(** However the network cuts a message into pieces, [Nread] puts it back
    together: if the system answers every read with the next non-empty chunk
    and the whole message arrives within 29 seconds, the call returns the full
    count and the message, and makes no further call. *)
Lemma Nread_reassembles (f prot lo : Z) (chunks : list (list Z * (Z * Z))) (rest : list reply) (w : world) :
  chunks <> [] -> Forall (fun c => c.1 <> []) chunks -> Forall (fun c => clock_within lo c.2) chunks ->
  0 < lo < 2 ^ 31 -> Z.of_nat (length (chunk_bytes chunks)) < 2 ^ 31 ->
  script w = Reply 1 0 [] [] :: feed chunks ++ rest ->
  exists w', Nread f (Z.of_nat (length (chunk_bytes chunks))) prot w =
      Some ((Z.of_nat (length (chunk_bytes chunks)), chunk_bytes chunks), w') /\ script w' = rest.
Proof. apply Nread_fed. Qed.
Lemma Nread_reassembles_witness :
  exists w', Nread 3 5 0 (World (Reply 1 0 [] [] :: feed [([1; 2], (7, 0)); ([3], (8, 0)); ([4; 5], (9, 0))] ++ []) [] 0 0 0) =
      Some ((5, [1; 2; 3; 4; 5]), w') /\ script w' = [].
Proof.
  apply (Nread_reassembles 3 0 7 [([1; 2], (7, 0)); ([3], (8, 0)); ([4; 5], (9, 0))] []); try done.
  - repeat constructor; done.
  - repeat constructor; cbn; lia.
Defined.

(** ** Writing sends a prefix *)

Definition sent_by (c : call) (r : reply) : list Z :=
  match c with
  | Cwrite _ bs => if 0 <? ret r then take (Z.to_nat (ret r)) bs else []
  | _ => []
  end.
Fixpoint sent (t : list (call * reply)) : list Z :=
  match t with [] => [] | (c, r) :: t => sent_by c r ++ sent t end.
Lemma sent_app t1 t2 : sent (t1 ++ t2) = sent t1 ++ sent t2.
Proof. induction t1 as [|[c r] t1 IH]; cbn; [done|]. by rewrite IH, app_assoc. Qed.

(** What write(2) promises: it takes at most the bytes it is given. *)
Definition sane_write (cr : call * reply) : Prop :=
  match cr.1 with Cwrite _ bs => ret cr.2 <= Z.of_nat (length bs) | _ => True end.
#[export] Instance sane_write_dec cr : Decision (sane_write cr).
Proof. destruct cr as [[] ?]; cbn; apply _. Defined.

(** The contract of the write loop, [k] bytes of the rest of the message being
    taken by the system. *)
Definition writes (count : Z) (buf : list Z) (res : Z) (t : list (call * reply)) : Prop :=
  Forall sane_write t ->
  exists k : nat, (k <= length buf)%nat /\ sent t = take k buf /\
    (res = NET_HARDERROR \/ res = NET_SOFTERROR \/ res = count - Z.of_nat (length buf) + Z.of_nat k) /\
    (Forall (fun cr => 0 < ret cr.2) t -> res = count /\ k = length buf).

Lemma writes_stop count buf c r res :
  buf <> [] -> ret r <= 0 ->
  res = NET_HARDERROR \/ res = NET_SOFTERROR \/ res = count - Z.of_nat (length buf) ->
  writes count buf res [(Cwrite c buf, r)].
Proof.
  intros Hb Hr Hres _. exists 0%nat. cbn [sent sent_by]. destruct (Z.ltb_spec 0 (ret r)); [lia|].
  split_and!; [lia|done|intuition lia|]. intros Hp. apply Forall_cons in Hp as [Hp _]. cbn in Hp. lia.
Qed.

Lemma Nwrite_loop_writes fuel f count : forall buf,
  Z.of_nat (length buf) <= count < 2 ^ 31 -> emits (Nwrite_loop fuel f count buf) (writes count buf).
Proof.
  induction fuel as [|fuel IH]; intros buf Hc; [apply emits_fail|].
  cbn [Nwrite_loop]. destruct (Z.leb_spec (Z.of_nat (length buf)) 0) as [Hz|Hp].
  { apply emits_ret. intros _. exists 0%nat. destruct buf; [|cbn in Hz; lia].
    rewrite i32_id by zlia. cbn. split_and!; [lia|done|lia|done]. }
  apply emits_bind, emits_sys. intros r. apply emits_bind, emits_get_errno. intros e. cbn beta.
  assert (Hne : buf <> []) by (by intros ->).
  destruct (Z.ltb_spec (ret r) 0) as [Hneg|Hpos].
  { destruct (soft_errno e); [|destruct (e =? ENOBUFS)]; apply emits_ret; apply writes_stop; try done; try lia; try tauto.
    destruct (count =? Z.of_nat (length buf)); [tauto|]. rewrite i32_id by zlia. tauto. }
  destruct (Z.eqb_spec (ret r) 0) as [H0|Hnz].
  { apply emits_ret. apply writes_stop; [done|lia|tauto]. }
  eapply emits_mono; [apply IH; rewrite length_drop; lia|]. intros res t HR Hs.
  apply Forall_cons in Hs as [Hs1 Hs]. cbn in Hs1. destruct (HR Hs) as (k & Hk & Ht & Hres & Hall).
  rewrite length_drop in *. exists (Z.to_nat (ret r) + k)%nat. cbn [app sent sent_by].
  destruct (Z.ltb_spec 0 (ret r)); [|lia]. split_and!.
  - lia.
  - by rewrite Ht, take_take_drop.
  - intuition lia.
  - intros Hp'. apply Forall_cons in Hp' as [_ Hp']. destruct (Hall Hp'). split; [done|lia].
Qed.

Lemma Nwrite_writes f buf prot :
  Z.of_nat (length buf) < 2 ^ 31 -> emits (Nwrite f buf prot) (writes (Z.of_nat (length buf)) buf).
Proof. intros Hb w. apply (Nwrite_loop_writes _ f (Z.of_nat (length buf)) buf). lia. Qed.

(** C32. However the system takes the bytes, [Nwrite] puts a prefix of the
    message on the wire, unaltered: a result that is not negative is the length
    of that prefix, a negative one is a soft or a hard error, and as long as
    every write makes progress the whole message goes out and its length is
    returned. *)
Theorem Nwrite_sends_prefix (f prot : Z) (buf : list Z) (w w' : world) (r : Z) :
  Z.of_nat (length buf) < 2 ^ 31 -> Nwrite f buf prot w = Some (r, w') -> Forall sane_write (calls w w') ->
  exists k : nat, (k <= length buf)%nat /\ sent (calls w w') = take k buf /\
    (0 <= r -> r = Z.of_nat k) /\ (r < 0 -> r = NET_SOFTERROR \/ r = NET_HARDERROR) /\
    (Forall (fun cr => 0 < ret cr.2) (calls w w') -> r = Z.of_nat (length buf) /\ sent (calls w w') = buf).
Proof.
  intros Hc Hr Hs. apply (emits_calls _ _ _ _ _ (Nwrite_writes f buf prot Hc)) in Hr as [Hr _].
  destruct (Hr Hs) as (k & Hk & Ht & Hres & Hall). unfold NET_HARDERROR, NET_SOFTERROR in *.
  exists k. split_and!; [done..|lia|lia|].
  intros Hp. destruct (Hall Hp) as [-> ->]. by rewrite Ht, firstn_all.
Qed.
Definition short_write : world := World [Reply 2 0 [] []; Reply (-1) EAGAIN [] []] [] 0 0 0.
Lemma Nwrite_sends_prefix_witness :
  exists w', Nwrite 3 [7; 8; 9] 0 short_write = Some (2, w') /\
  exists k : nat, (k <= length [7; 8; 9])%nat /\ sent (calls short_write w') = take k [7; 8; 9] /\
    (0 <= 2 -> 2 = Z.of_nat k) /\ (2 < 0 -> 2 = NET_SOFTERROR \/ 2 = NET_HARDERROR) /\
    (Forall (fun cr => 0 < ret cr.2) (calls short_write w') ->
      2 = Z.of_nat (length [7; 8; 9]) /\ sent (calls short_write w') = [7; 8; 9]).
Proof.
  eexists. split; [vm_compute; reflexivity|].
  apply (Nwrite_sends_prefix 3 0 [7; 8; 9] short_write _ 2); [cbn; lia|vm_compute; reflexivity|].
  apply (bool_decide_unpack _). vm_compute. exact I.
Defined.

(** After a partial write, running out of buffers is reported like a write that
    did nothing: the bytes already taken are not counted. *)
Lemma Nwrite_enobufs_uncounted :
  exists w', Nwrite 3 [7; 8; 9] 0 (World [Reply 2 0 [] []; Reply (-1) ENOBUFS [] []] [] 0 0 0) =
    Some (NET_SOFTERROR, w') /\ sent (trace w') = [7; 8].
Proof. eexists. split; vm_compute; reflexivity. Qed.
