(* ===== verification/Json.v ===== *)
(** * Messages of the control connection: JSON_write and JSON_read

    A message is the length of a JSON text, four bytes in network order, and
    the text without layout.  Allocation succeeds; the warnings that
    [JSON_read] prints before it answers with a null pointer are left out. *)
From Stdlib Require Import Ascii String.
From stdpp Require Import strings.
From S2P Require Import Prelude Double Text Cjson IperfTime Iperf Sys Net.
#[local] Open Scope Z_scope.

(** ** Bytes *)

(** The bytes of a character array, and the array that holds given bytes. *)
Fixpoint bytes_of (s : string) : list Z :=
  match s with EmptyString => [] | String c s => code c :: bytes_of s end.
Fixpoint string_of (l : list Z) : string :=
  match l with [] => EmptyString | b :: l => String (chr b) (string_of l) end.

(** [htonl] and [ntohl], the integer being kept as a number and its network
    representation as bytes. *)
Definition htonl (n : Z) : list Z :=
  [n / 2 ^ 24 mod 2 ^ 8; n / 2 ^ 16 mod 2 ^ 8; n / 2 ^ 8 mod 2 ^ 8; n mod 2 ^ 8].
Definition ntohl (l : list Z) : Z :=
  match l with [a; b; c; d] => a * 2 ^ 24 + b * 2 ^ 16 + c * 2 ^ 8 + d | _ => 0 end.

Lemma bytes_of_length s : length (bytes_of s) = String.length s.
Proof. induction s as [|c s IH]; cbn; congruence. Qed.
Lemma code_N c : code c = Z.of_N (N_of_ascii c).
Proof. by destruct c as [[] [] [] [] [] [] [] []]. Qed.
Lemma chr_code c : chr (code c) = c.
Proof. unfold chr. by rewrite code_N, N2Z.id, ascii_N_embedding. Qed.
Lemma code_chr z : in_u8 z -> code (chr z) = z.
Proof. intros [H1 H2]. rewrite code_N. unfold chr. rewrite N_ascii_embedding; [lia|]. change (2 ^ 8) with 256 in H2. lia. Qed.
Lemma string_of_bytes s : string_of (bytes_of s) = s.
Proof. induction s as [|c s IH]; cbn; [done|]. by rewrite chr_code, IH. Qed.
Lemma bytes_of_string l : Forall in_u8 l -> bytes_of (string_of l) = l.
Proof. induction 1 as [|b l Hb _ IH]; cbn; [done|]. by rewrite code_chr, IH. Qed.
Lemma ntohl_htonl n : in_u32 n -> ntohl (htonl n) = n.
Proof. intros Hn. unfold ntohl, htonl. change (2 ^ 24) with 16777216. change (2 ^ 16) with 65536. zlia. Qed.
Lemma htonl_ntohl l : length l = 4%nat -> Forall in_u8 l -> htonl (ntohl l) = l.
Proof.
  destruct l as [|a [|b [|c [|d [|]]]]]; try done. intros _ Hl. rewrite !Forall_cons in Hl.
  destruct Hl as (Ha & Hb & Hc & Hd & _). unfold ntohl, htonl.
  change (2 ^ 24) with 16777216. change (2 ^ 16) with 65536. repeat f_equal; zlia.
Qed.

(** ** JSON_write and JSON_read *)

Definition JSON_write (f : fd) (json : cJSON) : M world Z :=
  match cJSON_PrintUnformatted json with
  | None => mret (-1)
  | Some str =>
      let hsize := u32 (Z.of_nat (String.length str)) in
      let nsize := htonl hsize in
      let! r := Nwrite f nsize Ptcp in
      if r <? 0 then mret (-1)
      else
        let! r := Nwrite f (take (Z.to_nat hsize) (bytes_of str)) Ptcp in
        mret (if r <? 0 then -1 else 0)
  end.

(** The buffer is cleared, so it holds a C string; comparisons of the signed
    [rc] and [max_size] with [hsize] are unsigned. *)
Definition JSON_read (f : fd) (max_size : Z) : M world (option cJSON) :=
  let! (rc, nsize) := Nread f 4 Ptcp in
  if rc =? 4 then
    let hsize := ntohl nsize in
    if (0 <? hsize) && ((max_size =? 0) || (hsize <=? u32 max_size)) then
      let strsize := u32 (hsize + 1) in
      if negb (strsize =? 0) then
        let! (rc, str) := Nread f hsize Ptcp in
        if (0 <=? rc) && (u32 rc =? hsize) then mret (cJSON_Parse (c_string (string_of str)))
        else mret None
      else mret None
    else mret None
  else mret None.

(** What goes over the wire. *)
Definition message (txt : string) : list Z :=
  htonl (Z.of_nat (String.length txt)) ++ bytes_of txt.

(** ** A printed item is a C string *)

Lemma no_nul_app s t : no_nul s = true -> no_nul t = true -> no_nul (s ++ t) = true.
Proof.
  intros Hs Ht. induction s as [|c s IH]; [exact Ht|]. rewrite append_cons.
  apply no_nul_cons in Hs as [Hc Hs]. apply no_nul_cons. auto.
Qed.
Lemma no_nul_tabs n : no_nul (tabs n) = true.
Proof. induction n as [|n IH]; [done|]. apply no_nul_cons. done. Qed.
Lemma no_nul_escape c : code c <> 0 -> no_nul (escape c) = true.
Proof.
  intros Hc. destruct c as [[] [] [] [] [] [] [] []]; try reflexivity; done.
Qed.
Lemma no_nul_literal s : no_nul s = true -> no_nul (print_string_ptr s) = true.
Proof.
  intros Hs. unfold print_string_ptr. apply no_nul_cons. split; [done|].
  apply no_nul_app; [|done]. induction s as [|c s IH]; [done|].
  apply no_nul_cons in Hs as [Hc Hs]. apply no_nul_app; [by apply no_nul_escape|auto].
Qed.
Lemma no_nul_number n s : (take_number n s).1 = s -> no_nul s = true.
Proof.
  revert n; induction s as [|c s IH]; intros [|n] Hs; try done. cbn [take_number] in Hs.
  destruct (number_char c) eqn:Ec; [|done]. destruct (take_number n s) as [a b] eqn:E. injection Hs as ->.
  apply no_nul_cons. split; [|apply (IH n); by rewrite E].
  intros H0. clear -Ec H0. destruct c as [[] [] [] [] [] [] [] []]; cbn in *; done.
Qed.
Create HintDb no_nul.
#[export] Hint Resolve no_nul_app no_nul_tabs no_nul_literal : no_nul.

Lemma print_no_nul format j : forall depth txt,
  wire_ok j = true -> print_value format depth j = Some txt -> no_nul txt = true.
Proof.
  induction j as [| | |d vi|s|l IH|l IH|s] using cJSON_nested_ind;
    intros depth txt Hw Hp; cbn [wire_ok print_value] in *; try (injection Hp as <-; auto with no_nul; done).
  - unfold wire_number in Hw. rewrite Hp in Hw. rewrite !andb_true_iff, !bool_decide_eq_true in Hw.
    destruct Hw as [[[_ Hn] _] _]. apply (no_nul_number 63). by rewrite Hn.
  - destruct (print_array format (print_value format (S depth)) l) as [body|] eqn:Eb; [|done].
    injection Hp as <-. apply (no_nul_app "["); [done|]. apply no_nul_app; [|done].
    revert body Eb. induction IH as [|x l Hx _ IHl]; intros body Eb; cbn [print_array forallb] in *.
    { by injection Eb as <-. }
    apply andb_true_iff in Hw as [Hwx Hwl].
    destruct (print_value format (S depth) x) as [sx|] eqn:Ex; [|done]. cbn [mbind option_bind] in Eb.
    destruct (print_array format (print_value format (S depth)) l) as [more|]; [|by destruct l].
    injection Eb as <-. apply no_nul_app; [eauto|]. apply no_nul_app; [by destruct l, format|auto].
  - destruct (print_object format (S depth) (print_value format (S depth)) l) as [body|] eqn:Eb; [|done].
    injection Hp as <-. apply (no_nul_app "{"); [done|].
    apply no_nul_app; [by destruct format|]. apply no_nul_app; [|apply no_nul_app; [destruct format; auto with no_nul|done]].
    revert body Eb. induction IH as [|[k x] l Hx _ IHl]; intros body Eb; cbn [print_object forallb fst snd] in *.
    { by injection Eb as <-. }
    rewrite !andb_true_iff in Hw. destruct Hw as [[Hk Hwx] Hwl].
    destruct (print_value format (S depth) x) as [sx|] eqn:Ex; [|done]. cbn [mbind option_bind] in Eb.
    destruct (print_object format (S depth) (print_value format (S depth)) l) as [more|]; [|by destruct l].
    injection Eb as <-. repeat apply no_nul_app; auto with no_nul; try (by destruct format, l); eauto.
    destruct format; auto with no_nul.
Qed.

(** ** A message arrives as it was sent *)

Lemma JSON_write_sends f j txt :
  cJSON_PrintUnformatted j = Some txt -> Z.of_nat (String.length txt) < 2 ^ 31 ->
  emits (JSON_write f j) (fun r t => (r = 0 \/ r = -1) /\
    (Forall sane_write t -> Forall (fun cr => 0 < ret cr.2) t -> r = 0 /\ sent t = message txt)).
Proof.
  intros Hp Hlen. unfold JSON_write. rewrite Hp. rewrite u32_id by zlia.
  rewrite firstn_all2 by (rewrite bytes_of_length; lia).
  apply emits_bind. eapply emits_mono; [apply Nwrite_writes; cbn; lia|]. intros r1 t1 H1. cbn beta.
  assert (Hfail : r1 < 0 -> Forall sane_write t1 -> Forall (fun cr : call * reply => 0 < ret cr.2) t1 -> False).
  { intros Hr Hs Hp1. destruct (H1 Hs) as (k & _ & _ & _ & Hall). destruct (Hall Hp1) as [-> _]. cbn in Hr. lia. }
  destruct (Z.ltb_spec r1 0).
  { apply emits_ret. split; [by right|]. rewrite app_nil_r. intros Hs Hp1. by destruct (Hfail H Hs Hp1). }
  apply emits_bind. eapply emits_mono; [apply Nwrite_writes; rewrite bytes_of_length; lia|].
  intros r2 t2 H2. cbn beta. apply emits_ret. split; [destruct (r2 <? 0); auto|]. rewrite app_nil_r.
  intros [Hs1 Hs2]%Forall_app [Hp1 Hp2]%Forall_app.
  destruct (H1 Hs1) as (k1 & _ & Ht1 & _ & Hall1). destruct (H2 Hs2) as (k2 & _ & Ht2 & _ & Hall2).
  destruct (Hall1 Hp1) as [_ ->]. destruct (Hall2 Hp2) as [-> ->].
  split; [destruct (Z.ltb_spec (Z.of_nat (length (bytes_of txt))) 0); lia|].
  rewrite sent_app, Ht1, Ht2, !firstn_all. done.
Qed.

(** The system delivers these bytes to a reader, in time and cut into
    non-empty pieces: those of the length first, then those of the text. *)
Definition delivers (bytes : list Z) (w : world) (rest : list reply) : Prop :=
  exists lo hdr body, bytes = chunk_bytes hdr ++ chunk_bytes body /\ length (chunk_bytes hdr) = 4%nat /\
    Forall (fun c => c.1 <> []) (hdr ++ body) /\ 0 < lo < 2 ^ 31 /\
    Forall (fun c => clock_within lo c.2) (hdr ++ body) /\
    script w = Reply 1 0 [] [] :: feed hdr ++ Reply 1 0 [] [] :: feed body ++ rest.

Lemma JSON_read_message f max_size txt rest w :
  delivers (message txt) w rest -> 0 < Z.of_nat (String.length txt) < 2 ^ 31 ->
  max_size = 0 \/ Z.of_nat (String.length txt) <= max_size < 2 ^ 31 ->
  exists w', JSON_read f max_size w = Some (cJSON_Parse (c_string txt), w') /\ script w' = rest.
Proof.
  intros (lo & hdr & body & Hb & Hh & Hne & Hlo & Hclk & Hs) Hlen Hmax. rewrite !Forall_app in *.
  destruct Hne as [Hne1 Hne2], Hclk as [Hclk1 Hclk2].
  apply app_inj_1 in Hb as [Hhdr Hbody]; [|rewrite Hh; done].
  assert (hdr <> []) by (intros ->; done).
  assert (body <> []) by (intros ->; apply (f_equal length) in Hbody; rewrite bytes_of_length in Hbody; cbn in Hbody; lia).
  destruct (Nread_fed f Ptcp lo hdr (Reply 1 0 [] [] :: feed body ++ rest) w) as (w1 & Hr1 & Hs1); try done.
  { rewrite Hh. lia. }
  destruct (Nread_fed f Ptcp lo body rest w1) as (w2 & Hr2 & Hs2); try done.
  { rewrite <-Hbody, bytes_of_length. lia. }
  exists w2. split; [|done]. rewrite Hh in Hr1. unfold JSON_read, mbnd at 1.
  change (Z.of_nat 4) with 4 in Hr1. rewrite Hr1. cbn [Z.eqb Pos.eqb]. rewrite <-Hhdr, ntohl_htonl by zlia.
  rewrite <-Hbody, bytes_of_length in Hr2.
  assert ((0 <? Z.of_nat (String.length txt)) && ((max_size =? 0) || (Z.of_nat (String.length txt) <=? u32 max_size)) = true) as ->.
  { destruct (Z.ltb_spec 0 (Z.of_nat (String.length txt))); [|lia]. cbn.
    destruct Hmax as [->|Hm]; [done|]. rewrite u32_id by zlia. lia. }
  rewrite (u32_id (_ + 1)) by zlia. destruct (Z.eqb_spec (Z.of_nat (String.length txt) + 1) 0); [lia|]. cbn [negb].
  unfold mbnd. rewrite Hr2, u32_id, Z.eqb_refl by zlia.
  destruct (Z.leb_spec 0 (Z.of_nat (String.length txt))); [|lia]. cbn [andb mret].
  by rewrite string_of_bytes.
Qed.

Lemma JSON_read_item f max_size j txt rest w :
  wire_ok j = true -> (nesting j <= CJSON_NESTING_LIMIT)%nat -> cJSON_PrintUnformatted j = Some txt ->
  Z.of_nat (String.length txt) < 2 ^ 31 -> max_size = 0 \/ Z.of_nat (String.length txt) <= max_size < 2 ^ 31 ->
  delivers (message txt) w rest ->
  exists w', JSON_read f max_size w = Some (Some j, w') /\ script w' = rest.
Proof.
  intros Hw Hn Hp Hlen Hmax Hd. pose proof (print_value_start _ _ _ _ Hw Hp) as Hst.
  destruct (JSON_read_message f max_size txt rest w Hd) as (w' & Hrun & Hrest); try done.
  { split; [|done]. destruct txt; [done|cbn; lia]. }
  exists w'. split; [|done]. rewrite Hrun. do 2 f_equal.
  pose proof (print_no_nul _ _ _ _ Hw Hp) as Hz. unfold no_nul in Hz. apply bool_decide_eq_true in Hz.
  rewrite Hz. by apply (printed_parses false).
Qed.

(** C15. A JSON item crosses the control connection unchanged.  If the sender's
    writes all make progress, in pieces of any size, [JSON_write] succeeds, and
    a receiver to whom those bytes are delivered in time, cut into pieces in
    any other way, reads that very item, as long as the text is not longer
    than the limit it is given. *)
Theorem JSON_transfer (fw fr max_size : Z) (j : cJSON) (txt : string) (ww ww' w : world) (r : Z)
    (rest : list reply) :
  wire_ok j = true -> (nesting j <= CJSON_NESTING_LIMIT)%nat ->
  cJSON_PrintUnformatted j = Some txt -> Z.of_nat (String.length txt) < 2 ^ 31 ->
  max_size = 0 \/ Z.of_nat (String.length txt) <= max_size < 2 ^ 31 ->
  JSON_write fw j ww = Some (r, ww') -> Forall sane_write (calls ww ww') ->
  Forall (fun cr => 0 < ret cr.2) (calls ww ww') -> delivers (sent (calls ww ww')) w rest ->
  r = 0 /\ exists w', JSON_read fr max_size w = Some (Some j, w') /\ script w' = rest.
Proof.
  intros Hw Hn Hp Hlen Hmax Hr Hsane Hprog Hd.
  apply (emits_calls _ _ _ _ _ (JSON_write_sends fw j txt Hp Hlen)) in Hr as [[_ Hr] _].
  destruct (Hr Hsane Hprog) as [-> Ht]. split; [done|]. rewrite Ht in Hd. by eapply JSON_read_item.
Qed.
Definition hello : cJSON := cJSON_Object [("a", cJSON_True)].
Definition hello_hdr := [([0; 0], (7, 0)); ([0; 10], (8, 0))].
Definition hello_body := [([123; 34; 97; 34; 58; 116; 114], (9, 0)); ([117; 101; 125], (9, 5))].
Definition hello_sender : world := World [Reply 4 0 [] []; Reply 5 0 [] []; Reply 5 0 [] []] [] 0 0 0.
Definition hello_receiver : world :=
  World (Reply 1 0 [] [] :: feed hello_hdr ++ Reply 1 0 [] [] :: feed hello_body ++ []) [] 0 0 0.
Lemma JSON_transfer_witness :
  exists ww', JSON_write 3 hello hello_sender = Some (0, ww') /\
    0 = 0 /\ exists w', JSON_read 4 0 hello_receiver = Some (Some hello, w') /\ script w' = [].
Proof.
  eexists. split; [vm_compute; reflexivity|].
  eapply (JSON_transfer 3 4 0 hello _ hello_sender _ hello_receiver 0 []).
  1, 3, 6: vm_compute; reflexivity.
  3: { by left. }
  1: { vm_compute. lia. }
  1: { vm_compute. reflexivity. }
  1, 2: apply (bool_decide_unpack _); vm_compute; exact I.
  exists 7, hello_hdr, hello_body. split_and!; [vm_compute; reflexivity..| |lia|lia| |vm_compute; reflexivity].
  - repeat constructor; done.
  - apply (bool_decide_unpack _); vm_compute; exact I.
Defined.

(** ** Only complete messages are accepted *)

Lemma Nread_in_range f count prot : emits (Nread f count prot) (fun res _ => in_i32 res.1).
Proof.
  unfold Nread, Nrecv.
  assert (Hloop : forall fuel nleft buf ft, emits (Nrecv_loop fuel f 0 count nleft buf ft) (fun res _ => in_i32 res.1)).
  { induction fuel as [|fuel IH]; intros nleft buf ft; [apply emits_fail|]. cbn [Nrecv_loop].
    emit; try apply IH; cbn [fst]; auto with widths; try (unfold NET_HARDERROR; zlia).
    destruct (soft_errno _); auto with widths. unfold NET_HARDERROR; zlia. }
  emit; cbn [fst]; try (unfold NET_HARDERROR; zlia). intros w. apply Hloop.
Qed.

Lemma JSON_read_accepts f max_size : 0 <= max_size < 2 ^ 31 ->
  emits (JSON_read f max_size) (fun res t => forall j, res = Some j -> Forall sane_read t -> Forall in_u8 (received t) ->
    exists txt, received t = message txt /\ cJSON_Parse (c_string txt) = Some j /\
      0 < Z.of_nat (String.length txt) < 2 ^ 31 /\ (max_size = 0 \/ Z.of_nat (String.length txt) <= max_size)).
Proof.
  intros Hmax. unfold JSON_read. apply emits_bind. eapply emits_mono; [apply (Nread_reads f 4 Ptcp); lia|].
  intros [rc nsize] t1 H1. cbn beta iota.
  destruct (Z.eqb_spec rc 4) as [->|]; [|by apply emits_ret].
  destruct (Z.ltb_spec 0 (ntohl nsize)) as [Hpos|]; [|by apply emits_ret]. cbn [andb].
  destruct ((max_size =? 0) || (ntohl nsize <=? u32 max_size)) eqn:Elim; [|by apply emits_ret].
  destruct (negb _); [|by apply emits_ret].
  assert (Hlim : max_size = 0 \/ ntohl nsize <= max_size) by (rewrite u32_id in Elim by zlia; lia).
  apply emits_bind. destruct (Z.lt_ge_cases (ntohl nsize) (2 ^ 31)) as [Hsmall|Hbig].
  - eapply emits_mono; [apply (Nread_reads f (ntohl nsize) Ptcp); lia|].
    intros [rc str] t2 H2. cbn beta iota.
    destruct (Z.leb_spec 0 rc) as [Hrc|]; [|by apply emits_ret]. cbn [andb].
    destruct (Z.eqb_spec (u32 rc) (ntohl nsize)) as [Heq|]; [|by apply emits_ret].
    apply emits_ret. rewrite app_nil_r. intros j Hj [Hs1 Hs2]%Forall_app Hb.
    destruct (H1 Hs1) as [Hn [Hh|[Hn4 _]]]; [done|]. destruct (H2 Hs2) as [Hstr [Hh|[Hlen [Hle _]]]]; [cbn in Hh; unfold NET_HARDERROR in Hh; lia|].
    cbn [fst snd app] in *. rewrite received_app, Forall_app in Hb. destruct Hb as [Hb1 Hb2].
    rewrite <-Hn, <-Hstr in *. rewrite u32_id in Heq by zlia.
    assert (Hl : Z.of_nat (String.length (string_of str)) = ntohl nsize).
    { rewrite <-bytes_of_length, bytes_of_string by done. lia. }
    exists (string_of str). rewrite received_app, <-Hn, <-Hstr. unfold message.
    rewrite Hl, bytes_of_string, htonl_ntohl by (done || lia). split_and!; [done..|lia|lia].
  - eapply emits_mono; [apply Nread_in_range|]. intros [rc str] t2 H2. cbn [fst] in H2. cbn beta iota.
    destruct (Z.leb_spec 0 rc) as [Hrc|]; [|by apply emits_ret]. cbn [andb].
    destruct (Z.eqb_spec (u32 rc) (ntohl nsize)) as [Heq|]; [|by apply emits_ret].
    exfalso. rewrite u32_id in Heq by zlia. zlia.
Qed.

(** C39. [JSON_read] accepts complete messages only: whatever the system
    answers, if an item comes back then the bytes received are exactly one
    message, a length and that many bytes, within the limit if there is one,
    and the item is what the parser makes of them. *)
Theorem JSON_read_complete (f max_size : Z) (w w' : world) (j : cJSON) :
  0 <= max_size < 2 ^ 31 -> JSON_read f max_size w = Some (Some j, w') ->
  Forall sane_read (calls w w') -> Forall in_u8 (received (calls w w')) ->
  exists txt, received (calls w w') = message txt /\ cJSON_Parse (c_string txt) = Some j /\
    0 < Z.of_nat (String.length txt) < 2 ^ 31 /\ (max_size = 0 \/ Z.of_nat (String.length txt) <= max_size).
Proof.
  intros Hm Hr Hs Hb. apply (emits_calls _ _ _ _ _ (JSON_read_accepts f max_size Hm)) in Hr as [Hr _]. eauto.
Qed.
Definition hello_world : world :=
  World (Reply 1 0 [] [] :: feed [([0; 0; 0; 10], (7, 0))] ++
    Reply 1 0 [] [] :: feed [([123; 34; 97; 34; 58; 116; 114; 117; 101; 125], (9, 5))]) [] 0 0 0.
Lemma JSON_read_complete_witness :
  exists w', JSON_read 4 100 hello_world = Some (Some hello, w') /\
  exists txt, received (calls hello_world w') = message txt /\ cJSON_Parse (c_string txt) = Some hello /\
    0 < Z.of_nat (String.length txt) < 2 ^ 31 /\ (100 = 0 \/ Z.of_nat (String.length txt) <= 100).
Proof.
  eexists. split; [vm_compute; reflexivity|].
  apply (JSON_read_complete 4 100 hello_world _ hello); [lia|vm_compute; reflexivity|..].
  - apply (bool_decide_unpack _). vm_compute. exact I.
  - apply (bool_decide_unpack _). vm_compute. exact I.
Defined.

(** A partial write counts as success: if the socket accepts part of the text
    and the next write is interrupted, [JSON_write] returns 0 although the
    message on the wire is incomplete. *)
Lemma JSON_write_partial_success :
  exists w', JSON_write 3 hello
      (World [Reply 4 0 [] []; Reply 5 0 [] []; Reply (-1) EINTR [] []] [] 0 0 0) = Some (0, w') /\
    sent (trace w') = [0; 0; 0; 10; 123; 34; 97; 34; 58].
Proof. eexists. split; vm_compute; reflexivity. Qed.
