(* ===== verification/Buffer.v ===== *)
(** * The printer of JSON text in memory: the print buffer of cjson.c

    cJSON prints into a block that it makes longer as it goes.  Here the printer
    is followed write by write: a store outside of the block, or a string that
    runs off its end, is undefined.  The theorems are that this never happens,
    that the block returned holds exactly the text of Cjson.v, and that no block
    is lost when the allocator refuses. *)
From Stdlib Require Import Ascii String.
From S2P Require Import Prelude Double Text Cjson Sys Json.
#[local] Open Scope string_scope.
#[local] Open Scope Z_scope.

(** ** The heap *)

Module Printbuffer.
Record printbuffer := mk {
  buffer : option (list Z); length : Z; offset : Z; depth : Z; noalloc : bool; format : bool }.
#[global] Instance eta : Settable printbuffer :=
  fun r => mk r.(buffer) r.(length) r.(offset) r.(depth) r.(noalloc) r.(format).
End Printbuffer.
Abbreviation printbuffer := Printbuffer.printbuffer.

(** The buffer, the number of requests made to the allocator and of blocks that
    are in use. *)
Record printer := Printer { pb : printbuffer; requests : nat; live : Z }.
#[export] Instance printer_eta : Settable printer := fun r => Printer (pb r) (requests r) (live r).
Abbreviation B := (M printer).

Definition SIZE_MAX : Z := 2 ^ 64 - 1.

Lemma bytes_of_app s t : bytes_of (s ++ t) = (bytes_of s ++ bytes_of t)%list.
Proof. induction s as [|c s IH]; [done|]. autorewrite with text. cbn. by rewrite IH. Qed.
Lemma no_nul_bytes s : no_nul s = true -> Forall (fun c => c <> 0) (bytes_of s).
Proof. induction s as [|c s IH]; [constructor|]. intros [Hc Hs]%no_nul_cons. constructor; auto. Qed.

(** What C can hold: strings end at their zero, and nothing is near the size of
    the address space. *)
Definition c_str (s : string) : bool := no_nul s && (Z.of_nat (String.length s) <? 2 ^ 60).
Fixpoint c_item (j : cJSON) : bool :=
  match j with
  | cJSON_String s | cJSON_Raw s => c_str s
  | cJSON_Array l => forallb c_item l
  | cJSON_Object l => forallb (fun kx => c_str kx.1 && c_item kx.2) l
  | _ => true
  end.

Section Printer.
(** The allocator: a request gets no memory or a block with some contents; there
    is realloc unless cJSON_InitHooks replaced malloc. *)
Context (hooks : nat -> Z -> option (nat -> Z)) (has_realloc : bool).

Definition fresh (size : Z) (f : nat -> Z) : list Z := map f (seq 0 (Z.to_nat size)).
Definition allocate (size : Z) : B (option (list Z)) :=
  let! s := mget in
  mmod (fun s => s <| requests ::= S |>) ;;
  match hooks (requests s) size with
  | None => mret None
  | Some f => mmod (fun s => s <| live ::= Z.succ |>) ;; mret (Some (fresh size f))
  end.
(** The old block is gone when there is a new one. *)
Definition reallocate (old : list Z) (size : Z) : B (option (list Z)) :=
  let! s := mget in
  mmod (fun s => s <| requests ::= S |>) ;;
  match hooks (requests s) size with
  | None => mret None
  | Some f => mret (Some (take (Z.to_nat size) (old ++ drop (List.length old) (fresh size f))%list))
  end.
Definition deallocate : B unit := mmod (fun s => s <| live ::= Z.pred |>).

(** A longer block with the first [keep] bytes of the old one, by realloc or by
    hand; [memcpy] outside of a block is undefined. *)
Definition grow (old : list Z) (size keep : Z) : B (option (list Z)) :=
  if has_realloc then reallocate old size
  else
    let! new := allocate size in
    match new with
    | None => mret None
    | Some new =>
        if (keep <=? Z.of_nat (List.length old)) && (keep <=? size)
        then deallocate ;; mret (Some (take (Z.to_nat keep) old ++ drop (Z.to_nat keep) new)%list)
        else mfail
    end.

Definition get_pb : B printbuffer := fun s => Some (pb s, s).
Definition upd_pb (f : printbuffer -> printbuffer) : B unit := mmod (fun s => s <| pb ::= f |>).
Definition set_offset (f : Z -> Z) : B unit := upd_pb (fun p => p <| Printbuffer.offset ::= f |>).
Definition set_depth (f : Z -> Z) : B unit := upd_pb (fun p => p <| Printbuffer.depth ::= f |>).

(** Room for [needed] more bytes; the result is where they go. *)
Definition ensure (needed : Z) : B (option Z) :=
  let! p := get_pb in
  match Printbuffer.buffer p with
  | None => mret None
  | Some b =>
      if (0 <? Printbuffer.length p) && (Printbuffer.length p <=? Printbuffer.offset p) then mret None
      else if SIZE_MAX <? needed then mret None
      else
        let needed := u64 (needed + u64 (Printbuffer.offset p + 1)) in
        if needed <=? Printbuffer.length p then mret (Some (Printbuffer.offset p))
        else if Printbuffer.noalloc p then mret None
        else
          let newsize := if SIZE_MAX / 2 <? needed then SIZE_MAX else needed * 2 in
          let! newbuffer := grow b newsize (Printbuffer.offset p + 1) in
          match newbuffer with
          | None => deallocate ;; upd_pb (fun p => p <| Printbuffer.length := 0 |> <| Printbuffer.buffer := None |>) ;; mret None
          | Some b =>
              upd_pb (fun p => p <| Printbuffer.length := newsize |> <| Printbuffer.buffer := Some b |>) ;;
              mret (Some (Printbuffer.offset p))
          end
  end.

(** [buffer[i] = c]; outside of the block it is undefined. *)
Definition store (i c : Z) : B unit :=
  let! p := get_pb in
  match Printbuffer.buffer p with
  | Some b => if (0 <=? i) && (i <? Z.of_nat (List.length b))
              then upd_pb (fun p => p <| Printbuffer.buffer := Some (<[Z.to_nat i := c]> b) |>) else mfail
  | None => mfail
  end.
Fixpoint store_all (i : Z) (l : list Z) : B unit :=
  match l with [] => mret tt | c :: l => store i c ;; store_all (i + 1) l end.
(** strcpy, and the zero that ends a string written by hand. *)
Definition strcpy (i : Z) (s : string) : B unit := store_all i (bytes_of s ++ [0])%list.

Fixpoint strlen_in (l : list Z) : option Z :=
  match l with [] => None | c :: l => if c =? 0 then Some 0 else n ← strlen_in l; Some (n + 1) end.
Definition update_offset : B unit :=
  let! p := get_pb in
  match Printbuffer.buffer p with
  | None => mret tt
  | Some b =>
      let! n := mopt (strlen_in (drop (Z.to_nat (Printbuffer.offset p)) b)) in
      set_offset (Z.add n)
  end.

(** ** The printer *)

(** Room, then what is done there. *)
Definition in_room (needed : Z) (k : Z -> B bool) : B bool :=
  let! output := ensure needed in
  match output with None => mret false | Some i => k i end.
Definition literal (s : string) : B bool := in_room (Z.of_nat (String.length s) + 1) (fun i => strcpy i s ;; mret true).

Definition print_number (d : double) (vi : Z) : B bool :=
  match Cjson.print_number d vi with
  | None => mret false
  | Some number_buffer =>
      let length := Z.of_nat (String.length number_buffer) in
      in_room (length + 1) (fun i => strcpy i number_buffer ;; set_offset (Z.add length) ;; mret true)
  end.

(** The characters that escaping adds. *)
Definition escaped (c : ascii) : Z :=
  let n := code c in
  if existsb (Z.eqb n) [34; 92; 8; 12; 10; 13; 9] then 1 else if n <? 32 then 5 else 0.
Fixpoint escape_characters (s : string) : Z :=
  match s with EmptyString => 0 | String c s => escaped c + escape_characters s end.
(** The loop; [sprintf] puts a zero behind the digits. *)
Fixpoint copy_escaped (i : Z) (s : string) : B unit :=
  match s with
  | EmptyString => mret tt
  | String c s =>
      let n := code c in
      if (31 <? n) && negb (n =? 34) && negb (n =? 92) then store i n ;; copy_escaped (i + 1) s
      else
        store i 92 ;;
        let one (x : Z) : B unit := store (i + 1) x ;; copy_escaped (i + 2) s in
        if n =? 92 then one 92 else if n =? 34 then one 34 else if n =? 8 then one (code "b") else if n =? 12 then one (code "f")
        else if n =? 10 then one (code "n") else if n =? 13 then one (code "r") else if n =? 9 then one (code "t")
        else strcpy (i + 1) ("u" ++ hex_pad 4 n) ;; copy_escaped (i + 6) s
  end.
Definition print_string_ptr (input : string) : B bool :=
  let output_length := Z.of_nat (String.length input) + escape_characters input in
  in_room (output_length + 3) (fun i =>
    store i 34 ;;
    (if escape_characters input =? 0 then store_all (i + 1) (bytes_of input) else copy_escaped (i + 1) input) ;;
    store (i + output_length + 1) 34 ;; store (i + output_length + 2) 0 ;; mret true).

(** [need m k] goes on when [m] succeeded. *)
Definition need (m k : B bool) : B bool := let! r := m in if r then k else mret false.

Definition print_array (print : cJSON -> B bool) : list cJSON -> B bool :=
  fix go child :=
    match child with
    | [] => mret true
    | x :: rest =>
        need (print x)
          (update_offset ;;
           let! p := get_pb in
           need (match rest with
                 | [] => mret true
                 | _ =>
                     let length := if Printbuffer.format p then 2 else 1 in
                     in_room (length + 1) (fun i => strcpy i (if Printbuffer.format p then ", " else ",") ;;
                                                    set_offset (Z.add length) ;; mret true)
                 end)
             (go rest))
    end.
Definition print_object (print : cJSON -> B bool) : list (string * cJSON) -> B bool :=
  fix go child :=
    match child with
    | [] => mret true
    | (k, x) :: rest =>
        let! p := get_pb in
        let depth := Printbuffer.depth p in
        let format := Printbuffer.format p in
        need (if format then in_room depth (fun i => store_all i (repeat 9 (Z.to_nat depth)) ;; set_offset (Z.add depth) ;; mret true)
              else mret true)
          (need (print_string_ptr k)
             (update_offset ;;
              let length := if format then 2 else 1 in
              need (in_room length (fun i => store_all i (bytes_of (if format then ":" ++ tabs 1 else ":")) ;;
                                             set_offset (Z.add length) ;; mret true))
                (need (print x)
                   (update_offset ;;
                    let end_ := ((match rest with [] => "" | _ => "," end) ++ (if format then newline else ""))%string in
                    let length := Z.of_nat (String.length end_) in
                    need (in_room (length + 1) (fun i => strcpy i end_ ;; set_offset (Z.add length) ;; mret true))
                      (go rest)))))
    end.

Fixpoint print_value (item : cJSON) : B bool :=
  match item with
  | cJSON_NULL => literal "null"
  | cJSON_False => literal "false"
  | cJSON_True => literal "true"
  | cJSON_Number d vi => print_number d vi
  | cJSON_Raw s => literal s
  | cJSON_String s => print_string_ptr s
  | cJSON_Array child =>
      need (in_room 1 (fun i => store i (code "[") ;; set_offset Z.succ ;; set_depth Z.succ ;; mret true))
        (need (print_array print_value child)
           (in_room 2 (fun i => strcpy i "]" ;; set_depth Z.pred ;; mret true)))
  | cJSON_Object child =>
      let! p := get_pb in
      let format := Printbuffer.format p in
      let length := if format then 2 else 1 in
      need (in_room (length + 1) (fun i =>
              store i (code "{") ;; set_depth Z.succ ;; (if format then store (i + 1) 10 else mret tt) ;;
              set_offset (Z.add length) ;; mret true))
        (need (print_object print_value child)
           (let! p := get_pb in
            let depth := Printbuffer.depth p in
            in_room (if format then depth + 1 else 2) (fun i =>
              strcpy i ((if format then tabs (Z.to_nat (depth - 1)) else "") ++ "}") ;; set_depth Z.pred ;; mret true)))
  end.

(** ** The entry points *)

Definition print (format : bool) (item : cJSON) : B (option (list Z)) :=
  let! buffer := allocate 256 in
  upd_pb (fun _ => Printbuffer.mk buffer 256 0 0 false format) ;;
  let fail : B (option (list Z)) :=
    let! p := get_pb in
    match Printbuffer.buffer p with Some _ => deallocate | None => mret tt end ;;
    mret None in
  match buffer with
  | None => fail
  | Some _ =>
      let! r := print_value item in
      if negb r then fail
      else
        update_offset ;;
        let! p := get_pb in
        match Printbuffer.buffer p with
        | None => mfail
        | Some b =>
            let offset := Printbuffer.offset p in
            let! printed := grow b (offset + 1) (Z.min (Printbuffer.length p) (offset + 1)) in
            match printed with
            | None => fail
            | Some printed => mret (Some (if has_realloc then printed else <[Z.to_nat offset := 0]> printed))
            end
        end
  end.
Definition cJSON_Print (item : cJSON) : B (option (list Z)) := print true item.
Definition cJSON_PrintUnformatted (item : cJSON) : B (option (list Z)) := print false item.
Definition cJSON_PrintBuffered (item : cJSON) (prebuffer : Z) (fmt : bool) : B (option (list Z)) :=
  if prebuffer <? 0 then mret None
  else
    let! buffer := allocate prebuffer in
    match buffer with
    | None => mret None
    | Some _ =>
        upd_pb (fun _ => Printbuffer.mk buffer prebuffer 0 0 false fmt) ;;
        let! r := print_value item in
        let! p := get_pb in
        if negb r then match Printbuffer.buffer p with Some _ => deallocate | None => mret tt end ;; mret None
        else mret (Printbuffer.buffer p)
    end.
(** The caller's block; what it holds afterwards is in the print buffer. *)
Definition cJSON_PrintPreallocated (item : cJSON) (buffer : option (list Z)) (length : Z) (format : bool) : B bool :=
  match buffer with
  | Some _ =>
      if length <? 0 then mret false
      else upd_pb (fun _ => Printbuffer.mk buffer length 0 0 true format) ;; print_value item
  | None => mret false
  end.

(** ** What a program leaves in the buffer *)

Definition wp {A : Type} (m : B A) (s : printer) (Q : A -> printer -> Prop) : Prop := exists a s', m s = Some (a, s') /\ Q a s'.
Lemma wp_bind {A C : Type} (m : B A) (k : A -> B C) s Q : wp m s (fun a s' => wp (k a) s' Q) -> wp (mbnd m k) s Q.
Proof. intros (a & s1 & H1 & b & s2 & H2 & HQ). exists b, s2. split; [|done]. by rewrite (bind_run _ _ _ _ _ H1). Qed.
Lemma wp_run {A : Type} (m : B A) s a s' (Q : A -> printer -> Prop) : m s = Some (a, s') -> Q a s' -> wp m s Q.
Proof. intros H HQ. by exists a, s'. Qed.
Lemma wp_then {A C : Type} (m : B A) (k : A -> B C) s a s' Q : m s = Some (a, s') -> wp (k a) s' Q -> wp (mbnd m k) s Q.
Proof. intros H HQ. by apply wp_bind, (wp_run _ _ a s'). Qed.
Lemma wp_ret {A : Type} (a : A) s (Q : A -> printer -> Prop) : Q a s -> wp (mret a) s Q.
Proof. by apply wp_run. Qed.
Lemma wp_mono {A : Type} (m : B A) s (Q Q' : A -> printer -> Prop) : wp m s Q -> (forall a s', Q a s' -> Q' a s') -> wp m s Q'.
Proof. intros (a & s' & H & HQ) Hi. exists a, s'. auto. Qed.
Lemma wp_need m k s Q Q' : wp m s Q' -> (forall s', Q' true s' -> wp k s' Q) -> (forall s', Q' false s' -> Q false s') -> wp (need m k) s Q.
Proof.
  intros H Ht Hf. apply wp_bind. eapply wp_mono; [exact H|]. intros [] s' HQ; [auto|]. by apply wp_ret, Hf.
Qed.

(** The block is [l] and then [rest]. *)
Definition block (s : printer) (l rest : list Z) : Prop :=
  Printbuffer.buffer (pb s) = Some (l ++ rest)%list /\ Printbuffer.length (pb s) = Z.of_nat (List.length (l ++ rest)) /\
  Printbuffer.length (pb s) < 2 ^ 63.
(** Everything before the offset is [pre]; there is a byte at the offset unless
    the block is empty, and then it need not be copied. *)
Definition at_ (s : printer) (pre : list Z) : Prop := exists rest,
  block s pre rest /\ Printbuffer.offset (pb s) = Z.of_nat (List.length pre) /\ 
  (rest <> [] \/ pre = [] /\ (has_realloc = true \/ Printbuffer.noalloc (pb s) = true)).
(** The text [t] follows, terminated; the offset is somewhere in it. *)
Definition pending (s : printer) (pre t : list Z) : Prop := exists rest k,
  block s (pre ++ t) (0 :: rest) /\ Printbuffer.offset (pb s) = Z.of_nat (List.length pre + k) /\ (k <= List.length t)%nat /\
  Forall (fun c => c <> 0) (drop k t).

(** What stays the same while printing goes well. *)
Record keeps (s s' : printer) : Prop := {
  kp_format : Printbuffer.format (pb s') = Printbuffer.format (pb s);
  kp_noalloc : Printbuffer.noalloc (pb s') = Printbuffer.noalloc (pb s);
  kp_fixed : Printbuffer.noalloc (pb s) = true -> Printbuffer.length (pb s') = Printbuffer.length (pb s);
  kp_live : live s' = live s;
  kp_requests : (requests s <= requests s')%nat }.
#[local] Instance keeps_preorder : PreOrder keeps.
Proof.
  split; [by intros s; split|]. intros a b c [] []. split; try congruence; [|lia]. intros H. rewrite kp_fixed1; [auto|congruence].
Qed.
Definition depth_of (s : printer) : Z := Printbuffer.depth (pb s).

(** The allocator refused between two states. *)
Definition refused (s s' : printer) : Prop :=
  exists n size, (requests s <= n < requests s')%nat /\ hooks n size = None.
(** After a failure the block is still there, or it is gone and was freed; a
    fixed block is never freed. *)
Definition ended (s s' : printer) : Prop :=
  (requests s <= requests s')%nat /\
  match Printbuffer.buffer (pb s') with
  | Some _ => live s' = live s
  | None => live s' = live s - 1 /\ Printbuffer.noalloc (pb s) = false
  end.
(** A failure has a reason: with a text to print, memory was refused or the
    fixed block is too small for it. *)
Definition failed (s s' : printer) (pre : list Z) (t : option string) : Prop :=
  ended s s' /\ forall txt, t = Some txt ->
    if Printbuffer.noalloc (pb s) then Printbuffer.length (pb s) < Z.of_nat (List.length pre + List.length (bytes_of txt)) + 2
    else refused s s'.
(** With success the text is there, and [fin] says where the offset is. *)
Definition outcome (fin : printer -> list Z -> list Z -> Prop) (s : printer) (pre : list Z) (d : Z) (t : option string)
    (r : bool) (s' : printer) : Prop :=
  if r then exists txt, t = Some txt /\ keeps s s' /\ depth_of s' = d /\ fin s' pre (bytes_of txt) else failed s s' pre t.
Definition behind (s : printer) (pre t : list Z) : Prop := at_ s (pre ++ t).

Lemma failed_later s s1 s' pre pre1 t t1 : keeps s s1 -> failed s1 s' pre1 t1 ->
  (forall txt, t = Some txt -> exists txt1, t1 = Some txt1 /\
     (List.length pre1 + List.length (bytes_of txt1) <= List.length pre + List.length (bytes_of txt))%nat) -> failed s s' pre t.
Proof.
  intros [] [[Hn He] Hr] Ht. split.
  - split; [lia|]. destruct (Printbuffer.buffer _); [lia|]. destruct He. split; [lia|congruence].
  - intros txt H. destruct (Ht txt H) as (txt1 & Ht1 & Hl). specialize (Hr txt1 Ht1). rewrite kp_noalloc0 in Hr.
    destruct (Printbuffer.noalloc (pb s)) eqn:Ea.
    + rewrite <-kp_fixed0 by done. lia.
    + destruct Hr as (n & size & Hs & Hh). exists n, size. split; [lia|done].
Qed.

(** ** Writing *)

Definition put (s : printer) (b : list Z) : printer := s <| pb ::= fun p => p <| Printbuffer.buffer := Some b |> |>.
Definition moved (f : Z -> Z) (s : printer) : printer := s <| pb ::= fun p => p <| Printbuffer.offset ::= f |> |>.
Definition sunk (f : Z -> Z) (s : printer) : printer := s <| pb ::= fun p => p <| Printbuffer.depth ::= f |> |>.
Lemma keeps_put s s' b : keeps s s' -> keeps s (put s' b).
Proof. by intros []. Qed.
Lemma keeps_moved s s' f : keeps s s' -> keeps s (moved f s').
Proof. by intros []. Qed.
Lemma keeps_sunk s s' f : keeps s s' -> keeps s (sunk f s').
Proof. by intros []. Qed.

Lemma store_run s a x rest c : Printbuffer.buffer (pb s) = Some (a ++ x :: rest)%list ->
  store (Z.of_nat (List.length a)) c s = Some (tt, put s (a ++ c :: rest)%list).
Proof.
  intros Hb. unfold store, get_pb. cbn [mbnd]. unfold mbnd. rewrite Hb, length_app. cbn [List.length].
  assert ((0 <=? Z.of_nat (List.length a)) && (Z.of_nat (List.length a) <? Z.of_nat (List.length a + S (List.length rest))) = true) as ->
    by (apply andb_true_intro; split; [apply Z.leb_le|apply Z.ltb_lt]; lia).
  rewrite Nat2Z.id, insert_app_r_alt, Nat.sub_diag by lia. done.
Qed.
Lemma store_all_run l : forall s a rest i, Printbuffer.buffer (pb s) = Some (a ++ rest)%list -> (List.length l <= List.length rest)%nat ->
  i = Z.of_nat (List.length a) -> store_all i l s = Some (tt, put s (a ++ l ++ drop (List.length l) rest)%list).
Proof.
  induction l as [|c l IH]; intros s a rest i Hb Hl Hi; cbn [store_all List.length] in *.
  - destruct s as [[] q v]. cbn in Hb. subst. done.
  - destruct rest as [|x rest]; cbn in Hl; [lia|]. subst i. rewrite (bind_run _ _ _ _ _ (store_run s a x rest c Hb)).
    rewrite (IH _ (a ++ [c])%list rest); [|by rewrite <-app_assoc|lia|rewrite length_app; cbn; lia].
    by rewrite <-app_assoc.
Qed.
Lemma put_put s b b' : put (put s b) b' = put s b'.
Proof. done. Qed.
Lemma store_all_app l l' i s s1 : store_all i l s = Some (tt, s1) ->
  store_all i (l ++ l') s = store_all (i + Z.of_nat (List.length l)) l' s1.
Proof.
  revert i s. induction l as [|c l IH]; intros i s H; cbn [store_all app List.length] in *.
  - injection H as ->. by rewrite Z.add_0_r.
  - unfold mbnd in *. destruct (store i c s) as [[[] s2]|]; [|done]. rewrite (IH _ _ H). f_equal. lia.
Qed.
Lemma block_put s a rest l : block s a rest -> (List.length l <= List.length rest)%nat ->
  block (put s (a ++ l ++ drop (List.length l) rest)%list) (a ++ l) (drop (List.length l) rest).
Proof.
  intros (Hb & Hl & Hm) Hr. split; [by cbn; rewrite <-app_assoc|]. split; [|done].
  change (Printbuffer.length (pb s) = Z.of_nat (List.length ((a ++ l) ++ drop (List.length l) rest))).
  rewrite Hl, !length_app, length_drop. lia.
Qed.
Lemma block_put_split s a rest l z : block s a rest -> (List.length (l ++ z) <= List.length rest)%nat ->
  block (put s (a ++ (l ++ z) ++ drop (List.length (l ++ z)) rest)%list) (a ++ l) (z ++ drop (List.length (l ++ z)) rest).
Proof.
  intros Hb Hl. destruct (block_put _ _ _ _ Hb Hl) as (Hb' & Hn & Hm).
  rewrite <-!app_assoc in Hn. rewrite <-!app_assoc. split; [cbn; by rewrite <-!app_assoc|]. split; [|done].
  rewrite <-!app_assoc. exact Hn.
Qed.

(** ** Room *)

(** No block has half the address space or more. *)
Hypothesis small_blocks : forall n size f, hooks n size = Some f -> size < 2 ^ 63.

Lemma grow_run old size keep s : has_realloc = true \/ keep <= Z.of_nat (List.length old) -> 0 <= keep <= size ->
  exists r s', grow old size keep s = Some (r, s') /\ pb s' = pb s /\ requests s' = S (requests s) /\ live s' = live s /\
  match r with
  | None => hooks (requests s) size = None
  | Some b => size < 2 ^ 63 /\ Z.of_nat (List.length b) = size /\ exists tl, b = (take (Z.to_nat keep) old ++ tl)%list
  end.
Proof.
  intros Hkeep Hsize. unfold grow, reallocate, allocate. destruct has_realloc.
  - unfold mbnd, mget, mmod. cbn. destruct (hooks (requests s) size) as [f|] eqn:Ef; do 2 eexists; (split; [reflexivity|]);
      (split; [done|]); (split; [done|]); (split; [done|]); [|done].
    assert (List.length (fresh size f) = Z.to_nat size) as Hf by (unfold fresh; by rewrite length_map, length_seq).
    split; [eauto|]. split; [rewrite length_take, length_app, length_drop, Hf; lia|].
    destruct (Nat.le_gt_cases (Z.to_nat keep) (List.length old)) as [Hle|Hgt].
    + eexists. rewrite <-(take_drop (Z.to_nat keep) (take _ _)) at 1. rewrite take_take, Nat.min_l, take_app_le by lia. reflexivity.
    + eexists. rewrite (take_ge old), take_app_ge by lia. reflexivity.
  - destruct Hkeep as [|Hkeep]; [done|]. unfold mbnd, mget, mmod. cbn. destruct (hooks (requests s) size) as [f|] eqn:Ef; cbn.
    2: { do 2 eexists. split; [reflexivity|]. done. }
    rewrite (proj2 (Z.leb_le keep _)), (proj2 (Z.leb_le keep size)) by lia. cbn.
    do 2 eexists. split; [reflexivity|]. cbn. split; [done|]. split; [done|]. split; [lia|]. split; [eauto|]. split; [|by eexists].
    unfold fresh. rewrite length_app, length_take, length_drop, length_map, length_seq. lia.
Qed.
Lemma ensure_spec s pre needed : at_ s pre -> 0 <= needed < 2 ^ 63 ->
  wp (ensure needed) s (fun r s' =>
    match r with
    | Some i => i = Z.of_nat (List.length pre) /\ keeps s s' /\ depth_of s' = depth_of s /\ Printbuffer.offset (pb s') = i /\
        exists rest, block s' pre rest /\ needed < Z.of_nat (List.length rest)
    | None => ended s s' /\
        if Printbuffer.noalloc (pb s) then Printbuffer.length (pb s) < Z.of_nat (List.length pre) + needed + 1 else refused s s'
    end).
Proof.
  intros (rest & (Hb & Hl & Hm) & Ho & Hne) Hn. unfold ensure. eapply wp_then; [reflexivity|]. rewrite Hb.
  rewrite length_app in Hl.
  assert ((0 <? Printbuffer.length (pb s)) && (Printbuffer.length (pb s) <=? Printbuffer.offset (pb s)) = false) as ->.
  { apply andb_false_iff. destruct Hne as [Hne|[-> _]]; [right; apply Z.leb_gt; destruct rest; [done|cbn in *; lia]|].
    cbn in *. destruct (Z.ltb_spec 0 (Printbuffer.length (pb s))); [right; apply Z.leb_gt; lia|by left]. }
  assert ((SIZE_MAX <? needed) = false) as -> by (apply Z.ltb_ge; unfold SIZE_MAX; lia).
  rewrite (u64_id (Printbuffer.offset (pb s) + 1)) by (unfold in_u64; lia).
  rewrite (u64_id (needed + _)) by (unfold in_u64; lia). cbv zeta.
  destruct (Z.leb_spec (needed + (Printbuffer.offset (pb s) + 1)) (Printbuffer.length (pb s))) as [Hle|Hgt].
  { apply wp_ret. split; [done|]. split; [done|]. split; [done|]. split; [done|]. exists rest. unfold block. rewrite length_app. split; [done|lia]. }
  destruct (Printbuffer.noalloc (pb s)) eqn:Ea.
  { apply wp_ret. split; [split; [done|by rewrite Hb]|lia]. }
  set (newsize := if _ <? _ then _ else _).
  destruct (grow_run (pre ++ rest)%list newsize (Printbuffer.offset (pb s) + 1) s) as (r & s' & Hg & Hp & Hrun & Hl' & Hr); [..|eapply wp_then; [exact Hg|]].
  { rewrite length_app. destruct Hne as [Hne|[_ [Hne|Hne]]]; [right|by left|congruence]. destruct rest; [done|cbn; lia]. }
  { subst newsize. destruct (_ <? _); [unfold SIZE_MAX; lia|lia]. }
  destruct r as [b|].
  - destruct Hr as (Hs & Hlen & tl & Hbb). assert (newsize = 2 * (needed + (Printbuffer.offset (pb s) + 1))) as Hnew.
    { subst newsize. destruct (_ <? _); [unfold SIZE_MAX in Hs; lia|lia]. }
    clearbody newsize. rewrite Ho in Hbb. replace (Z.to_nat (Z.of_nat (List.length pre) + 1)) with (List.length pre + 1)%nat in Hbb by lia.
    rewrite take_app_add in Hbb. rewrite <-app_assoc in Hbb. subst b.
    eapply wp_then; [reflexivity|]. apply wp_ret. split; [done|]. split; [split; cbn; rewrite ?Hp; try done; [congruence|lia]|].
    split; [unfold depth_of; cbn; by rewrite Hp|]. split; [cbn; by rewrite Hp|].
    eexists. split; [split; [reflexivity|]|].
    + cbn. split; [lia|lia].
    + rewrite !length_app in *. lia.
  - rename Hr into Hh. eapply wp_then; [reflexivity|]. eapply wp_then; [reflexivity|]. apply wp_ret.
    split; [split; [cbn; lia|cbn; split; [lia|done]]|]. exists (requests s), newsize. split; [cbn; lia|done].
Qed.
Lemma in_room_spec s pre needed k t Q : at_ s pre -> 0 <= needed < 2 ^ 63 ->
  (forall txt, t = Some txt -> needed <= Z.of_nat (List.length (bytes_of txt)) + 1) ->
  (forall s' rest, keeps s s' -> depth_of s' = depth_of s -> Printbuffer.offset (pb s') = Z.of_nat (List.length pre) ->
     block s' pre rest -> needed < Z.of_nat (List.length rest) -> wp (k (Z.of_nat (List.length pre))) s' Q) ->
  (forall s', failed s s' pre t -> Q false s') -> wp (in_room needed k) s Q.
Proof.
  intros Ha Hn Ht Hk Hf. apply wp_bind. eapply wp_mono; [by apply ensure_spec|]. intros [i|] s'; cbn beta iota.
  - intros (-> & Hs & Hd & Ho & rest & Hb & Hr). by apply (Hk s' rest).
  - intros [He Hw]. apply wp_ret, Hf. split; [done|]. intros txt ->. specialize (Ht _ eq_refl).
    destruct (Printbuffer.noalloc (pb s)); [lia|done].
Qed.

(** A piece of text put at the offset, which moves behind it; the depth changes. *)
Lemma place_spec f g s pre needed str l z k : at_ s pre -> l = bytes_of str -> (forall o, g o = Z.of_nat (List.length l) + o) ->
  0 <= needed < 2 ^ 63 -> Z.of_nat (List.length (l ++ z)) <= needed <= Z.of_nat (List.length l) + 1 ->
  (forall s' rest, Printbuffer.buffer (pb s') = Some (pre ++ rest)%list -> (List.length (l ++ z) < List.length rest)%nat ->
     k (Z.of_nat (List.length pre)) s' = Some (true, moved g (sunk f (put s' (pre ++ (l ++ z) ++ drop (List.length (l ++ z)) rest)%list)))) ->
  wp (in_room needed k) s (outcome behind s pre (f (depth_of s)) (Some str)).
Proof.
  intros Ha -> Hg Hn Hl Hk. eapply (in_room_spec _ _ _ _ (Some str)); [done..|intros txt [= <-]; lia| |done]. set (l := bytes_of str) in *.
  intros s' rest Hs Hd Ho Hb Hr. assert (List.length (l ++ z) < List.length rest)%nat as Hlr by lia.
  eapply wp_run; [apply Hk; [apply Hb|done]|]. exists str. split; [done|].
  split; [apply keeps_moved, keeps_sunk, keeps_put, Hs|]. split; [cbn; f_equal; exact Hd|].
  exists (z ++ drop (List.length (l ++ z)) rest)%list.
  split; [|split; [change (g (Printbuffer.offset (pb s')) = Z.of_nat (List.length (pre ++ l))); rewrite Hg, Ho, length_app; lia|left; intros [_ He]%app_eq_nil; apply (f_equal List.length) in He; rewrite length_drop in He; cbn in He; lia]].
  apply (block_put_split _ _ _ _ _ Hb). lia.
Qed.
Lemma emit_spec s pre needed str l z n : at_ s pre -> l = bytes_of str -> n = Z.of_nat (List.length l) -> 0 <= needed < 2 ^ 63 ->
  Z.of_nat (List.length (l ++ z)) <= needed <= Z.of_nat (List.length l) + 1 ->
  wp (in_room needed (fun i => store_all i (l ++ z)%list ;; set_offset (Z.add n) ;; mret true)) s
     (outcome behind s pre (depth_of s) (Some str)).
Proof.
  intros Ha Hl -> Hn Hz. apply (place_spec id (Z.add (Z.of_nat (List.length l))) _ _ _ _ l z); [done..|]. intros s' rest Hb Hr.
  rewrite (bind_run _ _ _ _ _ (store_all_run (l ++ z) s' pre rest _ Hb ltac:(lia) eq_refl)). done.
Qed.
(** Text put at the offset, terminated; the offset stays or goes to its end. *)
Lemma put_block s s' pre rest (l : list Z) i : keeps s s' -> depth_of s' = depth_of s -> block s' pre rest ->
  (List.length l < List.length rest)%nat -> i = Z.of_nat (List.length pre) ->
  exists s1 rest1, store_all i (l ++ [0])%list s' = Some (tt, s1) /\ keeps s s1 /\ depth_of s1 = depth_of s /\
    Printbuffer.offset (pb s1) = Printbuffer.offset (pb s') /\ block s1 (pre ++ l) (0 :: rest1).
Proof.
  intros Hs Hd Hb Hl Hi. do 2 eexists. split; [apply store_all_run; [apply Hb|rewrite length_app; cbn; lia|done]|].
  split; [apply keeps_put, Hs|]. split; [exact Hd|]. split; [done|].
  apply (block_put_split _ _ _ l [0]); [done|rewrite length_app; cbn; lia].
Qed.
Lemma pending_start s pre l rest : block s (pre ++ l) (0 :: rest) -> Printbuffer.offset (pb s) = Z.of_nat (List.length pre) ->
  Forall (fun c => c <> 0) l -> pending s pre l.
Proof. intros Hb Ho Hl. exists rest, 0%nat. rewrite Nat.add_0_r. auto with lia. Qed.
Lemma pending_app s pre a b : pending s (pre ++ a) b -> pending s pre (a ++ b).
Proof.
  intros (rest & k & Hb & Ho & Hk & Hz). exists rest, (List.length a + k)%nat. rewrite app_assoc. split; [done|].
  rewrite length_app in *. split; [rewrite Ho; f_equal; lia|]. split; [lia|].
  by rewrite drop_app_add.
Qed.
Lemma printed_start s s1 pre str rest : keeps s s1 -> depth_of s1 = depth_of s -> block s1 (pre ++ bytes_of str) (0 :: rest) ->
  Printbuffer.offset (pb s1) = Z.of_nat (List.length pre) -> no_nul str = true -> outcome pending s pre (depth_of s) (Some str) true s1.
Proof. intros Hs Hd Hb Ho Hz. exists str. split; [done|]. split; [done|]. split; [done|]. eapply pending_start; [done..|by apply no_nul_bytes]. Qed.

(** ** Values without children *)

Lemma literal_spec s pre str : at_ s pre -> c_str str = true -> wp (literal str) s (outcome pending s pre (depth_of s) (Some str)).
Proof.
  intros Ha [Hz Hn%Z.ltb_lt]%andb_true_iff. eapply in_room_spec; [done|lia| | |done].
  - intros txt [= <-]. rewrite bytes_of_length. lia.
  - intros s' rest Hs Hd Ho Hb Hr.
    destruct (put_block s s' pre rest (bytes_of str) _ Hs Hd Hb ltac:(rewrite bytes_of_length; lia) eq_refl) as (s1 & rest1 & Hp & Hs1 & Hd1 & Ho1 & Hb1).
    eapply wp_then; [exact Hp|]. apply wp_ret. eapply printed_start; [done..|congruence|done].
Qed.
Lemma print_number_spec s pre d vi : at_ s pre -> wp (print_number d vi) s (outcome pending s pre (depth_of s) (Cjson.print_number d vi)).
Proof.
  intros Ha. unfold print_number. destruct (Cjson.print_number d vi) as [str|] eqn:Ep.
  2: { apply wp_ret. split; [split; [done|]|done]. destruct Ha as (rest & (Hb & _) & _). by rewrite Hb. }
  assert (String.length str <= 25)%nat as Hl.
  { unfold Cjson.print_number in Ep. cbv zeta in Ep. match type of Ep with (if ?b then _ else _) = _ => destruct b eqn:El; [done|] end.
    injection Ep as <-. by apply Nat.ltb_ge in El. }
  eapply in_room_spec; [done|lia| | |done].
  - intros txt [= <-]. rewrite bytes_of_length. lia.
  - intros s' rest Hs Hd Ho Hb Hr.
    destruct (put_block s s' pre rest (bytes_of str) _ Hs Hd Hb ltac:(rewrite bytes_of_length; lia) eq_refl) as (s1 & rest1 & Hp & Hs1 & Hd1 & Ho1 & Hb1).
    eapply wp_then; [exact Hp|]. eapply wp_then; [reflexivity|]. apply wp_ret. exists str. split; [done|].
    split; [apply keeps_moved, Hs1|]. split; [exact Hd1|]. exists rest1, (String.length str).
    split; [exact Hb1|]. split; [cbn; lia|]. rewrite bytes_of_length. split; [lia|].
    rewrite drop_ge by (rewrite bytes_of_length; lia). constructor.
Qed.

Lemma escape_size c : Z.of_nat (String.length (escape c)) = 1 + escaped c.
Proof. by destruct c as [[] [] [] [] [] [] [] []]. Qed.
Lemma escape_none c : escaped c = 0 -> escape c = String c "".
Proof. by destruct c as [[] [] [] [] [] [] [] []]. Qed.
Lemma escaped_bounds c : 0 <= escaped c <= 5.
Proof. destruct c as [[] [] [] [] [] [] [] []]; vm_compute; split; discriminate. Qed.
Lemma escape_all_size s : Z.of_nat (String.length (escape_all s)) = Z.of_nat (String.length s) + escape_characters s.
Proof.
  induction s as [|c s IH]; [done|]. cbn [escape_all escape_characters String.length].
  rewrite length_append. pose proof (escape_size c). lia.
Qed.
Lemma escape_characters_bounds s : 0 <= escape_characters s <= 5 * Z.of_nat (String.length s).
Proof. induction s as [|c s IH]; cbn [escape_characters String.length]; [lia|]. pose proof (escaped_bounds c). lia. Qed.
Lemma escape_all_none s : escape_characters s = 0 -> escape_all s = s.
Proof.
  induction s as [|c s IH]; cbn [escape_characters escape_all]; [done|]. intros H.
  pose proof (escaped_bounds c). pose proof (escape_characters_bounds s). rewrite escape_none, IH by lia. done.
Qed.

Lemma store_all_bind (m : B unit) i l st :
  mbnd (store_all i l) (fun _ => m) st = (match store_all i l st with Some (_, st') => m st' | None => None end).
Proof. unfold mbnd. by destruct (store_all i l st) as [[[] ?]|]. Qed.
(** One character is written as its escape sequence, with a zero behind it when
    it has four digits. *)
Lemma copy_escaped_step c s i st : exists z, (List.length z <= 1)%nat /\
  copy_escaped i (String c s) st =
  mbnd (store_all i (bytes_of (escape c) ++ z)%list) (fun _ => copy_escaped (i + Z.of_nat (String.length (escape c))) s) st.
Proof.
  set (copy := copy_escaped). assert (forall x j, mbnd (store i x) (fun _ => copy_escaped j s) st =
      mbnd (store_all i [x]) (fun _ => copy_escaped j s) st) as H1.
  { intros x j. unfold mbnd. cbn [store_all]. unfold mbnd, mret. by destruct (store i x st) as [[[] ?]|]. }
  assert (forall x y j, mbnd (store i x) (fun _ => mbnd (store (i + 1) y) (fun _ => copy_escaped j s)) st =
      mbnd (store_all i [x; y]) (fun _ => copy_escaped j s) st) as H2.
  { intros x y j. unfold mbnd. cbn [store_all]. unfold mbnd, mret. destruct (store i x st) as [[[] ?]|]; [|done]. by destruct (store (i + 1) y _) as [[[] ?]|]. }
  assert (forall x l j, mbnd (store i x) (fun _ => mbnd (store_all (i + 1) l) (fun _ => copy_escaped j s)) st =
      mbnd (store_all i (x :: l)) (fun _ => copy_escaped j s) st) as H3.
  { intros x l j. unfold mbnd. cbn [store_all]. unfold mbnd, mret. by destruct (store i x st) as [[[] ?]|]. }
  subst copy. unfold escape. cbn [copy_escaped]. cbv zeta.
  destruct ((31 <? code c) && _ && _). { exists []. split; [cbn; lia|]. apply H1. }
  repeat match goal with |- context [if code c =? ?x then _ else _] => destruct (Z.eqb_spec (code c) x) as [Hc|_] end;
    try (exists []; split; [cbn; lia|]; apply H2).
  exists [0]. split; [cbn; lia|]. unfold strcpy. rewrite H3. cbn [bytes_of]. 
  assert (String.length (hex_pad 4 (code c)) = 4%nat) as Hx by by destruct c as [[] [] [] [] [] [] [] []].
  change (String.length (String backslash ("u" ++ hex_pad 4 (code c)))) with (S (String.length ("u" ++ hex_pad 4 (code c)))).
  rewrite length_append, Hx. done.
Qed.
Lemma copy_escaped_run str : forall st a rest, Printbuffer.buffer (pb st) = Some (a ++ rest)%list ->
  (String.length (escape_all str) < List.length rest)%nat ->
  exists rest', List.length rest = (String.length (escape_all str) + List.length rest')%nat /\
    copy_escaped (Z.of_nat (List.length a)) str st = Some (tt, put st (a ++ bytes_of (escape_all str) ++ rest')%list).
Proof.
  induction str as [|c str IH]; intros st a rest Hb Hl; cbn [escape_all] in *.
  { exists rest. split; [done|]. destruct st as [[] q v]. cbn in Hb. by subst. }
  rewrite length_append in Hl. destruct (copy_escaped_step c str (Z.of_nat (List.length a)) st) as (z & Hz & ->).
  assert (List.length (bytes_of (escape c) ++ z) <= List.length rest)%nat as Hle by (rewrite length_app, bytes_of_length; lia).
  rewrite (bind_run _ _ _ _ _ (store_all_run _ _ _ _ _ Hb Hle eq_refl)).
  set (rest1 := drop _ rest). rewrite <-(app_assoc _ z).
  assert (List.length (z ++ rest1) = List.length rest - String.length (escape c))%nat as Hr1
    by (unfold rest1; rewrite length_app, length_drop; rewrite length_app, bytes_of_length in *; lia).
  destruct (IH (put st (a ++ bytes_of (escape c) ++ z ++ rest1)%list) (a ++ bytes_of (escape c))%list (z ++ rest1)%list) as (rest' & Hr & Hc).
  - cbn. by rewrite <-!app_assoc.
  - lia.
  - rewrite length_app, bytes_of_length in Hle. exists rest'. rewrite length_append, bytes_of_app.
    split; [lia|]. rewrite length_app, bytes_of_length, Nat2Z.inj_add in Hc. rewrite Hc. by rewrite put_put, <-!app_assoc.
Qed.

Lemma print_string_ptr_spec s pre str : at_ s pre -> c_str str = true ->
  wp (print_string_ptr str) s (outcome pending s pre (depth_of s) (Some (Cjson.print_string_ptr str))).
Proof.
  intros Ha [Hz Hn%Z.ltb_lt]%andb_true_iff. unfold print_string_ptr. cbv zeta.
  pose proof (escape_all_size str) as He. pose proof (escape_characters_bounds str) as Hx.
  assert (List.length (bytes_of (Cjson.print_string_ptr str)) = String.length (escape_all str) + 2)%nat as Hlen.
  { rewrite bytes_of_length. unfold Cjson.print_string_ptr. cbn [String.length]. rewrite length_append. cbn. lia. }
  eapply in_room_spec; [done|lia| | |done].
  { intros txt [= <-]. rewrite Hlen. lia. }
  intros s' rest Hs Hd Ho Hb Hr. rewrite <-He in *. destruct rest as [|x rest]; [cbn in Hr; lia|]. cbn [List.length] in Hr.
  eapply wp_then; [apply (store_run s' pre x rest), Hb|].
  set (s1 := put s' _).
  assert (exists rest', List.length rest = (String.length (escape_all str) + List.length rest')%nat /\
    (if escape_characters str =? 0 then store_all (Z.of_nat (List.length pre) + 1) (bytes_of str)
     else copy_escaped (Z.of_nat (List.length pre) + 1) str) s1 =
    Some (tt, put s' ((pre ++ [34]) ++ bytes_of (escape_all str) ++ rest')%list)) as (rest' & Hr' & Hm).
  { assert (Z.of_nat (List.length pre) + 1 = Z.of_nat (List.length (pre ++ [34]))) as -> by (rewrite length_app; cbn; lia).
    assert (Printbuffer.buffer (pb s1) = Some ((pre ++ [34]) ++ rest)%list) as Hb1 by (cbn; by rewrite <-app_assoc).
    destruct (Z.eqb_spec (escape_characters str) 0) as [E|E].
    - rewrite (escape_all_none _ E). exists (drop (List.length (bytes_of str)) rest).
      rewrite length_drop, bytes_of_length. split; [lia|].
      rewrite (store_all_run _ _ _ _ _ Hb1); [by rewrite bytes_of_length|rewrite bytes_of_length; lia|done].
    - destruct (copy_escaped_run str s1 _ _ Hb1 ltac:(lia)) as (rest' & Hr' & Hc). by exists rest'. }
  eapply wp_then; [exact Hm|]. destruct rest' as [|y [|y' rest']]; [cbn in Hr'; lia..|].
  set (a := ((pre ++ [34]) ++ bytes_of (escape_all str))%list).
  assert (List.length a = List.length pre + 1 + String.length (escape_all str))%nat as Hla
    by (unfold a; rewrite !length_app, bytes_of_length; done).
  rewrite (app_assoc (pre ++ [34])%list). fold a.
  eapply wp_then; [replace (Z.of_nat (List.length pre) + _ + 1) with (Z.of_nat (List.length a)) by lia; apply (store_run _ a y (y' :: rest')); done|].
  rewrite put_put, (cons_middle _ a), app_assoc.
  eapply wp_then; [replace (Z.of_nat (List.length pre) + _ + 2) with (Z.of_nat (List.length (a ++ [34])%list)) by (rewrite length_app; cbn; lia); apply (store_run _ (a ++ [34])%list y' rest'); done|].
  rewrite put_put. apply wp_ret.
  assert ((a ++ [34])%list = (pre ++ bytes_of (Cjson.print_string_ptr str))%list) as Ha34.
  { unfold a, Cjson.print_string_ptr. cbn [bytes_of]. rewrite bytes_of_app, <-!app_assoc. done. }
  eapply (printed_start _ _ _ _ rest'); [apply keeps_put, Hs|exact Hd| |exact Ho|by apply no_nul_literal].
  rewrite <-Ha34. split; [done|]. destruct Hb as (_ & Hl & Hm'). split; [|exact Hm']. change (Printbuffer.length (pb s') = Z.of_nat (List.length ((a ++ [34]) ++ 0 :: rest'))). clearbody a. rewrite Hl, !length_app. cbn [List.length] in *. lia.
Qed.

(** ** Pieces of text in a row *)

Definition join (ta tb : option string) : option string := a ← ta; String.append a <$> tb.
Infix "+>" := join (at level 60, right associativity).

Lemma failed_head s s' pre ta tb : failed s s' pre ta -> failed s s' pre (ta +> tb).
Proof.
  intros Hf. apply (failed_later s s s' pre pre _ ta); [done|done|]. intros txt H.
  destruct ta as [a|]; [|done]. destruct tb as [b|]; [|done]. injection H as <-. exists a. rewrite bytes_of_app, length_app. split; [done|lia].
Qed.
Lemma failed_tail s s1 s' pre a tb : keeps s s1 -> failed s1 s' (pre ++ bytes_of a) tb -> failed s s' pre (Some a +> tb).
Proof.
  intros Hs Hf. eapply failed_later; [exact Hs|exact Hf|]. intros txt H. destruct tb as [b|]; [|done].
  injection H as <-. exists b. rewrite bytes_of_app, !length_app. split; [done|lia].
Qed.
Definition extends (fin : printer -> list Z -> list Z -> Prop) : Prop := forall s pre a b, fin s (pre ++ a)%list b -> fin s pre (a ++ b)%list.
Lemma behind_extends : extends behind.
Proof. intros s pre a b. unfold behind. by rewrite app_assoc. Qed.
Lemma outcome_tail fin s s1 pre d a tb r s' : extends fin -> keeps s s1 ->
  outcome fin s1 (pre ++ bytes_of a) d tb r s' -> outcome fin s pre d (Some a +> tb) r s'.
Proof.
  intros Hfin Hs. destruct r; [|by apply failed_tail]. intros (b & -> & Hs1 & Hd & Hf). exists (a ++ b).
  split; [done|]. split; [by etransitivity|]. split; [done|]. rewrite bytes_of_app. by apply Hfin.
Qed.
(** A piece and what follows it. *)
Lemma seq_spec fin m k s pre d1 d2 ta tb : extends fin -> wp m s (outcome behind s pre d1 ta) ->
  (forall s1 a, ta = Some a -> keeps s s1 -> depth_of s1 = d1 -> at_ s1 (pre ++ bytes_of a) ->
     wp k s1 (outcome fin s1 (pre ++ bytes_of a) d2 tb)) ->
  wp (need m k) s (outcome fin s pre d2 (ta +> tb)).
Proof.
  intros Hfin Hm Hk. eapply wp_need; [exact Hm| |intros s'; apply failed_head].
  intros s1 (a & -> & Hs & Hd & Ha). eapply wp_mono; [by apply Hk|]. intros r s'. by apply outcome_tail.
Qed.
Lemma update_spec s pre t : pending s pre t ->
  exists s', update_offset s = Some (tt, s') /\ keeps s s' /\ depth_of s' = depth_of s /\ at_ s' (pre ++ t) /\
    Printbuffer.offset (pb s') = Z.of_nat (List.length (pre ++ t)) /\ exists rest, block s' (pre ++ t) (0 :: rest).
Proof.
  intros (rest & k & Hb & Ho & Hk & Hz). unfold update_offset, mbnd, get_pb. destruct Hb as (Hb & Hl & Hm). rewrite Hb, Ho, Nat2Z.id.
  rewrite <-!app_assoc, drop_app_add, drop_app_le by done.
  assert (forall l, Forall (fun c => c <> 0) l -> strlen_in (l ++ 0 :: rest) = Some (Z.of_nat (List.length l))) as Hlen.
  { induction 1 as [|c l Hc _ IH]; [done|]. cbn [app strlen_in]. rewrite (proj2 (Z.eqb_neq c 0)), IH by done. cbn. f_equal. lia. }
  rewrite Hlen by done. eexists. split; [reflexivity|]. split; [apply (keeps_moved s s); reflexivity|]. split; [done|].
  assert (Z.of_nat (List.length (drop k t)) + Printbuffer.offset (pb s) = Z.of_nat (List.length (pre ++ t))) as Ho'
    by (rewrite Ho, length_drop, length_app; lia).
  split; [exists (0 :: rest); split; [done|]; split; [exact Ho'|by left]|]. split; [exact Ho'|by exists rest].
Qed.
(** An item, the offset moved behind it, and what follows. *)
Lemma item_spec fin m k s pre d1 d2 ta tb : extends fin -> wp m s (outcome pending s pre d1 ta) ->
  (forall s1 a, ta = Some a -> keeps s s1 -> depth_of s1 = d1 -> at_ s1 (pre ++ bytes_of a) ->
     wp k s1 (outcome fin s1 (pre ++ bytes_of a) d2 tb)) ->
  wp (need m (update_offset ;; k)) s (outcome fin s pre d2 (ta +> tb)).
Proof.
  intros Hfin Hm Hk. eapply wp_need; [exact Hm| |intros s'; apply failed_head].
  intros s1 (a & -> & Hs & Hd & Ha). destruct (update_spec _ _ _ Ha) as (s2 & Hu & Hs2 & Hd2 & Ha2 & _). eapply wp_then; [exact Hu|].
  assert (keeps s s2) by (by etransitivity). eapply wp_mono; [apply Hk; [done|done|congruence|done]|]. intros r s'. by apply outcome_tail.
Qed.
Lemma nothing_spec s pre : at_ s pre -> wp (mret true) s (outcome behind s pre (depth_of s) (Some "")).
Proof. intros Ha. apply wp_ret. exists "". split; [done|]. split; [done|]. split; [done|]. unfold behind. by rewrite app_nil_r. Qed.

(** ** Values with children *)

Definition sound_item (item : cJSON) : Prop := forall s pre depth,
  c_item item = true -> at_ s pre -> depth_of s = Z.of_nat depth -> Z.of_nat (depth + nesting item) < 2 ^ 60 ->
  wp (print_value item) s (outcome pending s pre (depth_of s) (Cjson.print_value (Printbuffer.format (pb s)) depth item)).

Lemma print_array_spec l : Forall sound_item l -> forallb c_item l = true -> forall s pre depth,
  at_ s pre -> depth_of s = Z.of_nat depth -> Z.of_nat (depth + max_list_with nesting l) < 2 ^ 60 ->
  wp (print_array print_value l) s (outcome behind s pre (depth_of s)
    (Cjson.print_array (Printbuffer.format (pb s)) (Cjson.print_value (Printbuffer.format (pb s)) depth) l)).
Proof.
  induction 1 as [|x l Hx _ IH]; cbn [forallb max_list_with print_array Cjson.print_array]; intros Hc s pre depth Ha Hd Hn.
  { by apply nothing_spec. }
  apply andb_true_iff in Hc as [Hcx Hcl]. set (fmt := Printbuffer.format (pb s)).
  set (sep := match l with [] => "" | _ => if fmt then ", " else "," end).
  replace (s0 ← Cjson.print_value fmt depth x; _) with
    (Cjson.print_value fmt depth x +> Some sep +> Cjson.print_array fmt (Cjson.print_value fmt depth) l)
    by (destruct (Cjson.print_value fmt depth x), (Cjson.print_array _ _ l); done).
  eapply item_spec; [apply behind_extends|apply Hx; [done..|lia]|]. intros s1 a _ Hs1 Hd1 Ha1.
  eapply wp_then; [reflexivity|]. pose proof (kp_format _ _ Hs1) as Hf1. rewrite Hf1. fold fmt in Hf1 |- *. rewrite <-Hd1.
  eapply seq_spec; [apply behind_extends| |].
  - subst sep. destruct l; [by apply nothing_spec|]. destruct fmt; by apply emit_spec; [..|cbn; lia|cbn; lia].
  - intros s2 b _ Hs2 Hd2 Ha2. rewrite <-Hf1, <-(kp_format _ _ Hs2), <-Hd2. apply IH; [done..|congruence|lia].
Qed.

Lemma bytes_of_tabs n : bytes_of (tabs n) = repeat 9 n.
Proof. induction n as [|n IH]; [done|]. cbn. by f_equal. Qed.
Lemma print_object_spec l : Forall (fun kx => sound_item kx.2) l -> forallb (fun kx => c_str kx.1 && c_item kx.2) l = true ->
  forall s pre depth, at_ s pre -> depth_of s = Z.of_nat depth -> Z.of_nat (depth + max_list_with (fun kx => nesting kx.2) l) < 2 ^ 60 ->
  wp (print_object print_value l) s (outcome behind s pre (depth_of s)
    (Cjson.print_object (Printbuffer.format (pb s)) depth (Cjson.print_value (Printbuffer.format (pb s)) depth) l)).
Proof.
  induction 1 as [|[k x] l Hx _ IH]; cbn [forallb max_list_with print_object Cjson.print_object fst snd] in *; intros Hc s pre depth Ha Hd Hn.
  { by apply nothing_spec. }
  apply andb_true_iff in Hc as [[Hk Hcx]%andb_true_iff Hcl]. eapply wp_then; [reflexivity|]. set (fmt := Printbuffer.format (pb s)).
  set (indent := if fmt then tabs depth else ""). set (colon := if fmt then ":" ++ tabs 1 else ":").
  set (end_ := (match l with [] => "" | _ => "," end ++ (if fmt then newline else ""))).
  replace (s0 ← Cjson.print_value fmt depth x; _) with
    (Some indent +> Some (Cjson.print_string_ptr k) +> Some colon +> Cjson.print_value fmt depth x +> Some end_ +>
     Cjson.print_object fmt depth (Cjson.print_value fmt depth) l)
    by (destruct (Cjson.print_value fmt depth x), (Cjson.print_object _ _ _ l); [|done..]; subst end_; cbn; by rewrite append_assoc).
  eapply seq_spec; [apply behind_extends| |].
  { change (Printbuffer.depth (pb s)) with (depth_of s). subst indent. destruct fmt; [|by apply nothing_spec].
    rewrite Hd, Nat2Z.id, <-bytes_of_tabs, <-(app_nil_r (bytes_of (tabs depth))), <-Hd.
    assert (List.length (bytes_of (tabs depth)) = depth) by (rewrite bytes_of_tabs; apply repeat_length).
    apply emit_spec; [done|done|lia|lia|rewrite app_nil_r; lia]. }
  intros s1 a1 _ Hs1 Hd1 Ha1. rewrite <-Hd1. eapply item_spec; [apply behind_extends|by apply print_string_ptr_spec|].
  intros s2 a2 _ Hs2 Hd2 Ha2. rewrite <-Hd2. eapply seq_spec; [apply behind_extends| |].
  { fold colon. rewrite <-(app_nil_r (bytes_of colon)). subst colon. destruct fmt; (apply emit_spec; [done..|lia|split; vm_compute; discriminate]). }
  intros s3 a3 _ Hs3 Hd3 Ha3. rewrite <-Hd3.
  assert (keeps s s3) as Hs by (etransitivity; [exact Hs1|]; by etransitivity). pose proof (kp_format _ _ Hs) as Hf. fold fmt in Hf. rewrite <-Hf.
  eapply item_spec; [apply behind_extends|apply Hx; [done..|congruence|lia]|].
  intros s4 a4 _ Hs4 Hd4 Ha4. rewrite <-Hd4. rewrite Hf. eapply seq_spec; [apply behind_extends| |].
  { fold end_. rewrite <-bytes_of_length. apply emit_spec; [done|done|done| |rewrite length_app; cbn [List.length]; lia].
    subst end_. destruct l, fmt; split; vm_compute; done. }
  intros s5 a5 _ Hs5 Hd5 Ha5. rewrite <-Hf, <-(kp_format _ _ Hs4), <-(kp_format _ _ Hs5), <-Hd5. apply IH; [done..|congruence|lia].
Qed.

Lemma close_spec s pre str needed : at_ s pre -> no_nul str = true -> needed = Z.of_nat (String.length str) + 1 -> needed < 2 ^ 63 ->
  wp (in_room needed (fun i => strcpy i str ;; set_depth Z.pred ;; mret true)) s (outcome pending s pre (depth_of s - 1) (Some str)).
Proof.
  intros Ha Hz -> Hn. eapply (in_room_spec _ _ _ _ (Some str)); [done|lia|intros txt [= <-]; rewrite bytes_of_length; lia| |done].
  intros s' rest Hs Hd Ho Hb Hr.
  destruct (put_block s s' pre rest (bytes_of str) _ Hs Hd Hb ltac:(rewrite bytes_of_length; lia) eq_refl) as (s1 & rest1 & Hp & Hs1 & Hd1 & Ho1 & Hb1).
  eapply wp_then; [exact Hp|]. eapply wp_then; [reflexivity|]. apply wp_ret. exists str. split; [done|].
  split; [apply keeps_sunk, Hs1|]. split; [cbn; change (Printbuffer.depth (pb s1)) with (depth_of s1); lia|].
  eapply pending_start; [exact Hb1|cbn; congruence|by apply no_nul_bytes].
Qed.
Lemma pending_extends : extends pending.
Proof. intros s pre a b. apply pending_app. Qed.

Theorem print_value_spec item : sound_item item.
Proof.
  induction item as [| | |d vi|str|l IH|l IH|str] using cJSON_nested_ind; intros s pre depth Hc Ha Hd Hn;
    cbn [print_value Cjson.print_value c_item nesting] in *;
    try (by apply literal_spec); try (by apply print_number_spec); try (by apply print_string_ptr_spec).
  - set (fmt := Printbuffer.format (pb s)).
    replace (body ← Cjson.print_array fmt (Cjson.print_value fmt (S depth)) l; _) with
      (Some "[" +> Cjson.print_array fmt (Cjson.print_value fmt (S depth)) l +> Some "]") by by destruct (Cjson.print_array _ _ l).
    eapply seq_spec; [apply pending_extends| |].
    { eapply (place_spec Z.succ Z.succ _ _ _ "[" [91] []); [done|done|intros o; cbn; lia|lia|cbn; lia|].
      intros s' [|x rest] Hb Hr; cbn in Hr; [lia|]. rewrite (bind_run _ _ _ _ _ (store_run _ _ x rest 91 Hb)). done. }
    intros s1 a _ Hs1 Hd1 Ha1. replace (depth_of s) with (depth_of s1 - 1) by lia. unfold fmt. rewrite <-(kp_format _ _ Hs1).
    eapply seq_spec; [apply pending_extends|apply print_array_spec; [done..|lia|lia]|].
    intros s2 b _ Hs2 Hd2 Ha2. rewrite <-Hd2. apply close_spec; [done|done|done|lia].
  - eapply wp_then; [reflexivity|]. set (fmt := Printbuffer.format (pb s)). set (nl := if fmt then newline else "").
    set (indent := if fmt then tabs depth else "").
    replace (body ← Cjson.print_object fmt (S depth) (Cjson.print_value fmt (S depth)) l; _) with
      (Some ("{" ++ nl) +> Cjson.print_object fmt (S depth) (Cjson.print_value fmt (S depth)) l +> Some (indent ++ "}"))
      by (destruct (Cjson.print_object _ _ _ l); [cbn; by rewrite append_assoc|done]).
    eapply seq_spec; [apply pending_extends| |].
    { eapply (place_spec Z.succ (Z.add (if fmt then 2 else 1)) _ _ _ ("{" ++ nl) (bytes_of ("{" ++ nl)) []); [done|done|intros o; unfold nl; by destruct fmt|by destruct fmt|unfold nl; destruct fmt; split; vm_compute; done|].
      intros s' [|x rest] Hb Hr; cbn [List.length] in Hr; [lia|]. rewrite (bind_run _ _ _ _ _ (store_run _ _ x rest (code "{") Hb)). subst nl.
      destruct fmt; [|done]. destruct rest as [|y rest]; [exfalso; vm_compute in Hr; lia|].
      rewrite (bind_run (set_depth Z.succ) _ _ tt (sunk Z.succ (put s' (pre ++ 123 :: y :: rest)%list)) eq_refl).
      replace (Z.of_nat (List.length pre) + 1) with (Z.of_nat (List.length (pre ++ [123])%list)) by (rewrite length_app; cbn; lia).
      rewrite (bind_run _ _ _ _ _ (store_run (sunk Z.succ (put s' (pre ++ 123 :: y :: rest)%list)) (pre ++ [123])%list y rest 10 ltac:(cbn; by rewrite <-app_assoc))).
      by rewrite <-app_assoc. }
    intros s1 a _ Hs1 Hd1 Ha1. replace (depth_of s) with (depth_of s1 - 1) by lia. pose proof (kp_format _ _ Hs1) as Hf1. fold fmt in Hf1. rewrite <-Hf1.
    eapply seq_spec; [apply pending_extends|apply print_object_spec; [done..|lia|lia]|].
    intros s2 b _ Hs2 Hd2 Ha2. rewrite <-Hd2. eapply wp_then; [reflexivity|]. rewrite Hf1. clear IH Ha Ha1.
    change (Printbuffer.depth (pb s2)) with (depth_of s2). replace (Z.to_nat (depth_of s2 - 1)) with depth by lia. fold indent.
    assert (String.length (tabs depth) = depth) as Ht by (rewrite <-bytes_of_length, bytes_of_tabs; apply repeat_length).
    apply close_spec; [done| | |].
    + apply no_nul_app; [|done]. subst indent. destruct fmt; [apply no_nul_tabs|done].
    + rewrite length_append. subst indent. destruct fmt; [rewrite Ht; cbn; lia|done].
    + destruct fmt; lia.
Qed.

(** ** The entry points *)

Definition printable (item : cJSON) : bool := c_item item && (Z.of_nat (nesting item) <? 2 ^ 60).
Lemma printable_spec item s b format noalloc : printable item = true -> Z.of_nat (List.length b) < 2 ^ 63 ->
  b <> [] \/ has_realloc = true \/ noalloc = true ->
  let s1 := s <| pb := Printbuffer.mk (Some b) (Z.of_nat (List.length b)) 0 0 noalloc format |> in
  wp (print_value item) s1 (outcome pending s1 [] 0 (Cjson.print_value format 0 item)).
Proof.
  intros [Hc Hn%Z.ltb_lt]%andb_true_iff Hb Hne s1. apply (print_value_spec item s1 [] 0%nat); [done| |done|done].
  exists b. split; [done|]. split; [done|]. destruct Hne; auto.
Qed.
Lemma allocate_run size s : 0 <= size -> exists r s', allocate size s = Some (r, s') /\ requests s' = S (requests s) /\
  match r with
  | None => live s' = live s /\ hooks (requests s) size = None
  | Some b => live s' = live s + 1 /\ Z.of_nat (List.length b) = size /\ size < 2 ^ 63
  end.
Proof.
  intros Hs. unfold allocate, mbnd, mget, mmod. destruct (hooks (requests s) size) as [f|] eqn:E; do 2 eexists; (split; [reflexivity|]).
  - split; [done|]. split; [done|]. unfold fresh. rewrite length_map, length_seq. split; [lia|eauto].
  - done.
Qed.

(** C17. cJSON_Print and cJSON_PrintUnformatted, whatever the allocator answers:
    no byte is stored or read outside of the block, and the result is a block of
    exactly the text of the item and its zero, the only block left in use, or
    nothing, with every block freed, and then there is no text to print or
    memory was refused. *)
Theorem print_exact (format : bool) (item : cJSON) (s : printer) : printable item = true ->
  exists r s', print format item s = Some (r, s') /\
    match r with
    | Some b => live s' = live s + 1 /\ exists txt, Cjson.print_value format 0 item = Some txt /\ b = (bytes_of txt ++ [0])%list
    | None => live s' = live s /\ (Cjson.print_value format 0 item = None \/ refused s s')
    end.
Proof.
  intros Hp. destruct (allocate_run 256 s ltac:(lia)) as (r & s0 & Ha & Hr0 & Hb).
  eapply (wp_then _ _ _ r s0); [exact Ha|]. eapply wp_then; [reflexivity|]. destruct r as [b|].
  2: { destruct Hb as [Hl Hh]. eapply wp_then; [reflexivity|]. eapply wp_then; [reflexivity|]. apply wp_ret. split; [exact Hl|]. right. exists (requests s), 256. cbn. split; [lia|done]. }
  destruct Hb as (Hl & Hb & _). apply wp_bind.
  eapply wp_mono; [rewrite <-Hb; apply printable_spec; [done|lia|left; intros ->; done]|].
  intros [] s1; cbn [negb].
  - intros (txt & Ht & Hs1 & _ & Hpend). destruct (update_spec _ _ _ Hpend) as (s2 & Hu & Hs2 & _ & _ & Ho & rest & Hbuf & Hlen & Hm).
    eapply wp_then; [exact Hu|]. eapply wp_then; [reflexivity|]. rewrite Hbuf, Ho. cbn [app] in *.
    pose proof (kp_live _ _ Hs1) as Hl1. pose proof (kp_live _ _ Hs2) as Hl2. pose proof (kp_requests _ _ Hs1) as Hq1. pose proof (kp_requests _ _ Hs2) as Hq2.
    cbn in Hl1, Hq1. set (n := Z.of_nat (List.length (bytes_of txt))) in *. fold n.
    assert (Z.min (Printbuffer.length (pb s2)) (n + 1) = n + 1) as -> by (rewrite Hlen, length_app; cbn [List.length]; lia).
    destruct (grow_run (bytes_of txt ++ 0 :: rest)%list (n + 1) (n + 1) s2) as (r & s3 & Hg & Hp3 & Hr3 & Hl3 & Hr); [..|eapply wp_then; [exact Hg|]].
    { right. rewrite length_app. cbn [List.length]. lia. }
    { lia. }
    destruct r as [b'|].
    + apply wp_ret. split; [lia|]. exists txt. split; [exact Ht|]. destruct Hr as (_ & Hbl & tl & ->).
      replace (Z.to_nat (n + 1)) with (List.length (bytes_of txt) + 1)%nat in * by lia. rewrite take_app_add in *. cbn [take] in *.
      rewrite !length_app in Hbl. destruct tl; [|cbn in Hbl; lia]. rewrite app_nil_r.
      destruct has_realloc; [done|]. subst n. rewrite Nat2Z.id, insert_app_r_alt, Nat.sub_diag by lia. done.
    + eapply wp_then; [reflexivity|]. rewrite Hp3, Hbuf.
      eapply wp_then; [reflexivity|]. apply wp_ret. split; [cbn; lia|]. right. exists (requests s2), (n + 1). cbn. split; [lia|done].
  - intros [[Hq He] Hw]. cbn in Hq, He. eapply wp_then; [reflexivity|].
    assert (live s = live s0 - 1) as -> by lia.
    assert (Cjson.print_value format 0 item = None \/ refused s s1) as Hr.
    { destruct (Cjson.print_value format 0 item) as [txt|]; [right|by left]. destruct (Hw txt eq_refl) as (n & size & Hn & Hh).
      exists n, size. cbn in Hn. split; [lia|done]. }
    destruct (Printbuffer.buffer (pb s1)).
    + eapply wp_then; [reflexivity|]. apply wp_ret. split; [cbn; lia|exact Hr].
    + eapply wp_then; [reflexivity|]. apply wp_ret. split; [lia|exact Hr].
Qed.

Lemma print_buffered_exact (fmt : bool) (item : cJSON) (prebuffer : Z) (s : printer) : printable item = true -> in_i32 prebuffer ->
  prebuffer <> 0 \/ has_realloc = true ->
  exists r s', cJSON_PrintBuffered item prebuffer fmt s = Some (r, s') /\
    match r with
    | Some b => live s' = live s + 1 /\ exists txt rest, Cjson.print_value fmt 0 item = Some txt /\ b = (bytes_of txt ++ 0 :: rest)%list
    | None => live s' = live s /\ (prebuffer < 0 \/ Cjson.print_value fmt 0 item = None \/ refused s s')
    end.
Proof.
  intros Hp Hi Hz. unfold cJSON_PrintBuffered. destruct (Z.ltb_spec prebuffer 0) as [Hlt|Hge]; [apply wp_ret; auto|].
  destruct (allocate_run prebuffer s Hge) as (r & s0 & Ha & Hr0 & Hb). eapply (wp_then _ _ _ r s0); [exact Ha|]. destruct r as [b|].
  2: { destruct Hb as [Hl Hh]. apply wp_ret. split; [exact Hl|]. right. right. exists (requests s), prebuffer. split; [lia|done]. }
  destruct Hb as (Hl & Hb & Hm). eapply wp_then; [reflexivity|]. apply wp_bind. eapply wp_mono; [rewrite <-Hb; apply printable_spec; [done|lia|destruct Hz; [left; intros ->; cbn in Hb; lia|auto]]|].
  intros [] s1; cbn [negb].
  - intros (txt & Ht & Hs1 & _ & rest & k & (Hbuf & _) & _). eapply wp_then; [reflexivity|]. rewrite Hbuf. apply wp_ret.
    pose proof (kp_live _ _ Hs1) as Hl1. cbn in Hl1. split; [lia|]. exists txt, rest. auto.
  - intros [[Hq He] Hw]. cbn in Hq, He. eapply wp_then; [reflexivity|]. 
    assert (Cjson.print_value fmt 0 item = None \/ refused s s1) as Hr.
    { destruct (Cjson.print_value fmt 0 item) as [txt|]; [right|by left]. destruct (Hw txt eq_refl) as (n & size & Hn & Hh).
      exists n, size. cbn in Hn. split; [lia|done]. }
    destruct (Printbuffer.buffer (pb s1)).
    + eapply wp_then; [reflexivity|]. apply wp_ret. split; [cbn; lia|right; exact Hr].
    + eapply wp_then; [reflexivity|]. apply wp_ret. split; [lia|right; exact Hr].
Qed.

(** C18. Printing into a block of the caller stays inside of it, neither takes
    nor frees a block, and leaves the text and its zero there when it succeeds;
    it does succeed when the block has one byte more than these, so that the
    margin of five bytes that cjson.h asks for is enough. *)
Theorem print_preallocated_margin (format : bool) (item : cJSON) (b : list Z) (s : printer) :
  printable item = true -> in_i32 (Z.of_nat (List.length b)) ->
  exists r s', cJSON_PrintPreallocated item (Some b) (Z.of_nat (List.length b)) format s = Some (r, s') /\ live s' = live s /\
    (r = true -> exists txt rest, Cjson.print_value format 0 item = Some txt /\
       Printbuffer.buffer (pb s') = Some (bytes_of txt ++ 0 :: rest)%list /\
       List.length (bytes_of txt ++ 0 :: rest) = List.length b) /\
    (forall txt, Cjson.print_value format 0 item = Some txt -> (String.length txt + 1 < List.length b)%nat -> r = true).
Proof.
  intros Hp Hb. unfold cJSON_PrintPreallocated. rewrite (proj2 (Z.ltb_ge _ _)) by lia. eapply wp_then; [reflexivity|].
  eapply wp_mono; [apply (printable_spec item s b format true Hp); [unfold in_i32 in Hb; lia|auto]|]. intros [] s1.
  - intros (txt & Ht & Hs & _ & rest & k & (Hbuf & Hlen & _) & _). split; [by rewrite (kp_live _ _ Hs)|]. split; [|done].
    intros _. exists txt, rest. split; [done|]. split; [done|]. pose proof (kp_fixed _ _ Hs eq_refl) as Hf. cbn in Hf. rewrite Hlen in Hf. cbn [app] in Hf. lia.
  - intros [[_ He] Hw]. cbn in He. split; [destruct (Printbuffer.buffer (pb s1)); [done|by destruct He]|]. split; [done|].
    intros txt Ht Hl. specialize (Hw txt Ht). cbn in Hw. rewrite bytes_of_length in Hw. lia.
Qed.

End Printer.

(** ** Witnesses *)

Definition some_hooks (n : nat) (size : Z) : option (nat -> Z) := if size <? 2 ^ 63 then Some (fun i => Z.of_nat i mod 256) else None.
Lemma some_hooks_small n size f : some_hooks n size = Some f -> size < 2 ^ 63.
Proof. unfold some_hooks. destruct (Z.ltb_spec size (2 ^ 63)); [done|discriminate]. Qed.
Definition printed_item : cJSON :=
  cJSON_Object [("start", cJSON_Object [("version", cJSON_String "iperf 3.14"); ("tab", cJSON_String (String (chr 9) (String (chr 1) "")))]);
                ("intervals", cJSON_Array [cJSON_Number (Z2d 1) 1; cJSON_True; cJSON_Array []; cJSON_NULL]); ("end", cJSON_Object [])].
Definition no_buffer : printer := Printer (Printbuffer.mk None 0 0 0 false false) 0 0.

Lemma print_exact_witness :
  (forall n size f, some_hooks n size = Some f -> size < 2 ^ 63) /\ printable printed_item = true /\
  exists r s', print some_hooks false true printed_item no_buffer = Some (r, s') /\
    match r with
    | Some b => live s' = live no_buffer + 1 /\ exists txt, Cjson.print_value true 0 printed_item = Some txt /\ b = (bytes_of txt ++ [0])%list
    | None => live s' = live no_buffer /\ (Cjson.print_value true 0 printed_item = None \/ refused some_hooks no_buffer s')
    end.
Proof.
  split; [exact some_hooks_small|]. split; [vm_compute; reflexivity|].
  apply (print_exact some_hooks false some_hooks_small true printed_item no_buffer). vm_compute. reflexivity.
Defined.
Lemma print_preallocated_margin_witness :
  printable printed_item = true /\
  exists r s', cJSON_PrintPreallocated some_hooks false printed_item (Some (repeat 7 200)) (Z.of_nat (List.length (repeat 7 200))) true no_buffer = Some (r, s') /\
    live s' = live no_buffer /\
    (r = true -> exists txt rest, Cjson.print_value true 0 printed_item = Some txt /\
       Printbuffer.buffer (pb s') = Some (bytes_of txt ++ 0 :: rest)%list /\
       List.length (bytes_of txt ++ 0 :: rest) = List.length (repeat 7 200)) /\
    (forall txt, Cjson.print_value true 0 printed_item = Some txt -> (String.length txt + 1 < List.length (repeat 7 200))%nat -> r = true).
Proof.
  split; [vm_compute; reflexivity|]. apply (print_preallocated_margin some_hooks false some_hooks_small true printed_item (repeat 7 200) no_buffer).
  - vm_compute. reflexivity.
  - split; vm_compute; [discriminate|reflexivity].
Defined.

(** Without memory for the result, and with a block that is too short. *)
Example print_refused : (r ← print (fun n _ => if (n =? 0)%nat then Some (fun _ => 0) else None) true false printed_item no_buffer; Some (r.1, live r.2)) = Some (None, 0).
Proof. vm_compute. reflexivity. Qed.
Example print_too_short : (r ← cJSON_PrintPreallocated some_hooks false cJSON_NULL (Some [1; 2; 3; 4; 5]) 5 false no_buffer; Some r.1) = Some false /\
  (r ← cJSON_PrintPreallocated some_hooks false cJSON_NULL (Some [1; 2; 3; 4; 5; 6]) 6 false no_buffer; Some (r.1, Printbuffer.buffer (pb r.2))) =
  Some (true, Some (bytes_of "null" ++ [0; 6])%list).
Proof. split; vm_compute; reflexivity. Qed.
(** With an allocator of its own, growing an empty block reads a byte behind it. *)
Example buffered_overread : cJSON_PrintBuffered some_hooks false cJSON_NULL 0 false no_buffer = None.
Proof. vm_compute. reflexivity. Qed.

(** ** The allocator that is used *)

Module Hooks.
Section Hooks.
Context {F : Type} {F_eq : EqDecision F} (malloc free realloc : F).
Record internal_hooks := mk { allocate : F; deallocate : F; reallocate : option F }.
(** The caller may give one function or both; [realloc] only goes with the
    standard ones. *)
Definition cJSON_InitHooks (hooks : option (option F * option F)) : internal_hooks :=
  match hooks with
  | None => mk malloc free (Some realloc)
  | Some (malloc_fn, free_fn) =>
      let a := default malloc malloc_fn in
      let d := default free free_fn in
      mk a d (if decide (a = malloc /\ d = free) then Some realloc else None)
  end.
Lemma cJSON_InitHooks_reallocate hooks : reallocate (cJSON_InitHooks hooks) <> None <->
  allocate (cJSON_InitHooks hooks) = malloc /\ deallocate (cJSON_InitHooks hooks) = free.
Proof. destruct hooks as [[a d]|]; cbn; [case_decide; naive_solver|naive_solver]. Qed.
End Hooks.
End Hooks.
