(* ===== verification/Minify.v ===== *)
(** * Taking the white space and the comments out of a JSON text

    [cJSON_Minify] of cjson.c works in place: one pointer reads, another one
    writes into the same text, behind it or at the same place.  The loops are
    followed here byte by byte; reading or writing outside of the block is
    undefined.  They are shown to leave the text that a function on strings
    describes, and that function turns the formatted text of an item into its
    unformatted text. *)
From Stdlib Require Import Ascii String.
From S2P Require Import Prelude Double Text Sys Buffer Cjson Json.
#[local] Open Scope string_scope.
#[local] Open Scope Z_scope.

(** The block, and the offsets of the two pointers in it. *)
Record place := Place { text : list Z; json : nat; into : nat }.
#[export] Instance place_eta : Settable place := fun r => Place (text r) (json r) (into r).
Abbreviation T := (M place).

Definition peek (k : nat) : T Z := fun p => c ← text p !! (k + json p)%nat; Some (c, p).
Definition put (k : nat) (c : Z) : T unit := fun p =>
  match text p !! (k + into p)%nat with Some _ => Some (tt, p <| text ::= <[(k + into p)%nat := c]> |>) | None => None end.
Definition advance (k : nat) : T unit := mmod (fun p => p <| json ::= Nat.add k |>).
Definition emit (k : nat) : T unit := mmod (fun p => p <| into ::= Nat.add k |>).
(** A pass of the text takes at most as many steps as there are bytes. *)
Definition bounded {A} (loop : nat -> T A) : T A := let! p := mget in loop (List.length (text p)).

Fixpoint line_end (fuel : nat) : T unit :=
  match fuel with
  | O => mfail
  | S fuel =>
      let! c := peek 0 in
      if c =? 0 then mret tt
      else if c =? 10 then advance 1
      else advance 1 ;; line_end fuel
  end.
Definition skip_oneline_comment : T unit := advance 2 ;; bounded line_end.
Fixpoint comment_end (fuel : nat) : T unit :=
  match fuel with
  | O => mfail
  | S fuel =>
      let! c := peek 0 in
      if c =? 0 then mret tt
      else
        let! closed := (if c =? 42 then let! d := peek 1 in mret (d =? 47) else mret false) in
        if closed then advance 2 else advance 1 ;; comment_end fuel
  end.
Definition skip_multiline_comment : T unit := advance 2 ;; bounded comment_end.
Fixpoint string_end (fuel : nat) : T unit :=
  match fuel with
  | O => mfail
  | S fuel =>
      let! c := peek 0 in
      if c =? 0 then mret tt
      else
        put 0 c ;;
        if c =? 34 then put 0 34 ;; advance 1 ;; emit 1
        else
          let! quoted := (if c =? 92 then let! d := peek 1 in mret (d =? 34) else mret false) in
          (if quoted then let! d := peek 1 in put 1 d ;; advance 1 ;; emit 1 else mret tt) ;;
          advance 1 ;; emit 1 ;; string_end fuel
  end.
Definition minify_string : T unit :=
  let! c := peek 0 in put 0 c ;; advance 1 ;; emit 1 ;; bounded string_end.
Definition blank (c : Z) : bool := (c =? 32) || (c =? 9) || (c =? 13) || (c =? 10).
Fixpoint minify_loop (fuel : nat) : T unit :=
  match fuel with
  | O => mfail
  | S fuel =>
      let! c := peek 0 in
      if c =? 0 then mret tt
      else
        (if blank c then advance 1
         else if c =? 47 then
           let! d := peek 1 in
           if d =? 47 then skip_oneline_comment
           else if d =? 42 then skip_multiline_comment
           else advance 1
         else if c =? 34 then minify_string
         else put 0 c ;; advance 1 ;; emit 1) ;;
        minify_loop fuel
  end.
Definition cJSON_Minify (block : option (list Z)) : option (option (list Z)) :=
  match block with
  | None => Some None
  | Some b => '(_, p) ← (bounded minify_loop ;; put 0 0) (Place b 0 0); Some (Some (text p))
  end.

(** ** What is left, as a function on strings *)

Fixpoint after_line (s : string) : string :=
  match s with EmptyString => "" | String c s => if code c =? 10 then s else after_line s end.
Fixpoint after_comment (s : string) : string :=
  match s with
  | EmptyString => ""
  | String c s' =>
      match s' with
      | String d s'' => if (code c =? 42) && (code d =? 47) then s'' else after_comment s'
      | EmptyString => ""
      end
  end.
(** The rest of a literal with its quote, and what follows. *)
Fixpoint literal (s : string) : string * string :=
  match s with
  | EmptyString => ("", "")
  | String c s' =>
      if code c =? 34 then (String c "", s')
      else
        match s' with
        | String d s'' =>
            if (code c =? 92) && (code d =? 34) then let '(o, r) := literal s'' in (String c (String d o), r)
            else let '(o, r) := literal s' in (String c o, r)
        | EmptyString => (String c "", "")
        end
  end.
Fixpoint minified (fuel : nat) (s : string) : string :=
  match s, fuel with
  | EmptyString, _ | _, O => ""
  | String c s, S fuel =>
      if blank (code c) then minified fuel s
      else if code c =? 47 then
        match s with
        | EmptyString => ""
        | String d s' =>
            if code d =? 47 then minified fuel (after_line s')
            else if code d =? 42 then minified fuel (after_comment s')
            else minified fuel s
        end
      else if code c =? 34 then let '(o, r) := literal s in String c (o ++ minified fuel r)
      else String c (minified fuel s)
  end.
Definition minify (s : string) : string := minified (String.length s) s.

(** Text with its quotes as apostrophes. *)
Fixpoint quoted (s : string) : string :=
  match s with EmptyString => "" | String c s => String (if code c =? 39 then dquote else c) (quoted s) end.
Example minify_comments :
  minify (quoted ("{ 'a': [1, /* x */ 2], // y" ++ newline ++ " 'b c': null }")) = quoted "{'a':[1,2],'b c':null}".
Proof. reflexivity. Qed.
Example minify_in_place : cJSON_Minify (Some (bytes_of (quoted "[ 1, ' ']") ++ [0; 7])%list) =
  Some (Some (bytes_of (quoted "[1,' ']") ++ [0; 93; 0; 7])%list).
Proof. reflexivity. Qed.
(** A backslash that is itself escaped still makes the next quote part of the
    string: the blanks after such a string stay. *)
Example minify_backslash : minify (quoted "['\\', 1, 'x y']") = quoted "['\\', 1, 'xy']".
Proof. reflexivity. Qed.

(** ** The place and the string *)

(** What was written, what lies between the pointers, and what is left to read. *)
Definition at_place (out gap rest : list Z) : place :=
  Place (out ++ gap ++ rest) (List.length out + List.length gap) (List.length out).
Lemma peek_run k out gap rest : peek k (at_place out gap rest) = (c ← rest !! k; Some (c, at_place out gap rest)).
Proof.
  unfold peek, at_place. cbn [text json]. rewrite app_assoc, lookup_app_r by (rewrite length_app; lia).
  rewrite length_app. by replace (k + _ - _)%nat with k by lia.
Qed.
Lemma advance_run k out gap skipped rest : List.length skipped = k ->
  advance k (at_place out gap (skipped ++ rest)) = Some (tt, at_place out (gap ++ skipped) rest).
Proof.
  intros <-. unfold advance, mmod, at_place. cbn. do 2 f_equal. f_equal; [by rewrite <-!app_assoc|rewrite length_app; lia].
Qed.
Lemma put_first out x rest j c : put 0 c (Place (out ++ x :: rest) j (List.length out)) = Some (tt, Place (out ++ c :: rest) j (List.length out)).
Proof. unfold put. cbn [text into Nat.add]. rewrite list_lookup_middle by done. do 2 f_equal. cbn. f_equal. by rewrite insert_app_r_alt, Nat.sub_diag by lia. Qed.
Lemma put_second out x y rest j c :
  put 1 c (Place (out ++ x :: y :: rest) j (List.length out)) = Some (tt, Place (out ++ x :: c :: rest) j (List.length out)).
Proof.
  unfold put. cbn [text into Nat.add]. rewrite lookup_app_r, Nat.sub_succ_l, Nat.sub_diag by lia. cbn [lookup list_lookup].
  do 2 f_equal. cbn. f_equal. by rewrite insert_app_r_alt, Nat.sub_succ_l, Nat.sub_diag by lia.
Qed.
(** Bytes written where they are read, and both pointers moved; what was between
    them moves along. *)
Lemma copied out gap c rest : exists gap', List.length gap' = List.length gap /\
  (put 0 c ;; advance 1 ;; emit 1) (at_place out gap (c :: rest)) = Some (tt, at_place (out ++ [c]) gap' rest).
Proof.
  exists (tail (gap ++ [c])). split; [destruct gap; cbn; [done|rewrite length_app; cbn; lia]|]. unfold at_place.
  replace (out ++ gap ++ c :: rest)%list with (out ++ hd 0 (gap ++ [c]) :: tail (gap ++ [c]) ++ rest)%list by (destruct gap; cbn; by rewrite <-?app_assoc).
  rewrite (bind_run _ _ _ _ _ (put_first _ _ _ _ _)). unfold mbnd, advance, emit, mmod. cbn.
  do 2 f_equal. f_equal; [by rewrite <-app_assoc| |]; rewrite length_app; cbn; [destruct gap; cbn; rewrite ?length_app; cbn|]; lia.
Qed.
Lemma copied_twice out gap c d rest : exists gap', List.length gap' = List.length gap /\
  (put 0 c ;; put 1 d ;; advance 1 ;; emit 1 ;; advance 1 ;; emit 1) (at_place out gap (c :: d :: rest)) =
  Some (tt, at_place (out ++ [c; d]) gap' rest).
Proof.
  exists (tail (tail (gap ++ [c; d]))). assert (exists x y, gap ++ [c; d] = x :: y :: tail (tail (gap ++ [c; d])))%list as (x & y & E).
  { destruct gap as [|? [|? gap]]; cbn; by eexists _, _. }
  split; [apply (f_equal (@List.length Z)) in E; rewrite length_app in E; cbn [List.length] in *; lia|]. unfold at_place.
  replace (out ++ gap ++ c :: d :: rest)%list with (out ++ x :: y :: tail (tail (gap ++ [c; d])) ++ rest)%list
    by (change (c :: d :: rest) with ([c; d] ++ rest)%list; rewrite (app_assoc gap [c; d] rest), E; done).
  rewrite (bind_run _ _ _ _ _ (put_first _ _ _ _ _)), (bind_run _ _ _ _ _ (put_second _ _ _ _ _ _)). unfold mbnd, advance, emit, mmod. cbn.
  apply (f_equal (@List.length Z)) in E; rewrite length_app in E; cbn [List.length] in E.
  do 2 f_equal. f_equal; [by rewrite <-app_assoc| |]; rewrite length_app; cbn; lia.
Qed.
(** Writing does not change what is read next. *)
Lemma peek_kept c p p1 k : put 0 c p = Some (tt, p1) -> (into p <= json p)%nat -> peek (S k) p1 = (d ← text p !! (S k + json p)%nat; Some (d, p1)).
Proof.
  unfold put, peek. destruct (text p !! _); [|done]. intros [= <-] Hle. cbn [text into json modify_field place_eta eta_of].
  by rewrite list_lookup_insert_ne by lia.
Qed.
Lemma put_again c p p1 : put 0 c p = Some (tt, p1) -> put 0 c p1 = Some (tt, p1).
Proof.
  unfold put. destruct (text p !! _) eqn:E; [|done]. intros [= <-]. cbn [text into modify_field place_eta eta_of].
  rewrite list_lookup_insert_eq by (by eapply lookup_lt_Some). do 2 f_equal. cbn. f_equal. apply list_insert_insert_eq.
Qed.

(** A string in the block, with its zero. *)
Definition ended (s : string) (tl : list Z) : list Z := (bytes_of s ++ 0 :: tl)%list.
Lemma ended_cons c s tl : ended (String c s) tl = code c :: ended s tl.
Proof. done. Qed.
(** [prog] writes [o] and goes on from [s] to [s']. *)
Definition moves (prog : T unit) (s o s' : string) : Prop := forall out gap tl, exists gap',
  prog (at_place out gap (ended s tl)) = Some (tt, at_place (out ++ bytes_of o) gap' (ended s' tl)) /\
  (List.length gap' + String.length o + String.length s' = List.length gap + String.length s)%nat.
Lemma moves_then a b s o1 s1 o2 s2 : moves a s o1 s1 -> moves b s1 o2 s2 -> moves (a ;; b) s (o1 ++ o2) s2.
Proof.
  intros Ha Hb out gap tl. destruct (Ha out gap tl) as (g1 & E1 & L1). destruct (Hb (out ++ bytes_of o1)%list g1 tl) as (g2 & E2 & L2).
  exists g2. rewrite (bind_run _ _ _ _ _ E1), bytes_of_app, app_assoc, length_append. split; [exact E2|lia].
Qed.
Lemma moves_ret s : moves (mret tt) s "" s.
Proof. intros out gap tl. exists gap. rewrite app_nil_r. split; [done|cbn; lia]. Qed.
Lemma moves_advance c s : moves (advance 1) (String c s) "" s.
Proof.
  intros out gap tl. exists (gap ++ [code c])%list. rewrite app_nil_r, length_app. split; [|cbn; lia].
  by apply (advance_run 1 out gap [code c] (ended s tl)).
Qed.
Lemma moves_advance2 c d s : moves (advance 2) (String c (String d s)) "" s.
Proof.
  intros out gap tl. exists (gap ++ [code c; code d])%list. rewrite app_nil_r, length_app. split; [|cbn; lia].
  by apply (advance_run 2 out gap [code c; code d] (ended s tl)).
Qed.
Lemma moves_copy c s : moves (put 0 (code c) ;; advance 1 ;; emit 1) (String c s) (String c "") s.
Proof. intros out gap tl. destruct (copied out gap (code c) (ended s tl)) as (g & L & E). exists g. split; [exact E|cbn; lia]. Qed.
Lemma moves_peek c s (k : Z -> T unit) o s' : moves (k (code c)) (String c s) o s' -> moves (let! x := peek 0 in k x) (String c s) o s'.
Proof. intros H out gap tl. destruct (H out gap tl) as (g & E & L). exists g. split; [|exact L]. unfold mbnd. by rewrite peek_run, ended_cons. Qed.
Lemma moves_end (k : Z -> T unit) o s' : moves (k 0) "" o s' -> moves (let! x := peek 0 in k x) "" o s'.
Proof. intros H out gap tl. destruct (H out gap tl) as (g & E & L). exists g. split; [|exact L]. unfold mbnd. by rewrite peek_run. Qed.
(** The byte after the next one, which may be the zero. *)
Definition second (s : string) : Z := match s with String _ (String d _) => code d | _ => 0 end.
Lemma second_run c s out gap tl : peek 1 (at_place out gap (ended (String c s) tl)) = Some (second (String c s), at_place out gap (ended (String c s) tl)).
Proof. rewrite peek_run. by destruct s. Qed.
Lemma moves_peek1 c s (k : Z -> T unit) o s' : moves (k (second (String c s))) (String c s) o s' -> moves (let! x := peek 1 in k x) (String c s) o s'.
Proof. intros H out gap tl. destruct (H out gap tl) as (g & E & L). exists g. split; [|exact L]. by rewrite (bind_run _ _ _ _ _ (second_run _ _ _ _ _)). Qed.
Lemma moves_bounded loop s o s' : (forall fuel, (String.length s < fuel)%nat -> moves (loop fuel) s o s') -> moves (bounded loop) s o s'.
Proof.
  intros H out gap tl. destruct (H (List.length (text (at_place out gap (ended s tl)))) ltac:(
    unfold at_place, ended; cbn; rewrite !length_app, bytes_of_length; cbn; lia) out gap tl) as (g & E & L).
  exists g. split; [exact E|exact L].
Qed.

Lemma line_end_moves s : no_nul s = true -> forall fuel, (String.length s < fuel)%nat -> moves (line_end fuel) s "" (after_line s).
Proof.
  induction s as [|c s IH]; intros Hs [|fuel] Hf; [lia|by apply moves_end, moves_ret|lia|]. apply no_nul_cons in Hs as [Hc Hs].
  cbn [line_end after_line]. apply moves_peek. rewrite (proj2 (Z.eqb_neq _ _)) by done.
  destruct (code c =? 10); [apply moves_advance|]. eapply (moves_then _ _ _ ""); [apply moves_advance|].
  apply IH; [done|cbn in Hf; lia].
Qed.
Lemma comment_end_moves s : no_nul s = true -> forall fuel, (String.length s < fuel)%nat -> moves (comment_end fuel) s "" (after_comment s).
Proof.
  induction s as [|c s IH]; intros Hs [|fuel] Hf; [lia|by apply moves_end, moves_ret|lia|]. apply no_nul_cons in Hs as [Hc Hs].
  cbn [comment_end]. apply moves_peek. rewrite (proj2 (Z.eqb_neq _ _)) by done.
  assert (moves (let! closed := (if (code c =? 42) && (second (String c s) =? 47) then mret true else mret false) in
    if closed then advance 2 else advance 1 ;; comment_end fuel) (String c s) "" (after_comment (String c s))) as H.
  { cbn [after_comment second]. destruct s as [|d s].
    - rewrite andb_false_r. eapply (moves_then _ _ _ ""); [apply moves_advance|]. apply (IH Hs). cbn in *. lia.
    - destruct (_ && _); [apply moves_advance2|]. eapply (moves_then _ _ _ ""); [apply moves_advance|]. apply (IH Hs). cbn in *. lia. }
  intros out gap tl. destruct (H out gap tl) as (g & E & L). exists g. split; [|exact L]. rewrite <-E. unfold mbnd at 1 3.
  destruct (code c =? 42); [|done]. rewrite (bind_run _ _ _ _ _ (second_run _ _ _ _ _)). by destruct (second _ =? 47).
Qed.
(** The byte is written before the pointers move. *)
Lemma copy_split c s out gap tl : exists p1 gap', put 0 (code c) (at_place out gap (ended (String c s) tl)) = Some (tt, p1) /\
  (forall K : T unit, (advance 1 ;; emit 1 ;; K) p1 = K (at_place (out ++ [code c]) gap' (ended s tl))) /\
  peek 1 p1 = Some (second (String c s), p1) /\ List.length gap' = List.length gap.
Proof.
  destruct (copied out gap (code c) (ended s tl)) as (g & L & E). rewrite <-ended_cons in E.
  destruct (put 0 (code c) _) as [[[] p1]|] eqn:Ep; [|unfold mbnd in E; by rewrite Ep in E].
  exists p1, g. rewrite (bind_run _ _ _ _ _ Ep) in E. split; [done|]. split; [|split; [|done]].
  - intros K. rewrite <-(bind_assoc (advance 1) (fun _ => emit 1) (fun _ => K)). by rewrite (bind_run _ _ _ _ _ E).
  - rewrite (peek_kept _ _ _ 0 Ep) by (cbn; lia). pose proof (second_run c s out gap tl) as Hs. unfold peek in Hs.
    destruct (text _ !! _) as [d|]; [|done]. cbn in Hs. injection Hs as ->. done.
Qed.
Lemma string_end_moves : forall fuel s o r, no_nul s = true -> (String.length s < fuel)%nat -> literal s = (o, r) -> moves (string_end fuel) s o r.
Proof.
  induction fuel as [|fuel IH]; intros s o r Hs Hf Hl; [lia|]. destruct s as [|c s]; [injection Hl as <- <-; by apply moves_end, moves_ret|].
  apply no_nul_cons in Hs as [Hc Hs]. cbn [string_end]. apply moves_peek. rewrite (proj2 (Z.eqb_neq _ _)) by done.
  intros out gap tl. destruct (copy_split c s out gap tl) as (p1 & g & Ep & Hmove & Hpeek & Hg). rewrite (bind_run _ _ _ _ _ Ep).
  cbn [literal] in Hl. destruct (code c =? 34) eqn:E34.
  - injection Hl as <- <-. apply Z.eqb_eq in E34. rewrite <-E34, (bind_run _ _ _ _ _ (put_again _ _ _ Ep)). exists g. split; [|cbn; lia].
    by apply (Hmove (mret tt)).
  - destruct ((code c =? 92) && (second (String c s) =? 34)) eqn:Eq.
    + apply andb_true_iff in Eq as [E92 Ed]. destruct s as [|d s]; [done|]. cbn [second] in Ed, Hpeek. rewrite E92, Ed in Hl. cbn [andb] in Hl.
      destruct (literal s) as [o1 r1] eqn:El. injection Hl as <- <-. apply no_nul_cons in Hs as [Hd Hs].
      destruct (copied_twice out gap (code c) (code d) (ended s tl)) as (g2 & L2 & E2). rewrite <-!ended_cons, (bind_run _ _ _ _ _ Ep) in E2.
      destruct (IH s o1 r1 Hs ltac:(cbn in Hf; lia) El (out ++ [code c; code d])%list g2 tl) as (g3 & E3 & L3).
      exists g3. split; [|cbn in *; lia]. rewrite E92. unfold mbnd at 1. rewrite (bind_run _ _ _ _ _ Hpeek), Ed. cbn [mret].
      rewrite (bind_assoc (peek 1)), (bind_run _ _ _ _ _ Hpeek), !bind_assoc.
      pose proof (bind_run _ (fun _ => string_end fuel) _ _ _ E2) as E4. rewrite !bind_assoc in E4.
      rewrite <-app_assoc in E3. exact (eq_trans E4 E3).
    + assert (exists o1, literal s = (o1, r) /\ o = String c o1) as (o1 & El & ->).
      { destruct s as [|d s]; [injection Hl as <- <-; by exists ""|]. cbn [second] in Eq. rewrite Eq in Hl.
        destruct (literal (String d s)) as [o1 r1]. injection Hl as <- <-. by exists o1. }
      destruct (IH s o1 r Hs ltac:(cbn in Hf; lia) El (out ++ [code c])%list g tl) as (g3 & E3 & L3).
      exists g3. split; [|cbn in *; lia]. rewrite <-app_assoc in E3. rewrite <-(Hmove (string_end fuel)) in E3.
      unfold mbnd at 1. destruct (code c =? 92); [|exact E3]. cbn [andb] in Eq. rewrite (bind_run _ _ _ _ _ Hpeek), Eq. exact E3.
Qed.
Lemma literal_length : forall s o r, literal s = (o, r) -> (String.length o + String.length r = String.length s)%nat.
Proof.
  intros s. induction s as [s IH] using (induction_ltof1 _ String.length). unfold ltof in IH. intros o r. destruct s as [|c s]; [by intros [= <- <-]|].
  cbn [literal]. destruct (code c =? 34); [by intros [= <- <-]|]. destruct s as [|d s]; [by intros [= <- <-]|].
  destruct (_ && _).
  - destruct (literal s) as [o1 r1] eqn:E. intros [= <- <-]. apply IH in E; cbn in *; lia.
  - destruct (literal (String d s)) as [o1 r1] eqn:E. intros [= <- <-]. apply IH in E; cbn in *; lia.
Qed.

(** What is left is an end of the text. *)
Definition end_of (s r : string) : Prop := exists pre, s = pre ++ r.
Lemma end_of_refl s : end_of s s.
Proof. by exists "". Qed.
Lemma end_of_cons c s r : end_of s r -> end_of (String c s) r.
Proof. intros (pre & ->). exists (String c pre). by rewrite append_cons. Qed.
#[local] Hint Resolve end_of_refl end_of_cons : core.
Lemma end_of_no_nul s r : end_of s r -> no_nul s = true -> no_nul r = true /\ (String.length r <= String.length s)%nat.
Proof.
  intros (pre & ->). rewrite length_append. induction pre as [|c pre IH]; [intros H; split; [done|cbn; lia]|].
  rewrite append_cons. intros [_ H]%no_nul_cons. apply IH in H as [H Hl]. split; [done|cbn; lia].
Qed.
Lemma after_line_end s : end_of s (after_line s).
Proof. induction s as [|c s IH]; [done|]. cbn [after_line]. destruct (code c =? 10); auto. Qed.
Lemma after_comment_end s : end_of s (after_comment s).
Proof. induction s as [|c s IH]; [done|]. cbn [after_comment]. destruct s as [|d s]; [auto|]. destruct (_ && _); auto. Qed.
Lemma literal_end s : end_of s (literal s).2.
Proof.
  induction s as [s IH] using (induction_ltof1 _ String.length). unfold ltof in IH. destruct s as [|c s]; [done|].
  cbn [literal]. destruct (code c =? 34); [cbn; auto|]. destruct s as [|d s]; [cbn; auto|]. destruct (_ && _).
  - specialize (IH s ltac:(cbn; lia)). destruct (literal s). cbn in *. auto.
  - specialize (IH (String d s) ltac:(cbn; lia)). destruct (literal (String d s)). cbn in *. auto.
Qed.

Lemma minify_loop_moves : forall fuel s f, no_nul s = true -> (String.length s < fuel)%nat -> (String.length s <= f)%nat ->
  moves (minify_loop fuel) s (minified f s) "".
Proof.
  induction fuel as [|fuel IH]; intros s f Hs Hf Hg; [lia|]. destruct s as [|c s]; [apply moves_end; destruct f; apply moves_ret|].
  destruct f as [|f]; [cbn in Hg; lia|]. apply no_nul_cons in Hs as [Hc Hs]. cbn [String.length] in Hf, Hg.
  assert (forall prog o r, end_of s r -> moves prog (String c s) o r -> moves (prog ;; minify_loop fuel) (String c s) (o ++ minified f r) "") as Hgo.
  { intros prog o r He Hp. apply (end_of_no_nul _ _) in He as [Hr Hl]; [|done]. eapply moves_then; [exact Hp|]. apply IH; [done|lia..]. }
  cbn [minify_loop minified]. apply moves_peek. rewrite (proj2 (Z.eqb_neq _ _)) by done. destruct (blank (code c)).
  { apply (Hgo _ ""); [auto|apply moves_advance]. }
  destruct (code c =? 47) eqn:E47.
  - destruct s as [|d s].
    { pose proof (Hgo (let! d := peek 1 in if d =? 47 then skip_oneline_comment else if d =? 42 then skip_multiline_comment else advance 1)
        "" "" (end_of_refl _)) as H. destruct f; (apply H, moves_peek1, moves_advance). }
    pose proof Hs as [_ Hs1]%no_nul_cons. destruct (code d =? 47) eqn:Ed.
    { apply (Hgo _ ""); [apply end_of_cons, after_line_end|]. apply moves_peek1. cbn [second]. rewrite Ed.
      eapply (moves_then _ _ _ ""); [apply moves_advance2|]. apply moves_bounded. by apply line_end_moves. }
    destruct (code d =? 42) eqn:Ed2.
    { apply (Hgo _ ""); [apply end_of_cons, after_comment_end|]. apply moves_peek1. cbn [second]. rewrite Ed, Ed2.
      eapply (moves_then _ _ _ ""); [apply moves_advance2|]. apply moves_bounded. by apply comment_end_moves. }
    apply (Hgo _ ""); [auto|]. apply moves_peek1. cbn [second]. rewrite Ed, Ed2. apply moves_advance.
  - destruct (code c =? 34).
    + pose proof (literal_end s) as He. destruct (literal s) as [o r] eqn:El. rewrite <-append_cons. apply Hgo; [exact He|].
      apply moves_peek. intros out gap tl. destruct (moves_copy c s out gap tl) as (g & E & L).
      destruct (moves_bounded _ s o r (fun n Hn => string_end_moves n s o r Hs Hn El) (out ++ bytes_of (String c ""))%list g tl) as (g2 & E2 & L2).
      exists g2. split; [|cbn in *; lia]. rewrite <-app_assoc in E2.
      pose proof (bind_run _ (fun _ => bounded string_end) _ _ _ E) as E3. rewrite bind_assoc in E3. exact (eq_trans E3 E2).
    + rewrite <-(append_nil (minified f s)) at 1. apply (Hgo _ (String c "") s); [auto|apply moves_copy].
Qed.
(** In place: the text, its zero, and what the old one left behind. *)
Lemma minify_exact s tl : no_nul s = true -> exists junk,
  cJSON_Minify (Some (ended s tl)) = Some (Some (ended (minify s) (junk ++ tl))) /\
  (List.length junk + String.length (minify s) = String.length s)%nat.
Proof.
  intros Hs. destruct (moves_bounded minify_loop s (minify s) "" (fun n Hn => minify_loop_moves n s _ Hs Hn (le_n _)) [] [] tl) as (g & E & L).
  exists (tail (g ++ [0])). split; [|cbn [List.length String.length] in L; destruct g; cbn in *; [|rewrite length_app; cbn]; lia].
  unfold cJSON_Minify. change (Place (ended s tl) 0 0) with (at_place [] [] (ended s tl)). rewrite (bind_run _ _ _ _ _ E). cbn [app].
  unfold at_place. replace (g ++ ended "" tl)%list with (hd 0 (g ++ [0]) :: tail (g ++ [0]) ++ tl)%list by (destruct g; cbn; by rewrite <-?app_assoc).
  by rewrite put_first.
Qed.

(** ** Printed text *)

Lemma minified_fuel : forall f g s, (String.length s <= f)%nat -> (String.length s <= g)%nat -> minified f s = minified g s.
Proof.
  assert (forall s r, end_of s r -> (String.length r <= String.length s)%nat) as Hend by (intros s r (pre & ->); rewrite length_append; lia).
  induction f as [|f IH]; intros [|g] [|c s] Hf Hg; try done; [cbn in *; lia..|]. cbn [String.length] in Hf, Hg. cbn [minified].
  destruct (blank (code c)); [apply IH; lia|]. destruct (code c =? 47).
  - destruct s as [|d s]; [done|]. cbn [String.length] in Hf, Hg.
    pose proof (Hend _ _ (after_line_end s)). pose proof (Hend _ _ (after_comment_end s)).
    destruct (code d =? 47); [apply IH; lia|]. destruct (code d =? 42); [apply IH; lia|]. apply IH; cbn; lia.
  - destruct (code c =? 34); [|f_equal; apply IH; lia]. pose proof (Hend _ _ (literal_end s)). destruct (literal s) as [o r]. cbn in *.
    f_equal. f_equal. apply IH; lia.
Qed.
Lemma minify_blank c s : blank (code c) = true -> minify (String c s) = minify s.
Proof. unfold minify. cbn. by intros ->. Qed.
(** A character that is copied outside of strings. *)
Definition plain_char (c : ascii) : bool := negb (blank (code c) || (code c =? 47) || (code c =? 34) || (code c =? 0)).
Lemma minify_plain c s : plain_char c = true -> minify (String c s) = String c (minify s).
Proof. unfold plain_char, minify. rewrite negb_true_iff, !orb_false_iff. intros [[[Hb Hs] Hq] _]. cbn. by rewrite Hb, Hs, Hq. Qed.
Lemma minify_literal s o r : literal s = (o, r) -> minify (String dquote s) = String dquote (o ++ minify r).
Proof.
  intros Hl. unfold minify. cbn. rewrite Hl. f_equal. f_equal. apply minified_fuel; [|lia].
  pose proof (literal_end s) as (pre & E). rewrite Hl in E. cbn in E. rewrite E, length_append. lia.
Qed.

(** [a] shrinks to [b] in front of any text. *)
Record shrinks (a b : string) : Prop := {
  sh_no_nul : no_nul a = true;
  sh_minify : forall t, minify (a ++ t) = b ++ minify t }.
Lemma shrinks_app a b a' b' : shrinks a b -> shrinks a' b' -> shrinks (a ++ a') (b ++ b').
Proof.
  intros [Hn H] [Hn' H']. split; [by apply no_nul_app|]. intros t. by rewrite !append_assoc, H, H'.
Qed.
Lemma shrinks_nil : shrinks "" "".
Proof. done. Qed.
Lemma shrinks_plain s : all_chars plain_char s = true -> shrinks s s.
Proof.
  intros H. split.
  - induction s as [|c s IH]; [done|]. cbn in H. apply andb_true_iff in H as [Hc Hs]. apply no_nul_cons. split; [|auto].
    intros E. unfold plain_char in Hc. by rewrite E, !orb_true_r in Hc.
  - intros t. induction s as [|c s IH]; [done|]. cbn in H. apply andb_true_iff in H as [Hc Hs]. rewrite !append_cons, minify_plain by done. by rewrite IH.
Qed.
Lemma shrinks_blank s : all_chars (fun c => blank (code c)) s = true -> shrinks s "".
Proof.
  intros H. split.
  - induction s as [|c s IH]; [done|]. cbn in H. apply andb_true_iff in H as [Hc Hs]. apply no_nul_cons. split; [|auto].
    intros E. by rewrite E in Hc.
  - intros t. induction s as [|c s IH]; [done|]. cbn in H. apply andb_true_iff in H as [Hc Hs]. rewrite !append_cons, minify_blank by done. by rewrite IH.
Qed.
Lemma shrinks_tabs n : shrinks (tabs n) "".
Proof. apply shrinks_blank. induction n as [|n IH]; [done|]. exact IH. Qed.
Lemma shrinks_newline : shrinks newline "".
Proof. by apply shrinks_blank. Qed.

(** No backslash at the end. *)
Fixpoint open_end (s : string) : bool :=
  match s with
  | EmptyString => true
  | String c EmptyString => negb (code c =? 92)
  | String _ s => open_end s
  end.
Definition starts_quote (s : string) : bool := match s with String c _ => code c =? 34 | EmptyString => false end.
Definition prepend (a : string) (p : string * string) : string * string := (a ++ p.1, p.2).
Lemma prepend_app a b p : prepend a (prepend b p) = prepend (a ++ b) p.
Proof. unfold prepend. cbn. by rewrite append_assoc. Qed.
Lemma literal_copy c r : code c <> 34 -> code c <> 92 \/ starts_quote r = false -> literal (String c r) = prepend (String c "") (literal r).
Proof.
  intros Hc Hb. cbn [literal]. rewrite (proj2 (Z.eqb_neq _ _)) by done. destruct r as [|d r]; [done|].
  destruct ((code c =? 92) && (code d =? 34)) eqn:E; [|by destruct (literal (String d r))].
  apply andb_true_iff in E as [E%Z.eqb_eq Ed]. destruct Hb as [Hb|Hb]; [done|]. cbn in Hb. by rewrite Hb in Ed.
Qed.
Definition unquoted (c : ascii) : bool := negb ((code c =? 34) || (code c =? 92)).
Lemma literal_copies x r : all_chars unquoted x = true -> literal (x ++ r) = prepend x (literal r).
Proof.
  induction x as [|c x IH]; [intros _; change (literal r = prepend EmptyString (literal r)); by destruct (literal r)|]. cbn [all_chars]. unfold unquoted at 1.
  rewrite andb_true_iff, negb_true_iff, orb_false_iff, !Z.eqb_neq. intros [[H1 H2] Hx]. rewrite append_cons, literal_copy, IH by auto.
  by rewrite prepend_app.
Qed.
Lemma escape_shape c : code c = 92 /\ escape c = String backslash (String backslash "") \/
  code c <> 92 /\ (escape c = String backslash (String dquote "") \/ all_chars unquoted (escape c) = true \/
    exists x, escape c = String backslash x /\ starts_quote x = false /\ x <> "" /\ all_chars unquoted x = true).
Proof.
  destruct c as [[] [] [] [] [] [] [] []]; eval_escape; first [by left | right; split; [by vm_compute|]];
    first [by left | right; left; reflexivity | right; right; eexists; split; [reflexivity|]; done].
Qed.
Lemma literal_escape c r : code c <> 92 \/ starts_quote r = false -> literal (escape c ++ r) = prepend (escape c) (literal r).
Proof.
  intros Hc. destruct (escape_shape c) as [[H ->]|[H [->|[Hx|(x & -> & Hq & Hn & Hx)]]]].
  - destruct Hc as [Hc|Hc]; [done|]. autorewrite with text. rewrite literal_copy, literal_copy by (try done; by right). by rewrite prepend_app.
  - autorewrite with text. cbn [literal]. change (code backslash =? 34) with false. change (code backslash =? 92) with true. change (code dquote =? 34) with true.
    cbn [andb]. by destruct (literal r).
  - by apply literal_copies.
  - rewrite append_cons, literal_copy by (try done; right; by destruct x). rewrite literal_copies by done. by rewrite prepend_app.
Qed.
Lemma escape_starts c r : starts_quote (escape c ++ r) = false.
Proof. destruct c as [[] [] [] [] [] [] [] []]; eval_escape; reflexivity. Qed.
Lemma literal_all s t : open_end s = true -> literal (escape_all s ++ String dquote t) = (escape_all s ++ String dquote "", t).
Proof.
  induction s as [|c s IH]; [done|]. intros Ho. cbn [escape_all]. rewrite append_assoc, literal_escape.
  - rewrite IH; [|by destruct s]. unfold prepend. cbn. by rewrite !append_assoc.
  - destruct s as [|d s]; [left; cbn in Ho; by apply negb_true_iff, Z.eqb_neq in Ho|right]. cbn [escape_all]. rewrite append_assoc. apply escape_starts.
Qed.
Lemma shrinks_literal s : no_nul s = true -> open_end s = true -> shrinks (print_string_ptr s) (print_string_ptr s).
Proof.
  intros Hs Ho. split; [by apply no_nul_literal|]. intros t. unfold print_string_ptr. rewrite !append_cons, append_assoc. autorewrite with text.
  rewrite (minify_literal _ _ _ (literal_all s t Ho)). done.
Qed.

(** Items whose strings do not end in a backslash, and whose numbers and raw
    texts have nothing that is taken out. *)
Fixpoint tidy (j : cJSON) : bool :=
  match j with
  | cJSON_False | cJSON_True | cJSON_NULL => true
  | cJSON_Number d vi => match print_number d vi with Some s => all_chars plain_char s | None => true end
  | cJSON_String s => no_nul s && open_end s
  | cJSON_Array l => forallb tidy l
  | cJSON_Object l => forallb (fun kx => no_nul kx.1 && open_end kx.1 && tidy kx.2) l
  | cJSON_Raw s => all_chars plain_char s
  end.
Definition shrinking (j : cJSON) : Prop := forall depth depth' a, tidy j = true -> print_value true depth j = Some a ->
  exists b, print_value false depth' j = Some b /\ shrinks a b.
Lemma shrinking_array l : Forall shrinking l -> forall depth depth' a, forallb tidy l = true ->
  print_array true (print_value true depth) l = Some a -> exists b, print_array false (print_value false depth') l = Some b /\ shrinks a b.
Proof.
  induction 1 as [|x l Hx _ IH]; intros depth depth' a Ht; [intros [= <-]; by exists ""|].
  cbn [forallb] in Ht. apply andb_true_iff in Ht as [Htx Htl]. cbn [print_array].
  destruct (print_value true depth x) as [sx|] eqn:Ex; [|done]. destruct (Hx depth depth' sx Htx Ex) as (bx & -> & Hbx).
  cbn [mbind option_bind]. destruct (print_array true _ l) as [more|] eqn:El; [|done].
  destruct (IH depth depth' more Htl El) as (bl & -> & Hbl). intros [= <-]. eexists. split; [reflexivity|].
  apply shrinks_app; [done|]. apply shrinks_app; [|done]. destruct l; [done|]. exact (shrinks_app "," "," " " "" (shrinks_plain "," eq_refl) (shrinks_blank " " eq_refl)).
Qed.
Lemma shrinking_object l : Forall (fun kx => shrinking kx.2) l -> forall n depth depth' a,
  forallb (fun kx => no_nul kx.1 && open_end kx.1 && tidy kx.2) l = true ->
  print_object true n (print_value true depth) l = Some a -> exists b, print_object false n (print_value false depth') l = Some b /\ shrinks a b.
Proof.
  induction 1 as [|[k x] l Hx _ IH]; intros n depth depth' a Ht; [intros [= <-]; by exists ""|].
  cbn [forallb] in Ht. apply andb_true_iff in Ht as [Htx Htl]. cbn [fst snd] in Hx, Htx. apply andb_true_iff in Htx as [Hk Htx].
  apply andb_true_iff in Hk as [Hk Hko]. cbn [print_object].
  destruct (print_value true depth x) as [sx|] eqn:Ex; [|done]. destruct (Hx depth depth' sx Htx Ex) as (bx & -> & Hbx).
  cbn [mbind option_bind]. destruct (print_object true _ _ l) as [more|] eqn:El; [|done].
  destruct (IH n depth depth' more Htl El) as (bl & -> & Hbl). intros [= <-]. eexists. split; [reflexivity|].
  apply (shrinks_app _ ""); [apply shrinks_tabs|]. apply shrinks_app; [by apply shrinks_literal|].
  apply shrinks_app; [exact (shrinks_app ":" ":" _ _ (shrinks_plain ":" eq_refl) (shrinks_tabs 1))|]. apply shrinks_app; [done|].
  apply shrinks_app; [by apply shrinks_plain; destruct l|]. apply (shrinks_app _ ""); [apply shrinks_newline|done].
Qed.
Lemma print_shrinks j : shrinking j.
Proof.
  induction j as [| | |d vi|s|l IH|l IH|s] using cJSON_nested_ind; intros depth depth' a Ht; cbn [print_value tidy] in *;
    try by (intros [= <-]; eexists; split; [reflexivity|by apply shrinks_plain]).
  - intros E. rewrite E in *. exists a. split; [done|by apply shrinks_plain].
  - apply andb_true_iff in Ht as [Hs Ho]. intros [= <-]. eexists. split; [reflexivity|by apply shrinks_literal].
  - destruct (print_array true _ l) as [body|] eqn:E; [|done]. destruct (shrinking_array l IH _ (S depth') _ Ht E) as (b & -> & Hb).
    intros [= <-]. eexists. split; [reflexivity|]. apply shrinks_app; [by apply shrinks_plain|]. apply shrinks_app; [done|by apply shrinks_plain].
  - destruct (print_object true _ _ l) as [body|] eqn:E; [|done].
    destruct (shrinking_object l IH _ _ (S depth') _ Ht E) as (b & Hob & Hb). intros [= <-]. exists ("{" ++ b ++ "}"). split.
    { assert (forall n n' p, print_object false n p l = print_object false n' p l) as Hn.
      { intros n n' p. clear. induction l as [|[k x] l IHl]; [done|]. cbn [print_object]. destruct (p x); [|done]. cbn [mbind option_bind]. by rewrite IHl. }
      rewrite (Hn _ (S depth)), Hob. done. }
    apply shrinks_app; [by apply shrinks_plain|]. apply (shrinks_app _ ""); [apply shrinks_newline|].
    apply shrinks_app; [done|]. apply (shrinks_app _ ""); [apply shrinks_tabs|by apply shrinks_plain].
Qed.

(** Minifying the formatted text of an item in its block leaves there the
    unformatted text of the same item with its zero, never reads or writes
    outside of the block and changes nothing behind the old text; for items
    whose strings do not end in a backslash. *)
Lemma minify_print j a tl : tidy j = true -> cJSON_Print j = Some a -> exists b junk,
  cJSON_PrintUnformatted j = Some b /\
  cJSON_Minify (Some (bytes_of a ++ 0 :: tl)%list) = Some (Some (bytes_of b ++ 0 :: junk ++ tl)%list) /\
  (List.length junk + String.length b = String.length a)%nat.
Proof.
  intros Ht Ha. destruct (print_shrinks j O O a Ht Ha) as (b & Hb & Hn & Hm). exists b.
  specialize (Hm ""). change (minify "") with "" in Hm. rewrite !append_nil_r in Hm.
  destruct (minify_exact a tl Hn) as (junk & Hj & Hl). rewrite Hm in Hj, Hl. by exists junk.
Qed.
Lemma minify_print_witness : exists a b junk,
  cJSON_Print (cJSON_Object [("a b", cJSON_Array [cJSON_CreateNumber (Z2d 1); cJSON_String "x // y"]); ("c", cJSON_NULL)]) = Some a /\
  cJSON_Minify (Some (bytes_of a ++ [0; 7])%list) = Some (Some (bytes_of b ++ 0 :: junk ++ [7])%list) /\
  b = quoted "{'a b':[1,'x // y'],'c':null}" /\ List.length junk = 8%nat.
Proof.
  destruct (minify_print (cJSON_Object [("a b", cJSON_Array [cJSON_CreateNumber (Z2d 1); cJSON_String "x // y"]); ("c", cJSON_NULL)]) _ [7]
    ltac:(vm_compute; reflexivity) ltac:(vm_compute; reflexivity)) as (b & junk & Hb & Hm & Hl).
  eexists _, b, junk. split; [vm_compute; reflexivity|]. split; [exact Hm|].
  assert (b = quoted "{'a b':[1,'x // y'],'c':null}") as -> by (vm_compute in Hb; injection Hb as <-; vm_compute; reflexivity).
  split; [done|]. cbn in Hl. lia.
Defined.
