(* ===== verification/Items.v ===== *)
(** * JSON items in memory: the pointers of cjson.c

    An item has a pointer to its first child, and siblings are chained in both
    directions; the first one's [prev] is the last one, so that appending is
    quick.  Here the operations of cjson.c run on a heap of such items, and are
    shown to do on the list of children what the trees of Cjson.v do.  Strings
    are values: only the blocks of items are in the heap, but a copy of a string
    asks the allocator as well. *)
From Stdlib Require Import Ascii String SpecFloat.
From S2P Require Import Prelude Double Text Cjson Sys.
#[local] Open Scope Z_scope.

(** ** Items *)

(** What an item holds beside its pointers. *)
Record content := Content {
  type : Z; valuestring : option string; valueint : Z; valuedouble : double; key : option string }.
#[export] Instance content_eta : Settable content :=
  fun r => Content (type r) (valuestring r) (valueint r) (valuedouble r) (key r).
Abbreviation ptr := (option positive).
Record node := Node { next : ptr; prev : ptr; child : ptr; held : content }.
#[export] Instance node_eta : Settable node := fun r => Node (next r) (prev r) (child r) (held r).
(** The heap, and the number of requests made to the allocator. *)
Record mem := Mem { cells : gmap positive node; asked : nat }.
#[export] Instance mem_eta : Settable mem := fun r => Mem (cells r) (asked r).
Abbreviation I := (M mem).

Definition Invalid : Z := 0.
Definition False_ : Z := 1.
Definition True_ : Z := 2.
Definition Null : Z := 4.
Definition Number : Z := 8.
Definition String_ : Z := 16.
Definition Array : Z := 32.
Definition Object : Z := 64.
Definition Raw : Z := 128.
Definition IsReference : Z := 256.
Definition StringIsConst : Z := 512.
Definition has_flag (flag : Z) (c : content) : bool := negb (Z.land (type c) flag =? 0).
Definition is_reference (c : content) : bool := has_flag IsReference c.

(** Reading and writing through a pointer; a null or dangling one is undefined. *)
Definition load (p : ptr) : I node := fun m => match p with Some l => n ← cells m !! l; Some (n, m) | None => None end.
Definition write (p : ptr) (f : node -> node) : I unit := fun m =>
  match p with
  | Some l => match cells m !! l with Some _ => Some (tt, m <| cells ::= alter f l |>) | None => None end
  | None => None
  end.
(** Freeing a block twice is undefined. *)
Definition deallocate (p : ptr) : I unit := fun m =>
  match p with
  | Some l => match cells m !! l with Some _ => Some (tt, m <| cells ::= delete l |>) | None => None end
  | None => Some (tt, m)
  end.
Definition same_ptr (p q : ptr) : bool := bool_decide (p = q).

Section Items.
(** The answer to each request: the block, not in use, or nothing. *)
Context (malloc : nat -> gmap positive node -> option positive).

Definition allocate : I ptr := fun m => Some (malloc (asked m) (cells m), m <| asked ::= S |>).
Definition empty_content : content := Content Invalid None 0 dzero None.
Definition cJSON_New_Item : I ptr :=
  let! node := allocate in
  match node with
  | Some l => mmod (fun m => m <| cells ::= <[l := Node None None None empty_content]> |>) ;; mret node
  | None => mret None
  end.
(** The copy of a string, when there is memory for it. *)
Definition cJSON_strdup (s : string) : I (option string) :=
  let! copy := allocate in mret (match copy with Some _ => Some s | None => None end).

(** The recursion of [cJSON_Delete] visits every block once. *)
Fixpoint delete_items (fuel : nat) (item : ptr) : I unit :=
  match item, fuel with
  | None, _ => mret tt
  | Some _, O => mfail
  | Some _, S fuel =>
      let! n := load item in
      (if is_reference (held n) then mret tt else delete_items fuel (child n)) ;;
      deallocate item ;; delete_items fuel (next n)
  end.
Definition cJSON_Delete (item : ptr) : I unit :=
  let! m := mget in delete_items (size (cells m)) item.

(** ** Looking for a child *)

Fixpoint walk (p : ptr) (index : nat) : I ptr :=
  match p, index with
  | None, _ => mret None
  | Some _, O => mret p
  | Some _, S index => let! n := load p in walk (next n) index
  end.
Definition get_array_item (array : ptr) (index : nat) : I ptr :=
  match array with None => mret None | Some _ => let! n := load array in walk (child n) index end.
Definition cJSON_GetArrayItem (array : ptr) (index : Z) : I ptr :=
  if index <? 0 then mret None else get_array_item array (Z.to_nat index).

(** The loop stops at a child that has the name, with [case_sensitive] also at
    one that has none. *)
Definition stops_at (case_sensitive : bool) (name : string) (n : node) : bool :=
  match key (held n) with
  | None => case_sensitive
  | Some k => if case_sensitive then (name =? k)%string else strcaseeq name k
  end.
Fixpoint seek (fuel : nat) (case_sensitive : bool) (name : string) (p : ptr) : I ptr :=
  match p, fuel with
  | None, _ => mret None
  | Some _, O => mfail
  | Some _, S fuel =>
      let! n := load p in
      if stops_at case_sensitive name n then mret (match key (held n) with None => None | Some _ => p end)
      else seek fuel case_sensitive name (next n)
  end.
Definition get_object_item (object : ptr) (name : string) (case_sensitive : bool) : I ptr :=
  match object with
  | None => mret None
  | Some _ => let! m := mget in let! n := load object in seek (size (cells m)) case_sensitive name (child n)
  end.

Definition cJSON_GetObjectItem (object : ptr) (name : string) : I ptr := get_object_item object name false.
Definition cJSON_GetObjectItemCaseSensitive (object : ptr) (name : string) : I ptr := get_object_item object name true.
Definition cJSON_HasObjectItem (object : ptr) (name : string) : I bool :=
  let! item := cJSON_GetObjectItem object name in mret (match item with Some _ => true | None => false end).

(** ** Adding *)

Definition set_next (p : ptr) (n : node) : node := n <| next := p |>.
Definition set_prev (p : ptr) (n : node) : node := n <| prev := p |>.
Definition set_child (p : ptr) (n : node) : node := n <| child := p |>.
Definition set_held (f : content -> content) (n : node) : node := n <| held ::= f |>.

Definition suffix_object (before item : ptr) : I unit := write before (set_next item) ;; write item (set_prev before).
Definition create_reference (item : ptr) : I ptr :=
  match item with
  | None => mret None
  | Some _ =>
      let! reference := cJSON_New_Item in
      match reference with
      | None => mret None
      | Some _ =>
          let! n := load item in
          write reference (fun _ => Node None None (child n)
            (held n <| key := None |> <| type ::= fun t => Z.lor t IsReference |>)) ;;
          mret reference
      end
  end.
Definition add_item_to_array (array item : ptr) : I bool :=
  match item, array with
  | Some _, Some _ =>
      if same_ptr array item then mret false
      else
        let! a := load array in
        match child a with
        | None =>
            write array (set_child item) ;; write item (set_prev item) ;; write item (set_next None) ;; mret true
        | Some _ =>
            let! first := load (child a) in
            match prev first with
            | Some _ => suffix_object (prev first) item ;; write (child a) (set_prev item) ;; mret true
            | None => mret true
            end
        end
  | _, _ => mret false
  end.
Definition cJSON_AddItemToArray (array item : ptr) : I bool := add_item_to_array array item.

Definition with_key (constant : bool) (name : string) (c : content) : content :=
  c <| key := Some name |>
    <| type ::= fun t => if constant then Z.lor t StringIsConst else Z.land t (Z.lnot StringIsConst) |>.
Definition add_item_to_object (object : ptr) (name : string) (item : ptr) (constant_key : bool) : I bool :=
  match object, item with
  | Some _, Some _ =>
      if same_ptr object item then mret false
      else
        let! new_key := (if constant_key then mret (Some name) else cJSON_strdup name) in
        match new_key with
        | None => mret false
        | Some k => write item (set_held (with_key constant_key k)) ;; add_item_to_array object item
        end
  | _, _ => mret false
  end.
Definition cJSON_AddItemToObject (object : ptr) (name : string) (item : ptr) : I bool := add_item_to_object object name item false.
Definition cJSON_AddItemToObjectCS (object : ptr) (name : string) (item : ptr) : I bool := add_item_to_object object name item true.
Definition cJSON_AddItemReferenceToArray (array item : ptr) : I bool :=
  match array with
  | None => mret false
  | Some _ => let! reference := create_reference item in add_item_to_array array reference
  end.
Definition cJSON_AddItemReferenceToObject (object : ptr) (name : string) (item : ptr) : I bool :=
  match object with
  | None => mret false
  | Some _ => let! reference := create_reference item in add_item_to_object object name reference false
  end.

(** ** Making items *)

Definition create (f : content -> content) : I ptr :=
  let! item := cJSON_New_Item in
  match item with Some _ => write item (set_held f) ;; mret item | None => mret None end.
Definition typed (t : Z) (c : content) : content := c <| type := t |>.
Definition cJSON_CreateNull : I ptr := create (typed Null).
Definition cJSON_CreateTrue : I ptr := create (typed True_).
Definition cJSON_CreateFalse : I ptr := create (typed False_).
Definition cJSON_CreateBool (boolean : Z) : I ptr := create (typed (if boolean =? 0 then False_ else True_)).
Definition cJSON_CreateNumber (num : double) : I ptr :=
  create (fun c => typed Number c <| valuedouble := num |> <| valueint := saturate num |>).
Definition cJSON_CreateArray : I ptr := create (typed Array).
Definition cJSON_CreateObject : I ptr := create (typed Object).
Definition cJSON_CreateStringReference (s : string) : I ptr := create (fun c => typed (Z.lor String_ IsReference) c <| valuestring := Some s |>).
Definition create_text (t : Z) (s : string) : I ptr :=
  let! item := create (typed t) in
  match item with
  | None => mret None
  | Some _ =>
      let! copy := cJSON_strdup s in
      match copy with
      | None => cJSON_Delete item ;; mret None
      | Some _ => write item (set_held (fun c => c <| valuestring := copy |>)) ;; mret item
      end
  end.
Definition cJSON_CreateString (s : string) : I ptr := create_text String_ s.
Definition cJSON_CreateRaw (s : string) : I ptr := create_text Raw s.
Definition create_children (t : Z) (first : ptr) : I ptr :=
  let! item := create (typed (Z.lor t IsReference)) in
  match item with Some _ => write item (set_child first) ;; mret item | None => mret None end.
Definition cJSON_CreateObjectReference (first : ptr) : I ptr := create_children Object first.
Definition cJSON_CreateArrayReference (first : ptr) : I ptr := create_children Array first.

(** A new item under a name, or nothing. *)
Definition add_created (create : I ptr) (object : ptr) (name : string) : I ptr :=
  let! item := create in
  let! added := add_item_to_object object name item false in
  if added then mret item else cJSON_Delete item ;; mret None.
Definition cJSON_AddNullToObject := add_created cJSON_CreateNull.
Definition cJSON_AddTrueToObject := add_created cJSON_CreateTrue.
Definition cJSON_AddFalseToObject := add_created cJSON_CreateFalse.
Definition cJSON_AddBoolToObject (object : ptr) (name : string) (boolean : Z) : I ptr := add_created (cJSON_CreateBool boolean) object name.
Definition cJSON_AddNumberToObject (object : ptr) (name : string) (number : double) : I ptr := add_created (cJSON_CreateNumber number) object name.
Definition cJSON_AddStringToObject (object : ptr) (name s : string) : I ptr := add_created (cJSON_CreateString s) object name.
Definition cJSON_AddRawToObject (object : ptr) (name raw : string) : I ptr := add_created (cJSON_CreateRaw raw) object name.
Definition cJSON_AddObjectToObject := add_created cJSON_CreateObject.
Definition cJSON_AddArrayToObject := add_created cJSON_CreateArray.

(** Arrays of new items: the first one becomes the child, each of the others
    goes behind the one before; the items come from [creates], and reading
    past the end of the caller's array is undefined. *)
Definition give_back (newitem : ptr) : I ptr := cJSON_Delete newitem ;; mret None.
Definition link_last (array last n : ptr) : I unit :=
  match last with Some _ => suffix_object last n | None => write array (set_child n) end.
Definition close_children (a last : ptr) : I ptr :=
  let! n := load a in
  match child n with Some _ => write (child n) (set_prev last) | None => mret tt end ;; mret a.
Fixpoint fill (a last : ptr) (creates : list (I ptr)) : I ptr :=
  match creates with
  | [] => close_children a last
  | create :: creates =>
      let! n := create in
      match n with
      | None => give_back a
      | Some _ => link_last a last n ;; fill a n creates
      end
  end.
Definition create_array (creates : list (I ptr)) (count : Z) : I ptr :=
  if count <? 0 then mret None
  else
    let! a := cJSON_CreateArray in
    match a with
    | Some _ => fill a None (take (Z.to_nat count) creates ++ repeat mfail (Z.to_nat count - List.length creates))
    | None => mret None
    end.
Definition cJSON_CreateIntArray (numbers : list Z) (count : Z) : I ptr := create_array (map (fun n => cJSON_CreateNumber (Z2d n)) numbers) count.
Definition cJSON_CreateDoubleArray (numbers : list double) (count : Z) : I ptr := create_array (map cJSON_CreateNumber numbers) count.
(** Every float is a double. *)
Definition cJSON_CreateFloatArray (numbers : list double) (count : Z) : I ptr := create_array (map cJSON_CreateNumber numbers) count.
Definition cJSON_CreateStringArray (strings : list string) (count : Z) : I ptr := create_array (map cJSON_CreateString strings) count.

(** ** Taking out, inserting and replacing *)

Definition cJSON_DetachItemViaPointer (parent item : ptr) : I ptr :=
  match parent, item with
  | Some _, Some _ =>
      let! a := load parent in
      let! n := load item in
      (if same_ptr item (child a) then mret tt else write (prev n) (set_next (next n))) ;;
      match next n with Some _ => write (next n) (set_prev (prev n)) | None => mret tt end ;;
      (if same_ptr item (child a) then write parent (set_child (next n))
       else match next n with
            | None => write (child a) (set_prev (prev n))
            | Some _ => mret tt
            end) ;;
      write item (set_prev None) ;; write item (set_next None) ;; mret item
  | _, _ => mret None
  end.
Definition cJSON_DetachItemFromArray (array : ptr) (which : Z) : I ptr :=
  if which <? 0 then mret None
  else let! item := get_array_item array (Z.to_nat which) in cJSON_DetachItemViaPointer array item.
Definition cJSON_DeleteItemFromArray (array : ptr) (which : Z) : I unit :=
  let! item := cJSON_DetachItemFromArray array which in cJSON_Delete item.
Definition detach_named (case_sensitive : bool) (object : ptr) (name : string) : I ptr :=
  let! to_detach := (if case_sensitive then cJSON_GetObjectItemCaseSensitive object name else cJSON_GetObjectItem object name) in
  cJSON_DetachItemViaPointer object to_detach.
Definition cJSON_DetachItemFromObject := detach_named false.
Definition cJSON_DetachItemFromObjectCaseSensitive := detach_named true.
Definition cJSON_DeleteItemFromObject (object : ptr) (name : string) : I unit :=
  let! item := cJSON_DetachItemFromObject object name in cJSON_Delete item.
Definition cJSON_DeleteItemFromObjectCaseSensitive (object : ptr) (name : string) : I unit :=
  let! item := cJSON_DetachItemFromObjectCaseSensitive object name in cJSON_Delete item.

Definition cJSON_InsertItemInArray (array : ptr) (which : Z) (newitem : ptr) : I bool :=
  if which <? 0 then mret false
  else
    let! after_inserted := get_array_item array (Z.to_nat which) in
    match after_inserted with
    | None => add_item_to_array array newitem
    | Some _ =>
        write newitem (set_next after_inserted) ;;
        let! after := load after_inserted in
        write newitem (set_prev (prev after)) ;;
        write after_inserted (set_prev newitem) ;;
        let! a := load array in
        (if same_ptr after_inserted (child a) then write array (set_child newitem)
         else let! n := load newitem in write (prev n) (set_next newitem)) ;;
        mret true
    end.

Definition cJSON_ReplaceItemViaPointer (parent item replacement : ptr) : I bool :=
  match parent, replacement, item with
  | Some _, Some _, Some _ =>
      if same_ptr replacement item then mret true
      else
        let! n := load item in
        write replacement (set_next (next n)) ;; write replacement (set_prev (prev n)) ;;
        match next n with Some _ => write (next n) (set_prev replacement) | None => mret tt end ;;
        let! a := load parent in
        (if same_ptr (child a) item then
           let! first := load (child a) in
           (if same_ptr (prev first) (child a) then write replacement (set_prev replacement) else mret tt) ;;
           write parent (set_child replacement)
         else
           let! r := load replacement in
           match prev r with Some _ => write (prev r) (set_next replacement) | None => mret tt end ;;
           let! r := load replacement in
           match next r with None => write (child a) (set_prev replacement) | Some _ => mret tt end) ;;
        write item (set_next None) ;; write item (set_prev None) ;; cJSON_Delete item ;; mret true
  | _, _, _ => mret false
  end.
Definition cJSON_ReplaceItemInArray (array : ptr) (which : Z) (newitem : ptr) : I bool :=
  if which <? 0 then mret false
  else let! item := get_array_item array (Z.to_nat which) in cJSON_ReplaceItemViaPointer array item newitem.
Definition replace_item_in_object (object : ptr) (name : string) (replacement : ptr) (case_sensitive : bool) : I bool :=
  match replacement with
  | None => mret false
  | Some _ =>
      let! copy := cJSON_strdup name in
      write replacement (set_held (fun c => c <| key := copy |>)) ;;
      match copy with
      | None => mret false
      | Some _ =>
          write replacement (set_held (fun c => c <| type ::= fun t => Z.land t (Z.lnot StringIsConst) |>)) ;;
          let! item := get_object_item object name case_sensitive in
          cJSON_ReplaceItemViaPointer object item replacement
      end
  end.
Definition cJSON_ReplaceItemInObject (object : ptr) (name : string) (newitem : ptr) : I bool := replace_item_in_object object name newitem false.
Definition cJSON_ReplaceItemInObjectCaseSensitive (object : ptr) (name : string) (newitem : ptr) : I bool :=
  replace_item_in_object object name newitem true.

(** ** Copies *)

(** The children are copied one by one and hung behind [last]; a failure frees
    the copy as far as it got. *)
Fixpoint duplicate_children (duplicate : ptr -> I ptr) (newitem : ptr) (steps : nat) (child_ last : ptr) : I ptr :=
  match child_, steps with
  | None, _ => close_children newitem last
  | Some _, O => mfail
  | Some _, S steps =>
      let! newchild := duplicate child_ in
      match newchild with
      | None => give_back newitem
      | Some _ =>
          link_last newitem last newchild ;;
          let! c := load child_ in
          duplicate_children duplicate newitem steps (next c) newchild
      end
  end.
(** A string copied into the new item, when there is one. *)
Definition copy_string (newitem : ptr) (s : option string) (put : option string -> content -> content) (k : I ptr) : I ptr :=
  match s with
  | None => k
  | Some s =>
      let! copy := cJSON_strdup s in
      write newitem (set_held (put copy)) ;;
      match copy with None => give_back newitem | Some _ => k end
  end.
Fixpoint cJSON_Duplicate (fuel : nat) (item : ptr) (recurse : bool) : I ptr :=
  match item, fuel with
  | None, _ => mret None
  | Some _, O => mfail
  | Some _, S fuel =>
      let! newitem := cJSON_New_Item in
      match newitem with
      | None => mret None
      | Some _ =>
          let! n := load item in
          let c := held n in
          write newitem (set_held (fun x => x <| type := Z.land (type c) (Z.lnot IsReference) |>
             <| valueint := valueint c |> <| valuedouble := valuedouble c |>)) ;;
          copy_string newitem (valuestring c) (fun s x => x <| valuestring := s |>)
            (let rest : I ptr :=
               if negb recurse then mret newitem
               else duplicate_children (fun p => cJSON_Duplicate fuel p true) newitem fuel (child n) None in
             if has_flag StringIsConst c then write newitem (set_held (fun x => x <| key := key c |>)) ;; rest
             else copy_string newitem (key c) (fun s x => x <| key := s |>) rest)
      end
  end.

(** ** Changing a value *)

Definition cJSON_SetNumberHelper (object : ptr) (number : double) : I double :=
  write object (set_held (fun c => c <| valueint := saturate number |>)) ;;
  write object (set_held (fun c => c <| valuedouble := number |>)) ;; mret number.
Definition cJSON_SetValuestring (object : ptr) (s : string) : I (option string) :=
  let! n := load object in
  if negb (has_flag String_ (held n)) || is_reference (held n) then mret None
  else
    match valuestring (held n) with
    | None => mfail
    | Some old =>
        if (String.length s <=? String.length old)%nat
        then write object (set_held (fun c => c <| valuestring := Some s |>)) ;; mret (Some s)
        else
          let! copy := cJSON_strdup s in
          match copy with
          | None => mret None
          | Some _ => write object (set_held (fun c => c <| valuestring := copy |>)) ;; mret copy
          end
    end.

(** ** Asking for the kind, comparing *)

Definition kind (c : content) : Z := Z.land (type c) 255.
Definition is_kind (k : Z) (item : ptr) : I bool :=
  match item with None => mret false | Some _ => let! n := load item in mret (kind (held n) =? k) end.
Definition cJSON_IsInvalid := is_kind Invalid.
Definition cJSON_IsFalse := is_kind False_.
Definition cJSON_IsTrue := is_kind True_.
Definition cJSON_IsNull := is_kind Null.
Definition cJSON_IsNumber := is_kind Number.
Definition cJSON_IsString := is_kind String_.
Definition cJSON_IsArray := is_kind Array.
Definition cJSON_IsObject := is_kind Object.
Definition cJSON_IsRaw := is_kind Raw.
Definition cJSON_IsBool (item : ptr) : I bool :=
  match item with None => mret false | Some _ => let! n := load item in mret (has_flag (Z.lor True_ False_) (held n)) end.
Definition cJSON_GetStringValue (item : ptr) : I (option string) :=
  let! b := cJSON_IsString item in if b then let! n := load item in mret (valuestring (held n)) else mret None.
Definition cJSON_GetNumberValue (item : ptr) : I double :=
  let! b := cJSON_IsNumber item in if b then let! n := load item in mret (valuedouble (held n)) else mret S754_nan.

(** Every child of [a] has a counterpart in [b]. *)
Fixpoint counterparts (compare : ptr -> ptr -> I bool) (steps : nat) (case_sensitive : bool) (p b : ptr) : I bool :=
  match p, steps with
  | None, _ => mret true
  | Some _, O => mfail
  | Some _, S steps =>
      let! n := load p in
      match key (held n) with
      | None => mret false
      | Some name =>
          let! q := get_object_item b name case_sensitive in
          match q with
          | None => mret false
          | Some _ =>
              let! r := compare p q in
              if r then counterparts compare steps case_sensitive (next n) b else mret false
          end
      end
  end.
Fixpoint alongside (compare : ptr -> ptr -> I bool) (steps : nat) (p q : ptr) : I bool :=
  match p, q, steps with
  | Some _, Some _, O => mfail
  | Some _, Some _, S steps =>
      let! r := compare p q in
      if negb r then mret false
      else let! n := load p in let! k := load q in alongside compare steps (next n) (next k)
  | _, _, _ => mret (same_ptr p q)
  end.
Definition known (k : Z) : bool := existsb (Z.eqb k) [False_; True_; Null; Number; String_; Raw; Array; Object].
Fixpoint cJSON_Compare (fuel : nat) (case_sensitive : bool) (a b : ptr) : I bool :=
  match a, b, fuel with
  | Some _, Some _, O => mfail
  | Some _, Some _, S fuel =>
      let! x := load a in
      let! y := load b in
      let k := kind (held x) in
      if negb (k =? kind (held y)) then mret false
      else if negb (known k) then mret false
      else if same_ptr a b then mret true
      else if k =? Number then mret (compare_double (valuedouble (held x)) (valuedouble (held y)))
      else if (k =? String_) || (k =? Raw) then
        mret (match valuestring (held x), valuestring (held y) with Some s, Some t => (s =? t)%string | _, _ => false end)
      else if k =? Array then alongside (cJSON_Compare fuel case_sensitive) fuel (child x) (child y)
      else if k =? Object then
        let! r := counterparts (cJSON_Compare fuel case_sensitive) fuel case_sensitive (child x) b in
        if r then counterparts (cJSON_Compare fuel case_sensitive) fuel case_sensitive (child y) a else mret false
      else mret true
  | _, _, _ => mret false
  end.

(** ** Trees in the heap *)

(** A tree with the block of every item; a reference does not own what it
    refers to, so it has no children here. *)
Inductive rose := Rose (l : positive) (c : content) (children : list rose).
Definition root (t : rose) : positive := match t with Rose l _ _ => l end.
Definition content_of (t : rose) : content := match t with Rose _ c _ => c end.
Definition children_of (t : rose) : list rose := match t with Rose _ _ cs => cs end.
Fixpoint blocks (t : rose) : list positive := match t with Rose l _ cs => l :: flat_map blocks cs end.
Definition all_blocks (cs : list rose) : list positive := flat_map blocks cs.
Lemma rose_nested_ind (P : rose -> Prop) : (forall l c cs, Forall P cs -> P (Rose l c cs)) -> forall t, P t.
Proof.
  intros H. fix IH 1. intros [l c cs]. apply H. induction cs as [|t cs IHcs]; constructor; [apply IH|exact IHcs].
Qed.

Definition first_of (cs : list rose) (nx : ptr) : ptr := match cs with [] => nx | t :: _ => Some (root t) end.
Fixpoint last_of (cs : list rose) (pv : ptr) : ptr := match cs with [] => pv | t :: cs => last_of cs (Some (root t)) end.

(** The item of [t] between [pv] and [nx]; what is below it is chained, the
    first child pointing back to the last.  Without [strict] the pointers back
    are not looked at. *)
Fixpoint linked (strict : bool) (h : gmap positive node) (pv : ptr) (t : rose) (nx : ptr) : Prop :=
  match t with
  | Rose l c cs =>
      (exists p k, h !! l = Some (Node nx p k c) /\ (strict = true -> p = pv) /\
         if is_reference c then cs = [] else k = first_of cs None) /\
      (fix chain (q : ptr) (cs : list rose) : Prop :=
         match cs with [] => True | t :: cs => linked strict h q t (first_of cs None) /\ chain (Some (root t)) cs end) (last_of cs None) cs
  end.
Fixpoint chain (strict : bool) (h : gmap positive node) (pv : ptr) (cs : list rose) (nx : ptr) : Prop :=
  match cs with [] => True | t :: cs => linked strict h pv t (first_of cs nx) /\ chain strict h (Some (root t)) cs nx end.

Lemma linked_eq strict h pv l c cs nx : linked strict h pv (Rose l c cs) nx <->
  (exists p k, h !! l = Some (Node nx p k c) /\ (strict = true -> p = pv) /\
     if is_reference c then cs = [] else k = first_of cs None) /\ chain strict h (last_of cs None) cs None.
Proof.
  cbn [linked]. assert (forall q cs', (fix chain (q : ptr) (cs : list rose) : Prop :=
         match cs with [] => True | t :: cs => linked strict h q t (first_of cs None) /\ chain (Some (root t)) cs end) q cs' <-> chain strict h q cs' None) as H.
  { intros q cs'. revert q. induction cs' as [|t cs' IH]; intros q; [done|]. cbn [chain]. by rewrite IH. }
  by rewrite H.
Qed.
Lemma first_sibling_app a b nx : first_of (a ++ b) nx = first_of a (first_of b nx).
Proof. by destruct a. Qed.
Lemma last_sibling_app a b pv : last_of (a ++ b) pv = last_of b (last_of a pv).
Proof. revert pv. induction a as [|t a IH]; intros pv; [done|]. apply IH. Qed.
Lemma siblings_app strict h a b : forall pv nx,
  chain strict h pv (a ++ b) nx <-> chain strict h pv a (first_of b nx) /\ chain strict h (last_of a pv) b nx.
Proof.
  induction a as [|t a IH]; intros pv nx; cbn [app chain last_of]; [tauto|]. rewrite IH, first_sibling_app. tauto.
Qed.
Lemma all_blocks_app a b : all_blocks (a ++ b) = all_blocks a ++ all_blocks b.
Proof. apply flat_map_app. Qed.
Lemma root_in t : root t ∈ blocks t.
Proof. destruct t as [l c cs]. by left. Qed.

(** Only the blocks of the tree matter. *)
Lemma linked_frame strict h h' t : forall pv nx, (forall l, l ∈ blocks t -> h' !! l = h !! l) ->
  linked strict h pv t nx -> linked strict h' pv t nx.
Proof.
  induction t as [l c cs IH] using rose_nested_ind. intros pv nx Hh. rewrite !linked_eq. intros [(p & k & Hl & Hp) Hc].
  split; [exists p, k; split; [|done]; rewrite Hh; [done|by left]|].
  assert (forall l', l' ∈ all_blocks cs -> h' !! l' = h !! l') as Hh' by (intros l' H; apply Hh; right; exact H).
  clear Hl Hh Hp. generalize (last_of cs None) Hc. clear Hc. induction IH as [|t cs Ht _ IHcs]; intros q Hc; [exact Logic.I|].
  destruct Hc as [H1 H2]. split; [apply Ht; [|exact H1]|apply IHcs; [|exact H2]]; intros l' H; apply Hh'; apply elem_of_app; auto.
Qed.
Lemma siblings_frame strict h h' cs : forall pv nx, (forall l, l ∈ all_blocks cs -> h' !! l = h !! l) ->
  chain strict h pv cs nx -> chain strict h' pv cs nx.
Proof.
  induction cs as [|t cs IH]; intros pv nx Hh; [done|]. cbn [chain]. intros [Ht Hc].
  split; [eapply linked_frame; [|exact Ht]|apply IH; [|exact Hc]]; intros l H; apply Hh; apply elem_of_app; auto.
Qed.
Lemma linked_weak h t : forall pv nx, linked true h pv t nx -> linked false h pv t nx.
Proof.
  induction t as [l c cs IH] using rose_nested_ind. intros pv nx. rewrite !linked_eq. intros [(p & k & Hl & _ & Hk) Hc].
  split; [by exists p, k|]. clear Hl Hk. generalize (last_of cs None) Hc. clear Hc. induction IH as [|t cs Ht _ IHcs]; intros q Hc; [exact Logic.I|].
  cbn [chain] in *. split; [apply Ht, Hc|apply IHcs, Hc].
Qed.
Lemma chain_weak h cs : forall pv nx, chain true h pv cs nx -> chain false h pv cs nx.
Proof. induction cs as [|t cs IH]; intros pv nx; [done|]. intros [Ht Hc]. split; [by apply linked_weak|by apply IH]. Qed.
Lemma chain_any h cs pv pv' nx : chain false h pv cs nx -> chain false h pv' cs nx.
Proof.
  destruct cs as [|[l c ks] cs]; [done|]. cbn [chain]. rewrite !linked_eq. intros [[(p & k & Hl & _ & Hk) Hc] Hr].
  split; [split; [by exists p, k|done]|done].
Qed.
Lemma linked_root strict h pv t nx : linked strict h pv t nx -> exists p k, h !! root t = Some (Node nx p k (content_of t)) /\ (strict = true -> p = pv).
Proof. destruct t as [l c cs]. rewrite linked_eq. intros [(p & k & Hl & Hp & _) _]. by exists p, k. Qed.

(** ** Running the primitives *)

Lemma ret_then {A B : Type} (x : A) (k : A -> I B) m : mbnd (mret x) k m = k x m.
Proof. done. Qed.
Lemma load_run l n m : cells m !! l = Some n -> load (Some l) m = Some (n, m).
Proof. intros H. unfold load. by rewrite H. Qed.
Lemma write_run l n m f : cells m !! l = Some n -> write (Some l) f m = Some (tt, m <| cells ::= alter f l |>).
Proof. intros H. unfold write. by rewrite H. Qed.
Lemma deallocate_run l n m : cells m !! l = Some n -> deallocate (Some l) m = Some (tt, m <| cells ::= delete l |>).
Proof. intros H. unfold deallocate. by rewrite H. Qed.

(** ** Deleting *)

Definition without (ls : list positive) (h : gmap positive node) : gmap positive node := foldr delete h ls.
Lemma lookup_without ls h k : without ls h !! k = if decide (k ∈ ls) then None else h !! k.
Proof.
  induction ls as [|l ls IH]; [done|]. cbn. destruct (decide (k = l)) as [->|Hn].
  - rewrite lookup_delete_eq. by rewrite decide_True by (by left).
  - rewrite lookup_delete_ne by done. fold (without ls h). rewrite IH. destruct (decide (k ∈ ls)) as [H|H].
    + by rewrite decide_True by (by right).
    + rewrite decide_False; [done|]. intros [?|?]%elem_of_cons; done.
Qed.

(** Deleting a chain frees its blocks, each once, and nothing else. *)
Lemma delete_run : forall fuel cs m pv, chain false (cells m) pv cs None -> NoDup (all_blocks cs) ->
  (List.length (all_blocks cs) <= fuel)%nat ->
  delete_items fuel (first_of cs None) m = Some (tt, m <| cells ::= without (all_blocks cs) |>).
Proof.
  clear malloc.
  induction fuel as [|fuel IH]; intros [|[l c ks] cs] m pv Hc Hd Hf; try (by destruct m); try (by (cbn in Hf; lia)).
  cbn [chain] in Hc. rewrite linked_eq in Hc. destruct Hc as [[(p & k & Hl & _ & Hk) Hks] Hcs].
  change (all_blocks (Rose l c ks :: cs)) with (l :: all_blocks ks ++ all_blocks cs) in *.
  apply NoDup_cons in Hd as [Hln [Hdk [Hdis Hdc]]%NoDup_app]. cbn [List.length] in Hf. rewrite length_app in Hf.
  cbn [first_of root delete_items]. rewrite (bind_run _ _ _ _ _ (load_run _ _ _ Hl)). cbn [held child next].
  assert ((if is_reference c then mret tt else delete_items fuel k) m = Some (tt, m <| cells ::= without (all_blocks ks) |>)) as Hdel.
  { destruct (is_reference c); [subst ks; by destruct m|]. subst k. eapply IH; [exact Hks|done|lia]. }
  rewrite (bind_run _ _ _ _ _ Hdel).
  erewrite (bind_run (deallocate _)); [|apply (deallocate_run _ (Node (first_of cs None) p k c)); cbn; rewrite lookup_without, decide_False by set_solver; done].
  set (m1 := m <| cells ::= without (all_blocks ks) |> <| cells ::= delete l |>).
rewrite (IH cs m1 (Some l)); [|eapply siblings_frame; [|exact Hcs]|done|lia].
  - unfold m1. f_equal. f_equal. cbn -[without]. f_equal. apply map_eq. intros x. rewrite !lookup_without.
    destruct (decide (x = l)) as [->|Hn]; [rewrite lookup_delete_eq|rewrite lookup_delete_ne, lookup_without by done];
      repeat case_decide; try done; exfalso; set_solver.
  - intros x Hx. unfold m1. cbn. rewrite lookup_delete_ne by set_solver. rewrite lookup_without, decide_False by set_solver. done.
Qed.
Lemma chain_in_heap strict h cs : forall pv nx, chain strict h pv cs nx -> forall l, l ∈ all_blocks cs -> is_Some (h !! l).
Proof.
  assert (forall t pv nx, linked strict h pv t nx -> forall l, l ∈ blocks t -> is_Some (h !! l)) as Ht.
  { induction t as [l c ks IH] using rose_nested_ind. intros pv nx. rewrite linked_eq. intros [(p & k & Hl & _) Hc] x Hx.
    apply elem_of_cons in Hx as [->|Hx]; [rewrite Hl; eauto|]. clear Hl. generalize (last_of ks None) Hc. clear Hc.
    induction IH as [|t ks Hk _ IHk]; intros q Hc; [by apply not_elem_of_nil in Hx|]. destruct Hc as [H1 H2].
    apply elem_of_app in Hx as [Hx|Hx]; [by eapply Hk|by eapply IHk]. }
  induction cs as [|t cs IH]; intros pv nx Hc l Hl; [by apply not_elem_of_nil in Hl|]. destruct Hc as [H1 H2].
  apply elem_of_app in Hl as [Hl|Hl]; [by eapply Ht|by eapply IH].
Qed.
Lemma blocks_fit strict h pv cs nx : chain strict h pv cs nx -> NoDup (all_blocks cs) -> (List.length (all_blocks cs) <= size h)%nat.
Proof.
  intros Hc Hd. rewrite <-size_dom, <-(size_list_to_set (C := gset positive) (all_blocks cs)) by done. apply subseteq_size.
  intros l Hl. apply elem_of_list_to_set in Hl. by apply elem_of_dom, (chain_in_heap _ _ _ _ _ Hc).
Qed.
Lemma cJSON_Delete_run cs m pv : chain false (cells m) pv cs None -> NoDup (all_blocks cs) ->
  cJSON_Delete (first_of cs None) m = Some (tt, m <| cells ::= without (all_blocks cs) |>).
Proof. intros Hc Hd. unfold cJSON_Delete, mbnd, mget. eapply delete_run; [done|done|by eapply blocks_fit]. Qed.

(** ** Chains tied anew *)

(** The [next] of the item at [la] and the [prev] of the one at [fi] are new. *)
Definition retie (fi q la n : ptr) (l : positive) (x : node) : node :=
  Node (if decide (la = Some l) then n else next x) (if decide (fi = Some l) then q else prev x) (child x) (held x).
Lemma retie_none fi q la n l (o : option node) : fi <> Some l -> la <> Some l -> retie fi q la n l <$> o = o.
Proof. intros Hf Hl. destruct o as [[]|]; [|done]. unfold retie. cbn. by rewrite !decide_False. Qed.
Lemma linked_relink h h' t pv nx pv' nx' : linked true h pv t nx -> (forall l, l ∈ all_blocks (children_of t) -> h' !! l = h !! l) ->
  h' !! root t = (fun x => Node nx' pv' (child x) (held x)) <$> h !! root t -> linked true h' pv' t nx'.
Proof.
  destruct t as [l c cs]. rewrite !linked_eq. intros [(p & k & Hl & Hp & Hk) Hc] Hh Hr. cbn in Hh, Hr. rewrite Hl in Hr.
  split; [exists pv', k; auto|by eapply siblings_frame].
Qed.
Lemma last_of_in cs : cs <> [] -> exists l, last_of cs None = Some l /\ l ∈ all_blocks cs.
Proof.
  intros H. destruct (exists_last H) as (a & x & ->). rewrite last_sibling_app. exists (root x). split; [done|].
  rewrite all_blocks_app. apply elem_of_app. right. apply elem_of_app. left. apply root_in.
Qed.
Lemma chain_retie_last cs : forall h h' q n n', NoDup (all_blocks cs) -> chain true h q cs n ->
  (forall l, l ∈ all_blocks cs -> h' !! l = retie None None (last_of cs None) n' l <$> h !! l) -> chain true h' q cs n'.
Proof.
  induction cs as [|t cs IH]; intros h h' q n n' Hd Hc Hh; [done|]. destruct Hc as [Ht Hc].
  change (all_blocks (t :: cs)) with (blocks t ++ all_blocks cs) in *. apply NoDup_app in Hd as [Hdt [Hdis Hdc]].
  assert (forall l, l ∈ all_blocks (children_of t) -> l ∈ blocks t /\ l <> root t) as Hch.
  { destruct t as [l c ks]. cbn in Hdt |- *. apply NoDup_cons in Hdt as [Hl _]. intros x Hx. split; [by right|]. intros ->. done. }
  assert (forall l, last_of (t :: cs) None = Some l -> cs = [] /\ l = root t \/ l ∈ all_blocks cs) as Hlast.
  { intros l. cbn. destruct cs as [|y ys]; [by intros [= <-]; left|]. destruct (last_of_in (y :: ys) ltac:(done)) as (z & Hz & Hin).
    change (last_of (y :: ys) None = Some l -> y :: ys = [] /\ l = root t \/ l ∈ all_blocks (y :: ys)). rewrite Hz. intros [= <-]. by right. }
  split.
  - eapply linked_relink; [exact Ht| |].
    + intros l Hl. destruct (Hch l Hl) as [Hb Hn]. rewrite Hh by (apply elem_of_app; auto). apply retie_none; [done|].
      intros [[_ ->]|Hin]%Hlast; [done|]. by apply (Hdis l).
    + pose proof (root_in t) as Hr. rewrite Hh by (apply elem_of_app; auto). destruct (linked_root _ _ _ _ _ Ht) as (p & k & Hl & Hp).
      rewrite Hl. cbn. unfold retie. cbn. rewrite (Hp eq_refl). f_equal. f_equal.
      destruct cs as [|y ys]; cbn [last_of first_of]; [by rewrite decide_True|]. rewrite decide_False; [done|].
      intros Hz. destruct (Hlast (root t)) as [[? _]|Hin]; [exact Hz|done|]. by apply (Hdis (root t)).
  - eapply IH; [done|exact Hc|]. intros l Hl. rewrite Hh by (apply elem_of_app; auto). by destruct cs as [|y ys]; [apply not_elem_of_nil in Hl|].
Qed.

Lemma chain_set_first h q q' t cs n : NoDup (all_blocks (t :: cs)) -> chain true h q (t :: cs) n ->
  chain true (alter (set_prev q') (root t) h) q' (t :: cs) n.
Proof.
  change (all_blocks (t :: cs)) with (blocks t ++ all_blocks cs). intros [Hdt [Hdis _]]%NoDup_app [Ht Hc]. pose proof (root_in t) as Hr. split.
  - eapply linked_relink; [exact Ht| |].
    + intros l Hl. apply lookup_alter_ne. intros <-. destruct t as [l c ks]. by apply NoDup_cons in Hdt as [? _].
    + rewrite lookup_alter_eq. destruct (linked_root _ _ _ _ _ Ht) as (p & k & -> & _). done.
  - eapply siblings_frame; [|exact Hc]. intros l Hl. apply lookup_alter_ne. intros <-. by apply (Hdis (root t)).
Qed.
(** Both ends at once; an end that is not named keeps its neighbour. *)
Lemma chain_retie h h' cs q n q' n' fi la : NoDup (all_blocks cs) -> chain true h q cs n ->
  fi = first_of cs None \/ fi = None /\ q' = q -> la = last_of cs None \/ la = None /\ n' = n ->
  (forall l, l ∈ all_blocks cs -> h' !! l = retie fi q' la n' l <$> h !! l) -> chain true h' q' cs n'.
Proof.
  intros Hd Hc Hfi Hla Hh. destruct cs as [|t cs]; [done|].
  assert (exists h1, chain true h1 q' (t :: cs) n /\ forall l, h1 !! l = retie fi q' None n' l <$> h !! l) as (h1 & Hc1 & Hh1).
  { destruct Hfi as [->|[-> ->]].
    - exists (alter (set_prev q') (root t) h). split; [by eapply chain_set_first|]. intros l. unfold retie. cbn [first_of].
      rewrite lookup_alter. destruct (decide (root t = l)) as [->|Hn].
      + destruct (h !! l) as [x|]; [|done]. change (Some (set_prev q' x) = Some (retie (Some l) q' None n' l x)).
        unfold retie. by rewrite (decide_True (P := Some l = Some l)), decide_False.
      + destruct (h !! l) as [x|]; [|done]. change (Some x = Some (retie (Some (root t)) q' None n' l x)).
        unfold retie. rewrite !decide_False by congruence. by destruct x.
    - exists h. split; [done|]. intros l. by rewrite retie_none. }
  assert (forall l, l ∈ all_blocks (t :: cs) -> h' !! l = retie None None la n' l <$> h1 !! l) as Hh2.
  { intros l Hl. rewrite Hh, Hh1 by done. rewrite <-option_fmap_compose. destruct (h !! l) as [[]|]; [|done]. unfold retie. cbn. done. }
  destruct Hla as [->|[-> ->]]; [by eapply chain_retie_last|].
  eapply siblings_frame; [|exact Hc1]. intros l Hl. by rewrite Hh2, retie_none by done.
Qed.

(** ** The list of children *)

(** The item at [a] owns the children [cs]. *)
Record parent (h : gmap positive node) (a : positive) (pv nx : ptr) (c : content) (cs : list rose) : Prop := {
  pa_node : h !! a = Some (Node nx pv (first_of cs None) c);
  pa_owns : is_reference c = false;
  pa_children : chain true h (last_of cs None) cs None;
  pa_blocks : NoDup (a :: all_blocks cs) }.
Lemma parent_linked h a pv nx c cs : is_reference c = false -> NoDup (a :: all_blocks cs) ->
  parent h a pv nx c cs <-> linked true h pv (Rose a c cs) nx.
Proof.
  intros Hc Hd. rewrite linked_eq, Hc. split.
  - intros [Hn _ Hch _]. split; [eexists _, _; split; [exact Hn|done]|done].
  - intros [(p & k & Hl & Hp & Hk) Hch]. split; [rewrite Hl, Hk, Hp; done|done..].
Qed.
(** An item that is not among them, with what it owns. *)
Record stray (h : gmap positive node) (t : rose) (nx : ptr) (taken : list positive) : Prop := {
  st_linked : exists pv, linked true h pv t nx;
  st_blocks : NoDup (blocks t);
  st_apart : forall l, l ∈ blocks t -> l ∉ taken }.

Lemma walk_run h cs : forall pv nx i m, chain true h pv cs nx -> cells m = h -> nx = None ->
  walk (first_of cs nx) i m = Some (root <$> cs !! i, m).
Proof.
  induction cs as [|t cs IH]; intros pv nx i m Hc Hm Hn; subst; [by destruct i|].
  destruct Hc as [Ht Hc]. destruct i as [|i]; [done|]. destruct (linked_root _ _ _ _ _ Ht) as (p & k & Hl & _).
  cbn [first_of walk]. rewrite (bind_run _ _ _ _ _ (load_run _ _ _ Hl)). by apply (IH (Some (root t))).
Qed.
Lemma get_array_item_run m a pv nx c cs i : parent (cells m) a pv nx c cs -> get_array_item (Some a) i m = Some (root <$> cs !! i, m).
Proof.
  intros [Hn _ Hc _]. unfold get_array_item. rewrite (bind_run _ _ _ _ _ (load_run _ _ _ Hn)). cbn [child]. by eapply walk_run.
Qed.

Lemma last_of_any cs q q' : cs <> [] -> last_of cs q = last_of cs q'.
Proof. destruct cs; done. Qed.
Lemma first_of_in cs : cs <> [] -> exists l, first_of cs None = Some l /\ l ∈ all_blocks cs.
Proof. destruct cs as [|t cs]; [done|]. intros _. exists (root t). split; [done|]. apply elem_of_app. left. apply root_in. Qed.
Definition elsewhere (ls : list positive) (h h' : gmap positive node) : Prop := forall l, l ∉ ls -> h' !! l = h !! l.

(** No two of the parent, the children before [x], [x] and those behind it
    share a block. *)
Record around (a : positive) (pre : list rose) (x : rose) (post : list rose) : Prop := {
  ar_pre_a : forall l, l ∈ all_blocks pre -> l <> a;
  ar_x_a : forall l, l ∈ blocks x -> l <> a;
  ar_post_a : forall l, l ∈ all_blocks post -> l <> a;
  ar_pre_x : forall l k, l ∈ all_blocks pre -> k ∈ blocks x -> l <> k;
  ar_pre_post : forall l k, l ∈ all_blocks pre -> k ∈ all_blocks post -> l <> k;
  ar_x_post : forall l k, l ∈ blocks x -> k ∈ all_blocks post -> l <> k;
  ar_x_below : forall l, l ∈ all_blocks (children_of x) -> l ∈ blocks x /\ l <> root x;
  ar_nd_pre : NoDup (all_blocks pre); ar_nd_x : NoDup (blocks x); ar_nd_post : NoDup (all_blocks post) }.
Lemma below_root x : NoDup (blocks x) -> forall l, l ∈ all_blocks (children_of x) -> l ∈ blocks x /\ l <> root x.
Proof. destruct x as [r c ks]. intros [Hr _]%NoDup_cons l Hl. split; [by right|]. intros ->. done. Qed.
Lemma around_spec a pre x post : NoDup (a :: all_blocks pre ++ blocks x ++ all_blocks post) <-> around a pre x post.
Proof.
  rewrite NoDup_cons, !NoDup_app. split.
  - intros (Ha & Hp & Hd & Hx & Hd' & Ho). split; try done; try (intros l Hl; set_solver); [set_solver..|by apply below_root].
  - intros []. set_solver.
Qed.
Lemma around_blocks a pre x post : a :: all_blocks (pre ++ x :: post) = a :: all_blocks pre ++ blocks x ++ all_blocks post.
Proof. by rewrite all_blocks_app. Qed.
Lemma around_without a pre x post : around a pre x post -> NoDup (a :: all_blocks (pre ++ post)).
Proof. rewrite <-around_spec, all_blocks_app, !NoDup_cons, !NoDup_app. set_solver. Qed.

(** Writes that go to blocks in use; [present] finds that they are. *)
Lemma alter_is_some f i j (h : gmap positive node) : is_Some (h !! j) -> is_Some (alter f i h !! j).
Proof. rewrite lookup_alter. destruct (decide (i = j)) as [->|]; [|done]. intros [x ->]. eauto. Qed.
Lemma write_is l m f : is_Some (cells m !! l) -> write (Some l) f m = Some (tt, m <| cells ::= alter f l |>).
Proof. intros [n H]. by eapply write_run. Qed.
Ltac present := cbn; repeat apply alter_is_some; eauto 3 using chain_in_heap.
Ltac step_write := match goal with
  | |- context [mbnd (write (Some ?l) ?f) ?k ?m] => rewrite (bind_run (write (Some l) f) k m tt _ (write_is l m f ltac:(present)))
  end.
(** The value of a chain of updates at a block, the others being elsewhere. *)
Ltac apart := first [solve [eauto 4 using root_in] | apply not_eq_sym; solve [eauto 4 using root_in]].
Ltac at_block := cbn [cells modify_field mem_eta eta_of]; repeat first [rewrite lookup_alter_eq | rewrite lookup_alter_ne by apart].

(** The same for a chain whose ends are tied anew. *)
Ltac tie := unfold retie; match goal with
  | |- ?o = _ <$> ?h !! ?l => destruct (h !! l) as [[]|]; cbn [fmap option_fmap option_map]; [|reflexivity]
  end; repeat first [rewrite decide_True by congruence | rewrite decide_False by congruence]; reflexivity.
Ltac at_end f l := destruct (decide (l = f)) as [->|?].
Ltac at_ends f e l := at_end f l; [at_end e f|at_end e l].
Lemma outside a pre x post l : l ∉ a :: all_blocks pre ++ blocks x ++ all_blocks post ->
  l <> a /\ (forall k, k ∈ all_blocks pre -> l <> k) /\ (forall k, k ∈ blocks x -> l <> k) /\ (forall k, k ∈ all_blocks post -> l <> k).
Proof. set_solver. Qed.

Lemma detach_run m a pv nx c pre x post : parent (cells m) a pv nx c (pre ++ x :: post) ->
  exists m', cJSON_DetachItemViaPointer (Some a) (Some (root x)) m = Some (Some (root x), m') /\ asked m' = asked m /\
    parent (cells m') a pv nx c (pre ++ post) /\ linked true (cells m') None x None /\
    elsewhere (a :: all_blocks (pre ++ x :: post)) (cells m) (cells m').
Proof.
  intros [Hn Hr Hc Hd]. pose proof (outside a pre x post) as Hout. rewrite <-around_blocks in Hout. rewrite around_blocks in Hd. apply around_spec in Hd as Har. pose proof (around_without _ _ _ _ Har) as Hd'.
  destruct Har. rewrite last_sibling_app in Hc. cbn [last_of] in Hc. set (q := last_of post (Some (root x))) in *.
  apply siblings_app in Hc as [Hcp [Hlx Hco]]. cbn [first_of] in Hcp. destruct (linked_root _ _ _ _ _ Hlx) as (pp & kx & Hnx & Hpp).
  specialize (Hpp eq_refl). subst pp.
  unfold cJSON_DetachItemViaPointer. rewrite (bind_run _ _ _ _ _ (load_run _ _ _ Hn)), (bind_run _ _ _ _ _ (load_run _ _ _ Hnx)). cbn [child next prev].
  destruct (decide (pre = [])) as [->|Hpre].
  - cbn [app first_of last_of] in *. unfold same_ptr. rewrite bool_decide_true by done.
    rewrite ret_then.
    destruct (decide (post = [])) as [->|Hpost].
    + cbn [first_of]. rewrite ret_then. do 3 step_write. eexists. split; [reflexivity|]. split; [done|].
      split; [|split].
      * split; [at_block|done|done|done]. by rewrite Hn.
      * eapply linked_relink; [exact Hlx| |].
        -- intros l Hl. destruct (ar_x_below0 l Hl). by at_block.
        -- at_block. by rewrite Hnx.
      * intros l Hl. apply Hout in Hl as (? & ? & ? & ?). by at_block.
    + destruct (first_of_in post Hpost) as (f & Hf & Hfin). rewrite Hf.
      do 4 step_write. eexists. split; [reflexivity|]. split; [done|].
      split; [|split].
      * split; [at_block; rewrite Hn, Hf; done|done| |done].
        rewrite <-(last_of_any post (Some (root x)) None Hpost). fold q.
        eapply (chain_retie (cells m) _ post (Some (root x)) None _ _ (Some f) None); [done|exact Hco|by left|by right|]. intros l Hl. at_end f l; at_block; tie.
      * eapply linked_relink; [exact Hlx| |].
        -- intros l Hl. destruct (ar_x_below0 l Hl). by at_block.
        -- at_block. by rewrite Hnx.
      * intros l Hl. apply Hout in Hl as (? & ? & ? & ?). by at_block.
  - destruct (first_of_in pre Hpre) as (f & Hf & Hfin). destruct (last_of_in pre Hpre) as (e & He & Hein).
    assert (forall o, last_of pre o = Some e) as He' by (intros o; rewrite <-He; by apply last_of_any).
    assert (forall o, first_of pre o = Some f) as Hf' by (intros o; by destruct pre).
    rewrite !first_sibling_app in *. rewrite !Hf' in *. rewrite !He' in *. unfold same_ptr. rewrite bool_decide_false.
    2: { intros [= E]. by apply (ar_pre_x0 f (root x) Hfin (root_in x)). }
    step_write. destruct (decide (post = [])) as [->|Hpost].
    + cbn [first_of last_of app] in *. rewrite ret_then. do 3 step_write. eexists. split; [reflexivity|]. split; [done|].
      rewrite app_nil_r in *. split; [|split].
      * split; [at_block; rewrite Hn, Hf'; done|done| |done].
        eapply (chain_retie (cells m) _ pre q (Some (root x)) _ _ (Some f) (Some e)); [done|exact Hcp|by left|by left|].
        rewrite He'. intros l Hl. at_ends f e l; at_block; tie.
      * eapply linked_relink; [exact Hlx| |].
        -- intros l Hl. destruct (ar_x_below0 l Hl). by at_block.
        -- at_block. by rewrite Hnx.
      * intros l Hl. apply Hout in Hl as (? & ? & ? & ?). by at_block.
    + destruct (first_of_in post Hpost) as (g & Hg & Hgin). rewrite Hg in *. step_write. rewrite ret_then. do 2 step_write.
      eexists. split; [reflexivity|]. split; [done|]. split; [|split].
      * split; [at_block; rewrite Hn, first_sibling_app, Hf'; done|done| |done].
        rewrite last_sibling_app, He', (last_of_any post _ (Some (root x)) Hpost). fold q. apply siblings_app. rewrite Hg, He'. split.
        -- eapply (chain_retie (cells m) _ pre q (Some (root x)) _ _ None (Some e)); [done|exact Hcp|by right|by left|].
           intros l Hl. at_end e l; at_block; tie.
        -- eapply (chain_retie (cells m) _ post (Some (root x)) None _ _ (Some g) None); [done|exact Hco|by left|by right|].
           intros l Hl. at_end g l; at_block; tie.
      * eapply linked_relink; [exact Hlx| |].
        -- intros l Hl. destruct (ar_x_below0 l Hl). by at_block.
        -- at_block. by rewrite Hnx.
      * intros l Hl. apply Hout in Hl as (? & ? & ? & ?). by at_block.
Qed.

Lemma add_run m a pv nx c cs q t : parent (cells m) a pv nx c cs -> linked true (cells m) q t None -> around a cs t [] ->
  exists m', add_item_to_array (Some a) (Some (root t)) m = Some (true, m') /\ asked m' = asked m /\
    parent (cells m') a pv nx c (cs ++ [t]) /\ elsewhere (a :: all_blocks (cs ++ [t])) (cells m) (cells m').
Proof.
  intros [Hn Hr Hc Hd] Ht Har. pose proof (outside a cs t []) as Hout. rewrite <-around_blocks in Hout.
  assert (NoDup (a :: all_blocks (cs ++ [t]))) as Hd' by (rewrite around_blocks; by apply around_spec).
  destruct Har. destruct (linked_root _ _ _ _ _ Ht) as (pp & kx & Hnt & Hpp). specialize (Hpp eq_refl). subst pp.
  unfold add_item_to_array, same_ptr. rewrite bool_decide_false by (intros [= E]; by apply (ar_x_a0 _ (root_in t))).
  rewrite (bind_run _ _ _ _ _ (load_run _ _ _ Hn)). cbn [child].
  destruct (decide (cs = [])) as [->|Hcs].
  - cbn [first_of app] in *. do 3 step_write. eexists. split; [reflexivity|]. split; [done|]. split.
    + split; [at_block; by rewrite Hn|done| |done]. cbn [last_of]. split; [|done]. eapply linked_relink; [exact Ht| |].
      * intros l Hl. destruct (ar_x_below0 l Hl). by at_block.
      * at_block. by rewrite Hnt.
    + intros l Hl. apply Hout in Hl as (? & ? & ? & ?). by at_block.
  - destruct (first_of_in cs Hcs) as (f & Hf & Hfin). destruct (last_of_in cs Hcs) as (e & He & Hein). rewrite Hf in Hn |- *. rewrite He in Hc.
    assert (forall o, first_of cs o = Some f) as Hf' by (intros o; by destruct cs).
    assert (exists k x, cells m !! f = Some (Node k (Some e) x.1 x.2)) as (k & y & Hnf).
    { destruct cs as [|y ys]; [done|]. destruct Hc as [Hy _]. injection Hf as <-. destruct (linked_root _ _ _ _ _ Hy) as (p & k & Hl & Hp).
      rewrite (Hp eq_refl) in Hl. by exists (first_of ys None), (k, content_of y). }
    rewrite (bind_run _ _ _ _ _ (load_run _ _ _ Hnf)). cbn [prev]. unfold suffix_object.
    rewrite (bind_run _ _ _ tt (m <| cells ::= alter (set_next (Some (root t))) e |> <| cells ::= alter (set_prev (Some e)) (root t) |>)).
    2: { step_write. apply write_is. present. }
    step_write. eexists. split; [reflexivity|]. split; [done|]. split.
    + split; [at_block; by rewrite Hn, first_sibling_app, Hf'|done| |done].
      rewrite last_sibling_app. apply siblings_app. cbn [last_of first_of chain]. rewrite (last_of_any cs _ None Hcs), He. split; [|split; [|done]].
      * eapply (chain_retie (cells m) _ cs (Some e) None _ _ (Some f) (Some e)); [done|exact Hc|by left|by left|].
        intros l Hl. at_ends f e l; at_block; tie.
      * eapply linked_relink; [exact Ht| |].
        -- intros l Hl. destruct (ar_x_below0 l Hl). by at_block.
        -- at_block. by rewrite Hnt.
    + intros l Hl. apply Hout in Hl as (? & ? & ? & ?). by at_block.
Qed.

Lemma insert_run m a pv nx c pre y post q n t : parent (cells m) a pv nx c (pre ++ y :: post) -> linked true (cells m) q t n ->
  around a pre t (y :: post) ->
  exists m', cJSON_InsertItemInArray (Some a) (Z.of_nat (List.length pre)) (Some (root t)) m = Some (true, m') /\ asked m' = asked m /\
    parent (cells m') a pv nx c (pre ++ t :: y :: post) /\ elsewhere (a :: all_blocks (pre ++ t :: y :: post)) (cells m) (cells m').
Proof.
  intros Hpa Ht Har. pose proof (outside a pre t (y :: post)) as Hout. rewrite <-around_blocks in Hout.
  assert (NoDup (a :: all_blocks (pre ++ t :: y :: post))) as Hd' by (rewrite around_blocks; by apply around_spec).
  unfold cJSON_InsertItemInArray. rewrite (proj2 (Z.ltb_ge _ _)), Nat2Z.id by lia.
  rewrite (bind_run _ _ _ _ _ (get_array_item_run _ _ _ _ _ _ _ Hpa)).
  rewrite list_lookup_middle by done. cbn [fmap option_fmap option_map].
  destruct Hpa as [Hn Hr Hc Hd]. destruct Har. rewrite last_sibling_app in Hc. cbn [last_of] in Hc. set (Q := last_of post (Some (root y))) in *.
  apply siblings_app in Hc as [Hcp Hcy]. pose proof Hcy as [Hy _]. cbn [first_of] in Hcp.
  destruct (linked_root _ _ _ _ _ Hy) as (pp & ky & Hny & Hpp). specialize (Hpp eq_refl). subst pp.
  destruct (linked_root _ _ _ _ _ Ht) as (pp & kt & Hnt & Hpp). specialize (Hpp eq_refl). subst pp.
  assert (root y ∈ all_blocks (y :: post)) as Hyin by (apply elem_of_app; left; apply root_in).
  step_write. erewrite (bind_run (load _)); [|apply load_run; at_block; exact Hny]. cbn [prev]. do 2 step_write.
  erewrite (bind_run (load _)); [|apply load_run; at_block; exact Hn]. cbn [child]. unfold same_ptr.
  assert (forall h', h' !! a = Some (Node nx pv (first_of (pre ++ [t]) None) c) -> (forall l, l ∈ all_blocks (children_of t) -> h' !! l = cells m !! l) ->
    h' !! root t = (fun x => Node (Some (root y)) (last_of pre Q) (child x) (held x)) <$> cells m !! root t ->
    chain true h' Q pre (Some (root t)) -> (forall l, l ∈ all_blocks (y :: post) -> h' !! l = retie (Some (root y)) (Some (root t)) None None l <$> cells m !! l) ->
    parent h' a pv nx c (pre ++ t :: y :: post)) as Hend.
  { intros h' Ha' Hb' Ht' Hp' Hy'. split; [by rewrite Ha', !first_sibling_app|done| |done].
    rewrite last_sibling_app. cbn [last_of]. fold Q. apply siblings_app. cbn [first_of]. split; [done|]. split.
    - by eapply linked_relink.
    - eapply (chain_retie (cells m) _ (y :: post) _ None _ _ (Some (root y)) None); [done|exact Hcy|by left|by right|done]. }
  destruct (decide (pre = [])) as [->|Hpre].
  - cbn [first_of last_of app] in *. rewrite bool_decide_true by done. step_write. eexists. split; [reflexivity|]. split; [done|]. split.
    + apply Hend; [at_block; by rewrite Hn| |at_block; by rewrite Hnt|done|].
      * intros l Hl. destruct (ar_x_below0 l Hl). by at_block.
      * intros l Hl. at_end (root y) l; at_block; tie.
    + intros l Hl. apply Hout in Hl as (? & ? & ? & ?). by at_block.
  - destruct (first_of_in pre Hpre) as (f & Hf & Hfin). destruct (last_of_in pre Hpre) as (e & He & Hein).
    assert (forall o, last_of pre o = Some e) as He' by (intros o; rewrite <-He; by apply last_of_any).
    assert (forall o, first_of pre o = Some f) as Hf' by (intros o; by destruct pre).
    rewrite !first_sibling_app, !Hf' in *. rewrite !He' in *. rewrite bool_decide_false.
    2: { intros [= E]. by apply (ar_pre_post0 f (root y)). }
    erewrite (bind_run _ _ _ tt).
    2: { erewrite (bind_run (load _)); [|apply load_run; at_block; by rewrite Hnt].
      cbn [prev set_prev set_next modify_field node_eta eta_of next child held]. apply write_is. present. }
    eexists. split; [reflexivity|]. split; [done|]. split.
    + apply Hend; [at_block; by rewrite Hn| |at_block; by rewrite Hnt| |].
      * intros l Hl. destruct (ar_x_below0 l Hl). by at_block.
      * eapply (chain_retie (cells m) _ pre Q _ _ _ None (Some e)); [done|exact Hcp|by right|by left|]. intros l Hl. at_end e l; at_block; tie.
      * intros l Hl. at_end (root y) l; at_block; tie.
    + intros l Hl. apply Hout in Hl as (? & ? & ? & ?). by at_block.
Qed.

Lemma parent_frame h h' a pv nx c cs : (forall l, l ∈ a :: all_blocks cs -> h' !! l = h !! l) -> parent h a pv nx c cs -> parent h' a pv nx c cs.
Proof.
  intros Hh [Hn Hr Hc Hd]. split; [rewrite Hh; [done|by left]|done| |done]. eapply siblings_frame; [|exact Hc]. intros l Hl. apply Hh. by right.
Qed.
(** The replaced item, unhooked and deleted. *)
Lemma discard_run m x pv nx : linked true (cells m) pv x nx -> NoDup (blocks x) ->
  (write (Some (root x)) (set_next None) ;; write (Some (root x)) (set_prev None) ;; cJSON_Delete (Some (root x)) ;; mret true) m =
  Some (true, m <| cells := without (blocks x) (alter (set_prev None) (root x) (alter (set_next None) (root x) (cells m))) |>).
Proof.
  intros Hx Hd. destruct (linked_root _ _ _ _ _ Hx) as (p & k & Hn & _). do 2 step_write.
  set (m1 := m <| cells ::= alter (set_next None) (root x) |> <| cells ::= alter (set_prev None) (root x) |>).
  assert (linked true (cells m1) None x None) as Hx1.
  { eapply linked_relink; [exact Hx| |].
    - intros l Hl. apply below_root in Hl as [_ Hl]; [|done]. unfold m1. cbn. by rewrite !lookup_alter_ne by done.
    - unfold m1. cbn. by rewrite !lookup_alter_eq, Hn. }
  rewrite (bind_run _ _ _ _ _ (cJSON_Delete_run [x] m1 None ltac:(split; [by apply linked_weak|done]) ltac:(by rewrite <-(app_nil_r (blocks x)) in Hd))).
  unfold all_blocks. cbn [flat_map]. by rewrite app_nil_r.
Qed.
Lemma replace_run m a pv nx c pre x post q n t : parent (cells m) a pv nx c (pre ++ x :: post) -> linked true (cells m) q t n ->
  around a pre t post -> (forall l k, l ∈ blocks x -> k ∈ blocks t -> l <> k) ->
  exists m', cJSON_ReplaceItemViaPointer (Some a) (Some (root x)) (Some (root t)) m = Some (true, m') /\ asked m' = asked m /\
    parent (cells m') a pv nx c (pre ++ t :: post) /\ (forall l, l ∈ blocks x -> cells m' !! l = None) /\
    elsewhere (a :: all_blocks (pre ++ t :: post) ++ blocks x) (cells m) (cells m').
Proof.
  intros [Hn Hr Hc Hd] Ht Hat Hxt. pose proof (outside a pre t post) as Hout. rewrite <-around_blocks in Hout.
  assert (NoDup (a :: all_blocks (pre ++ t :: post))) as Hd' by (rewrite around_blocks; by apply around_spec).
  rewrite around_blocks in Hd. apply around_spec in Hd as Har. destruct Har, Hat.
  rewrite last_sibling_app in Hc. cbn [last_of] in Hc. set (Q := last_of post (Some (root x))) in *.
  apply siblings_app in Hc as [Hcp [Hlx Hco]]. cbn [first_of] in Hcp. destruct (linked_root _ _ _ _ _ Hlx) as (pp & kx & Hnx & Hpp).
  specialize (Hpp eq_refl). subst pp. destruct (linked_root _ _ _ _ _ Ht) as (pp & kt & Hnt & Hpp). specialize (Hpp eq_refl). subst pp.
  unfold cJSON_ReplaceItemViaPointer, same_ptr.
  rewrite bool_decide_false by (intros [= E]; by apply (Hxt (root x) (root t) (root_in x) (root_in t))).
  rewrite (bind_run _ _ _ _ _ (load_run _ _ _ Hnx)). cbn [next prev]. do 2 step_write.
  set (Q' := last_of post (Some (root t))).
  assert (forall m1 p1, asked m1 = asked m -> cells m1 !! a = Some (Node nx pv (first_of (pre ++ [t]) None) c) ->
    linked true (cells m1) p1 x (first_of post None) ->
    (forall l, l ∈ all_blocks (children_of t) -> cells m1 !! l = cells m !! l) ->
    cells m1 !! root t = (fun x => Node (first_of post None) (last_of pre Q') (child x) (held x)) <$> cells m !! root t ->
    chain true (cells m1) Q' pre (Some (root t)) -> chain true (cells m1) (Some (root t)) post None ->
    (forall l, l ∉ a :: all_blocks (pre ++ t :: post) ++ blocks x -> cells m1 !! l = cells m !! l) ->
    exists m', (write (Some (root x)) (set_next None) ;; write (Some (root x)) (set_prev None) ;; cJSON_Delete (Some (root x)) ;; mret true) m1 = Some (true, m') /\
      asked m' = asked m /\ parent (cells m') a pv nx c (pre ++ t :: post) /\ (forall l, l ∈ blocks x -> cells m' !! l = None) /\
      elsewhere (a :: all_blocks (pre ++ t :: post) ++ blocks x) (cells m) (cells m')) as Hend.
  { intros m1 p1 Hq1 Ha1 Hx1 Hb1 Ht1 Hp1 Ho1 He1. eexists. split; [by eapply discard_run|]. split; [done|]. cbn.
    assert (forall l, l ∉ blocks x -> without (blocks x) (alter (set_prev None) (root x) (alter (set_next None) (root x) (cells m1))) !! l = cells m1 !! l) as Hw.
    { intros l Hl. rewrite lookup_without, decide_False by done. pose proof (root_in x). by rewrite !lookup_alter_ne by congruence. }
    split; [|split].
    - apply (parent_frame (cells m1)).
      + intros l Hl. apply Hw. intros Hlx'. rewrite around_blocks in Hl. apply elem_of_cons in Hl as [->|[Hl|[Hl|Hl]%elem_of_app]%elem_of_app];
          [by eapply ar_x_a0|by eapply ar_pre_x0|by eapply Hxt|by eapply ar_x_post0].
      + split; [by rewrite Ha1, !first_sibling_app|done| |done]. rewrite last_sibling_app. cbn [last_of]. apply siblings_app. split; [exact Hp1|].
        split; [|exact Ho1]. eapply linked_relink; [exact Ht|done|exact Ht1].
    - intros l Hl. by rewrite lookup_without, decide_True.
    - intros l Hl. rewrite Hw by (intros ?; apply Hl; right; apply elem_of_app; by right). by apply He1. }
  assert (forall l, l ∉ a :: all_blocks (pre ++ t :: post) ++ blocks x ->
    l <> a /\ (forall k, k ∈ all_blocks pre -> l <> k) /\ (forall k, k ∈ blocks t -> l <> k) /\ (forall k, k ∈ all_blocks post -> l <> k)) as Hout'.
  { intros l Hl. apply Hout. set_solver. }
  destruct (decide (pre = [])) as [->|Hpre]; (destruct (decide (post = [])) as [->|Hpost]; [|destruct (first_of_in post Hpost) as (g & Hg & Hgin)]).
  - cbn [first_of last_of app] in *. rewrite ret_then. erewrite (bind_run (load _)); [|apply load_run; at_block; exact Hn]. cbn [child].
    rewrite bool_decide_true by done. erewrite (bind_run _ _ _ tt).
    2: { erewrite (bind_run (load _)); [|apply load_run; at_block; exact Hnx]. cbn [prev]. rewrite bool_decide_true by done.
         step_write. apply write_is. present. }
    eapply (Hend _ Q); [done|at_block; by rewrite Hn| | |at_block; by rewrite Hnt|done|done|].
    + eapply linked_relink; [exact Hlx| |at_block; by rewrite Hnx]. intros l Hl. destruct (ar_x_below0 l Hl). by at_block.
    + intros l Hl. destruct (ar_x_below1 l Hl). by at_block.
    + intros l Hl. apply Hout' in Hl as (? & ? & ? & ?). by at_block.
  - cbn [first_of last_of app] in *. rewrite Hg in Hnx |- *. step_write.
    erewrite (bind_run (load _)); [|apply load_run; at_block; exact Hn]. cbn [child]. rewrite bool_decide_true by done.
    destruct (last_of_in post Hpost) as (e & He & Hein). assert (Q = Some e) as HQ by (unfold Q; rewrite <-He; by apply last_of_any).
    assert (Q' = Q) as HQ' by (unfold Q, Q'; by apply last_of_any).
    erewrite (bind_run _ _ _ tt).
    2: { erewrite (bind_run (load _)); [|apply load_run; at_block; exact Hnx]. cbn [prev]. rewrite bool_decide_false.
         2: { rewrite HQ. intros [= E]. by apply (ar_x_post0 (root x) e (root_in x)). }
         rewrite ret_then. apply write_is. present. }
    eapply (Hend _ Q); [done|at_block; by rewrite Hn| | |at_block; by rewrite Hnt, HQ', Hg|done| |].
    + eapply linked_relink; [exact Hlx| |at_block; by rewrite Hnx, Hg]. intros l Hl. destruct (ar_x_below0 l Hl). by at_block.
    + intros l Hl. destruct (ar_x_below1 l Hl). by at_block.
    + eapply (chain_retie (cells m) _ post (Some (root x)) None _ _ (Some g) None); [done|exact Hco|by left|by right|].
      intros l Hl. at_end g l; at_block; tie.
    + intros l Hl. apply Hout' in Hl as (? & ? & ? & ?). by at_block.
  - destruct (first_of_in pre Hpre) as (f & Hf & Hfin). destruct (last_of_in pre Hpre) as (e & He & Hein).
    assert (forall o, last_of pre o = Some e) as He' by (intros o; rewrite <-He; by apply last_of_any).
    assert (forall o, first_of pre o = Some f) as Hf' by (intros o; by destruct pre).
    rewrite !first_sibling_app, !Hf' in *. rewrite !He' in *.
    assert (Some f <> Some (root x)) as Hfx by (intros [= E]; by apply (ar_pre_x0 f (root x) Hfin (root_in x))).
    cbn [first_of last_of app] in *. rewrite ret_then. erewrite (bind_run (load _)); [|apply load_run; at_block; exact Hn]. cbn [child].
    rewrite bool_decide_false by done. erewrite (bind_run _ _ _ tt).
    2: { erewrite (bind_run (load _)); [|apply load_run; at_block; by rewrite Hnt]. cbn [prev set_prev set_next modify_field node_eta eta_of next child held]. step_write.
         erewrite (bind_run (load _)); [|apply load_run; at_block; by rewrite Hnt]. match goal with |- context [next (set_prev ?p (set_next ?k ?x))] => change (next (set_prev p (set_next k x))) with k end.
         apply write_is. present. }
    eapply (Hend _ (Some e)); [done|at_block; by rewrite Hn| | |at_block; by rewrite Hnt| |done|].
    + eapply linked_relink; [exact Hlx| |at_block; by rewrite Hnx]. intros l Hl. destruct (ar_x_below0 l Hl). by at_block.
    + intros l Hl. destruct (ar_x_below1 l Hl). by at_block.
    + eapply (chain_retie (cells m) _ pre Q (Some (root x)) _ _ (Some f) (Some e)); [done|exact Hcp|left; by rewrite Hf'|left; by rewrite He'|].
      intros l Hl. at_ends f e l; at_block; tie.
    + intros l Hl. apply Hout' in Hl as (? & ? & ? & ?). by at_block.
  - destruct (first_of_in pre Hpre) as (f & Hf & Hfin). destruct (last_of_in pre Hpre) as (e & He & Hein).
    assert (forall o, last_of pre o = Some e) as He' by (intros o; rewrite <-He; by apply last_of_any).
    assert (forall o, first_of pre o = Some f) as Hf' by (intros o; by destruct pre).
    rewrite !first_sibling_app, !Hf' in *. rewrite !He' in *.
    assert (Some f <> Some (root x)) as Hfx by (intros [= E]; by apply (ar_pre_x0 f (root x) Hfin (root_in x))).
    rewrite Hg in Hnx |- *. step_write. erewrite (bind_run (load _)); [|apply load_run; at_block; exact Hn]. cbn [child].
    rewrite bool_decide_false by done. erewrite (bind_run _ _ _ tt).
    2: { erewrite (bind_run (load _)); [|apply load_run; at_block; by rewrite Hnt]. cbn [prev set_prev set_next modify_field node_eta eta_of next child held]. step_write.
         erewrite (bind_run (load _)); [|apply load_run; at_block; by rewrite Hnt]. done. }
    assert (Q' = Q) as HQ' by (unfold Q, Q'; by apply last_of_any).
    eapply (Hend _ (Some e)); [done|at_block; by rewrite Hn| | |at_block; by rewrite Hnt, Hg| | |].
    + eapply linked_relink; [exact Hlx| |at_block; by rewrite Hnx, Hg]. intros l Hl. destruct (ar_x_below0 l Hl). by at_block.
    + intros l Hl. destruct (ar_x_below1 l Hl). by at_block.
    + rewrite HQ'. eapply (chain_retie (cells m) _ pre Q (Some (root x)) _ _ None (Some e)); [done|exact Hcp|by right|left; by rewrite He'|].
      intros l Hl. at_end e l; at_block; tie.
    + eapply (chain_retie (cells m) _ post (Some (root x)) None _ _ (Some g) None); [done|exact Hco|by left|by right|].
      intros l Hl. at_end g l; at_block; tie.
    + intros l Hl. apply Hout' in Hl as (? & ? & ? & ?). by at_block.
Qed.

(** ** Copies *)

Hypothesis malloc_fresh : forall n h l, malloc n h = Some l -> h !! l = None.

(** A tree without its blocks. *)
Inductive bare := Bare (c : content) (bs : list bare).
Fixpoint strip (t : rose) : bare := match t with Rose _ c cs => Bare c (map strip cs) end.
(** A request made between two states was refused. *)
Definition refused (m m' : mem) : Prop := exists n h, (asked m <= n < asked m')%nat /\ malloc n h = None.
(** A copy of [b] in blocks that were free, the others as they were; or the
    heap as it was. *)
Definition duplicated (m0 : mem) (b : bare) (r : ptr) (m : mem) : Prop :=
  (asked m0 <= asked m)%nat /\
  match r with
  | Some l => exists t, root t = l /\ strip t = b /\ linked true (cells m) None t None /\ NoDup (blocks t) /\
      (forall x, x ∈ blocks t -> cells m0 !! x = None) /\ elsewhere (blocks t) (cells m0) (cells m)
  | None => cells m = cells m0 /\ refused m0 m
  end.
(** A copy on the way: the first child does not point back yet. *)
Record growing (m0 m : mem) (l : positive) (c : content) (ds : list rose) : Prop := {
  gr_node : cells m !! l = Some (Node None None (first_of ds None) c);
  gr_owns : is_reference c = false;
  gr_chain : chain true (cells m) None ds None;
  gr_blocks : NoDup (l :: all_blocks ds);
  gr_new : forall x, x ∈ l :: all_blocks ds -> cells m0 !! x = None;
  gr_rest : elsewhere (l :: all_blocks ds) (cells m0) (cells m);
  gr_asked : (asked m0 <= asked m)%nat }.

Lemma give_back_run m0 m l c ds : growing m0 m l c ds ->
  exists m', give_back (Some l) m = Some (None, m') /\ cells m' = cells m0 /\ asked m' = asked m.
Proof.
  intros []. unfold give_back.
  assert (linked false (cells m) None (Rose l c ds) None) as Hl.
  { rewrite linked_eq, gr_owns0. split; [by eexists _, _|]. by eapply chain_any, chain_weak. }
  rewrite (bind_run _ _ _ _ _ (cJSON_Delete_run [Rose l c ds] m None (conj Hl Logic.I) ltac:(cbn; by rewrite app_nil_r))).
  eexists. split; [reflexivity|]. split; [|done]. cbn -[without]. rewrite app_nil_r. apply map_eq. intros x. rewrite lookup_without.
  case_decide as Hx; [symmetry; by apply gr_new0|by apply gr_rest0].
Qed.
Lemma held_run m0 m l c ds f : growing m0 m l c ds -> is_reference (f c) = false ->
  exists m', write (Some l) (set_held f) m = Some (tt, m') /\ growing m0 m' l (f c) ds /\ asked m' = asked m.
Proof.
  intros [] Hf. eexists. split; [by eapply write_run|]. split; [|done]. split; cbn; [by rewrite lookup_alter_eq, gr_node0|done| |done|done| |done].
  - eapply siblings_frame; [|exact gr_chain0]. intros x Hx. apply lookup_alter_ne. intros <-. by apply NoDup_cons in gr_blocks0 as [? _].
  - intros x Hx. rewrite lookup_alter_ne; [by apply gr_rest0|]. intros <-. apply Hx. by left.
Qed.
Lemma copy_string_run m0 m l c ds s put k b : growing m0 m l c ds -> put None c = c ->
  (forall s, is_reference (put s c) = false) ->
  (forall m1, growing m0 m1 l (put s c) ds -> exists r m', k m1 = Some (r, m') /\ duplicated m0 b r m') ->
  exists r m', copy_string (Some l) s put k m = Some (r, m') /\ duplicated m0 b r m'.
Proof.
  intros Hg Hn Hr Hk. destruct s as [s|]; [|apply Hk; by rewrite Hn]. unfold copy_string, cJSON_strdup.
  set (m1 := m <| asked ::= S |>). set (copy := match malloc (asked m) (cells m) with Some _ => Some s | None => None end).
  assert (growing m0 m1 l c ds) as Hg1 by (destruct Hg; split; try done; cbn; lia).
  rewrite (bind_run _ _ m copy m1) by done. destruct (held_run _ _ _ _ _ (put copy) Hg1 (Hr _)) as (m2 & Hw & Hg2 & Ha).
  rewrite (bind_run _ _ _ _ _ Hw). unfold copy in *. destruct (malloc (asked m) (cells m)) eqn:E; [by apply Hk|].
  destruct (give_back_run _ _ _ _ _ Hg2) as (m3 & Hgb & Hc & Ha3). exists None, m3. split; [done|].
  pose proof (gr_asked _ _ _ _ _ Hg). split; [rewrite Ha3, Ha; cbn; lia|]. split; [done|].
  exists (asked m), (cells m). rewrite Ha3, Ha. cbn. split; [lia|done].
Qed.

(** A finished copy of a child is hung behind the others. *)
Lemma sibling_grow_run m0 m m1 l c ds t : growing m0 m l c ds -> (asked m <= asked m1)%nat -> linked true (cells m1) None t None ->
  NoDup (blocks t) -> (forall x, x ∈ blocks t -> cells m !! x = None) -> elsewhere (blocks t) (cells m) (cells m1) ->
  exists m2, link_last (Some l) (last_of ds None) (Some (root t)) m1 = Some (tt, m2) /\ asked m2 = asked m1 /\ growing m0 m2 l c (ds ++ [t]).
Proof.
  intros [] Hq Ht Hdt Hnew Helse.
  assert (Hold : forall x, x ∈ l :: all_blocks ds -> x ∉ blocks t).
  { intros x Hx Hin. specialize (Hnew x Hin). apply elem_of_cons in Hx as [->|Hx]; [congruence|].
    destruct (chain_in_heap _ _ _ _ _ gr_chain0 x Hx). congruence. }
  assert (around l ds t []) as Har.
  { apply around_spec. cbn. rewrite app_nil_r, app_comm_cons. apply NoDup_app. split_and!; [done|exact Hold|done]. }
  pose proof (outside l ds t []) as Hout. rewrite <-around_blocks in Hout.
  assert (NoDup (l :: all_blocks (ds ++ [t]))) as Hd' by (rewrite around_blocks; by apply around_spec).
  assert (cells m1 !! l = Some (Node None None (first_of ds None) c)) as Hn by (rewrite Helse; [done|apply Hold; by left]).
  assert (chain true (cells m1) None ds None) as Hch by (eapply siblings_frame; [|done]; intros x Hx; apply Helse, Hold; by right).
  assert (forall x, x ∈ l :: all_blocks (ds ++ [t]) -> cells m0 !! x = None) as Hnew'.
  { intros x. rewrite around_blocks. cbn. rewrite app_nil_r, app_comm_cons. intros [Hx|Hx]%elem_of_app; [by apply gr_new0|].
    destruct (decide (x ∈ l :: all_blocks ds)) as [Hx'|Hx']; [by apply gr_new0|]. rewrite <-gr_rest0 by done. by apply Hnew. }
  assert (forall x, x ∉ l :: all_blocks (ds ++ [t]) -> cells m1 !! x = cells m0 !! x) as Hrest.
  { intros x. rewrite around_blocks. cbn. rewrite app_nil_r, app_comm_cons. intros Hx. rewrite Helse, gr_rest0; [done|..]; intros ?; apply Hx, elem_of_app; auto. }
  destruct Har. destruct (linked_root _ _ _ _ _ Ht) as (pp & kt & Hnt & Hpp). specialize (Hpp eq_refl). subst pp.
  destruct (decide (ds = [])) as [->|Hds].
  - cbn [last_of first_of app] in *. eexists. split; [apply write_is; present|]. split; [done|].
    split; [at_block; by rewrite Hn|done| |done|done| |cbn; lia].
    + cbn [app]. split; [|done]. eapply linked_relink; [exact Ht| |at_block; by rewrite Hnt]. intros x Hx. destruct (ar_x_below0 x Hx). by at_block.
    + intros x Hx. rewrite <-Hrest by done. apply Hout in Hx as (? & ? & ? & ?). by at_block.
  - destruct (first_of_in ds Hds) as (f & Hf & Hfin). destruct (last_of_in ds Hds) as (e & He & Hein).
    assert (forall o, first_of ds o = Some f) as Hf' by (intros o; by destruct ds).
    assert (forall o, last_of ds o = Some e) as He' by (intros o; rewrite <-He; by apply last_of_any).
    unfold link_last, suffix_object. rewrite He. step_write. eexists. split; [apply write_is; present|]. split; [done|].
    split; [at_block; by rewrite Hn, first_sibling_app, !Hf'|done| |done|done| |cbn; lia].
    + apply siblings_app. cbn [first_of chain]. rewrite He'. split; [|split; [|done]].
      * eapply (chain_retie (cells m1) _ ds None None _ _ None (Some e)); [done|exact Hch|by right|left; by rewrite He'|]. intros x Hx. at_end e x; at_block; tie.
      * eapply linked_relink; [exact Ht| |at_block; by rewrite Hnt]. intros x Hx. destruct (ar_x_below0 x Hx). by at_block.
    + intros x Hx. rewrite <-Hrest by done. apply Hout in Hx as (? & ? & ? & ?). by at_block.
Qed.

Lemma close_run m0 m l c ds : growing m0 m l c ds ->
  exists m', close_children (Some l) (last_of ds None) m = Some (Some l, m') /\
    duplicated m0 (Bare c (map strip ds)) (Some l) m'.
Proof.
  intros []. unfold close_children. rewrite (bind_run _ _ _ _ _ (load_run _ _ _ gr_node0)). cbn [child].
  assert (forall m', asked m' = asked m -> cells m' !! l = cells m !! l -> chain true (cells m') (last_of ds None) ds None ->
    elsewhere (l :: all_blocks ds) (cells m) (cells m') -> duplicated m0 (Bare c (map strip ds)) (Some l) m') as Hend.
  { intros m' Ha Hl Hc He. split; [lia|]. exists (Rose l c ds). split; [done|]. split; [done|].
    split; [rewrite linked_eq, gr_owns0; split; [|done]; eexists _, _; rewrite Hl; split; [exact gr_node0|done]|].
    split; [exact gr_blocks0|]. split; [exact gr_new0|]. intros x Hx. rewrite He by exact Hx. by apply gr_rest0. }
  destruct ds as [|t ds]; [exists m; split; [done|by apply Hend]|]. cbn [first_of].
  assert (root t ∈ all_blocks (t :: ds)) as Hin by (apply elem_of_app; left; apply root_in).
  step_write. eexists. split; [reflexivity|]. apply Hend; [done| | |].
  - cbn. apply lookup_alter_ne. intros <-. by apply NoDup_cons in gr_blocks0 as [? _].
  - eapply chain_set_first; [by apply NoDup_cons in gr_blocks0 as [_ ?]|done].
  - intros x Hx. cbn. apply lookup_alter_ne. intros <-. apply Hx. by right.
Qed.

Section Children.
Context (duplicate : ptr -> I ptr) (m0 : mem) (l : positive) (c : content).
Lemma duplicate_children_run cs : forall ds steps m pv, growing m0 m l c ds -> chain false (cells m0) pv cs None ->
  (forall t, t ∈ cs -> forall m pv nx, linked false (cells m) pv t nx ->
     exists r m', duplicate (Some (root t)) m = Some (r, m') /\ duplicated m (strip t) r m') ->
  (List.length cs <= steps)%nat ->
  exists r m', duplicate_children duplicate (Some l) steps (first_of cs None) (last_of ds None) m = Some (r, m') /\
    duplicated m0 (Bare c (map strip ds ++ map strip cs)) r m'.
Proof.
  induction cs as [|t cs IH]; intros ds steps m pv Hg Hc Hdup Hs.
  - rewrite app_nil_r. destruct (close_run _ _ _ _ _ Hg) as (m' & Hr & Hd). exists (Some l), m'. split; [|done]. by destruct steps.
  - destruct steps as [|steps]; [cbn in Hs; lia|]. cbn [List.length] in Hs. destruct Hc as [Ht Hc].
    assert (forall x, is_Some (cells m0 !! x) -> x ∉ l :: all_blocks ds) as Hold.
    { intros x [y Hy] Hin. rewrite (gr_new _ _ _ _ _ Hg x Hin) in Hy. done. }
    assert (linked false (cells m) pv t (first_of cs None)) as Htm.
    { eapply linked_frame; [|exact Ht]. intros x Hx. apply (gr_rest _ _ _ _ _ Hg), Hold.
      apply (chain_in_heap false (cells m0) [t] pv (first_of cs None)); [by split|]. apply elem_of_app. by left. }
    destruct (Hdup t ltac:(by left) m _ _ Htm) as (r & m1 & Hr1 & Hq1 & Hd1). cbn [first_of duplicate_children].
    rewrite (bind_run _ _ _ _ _ Hr1). destruct r as [l'|].
    2: { destruct Hd1 as [Hc1 (n & h & Hn & Hh)].
      assert (growing m0 m1 l c ds) as Hg1 by (destruct Hg; rewrite <-Hc1 in *; split; try done; lia).
      destruct (give_back_run _ _ _ _ _ Hg1) as (m2 & Hgb & Hc2 & Ha2). exists None, m2. split; [done|].
      pose proof (gr_asked _ _ _ _ _ Hg). split; [lia|]. split; [done|]. exists n, h. split; [lia|done]. }
    destruct Hd1 as (t' & <- & Hst & Hlt' & Hdt' & Hnew' & Helse').
    destruct (sibling_grow_run _ _ _ _ _ _ _ Hg Hq1 Hlt' Hdt' Hnew' Helse') as (m2 & Hw & Ha2 & Hg2). rewrite (bind_run _ _ _ _ _ Hw).
    destruct (linked_root _ _ _ _ _ Ht) as (p & k & Hl & _).
    assert (root t ∉ l :: all_blocks (ds ++ [t'])) as Hout.
    { intros Hin. rewrite (gr_new _ _ _ _ _ Hg2 _ Hin) in Hl. done. }
    rewrite <-(gr_rest _ _ _ _ _ Hg2) in Hl by done. rewrite (bind_run _ _ _ _ _ (load_run _ _ _ Hl)). cbn [next].
    replace (Some (root t')) with (last_of (ds ++ [t']) None) by by rewrite last_sibling_app.
    destruct (IH (ds ++ [t']) steps m2 (Some (root t)) Hg2 Hc) as (r & m3 & Hr3 & Hd3); [intros u Hu; apply Hdup; by right|lia|].
    exists r, m3. split; [done|]. rewrite map_app, <-app_assoc in Hd3. cbn [map app] in *. by rewrite Hst in Hd3.
Qed.
End Children.

(** Trees without references. *)
Fixpoint plain (t : rose) : bool := match t with Rose _ c cs => negb (is_reference c) && forallb plain cs end.
Lemma unreferenced z : Z.land (Z.land z (Z.lnot IsReference)) IsReference = 0.
Proof. rewrite <-Z.land_assoc. by rewrite Z.land_0_r. Qed.
Lemma unreferenced_same z : Z.land z IsReference = 0 -> Z.land z (Z.lnot IsReference) = z.
Proof.
  intros H. rewrite <-Z.ldiff_land. apply Z.bits_inj'. intros n Hn. rewrite Z.ldiff_spec.
  apply (f_equal (fun x => Z.testbit x n)) in H. rewrite Z.land_spec, Z.bits_0 in H. destruct (Z.testbit z n), (Z.testbit IsReference n); done.
Qed.

Lemma blocks_length cs t : t ∈ cs -> (List.length (blocks t) <= List.length (all_blocks cs))%nat.
Proof.
  induction cs as [|u cs IH]; [by intros ?%not_elem_of_nil|]. change (all_blocks (u :: cs)) with (blocks u ++ all_blocks cs). rewrite length_app.
  intros [->|Ht]%elem_of_cons; [lia|]. specialize (IH Ht). lia.
Qed.
Lemma children_length cs : (List.length cs <= List.length (all_blocks cs))%nat.
Proof.
  induction cs as [|[l c ks] cs IH]; [done|]. change (all_blocks (Rose l c ks :: cs)) with (l :: all_blocks ks ++ all_blocks cs).
  cbn. rewrite length_app. lia.
Qed.
Lemma new_item_run m :
  (malloc (asked m) (cells m) = None /\ exists m', cJSON_New_Item m = Some (None, m') /\ cells m' = cells m /\ asked m' = S (asked m)) \/
  (exists x m', cJSON_New_Item m = Some (Some x, m') /\ growing m m' x empty_content []).
Proof.
  unfold cJSON_New_Item, allocate, mbnd. destruct (malloc (asked m) (cells m)) as [x|] eqn:E; [right|left; split; [done|by eexists]].
  exists x. eexists. split; [reflexivity|]. pose proof (malloc_fresh _ _ _ E) as Hx. split; cbn; [by rewrite lookup_insert_eq|done|done|apply NoDup_singleton| | |lia].
  - intros y ->%list_elem_of_singleton. done.
  - intros y Hy. apply lookup_insert_ne. intros ->. apply Hy. by left.
Qed.

(** A copy can be deleted, and then the heap is as it was. *)
Lemma duplicated_deleted m0 b r m : duplicated m0 b r m -> exists m', cJSON_Delete r m = Some (tt, m') /\ cells m' = cells m0.
Proof.
  intros [_ H]. destruct r as [x|].
  - destruct H as (t & <- & _ & Hl & Hd & Hn & He). rewrite <-(app_nil_r (blocks t)) in Hd.
    eexists. split; [apply (cJSON_Delete_run [t] m None); [split; [by apply linked_weak|done]|exact Hd]|].
    cbn -[without]. apply map_eq. intros y. rewrite lookup_without. rewrite app_nil_r. case_decide as Hy; [symmetry; by apply Hn|by apply He].
  - destruct H as [H _]. exists m. split; [|done]. unfold cJSON_Delete, mbnd, mget. by destruct (size (cells m)).
Qed.

Lemma duplicate_run : forall fuel t m pv nx, linked false (cells m) pv t nx -> plain t = true -> (List.length (blocks t) <= fuel)%nat ->
  exists r m', cJSON_Duplicate fuel (Some (root t)) true m = Some (r, m') /\ duplicated m (strip t) r m'.
Proof.
  induction fuel as [|fuel IH]; intros [l c cs] m pv nx Ht Hp Hf; [cbn in Hf; lia|]. cbn [cJSON_Duplicate root].
  apply linked_eq in Ht as [(p & k & Hl & _ & Hk) Hc]. cbn [plain] in Hp. apply andb_true_iff in Hp as [Href%negb_true_iff Hps]. rewrite Href in Hk.
  change (blocks (Rose l c cs)) with (l :: all_blocks cs) in Hf. cbn [List.length] in Hf.
  destruct (new_item_run m) as [(E & m1 & Hr & Hc1 & Ha1)|(x & m1 & Hr & Hg1)]; rewrite (bind_run _ _ _ _ _ Hr).
  { exists None, m1. split; [done|]. split; [lia|]. split; [done|]. exists (asked m), (cells m). split; [lia|done]. }
  assert (cells m1 !! l = Some (Node nx p k c)) as Hl1.
  { rewrite (gr_rest _ _ _ _ _ Hg1); [done|]. intros Hin. rewrite (gr_new _ _ _ _ _ Hg1 _ Hin) in Hl. done. }
  rewrite (bind_run _ _ _ _ _ (load_run _ _ _ Hl1)). cbn [held child]. cbv zeta.
  assert (forall y, type y = Z.land (type c) (Z.lnot IsReference) -> is_reference y = false) as Hty.
  { intros y Hy. unfold is_reference, has_flag. by rewrite Hy, unreferenced. }
  edestruct held_run as (m2 & Hw & Hg2 & Ha2); [exact Hg1| |rewrite (bind_run _ _ _ _ _ Hw)]; [by apply Hty|].
  assert (forall m', growing m m' x c [] -> exists r m'', (if negb true then mret (Some x)
      else duplicate_children (fun p => cJSON_Duplicate fuel p true) (Some x) fuel k None) m' = Some (r, m'') /\ duplicated m (strip (Rose l c cs)) r m'') as Hrest.
  { intros m' Hg. cbn [negb]. rewrite Hk. apply (duplicate_children_run _ m x c cs [] fuel m' _ Hg Hc).
    - intros t Hin m3 pv3 nx3 Ht3. eapply IH; [exact Ht3| |pose proof (blocks_length _ _ Hin); lia].
      rewrite forallb_forall in Hps. apply Hps. by apply list_elem_of_In.
    - pose proof (children_length cs). lia. }
  assert (Z.land (type c) (Z.lnot IsReference) = type c) as Hsame.
  { apply unreferenced_same. unfold is_reference, has_flag in Href. by apply negb_false_iff, Z.eqb_eq in Href. }
  eapply copy_string_run; [exact Hg2|done|by intros ?; apply Hty|]. intros m3 Hg3.
  destruct (has_flag StringIsConst c).
  - edestruct held_run as (m4 & Hw4 & Hg4 & _); [exact Hg3| |rewrite (bind_run _ _ _ _ _ Hw4)]; [by apply Hty|].
    apply Hrest. cbn in Hg4. rewrite Hsame in Hg4. by destruct c.
  - eapply copy_string_run; [exact Hg3|done|by intros ?; apply Hty|]. intros m4 Hg4. apply Hrest.
    cbn in Hg4. rewrite Hsame in Hg4. by destruct c.
Qed.

(** Whatever the allocator answers, duplicating an item with its children
    returns an exact copy of the whole tree in blocks that were free, with its
    own chains and everything else as it was, or nothing with the heap as it
    was and a request for memory refused; deleting what is returned restores
    the heap. *)
Lemma duplicate_exact fuel t m pv nx : linked false (cells m) pv t nx -> plain t = true -> (List.length (blocks t) <= fuel)%nat ->
  exists r m', cJSON_Duplicate fuel (Some (root t)) true m = Some (r, m') /\ duplicated m (strip t) r m' /\
    exists m'', cJSON_Delete r m' = Some (tt, m'') /\ cells m'' = cells m.
Proof.
  intros Ht Hp Hf. destruct (duplicate_run fuel t m pv nx Ht Hp Hf) as (r & m' & Hr & Hd).
  exists r, m'. split; [exact Hr|]. split; [exact Hd|by eapply duplicated_deleted].
Qed.

(** ** The operations on the list of children *)

Inductive edit := Append (t : rose) | Take (i : nat) | Put (i : nat) (t : rose) | Swap (i : nat) (t : rose).
Definition run_edit (array : ptr) (e : edit) : I bool :=
  match e with
  | Append t => cJSON_AddItemToArray array (Some (root t))
  | Take i => let! item := cJSON_DetachItemFromArray array (Z.of_nat i) in mret (match item with Some _ => true | None => false end)
  | Put i t => cJSON_InsertItemInArray array (Z.of_nat i) (Some (root t))
  | Swap i t => cJSON_ReplaceItemInArray array (Z.of_nat i) (Some (root t))
  end.
Definition edited (e : edit) (cs : list rose) : list rose :=
  match e with
  | Append t => cs ++ [t] | Take i => delete i cs | Put i t => take i cs ++ t :: drop i cs | Swap i t => <[i := t]> cs
  end.
Definition newcomer (e : edit) : list rose := match e with Append t | Put _ t | Swap _ t => [t] | Take _ => [] end.
Definition succeeds (e : edit) (cs : list rose) : bool :=
  match e with Append _ | Put _ _ => true | Take i | Swap i _ => bool_decide (i < List.length cs)%nat end.
(** What becomes of the child that leaves. *)
Definition leaves (e : edit) (cs : list rose) (h : gmap positive node) : Prop :=
  match e with
  | Take i => forall x, cs !! i = Some x -> linked true h None x None
  | Swap i _ => forall x, cs !! i = Some x -> forall l, l ∈ blocks x -> h !! l = None
  | _ => True
  end.

Lemma index_split (cs : list rose) i : (exists pre x post, cs = pre ++ x :: post /\ i = List.length pre /\ cs !! i = Some x) \/
  (List.length cs <= i)%nat /\ cs !! i = None.
Proof.
  destruct (cs !! i) as [x|] eqn:E; [left|right; split; [by apply lookup_ge_None|done]].
  exists (take i cs), x, (drop (S i) cs). split; [by rewrite take_drop_middle|]. split; [|done].
  rewrite length_take. apply lookup_lt_Some in E. lia.
Qed.
Lemma delete_out (cs : list rose) i : (List.length cs <= i)%nat -> delete i cs = cs.
Proof. revert i. induction cs as [|t cs IH]; intros [|i] H; cbn in *; try done; [lia|]. f_equal. apply IH. lia. Qed.
Lemma insert_middle (pre post : list rose) x t : <[List.length pre := t]> (pre ++ x :: post) = pre ++ t :: post.
Proof. by rewrite insert_app_r_alt, Nat.sub_diag by lia. Qed.
Lemma elsewhere_more ls ls' h h' : ls ⊆ ls' -> elsewhere ls h h' -> elsewhere ls' h h'.
Proof. clear malloc_fresh malloc. intros Hs He l Hl. apply He. set_solver. Qed.
(** Appending, detaching, inserting and replacing a child by its number,
    carried out on the pointers, is exactly the operation on the list of
    children: it never reads or writes outside of the items, tells whether the
    child was there, leaves a chain that is tied in both directions with the
    first child pointing to the last, hands a detached child over on its own,
    frees every block of a replaced one, and touches no other block. *)
Lemma children_edited m a pv nx c cs e : parent (cells m) a pv nx c cs ->
  Forall (fun t => exists q, linked true (cells m) q t None) (newcomer e) -> NoDup (a :: all_blocks cs ++ all_blocks (newcomer e)) ->
  exists m', run_edit (Some a) e m = Some (succeeds e cs, m') /\ asked m' = asked m /\
    parent (cells m') a pv nx c (edited e cs) /\ leaves e cs (cells m') /\
    elsewhere (a :: all_blocks cs ++ all_blocks (newcomer e)) (cells m) (cells m').
Proof.
  clear malloc_fresh malloc.
  intros Hpa Hnew Hd. destruct e as [t|i|i t|i t]; cbn [newcomer run_edit succeeds edited leaves] in *;
    try (apply Forall_inv in Hnew as [q Ht]; unfold all_blocks at 2 in Hd; cbn [flat_map] in Hd; rewrite app_nil_r in Hd).
  - destruct (add_run m a pv nx c cs q t Hpa Ht) as (m' & Hr & Ha & Hp & He); [apply around_spec; by rewrite app_nil_r|].
    exists m'. rewrite all_blocks_app in He. auto.
  - assert (cJSON_DetachItemFromArray (Some a) (Z.of_nat i) m = cJSON_DetachItemViaPointer (Some a) (root <$> cs !! i) m) as Hdet.
    { unfold cJSON_DetachItemFromArray. rewrite (proj2 (Z.ltb_ge _ _)), Nat2Z.id by lia. by rewrite (bind_run _ _ _ _ _ (get_array_item_run _ _ _ _ _ _ i Hpa)). }
    destruct (index_split cs i) as [(pre & x & post & -> & -> & Hx)|[Hi Hx]]; rewrite Hx in Hdet; cbn [fmap option_fmap option_map] in Hdet.
    + destruct (detach_run m a pv nx c pre x post Hpa) as (m' & Hr & Ha & Hp & Hl & He). rewrite <-Hdet in Hr. rewrite (bind_run _ _ _ _ _ Hr).
      exists m'. rewrite bool_decide_true by (rewrite length_app; cbn; lia). split; [done|]. split; [done|].
      rewrite delete_middle. split; [done|]. split; [|by rewrite app_nil_r]. intros y. rewrite Hx. by intros [= <-].
    + rewrite (bind_run _ _ m None m Hdet). exists m. rewrite bool_decide_false by lia. split; [done|]. split; [done|].
      rewrite delete_out by done. split; [done|]. split; [|done]. intros y. by rewrite Hx.
  - destruct (index_split cs i) as [(pre & x & post & -> & -> & Hx)|[Hi Hx]].
    + destruct (insert_run m a pv nx c pre x post q None t Hpa Ht) as (m' & Hr & Ha & Hp & He).
      { apply around_spec. eapply NoDup_Permutation_proper; [|exact Hd]. rewrite (all_blocks_app pre). solve_Permutation. }
      exists m'. rewrite take_app_length, drop_app_length. split; [done|]. split; [done|]. split; [done|]. split; [done|].
      eapply elsewhere_more; [|exact He]. rewrite !all_blocks_app. cbn. set_solver.
    + destruct (add_run m a pv nx c cs q t Hpa Ht) as (m' & Hr & Ha & Hp & He); [apply around_spec; by rewrite app_nil_r|].
      exists m'. rewrite take_ge, drop_ge by done. rewrite all_blocks_app in He. split; [|auto].
      unfold cJSON_InsertItemInArray. rewrite (proj2 (Z.ltb_ge _ _)), Nat2Z.id by lia.
      by rewrite (bind_run _ _ _ _ _ (get_array_item_run _ _ _ _ _ _ i Hpa)), Hx.
  - assert (cJSON_ReplaceItemInArray (Some a) (Z.of_nat i) (Some (root t)) m = cJSON_ReplaceItemViaPointer (Some a) (root <$> cs !! i) (Some (root t)) m) as Hrep.
    { unfold cJSON_ReplaceItemInArray. rewrite (proj2 (Z.ltb_ge _ _)), Nat2Z.id by lia. by rewrite (bind_run _ _ _ _ _ (get_array_item_run _ _ _ _ _ _ i Hpa)). }
    rewrite Hrep. destruct (index_split cs i) as [(pre & x & post & -> & -> & Hx)|[Hi Hx]]; rewrite Hx; cbn [fmap option_fmap option_map].
    + destruct (replace_run m a pv nx c pre x post q None t Hpa Ht) as (m' & Hr & Ha & Hp & Hl & He).
      { apply around_spec. rewrite all_blocks_app in Hd. cbn in Hd. rewrite !NoDup_cons, !NoDup_app in *. set_solver. }
      { rewrite all_blocks_app in Hd. cbn in Hd. rewrite !NoDup_cons, !NoDup_app in Hd. intros l k Hl Hk ->. set_solver. }
      exists m'. rewrite bool_decide_true by (rewrite length_app; cbn; lia). split; [exact Hr|]. split; [done|].
      rewrite insert_middle. split; [done|]. split; [by intros y [= <-]|].
      eapply elsewhere_more; [|exact He]. rewrite !all_blocks_app. cbn. set_solver.
    + exists m. rewrite bool_decide_false by lia. split; [done|]. split; [done|]. rewrite list_insert_ge by done.
      split; [done|]. split; [|done]. done.
Qed.

(** ** New items *)

Lemma create_run f m : is_reference (f empty_content) = false ->
  (refused m (m <| asked ::= S |>) /\ exists m', create f m = Some (None, m') /\ cells m' = cells m /\ asked m' = S (asked m)) \/
  (exists x m', create f m = Some (Some x, m') /\ growing m m' x (f empty_content) []).
Proof.
  intros Hf. unfold create. destruct (new_item_run m) as [(E & m1 & Hr & Hc & Ha)|(x & m1 & Hr & Hg)]; rewrite (bind_run _ _ _ _ _ Hr); [left|right].
  - split; [exists (asked m), (cells m); cbn; split; [lia|done]|]. by exists m1.
  - destruct (held_run _ _ _ _ _ f Hg Hf) as (m2 & Hw & Hg2 & _). rewrite (bind_run _ _ _ _ _ Hw). by exists x, m2.
Qed.
(** An item with nothing behind it is a copy of its content. *)
Lemma growing_alone m0 m l c : growing m0 m l c [] -> duplicated m0 (Bare c []) (Some l) m.
Proof.
  intros []. split; [done|]. exists (Rose l c []). split; [done|]. split; [done|].
  split; [rewrite linked_eq, gr_owns0; split; [by eexists _, _|done]|]. done.
Qed.
Definition makes (p : I ptr) (b : bare) : Prop := forall m, exists r m', p m = Some (r, m') /\ duplicated m b r m'.
Lemma create_makes f : is_reference (f empty_content) = false -> makes (create f) (Bare (f empty_content) []).
Proof.
  intros Hf m. destruct (create_run f m Hf) as [((n & h & Hn & Hh) & m' & Hr & Hc & Ha)|(x & m' & Hr & Hg)].
  - exists None, m'. split; [done|]. split; [lia|]. split; [done|]. exists n, h. cbn in Hn. rewrite Ha. done.
  - exists (Some x), m'. split; [done|]. by apply growing_alone.
Qed.
Lemma create_text_makes t s : is_reference (typed t empty_content) = false ->
  makes (create_text t s) (Bare (typed t empty_content <| valuestring := Some s |>) []).
Proof.
  intros Ht m. unfold create_text. destruct (create_run _ m Ht) as [((n & h & Hn & Hh) & m' & Hr & Hc & Ha)|(x & m' & Hr & Hg)]; rewrite (bind_run _ _ _ _ _ Hr).
  - exists None, m'. split; [done|]. split; [lia|]. split; [done|]. exists n, h. cbn in Hn. rewrite Ha. done.
  - unfold cJSON_strdup. set (m1 := m' <| asked ::= S |>). assert (growing m m1 x (typed t empty_content) []) as Hg1 by (destruct Hg; split; try done; cbn; lia).
    rewrite (bind_run _ _ m' (match malloc (asked m') (cells m') with Some _ => Some s | None => None end) m1) by done.
    destruct (malloc (asked m') (cells m')) eqn:E.
    + destruct (held_run _ _ _ _ _ (fun c => c <| valuestring := Some s |>) Hg1) as (m2 & Hw & Hg2 & _); [done|].
      rewrite (bind_run _ _ _ _ _ Hw). exists (Some x), m2. split; [done|]. by apply growing_alone in Hg2.
    + destruct (give_back_run _ _ _ _ _ Hg1) as (m2 & Hgb & Hc & Ha). exists None, m2. split; [exact Hgb|].
      pose proof (gr_asked _ _ _ _ _ Hg). split; [rewrite Ha; cbn; lia|]. split; [done|]. exists (asked m'), (cells m'). rewrite Ha. cbn. split; [lia|done].
Qed.
Lemma fill_run m0 l c ps bs : Forall2 makes ps bs -> forall ds m, growing m0 m l c ds ->
  exists r m', fill (Some l) (last_of ds None) ps m = Some (r, m') /\ duplicated m0 (Bare c (map strip ds ++ bs)) r m'.
Proof.
  induction 1 as [|p b ps bs Hp _ IH]; intros ds m Hg; cbn [fill].
  - rewrite app_nil_r. destruct (close_run _ _ _ _ _ Hg) as (m' & Hr & Hd). by exists (Some l), m'.
  - destruct (Hp m) as (r & m1 & Hr & Hq & Hd). rewrite (bind_run _ _ _ _ _ Hr). destruct r as [l'|].
    + destruct Hd as (t & <- & Hst & Hlt & Hdt & Hnew & Helse).
      destruct (sibling_grow_run _ _ _ _ _ _ _ Hg Hq Hlt Hdt Hnew Helse) as (m2 & Hw & Ha2 & Hg2). rewrite (bind_run _ _ _ _ _ Hw).
      replace (Some (root t)) with (last_of (ds ++ [t]) None) by by rewrite last_sibling_app.
      destruct (IH _ _ Hg2) as (r & m3 & Hr3 & Hd3). exists r, m3. split; [done|]. rewrite map_app, <-app_assoc in Hd3. cbn [map app] in Hd3. by rewrite Hst in Hd3.
    + destruct Hd as [Hc1 (n & h & Hn & Hh)].
      assert (growing m0 m1 l c ds) as Hg1 by (destruct Hg; rewrite <-Hc1 in *; split; try done; lia).
      destruct (give_back_run _ _ _ _ _ Hg1) as (m2 & Hgb & Hc2 & Ha2). exists None, m2. split; [done|].
      pose proof (gr_asked _ _ _ _ _ Hg). split; [lia|]. split; [done|]. exists n, h. split; [lia|done].
Qed.
(** An array of new items, or nothing and nothing left behind. *)
Lemma create_array_makes ps bs count : Forall2 makes ps bs -> 0 <= count <= Z.of_nat (List.length ps) ->
  makes (create_array ps count) (Bare (typed Array empty_content) (take (Z.to_nat count) bs)).
Proof.
  intros Hp Hc m. unfold create_array. rewrite (proj2 (Z.ltb_ge _ _)) by lia.
  destruct (create_run (typed Array) m) as [((n & h & Hn & Hh) & m' & Hr & Hcc & Ha)|(x & m' & Hr & Hg)]; [done|..];
    unfold cJSON_CreateArray; rewrite (bind_run _ _ _ _ _ Hr).
  - exists None, m'. split; [done|]. split; [lia|]. split; [done|]. exists n, h. cbn in Hn. rewrite Ha. done.
  - assert (Forall2 makes (take (Z.to_nat count) ps) (take (Z.to_nat count) bs)) as Hf by by apply Forall2_take.
    rewrite (proj2 (Nat.sub_0_le _ _)) by lia. cbn [repeat]. rewrite app_nil_r. exact (fill_run m x _ _ _ Hf [] m' Hg).
Qed.

(** ** Objects *)

Definition matches (case_sensitive : bool) (name : string) (t : rose) : bool :=
  match key (content_of t) with
  | Some k => if case_sensitive then (name =? k)%string else strcaseeq name k
  | None => false
  end.
Definition keyed (cs : list rose) : Prop := Forall (fun t => key (content_of t) <> None) cs.
Lemma seek_run case_sensitive name cs : keyed cs -> forall fuel m pv, chain true (cells m) pv cs None -> (List.length cs <= fuel)%nat ->
  seek fuel case_sensitive name (first_of cs None) m = Some (root <$> List.find (matches case_sensitive name) cs, m).
Proof.
  induction 1 as [|t cs Ht _ IH]; intros fuel m pv Hc Hf; [by destruct fuel|]. destruct Hc as [Hl Hc]. destruct fuel as [|fuel]; [cbn in Hf; lia|].
  destruct (linked_root _ _ _ _ _ Hl) as (p & k & Hn & _). cbn [first_of seek]. rewrite (bind_run _ _ _ _ _ (load_run _ _ _ Hn)).
  unfold stops_at, matches. cbn [held next List.find]. destruct (key (content_of t)) as [s|] eqn:E; [|done].
  destruct (if case_sensitive then _ else _); [done|]. eapply IH; [exact Hc|cbn in Hf; lia].
Qed.
Lemma get_object_item_run m a pv nx c cs name case_sensitive : parent (cells m) a pv nx c cs -> keyed cs ->
  get_object_item (Some a) name case_sensitive m = Some (root <$> List.find (matches case_sensitive name) cs, m).
Proof.
  intros [Hn Hr Hc Hd] Hk. unfold get_object_item. rewrite (bind_run mget _ m m m) by done. rewrite (bind_run _ _ _ _ _ (load_run _ _ _ Hn)). cbn [child].
  eapply seek_run; [done|exact Hc|]. pose proof (children_length cs). apply NoDup_cons in Hd as [_ Hd].
  pose proof (blocks_fit _ _ _ _ _ Hc Hd). lia.
Qed.

(** The tree of Cjson.v. *)
Fixpoint value (t : rose) : cJSON :=
  match t with
  | Rose _ c cs =>
      let k := kind c in
      if k =? False_ then cJSON_False else if k =? True_ then cJSON_True
      else if k =? Number then cJSON_Number (valuedouble c) (valueint c)
      else if k =? String_ then cJSON_String (default "" (valuestring c))%string
      else if k =? Array then cJSON_Array (map value cs)
      else if k =? Object then cJSON_Object (map (fun t => (default "" (key (content_of t)), value t)%string) cs)
      else if k =? Raw then cJSON_Raw (default "" (valuestring c))%string
      else cJSON_NULL
  end.
Definition member (t : rose) : string * cJSON := (default ""%string (key (content_of t)), value t).
Lemma value_object a c cs : kind c = Object -> value (Rose a c cs) = cJSON_Object (map member cs).
Proof. intros H. cbn [value]. by rewrite H. Qed.
Lemma value_content l c c' cs : kind c' = kind c -> valuestring c' = valuestring c -> valueint c' = valueint c -> valuedouble c' = valuedouble c ->
  value (Rose l c' cs) = value (Rose l c cs).
Proof. intros H1 H2 H3 H4. cbn [value]. by rewrite H1, H2, H3, H4. Qed.

Lemma detach_named_run m a pv nx c cs name : parent (cells m) a pv nx c cs -> kind c = Object -> keyed cs ->
  exists r m', cJSON_DetachItemFromObject (Some a) name m = Some (r, m') /\
    match Cjson.cJSON_DetachItemFromObject (value (Rose a c cs)) name with
    | None => r = None /\ m' = m
    | Some (j, o) => exists x cs', r = Some (root x) /\ value x = j /\ value (Rose a c cs') = o /\
        parent (cells m') a pv nx c cs' /\ keyed cs' /\ linked true (cells m') None x None
    end.
Proof.
  intros Hp Hk Hkeys. unfold cJSON_DetachItemFromObject, detach_named. rewrite (bind_run _ _ _ _ _ (get_object_item_run _ _ _ _ _ _ name false Hp Hkeys)).
  rewrite (value_object _ _ _ Hk). cbn [Cjson.cJSON_DetachItemFromObject].
  assert (match List.find (matches false name) cs with
          | None => detach (map member cs) name = None
          | Some x => exists pre post, cs = pre ++ x :: post /\ detach (map member cs) name = Some (value x, map member (pre ++ post))
          end) as Hfind.
  { clear Hp. induction Hkeys as [|t cs Ht _ IH]; [done|]. cbn [List.find map]. destruct (key (content_of t)) as [k|] eqn:E; [|done].
    assert (member t = (k, value t)) as Hm by (unfold member; by rewrite E). unfold matches at 1. rewrite E, Hm. cbn [detach].
    destruct (strcaseeq name k); [by exists [], cs|].
    destruct (List.find _ cs) as [x|]; [|by rewrite IH]. destruct IH as (pre & post & -> & ->). exists (t :: pre), post.
    split; [done|]. cbn [map app]. by rewrite Hm. }
  destruct (List.find (matches false name) cs) as [x|].
  - destruct Hfind as (pre & post & -> & ->). destruct (detach_run m a pv nx c pre x post Hp) as (m' & Hr & Ha & Hp' & Hx & _).
    exists (Some (root x)), m'. split; [exact Hr|].
    exists x, (pre ++ post). rewrite (value_object a c _ Hk). unfold keyed in *. rewrite Forall_app, Forall_cons in *. naive_solver.
  - rewrite Hfind. exists None, m. done.
Qed.

Lemma with_key_kind constant name c : kind (with_key constant name c) = kind c.
Proof.
  unfold kind, with_key. cbn. destruct constant; [rewrite Z.land_lor_distr_l, (eq_refl : Z.land StringIsConst 255 = 0); apply Z.lor_0_r|].
  by rewrite <-Z.land_assoc.
Qed.
Lemma with_key_owns constant name c : is_reference (with_key constant name c) = is_reference c.
Proof.
  unfold is_reference, has_flag, with_key. cbn. destruct constant; [rewrite Z.land_lor_distr_l, (eq_refl : Z.land StringIsConst IsReference = 0); by rewrite Z.lor_0_r|].
  by rewrite <-Z.land_assoc.
Qed.
Definition named (constant : bool) (name : string) (t : rose) : rose :=
  match t with Rose l c cs => Rose l (with_key constant name c) cs end.
Lemma named_blocks constant name t : blocks (named constant name t) = blocks t /\ root (named constant name t) = root t.
Proof. by destruct t. Qed.
Lemma named_member constant name t : member (named constant name t) = (name, value t).
Proof. destruct t as [l c cs]. unfold member. cbn -[value]. f_equal. apply value_content; [apply with_key_kind|done..]. Qed.
Lemma named_linked constant name m q t nx : linked true (cells m) q t nx -> NoDup (blocks t) ->
  exists m', write (Some (root t)) (set_held (with_key constant name)) m = Some (tt, m') /\ asked m' = asked m /\
    linked true (cells m') q (named constant name t) nx /\ elsewhere (blocks t) (cells m) (cells m').
Proof.
  destruct t as [l c cs]. intros Ht [Hl Hd]%NoDup_cons. apply linked_eq in Ht as [(p & k & Hn & Hp & Hk) Hc].
  eexists. split; [by eapply write_run|]. split; [done|]. split.
  - cbn [named]. apply linked_eq. rewrite with_key_owns. split; [exists p, k; cbn -[with_key root]; cbn [root]; by rewrite lookup_alter_eq, Hn|].
    eapply siblings_frame; [|exact Hc]. intros x Hx. apply lookup_alter_ne. intros <-. done.
  - intros x Hx. apply lookup_alter_ne. intros <-. apply Hx. by left.
Qed.
Lemma add_named_run m a pv nx c cs name q t : parent (cells m) a pv nx c cs -> kind c = Object -> keyed cs ->
  linked true (cells m) q t None -> around a cs t [] ->
  exists r m', cJSON_AddItemToObject (Some a) name (Some (root t)) m = Some (r, m') /\
    if r then exists cs', parent (cells m') a pv nx c cs' /\ keyed cs' /\
                value (Rose a c cs') = Cjson.cJSON_AddItemToObject (value (Rose a c cs)) name (value t)
    else cells m' = cells m /\ refused m m'.
Proof.
  intros Hp Hk Hkeys Ht Har. unfold cJSON_AddItemToObject, add_item_to_object, same_ptr. pose proof (ar_x_a _ _ _ _ Har (root t) (root_in t)) as Hat.
  rewrite bool_decide_false by (intros [= E]; done).
  assert (exists m0, cJSON_strdup name m = Some (match malloc (asked m) (cells m) with Some _ => Some name | None => None end, m0) /\
    cells m0 = cells m /\ asked m0 = S (asked m)) as (m0 & Hdup & Hc0 & Ha0) by by eexists.
  rewrite (bind_run _ _ _ _ _ Hdup). destruct (malloc (asked m) (cells m)) as [x|] eqn:E.
  2: { exists false, m0. split; [done|]. split; [done|]. exists (asked m), (cells m). split; [lia|done]. }
  rewrite <-Hc0 in Ht. destruct (named_linked false name m0 q t None Ht (ar_nd_x _ _ _ _ Har)) as (m1 & Hw & _ & Ht1 & He1). rewrite Hc0 in He1.
  rewrite (bind_run _ _ _ _ _ Hw). destruct (named_blocks false name t) as [Hb Hroot]. rewrite <-Hroot.
  apply around_spec in Har as Hd. cbn [all_blocks flat_map] in Hd. rewrite <-Hb in Hd. apply (around_spec a cs (named false name t) []) in Hd.
  destruct (add_run m1 a pv nx c cs q (named false name t)) as (m2 & Hr & _ & Hp2 & _); [|exact Ht1|exact Hd|].
  { eapply parent_frame; [|exact Hp]. intros l Hl. apply He1. intros Hin. apply elem_of_cons in Hl as [->|Hl].
    - by apply (ar_x_a _ _ _ _ Har a).
    - by apply (ar_pre_x _ _ _ _ Har l l). }
  exists true, m2. split; [exact Hr|]. exists (cs ++ [named false name t]). split; [exact Hp2|]. split.
  - apply Forall_app. split; [exact Hkeys|]. apply Forall_singleton. by destruct t.
  - rewrite !(value_object _ _ _ Hk). cbn [Cjson.cJSON_AddItemToObject]. by rewrite map_app; cbn [map]; rewrite named_member.
Qed.

(** On the pointers, adding to an object and detaching from it by name do
    what the trees of Cjson.v say: the child with the name is handed over alone
    and the rest is the object without it, or there is none and nothing
    changes; an item is added at the end under its name, or memory for the name
    was refused and no item changed. *)
Lemma members_edited m a pv nx c cs name : parent (cells m) a pv nx c cs -> kind c = Object -> keyed cs ->
  (exists r m', cJSON_DetachItemFromObject (Some a) name m = Some (r, m') /\
     match Cjson.cJSON_DetachItemFromObject (value (Rose a c cs)) name with
     | None => r = None /\ m' = m
     | Some (j, o) => exists x cs', r = Some (root x) /\ value x = j /\ value (Rose a c cs') = o /\
         parent (cells m') a pv nx c cs' /\ keyed cs' /\ linked true (cells m') None x None
     end) /\
  (forall q t, linked true (cells m) q t None -> around a cs t [] ->
     exists r m', cJSON_AddItemToObject (Some a) name (Some (root t)) m = Some (r, m') /\
       if r then exists cs', parent (cells m') a pv nx c cs' /\ keyed cs' /\
                   value (Rose a c cs') = Cjson.cJSON_AddItemToObject (value (Rose a c cs)) name (value t)
       else cells m' = cells m /\ refused m m').
Proof. intros Hp Hk Hkeys. split; [by apply detach_named_run|intros q t Ht Har; by eapply add_named_run]. Qed.

End Items.

(** ** On a concrete heap *)

(** An allocator with memory for [n] requests. *)
Definition limited (n : nat) : nat -> gmap positive node -> option positive :=
  fun k h => if (k <? n)%nat then Some (fresh (dom h)) else None.
Lemma limited_fresh n k h l : limited n k h = Some l -> h !! l = None.
Proof. unfold limited. destruct (_ <? _)%nat; [|done]. intros [= <-]. apply not_elem_of_dom, is_fresh. Qed.

Definition number (name : option string) (z : Z) : content := Content Number None z (Z2d z) name.
Definition some_object : content := Content Object None 0 dzero None.
Definition one_two : list rose := [Rose 2 (number (Some "one"%string) 1) []; Rose 3 (number (Some "two"%string) 2) []].
(** An object of two numbers, and a number on its own. *)
Definition some_heap : mem := Mem (list_to_map [
  (1, Node None None (Some 2) some_object); (2, Node (Some 3) (Some 3) None (number (Some "one"%string) 1));
  (3, Node None (Some 2) None (number (Some "two"%string) 2)); (4, Node None None None (number None 3))])%positive 0.
Definition loose : rose := Rose 4 (number None 3) [].
Lemma one_two_chain : chain true (cells some_heap) (Some 3%positive) one_two None.
Proof. split; [|split; [|done]]; (split; [eexists _, None; split; [vm_compute; reflexivity|done]|done]). Qed.
Lemma some_parent : parent (cells some_heap) 1 None None some_object one_two.
Proof. split; [vm_compute; reflexivity|done|exact one_two_chain|]. vm_compute. by apply (bool_decide_unpack _). Qed.
Lemma loose_linked : linked true (cells some_heap) None loose None.
Proof. split; [eexists None, None; split; [vm_compute; reflexivity|done]|done]. Qed.
Lemma one_two_keyed : keyed one_two.
Proof. by repeat constructor. Qed.

Example detached_last : exists m', cJSON_DetachItemFromArray (Some 1%positive) 1 some_heap = Some (Some 3%positive, m') /\
  cells m' !! 2%positive = Some (Node None (Some 2%positive) None (number (Some "one"%string) 1)).
Proof. vm_compute. eauto. Qed.
(** The index is in range and the item to insert is null: its [next] is written. *)
Example inserted_null : cJSON_InsertItemInArray (Some 1%positive) 0 None some_heap = None.
Proof. reflexivity. Qed.
(** Names that are repeated: the object is not equal to its copy. *)
Example compare_repeated :
  let h := Mem (list_to_map [
    (1, Node None None (Some 2) some_object); (2, Node (Some 3) (Some 3) None (number (Some "a"%string) 1));
    (3, Node None (Some 2) None (number (Some "a"%string) 2))])%positive 0 in
  ('(q, h) ← cJSON_Duplicate (limited 9) 3 (Some 1%positive) true h; fst <$> cJSON_Compare 3 true (Some 1%positive) q h) = Some false.
Proof. vm_compute. reflexivity. Qed.
(** The copy takes five requests: three items and two names. *)
Example duplicate_made : option_map fst (cJSON_Duplicate (limited 5) 3 (Some 1%positive) true some_heap) = Some (Some 5%positive).
Proof. vm_compute. reflexivity. Qed.
Example duplicate_refused :
  option_map (fun '(r, m) => (r, map_to_list (cells m))) (cJSON_Duplicate (limited 4) 3 (Some 1%positive) true some_heap) =
  Some (None, map_to_list (cells some_heap)).
Proof. vm_compute. reflexivity. Qed.

Lemma children_edited_witness : exists m', run_edit (Some 1%positive) (Swap 1 loose) some_heap = Some (true, m') /\
  parent (cells m') 1 None None some_object [Rose 2 (number (Some "one"%string) 1) []; loose] /\ cells m' !! 3%positive = None.
Proof.
  destruct (children_edited some_heap 1 None None some_object one_two (Swap 1 loose)) as (m' & Hr & _ & Hp & Hl & _).
  - exact some_parent.
  - apply Forall_singleton. exists None. exact loose_linked.
  - vm_compute. by apply (bool_decide_unpack _).
  - exists m'. split; [exact Hr|]. split; [exact Hp|]. apply (Hl _ eq_refl 3%positive). by left.
Defined.
Lemma duplicate_exact_witness : exists r m', cJSON_Duplicate (limited 4) 3 (Some 1%positive) true some_heap = Some (r, m') /\
  exists m'', cJSON_Delete r m' = Some (tt, m'') /\ cells m'' = cells some_heap.
Proof.
  destruct (duplicate_exact (limited 4) (limited_fresh 4) 3 (Rose 1 some_object one_two) some_heap None None) as (r & m' & Hr & _ & Hd).
  - apply linked_weak, parent_linked; [done|vm_compute; by apply (bool_decide_unpack _)|exact some_parent].
  - reflexivity.
  - cbn. lia.
  - by exists r, m'.
Defined.
Lemma members_edited_witness : exists x m', cJSON_DetachItemFromObject (Some 1%positive) "TWO" some_heap = Some (Some x, m') /\
  linked true (cells m') None (Rose x (number (Some "two"%string) 2) []) None /\
  (exists r m'', cJSON_AddItemToObject (limited 1) (Some 1%positive) "three" (Some 4%positive) some_heap = Some (r, m'')).
Proof.
  destruct (members_edited (limited 1) some_heap 1 None None some_object one_two "TWO" some_parent eq_refl one_two_keyed) as [(r & m' & Hr & Hd) _].
  destruct (members_edited (limited 1) some_heap 1 None None some_object one_two "three" some_parent eq_refl one_two_keyed) as [_ Ha].
  destruct (Ha None loose loose_linked) as (r' & m'' & Hr' & _); [apply around_spec; vm_compute; by apply (bool_decide_unpack _)|].
  vm_compute in Hr. vm_compute in Hr'.
  eexists _, _. split; [vm_compute; reflexivity|]. split; [|by exists r', m''].
  split; [eexists None, None; split; [vm_compute; reflexivity|done]|done].
Defined.
