(* ===== verification/Util.v ===== *)
(** * Utilities: iperf_util.c

    Patterns and cookies, conversions of timeval, processor time, typed
    look-up in JSON objects, and names of states.  Messages on standard error
    are left out. *)
From Stdlib Require Import Ascii String.
From stdpp Require Import strings.
From S2P Require Import Prelude Double Text Cjson IperfTime Iperf Sys Json.
#[local] Open Scope string_scope.
#[local] Open Scope Z_scope.

(** ** Buffers *)

(** The loop of [fill_with_repeating_pattern] from a given counter. *)
Fixpoint repeating_pattern (outsize : nat) (counter : Z) : list Z :=
  match outsize with
  | O => []
  | S n => i8 (48 + counter) :: repeating_pattern n (if 9 <=? counter then 0 else i32 (counter + 1))
  end.
Definition fill_with_repeating_pattern (outsize : nat) : list Z := repeating_pattern outsize 0.

(** The bytes [out] come from [readentropy]. *)
Definition rndchars : string := "abcdefghijklmnopqrstuvwxyz234567".
Definition make_cookie (out : list Z) : list Z :=
  map (fun b => nth (Z.to_nat (b mod 32)) (bytes_of rndchars) 0) (take (Z.to_nat (COOKIE_SIZE - 1)) out) ++ [0].

(** ** Time values *)

Definition timeval_to_double (tv : Z * Z) : double := Z2d (tv.1 + Z.quot tv.2 1000000).
Definition timeval_equals (tv0 tv1 : Z * Z) : Z := if (tv0.1 =? tv1.1) && (tv0.2 =? tv1.2) then 1 else 0.
Definition timeval_seconds (tv : Z * Z) : double := dadd (Z2d tv.1) (ddiv (Z2d tv.2) (Z2d 1000000)).
Definition timeval_diff (tv0 tv1 : Z * Z) : double :=
  let time1 := dsub (timeval_seconds tv0) (timeval_seconds tv1) in
  if dltb time1 dzero then dopp time1 else time1.

(** ** Processor time *)

(** The static variables: the last time, clock and user and system times. *)
Record cpu_usage := Usage { last : iperf_time; clast : Z; utime : Z * Z; stime : Z * Z }.
Definition usage_usecs (tv : Z * Z) : double := dadd (dmul (Z2d tv.1) (Z2d 1000000)) (Z2d tv.2).
Definition CLOCKS_PER_SEC : Z := 1000000.
(** [now] is the reading taken by the call. *)
Definition cpu_util (now rlast : cpu_usage) : list double :=
  let timediff := Z2d (iperf_time_in_usecs (iperf_time_diff (last now) (last rlast)).2) in
  let userdiff := dsub (usage_usecs (utime now)) (usage_usecs (utime rlast)) in
  let systemdiff := dsub (usage_usecs (stime now)) (usage_usecs (stime rlast)) in
  let clocks := ddiv (dmul (Z2d (u64 (clast now - clast rlast))) (Z2d 1000000)) (Z2d CLOCKS_PER_SEC) in
  [dmul (ddiv clocks timediff) (Z2d 100); dmul (ddiv userdiff timediff) (Z2d 100);
   dmul (ddiv systemdiff timediff) (Z2d 100)].

(** ** Typed look-up *)

Inductive json_type := Want_True | Want_String | Want_Number | Want_Array.
Definition has_type (expected : json_type) (j : cJSON) : bool :=
  match expected, j with
  | Want_True, (cJSON_True | cJSON_False) | Want_String, cJSON_String _
  | Want_Number, cJSON_Number _ _ | Want_Array, cJSON_Array _ => true
  | _, _ => false
  end.
Definition iperf_cJSON_GetObjectItemType (j : cJSON) (item_string : string) (expected : json_type) : option cJSON :=
  match cJSON_GetObjectItem j item_string with
  | Some j_p => if has_type expected j_p then Some j_p else None
  | None => None
  end.

(** ** States and features *)

Definition state_to_text (state : Z) : string :=
  if state =? 0 then "Test reset"
  else if state =? TEST_START then "TEST_START - starting a new test"
  else if state =? TEST_RUNNING then "TEST_RUNNING"
  else if state =? TEST_END then "TEST_END"
  else if state =? PARAM_EXCHANGE then "PARAM_EXCHANGE - Client to Server Parameters Exchange"
  else if state =? CREATE_STREAMS then "CREATE_STREAMS"
  else if state =? SERVER_TERMINATE then "SERVER_TERMINATE"
  else if state =? CLIENT_TERMINATE then "CLIENT_TERMINATE"
  else if state =? EXCHANGE_RESULTS then "EXCHANGE_RESULTS"
  else if state =? DISPLAY_RESULTS then "DISPLAY_RESULTS"
  else if state =? IPERF_START then "IPERF_START - waiting for a new test"
  else if state =? IPERF_DONE then "IPERF_DONE"
  else if state =? ACCESS_DENIED then "ACCESS_DENIED - Server is busy"
  else if state =? SERVER_ERROR then "SERVER_ERROR"
  else "Unknown State".

Definition EBADF := 9.
Definition is_closed (f : fd) : M world Z :=
  let! s := sys (Cselect [f] (Some (0, 0))) in
  let! e := get_errno in
  mret (if (ret s <? 0) && (e =? EBADF) then 1 else 0).

(** ** Properties of patterns, cookies and look-up *)

Lemma repeating_pattern_nth n k i : (i < n)%nat -> 0 <= k < 10 ->
  nth i (repeating_pattern n k) 0 = 48 + (k + Z.of_nat i) mod 10.
Proof.
  revert k i; induction n as [|n IH]; intros k i Hi Hk; [lia|]. cbn [repeating_pattern].
  destruct i as [|i]; cbn [nth]; [rewrite i8_id by zlia; zlia|].
  rewrite IH; [|lia|destruct (Z.leb_spec 9 k); [lia|rewrite i32_id by zlia; lia]].
  destruct (Z.leb_spec 9 k); [|rewrite i32_id by zlia; f_equal; f_equal; lia].
  replace k with 9 by lia. f_equal. zlia.
Qed.

(** The pattern fills the buffer exactly, and its byte at [i] is the last
    decimal digit of [i]. *)
Lemma fill_with_repeating_pattern_digits (outsize : nat) :
  length (fill_with_repeating_pattern outsize) = outsize /\
  forall i, (i < outsize)%nat -> nth i (fill_with_repeating_pattern outsize) 0 = 48 + Z.of_nat i mod 10.
Proof.
  split.
  - unfold fill_with_repeating_pattern. generalize 0. induction outsize as [|n IH]; intros k; cbn; auto.
  - intros i Hi. unfold fill_with_repeating_pattern. by rewrite repeating_pattern_nth.
Qed.

Definition in_alphabet (b : Z) : bool := (97 <=? b) && (b <=? 122) || (50 <=? b) && (b <=? 55).

Lemma rndchars_nth b : in_alphabet (nth (Z.to_nat (b mod 32)) (bytes_of rndchars) 0) = true.
Proof.
  assert (Hall : forallb in_alphabet (bytes_of rndchars) = true) by reflexivity.
  apply (proj1 (forallb_forall _ _) Hall), nth_In. change (length (bytes_of rndchars)) with 32%nat.
  pose proof (Z.mod_pos_bound b 32). lia.
Qed.

(** Whatever the random source delivers, a cookie is 36 characters out of
    a-z and 2-7 followed by the terminator: it fills the field, never contains
    an earlier zero, and survives being read as a C string. *)
Lemma make_cookie_well_formed (out : list Z) :
  Z.of_nat (length out) = COOKIE_SIZE ->
  exists s : list Z, make_cookie out = (s ++ [0])%list /\ Z.of_nat (length s) = COOKIE_SIZE - 1 /\
    forallb in_alphabet s = true /\ c_string (string_of (make_cookie out)) = string_of s.
Proof.
  intros Ho. unfold make_cookie. eexists. split; [reflexivity|].
  assert (Hall : forall l, forallb in_alphabet
    (map (fun b => nth (Z.to_nat (b mod 32)) (bytes_of rndchars) 0) l) = true).
  { induction l as [|b l IH]; [done|]. cbn [map forallb]. by rewrite rndchars_nth, IH. }
  split_and!; [rewrite length_map, length_take; unfold COOKIE_SIZE in *; lia|apply Hall|].
  specialize (Hall (take (Z.to_nat (COOKIE_SIZE - 1)) out)).
  induction (map _ (take _ out)) as [|b s IH]; [done|]. cbn [forallb] in Hall.
  apply andb_true_iff in Hall as [Hb Hs]. cbn [string_of app c_string].
  assert (in_u8 b /\ b <> 0) as [Hr H0] by (unfold in_alphabet in Hb; zlia).
  rewrite code_chr by done. destruct (Z.eqb_spec b 0); [done|]. by rewrite IH.
Qed.
Lemma make_cookie_well_formed_witness :
  exists s : list Z, make_cookie (replicate 37 200) = (s ++ [0])%list /\ Z.of_nat (length s) = COOKIE_SIZE - 1 /\
    forallb in_alphabet s = true /\ c_string (string_of (make_cookie (replicate 37 200))) = string_of s.
Proof. apply (make_cookie_well_formed (replicate 37 200)). reflexivity. Defined.

(** Look-up by type is look-up by name followed by a check of the kind, in
    which both truth values count as true. *)
Lemma GetObjectItemType_spec (j : cJSON) (name : string) (expected : json_type) (x : cJSON) :
  iperf_cJSON_GetObjectItemType j name expected = Some x <->
  cJSON_GetObjectItem j name = Some x /\ has_type expected x = true.
Proof.
  unfold iperf_cJSON_GetObjectItemType. destruct (cJSON_GetObjectItem j name) as [y|]; [|by split; [|intros [? _]]].
  destruct (has_type expected y) eqn:E; split; [intros [= ->]|intros [[= ->] _]| |intros [[= ->] ?]]; congruence || done.
Qed.

(** ** Objects as tables

    The fields of an object in order, each with the value it has when it is
    present; names are told apart whatever their case. *)
Definition flatten (fields : list (string * option cJSON)) : list (string * cJSON) :=
  omap (fun kv => pair kv.1 <$> kv.2) fields.
Definition opt (b : bool) (v : cJSON) : option cJSON := if b then Some v else None.

Definition num (v : Z) : cJSON := cJSON_CreateNumber (Z2d v).
Lemma flatten_app l1 l2 : flatten (l1 ++ l2) = (flatten l1 ++ flatten l2)%list.
Proof. apply omap_app. Qed.
Lemma add_table name v l :
  cJSON_AddItemToObject (cJSON_Object (flatten l)) name v = cJSON_Object (flatten (l ++ [(name, Some v)])).
Proof. by rewrite flatten_app. Qed.

(** No two names agree. *)
Fixpoint distinct_names (l : list string) : bool :=
  match l with [] => true | k :: l => forallb (fun k' => negb (strcaseeq k k') && negb (strcaseeq k' k)) l && distinct_names l end.

Lemma find_item_absent l k : forallb (fun k' => negb (strcaseeq k k')) l.*1 = true -> find_item (flatten l) k = None.
Proof.
  induction l as [|[k' v] l IH]; [done|]. cbn [fmap list_fmap forallb fst]. intros [Hk Hl]%andb_true_iff.
  cbn. destruct v as [v|]; cbn; [|auto]. destruct (strcaseeq k k'); [done|]. auto.
Qed.
Lemma find_item_field l i k v :
  distinct_names l.*1 = true -> strcaseeq k k = true -> l !! i = Some (k, v) -> find_item (flatten l) k = v.
Proof.
  revert i; induction l as [|[k' v'] l IH]; intros i Hd Hk Hl; [done|].
  cbn [fmap list_fmap distinct_names fst] in Hd. apply andb_true_iff in Hd as [Hd Hd'].
  destruct i as [|i]; cbn in Hl.
  - injection Hl as -> ->. destruct v as [v|]; cbn; [by rewrite Hk|]. apply find_item_absent.
    rewrite forallb_forall in Hd |- *. intros x Hx. specialize (Hd x Hx). by destruct (strcaseeq k x).
  - assert (strcaseeq k k' = false) as Hne.
    { rewrite forallb_forall in Hd. assert (In k l.*1) as Hin.
      { apply list_elem_of_In, list_elem_of_fmap. exists (k, v). split; [done|]. by eapply list_elem_of_lookup_2. }
      specialize (Hd k Hin). destruct (strcaseeq k k'); [|done]. by rewrite andb_false_r in Hd. }
    destruct v' as [v'|]; cbn; rewrite ?Hne; by eapply IH.
Qed.
Lemma flatten_wire l : Forall (fun kv => match kv.2 with Some x => no_nul kv.1 && wire_ok x = true | None => True end) l ->
  wire_ok (cJSON_Object (flatten l)) = true.
Proof.
  induction 1 as [|[k [x|]] l Hx _ IH]; [done| |exact IH].
  change (no_nul k && wire_ok x && wire_ok (cJSON_Object (flatten l)) = true). cbn [fst snd] in Hx. by rewrite Hx.
Qed.
Lemma flatten_flat l : Forall (fun kv => match kv.2 with Some x => nesting x = O | None => True end) l ->
  nesting (cJSON_Object (flatten l)) = 1%nat.
Proof.
  intros Hl. cbn. f_equal. induction Hl as [|[k [x|]] l Hx _ IH]; [done| |exact IH].
  cbn in Hx |- *. rewrite Hx. exact IH.
Qed.
Lemma num_wire k n c : no_nul k = true -> - 2 ^ 53 < n < 2 ^ 53 ->
  match opt c (num n) with Some x => no_nul k && wire_ok x = true | None => True end.
Proof.
  intros Hk Hn. destruct c; [|done]. cbn -[wire_ok num]. rewrite Hk. unfold num.
  rewrite create_integer by done. by apply wire_integer.
Qed.
Lemma i32_small n : in_i32 n -> - 2 ^ 53 < n < 2 ^ 53.
Proof. unfold in_i32. lia. Qed.
Lemma true_wire k c : no_nul k = true ->
  match opt c cJSON_True with Some x => no_nul k && wire_ok x = true | None => True end.
Proof. intros Hk. destruct c; cbn; [by rewrite Hk|done]. Qed.
Lemma text_wire k o : no_nul k = true -> match o with Some v => no_nul v = true | None => True end ->
  match cJSON_String <$> o with Some x => no_nul k && wire_ok x = true | None => True end.
Proof. intros Hk Ho. destruct o; cbn; [|done]. by rewrite Hk, Ho. Qed.

Lemma opt_flat c x : nesting x = O -> match opt c x with Some x => nesting x = O | None => True end.
Proof. by destruct c. Qed.
Lemma text_flat o : match cJSON_String <$> o with Some x => nesting x = O | None => True end.
Proof. by destruct o. Qed.

Lemma wire_i32 n : in_i32 n -> i32 (saturate (Z2d n)) = n.
Proof. intros Hn. rewrite saturate_Z2d, i32_id; [done|done|]. unfold in_i32 in Hn. lia. Qed.
Lemma wire_u64 n : 0 <= n < 2 ^ 53 -> u64 (saturate (Z2d n)) = n.
Proof. intros Hn. rewrite saturate_Z2d by lia. apply u64_id. unfold in_u64. lia. Qed.
