(* ===== verification/Api.v ===== *)
(** * The test object: accessors, roles, protocols, defaults and resets

    The routines of iperf_api.c that read and change the test structure.  A
    string argument is copied by the code (strdup), so it becomes a value.
    Callbacks, output handles and the text printed at debug level are left
    out; the configuration has no SSL, SCTP or CPU set. *)
From Stdlib Require Import Ascii String.
From stdpp Require Import strings.
From S2P Require Import Prelude Double IperfTime Timer Cjson Iperf Error Sys Net.
#[local] Open Scope Z_scope.

(** ** Getters *)

Definition iperf_get_verbose (ipt : iperf_test) : Z := Test.verbose ipt.
Definition iperf_get_control_socket (ipt : iperf_test) : Z := Test.ctrl_sck ipt.
Definition iperf_get_control_socket_mss (ipt : iperf_test) : Z := Test.ctrl_sck_mss ipt.
Definition iperf_get_test_omit (ipt : iperf_test) : Z := Test.omit ipt.
Definition iperf_get_test_duration (ipt : iperf_test) : Z := Test.duration ipt.
Definition iperf_get_test_rate (ipt : iperf_test) : Z := Settings.rate (Test.settings ipt).
Definition iperf_get_test_bitrate_limit (ipt : iperf_test) : Z := Settings.bitrate_limit (Test.settings ipt).
Definition iperf_get_test_bitrate_limit_interval (ipt : iperf_test) : double :=
  Settings.bitrate_limit_interval (Test.settings ipt).
Definition iperf_get_test_bitrate_limit_stats_per_interval (ipt : iperf_test) : Z :=
  Settings.bitrate_limit_stats_per_interval (Test.settings ipt).
Definition iperf_get_test_fqrate (ipt : iperf_test) : Z := Settings.fqrate (Test.settings ipt).
Definition iperf_get_test_pacing_timer (ipt : iperf_test) : Z := Settings.pacing_timer (Test.settings ipt).
Definition iperf_get_test_burst (ipt : iperf_test) : Z := Settings.burst (Test.settings ipt).
Definition iperf_get_test_role (ipt : iperf_test) : ascii := Test.role ipt.
Definition iperf_get_test_reverse (ipt : iperf_test) : Z := Test.reverse ipt.
Definition iperf_get_test_bidirectional (ipt : iperf_test) : Z := Test.bidirectional ipt.
Definition iperf_get_test_blksize (ipt : iperf_test) : Z := Settings.blksize (Test.settings ipt).
Definition iperf_get_test_socket_bufsize (ipt : iperf_test) : Z :=
  Settings.socket_bufsize (Test.settings ipt).
Definition iperf_get_test_reporter_interval (ipt : iperf_test) : double := Test.reporter_interval ipt.
Definition iperf_get_test_stats_interval (ipt : iperf_test) : double := Test.stats_interval ipt.
Definition iperf_get_test_num_streams (ipt : iperf_test) : Z := Test.num_streams ipt.
Definition iperf_get_test_timestamps (ipt : iperf_test) : Z := Test.timestamps ipt.
Definition iperf_get_test_timestamp_format (ipt : iperf_test) : option string := Test.timestamp_format ipt.
Definition iperf_get_test_repeating_payload (ipt : iperf_test) : Z := Test.repeating_payload ipt.
Definition iperf_get_test_bind_port (ipt : iperf_test) : Z := Test.bind_port ipt.
Definition iperf_get_test_server_port (ipt : iperf_test) : Z := Test.server_port ipt.
Definition iperf_get_test_server_hostname (ipt : iperf_test) : option string := Test.server_hostname ipt.
Definition iperf_get_test_template (ipt : iperf_test) : option string := Test.tmp_template ipt.
Definition iperf_get_test_json_output (ipt : iperf_test) : Z := Test.json_output ipt.
Definition iperf_get_test_json_stream (ipt : iperf_test) : Z := Test.json_stream ipt.
Definition iperf_get_test_zerocopy (ipt : iperf_test) : Z := Test.zerocopy ipt.
Definition iperf_get_test_get_server_output (ipt : iperf_test) : Z := Test.get_server_output ipt.
Definition iperf_get_test_unit_format (ipt : iperf_test) : ascii := Settings.unit_format (Test.settings ipt).
Definition iperf_get_test_bind_address (ipt : iperf_test) : option string := Test.bind_address ipt.
Definition iperf_get_test_bind_dev (ipt : iperf_test) : option string := Test.bind_dev ipt.
Definition iperf_get_test_udp_counters_64bit (ipt : iperf_test) : Z := Test.udp_counters_64bit ipt.
Definition iperf_get_test_one_off (ipt : iperf_test) : Z := Test.one_off ipt.
Definition iperf_get_test_tos (ipt : iperf_test) : Z := Settings.tos (Test.settings ipt).
Definition iperf_get_test_extra_data (ipt : iperf_test) : option string := Test.extra_data ipt.
Definition iperf_get_test_no_delay (ipt : iperf_test) : Z := Test.no_delay ipt.
Definition iperf_get_test_connect_timeout (ipt : iperf_test) : Z :=
  Settings.connect_timeout (Test.settings ipt).
Definition iperf_get_test_idle_timeout (ipt : iperf_test) : Z := Settings.idle_timeout (Test.settings ipt).
Definition iperf_get_dont_fragment (ipt : iperf_test) : Z := Settings.dont_fragment (Test.settings ipt).
Definition iperf_get_test_congestion_control (ipt : iperf_test) : option string := Test.congestion ipt.
Definition iperf_get_test_mss (ipt : iperf_test) : Z := Settings.mss (Test.settings ipt).
Definition iperf_get_mapped_v4 (ipt : iperf_test) : Z := Test.mapped_v4 ipt.
Definition iperf_get_test_bytes (ipt : iperf_test) : Z := u64 (Settings.bytes (Test.settings ipt)).
Definition iperf_get_test_blocks (ipt : iperf_test) : Z := u64 (Settings.blocks (Test.settings ipt)).
Definition iperf_get_test_rcv_timeout (ipt : iperf_test) : iperf_time := Settings.rcv_timeout (Test.settings ipt).
(** Undefined when no protocol is set. *)
Definition iperf_get_test_protocol_id (ipt : iperf_test) : option Z := Protocol.id <$> Test.protocol ipt.

(** ** Setters *)

Definition iperf_set_verbose (ipt : iperf_test) (verbose : Z) : iperf_test :=
  ipt <| Test.verbose := verbose |>.
Definition iperf_set_control_socket (ipt : iperf_test) (ctrl_sck : Z) : iperf_test :=
  ipt <| Test.ctrl_sck := ctrl_sck |>.
Definition iperf_set_test_omit (ipt : iperf_test) (omit : Z) : iperf_test := ipt <| Test.omit := omit |>.
Definition iperf_set_test_duration (ipt : iperf_test) (duration : Z) : iperf_test :=
  ipt <| Test.duration := duration |>.
Definition iperf_set_test_reporter_interval (ipt : iperf_test) (reporter_interval : double) : iperf_test :=
  ipt <| Test.reporter_interval := reporter_interval |>.
Definition iperf_set_test_stats_interval (ipt : iperf_test) (stats_interval : double) : iperf_test :=
  ipt <| Test.stats_interval := stats_interval |>.
Definition iperf_set_test_blksize (ipt : iperf_test) (blksize : Z) : iperf_test :=
  ipt <| Test.settings ::= fun s => s <| Settings.blksize := blksize |> |>.
Definition iperf_set_test_logfile (ipt : iperf_test) (logfile : string) : iperf_test :=
  ipt <| Test.logfile := Some logfile |>.
Definition iperf_set_test_rate (ipt : iperf_test) (rate : Z) : iperf_test :=
  ipt <| Test.settings ::= fun s => s <| Settings.rate := rate |> |>.
Definition iperf_set_test_bitrate_limit_maximum (ipt : iperf_test) (total_rate : Z) : iperf_test :=
  ipt <| Test.settings ::= fun s => s <| Settings.bitrate_limit := total_rate |> |>.
Definition iperf_set_test_bitrate_limit_interval (ipt : iperf_test) (bitrate_limit_interval : Z) : iperf_test :=
  ipt <| Test.settings ::= fun s => s <| Settings.bitrate_limit_interval := Z2d bitrate_limit_interval |> |>.
Definition iperf_set_test_bitrate_limit_stats_per_interval (ipt : iperf_test) (bitrate_limit_stats_per_interval : Z) : iperf_test :=
  ipt <| Test.settings ::= fun s => s <| Settings.bitrate_limit_stats_per_interval := bitrate_limit_stats_per_interval |> |>.
Definition iperf_set_test_fqrate (ipt : iperf_test) (fqrate : Z) : iperf_test :=
  ipt <| Test.settings ::= fun s => s <| Settings.fqrate := fqrate |> |>.
Definition iperf_set_test_pacing_timer (ipt : iperf_test) (pacing_timer : Z) : iperf_test :=
  ipt <| Test.settings ::= fun s => s <| Settings.pacing_timer := pacing_timer |> |>.
Definition iperf_set_test_bytes (ipt : iperf_test) (bytes : Z) : iperf_test :=
  ipt <| Test.settings ::= fun s => s <| Settings.bytes := bytes |> |>.
Definition iperf_set_test_blocks (ipt : iperf_test) (blocks : Z) : iperf_test :=
  ipt <| Test.settings ::= fun s => s <| Settings.blocks := blocks |> |>.
Definition iperf_set_test_burst (ipt : iperf_test) (burst : Z) : iperf_test :=
  ipt <| Test.settings ::= fun s => s <| Settings.burst := burst |> |>.
Definition iperf_set_test_bind_port (ipt : iperf_test) (bind_port : Z) : iperf_test :=
  ipt <| Test.bind_port := bind_port |>.
Definition iperf_set_test_server_port (ipt : iperf_test) (srv_port : Z) : iperf_test :=
  ipt <| Test.server_port := srv_port |>.
Definition iperf_set_test_socket_bufsize (ipt : iperf_test) (socket_bufsize : Z) : iperf_test :=
  ipt <| Test.settings ::= fun s => s <| Settings.socket_bufsize := socket_bufsize |> |>.
Definition iperf_set_test_num_streams (ipt : iperf_test) (num_streams : Z) : iperf_test :=
  ipt <| Test.num_streams := num_streams |>.
Definition iperf_set_test_repeating_payload (ipt : iperf_test) (repeating_payload : Z) : iperf_test :=
  ipt <| Test.repeating_payload := repeating_payload |>.
Definition iperf_set_test_timestamps (ipt : iperf_test) (timestamps : Z) : iperf_test :=
  ipt <| Test.timestamps := timestamps |>.
Definition iperf_set_test_timestamp_format (ipt : iperf_test) (tf : string) : iperf_test :=
  ipt <| Test.timestamp_format := Some tf |>.
Definition iperf_set_mapped_v4 (ipt : iperf_test) (val : Z) : iperf_test := ipt <| Test.mapped_v4 := val |>.
Definition iperf_set_test_server_hostname (ipt : iperf_test) (server_hostname : string) : iperf_test :=
  ipt <| Test.server_hostname := Some server_hostname |>.
Definition iperf_set_test_template (ipt : iperf_test) (tmp_template : string) : iperf_test :=
  ipt <| Test.tmp_template := Some tmp_template |>.
Definition iperf_set_test_json_output (ipt : iperf_test) (json_output : Z) : iperf_test :=
  ipt <| Test.json_output := json_output |>.
Definition iperf_set_test_json_stream (ipt : iperf_test) (json_stream : Z) : iperf_test :=
  ipt <| Test.json_stream := json_stream |>.
Definition iperf_set_test_get_server_output (ipt : iperf_test) (get_server_output : Z) : iperf_test :=
  ipt <| Test.get_server_output := get_server_output |>.
Definition iperf_set_test_unit_format (ipt : iperf_test) (unit_format : ascii) : iperf_test :=
  ipt <| Test.settings ::= fun s => s <| Settings.unit_format := unit_format |> |>.
Definition iperf_set_test_bind_address (ipt : iperf_test) (bnd_address : string) : iperf_test :=
  ipt <| Test.bind_address := Some bnd_address |>.
Definition iperf_set_test_bind_dev (ipt : iperf_test) (bnd_dev : string) : iperf_test :=
  ipt <| Test.bind_dev := Some bnd_dev |>.
Definition iperf_set_test_udp_counters_64bit (ipt : iperf_test) (udp_counters_64bit : Z) : iperf_test :=
  ipt <| Test.udp_counters_64bit := udp_counters_64bit |>.
Definition iperf_set_test_one_off (ipt : iperf_test) (one_off : Z) : iperf_test :=
  ipt <| Test.one_off := one_off |>.
Definition iperf_set_test_tos (ipt : iperf_test) (tos : Z) : iperf_test :=
  ipt <| Test.settings ::= fun s => s <| Settings.tos := tos |> |>.
Definition iperf_set_test_extra_data (ipt : iperf_test) (dat : string) : iperf_test :=
  ipt <| Test.extra_data := Some dat |>.
Definition iperf_set_test_no_delay (ipt : iperf_test) (no_delay : Z) : iperf_test :=
  ipt <| Test.no_delay := no_delay |>.
Definition iperf_set_test_connect_timeout (ipt : iperf_test) (ct : Z) : iperf_test :=
  ipt <| Test.settings ::= fun s => s <| Settings.connect_timeout := ct |> |>.
Definition iperf_set_test_idle_timeout (ipt : iperf_test) (to : Z) : iperf_test :=
  ipt <| Test.settings ::= fun s => s <| Settings.idle_timeout := to |> |>.
Definition iperf_set_dont_fragment (ipt : iperf_test) (dnf : Z) : iperf_test :=
  ipt <| Test.settings ::= fun s => s <| Settings.dont_fragment := dnf |> |>.
Definition iperf_set_test_congestion_control (ipt : iperf_test) (cc : string) : iperf_test :=
  ipt <| Test.congestion := Some cc |>.
Definition iperf_set_test_mss (ipt : iperf_test) (mss : Z) : iperf_test :=
  ipt <| Test.settings ::= fun s => s <| Settings.mss := mss |> |>.
(** [zerocopy && has_sendfile()]. *)
Definition iperf_set_test_zerocopy (ipt : iperf_test) (zerocopy : Z) : iperf_test :=
  ipt <| Test.zerocopy := if negb (zerocopy =? 0) && negb (has_sendfile =? 0) then 1 else 0 |>.
Definition iperf_set_test_rcv_timeout (ipt : iperf_test) (to : iperf_time) : iperf_test :=
  ipt <| Test.settings ::= fun s => s <| Settings.rcv_timeout := Time (secs to) (usecs to) |> |>.
(** The message printed at debug level is left out. *)
Definition iperf_set_test_state (ipt : iperf_test) (state : Z) : iperf_test :=
  ipt <| Test.state := state |>.

(** ** Roles *)

(** The answers for the platform of the application: no TCP_INFO. *)
Definition has_tcpinfo : Z := 0.
Definition has_tcpinfo_retransmits : Z := 0.
Definition get_total_retransmits : Z := -1.

(** Undefined when no protocol is set and the test sends. *)
Definition check_sender_has_retransmits (ipt : iperf_test) : option iperf_test :=
  has ← (if negb (Test.mode ipt =? RECEIVER) then
           p ← Test.protocol ipt;
           Some ((Protocol.id p =? Ptcp) && negb (has_tcpinfo_retransmits =? 0))
         else Some false);
  Some (ipt <| Test.sender_has_retransmits := if has : bool then 1 else 0 |>).

Definition iperf_set_test_role (ipt : iperf_test) (role : ascii) : option iperf_test :=
  let ipt := ipt <| Test.role := role |> in
  check_sender_has_retransmits
    (if Test.reverse ipt =? 0 then
       if negb (Test.bidirectional ipt =? 0) then ipt <| Test.mode := BIDIRECTIONAL |>
       else if Ascii.eqb role "c" then ipt <| Test.mode := SENDER |>
       else if Ascii.eqb role "s" then ipt <| Test.mode := RECEIVER |> else ipt
     else
       if Ascii.eqb role "c" then ipt <| Test.mode := RECEIVER |>
       else if Ascii.eqb role "s" then ipt <| Test.mode := SENDER |> else ipt).

Definition iperf_set_test_reverse (ipt : iperf_test) (reverse : Z) : option iperf_test :=
  let ipt := ipt <| Test.reverse := reverse |> in
  check_sender_has_retransmits
    (if Test.reverse ipt =? 0 then
       if Ascii.eqb (Test.role ipt) "c" then ipt <| Test.mode := SENDER |>
       else if Ascii.eqb (Test.role ipt) "s" then ipt <| Test.mode := RECEIVER |> else ipt
     else
       if Ascii.eqb (Test.role ipt) "c" then ipt <| Test.mode := RECEIVER |>
       else if Ascii.eqb (Test.role ipt) "s" then ipt <| Test.mode := SENDER |> else ipt).

Definition iperf_set_test_bidirectional (ipt : iperf_test) (bidirectional : Z) : option iperf_test :=
  let ipt := ipt <| Test.bidirectional := bidirectional |> in
  if negb (bidirectional =? 0) then Some (ipt <| Test.mode := BIDIRECTIONAL |>)
  else iperf_set_test_reverse ipt (Test.reverse ipt).

(** ** The running program *)

(** A test, the timers and the system it runs on. *)
Record prog := Prog { tst : iperf_test; tmr : timer_state; os : world }.
#[export] Instance prog_eta : Settable prog := fun r => Prog (tst r) (tmr r) (os r).
Definition P (A : Type) : Type := M prog A.

Definition do_os {A} (m : M world A) : P A := lift os (fun w s => s <| os := w |>) m.
Definition do_tmr (f : timer_state -> option timer_state) : P unit :=
  lift tmr (fun x s => s <| tmr := x |>) (fun x => match f x with Some x' => Some (tt, x') | None => None end).
Definition get_test : P iperf_test := fun s => Some (tst s, s).
Definition upd (f : iperf_test -> iperf_test) : P unit := mmod (fun s => s <| tst ::= f |>).
Definition try_upd (f : iperf_test -> option iperf_test) : P unit :=
  let! t := get_test in let! t' := mopt (f t) in upd (fun _ => t').
(** [i_errno = e]. *)
Definition fail_with (e : iperf_error) : P unit := do_os (set_i_errno e).

Definition when (b : bool) (m : P unit) : P unit := if b then m else mret tt.

(** How the commands run. *)
Lemma bind_upd {B} f (k : unit -> P B) s : mbnd (upd f) k s = k tt (s <| tst ::= f |>).
Proof. done. Qed.
Lemma bind_get_test {B} (k : iperf_test -> P B) s : mbnd get_test k s = k (tst s) s.
Proof. done. Qed.
Lemma bind_os {A B} (m : M world A) (k : A -> P B) s a w :
  m (os s) = Some (a, w) -> mbnd (do_os m) k s = k a (s <| os := w |>).
Proof. unfold mbnd, do_os, lift. by intros ->. Qed.

(** ** The report document *)

(** Adding a member through a handle; nothing happens through a null one. *)
Definition add_item (name : string) (item : cJSON) (o : option cJSON) : option cJSON :=
  option_map (fun o => cJSON_AddItemToObject o name item) o.
Definition add_top (name : string) (item : cJSON) (t : iperf_test) : iperf_test := t <| Test.json_top ::= add_item name item |>.
Definition add_start (name : string) (item : cJSON) (t : iperf_test) : iperf_test := t <| Test.json_start ::= add_item name item |>.
Definition add_to_array (item : cJSON) (array : option cJSON) : option cJSON := option_map (fun a => cJSON_AddItemToArray a item) array.
Definition members (o : option cJSON) : list (string * cJSON) := match o with Some (cJSON_Object l) => l | _ => [] end.

(** The trees under the handles: the start begins with the list of connections,
    and the whole with the start, the intervals and the end. *)
Definition start_object (t : iperf_test) : option cJSON :=
  option_map (fun _ => cJSON_Object (("connected"%string, default cJSON_NULL (Test.json_connected t)) :: members (Test.json_start t))) (Test.json_start t).
Definition report_document (t : iperf_test) : option cJSON :=
  option_map (fun _ => cJSON_Object (("start"%string, default cJSON_NULL (start_object t)) ::
    ("intervals"%string, default cJSON_NULL (Test.json_intervals t)) :: ("end"%string, default cJSON_NULL (Test.json_end t)) ::
    members (Test.json_top t))) (Test.json_top t).

(** ** Protocols *)

Definition lookup_protocol (prot_id : Z) (l : list Protocol.protocol) : option Protocol.protocol :=
  List.find (fun prot => Protocol.id prot =? prot_id) l.

Definition get_protocol (prot_id : Z) : P (option Protocol.protocol) :=
  let! test := get_test in
  match lookup_protocol prot_id (Test.protocols test) with
  | None => fail_with IEPROTOCOL ;; mret None
  | prot => mret prot
  end.

Definition set_protocol (prot_id : Z) : P Z :=
  let! test := get_test in
  match lookup_protocol prot_id (Test.protocols test) with
  | Some prot =>
      upd (fun t => t <| Test.protocol := Some prot |>) ;;
      try_upd check_sender_has_retransmits ;; mret 0
  | None => fail_with IEPROTOCOL ;; mret (-1)
  end.

(** ** Creation and defaults *)

Definition iperf_new_test : iperf_test :=
  Test.zero <| Test.bitrate_limit_intervals_traffic_bytes := replicate 60 0 |>
    <| Test.cpu_util := replicate 3 dzero |> <| Test.remote_cpu_util := replicate 3 dzero |>.

Definition tcp_protocol := Protocol.mk Ptcp "TCP" iperf_tcp_send iperf_tcp_recv.
Definition udp_protocol := Protocol.mk Pudp "UDP" iperf_udp_send iperf_udp_recv.

Definition iperf_defaults : P Z :=
  upd (fun testp => testp
    <| Test.omit := OMIT |> <| Test.duration := DURATION |> <| Test.diskfile_name := None |>
    <| Test.affinity := -1 |> <| Test.server_affinity := -1 |> <| Test.title := None |>
    <| Test.extra_data := None |> <| Test.congestion := None |> <| Test.congestion_used := None |>
    <| Test.remote_congestion_used := None |> <| Test.server_port := PORT |>
    <| Test.ctrl_sck := -1 |> <| Test.listener := -1 |> <| Test.prot_listener := -1 |>
    <| Test.other_side_has_retransmits := 0 |>
    <| Test.stats_interval := Z2d 1 |> <| Test.reporter_interval := Z2d 1 |> <| Test.num_streams := 1 |>
    <| Test.settings ::= fun s => s
        <| Settings.domain := AF_UNSPEC |> <| Settings.unit_format := "a"%char |>
        <| Settings.socket_bufsize := 0 |> <| Settings.blksize := DEFAULT_TCP_BLKSIZE |>
        <| Settings.rate := 0 |> <| Settings.bitrate_limit := 0 |>
        <| Settings.bitrate_limit_interval := Z2d 5 |> <| Settings.bitrate_limit_stats_per_interval := 0 |>
        <| Settings.fqrate := 0 |> <| Settings.pacing_timer := DEFAULT_PACING_TIMER |>
        <| Settings.burst := 0 |> <| Settings.mss := 0 |> <| Settings.bytes := 0 |> <| Settings.blocks := 0 |>
        <| Settings.connect_timeout := -1 |>
        <| Settings.rcv_timeout := Time (DEFAULT_NO_MSG_RCVD_TIMEOUT / SEC_TO_mS)
             ((DEFAULT_NO_MSG_RCVD_TIMEOUT mod SEC_TO_mS) * mS_TO_US) |>
        <| Settings.skip_rx_copy := 0 |> <| Settings.cntl_ka := 0 |> <| Settings.cntl_ka_keepidle := 0 |>
        <| Settings.cntl_ka_interval := 0 |> <| Settings.cntl_ka_count := 0 |> |>
    <| Test.zerocopy := 0 |> <| Test.cookie := "" |> <| Test.multisend := 10 |>
    <| Test.streams := [] |> <| Test.protocols := [tcp_protocol; udp_protocol] |>) ;;
  set_protocol Ptcp ;;
  upd (fun testp => testp <| Test.server_output_list := [] |>) ;;
  mret 0.

(** ** Streams *)

Definition iperf_add_stream (sp : iperf_stream) (test : iperf_test) : iperf_test :=
  match Test.streams test with
  | [] => test <| Test.streams := [sp <| Stream.id := 1 |>] |>
  | l => test <| Test.streams := l ++ [sp <| Stream.id := i32 (2 + Z.of_nat (length l)) |>] |>
  end.

(** Unmapping the buffer has no effect on the model; the socket stays open. *)
Definition iperf_free_stream (sp : iperf_stream) : P unit :=
  do_os (sys (Cclose (Stream.buffer_fd sp))) ;;
  (if 0 <=? Stream.diskfile_fd sp then do_os (sys (Cclose (Stream.diskfile_fd sp))) ;; mret tt else mret tt) ;;
  match Stream.send_timer sp with Some t => do_tmr (tmr_cancel t) | None => mret tt end.

Definition iperf_create_send_timers : P Z :=
  upd (fun t => t <| Test.streams ::= map (fun sp => sp <| Stream.green_light := 1 |>) |>) ;; mret 0.

(** ** Resets *)

Definition cancel_timer (get : iperf_test -> option loc) (clear : iperf_test -> iperf_test) : P unit :=
  let! test := get_test in
  match get test with
  | Some t => do_tmr (tmr_cancel t) ;; upd clear
  | None => mret tt
  end.

Fixpoint free_streams (l : list iperf_stream) : P unit :=
  match l with
  | [] => mret tt
  | sp :: l => upd (fun t => t <| Test.streams := l |>) ;; iperf_free_stream sp ;; free_streams l
  end.

Definition iperf_close_logfile : P unit :=
  let! test := get_test in
  match Test.outfile test with
  | Some outfile => do_os (sys (Cclose outfile)) ;; upd (fun t => t <| Test.outfile := None |>)
  | None => mret tt
  end.

Definition iperf_reset_test : P unit :=
  iperf_close_logfile ;;
  let! test := get_test in
  free_streams (Test.streams test) ;;
  cancel_timer Test.omit_timer (fun t => t <| Test.omit_timer := None |>) ;;
  cancel_timer Test.timer (fun t => t <| Test.timer := None |>) ;;
  cancel_timer Test.stats_timer (fun t => t <| Test.stats_timer := None |>) ;;
  cancel_timer Test.reporter_timer (fun t => t <| Test.reporter_timer := None |>) ;;
  upd (fun t => t <| Test.done := 0 |> <| Test.streams := [] |> <| Test.congestion := None |>
    <| Test.remote_congestion_used := None |> <| Test.role := "s"%char |> <| Test.mode := RECEIVER |>
    <| Test.sender_has_retransmits := 0 |>) ;;
  set_protocol Ptcp ;;
  upd (fun t => t <| Test.omit := OMIT |> <| Test.duration := DURATION |> <| Test.server_affinity := -1 |>
    <| Test.state := 0 |> <| Test.ctrl_sck := -1 |> <| Test.listener := -1 |> <| Test.prot_listener := -1 |>
    <| Test.bytes_sent := 0 |> <| Test.blocks_sent := 0 |> <| Test.bytes_received := 0 |>
    <| Test.blocks_received := 0 |> <| Test.other_side_has_retransmits := 0 |>
    <| Test.bitrate_limit_stats_count := 0 |> <| Test.bitrate_limit_last_interval_index := 0 |>
    <| Test.bitrate_limit_exceeded := 0 |>
    <| Test.bitrate_limit_intervals_traffic_bytes ::= fun l => replicate 60 0 ++ drop 60 l |>
    <| Test.reverse := 0 |> <| Test.bidirectional := 0 |> <| Test.no_delay := 0 |>
    <| Test.read_set := ∅ |> <| Test.write_set := ∅ |> <| Test.num_streams := 1 |>
    <| Test.settings ::= fun s => s <| Settings.socket_bufsize := 0 |>
        <| Settings.blksize := DEFAULT_TCP_BLKSIZE |> <| Settings.rate := 0 |> <| Settings.fqrate := 0 |>
        <| Settings.burst := 0 |> <| Settings.mss := 0 |> <| Settings.tos := 0 |>
        <| Settings.dont_fragment := 0 |> <| Settings.skip_rx_copy := 0 |> |>
    <| Test.zerocopy := 0 |> <| Test.cookie := "" |> <| Test.multisend := 10 |>
    <| Test.udp_counters_64bit := 0 |> <| Test.title := None |> <| Test.extra_data := None |>
    <| Test.server_output_list := [] |>).

(** The counters of one stream at the end of the omitted period. *)
Definition reset_stream_stats (retransmits : bool) (now : iperf_time) (sp : iperf_stream) : iperf_stream :=
  sp <| Stream.omitted_packet_count := Stream.packet_count sp |>
     <| Stream.omitted_cnt_error := Stream.cnt_error sp |>
     <| Stream.omitted_outoforder_packets := Stream.outoforder_packets sp |>
     <| Stream.jitter := dzero |>
     <| Stream.result ::= fun rp => rp
        <| Result.bytes_sent_omit := Result.bytes_sent rp |> <| Result.bytes_received := 0 |>
        <| Result.bytes_received_this_interval := 0 |> <| Result.bytes_sent_this_interval := 0 |>
        <| Result.stream_prev_total_retrans ::= fun r => if retransmits then get_total_retransmits else r |>
        <| Result.stream_retrans := 0 |> <| Result.start_time := now |> |>.
Definition iperf_reset_stats : P unit :=
  upd (fun t => t <| Test.bytes_sent := 0 |> <| Test.blocks_sent := 0 |>) ;;
  let! now := do_os time_now in
  upd (fun t => t <| Test.streams ::= map (reset_stream_stats (Test.sender_has_retransmits t =? 1) now) |>).

(** ** The state on the control connection *)

Definition iperf_set_send_state (state : Z) : P Z :=
  let! test := get_test in
  if 0 <=? Test.ctrl_sck test then
    upd (fun t => iperf_set_test_state t state) ;;
    let! r := do_os (Nwrite (Test.ctrl_sck test) [u8 state] Ptcp) in
    if r <? 0 then fail_with IESENDMESSAGE ;; mret (-1) else mret 0
  else mret 0.

(** ** Stream identifiers *)

(** The identifiers given to [n] streams in a row: 1, 3, 4, 5, ... *)
Definition stream_ids (n : nat) : list Z :=
  match n with O => [] | S k => 1 :: map Z.of_nat (seq 3 k) end.

Lemma add_stream_streams sp test : Z.of_nat (length (Test.streams test)) < 2 ^ 31 - 3 ->
  exists i, Test.streams (iperf_add_stream sp test) = Test.streams test ++ [sp <| Stream.id := i |>] /\
    i = match length (Test.streams test) with O => 1 | n => 2 + Z.of_nat n end.
Proof.
  unfold iperf_add_stream. intros Hl. destruct (Test.streams test) as [|x l] eqn:E; cbn.
  - by exists 1.
  - eexists. split; [reflexivity|]. rewrite i32_id; [done|]. cbn in Hl. zlia.
Qed.

Lemma stream_ids_S n : stream_ids (S n) = stream_ids n ++ [match n with O => 1 | n => 2 + Z.of_nat n end].
Proof.
  destruct n as [|n]; [done|]. cbn [stream_ids]. rewrite seq_S, map_app. cbn [map].
  rewrite app_comm_cons. do 2 f_equal. lia.
Qed.

(** Adding streams to a fresh test numbers them 1, 3, 4, 5, ... in order:
    the numbers depend on nothing but the order of creation, so the two ends
    of a test agree on them, and no two streams of a test share a number. *)
Lemma iperf_add_stream_ids (sps : list iperf_stream) (test : iperf_test) :
  Test.streams test = [] -> Z.of_nat (length sps) < 2 ^ 31 - 3 ->
  map Stream.id (Test.streams (foldl (fun t sp => iperf_add_stream sp t) test sps)) = stream_ids (length sps) /\
  NoDup (stream_ids (length sps)).
Proof.
  intros Ht Hl. split.
  - assert (length (Test.streams (foldl (fun t sp => iperf_add_stream sp t) test sps)) = length sps /\
      map Stream.id (Test.streams (foldl (fun t sp => iperf_add_stream sp t) test sps)) = stream_ids (length sps))
      as [_ H]; [|exact H].
    induction sps as [|sp sps IH] using rev_ind; [cbn; by rewrite Ht|].
    rewrite foldl_app, length_app. rewrite length_app in Hl. cbn in *. destruct IH as [IHl IHm]; [lia|].
    destruct (add_stream_streams sp (foldl (fun t sp => iperf_add_stream sp t) test sps)) as (i & -> & ->); [lia|].
    rewrite !length_app, map_app, IHm, IHl. cbn [length List.length map]. rewrite !Nat.add_1_r, stream_ids_S. split; [done|]. cbn. by destruct sps.
  - destruct (length sps) as [|n]; [constructor|]. cbn. constructor.
    + rewrite list_elem_of_In, in_map_iff. intros (k & Hk & Hin%in_seq). lia.
    + apply (NoDup_fmap_2 Z.of_nat), NoDup_seq.
Qed.
Lemma iperf_add_stream_ids_witness :
  map Stream.id (Test.streams (foldl (fun t sp => iperf_add_stream sp t) iperf_new_test
    [Stream.zero; Stream.zero; Stream.zero])) = [1; 3; 4] /\ NoDup [1; 3; 4].
Proof.
  apply (iperf_add_stream_ids [Stream.zero; Stream.zero; Stream.zero] iperf_new_test); [reflexivity|cbn; lia].
Defined.

(** ** A stream on the network *)

(** The routines of a protocol work on one stream and the system; the test
    they belong to is an argument, which they only read. *)
Record flow := Flow { sp : iperf_stream; net : world }.
#[export] Instance flow_eta : Settable flow := fun r => Flow (sp r) (net r).
Definition F (A : Type) : Type := M flow A.
Definition do_net {A} (m : M world A) : F A := lift net (fun w s => s <| net := w |>) m.
Definition get_stream : F iperf_stream := fun s => Some (sp s, s).
Definition upd_stream (f : iperf_stream -> iperf_stream) : F unit := mmod (fun s => s <| sp ::= f |>).
Lemma bind_upd_stream {B} f (k : unit -> F B) s : mbnd (upd_stream f) k s = k tt (s <| sp ::= f |>).
Proof. done. Qed.
Lemma bind_get_stream {B} (k : iperf_stream -> F B) s : mbnd get_stream k s = k (sp s) s.
Proof. done. Qed.
Lemma bind_net {A B} (m : M world A) (k : A -> F B) s a w :
  m (net s) = Some (a, w) -> mbnd (do_net m) k s = k a (s <| net := w |>).
Proof. unfold mbnd, do_net, lift. by intros ->. Qed.

(** [memcpy] into a buffer at an offset. *)
Definition store_bytes (off : nat) (bytes buf : list Z) : list Z :=
  take off buf ++ bytes ++ drop (off + length bytes) buf.
