(* ===== verification/Frame.v ===== *)
(** * What a run keeps

    Many theorems say that a part of the program leaves something alone.  A
    relation between the states before and after that is reflexive and
    transitive holds of a program if it holds of every step; the tactic [frame]
    takes a program apart along its binds and branches. *)
From S2P Require Import Prelude Timer Iperf Sys Api.
#[local] Open Scope Z_scope.

(** ** Taking a run apart *)

Lemma do_os_inv {A} (m : M world A) s a s' : do_os m s = Some (a, s') ->
  tst s' = tst s /\ tmr s' = tmr s /\ m (os s) = Some (a, os s').
Proof. unfold do_os, lift. destruct (m (os s)) as [[r w]|]; [|done]. by intros [= -> <-]. Qed.
Lemma do_tmr_inv f s s' : do_tmr f s = Some (tt, s') -> tst s' = tst s /\ os s' = os s.
Proof. unfold do_tmr, lift. destruct (f (tmr s)) as [x|]; [|done]. by intros [= <-]. Qed.

(** [pstep H] consumes the next command of the run [H]. *)
Ltac pstep H :=
  lazymatch type of H with
  | mbnd get_test _ ?s = _ => rewrite bind_get_test in H
  | mbnd (upd _) _ _ = _ => rewrite bind_upd in H
  | mbnd _ _ _ = _ => let x := fresh "x" in let s := fresh "st" in let E := fresh "E" in
      apply mbnd_inv in H as (x & s & E & H)
  end; cbn beta in H.

(** ** Relations that programs keep *)

Section Steps.
Context (R : relation prog) `{!PreOrder R}.

Definition steps {A} (m : P A) : Prop := forall s a s', m s = Some (a, s') -> R s s'.

Lemma steps_bind {A B} (m : P A) (k : A -> P B) : steps m -> (forall a, steps (k a)) -> steps (mbnd m k).
Proof. intros Hm Hk s b s' H. apply mbnd_inv in H as (a & s1 & H1 & H2). etrans; [by eapply Hm|by eapply Hk]. Qed.
Lemma steps_ret {A} (a : A) : steps (mret a).
Proof. by intros s b s' [= _ ->]. Qed.
Lemma steps_fail {A} : steps (mfail (A := A)).
Proof. done. Qed.
Lemma steps_get {B} (k : iperf_test -> P B) : (forall t, steps (k t)) -> steps (mbnd get_test k).
Proof. intros Hk s b s' H. by eapply (Hk (tst s)). Qed.
Lemma steps_opt {A} (o : option A) : steps (mopt o).
Proof. intros s b s' H. unfold mopt in H. destruct o; [|done]. by injection H as _ <-. Qed.
Lemma steps_when b m : steps m -> steps (when b m).
Proof. destruct b; [done|intros _; apply steps_ret]. Qed.
Lemma steps_upd f : (forall s, R s (s <| tst ::= f |>)) -> steps (upd f).
Proof. by intros Hf s b s' [= _ <-]. Qed.
Lemma steps_try_upd f : (forall s t, f (tst s) = Some t -> R s (s <| tst := t |>)) -> steps (try_upd f).
Proof.
  intros Hf s b s' H. unfold try_upd in H. rewrite bind_get_test in H. apply mbnd_inv in H as (t & s1 & H1 & H).
  injection H as _ <-. unfold mopt in H1. destruct (f (tst s)) eqn:E; [|done]. injection H1 as -> <-. exact (Hf _ _ E).
Qed.
Lemma steps_do_os {A} (m : M world A) : (forall s a w, m (os s) = Some (a, w) -> R s (s <| os := w |>)) -> steps (do_os m).
Proof.
  intros Hm s a s' H. unfold do_os, lift in H. destruct (m (os s)) as [[b w]|] eqn:E; [|done]. injection H as _ <-. exact (Hm _ _ _ E).
Qed.
Lemma steps_lift_tmr {A} (m : M timer_state A) :
  (forall s x, R s (s <| tmr := x |>)) -> steps (lift tmr (fun x s => s <| tmr := x |>) m).
Proof. intros Hm s b s' H. unfold lift in H. destruct (m (tmr s)) as [[c x]|]; [|done]. injection H as _ <-. apply Hm. Qed.
Lemma steps_do_tmr f : (forall s x, R s (s <| tmr := x |>)) -> steps (do_tmr f).
Proof. apply steps_lift_tmr. Qed.
End Steps.
Lemma steps_weaken (R R' : relation prog) {A} (m : P A) : (forall s s', R s s' -> R' s s') -> steps R m -> steps R' m.
Proof. intros HR Hm s a s' H. by eapply HR, Hm. Qed.

(** What a relation does not look at may change freely. *)
Class IgnoresWorld (R : relation prog) := ignores_world s w : R s (s <| os := w |>).
Class IgnoresTimers (R : relation prog) := ignores_timers s x : R s (s <| tmr := x |>).
Class IgnoresTest (R : relation prog) := ignores_test s t : R s (s <| tst := t |>).

Section Ignored.
Context (R : relation prog) `{!PreOrder R}.
Lemma steps_os `{!IgnoresWorld R} {A} (m : M world A) : steps R (do_os m).
Proof. apply steps_do_os. intros. apply ignores_world. Qed.
Lemma steps_tmr `{!IgnoresTimers R} f : steps R (do_tmr f).
Proof. apply steps_do_tmr, ignores_timers. Qed.
Lemma steps_timer `{!IgnoresTimers R} {A} (m : M timer_state A) : steps R (lift tmr (fun x s => s <| tmr := x |>) m).
Proof. apply steps_lift_tmr, ignores_timers. Qed.
Lemma steps_any_upd `{!IgnoresTest R} f : steps R (upd f).
Proof. apply steps_upd. intros s. apply ignores_test. Qed.
Lemma steps_any_try_upd `{!IgnoresTest R} f : steps R (try_upd f).
Proof. apply steps_try_upd. intros. apply ignores_test. Qed.
End Ignored.

(** The relations of the development: a view of the test stays the same, with
    or without the timers, or the system's calls are related. *)
Definition same {B} (e : iperf_test -> B) : relation prog := fun s s' => e (tst s') = e (tst s).
Definition same_timed {B} (e : iperf_test -> B) : relation prog := fun s s' => e (tst s') = e (tst s) /\ tmr s' = tmr s.
Definition on_world (R : relation world) : relation prog := fun s s' => R (os s) (os s').

#[export] Instance same_preorder {B} (e : iperf_test -> B) : PreOrder (same e).
Proof. split; [done|]. unfold same. intros a b c. congruence. Qed.
#[export] Instance same_world {B} (e : iperf_test -> B) : IgnoresWorld (same e).
Proof. done. Qed.
#[export] Instance same_timers {B} (e : iperf_test -> B) : IgnoresTimers (same e).
Proof. done. Qed.
#[export] Instance same_timed_preorder {B} (e : iperf_test -> B) : PreOrder (same_timed e).
Proof. split; [done|]. unfold same_timed. intros a b c [] []. split; congruence. Qed.
#[export] Instance same_timed_world {B} (e : iperf_test -> B) : IgnoresWorld (same_timed e).
Proof. done. Qed.
#[export] Instance on_world_preorder R `{!PreOrder R} : PreOrder (on_world R).
Proof. unfold on_world. split; [intros s; reflexivity|]. intros a b c Hab Hbc. by etrans. Qed.
#[export] Instance on_world_timers R `{!PreOrder R} : IgnoresTimers (on_world R).
Proof. intros s x. unfold on_world. cbn. reflexivity. Qed.
#[export] Instance on_world_test R `{!PreOrder R} : IgnoresTest (on_world R).
Proof. intros s x. unfold on_world. cbn. reflexivity. Qed.

Section Views.
Context {B : Type} (e : iperf_test -> B).
Lemma same_upd f : (forall t, e (f t) = e t) -> steps (same e) (upd f).
Proof. intros Hf. apply steps_upd. intros s. apply Hf. Qed.
Lemma same_try_upd f : (forall t t', f t = Some t' -> e t' = e t) -> steps (same e) (try_upd f).
Proof. intros Hf. apply steps_try_upd. intros s t. apply Hf. Qed.
Lemma same_timed_upd f : (forall t, e (f t) = e t) -> steps (same_timed e) (upd f).
Proof. intros Hf. apply steps_upd. intros s. split; [apply Hf|done]. Qed.
(** A view of a view. *)
Lemma same_less {C} (g : iperf_test -> C) {A} (m : P A) : (forall t t', e t = e t' -> g t = g t') ->
  steps (same_timed e) m -> steps (same g) m.
Proof. intros Hg. apply steps_weaken. intros s s' [H _]. by apply Hg. Qed.
End Views.
Lemma on_world_os (R : relation world) {A} (m : M world A) : (forall w a w', m w = Some (a, w') -> R w w') -> steps (on_world R) (do_os m).
Proof. intros Hm. apply steps_do_os. intros s a w. apply Hm. Qed.

(** ** The tactic *)

Create HintDb frame discriminated.
#[export] Hint Constants Opaque : frame.
#[global] Typeclasses Opaque same same_timed on_world.
#[export] Hint Resolve steps_ret steps_fail steps_opt steps_os steps_tmr steps_timer steps_any_upd steps_any_try_upd : frame.
#[export] Hint Extern 0 (PreOrder _) => apply _ : frame.
#[export] Hint Extern 0 (IgnoresWorld _) => apply _ : frame.
#[export] Hint Extern 0 (IgnoresTimers _) => apply _ : frame.
#[export] Hint Extern 0 (IgnoresTest _) => apply _ : frame.
Ltac frame :=
  repeat first
    [ solve [eauto 3 with frame]
    | lazymatch goal with
      | |- steps _ (mbnd get_test _) => apply steps_get; intros ?
      | |- steps _ (mbnd _ _) => apply steps_bind; [apply _| |intros ?]
      | |- steps _ (when _ _) => apply steps_when; [apply _|]
      | |- steps (same _) (upd _) => apply same_upd; intros ?; solve [reflexivity | by repeat case_match]
      | |- steps (same_timed _) (upd _) => apply same_timed_upd; intros ?; solve [reflexivity | by repeat case_match]
      | |- steps _ (if ?b then _ else _) => destruct b
      | |- steps _ (match ?o with _ => _ end) => destruct o
      | |- steps _ (let '(_, _) := ?x in _) => destruct x
      end
    | progress cbv zeta ].
