(* ===== verification/Params.v ===== *)
(** * The parameters of a test: send_parameters and get_parameters

    The client describes the test to the server in one JSON object.  The text
    printed at debug level is left out. *)
From Stdlib Require Import Ascii String.
From stdpp Require Import strings.
From S2P Require Import Prelude Double Text Cjson IperfTime Timer Iperf Error Sys Net Json Util Api.
#[local] Open Scope string_scope.
#[local] Open Scope Z_scope.

Definition IPERF_VERSION : string := "3.19.1".

(** ** The client's side *)

(** [if (c) add(j)], and [if (s) cJSON_AddStringToObject(j, name, s)]. *)
Definition add_if (c : bool) (add : cJSON -> cJSON) (j : cJSON) : cJSON := if c then add j else j.
Definition add_some (s : option string) (name : string) (j : cJSON) : cJSON :=
  match s with Some v => cJSON_AddStringToObject j name v | None => j end.
Definition nonzero (z : Z) : bool := negb (z =? 0).
Definition add_number (name : string) (v : Z) (j : cJSON) : cJSON := cJSON_AddNumberToObject j name (Z2d v).
Definition add_true (name : string) (j : cJSON) : cJSON := cJSON_AddTrueToObject j name.

(** The object built by [send_parameters] for the protocol with number [id]. *)
Definition parameters (id : Z) (test : iperf_test) : cJSON :=
  let s := Test.settings test in
  let j := cJSON_CreateObject in
  let j := add_if (id =? Ptcp) (add_true "tcp") j in
  let j := add_if (negb (id =? Ptcp) && (id =? Pudp)) (add_true "udp") j in
  let j := add_if (negb (id =? Ptcp) && negb (id =? Pudp) && (id =? Psctp)) (add_true "sctp") j in
  let j := add_number "omit" (Test.omit test) j in
  let j := add_if (negb (Test.server_affinity test =? -1)) (add_number "server_affinity" (Test.server_affinity test)) j in
  let j := add_number "time" (Test.duration test) j in
  let j := add_number "num" (Settings.bytes s) j in
  let j := add_number "blockcount" (Settings.blocks s) j in
  let j := add_if (nonzero (Settings.mss s)) (add_number "MSS" (Settings.mss s)) j in
  let j := add_if (nonzero (Test.no_delay test)) (add_true "nodelay") j in
  let j := add_number "parallel" (Test.num_streams test) j in
  let j := add_if (nonzero (Test.reverse test)) (add_true "reverse") j in
  let j := add_if (nonzero (Test.bidirectional test)) (add_true "bidirectional") j in
  let j := add_if (nonzero (Settings.socket_bufsize s)) (add_number "window" (Settings.socket_bufsize s)) j in
  let j := add_if (nonzero (Settings.blksize s)) (add_number "len" (Settings.blksize s)) j in
  let j := add_if (nonzero (Settings.rate s)) (add_number "bandwidth" (Settings.rate s)) j in
  let j := add_if (nonzero (Settings.fqrate s)) (add_number "fqrate" (Settings.fqrate s)) j in
  let j := add_if (nonzero (Settings.pacing_timer s)) (add_number "pacing_timer" (Settings.pacing_timer s)) j in
  let j := add_if (nonzero (Settings.burst s)) (add_number "burst" (Settings.burst s)) j in
  let j := add_if (nonzero (Settings.tos s)) (add_number "TOS" (Settings.tos s)) j in
  let j := add_if (nonzero (Settings.flowlabel s)) (add_number "flowlabel" (Settings.flowlabel s)) j in
  let j := add_some (Test.title test) "title" j in
  let j := add_some (Test.extra_data test) "extra_data" j in
  let j := add_some (Test.congestion test) "congestion" j in
  let j := add_some (Test.congestion_used test) "congestion_used" j in
  let j := add_if (nonzero (Test.get_server_output test)) (add_number "get_server_output" (iperf_get_test_get_server_output test)) j in
  let j := add_if (nonzero (Test.udp_counters_64bit test)) (add_number "udp_counters_64bit" (iperf_get_test_udp_counters_64bit test)) j in
  let j := add_if (nonzero (Test.repeating_payload test)) (add_number "repeating_payload" (Test.repeating_payload test)) j in
  let j := add_if (nonzero (Test.zerocopy test)) (add_number "zerocopy" (Test.zerocopy test)) j in
  let j := add_if (nonzero (Settings.dont_fragment s)) (add_number "dont_fragment" (Settings.dont_fragment s)) j in
  let j := add_if (nonzero (Settings.skip_rx_copy s)) (add_number "skip_rx_copy" (Settings.skip_rx_copy s)) j in
  cJSON_AddStringToObject j "client_version" IPERF_VERSION.

(** Undefined when no protocol is set. *)
Definition send_parameters : P Z :=
  let! test := get_test in
  let! p := mopt (Test.protocol test) in
  let! r := do_os (JSON_write (Test.ctrl_sck test) (parameters (Protocol.id p) test)) in
  if r <? 0 then fail_with IESENDPARAMS ;; mret (-1) else mret 0.

(** ** The server's side *)

(** [if ((j_p = iperf_cJSON_GetObjectItemType(j, name, type)) != NULL) ...]. *)
Definition on_item (j : cJSON) (name : string) (type : json_type) (f : cJSON -> P unit) : P unit :=
  match iperf_cJSON_GetObjectItemType j name type with Some j_p => f j_p | None => mret tt end.
Definition on_number (j : cJSON) (name : string) (set : Z -> iperf_test -> iperf_test) : P unit :=
  on_item j name Want_Number (fun j_p => upd (set (valueint j_p))).
Definition on_string (j : cJSON) (name : string) (set : string -> iperf_test -> iperf_test) : P unit :=
  on_item j name Want_String (fun j_p => upd (set (valuestring j_p))).
Definition on_true (j : cJSON) (name : string) (m : P unit) : P unit := on_item j name Want_True (fun _ => m).
Definition in_settings (f : iperf_settings -> iperf_settings) (t : iperf_test) : iperf_test := t <| Test.settings ::= f |>.

(** The [valueint] of an item made by the parser, which sets it to 1 for true. *)
Definition parsed_valueint (j : cJSON) : Z := match j with cJSON_True => 1 | _ => valueint j end.

(** Undefined when no protocol is set and the test does not just receive. *)
Definition mark_retransmits : P unit :=
  let! t := get_test in
  if nonzero (Test.mode t) then
    let! p := mopt (Test.protocol t) in
    if (Protocol.id p =? Ptcp) && nonzero has_tcpinfo_retransmits
    then upd (fun t => t <| Test.sender_has_retransmits := 1 |>) else mret tt
  else mret tt.

(** The 64-bit [valueint] is converted to the type of each field. *)
Definition apply_parameters (j : cJSON) : P unit :=
  on_true j "tcp" (set_protocol Ptcp ;; mret tt) ;;
  on_true j "udp" (set_protocol Pudp ;; mret tt) ;;
  on_true j "sctp" (set_protocol Psctp ;; mret tt) ;;
  on_number j "omit" (fun n t => t <| Test.omit := i32 n |>) ;;
  on_number j "server_affinity" (fun n t => t <| Test.server_affinity := i32 n |>) ;;
  on_number j "time" (fun n t => t <| Test.duration := i32 n |>) ;;
  upd (in_settings (fun s => s <| Settings.bytes := 0 |>)) ;;
  on_number j "num" (fun n => in_settings (fun s => s <| Settings.bytes := u64 n |>)) ;;
  upd (in_settings (fun s => s <| Settings.blocks := 0 |>)) ;;
  on_number j "blockcount" (fun n => in_settings (fun s => s <| Settings.blocks := u64 n |>)) ;;
  on_number j "MSS" (fun n => in_settings (fun s => s <| Settings.mss := i32 n |>)) ;;
  on_true j "nodelay" (upd (fun t => t <| Test.no_delay := 1 |>)) ;;
  on_number j "parallel" (fun n t => t <| Test.num_streams := i32 n |>) ;;
  on_true j "reverse" (try_upd (fun t => iperf_set_test_reverse t 1)) ;;
  on_true j "bidirectional" (try_upd (fun t => iperf_set_test_bidirectional t 1)) ;;
  on_number j "window" (fun n => in_settings (fun s => s <| Settings.socket_bufsize := i32 n |>)) ;;
  on_number j "len" (fun n => in_settings (fun s => s <| Settings.blksize := i32 n |>)) ;;
  on_number j "bandwidth" (fun n => in_settings (fun s => s <| Settings.rate := u64 n |>)) ;;
  on_number j "fqrate" (fun n => in_settings (fun s => s <| Settings.fqrate := u64 n |>)) ;;
  on_number j "pacing_timer" (fun n => in_settings (fun s => s <| Settings.pacing_timer := i32 n |>)) ;;
  on_number j "burst" (fun n => in_settings (fun s => s <| Settings.burst := i32 n |>)) ;;
  on_number j "TOS" (fun n => in_settings (fun s => s <| Settings.tos := i32 n |>)) ;;
  on_number j "flowlabel" (fun n => in_settings (fun s => s <| Settings.flowlabel := i32 n |>)) ;;
  on_string j "title" (fun v t => t <| Test.title := Some v |>) ;;
  on_string j "extra_data" (fun v t => t <| Test.extra_data := Some v |>) ;;
  on_string j "congestion" (fun v t => t <| Test.congestion := Some v |>) ;;
  on_string j "congestion_used" (fun v t => t <| Test.congestion_used := Some v |>) ;;
  on_number j "get_server_output" (fun _ t => iperf_set_test_get_server_output t 1) ;;
  on_number j "udp_counters_64bit" (fun _ t => iperf_set_test_udp_counters_64bit t 1) ;;
  on_number j "repeating_payload" (fun _ t => t <| Test.repeating_payload := 1 |>) ;;
  on_number j "zerocopy" (fun n t => t <| Test.zerocopy := i32 n |>) ;;
  on_number j "dont_fragment" (fun n => in_settings (fun s => s <| Settings.dont_fragment := i32 n |>)) ;;
  match cJSON_GetObjectItem j "skip_rx_copy" with
  | Some j_p => upd (in_settings (fun s => s <| Settings.skip_rx_copy := i32 (parsed_valueint j_p) |>))
  | None => mret tt
  end ;;
  mark_retransmits.

(** The rate is noted in the report. *)
Definition note_target_bitrate : P unit :=
  let! t := get_test in
  if nonzero (Settings.rate (Test.settings t))
  then upd (add_start "target_bitrate" (cJSON_CreateNumber (Z2d (Settings.rate (Test.settings t))))) else mret tt.

Definition get_parameters : P Z :=
  let! test := get_test in
  let! j := do_os (JSON_read (Test.ctrl_sck test) MAX_PARAMS_JSON_STRING) in
  match j with
  | None => fail_with IERECVPARAMS ;; mret (-1)
  | Some j => apply_parameters j ;; note_target_bitrate ;; mret 0
  end.

(** ** The object as a table *)

Definition fields (id : Z) (t : iperf_test) : list (string * option cJSON) :=
  let s := Test.settings t in
  let positive (v : Z) := opt (nonzero v) (num v) in
  [("tcp", opt (id =? Ptcp) cJSON_True); ("udp", opt (negb (id =? Ptcp) && (id =? Pudp)) cJSON_True);
   ("sctp", opt (negb (id =? Ptcp) && negb (id =? Pudp) && (id =? Psctp)) cJSON_True);
   ("omit", Some (num (Test.omit t)));
   ("server_affinity", opt (negb (Test.server_affinity t =? -1)) (num (Test.server_affinity t)));
   ("time", Some (num (Test.duration t))); ("num", Some (num (Settings.bytes s)));
   ("blockcount", Some (num (Settings.blocks s))); ("MSS", positive (Settings.mss s));
   ("nodelay", opt (nonzero (Test.no_delay t)) cJSON_True); ("parallel", Some (num (Test.num_streams t)));
   ("reverse", opt (nonzero (Test.reverse t)) cJSON_True);
   ("bidirectional", opt (nonzero (Test.bidirectional t)) cJSON_True);
   ("window", positive (Settings.socket_bufsize s)); ("len", positive (Settings.blksize s));
   ("bandwidth", positive (Settings.rate s)); ("fqrate", positive (Settings.fqrate s));
   ("pacing_timer", positive (Settings.pacing_timer s)); ("burst", positive (Settings.burst s));
   ("TOS", positive (Settings.tos s)); ("flowlabel", positive (Settings.flowlabel s));
   ("title", cJSON_String <$> Test.title t); ("extra_data", cJSON_String <$> Test.extra_data t);
   ("congestion", cJSON_String <$> Test.congestion t);
   ("congestion_used", cJSON_String <$> Test.congestion_used t);
   ("get_server_output", positive (Test.get_server_output t));
   ("udp_counters_64bit", positive (Test.udp_counters_64bit t));
   ("repeating_payload", positive (Test.repeating_payload t)); ("zerocopy", positive (Test.zerocopy t));
   ("dont_fragment", positive (Settings.dont_fragment s)); ("skip_rx_copy", positive (Settings.skip_rx_copy s));
   ("client_version", Some (cJSON_String IPERF_VERSION))].

Lemma add_if_table c name v l :
  add_if c (fun j => cJSON_AddItemToObject j name v) (cJSON_Object (flatten l)) =
  cJSON_Object (flatten (l ++ [(name, opt c v)])).
Proof. rewrite flatten_app. destruct c; cbn; [done|]. by rewrite app_nil_r. Qed.
Lemma add_some_table o name l :
  add_some o name (cJSON_Object (flatten l)) = cJSON_Object (flatten (l ++ [(name, cJSON_String <$> o)])).
Proof. rewrite flatten_app. destruct o; cbn; [done|]. by rewrite app_nil_r. Qed.
Lemma parameters_table id t : parameters id t = cJSON_Object (flatten (fields id t)).
Proof.
  unfold parameters. cbv zeta. change cJSON_CreateObject with (cJSON_Object (flatten [])).
  unfold add_true, add_number, cJSON_AddTrueToObject, cJSON_AddNumberToObject, cJSON_AddStringToObject.
  repeat first [rewrite add_if_table | rewrite add_some_table | rewrite add_table]. reflexivity.
Qed.


Lemma get_field id t i k v :
  fields id t !! i = Some (k, v) -> strcaseeq k k = true -> cJSON_GetObjectItem (parameters id t) k = v.
Proof.
  intros Hi Hk. rewrite parameters_table. refine (find_item_field (fields id t) i k v _ Hk Hi). lazy. reflexivity.
Qed.

(** ** Running get_parameters on that object *)

(** Conditional updates, and how a field reads through them. *)
Definition ifu (c : bool) (f : iperf_test -> iperf_test) (t : iperf_test) : iperf_test := if c then f t else t.
Definition ifs (o : option string) (set : string -> iperf_test -> iperf_test) (t : iperf_test) : iperf_test :=
  match o with Some v => set v t | None => t end.
Lemma ifu_other {A} (proj : iperf_test -> A) c f t r :
  (forall t, proj (f t) = proj t) -> proj t = r -> proj (ifu c f t) = r.
Proof. intros Hf <-. destruct c; [apply Hf|done]. Qed.
Lemma ifu_field {A} (proj : iperf_test -> A) c f t v r :
  (forall t, proj (f t) = v) -> (c = true -> v = r) -> (c = false -> proj t = r) -> proj (ifu c f t) = r.
Proof. intros Hf H1 H2. destruct c; [rewrite <-(H1 eq_refl); apply Hf|by apply H2]. Qed.
Lemma ifs_other {A} (proj : iperf_test -> A) o set t r :
  (forall v t, proj (set v t) = proj t) -> proj t = r -> proj (ifs o set t) = r.
Proof. intros Hf <-. destruct o; [apply Hf|done]. Qed.
Lemma ifs_field (proj : iperf_test -> option string) o set t :
  (forall v t, proj (set v t) = Some v) -> 
  proj (ifs o set t) = match o with Some v => Some v | None => proj t end.
Proof. intros Hf. destruct o; [apply Hf|done]. Qed.

Section run.
Context {B : Type} (j : cJSON) (name : string) (k : unit -> P B) (s : prog).

Lemma run_upd f : mbnd (upd f) k s = k tt (s <| tst ::= ifu true f |>).
Proof. done. Qed.
Lemma run_number c z set : cJSON_GetObjectItem j name = opt c (num z) ->
  mbnd (on_number j name set) k s = k tt (s <| tst ::= ifu c (set (saturate (Z2d z))) |>).
Proof.
  intros Hj. unfold on_number, on_item, iperf_cJSON_GetObjectItemType. rewrite Hj.
  destruct c; [done|]. by destruct s.
Qed.
Lemma run_string o set : cJSON_GetObjectItem j name = cJSON_String <$> o ->
  mbnd (on_string j name set) k s = k tt (s <| tst ::= ifs o set |>).
Proof.
  intros Hj. unfold on_string, on_item, iperf_cJSON_GetObjectItemType. rewrite Hj.
  destruct o; [done|]. by destruct s.
Qed.
Lemma run_skip c z : cJSON_GetObjectItem j name = opt c (num z) ->
  mbnd (match cJSON_GetObjectItem j name with
        | Some j_p => upd (in_settings (fun s => s <| Settings.skip_rx_copy := i32 (parsed_valueint j_p) |>))
        | None => mret tt
        end) k s =
  k tt (s <| tst ::= ifu c (in_settings (fun s => s <| Settings.skip_rx_copy := i32 (saturate (Z2d z)) |>)) |>).
Proof. intros ->. destruct c; [done|]. by destruct s. Qed.
Lemma run_true c m f : cJSON_GetObjectItem j name = opt c cJSON_True ->
  (c = true -> m s = Some (tt, s <| tst ::= f |>)) ->
  mbnd (on_true j name m) k s = k tt (s <| tst ::= ifu c f |>).
Proof.
  intros Hj Hm. unfold on_true, on_item, iperf_cJSON_GetObjectItemType, mbnd. rewrite Hj.
  destruct c; cbn; [by rewrite (Hm eq_refl)|by destruct s].
Qed.
End run.

Definition chosen (p : Protocol.protocol) (t : iperf_test) : iperf_test :=
  t <| Test.protocol := Some p |> <| Test.sender_has_retransmits := 0 |>.
Lemma check_sender t p : Test.protocol t = Some p ->
  check_sender_has_retransmits t = Some (t <| Test.sender_has_retransmits := 0 |>).
Proof.
  intros Hp. unfold check_sender_has_retransmits. rewrite Hp.
  destruct (Test.mode t =? RECEIVER); [done|]. cbn [negb mbind option_bind].
  change (negb (has_tcpinfo_retransmits =? 0)) with false. by rewrite andb_false_r.
Qed.
Lemma set_protocol_known id p s l : Test.protocols (tst s) = l -> lookup_protocol id l = Some p ->
  (set_protocol id ;; mret tt) s = Some (tt, s <| tst ::= chosen p |>).
Proof.
  intros <- Hl. unfold set_protocol, try_upd, mbnd, get_test, upd, mmod, mopt. rewrite Hl. cbn [tst].
  by rewrite (check_sender _ p).
Qed.

Definition server_reversed (t : iperf_test) : iperf_test :=
  t <| Test.reverse := 1 |> <| Test.mode := SENDER |> <| Test.sender_has_retransmits := 0 |>.
Lemma reverse_server s p : Test.role (tst s) = "s"%char -> Test.protocol (tst s) = Some p ->
  try_upd (fun t => iperf_set_test_reverse t 1) s = Some (tt, s <| tst ::= server_reversed |>).
Proof.
  intros Hr Hp. unfold try_upd, mbnd, get_test, mopt, iperf_set_test_reverse. cbv zeta.
  change (Test.role (tst s <| Test.reverse := 1 |>)) with (Test.role (tst s)). rewrite Hr.
  change (Ascii.eqb "s" "c") with false. change (Ascii.eqb "s" "s") with true.
  change (Test.reverse (tst s <| Test.reverse := 1 |>) =? 0) with false. cbn iota.
  by rewrite (check_sender _ p).
Qed.
Definition made_bidirectional (t : iperf_test) : iperf_test :=
  t <| Test.bidirectional := 1 |> <| Test.mode := BIDIRECTIONAL |>.

(** ** What the server makes of the object *)

(** A field that is sent only when it is not zero. *)
Definition given (v old : Z) : Z := if v =? 0 then old else v.
Definition given_string (v old : option string) : option string :=
  match v with Some v => Some v | None => old end.
Definition flag (v old : Z) : Z := if v =? 0 then old else 1.

(** Values that fit their types, the 64-bit ones exact as doubles. *)
Record params_ok (c : iperf_test) : Prop := {
  ok_int : Forall in_i32 [Test.omit c; Test.server_affinity c; Test.duration c; Test.num_streams c; Test.zerocopy c;
    Test.get_server_output c; Test.udp_counters_64bit c; Test.repeating_payload c;
    Settings.mss (Test.settings c); Settings.socket_bufsize (Test.settings c); Settings.blksize (Test.settings c);
    Settings.pacing_timer (Test.settings c); Settings.burst (Test.settings c); Settings.tos (Test.settings c);
    Settings.flowlabel (Test.settings c); Settings.dont_fragment (Test.settings c);
    Settings.skip_rx_copy (Test.settings c)];
  ok_size : Forall (fun n => 0 <= n < 2 ^ 53) [Settings.bytes (Test.settings c); Settings.blocks (Test.settings c);
    Settings.rate (Test.settings c); Settings.fqrate (Test.settings c)];
  ok_text : Forall (fun o => match o with Some v => no_nul v = true | None => True end)
    [Test.title c; Test.extra_data c; Test.congestion c; Test.congestion_used c] }.

(** The server's test [s'] after the parameters of [c] came to a server in
    state [s]. *)
Record took (c s s' : iperf_test) : Prop := {
  t_protocol : Test.protocol s' = Test.protocol c;
  t_omit : Test.omit s' = Test.omit c;
  t_affinity : Test.server_affinity s' = if Test.server_affinity c =? -1 then Test.server_affinity s else Test.server_affinity c;
  t_duration : Test.duration s' = Test.duration c;
  t_bytes : Settings.bytes (Test.settings s') = Settings.bytes (Test.settings c);
  t_blocks : Settings.blocks (Test.settings s') = Settings.blocks (Test.settings c);
  t_mss : Settings.mss (Test.settings s') = given (Settings.mss (Test.settings c)) (Settings.mss (Test.settings s));
  t_no_delay : Test.no_delay s' = flag (Test.no_delay c) (Test.no_delay s);
  t_num_streams : Test.num_streams s' = Test.num_streams c;
  t_reverse : Test.reverse s' = flag (Test.reverse c) (Test.reverse s);
  t_bidirectional : Test.bidirectional s' = flag (Test.bidirectional c) (Test.bidirectional s);
  t_mode : Test.mode s' = if Test.bidirectional c =? 0 then (if Test.reverse c =? 0 then Test.mode s else SENDER)
                          else BIDIRECTIONAL;
  t_window : Settings.socket_bufsize (Test.settings s') = given (Settings.socket_bufsize (Test.settings c)) (Settings.socket_bufsize (Test.settings s));
  t_blksize : Settings.blksize (Test.settings s') = given (Settings.blksize (Test.settings c)) (Settings.blksize (Test.settings s));
  t_rate : Settings.rate (Test.settings s') = given (Settings.rate (Test.settings c)) (Settings.rate (Test.settings s));
  t_fqrate : Settings.fqrate (Test.settings s') = given (Settings.fqrate (Test.settings c)) (Settings.fqrate (Test.settings s));
  t_pacing : Settings.pacing_timer (Test.settings s') = given (Settings.pacing_timer (Test.settings c)) (Settings.pacing_timer (Test.settings s));
  t_burst : Settings.burst (Test.settings s') = given (Settings.burst (Test.settings c)) (Settings.burst (Test.settings s));
  t_tos : Settings.tos (Test.settings s') = given (Settings.tos (Test.settings c)) (Settings.tos (Test.settings s));
  t_flowlabel : Settings.flowlabel (Test.settings s') = given (Settings.flowlabel (Test.settings c)) (Settings.flowlabel (Test.settings s));
  t_title : Test.title s' = given_string (Test.title c) (Test.title s);
  t_extra : Test.extra_data s' = given_string (Test.extra_data c) (Test.extra_data s);
  t_congestion : Test.congestion s' = given_string (Test.congestion c) (Test.congestion s);
  t_congestion_used : Test.congestion_used s' = given_string (Test.congestion_used c) (Test.congestion_used s);
  t_output : Test.get_server_output s' = flag (Test.get_server_output c) (Test.get_server_output s);
  t_counters : Test.udp_counters_64bit s' = flag (Test.udp_counters_64bit c) (Test.udp_counters_64bit s);
  t_payload : Test.repeating_payload s' = flag (Test.repeating_payload c) (Test.repeating_payload s);
  t_zerocopy : Test.zerocopy s' = given (Test.zerocopy c) (Test.zerocopy s);
  t_fragment : Settings.dont_fragment (Test.settings s') = given (Settings.dont_fragment (Test.settings c)) (Settings.dont_fragment (Test.settings s));
  t_skip : Settings.skip_rx_copy (Test.settings s') = given (Settings.skip_rx_copy (Test.settings c)) (Settings.skip_rx_copy (Test.settings s)) }.

Lemma nonzero_true v old : nonzero v = true -> given v old = v.
Proof. unfold nonzero, given. by destruct (v =? 0). Qed.
Lemma nonzero_false v old : nonzero v = false -> given v old = old.
Proof. unfold nonzero, given. by destruct (v =? 0). Qed.
Lemma flag_true v old : nonzero v = true -> flag v old = 1.
Proof. unfold nonzero, flag. by destruct (v =? 0). Qed.
Lemma flag_false v old : nonzero v = false -> flag v old = old.
Proof. unfold nonzero, flag. by destruct (v =? 0). Qed.
Lemma tst_upd f s : tst (s <| tst ::= f |>) = f (tst s).
Proof. done. Qed.
Lemma os_upd f s : os (s <| tst ::= f |>) = os s /\ tmr (s <| tst ::= f |>) = tmr s.
Proof. done. Qed.

Lemma run_mark s p : Test.protocol (tst s) = Some p -> mark_retransmits s = Some (tt, s).
Proof.
  intros Hp. unfold mark_retransmits, mbnd, get_test, mopt. destruct (nonzero (Test.mode (tst s))); [|done].
  rewrite Hp. change (nonzero has_tcpinfo_retransmits) with false. by rewrite andb_false_r.
Qed.

(** [step i] runs the look-up of field [i]; [peel proj] reads a field of the
    test through the updates. *)
Ltac field i := refine (get_field _ _ i _ _ eq_refl eq_refl).
Ltac true_step i f tac := erewrite (run_true _ _ _ _ _ _ f); [|field i|intros _; tac].
Ltac num_step i :=
  first [erewrite run_number; [|field i] | erewrite (run_number _ _ _ _ true); [|field i]].
Ltac peel proj := repeat first
  [ apply (ifu_other proj); [intros []; reflexivity|]
  | apply (ifs_other proj); [intros ? []; reflexivity|]
  | eapply (ifu_field proj); [intros []; cbn -[i32 u64 saturate Z2d]; reflexivity|intros ?Hc|intros ?Hc] ]; try done.

Ltac closes := rewrite ?wire_i32, ?wire_u64 by done;
  first [done | by rewrite nonzero_true | by rewrite nonzero_false | by rewrite flag_true | by rewrite flag_false].
Ltac peel_settings f := peel (fun t : iperf_test => f (Test.settings t)); closes.

Lemma apply_parameters_took c p s :
  params_ok c -> Test.protocol c = Some p -> p = tcp_protocol \/ p = udp_protocol ->
  Test.protocols (tst s) = [tcp_protocol; udp_protocol] -> Test.role (tst s) = "s"%char ->
  exists s', apply_parameters (parameters (Protocol.id p) c) s = Some (tt, s') /\
    took c (tst s) (tst s') /\ os s' = os s /\ tmr s' = tmr s.
Proof.
  intros [Hint Hsize Htext] Hp Hpp Hps Hrole.
  eexists. split.
  { unfold apply_parameters.
    erewrite (run_true _ _ _ _ _ _ (chosen tcp_protocol)); [|field 0%nat|intros _; by apply (set_protocol_known _ _ _ _ Hps)].
    erewrite (run_true _ _ _ _ _ _ (chosen udp_protocol)); [|field 1%nat|intros _; eapply set_protocol_known; [rewrite tst_upd; peel Test.protocols; exact Hps|reflexivity]].
    erewrite (run_true _ _ _ _ _ _ id); [|field 2%nat|by destruct Hpp as [-> | ->]].
    num_step 3%nat. num_step 4%nat. num_step 5%nat. rewrite run_upd. num_step 6%nat. rewrite run_upd.
    num_step 7%nat. num_step 8%nat. true_step 9%nat (fun t => t <| Test.no_delay := 1 |>) ltac:(reflexivity). num_step 10%nat.
    true_step 11%nat server_reversed ltac:(apply (reverse_server _ p); rewrite ?tst_upd;
      [peel Test.role|peel Test.protocol; destruct Hpp; subst; done]).
    true_step 12%nat made_bidirectional ltac:(reflexivity).
    num_step 13%nat. num_step 14%nat. num_step 15%nat. num_step 16%nat. num_step 17%nat. num_step 18%nat.
    num_step 19%nat. num_step 20%nat.
    do 4 (erewrite run_string; [|first [field 21%nat|field 22%nat|field 23%nat|field 24%nat]]).
    num_step 25%nat. num_step 26%nat. num_step 27%nat. num_step 28%nat. num_step 29%nat.
    erewrite run_skip; [|field 30%nat].
    apply (run_mark _ p). rewrite ?tst_upd. peel Test.protocol; destruct Hpp; subst; done. }
  rewrite !(proj1 (os_upd _ _)), !(proj2 (os_upd _ _)), !tst_upd. split; [|done].
  repeat match goal with H : Forall _ (_ :: _) |- _ => apply Forall_cons in H as [? H] end.
  constructor.
  - peel Test.protocol; destruct Hpp as [-> | ->]; rewrite ?Hp; done.
  - peel Test.omit; closes.
  - peel Test.server_affinity; destruct (Test.server_affinity c =? -1); closes.
  - peel Test.duration; closes.
  - peel_settings Settings.bytes.
  - peel_settings Settings.blocks.
  - peel_settings Settings.mss.
  - peel Test.no_delay; closes.
  - peel Test.num_streams; closes.
  - peel Test.reverse; closes.
  - peel Test.bidirectional; closes.
  - peel Test.mode; unfold nonzero in *; destruct (Test.bidirectional c =? 0), (Test.reverse c =? 0); done.
  - peel_settings Settings.socket_bufsize.
  - peel_settings Settings.blksize.
  - peel_settings Settings.rate.
  - peel_settings Settings.fqrate.
  - peel_settings Settings.pacing_timer.
  - peel_settings Settings.burst.
  - peel_settings Settings.tos.
  - peel_settings Settings.flowlabel.
  - peel Test.title. rewrite (ifs_field Test.title) by done. unfold given_string. destruct (Test.title c); [done|]. peel Test.title.
  - peel Test.extra_data. rewrite (ifs_field Test.extra_data) by done. unfold given_string. destruct (Test.extra_data c); [done|]. peel Test.extra_data.
  - peel Test.congestion. rewrite (ifs_field Test.congestion) by done. unfold given_string. destruct (Test.congestion c); [done|]. peel Test.congestion.
  - peel Test.congestion_used. rewrite (ifs_field Test.congestion_used) by done. unfold given_string. destruct (Test.congestion_used c); [done|]. peel Test.congestion_used.
  - peel Test.get_server_output; closes.
  - peel Test.udp_counters_64bit; closes.
  - peel Test.repeating_payload; closes.
  - peel Test.zerocopy; closes.
  - peel_settings Settings.dont_fragment.
  - peel_settings Settings.skip_rx_copy.
Qed.

Lemma note_target_took c s0 s : took c s0 (tst s) ->
  exists s', note_target_bitrate s = Some (tt, s') /\ took c s0 (tst s') /\ os s' = os s.
Proof.
  intros []. unfold note_target_bitrate, mbnd, get_test. destruct (nonzero _); eexists; (split; [reflexivity|]); (split; [by constructor|done]).
Qed.

(** ** The exchange over the network *)

Lemma parameters_wire id c : params_ok c ->
  wire_ok (parameters id c) = true /\ (nesting (parameters id c) <= CJSON_NESTING_LIMIT)%nat.
Proof.
  intros [Hint Hsize Htext]. rewrite parameters_table.
  repeat match goal with H : Forall _ (_ :: _) |- _ => apply Forall_cons in H as [? H] end. split.
  - apply flatten_wire. unfold fields. repeat apply Forall_cons_2; try apply Forall_nil_2; cbn [fst snd].
    all: first [ apply num_wire; [done|first [by apply i32_small|lia]]
               | apply (num_wire _ _ true); [done|first [by apply i32_small|lia]]
               | apply text_wire; done
               | apply true_wire; done | done ].
  - rewrite flatten_flat; [unfold CJSON_NESTING_LIMIT; lia|]. unfold fields.
    repeat apply Forall_cons_2; try apply Forall_nil_2; cbn [fst snd];
      first [done | apply opt_flat; done | apply text_flat].
Qed.

Lemma parameters_arrive (c c' s : prog) (p : Protocol.protocol) (txt : string) (r : Z) (rest : list reply) :
  params_ok (tst c) -> Test.protocol (tst c) = Some p -> p = tcp_protocol \/ p = udp_protocol ->
  Test.protocols (tst s) = [tcp_protocol; udp_protocol] -> Test.role (tst s) = "s"%char ->
  cJSON_PrintUnformatted (parameters (Protocol.id p) (tst c)) = Some txt ->
  Z.of_nat (String.length txt) <= MAX_PARAMS_JSON_STRING ->
  send_parameters c = Some (r, c') -> Forall sane_write (calls (os c) (os c')) ->
  Forall (fun cr => 0 < ret cr.2) (calls (os c) (os c')) ->
  delivers (sent (calls (os c) (os c'))) (os s) rest ->
  r = 0 /\ exists s', get_parameters s = Some (0, s') /\ took (tst c) (tst s) (tst s') /\ script (os s') = rest.
Proof.
  intros Hok Hp Hpp Hps Hrole Htxt Hlen Hsend Hsane Hprog Hd. unfold MAX_PARAMS_JSON_STRING in *.
  unfold send_parameters in Hsend. apply mbnd_inv in Hsend as (t & c0 & [= <- <-] & Hsend).
  unfold mopt in Hsend. apply mbnd_inv in Hsend as (p' & c0 & Hp' & Hsend).
  rewrite Hp in Hp'. injection Hp' as <- <-. apply mbnd_inv in Hsend as (r1 & c1 & Hw & Hsend).
  unfold do_os, lift in Hw. destruct (JSON_write _ _ _) as [[r2 w1]|] eqn:Ew; [|done]. injection Hw as -> <-.
  assert (Hcalls : calls (os c) (os c') = calls (os c) w1).
  { destruct (r1 <? 0); injection Hsend as _ <-; reflexivity. }
  rewrite Hcalls in *. apply (emits_calls _ _ _ _ _ (JSON_write_sends _ _ _ Htxt ltac:(lia))) in Ew as [[_ Hr] _].
  destruct (Hr Hsane Hprog) as [-> Hsent]. cbn in Hsend. injection Hsend as <- <-. split; [done|].
  rewrite Hsent in Hd. destruct (parameters_wire (Protocol.id p) (tst c) Hok) as [Hwire Hnest].
  destruct (JSON_read_item (Test.ctrl_sck (tst s)) (8 * 1024) _ txt rest (os s) Hwire Hnest Htxt ltac:(lia)
    ltac:(right; lia) Hd) as (w2 & Hread & Hrest).
  pose (s1 := s <| os := w2 |>).
  destruct (apply_parameters_took (tst c) p s1 Hok Hp Hpp Hps Hrole) as (s' & Happ & Htook & Hos & _).
  destruct (note_target_took (tst c) (tst s1) s' Htook) as (s2 & Hnote & Htook2 & Hos2).
  exists s2. split; [|split; [exact Htook2|rewrite Hos2, Hos; exact Hrest]].
  unfold get_parameters, mbnd at 1, get_test. unfold mbnd at 1, do_os, lift, MAX_PARAMS_JSON_STRING.
  rewrite Hread. fold s1. unfold mbnd. by rewrite Happ, Hnote.
Qed.

(** C11. The parameters reach the server whole.  The client's [send_parameters]
    succeeds whatever pieces its writes go out in, and a server to which those
    bytes are delivered, in whatever other pieces, gets from [get_parameters] a
    test with the client's protocol, duration, amounts and options; a field
    that the client leaves out because it is zero keeps the value it had on
    the server, so a server in its initial state ends up with the client's. *)
Theorem parameters_exchange (c c' s : prog) (p : Protocol.protocol) (txt : string) (r : Z) (rest : list reply) :
  params_ok (tst c) -> Test.protocol (tst c) = Some p -> p = tcp_protocol \/ p = udp_protocol ->
  Test.protocols (tst s) = [tcp_protocol; udp_protocol] -> Test.role (tst s) = "s"%char ->
  cJSON_PrintUnformatted (parameters (Protocol.id p) (tst c)) = Some txt ->
  Z.of_nat (String.length txt) <= MAX_PARAMS_JSON_STRING ->
  send_parameters c = Some (r, c') -> Forall sane_write (calls (os c) (os c')) ->
  Forall (fun cr => 0 < ret cr.2) (calls (os c) (os c')) ->
  delivers (sent (calls (os c) (os c'))) (os s) rest ->
  r = 0 /\ exists s', get_parameters s = Some (0, s') /\ took (tst c) (tst s) (tst s') /\ script (os s') = rest.
Proof. apply parameters_arrive. Qed.

(** A client with a few options and a fresh server. *)
Definition demo_start (answers : list reply) : prog :=
  Prog iperf_new_test (TS ∅ None None) (World answers [] 0 0 0).
Definition demo_defaults : iperf_test :=
  match iperf_defaults (demo_start []) with Some (_, s) => tst s | None => iperf_new_test end.
Definition demo_role (role : ascii) : iperf_test := default iperf_new_test (iperf_set_test_role demo_defaults role).
Definition demo_test : iperf_test :=
  default iperf_new_test (iperf_set_test_reverse
    (iperf_set_test_rate (iperf_set_test_num_streams (demo_role "c") 4) 1000000) 1)
  <| Test.title := Some "demo" |>.
Definition demo_text : string := default "" (cJSON_PrintUnformatted (parameters Ptcp demo_test)).
Definition demo_client : prog :=
  demo_start [Reply 4 0 [] []; Reply 100 0 [] []; Reply (Z.of_nat (String.length demo_text) - 100) 0 [] []]
    <| tst := demo_test |>.
Definition demo_server : prog :=
  demo_start (Reply 1 0 [] [] :: feed [(take 4 (message demo_text), (7, 0))] ++
    Reply 1 0 [] [] :: feed [(drop 4 (message demo_text), (9, 0))] ++ []) <| tst := demo_role "s" |>.

Lemma parameters_exchange_witness :
  exists c', send_parameters demo_client = Some (0, c') /\
  0 = 0 /\ exists s', get_parameters demo_server = Some (0, s') /\
    took (tst demo_client) (tst demo_server) (tst s') /\ script (os s') = [].
Proof.
  eexists. split; [vm_compute; reflexivity|].
  eapply (parameters_exchange demo_client _ demo_server tcp_protocol demo_text 0 []).
  - constructor; repeat constructor; vm_compute; congruence.
  - vm_compute. reflexivity.
  - by left.
  - vm_compute. reflexivity.
  - vm_compute. reflexivity.
  - vm_compute. reflexivity.
  - vm_compute. congruence.
  - vm_compute. reflexivity.
  - apply (bool_decide_unpack _). vm_compute. exact I.
  - apply (bool_decide_unpack _). vm_compute. exact I.
  - exists 7, [(take 4 (message demo_text), (7, 0))], [(drop 4 (message demo_text), (9, 0))].
    split_and!; [vm_compute; reflexivity..| |lia|lia| |vm_compute; reflexivity].
    + repeat constructor; vm_compute; congruence.
    + apply (bool_decide_unpack _); vm_compute; exact I.
Defined.
