(* ===== verification/Printf.v ===== *)
(** * Formatted output: iperf_printf and iperf_json_printf

    The two formatters of the program with the format strings of
    iperf_locale.c that the reports use.  Text goes out through [Cfprintf]
    calls; a server also keeps its lines for the client.  The clock and the
    calendar behind a time stamp are one call. *)
From Stdlib Require Import Ascii String.
From stdpp Require Import strings.
From S2P Require Import Prelude Double Text Cjson Iperf Sys Net Json Util Api Params.
#[local] Open Scope string_scope.
#[local] Open Scope Z_scope.

(** ** Conversions *)

(** An argument: an integer of any width, a double, a string. *)
Inductive arg := Aint (z : Z) | Adbl (d : double) | Astr (s : string).

Definition pad_right (c : ascii) (w : nat) (s : string) : string := s ++ repeat_char c (w - String.length s).

Definition convert (c : ascii) (prec : option Z) (a : arg) : option string :=
  match c, a with
  | "d"%char, Aint z => Some (dec z)
  | "u"%char, Aint z => Some (dec (u64 z))
  | "s"%char, Astr s => Some s
  | "f"%char, Adbl d => Some (fixed 0 (Z.to_nat (default 6 prec)) d)
  | "g"%char, Adbl d => Some (general (Z.to_nat (Z.max 1 (default 6 prec))) d)
  | _, _ => None
  end.

(** The length modifiers of 64-bit integers. *)
Fixpoint skip_length (f : string) : string :=
  match f with String "l" f => skip_length f | _ => f end.

(** One conversion, behind the percent sign: flag, width, precision, length. *)
Definition conversion (f : string) (args : list arg) : option (string * string * list arg) :=
  let '(flush, f) := match f with String "-" f => (true, f) | _ => (false, f) end in
  let '(width, f) := scan_digits 10 0 f in
  let '(prec, f) := match f with
                    | String "." f => let '(p, f) := scan_digits 10 0 f in (Some p, f)
                    | _ => (None, f)
                    end in
  match skip_length f, args with
  | String c f, a :: args =>
      s ← convert c prec a;
      Some ((if flush then pad_right else pad_left) " "%char (Z.to_nat width) s, f, args)
  | _, _ => None
  end.

(** [vsnprintf]; [None] where an argument is missing or of another type. *)
Fixpoint vformat (fuel : nat) (format : string) (args : list arg) : option string :=
  match fuel with
  | O => None
  | S fuel =>
      match format with
      | EmptyString => Some ""
      | String "%" (String "%" f) => rest ← vformat fuel f args; Some (String "%" rest)
      | String "%" f =>
          '(s, f, args) ← conversion f args;
          rest ← vformat fuel f args; Some (s ++ rest)
      | String c f => rest ← vformat fuel f args; Some (String c rest)
      end
  end.
Definition formatted (format : string) (args : list arg) : option string :=
  vformat (S (String.length format)) format args.

(** ** Printing *)

Definition linebuffer_size : Z := 1024.
Definition strlen (s : string) : Z := Z.of_nat (String.length s).

(** Writing the pieces in turn and adding up the results; a failure is the
    result and ends the line. *)
Fixpoint print_pieces (r : Z) (pieces : list string) : P Z :=
  match pieces with
  | [] => mret r
  | text :: pieces =>
      let! r0 := do_os (sys (Cfprintf text)) in
      if ret r0 <? 0 then mret (ret r0) else print_pieces (r + ret r0) pieces
  end.

(** The time stamp, when one is asked for. *)
Definition time_stamp (test : iperf_test) : P (option string) :=
  if nonzero (Test.timestamps test) then
    let! format := mopt (Test.timestamp_format test) in
    let! r := do_os (sys (Cstrftime format)) in
    mret (Some (string_of (data r)))
  else mret None.

(** What the server's line buffer holds, and the length of the whole line. *)
Definition server_line (ct : option string) (text : string) : string * Z :=
  let stamp := default "" ct in
  let r := strlen stamp in
  if r <? linebuffer_size
  then (stamp ++ truncate (Z.to_nat (linebuffer_size - r)) text, r + strlen text)
  else (truncate (Z.to_nat linebuffer_size) stamp, r).

Definition iperf_printf (format : string) (args : list arg) : P Z :=
  let! test := get_test in
  let! ct := time_stamp test in
  let! text := mopt (formatted format args) in
  if Ascii.eqb (Test.role test) "c" then
    print_pieces 0 (match ct with Some ct => [ct] | None => [] end ++
                    match Test.title test with Some title => [String.append title ":  "] | None => [] end ++ [text])%list
  else if Ascii.eqb (Test.role test) "s" then
    let '(line, r) := server_line ct text in
    do_os (sys (Cfprintf line)) ;;
    (if nonzero (iperf_get_test_get_server_output test)
     then upd (fun t => t <| Test.server_output_list ::= fun l => (l ++ [line])%list |>) else mret tt) ;;
    mret r
  else mret 0.

(** ** Objects *)

Definition json_arg (c : ascii) (a : arg) : option cJSON :=
  match c, a with
  | "b"%char, Aint b => Some (cJSON_CreateBool b)
  | "d"%char, Aint z => Some (cJSON_CreateNumber (Z2d z))
  | "f"%char, Adbl d => Some (cJSON_CreateNumber d)
  | "s"%char, Astr s => Some (cJSON_CreateString s)
  | _, _ => None
  end.

(** The loop: [name] is what the buffer of 100 bytes holds, [named] tells that a
    colon has ended it.  [None] is the null result of an unknown conversion, an
    overflow of the buffer, or a value whose name is not ended. *)
Fixpoint json_format (format name : string) (named : bool) (args : list arg) (o : cJSON) : option cJSON :=
  match format with
  | EmptyString => Some o
  | String " " f => json_format f name named args o
  | String ":" f => json_format f name true args o
  | String "%" EmptyString => None
  | String "%" (String c f) =>
      if named then
        match args with
        | a :: args => j ← json_arg c a; json_format f "" false args (cJSON_AddItemToObject o name j)
        | [] => None
        end
      else None
  | String c f => if strlen name <? 99 then json_format f (name ++ String c "") false args o else None
  end.
Definition iperf_json_printf (format : string) (args : list arg) : option cJSON :=
  json_format format "" false args cJSON_CreateObject.

(** ** The format strings of the reports *)

Definition nl (s : string) : string := s ++ newline.

Definition report_bw_header := nl "[ ID] Interval           Transfer     Bitrate".
Definition report_bw_header_bidir := nl "[ ID][Role] Interval           Transfer     Bitrate".
Definition report_bw_retrans_header := nl "[ ID] Interval           Transfer     Bitrate         Retr".
Definition report_bw_retrans_header_bidir := nl "[ ID][Role] Interval           Transfer     Bitrate         Retr".
Definition report_bw_retrans_cwnd_header := nl "[ ID] Interval           Transfer     Bitrate         Retr  Cwnd".
Definition report_bw_retrans_cwnd_header_bidir := nl "[ ID][Role] Interval           Transfer     Bitrate         Retr  Cwnd".
Definition report_bw_udp_header := nl "[ ID] Interval           Transfer     Bitrate         Jitter    Lost/Total Datagrams".
Definition report_bw_udp_header_bidir :=
  nl "[ ID][Role] Interval           Transfer     Bitrate         Jitter    Lost/Total Datagrams".
Definition report_bw_udp_sender_header := nl "[ ID] Interval           Transfer     Bitrate         Total Datagrams".
Definition report_bw_format := nl "[%3d]%s %6.2f-%-6.2f sec  %ss  %ss/sec                  %s".
Definition report_bw_retrans_format := nl "[%3d]%s %6.2f-%-6.2f sec  %ss  %ss/sec  %3ld            %s".
Definition report_bw_retrans_cwnd_format := nl "[%3d]%s %6.2f-%-6.2f sec  %ss  %ss/sec  %3ld   %ss       %s".
Definition report_bw_udp_format := nl "[%3d]%s %6.2f-%-6.2f sec  %ss  %ss/sec  %5.3f ms  %lld/%lld (%.2g%%)  %s".
Definition report_bw_udp_format_no_omitted_error :=
  nl "[%3d]%s %6.2f-%-6.2f sec  %ss  %ss/sec  %5.3f ms  Unknown/%lld  %s".
Definition report_bw_udp_sender_format := nl "[%3d]%s %6.2f-%-6.2f sec  %ss  %ss/sec %s %lld  %s".
Definition report_summary := nl "Test Complete. Summary Results:".
Definition report_sum_bw_format := nl "[SUM]%s %6.2f-%-6.2f sec  %ss  %ss/sec                  %s".
Definition report_sum_bw_retrans_format := nl "[SUM]%s %6.2f-%-6.2f sec  %ss  %ss/sec  %3lld             %s".
Definition report_sum_bw_udp_format := nl "[SUM]%s %6.2f-%-6.2f sec  %ss  %ss/sec  %5.3f ms  %lld/%lld (%.2g%%)  %s".
Definition report_sum_bw_udp_sender_format := nl "[SUM]%s %6.2f-%-6.2f sec  %ss  %ss/sec %s %lld  %s".
Definition report_omitted := "(omitted)".
Definition report_bw_separator := nl "- - - - - - - - - - - - - - - - - - - - - - - - -".
Definition report_sum_outoforder := nl "[SUM]%s %4.1f-%4.1f sec  %llu datagrams received out-of-order".
Definition report_diskfile := nl "        Sent %s / %s (%d%%) of %s".
Definition report_cpu := nl "CPU Utilization: %s/%s %.1f%% (%.1f%%u/%.1f%%s), %s/%s %.1f%% (%.1f%%u/%.1f%%s)".
Definition report_local := "local".
Definition report_remote := "remote".
Definition report_sender := "sender".
Definition report_receiver := "receiver".
Definition report_sender_not_available_format := nl "[%3d] (sender statistics not available)".
Definition report_sender_not_available_summary_format := nl "[%3s] (sender statistics not available)".
Definition report_receiver_not_available_format := nl "[%3d] (receiver statistics not available)".
Definition report_receiver_not_available_summary_format := nl "[%3s] (receiver statistics not available)".

Example one_row :
  formatted report_bw_udp_format [Aint 5; Astr "[TX-C]"; Adbl dzero; Adbl (Z2d 1); Astr "1.25 MByte"; Astr "10.5 Mbit";
                                  Adbl (dlit 1 8); Aint 3; Aint 906; Adbl (dlit 1 3); Astr ""] =
  Some (nl "[  5][TX-C]   0.00-1.00   sec  1.25 MBytes  10.5 Mbits/sec  0.125 ms  3/906 (0.33%)  ").
Proof. vm_compute. reflexivity. Qed.
