(* ===== verification/Output.v ===== *)
(** * The messages and the document that frame the reports

    What is said when a connection is made, when a stream is connected and when
    the test starts, and the life of the JSON document: iperf_json_start,
    iperf_json_finish, the stream of JSON events, and the error member that
    iperf_err adds.  What is written at the end parses back to what was
    collected.  Addresses and dates come as text from the calls that read them;
    text for standard error is left out, and creating items is taken to
    succeed. *)
From Stdlib Require Import Ascii String.
From stdpp Require Import strings.
From S2P Require Import Prelude Double Timer Text Cjson Iperf Error Sys Net Json Util Api Frame Params Printf.
#[local] Open Scope string_scope.
#[local] Open Scope Z_scope.

Definition client (test : iperf_test) : bool := Ascii.eqb (Test.role test) "c".
Definition server (test : iperf_test) : bool := Ascii.eqb (Test.role test) "s".
Definition say (format : string) (args : list arg) : P unit := iperf_printf format args ;; mret tt.

(** ** Events *)

Definition JSONStream_Output (event_name : string) (obj : option cJSON) : P Z :=
  let event := cJSON_AddStringToObject cJSON_CreateObject "event" event_name in
  let event := match obj with Some o => cJSON_AddItemToObject event "data" o | None => event end in
  match cJSON_PrintUnformatted event with
  | None => mret (-1)
  | Some str => do_os (sys (Cfprintf (nl str))) ;; mret 0
  end.

(** ** Errors *)

(** The text of [i_errno]; the texts of the numbers behind it are one call. *)
Definition get_i_errno : M world Z := fun w => Some (i_errno w, w).
Definition get_gerror : M world Z := fun w => Some (gerror w, w).
Definition error_text : P string :=
  let! n := do_os get_i_errno in
  let! e := do_os get_errno in
  let! g := do_os get_gerror in
  let! r := do_os (sys (Cstrerror e g)) in
  let '(str, g) := iperf_strerror (fun _ => string_of (data r)) (fun _ => string_of (data r)) e g n in
  do_os (mmod (fun w => w <| gerror := g |>)) ;; mret str.

(** In a JSON report the error is a member of the document. *)
Definition add_error (str : string) (t : iperf_test) : iperf_test :=
  if nonzero (Test.json_output t) then add_top "error" (cJSON_CreateString (truncate 1000 str)) t else t.
Definition iperf_err (str : string) : P unit := upd (add_error str).
(** The same with the text of [i_errno] behind the message. *)
Definition iperf_err_errno (message : string) : P unit := let! str := error_text in iperf_err (message ++ str).

(** ** The message about a new connection *)

Definition mapped_v4_to_regular_v4 (str : string) : string * bool :=
  if String.prefix "::ffff:" str then (String.substring 7 (String.length str - 7) str, true) else (str, false).

Definition report_time := nl "Time: %s".
Definition report_connecting := nl "Connecting to host %s, port %d".
Definition report_reverse := nl "Reverse mode, remote host %s is sending".
Definition report_accepted := nl "Accepted connection from %s, port %d".
Definition report_cookie := nl "      Cookie: %s".

(** An object made from a format, as a member of the start of the document. *)
Definition note (name format : string) (args : list arg) : P unit :=
  let! o := mopt (iperf_json_printf format args) in upd (add_start name o).
Definition note_number (name : string) (v : Z) : P unit := upd (add_start name (cJSON_CreateNumber (Z2d v))).

(** What both sides say about the test, in the document and in words. *)
Definition note_settings (test : iperf_test) : P unit :=
  let st := Test.settings test in
  upd (add_start "cookie" (cJSON_CreateString (Test.cookie test))) ;;
  let! p := mopt (Test.protocol test) in
  when (Protocol.id p =? Ptcp)
    (if nonzero (Settings.mss st) then note_number "tcp_mss" (Settings.mss st) else note_number "tcp_mss_default" (Test.ctrl_sck_mss test)) ;;
  note_number "target_bitrate" (Settings.rate st) ;;
  note_number "fq_rate" (Settings.fqrate st).
Definition say_settings (test : iperf_test) : P unit :=
  let st := Test.settings test in
  say report_cookie [Astr (Test.cookie test)] ;;
  let! p := mopt (Test.protocol test) in
  when (Protocol.id p =? Ptcp)
    (if nonzero (Settings.mss st) then say (nl "      TCP MSS: %d") [Aint (Settings.mss st)]
     else say (nl "      TCP MSS: %d (default)") [Aint (Test.ctrl_sck_mss test)]) ;;
  when (nonzero (Settings.rate st)) (say (nl "      Target Bitrate: %llu") [Aint (Settings.rate st)]).

(** The date is one call, with the seconds; the peer's address comes as text. *)
Definition iperf_on_connect : P unit :=
  let! test := get_test in
  let json := nonzero (Test.json_output test) in
  let verbose := negb json && nonzero (Test.verbose test) in
  let! date := do_os (sys (Cstrftime "%a, %d %b %Y %H:%M:%S %Z")) in
  let now_str := Astr (string_of (data date)) in
  when json (note "timestamp" "time: %s  timesecs: %d" [now_str; Aint (nth 0 (outs date) 0)]) ;;
  when verbose (say report_time [now_str]) ;;
  (if client test then
     let! host := mopt (Test.server_hostname test) in
     if json then note "connecting_to" "host: %s  port: %d" [Astr host; Aint (Test.server_port test)]
     else
       say report_connecting [Astr host; Aint (Test.server_port test)] ;;
       when (nonzero (Test.reverse test)) (say report_reverse [Astr host])
   else
     let! peer := do_os (sys (Cgetpeername (Test.ctrl_sck test))) in
     do_os (getsockdomain (Test.ctrl_sck test)) ;;
     let '(ipr, mapped) := mapped_v4_to_regular_v4 (string_of (data peer)) in
     let port := Aint (nth 0 (outs peer) 0) in
     when mapped (upd (fun t => iperf_set_mapped_v4 t 1)) ;;
     if json then note "accepted_connection" "host: %s  port: %d" [Astr ipr; port] else say report_accepted [Astr ipr; port]) ;;
  when json (note_settings test) ;;
  when verbose (say_settings test).

(** ** The message about a stream *)

Definition report_connected := nl "[%3d] local %s port %d connected to %s port %d".
Definition connect_msg (sp : iperf_stream) : P unit :=
  do_os (getsockdomain (Stream.socket sp)) ;;
  let '(ipl, lport) := Stream.local_addr sp in
  let '(ipr, rport) := Stream.remote_addr sp in
  let args := [Aint (Stream.socket sp); Astr (mapped_v4_to_regular_v4 ipl).1; Aint lport; Astr (mapped_v4_to_regular_v4 ipr).1; Aint rport] in
  let! test := get_test in
  if nonzero (Test.json_output test) then
    let! o := mopt (iperf_json_printf "socket: %d  local_host: %s  local_port: %d  remote_host: %s  remote_port: %d" args) in
    upd (fun t => t <| Test.json_connected ::= add_to_array o |>)
  else say report_connected args.
Definition iperf_on_new_stream (sp : iperf_stream) : P unit := connect_msg sp.

(** ** The message about the start of the test *)

Definition test_start_time := nl "Starting Test: protocol: %s, %d streams, %d byte blocks, omitting %d seconds, %d second test, tos %d".
Definition test_start_bytes := nl "Starting Test: protocol: %s, %d streams, %d byte blocks, omitting %d seconds, %llu bytes to send, tos %d".
Definition test_start_blocks := nl "Starting Test: protocol: %s, %d streams, %d byte blocks, omitting %d seconds, %llu bytes to send, tos %d".
Definition iperf_on_test_start : P unit :=
  let! test := get_test in
  let st := Test.settings test in
  let! p := mopt (Test.protocol test) in
  let name := Astr (Protocol.name p) in
  (if nonzero (Test.json_output test) then
     note "test_start"
       "protocol: %s  num_streams: %d  blksize: %d  omit: %d  duration: %d  bytes: %d  blocks: %d  reverse: %d  tos: %d  target_bitrate: %d bidir: %d fqrate: %d interval: %f"
       [name; Aint (Test.num_streams test); Aint (Settings.blksize st); Aint (Test.omit test); Aint (Test.duration test);
        Aint (i64 (Settings.bytes st)); Aint (i64 (Settings.blocks st)); Aint (if nonzero (Test.reverse test) then 1 else 0);
        Aint (Settings.tos st); Aint (i64 (Settings.rate st)); Aint (Test.bidirectional test); Aint (i64 (Settings.fqrate st));
        Adbl (Test.stats_interval test)]
   else
     when (nonzero (Test.verbose test))
       (let amount (format : string) (n : Z) :=
          say format [name; Aint (Test.num_streams test); Aint (Settings.blksize st); Aint (Test.omit test); Aint n; Aint (Settings.tos st)] in
        if nonzero (Settings.bytes st) then amount test_start_bytes (Settings.bytes st)
        else if nonzero (Settings.blocks st) then amount test_start_blocks (Settings.blocks st)
        else amount test_start_time (Test.duration test))) ;;
  let! test := get_test in
  when (nonzero (Test.json_stream test)) (JSONStream_Output "start" (start_object test) ;; mret tt).
Definition iperf_on_test_finish : P unit := mret tt.

(** ** The life of the document *)

Definition iperf_json_start : P Z :=
  upd (fun t => t <| Test.json_top := Some cJSON_CreateObject |> <| Test.json_start := Some cJSON_CreateObject |>
    <| Test.json_connected := Some cJSON_CreateArray |> <| Test.json_intervals := Some cJSON_CreateArray |>
    <| Test.json_end := Some cJSON_CreateObject |>) ;; mret 0.

(** The program and the system, at the head of a report; uname answers with the
    text of its five fields, cut to the buffer. *)
Definition version := "iperf 3.19.1".
Definition get_system_info : P string := let! r := do_os (sys Cuname) in mret (truncate 1024 (string_of (data r))).
(** The features that the program was built with; [have] is the configuration. *)
Definition feature_names : list string :=
  ["CPU affinity setting"; "IPv6 flow label"; "SCTP"; "TCP congestion algorithm setting"; "sendfile / zerocopy";
   "socket pacing"; "authentication"; "bind to device"; "support IPv4 don't fragment"; "POSIX threads"].
Definition add_feature (have : string -> bool) (st : string * Z) (name : string) : string * Z :=
  if have name then
    let '(features, numfeatures) := st in
    let features := if 0 <? numfeatures then truncate 1024 (features ++ ", ") else features in
    (truncate 1024 (features ++ name), numfeatures + 1)
  else st.
Definition get_optional_features (have : string -> bool) : string :=
  let '(features, numfeatures) := fold_left (add_feature have) feature_names ("Optional features available: ", 0) in
  if numfeatures =? 0 then truncate 1024 (features ++ "None") else features.
Fixpoint room (names : list string) : nat :=
  match names with [] => O | name :: names => (String.length name + 2 + room names)%nat end.
Lemma concat_snoc names x : String.concat ", " (names ++ [x])%list = (if (0 <? Z.of_nat (length names)) then String.concat ", " names ++ ", " else "") ++ x.
Proof.
  induction names as [|n names IH]; [by rewrite append_nil|]. rewrite (proj2 (Z.ltb_lt _ _)) by (cbn; lia).
  destruct names as [|m names]; [by cbn; rewrite append_assoc|]. cbn [app String.concat] in *. rewrite IH, (proj2 (Z.ltb_lt _ _)) by (cbn; lia).
  by rewrite !append_assoc.
Qed.
Lemma add_features have names : forall base old, (String.length (base ++ String.concat ", " old) + room names < 1024)%nat ->
  fold_left (add_feature have) names (base ++ String.concat ", " old, Z.of_nat (length old)) =
  (base ++ String.concat ", " (old ++ List.filter have names)%list, Z.of_nat (length (old ++ List.filter have names)%list)).
Proof.
  induction names as [|x names IH]; intros base old Hl; cbn [fold_left List.filter room] in *; [by rewrite app_nil_r|].
  unfold add_feature at 2. destruct (have x); [|apply IH; lia].
  assert ((truncate 1024 ((if 0 <? Z.of_nat (length old) then truncate 1024 ((base ++ String.concat ", " old) ++ ", ") else base ++ String.concat ", " old) ++ x),
    Z.of_nat (length old) + 1) = (base ++ String.concat ", " (old ++ [x])%list, Z.of_nat (length (old ++ [x])%list))) as ->.
  { rewrite concat_snoc, length_app. f_equal; [|cbn; lia]. rewrite length_append in Hl. destruct (0 <? Z.of_nat (length old)) eqn:E.
    - rewrite (truncate_id 1024 ((base ++ _) ++ ", ")) by (rewrite !length_append; cbn in *; lia).
      rewrite truncate_id by (rewrite !length_append; cbn in *; lia). by rewrite !append_assoc.
    - destruct old; [|done]. cbn [String.concat] in *. rewrite !append_nil_r, append_nil. rewrite truncate_id by (rewrite length_append; cbn in *; lia). done. }
  rewrite IH; [by rewrite <-app_assoc|]. rewrite concat_snoc, !length_append in *. destruct (0 <? _); rewrite ?length_append; cbn in *; lia.
Qed.
(** In every configuration the text fits and lists exactly the features. *)
Lemma get_optional_features_exact have : get_optional_features have =
  "Optional features available: " ++
  match List.filter have feature_names with [] => "None" | names => String.concat ", " names end.
Proof.
  unfold get_optional_features. pose proof (add_features have feature_names "Optional features available: " [] ltac:(vm_compute; lia)) as H.
  change ("Optional features available: " ++ String.concat ", " []) with "Optional features available: " in H. change (Z.of_nat (length [])) with 0 in H.
  rewrite H. cbn [app]. destruct (List.filter have feature_names) as [|x names]; [reflexivity|]. by rewrite (proj2 (Z.eqb_neq _ _)) by (cbn; lia).
Qed.
Definition introduce : P unit :=
  let! test := get_test in
  if nonzero (Test.json_output test) then
    upd (add_start "version" (cJSON_CreateString version)) ;;
    let! info := get_system_info in upd (add_start "system_info" (cJSON_CreateString info))
  else
    when (nonzero (Test.verbose test))
      (say (nl "%s") [Astr version] ;; say "%s" [Astr ""] ;; let! info := get_system_info in say (nl "%s") [Astr info]).

(** What is known only at the end. *)
Definition add_some_top (name : string) (item : option cJSON) : P unit :=
  match item with Some item => upd (add_top name item) | None => mret tt end.
Definition finish_document (test : iperf_test) : P unit :=
  add_some_top "title" (cJSON_CreateString <$> Test.title test) ;;
  add_some_top "extra_data" (cJSON_CreateString <$> Test.extra_data test) ;;
  add_some_top "server_output_json" (Test.json_server_output test) ;;
  add_some_top "server_output_text" (cJSON_CreateString <$> Test.server_output_text test).
Definition event_if (name : string) (item : option cJSON) : P unit :=
  match item with Some _ => JSONStream_Output name item ;; mret tt | None => mret tt end.
Definition last_events (test : iperf_test) (document : cJSON) : P unit :=
  event_if "error" (iperf_cJSON_GetObjectItemType document "error" Want_String) ;;
  event_if "server_output_json" (Test.json_server_output test) ;;
  event_if "server_output_text" (cJSON_CreateString <$> Test.server_output_text test) ;;
  JSONStream_Output "end" (Test.json_end test) ;; mret tt.
Definition forget_document (t : iperf_test) : iperf_test :=
  t <| Test.json_top := None |> <| Test.json_start := None |> <| Test.json_connected := None |> <| Test.json_intervals := None |>
    <| Test.json_server_output := None |> <| Test.json_end := None |>.

(** The copy that the program keeps of the text is left out. *)
Definition iperf_json_finish : P Z :=
  let! test := get_test in
  let! r :=
    match Test.json_top test with
    | None => mret 0
    | Some _ =>
        finish_document test ;;
        let! test := get_test in
        let! document := mopt (report_document test) in
        if nonzero (Test.json_stream test) then last_events test document ;; mret 0
        else
          match cJSON_Print document with
          | None => mret (-1)
          | Some str => do_os (sys (Cfprintf (nl str))) ;; mret 0
          end
    end in
  if r <? 0 then mret (-1) else upd forget_document ;; mret 0.

(** ** Messages leave the test alone *)

(** Programs after which the test is the same but for what [e] erases. *)
Abbreviation erases e := (steps (same_timed (B := iperf_test) e)).

(** The test without what was said and noted. *)
Definition unsaid (t : iperf_test) : iperf_test :=
  t <| Test.server_output_list := [] |> <| Test.json_top := None |> <| Test.json_start := None |> <| Test.json_connected := None |>.
Lemma erases_pieces e pieces : forall r, erases e (print_pieces r pieces).
Proof. induction pieces as [|piece pieces IH]; intros r; cbn [print_pieces]; frame. Qed.
#[export] Hint Resolve erases_pieces : frame.
Lemma unsaid_say format args : erases unsaid (say format args).
Proof. unfold say, iperf_printf, time_stamp. frame. Qed.
#[export] Hint Resolve unsaid_say : frame.
Lemma unsaid_connect_msg sp : erases unsaid (connect_msg sp).
Proof. unfold connect_msg. frame. Qed.
Lemma unsaid_new_stream sp : erases unsaid (iperf_on_new_stream sp).
Proof. apply unsaid_connect_msg. Qed.
Lemma unsaid_add_error str t : unsaid (add_error str t) = unsaid t.
Proof. unfold add_error. by destruct (nonzero _). Qed.
Lemma unsaid_err str : erases unsaid (iperf_err str).
Proof. apply same_timed_upd, unsaid_add_error. Qed.
#[export] Hint Resolve unsaid_err : frame.
Lemma unsaid_err_errno str : erases unsaid (iperf_err_errno str).
Proof. unfold iperf_err_errno, error_text. frame. Qed.
Lemma unsaid_note name format args : erases unsaid (note name format args).
Proof. unfold note. frame. Qed.
#[export] Hint Resolve unsaid_note unsaid_new_stream unsaid_err_errno : frame.
Lemma unsaid_test_start : erases unsaid iperf_on_test_start.
Proof. unfold iperf_on_test_start, JSONStream_Output. frame. Qed.
Lemma unsaid_introduce : erases unsaid introduce.
Proof. unfold introduce, get_system_info. frame. Qed.
#[export] Hint Resolve unsaid_test_start unsaid_introduce : frame.

(** ** What is written at the end *)

Definition last_members (t : iperf_test) : list (string * cJSON) :=
  flatten [("title", cJSON_CreateString <$> Test.title t); ("extra_data", cJSON_CreateString <$> Test.extra_data t);
           ("server_output_json", Test.json_server_output t); ("server_output_text", cJSON_CreateString <$> Test.server_output_text t)].
Definition whole_report (t : iperf_test) (top : list (string * cJSON)) : cJSON :=
  cJSON_Object (("start", default cJSON_NULL (start_object t)) :: ("intervals", default cJSON_NULL (Test.json_intervals t)) ::
    ("end", default cJSON_NULL (Test.json_end t)) :: top ++ last_members t)%list.
(** An event says which it is and carries its data. *)
Definition event_of (name : string) (obj : option cJSON) : cJSON :=
  cJSON_Object (("event", cJSON_String name) :: flatten [("data", obj)]).
Definition events_of (l : list (string * option cJSON)) : list cJSON :=
  flat_map (fun kv => match kv.2 with Some _ => [event_of kv.1 kv.2] | None => [] end) l.
Definition last_items (t : iperf_test) (document : cJSON) : list cJSON :=
  (events_of [("error", iperf_cJSON_GetObjectItemType document "error" Want_String); ("server_output_json", Test.json_server_output t);
              ("server_output_text", cJSON_CreateString <$> Test.server_output_text t)] ++ [event_of "end" (Test.json_end t)])%list.
(** One document, or the last events of a stream. *)
Definition last_documents (t : iperf_test) (top : list (string * cJSON)) : list cJSON :=
  if nonzero (Test.json_stream t) then last_items t (whole_report t top) else [whole_report t top].

(** A run that writes these documents, a line each, and nothing else. *)
Definition sendable (j : cJSON) : Prop := wire_ok j = true /\ (nesting j <= CJSON_NESTING_LIMIT)%nat.
Lemma sendable_all l : forallb (fun j => wire_ok j && (nesting j <=? CJSON_NESTING_LIMIT)%nat) l = true -> Forall sendable l.
Proof.
  rewrite forallb_forall, List.Forall_forall. intros H j [Hw Hn%Nat.leb_le]%H%andb_true_iff. done.
Qed.
Definition lines (txts : list string) : list call := map (fun txt => Cfprintf (nl txt)) txts.
Definition parse_to (txts : list string) (docs : list cJSON) : Prop := Forall2 (fun txt j => cJSON_Parse txt = Some j) txts docs.
Record writes (s : prog) (docs : list cJSON) (s' : prog) : Prop := Writes {
  writes_tst : tst s' = tst s;
  writes_script : script (os s') = drop (length docs) (script (os s));
  writes_lines : exists txts, parse_to txts docs /\ (trace (os s')).*1 = ((trace (os s)).*1 ++ lines txts)%list }.
Lemma writes_none s : writes s [] s.
Proof. split; [done|done|]. exists []. split; [constructor|]. by rewrite app_nil_r. Qed.
Lemma writes_app s docs s1 docs' s' : writes s docs s1 -> writes s1 docs' s' -> writes s (docs ++ docs') s'.
Proof.
  intros [T S (t & P & L)] [T' S' (t' & P' & L')]. split; [congruence|by rewrite S', S, drop_drop, length_app|].
  exists (t ++ t')%list. split; [by apply Forall2_app|]. unfold lines in *. by rewrite L', L, map_app, app_assoc.
Qed.
Lemma writes_line s j txt : script (os s) <> [] -> cJSON_Parse txt = Some j ->
  exists r s', do_os (sys (Cfprintf (nl txt))) s = Some (r, s') /\ writes s [j] s'.
Proof.
  intros Hs Hp. unfold do_os, lift, sys. destruct (script (os s)) as [|r rest] eqn:E; [done|].
  do 2 eexists. split; [reflexivity|]. split; [done|cbn; by rewrite E|]. exists [txt]. split; [by repeat constructor|].
  match goal with |- (trace ?w).*1 = _ => change (trace w) with (trace (os s) ++ [(Cfprintf (nl txt), r)])%list end. by rewrite fmap_app.
Qed.

(** A program that writes these documents wherever the system answers. *)
Definition prints {A} (docs : list cJSON) (a : A) (m : P A) : Prop :=
  forall s, (length docs <= length (script (os s)))%nat -> exists s', m s = Some (a, s') /\ writes s docs s'.
Lemma prints_ret {A} (a : A) : prints [] a (mret a).
Proof. intros s _. exists s. split; [done|apply writes_none]. Qed.
Lemma prints_bind {A B} docs docs' (a : A) (b : B) m k : prints docs a m -> prints docs' b (k a) -> prints (docs ++ docs') b (mbnd m k).
Proof.
  intros Hm Hk s Hl. rewrite length_app in Hl. destruct (Hm s) as (s1 & H1 & W1); [lia|].
  destruct (Hk s1) as (s2 & H2 & W2); [rewrite (writes_script _ _ _ W1), length_drop; lia|].
  exists s2. rewrite (bind_run _ _ _ _ _ H1). split; [done|by eapply writes_app].
Qed.
Lemma prints_line {A} (a : A) j txt : cJSON_Parse txt = Some j -> prints [j] a (do_os (sys (Cfprintf (nl txt))) ;; mret a).
Proof.
  intros Hp s Hl. destruct (writes_line s j txt) as (r & s' & H & Hw); [by destruct (script (os s)); [cbn in Hl; lia|]|done|].
  exists s'. by rewrite (bind_run _ _ _ _ _ H).
Qed.
Lemma prints_output name obj : sendable (event_of name obj) -> prints [event_of name obj] 0 (JSONStream_Output name obj).
Proof.
  intros [Hw Hn]. unfold JSONStream_Output, cJSON_PrintUnformatted.
  assert (match obj with Some o => cJSON_AddItemToObject (cJSON_AddStringToObject cJSON_CreateObject "event" name) "data" o
          | None => cJSON_AddStringToObject cJSON_CreateObject "event" name end = event_of name obj) as -> by (by destruct obj).
  destruct (wire_ok_prints false _ 0 Hw) as [txt Hp]. rewrite Hp. by eapply prints_line, printed_parses.
Qed.
Lemma prints_event_if name obj : Forall sendable (events_of [(name, obj)]) -> prints (events_of [(name, obj)]) tt (event_if name obj).
Proof.
  unfold event_if, events_of. cbn [flat_map fst snd]. rewrite app_nil_r. destruct obj as [o|]; intros Hs; [|apply prints_ret].
  inversion Hs as [|? ? Hj]. apply (prints_bind [event_of name (Some o)] [] 0); [by apply prints_output|apply prints_ret].
Qed.
Lemma events_cons kv l : events_of (kv :: l) = (events_of [kv] ++ events_of l)%list.
Proof. unfold events_of. cbn [flat_map]. by rewrite app_nil_r. Qed.
Lemma prints_last_events t document : Forall sendable (last_items t document) -> prints (last_items t document) tt (last_events t document).
Proof.
  unfold last_items, last_events.
  set (e1 := ("error", _)). set (e2 := ("server_output_json", _)). set (e3 := ("server_output_text", _)).
  rewrite (events_cons e1), (events_cons e2), <-!app_assoc, !Forall_app. intros (H1 & H2 & H3 & Hend).
  apply (prints_bind _ _ tt), (prints_bind _ _ tt), (prints_bind _ _ tt); [by apply prints_event_if..|].
  apply (prints_bind [_] [] 0); [apply prints_output; by inversion Hend|apply prints_ret].
Qed.

(** What is known only at the end goes behind the other members. *)
Definition ended (t : iperf_test) : iperf_test := fold_left (fun t kv => add_top kv.1 kv.2 t) (last_members t) t.
Lemma finish_document_adds s : finish_document (tst s) s = Some (tt, s <| tst := ended (tst s) |>).
Proof.
  unfold finish_document, ended, last_members, flatten.
  destruct (Test.title (tst s)), (Test.extra_data (tst s)), (Test.json_server_output (tst s)), (Test.server_output_text (tst s)); try reflexivity.
  by destruct s.
Qed.
Lemma ended_document t top : Test.json_top t = Some (cJSON_Object top) -> report_document (ended t) = Some (whole_report t top).
Proof.
  intros Htop. unfold ended, whole_report. assert (Hf : forall l top t, Test.json_top t = Some (cJSON_Object top) ->
    fold_left (fun t kv => add_top kv.1 kv.2 t) l t = t <| Test.json_top := Some (cJSON_Object (top ++ l)) |>); [|by rewrite (Hf _ _ _ Htop)].
  clear Htop. clear top t. induction l as [|[k x] l IH]; intros top t H; cbn [fold_left fst snd].
  - rewrite app_nil_r, <-H. by destruct t.
  - rewrite (IH (top ++ [(k, x)])%list); [by rewrite <-app_assoc|]. unfold add_top. cbn. by rewrite H.
Qed.

Lemma ended_same t : exists x, ended t = t <| Test.json_top := x |>.
Proof.
  unfold ended. generalize (last_members t) as l. intros l. revert t. induction l as [|kx l IH]; intros t.
  - exists (Test.json_top t). by destruct t.
  - destruct (IH (add_top kx.1 kx.2 t)) as [x Hx]. exists x. exact Hx.
Qed.
(** C19. The report that is written is the report that was made.  At the end of a
    test one document is written, with the start, the intervals, the end, what
    was added on the way and the title, the extra data and the output of the
    server, or, in a stream of events, the error, the output of the server and
    the end, each on a line of its own; parsing the text gives these items back
    unchanged, and afterwards the test has forgotten the document. *)
Theorem iperf_json_finish_writes (s : prog) (top : list (string * cJSON)) :
  Test.json_top (tst s) = Some (cJSON_Object top) -> Forall sendable (last_documents (tst s) top) ->
  (length (last_documents (tst s) top) <= length (script (os s)))%nat ->
  exists s' txts, iperf_json_finish s = Some (0, s') /\ tst s' = forget_document (tst s) /\
    parse_to txts (last_documents (tst s) top) /\ (trace (os s')).*1 = ((trace (os s)).*1 ++ lines txts)%list.
Proof.
  intros Htop Hs Hl. unfold iperf_json_finish. rewrite bind_get_test, Htop. set (s1 := s <| tst := ended (tst s) |>).
  assert (Hw : exists s2, (finish_document (tst s) ;;
      let! test := get_test in
      let! document := mopt (report_document test) in
      if nonzero (Test.json_stream test) then last_events test document ;; mret 0
      else match cJSON_Print document with None => mret (-1) | Some str => do_os (sys (Cfprintf (nl str))) ;; mret 0 end) s = Some (0, s2) /\
    writes s1 (last_documents (tst s) top) s2).
  { rewrite (bind_run _ _ _ _ _ (finish_document_adds s)), bind_get_test. fold s1. change (tst s1) with (ended (tst s)).
    rewrite (bind_run _ _ _ (whole_report (tst s) top) s1) by (by rewrite (ended_document _ _ Htop)).
    destruct (ended_same (tst s)) as [x Hx]. unfold last_documents in *. change (script (os s)) with (script (os s1)) in Hl. clearbody s1.
    rewrite Hx. change (last_events (tst s <| Test.json_top := x |>)) with (last_events (tst s)).
    change (Test.json_stream (tst s <| Test.json_top := x |>)) with (Test.json_stream (tst s)). destruct (nonzero _).
    - rewrite <-(app_nil_r (last_items _ _)). apply (prints_bind _ [] tt); [by apply prints_last_events|apply prints_ret|by rewrite app_nil_r].
    - inversion Hs as [|? ? [Hj Hn] _]. destruct (wire_ok_prints true _ 0 Hj) as [txt Hp]. unfold cJSON_Print. rewrite Hp.
      by apply prints_line; [eapply printed_parses|]. }
  destruct Hw as (s2 & H & [T _ (txts & P & L)]). rewrite (bind_run _ _ _ _ _ H). cbn [Z.ltb Z.compare]. rewrite bind_upd.
  eexists _, txts. split; [reflexivity|]. split_and!; [|done|exact L]. cbn [tst modify_field prog_eta eta_of]. rewrite T.
  destruct (ended_same (tst s)) as [x Hx]. change (tst s1) with (ended (tst s)). by rewrite Hx.
Qed.
(** A stream of events that ends with an error. *)
Definition streaming_events : prog :=
  Prog (demo_role "c" <| Test.json_output := 1 |> <| Test.json_stream := 1 |> <| Test.title := Some "a title" |>
    <| Test.json_top := Some (cJSON_Object [("error", cJSON_String "it failed")]) |> <| Test.json_end := Some (cJSON_Object [("sum", cJSON_True)]) |>
    <| Test.server_output_text := Some "done" |>) (TS ∅ None None) (World (repeat (Reply 1 0 [] []) 3) [] 0 0 0).
Lemma iperf_json_finish_writes_witness :
  length (last_documents (tst streaming_events) [("error", cJSON_String "it failed")]) = 3%nat /\
  exists s' txts, iperf_json_finish streaming_events = Some (0, s') /\ tst s' = forget_document (tst streaming_events) /\
    parse_to txts (last_documents (tst streaming_events) [("error", cJSON_String "it failed")]) /\
    (trace (os s')).*1 = ((trace (os streaming_events)).*1 ++ lines txts)%list.
Proof.
  split; [vm_compute; reflexivity|].
  apply (iperf_json_finish_writes streaming_events [("error", cJSON_String "it failed")]); [|apply sendable_all|apply Nat.leb_le]; vm_compute; reflexivity.
Defined.

(** The rate that the client asks for is noted twice in the report of a server:
    with the parameters, and when the connection is announced. *)
Definition noting : prog :=
  Prog (demo_role "s" <| Test.json_output := 1 |> <| Test.settings ::= fun st => st <| Settings.rate := 1000 |> |>) (TS ∅ None None)
    (World (repeat (Reply 1 0 [] []) 9) [] 0 0 0).
Example target_noted_twice :
  option_map (fun r => length (List.filter (fun kx => String.eqb kx.1 "target_bitrate") (members (Test.json_start (tst r.2)))))
    ((iperf_json_start ;; note_target_bitrate ;; iperf_on_connect) noting) = Some 2%nat.
Proof. vm_compute. reflexivity. Qed.
