(* ===== verification/Args.v ===== *)
(** * The command line: iperf_parse_arguments

    getopt_long belongs to the C library: its answers, an option and its
    argument each, are the input.  The table of long options is kept, to check
    that the switch knows them.  exit ends the parse; what is printed before it
    and warnings are left out.  optarg is a copy, so the places where the code
    cuts it in two show only in the parts that are used. *)
From Stdlib Require Import Ascii String SpecFloat.
From stdpp Require Import strings.
From S2P Require Import Prelude Double IperfTime Timer Text Units Dscp Iperf Error Sys Net Util Api Params.
#[local] Open Scope string_scope.
#[local] Open Scope Z_scope.

(** ** The options *)

Definition OPT_SCTP := 1.
Definition OPT_LOGFILE := 2.
Definition OPT_GET_SERVER_OUTPUT := 3.
Definition OPT_UDP_COUNTERS_64BIT := 4.
Definition OPT_CLIENT_PORT := 5.
Definition OPT_NUMSTREAMS := 6.
Definition OPT_FORCEFLUSH := 7.
Definition OPT_NO_FQ_SOCKET_PACING := 9.
Definition OPT_FQ_RATE := 10.
Definition OPT_DSCP := 11.
Definition OPT_PACING_TIMER := 16.
Definition OPT_CONNECT_TIMEOUT := 17.
Definition OPT_REPEATING_PAYLOAD := 18.
Definition OPT_EXTRA_DATA := 19.
Definition OPT_BIDIRECTIONAL := 20.
Definition OPT_SERVER_BITRATE_LIMIT := 21.
Definition OPT_TIMESTAMPS := 22.
Definition OPT_BIND_DEV := 24.
Definition OPT_IDLE_TIMEOUT := 25.
Definition OPT_DONT_FRAGMENT := 26.
Definition OPT_RCV_TIMEOUT := 27.
Definition OPT_JSON_STREAM := 28.
Definition OPT_SND_TIMEOUT := 29.
Definition OPT_SKIP_RX_COPY := 32.

Definition DEBUG_LEVEL_MAX := 4.
Definition TIMESTAMP_FORMAT := "%c ".

Inductive has_arg := no_argument | required_argument | optional_argument.
Definition longopts : list (string * has_arg * Z) :=
  [("port", required_argument, code "p"); ("format", required_argument, code "f"); ("interval", required_argument, code "i");
   ("daemon", no_argument, code "D"); ("one-off", no_argument, code "1"); ("verbose", no_argument, code "V");
   ("json", no_argument, code "J"); ("json-stream", no_argument, OPT_JSON_STREAM); ("version", no_argument, code "v");
   ("server", no_argument, code "s"); ("client", required_argument, code "c"); ("udp", no_argument, code "u");
   ("bitrate", required_argument, code "b"); ("bandwidth", required_argument, code "b");
   ("server-bitrate-limit", required_argument, OPT_SERVER_BITRATE_LIMIT); ("time", required_argument, code "t");
   ("bytes", required_argument, code "n"); ("blockcount", required_argument, code "k"); ("length", required_argument, code "l");
   ("parallel", required_argument, code "P"); ("reverse", no_argument, code "R"); ("bidir", no_argument, OPT_BIDIRECTIONAL);
   ("window", required_argument, code "w"); ("bind", required_argument, code "B"); ("bind-dev", required_argument, OPT_BIND_DEV);
   ("cport", required_argument, OPT_CLIENT_PORT); ("set-mss", required_argument, code "M"); ("no-delay", no_argument, code "N");
   ("version4", no_argument, code "4"); ("version6", no_argument, code "6"); ("tos", required_argument, code "S");
   ("dscp", required_argument, OPT_DSCP); ("extra-data", required_argument, OPT_EXTRA_DATA); ("zerocopy", no_argument, code "Z");
   ("omit", required_argument, code "O"); ("file", required_argument, code "F");
   ("repeating-payload", no_argument, OPT_REPEATING_PAYLOAD); ("timestamps", optional_argument, OPT_TIMESTAMPS);
   ("title", required_argument, code "T"); ("pidfile", required_argument, code "I"); ("logfile", required_argument, OPT_LOGFILE);
   ("forceflush", no_argument, OPT_FORCEFLUSH); ("get-server-output", no_argument, OPT_GET_SERVER_OUTPUT);
   ("udp-counters-64bit", no_argument, OPT_UDP_COUNTERS_64BIT); ("no-fq-socket-pacing", no_argument, OPT_NO_FQ_SOCKET_PACING);
   ("dont-fragment", no_argument, OPT_DONT_FRAGMENT); ("skip-rx-copy", no_argument, OPT_SKIP_RX_COPY);
   ("fq-rate", required_argument, OPT_FQ_RATE); ("pacing-timer", required_argument, OPT_PACING_TIMER);
   ("connect-timeout", required_argument, OPT_CONNECT_TIMEOUT); ("idle-timeout", required_argument, OPT_IDLE_TIMEOUT);
   ("rcv-timeout", required_argument, OPT_RCV_TIMEOUT); ("snd-timeout", required_argument, OPT_SND_TIMEOUT);
   ("debug", optional_argument, code "d"); ("help", no_argument, code "h")].

(** ** Host names *)

(** The next token of strtok with the delimiter "%". *)
Fixpoint span_percent (s : string) : string * string :=
  match s with
  | EmptyString => ("", "")
  | String c s' => if Ascii.eqb c "%" then ("", s) else let '(a, b) := span_percent s' in (String c a, b)
  end.
Fixpoint skip_percent (s : string) : string :=
  match s with String c s' => if Ascii.eqb c "%" then skip_percent s' else s | EmptyString => "" end.
Definition strtok (s : string) : option (string * string) :=
  match skip_percent s with
  | EmptyString => None
  | s => let '(token, rest) := span_percent s in Some (token, match rest with String _ rest => rest | EmptyString => "" end)
  end.
(** [IN6_IS_ADDR_LINKLOCAL]. *)
Definition is_linklocal (addr : list Z) : bool := (nth 0 addr 0 =? 0xfe) && (Z.land (nth 1 addr 0) 0xc0 =? 0x80).
(** The two parts when the name is <host>%<device>. *)
Definition iperf_parse_hostname (spec : string) : P (option (string * string)) :=
  match strtok spec with
  | Some (p, rest) =>
      match strtok rest with
      | Some (p1, _) =>
          let! r := do_os (sys (Cinet_pton p)) in
          mret (if (ret r =? 1) && is_linklocal (outs r) then None else Some (p, p1))
      | None => mret None
      end
  | None => mret None
  end.

(** The argument up to the first slash, and the part after it. *)
Fixpoint split_slash (s : string) : string * option string :=
  match s with
  | EmptyString => ("", None)
  | String c s => if Ascii.eqb c "/" then ("", Some s) else let '(a, b) := split_slash s in (String c a, b)
  end.

(** ** One option *)

(** The local variables: the block size, and which kinds of options were there. *)
Record flags := Flags { blksize : Z; server_flag : bool; client_flag : bool; rate_flag : bool; duration_flag : bool }.
#[export] Instance flags_eta : Settable flags := fun r => Flags (blksize r) (server_flag r) (client_flag r) (rate_flag r) (duration_flag r).
Definition client_option (f : flags) : flags := f <| client_flag := true |>.
Definition server_option (f : flags) : flags := f <| server_flag := true |>.

(** The loop goes on, or the function returns, or the program ends. *)
Inductive parsed := Continue (f : flags) | Result (r : Z) | Exit (code : Z).
Definition fails (e : iperf_error) : P parsed := fail_with e ;; mret (Result (-1)).
Definition go_on (f : flags) : P parsed := mret (Continue f).
(** Assigning a number, and then checking it. *)
Definition store (g : iperf_test -> iperf_test) (f : flags) : P parsed := upd g ;; go_on f.
Definition store_if (g : iperf_test -> iperf_test) (ok : bool) (e : iperf_error) (f : flags) : P parsed :=
  upd g ;; if ok then go_on f else fails e.
Definition set_bind_address (p : string) (t : iperf_test) := iperf_set_test_bind_address t p.
Definition set_hostname (p : string) (t : iperf_test) := iperf_set_test_server_hostname t p.

(** A name that may carry a device. *)
Definition store_name (set : string -> iperf_test -> iperf_test) (name : string) (f : flags) : P parsed :=
  upd (set name) ;;
  let! parts := iperf_parse_hostname name in
  match parts with
  | Some (p, p1) => upd (set p) ;; upd (fun t => iperf_set_test_bind_dev t p1) ;; go_on f
  | None => go_on f
  end.

Definition interval_ok (d : double) : bool := negb ((dltb d MIN_INTERVAL || dltb MAX_INTERVAL d) && negb (deqb d dzero)).
Definition is_unit_format (c : ascii) : bool := existsb (Ascii.eqb c) ["k"; "K"; "m"; "M"; "g"; "G"; "t"; "T"]%char.
Definition first_char (s : string) : ascii := match s with String c _ => c | EmptyString => "000"%char end.

(** The options 'p' to 'c': what the program is and what it prints. *)
Definition role_option (flag : Z) (optarg : option string) (f : flags) : option (P parsed) :=
  let arg (k : string -> P parsed) : P parsed := let! a := mopt optarg in k a in
  if flag =? code "p" then Some (arg (fun a =>
    let portno := atoi a in
    if (portno <? 1) || (65535 <? portno) then fails IEBADPORT else store (fun t => t <| Test.server_port := portno |>) f))
  else if flag =? code "f" then Some (
    match optarg with
    | None => fails IEBADFORMAT
    | Some a => store_if (in_settings (fun s => s <| Settings.unit_format := first_char a |>)) (is_unit_format (first_char a)) IEBADFORMAT f
    end)
  else if flag =? code "i" then Some (arg (fun a =>
    store_if (fun t => t <| Test.stats_interval := atof a |> <| Test.reporter_interval := atof a |>) (interval_ok (atof a)) IEINTERVAL f))
  else if flag =? code "D" then Some (store (fun t => t <| Test.daemon := 1 |>) (server_option f))
  else if flag =? code "1" then Some (store (fun t => t <| Test.one_off := 1 |>) (server_option f))
  else if flag =? code "V" then Some (store (fun t => t <| Test.verbose := 1 |>) f)
  else if flag =? code "J" then Some (store (fun t => t <| Test.json_output := 1 |>) f)
  else if flag =? OPT_JSON_STREAM then Some (store (fun t => t <| Test.json_output := 1 |> <| Test.json_stream := 1 |>) f)
  else if flag =? code "v" then Some (mret (Exit 0))
  else if flag =? code "s" then Some (
    let! test := get_test in
    if Ascii.eqb (Test.role test) "c" then fails IESERVCLIENT
    else try_upd (fun t => iperf_set_test_role t "s") ;; go_on f)
  else if flag =? code "c" then Some (arg (fun a =>
    let! test := get_test in
    if Ascii.eqb (Test.role test) "s" then fails IESERVCLIENT
    else try_upd (fun t => iperf_set_test_role t "c") ;; store_name set_hostname a f))
  else None.

Definition set_burst (b : string) : iperf_test -> iperf_test := in_settings (fun s => s <| Settings.burst := atoi b |>).
Definition burst_ok (b : string) : bool := (0 <? atoi b) && (atoi b <=? MAX_BURST).
Definition set_limit_interval (b : string) : iperf_test -> iperf_test :=
  in_settings (fun s => s <| Settings.bitrate_limit_interval := atof b |>).
(** The options 'u' to OPT_BIDIRECTIONAL: what the test sends. *)
Definition test_option (flag : Z) (optarg : option string) (f : flags) : option (P parsed) :=
  let arg (k : string -> P parsed) : P parsed := let! a := mopt optarg in k a in
  if flag =? code "u" then Some (let! r := set_protocol Pudp in go_on (client_option f))
  else if flag =? OPT_SCTP then Some (fails IEUNIMP)
  else if flag =? OPT_NUMSTREAMS then Some (fails IEUNIMP)
  else if flag =? code "b" then Some (arg (fun a =>
    let '(rate, slash) := split_slash a in
    let! fits :=
      match slash with
      | Some b =>
          upd (set_burst b) ;; mret (burst_ok b)
      | None => mret true
      end in
    if negb fits then fails IEBURST
    else
      let! n := mopt (unit_atof_rate rate ≫= d2u64) in
      store (in_settings (fun s => s <| Settings.rate := n |>)) (client_option (f <| rate_flag := true |>))))
  else if flag =? OPT_SERVER_BITRATE_LIMIT then Some (arg (fun a =>
    let '(rate, slash) := split_slash a in
    let! fits :=
      match slash with
      | Some b =>
          upd (set_limit_interval b) ;; mret (interval_ok (atof b))
      | None => mret true
      end in
    if negb fits then fails IETOTALINTERVAL
    else
      let! n := mopt (unit_atof_rate rate ≫= d2u64) in
      store (in_settings (fun s => s <| Settings.bitrate_limit := n |>)) (server_option f)))
  else if flag =? code "t" then Some (arg (fun a =>
    store_if (fun t => t <| Test.duration := atoi a |>) (negb ((MAX_TIME <? atoi a) || (atoi a <? 0))) IEDURATION
      (client_option (f <| duration_flag := true |>))))
  else if flag =? code "n" then Some (arg (fun a =>
    let! n := mopt (unit_atoi a) in store (in_settings (fun s => s <| Settings.bytes := n |>)) (client_option f)))
  else if flag =? code "k" then Some (arg (fun a =>
    let! n := mopt (unit_atoi a) in store (in_settings (fun s => s <| Settings.blocks := n |>)) (client_option f)))
  else if flag =? code "l" then Some (arg (fun a =>
    let! n := mopt (unit_atoi a) in go_on (client_option (f <| blksize := i32 n |>))))
  else if flag =? code "P" then Some (arg (fun a =>
    store_if (fun t => t <| Test.num_streams := atoi a |>) (atoi a <=? MAX_STREAMS) IENUMSTREAMS (client_option f)))
  else if flag =? code "R" then Some (
    let! test := get_test in
    if nonzero (Test.bidirectional test) then fails IEREVERSEBIDIR
    else try_upd (fun t => iperf_set_test_reverse t 1) ;; go_on (client_option f))
  else if flag =? OPT_BIDIRECTIONAL then Some (
    let! test := get_test in
    if nonzero (Test.reverse test) then fails IEREVERSEBIDIR
    else try_upd (fun t => iperf_set_test_bidirectional t 1) ;; go_on (client_option f))
  else None.

(** The options 'w' to OPT_REPEATING_PAYLOAD: sockets, addresses and data. *)
Definition socket_option (flag : Z) (optarg : option string) (f : flags) : option (P parsed) :=
  let arg (k : string -> P parsed) : P parsed := let! a := mopt optarg in k a in
  if flag =? code "w" then Some (arg (fun a =>
    let! farg := mopt (unit_atof a) in
    if dltb (Z2d MAX_TCP_BUFFER) farg then fails IEBUFSIZE
    else let! n := mopt (d2i32 farg) in store (in_settings (fun s => s <| Settings.socket_bufsize := n |>)) (client_option f)))
  else if flag =? code "B" then Some (arg (fun a => store_name set_bind_address a f))
  else if flag =? OPT_BIND_DEV then Some (arg (fun a => store (fun t => iperf_set_test_bind_dev t a) f))
  else if flag =? OPT_CLIENT_PORT then Some (arg (fun a =>
    let portno := atoi a in
    if (portno <? 1) || (65535 <? portno) then fails IEBADPORT else store (fun t => t <| Test.bind_port := portno |>) f))
  else if flag =? code "M" then Some (arg (fun a =>
    store_if (in_settings (fun s => s <| Settings.mss := atoi a |>)) (atoi a <=? MAX_MSS) IEMSS (client_option f)))
  else if flag =? code "N" then Some (store (fun t => t <| Test.no_delay := 1 |>) (client_option f))
  else if flag =? code "4" then Some (store (in_settings (fun s => s <| Settings.domain := AF_INET |>)) f)
  else if flag =? code "6" then Some (store (in_settings (fun s => s <| Settings.domain := AF_INET6 |>)) f)
  else if flag =? code "S" then Some (arg (fun a =>
    let '(n, endptr) := strtol 0 a in
    let tos := i32 n in
    store_if (in_settings (fun s => s <| Settings.tos := tos |>))
      (negb (bool_decide (endptr = a) || (tos <? 0) || (255 <? tos))) IEBADTOS (client_option f)))
  else if flag =? OPT_DSCP then Some (
    let tos := parse_qos optarg in
    store_if (in_settings (fun s => s <| Settings.tos := tos |>)) (0 <=? tos) IEBADTOS (client_option f))
  else if flag =? OPT_EXTRA_DATA then Some (arg (fun a => store (fun t => t <| Test.extra_data := Some a |>) (client_option f)))
  else if flag =? code "L" then Some (fails IEUNIMP)
  else if flag =? code "X" then Some (arg (fun a => store (fun t => t <| Test.xbind_addrs ::= fun l => (l ++ [a])%list |>) f))
  else if flag =? code "Z" then Some (store (fun t => t <| Test.zerocopy := 1 |>) (client_option f))
  else if flag =? OPT_REPEATING_PAYLOAD then Some (store (fun t => t <| Test.repeating_payload := 1 |>) (client_option f))
  else None.

(** The options OPT_TIMESTAMPS to 'C'. *)
Definition report_option (flag : Z) (optarg : option string) (f : flags) : option (P parsed) :=
  let arg (k : string -> P parsed) : P parsed := let! a := mopt optarg in k a in
  if flag =? OPT_TIMESTAMPS then Some (
    store (fun t => iperf_set_test_timestamp_format (iperf_set_test_timestamps t 1) (default TIMESTAMP_FORMAT optarg)) f)
  else if flag =? code "O" then Some (arg (fun a =>
    store_if (fun t => t <| Test.omit := atoi a |>) (negb ((atoi a <? 0) || (MAX_OMIT_TIME <? atoi a))) IEOMIT (client_option f)))
  else if flag =? code "F" then Some (store (fun t => t <| Test.diskfile_name := optarg |>) f)
  else if flag =? OPT_IDLE_TIMEOUT then Some (arg (fun a =>
    store_if (in_settings (fun s => s <| Settings.idle_timeout := atoi a |>)) ((1 <=? atoi a) && (atoi a <=? MAX_TIME)) IEIDLETIMEOUT (server_option f)))
  else if flag =? OPT_RCV_TIMEOUT then Some (arg (fun a =>
    let n := atoi a in
    if (n <? MIN_NO_MSG_RCVD_TIMEOUT) || (MAX_TIME * SEC_TO_mS <? n) then fails IERCVTIMEOUT
    else store (in_settings (fun s => s <| Settings.rcv_timeout := Time (n / SEC_TO_mS) (n mod SEC_TO_mS * mS_TO_US) |>)) f))
  else if flag =? code "A" then Some (fails IEUNIMP)
  else if flag =? code "T" then Some (arg (fun a => store (fun t => t <| Test.title := Some a |>) (client_option f)))
  else if flag =? code "C" then Some (fails IEUNIMP)
  else None.

(** The options 'd' to 'h'. *)
Definition output_option (flag : Z) (optarg : option string) (f : flags) : option (P parsed) :=
  let arg (k : string -> P parsed) : P parsed := let! a := mopt optarg in k a in
  if flag =? code "d" then Some (
    store (fun t => t <| Test.debug := 1 |> <| Test.debug_level :=
      match optarg with
      | Some a => if atoi a <? 0 then DEBUG_LEVEL_MAX else atoi a
      | None => DEBUG_LEVEL_MAX
      end |>) f)
  else if flag =? code "I" then Some (arg (fun a => store (fun t => t <| Test.pidfile := Some a |>) f))
  else if flag =? OPT_LOGFILE then Some (arg (fun a => store (fun t => t <| Test.logfile := Some a |>) f))
  else if flag =? OPT_FORCEFLUSH then Some (store (fun t => t <| Test.forceflush := 1 |>) f)
  else if flag =? OPT_GET_SERVER_OUTPUT then Some (store (fun t => t <| Test.get_server_output := 1 |>) (client_option f))
  else if flag =? OPT_UDP_COUNTERS_64BIT then Some (store (fun t => t <| Test.udp_counters_64bit := 1 |>) f)
  else if flag =? OPT_NO_FQ_SOCKET_PACING then Some (fails IEUNIMP)
  else if flag =? OPT_FQ_RATE then Some (fails IEUNIMP)
  else if flag =? OPT_DONT_FRAGMENT then Some (store (in_settings (fun s => s <| Settings.dont_fragment := 1 |>)) (client_option f))
  else if flag =? OPT_SKIP_RX_COPY then Some (store (in_settings (fun s => s <| Settings.skip_rx_copy := 1 |>)) (client_option f))
  else if flag =? OPT_PACING_TIMER then Some (arg (fun a =>
    let! n := mopt (unit_atoi a) in store (in_settings (fun s => s <| Settings.pacing_timer := i32 n |>)) (client_option f)))
  else if flag =? OPT_CONNECT_TIMEOUT then Some (arg (fun a =>
    let! n := mopt (unit_atoi a) in store (in_settings (fun s => s <| Settings.connect_timeout := i32 n |>)) (client_option f)))
  else if flag =? code "h" then Some (mret (Exit 0))
  else None.

(** The switch; what it does not know prints the usage text. *)
Fixpoint first_case (cases : list (option (P parsed))) : P parsed :=
  match cases with
  | [] => mret (Exit 1)
  | Some m :: _ => m
  | None :: cases => first_case cases
  end.
Definition parse_option (flag : Z) (optarg : option string) (f : flags) : P parsed :=
  first_case [role_option flag optarg f; test_option flag optarg f; socket_option flag optarg f; report_option flag optarg f; output_option flag optarg f].
Fixpoint parse_options (opts : list (Z * option string)) (f : flags) : P parsed :=
  match opts with
  | [] => go_on f
  | (flag, optarg) :: opts =>
      let! r := parse_option flag optarg f in
      match r with Continue f => parse_options opts f | r => mret r end
  end.

(** ** All options together *)

(** round(): to the nearest integer, halves away from zero; [None] where the
    result does not fit. *)
Definition round_u64 (d : double) : option Z :=
  match d with
  | S754_zero _ => Some 0
  | S754_finite neg m e =>
      let v := if 0 <=? e then Zpos m * 2 ^ e else (Zpos m * 2 + 2 ^ (- e)) / (2 * 2 ^ (- e)) in
      let v := if neg then - v else v in
      if (0 <=? v) && (v <? 2 ^ 64) then Some v else None
  | _ => None
  end.
Example round_half : map round_u64 [dlit 25 10; dlit 24 10; Z2d 600; ddiv (Z2d 5) dzero] = [Some 3; Some 2; Some 600; None].
Proof. vm_compute. reflexivity. Qed.

(** The block size that was given, or the protocol's. *)
Definition default_blksize (id blksize : Z) : Z :=
  if blksize =? 0 then (if id =? Pudp then 0 else if id =? Psctp then DEFAULT_SCTP_BLKSIZE else DEFAULT_TCP_BLKSIZE) else blksize.
(** Without another end a file is sent in full. *)
Definition file_size (f : flags) : P unit :=
  let! test := get_test in
  let s := Test.settings test in
  match Test.diskfile_name test with
  | Some name =>
      if (Settings.bytes s =? 0) && (Settings.blocks s =? 0) && negb (duration_flag f) && Ascii.eqb (Test.role test) "c" then
        let! r := do_os (sys (Cstat name)) in
        if ret r =? 0 then upd (in_settings (fun s => s <| Settings.bytes := u64 (nth 0 (outs r) 0) |>)) else mret tt
      else mret tt
  | None => mret tt
  end.
(** The number of intervals in the window of the rate limit. *)
Definition limit_window (test : iperf_test) : option Z :=
  let limit := Settings.bitrate_limit_interval (Test.settings test) in
  if deqb limit dzero then Some (Settings.bitrate_limit_stats_per_interval (Test.settings test))
  else if dleb limit (Test.stats_interval test) then Some 1
  else round_u64 (ddiv limit (Test.stats_interval test)).

(** Sizes, the end of the test and the window of the limit. *)
Definition check_settings (f : flags) : P parsed :=
  let! test := get_test in
  let role c := Ascii.eqb (Test.role test) c in
  let! p := mopt (Test.protocol test) in
  let udp := Protocol.id p =? Pudp in
  if role "c"%char && bool_decide (is_Some (Test.diskfile_name test)) && udp then fails IEUDPFILETRANSFER
  else
    let blksize := default_blksize (Protocol.id p) (blksize f) in
    if (negb udp && (blksize <=? 0)) || (MAX_BLOCKSIZE <? blksize) then fails IEBLOCKSIZE
    else if udp && ((0 <? blksize) && ((blksize <? MIN_UDP_BLOCKSIZE) || (MAX_UDP_BLOCKSIZE <? blksize))) then fails IEUDPBLOCKSIZE
    else
      upd (in_settings (fun s => s <| Settings.blksize := blksize |>)) ;;
      (if rate_flag f then mret tt else upd (in_settings (fun s => s <| Settings.rate := if udp then UDP_RATE else 0 |>))) ;;
      file_size f ;;
      let! test := get_test in
      let ends := nonzero (Settings.bytes (Test.settings test)) || nonzero (Settings.blocks (Test.settings test)) in
      (if ends && negb (duration_flag f) then upd (fun t => t <| Test.duration := 0 |>) else mret tt) ;;
      if (duration_flag f && ends) ||
         (nonzero (Settings.bytes (Test.settings test)) && nonzero (Settings.blocks (Test.settings test))) then fails IEENDCONDITIONS
      else if negb (role "c"%char) && negb (role "s"%char) then fails IENOROLE
      else
        let! n := mopt (limit_window test) in
        upd (in_settings (fun s => s <| Settings.bitrate_limit_stats_per_interval := n |>)) ;;
        mret (Result 0).

(** Flags that only one of the roles has. *)
Definition parse_end (f : flags) : P parsed :=
  let! test := get_test in
  let role c := Ascii.eqb (Test.role test) c in
  if role "c"%char && server_flag f then fails IESERVERONLY
  else if role "s"%char && client_flag f then fails IECLIENTONLY
  else check_settings f.

Definition iperf_parse_arguments (opts : list (Z * option string)) : P parsed :=
  let! r := parse_options opts (Flags 0 false false false false) in
  match r with Continue f => parse_end f | r => mret r end.

(** ** What the accepted options are *)

(** The numbers of a test that the options check, each in the limits that it is
    checked against.  The number of streams, the segment size and the socket
    buffer are only checked against a maximum. *)
Definition interval_range (d : double) : Prop :=
  deqb d dzero = true \/ dltb d MIN_INTERVAL = false /\ dltb MAX_INTERVAL d = false.
Record in_range (t : iperf_test) : Prop := {
  port_range : 1 <= Test.server_port t <= 65535;
  cport_range : 0 <= Test.bind_port t <= 65535;
  time_range : 0 <= Test.duration t <= MAX_TIME;
  omit_range : 0 <= Test.omit t <= MAX_OMIT_TIME;
  stats_range : interval_range (Test.stats_interval t);
  reporter_range : interval_range (Test.reporter_interval t);
  limit_range : interval_range (Settings.bitrate_limit_interval (Test.settings t));
  streams_range : Test.num_streams t <= MAX_STREAMS;
  mss_range : Settings.mss (Test.settings t) <= MAX_MSS;
  window_range : Settings.socket_bufsize (Test.settings t) <= MAX_TCP_BUFFER;
  tos_range : 0 <= Settings.tos (Test.settings t) <= 255;
  burst_range : 0 <= Settings.burst (Test.settings t) <= MAX_BURST;
  idle_range : 0 <= Settings.idle_timeout (Test.settings t) <= MAX_TIME;
  rcv_range : MIN_NO_MSG_RCVD_TIMEOUT * mS_TO_US <=
    secs (Settings.rcv_timeout (Test.settings t)) * SEC_TO_US + usecs (Settings.rcv_timeout (Test.settings t)) <= MAX_TIME * SEC_TO_US;
  debug_range : 0 <= Test.debug_level t;
  format_range : Settings.unit_format (Test.settings t) = "a"%char \/ is_unit_format (Settings.unit_format (Test.settings t)) = true;
  one_direction : Test.reverse t = 0 \/ Test.bidirectional t = 0 }.

(** What the parser compares a number with. *)
Lemma interval_ok_range d : interval_ok d = true -> interval_range d.
Proof.
  unfold interval_ok, interval_range. destruct (deqb d dzero); [by left|]. right.
  by destruct (dltb d MIN_INTERVAL), (dltb MAX_INTERVAL d).
Qed.
Lemma window_in_range a d n : unit_atof a = Some d -> dltb (Z2d MAX_TCP_BUFFER) d = false -> d2i32 d = Some n -> n <= MAX_TCP_BUFFER.
Proof.
  intros Ha Hd Hn. unfold d2i32, cast in Hn. destruct (d2Z d) as [z|] eqn:E; [|done]. destruct (_ && _); [|done]. injection Hn as <-.
  eapply d2Z_le; [|by eapply unit_atof_narrow|exact Hd|exact E]. done.
Qed.
#[local] Hint Resolve interval_ok_range window_in_range : core.

(** An option that lets the parse go on keeps them in their ranges; one that
    ends it fails. *)
Definition outcome_ok (r : parsed) (t : iperf_test) : Prop :=
  match r with Continue _ => in_range t | Result z => z = -1 | Exit _ => True end.
Definition stays (m : P parsed) : Prop :=
  forall s r s', m s = Some (r, s') -> in_range (tst s) -> outcome_ok r (tst s').

Lemma stays_fails e : stays (fails e).
Proof. intros s r s' H _. unfold fails in H. apply mbnd_inv in H as (? & ? & _ & H). by injection H as <- _. Qed.
Lemma stays_exit c : stays (mret (Exit c)).
Proof. intros s r s' H _. by injection H as <- _. Qed.
Lemma stays_none : stays mfail.
Proof. done. Qed.
Lemma stays_go f : stays (go_on f).
Proof. by intros s r s' [= <- <-]. Qed.
Lemma stays_upd g f s r s' : (forall t, in_range t -> in_range (g t)) -> (upd g ;; go_on f) s = Some (r, s') ->
  in_range (tst s) -> outcome_ok r (tst s').
Proof. intros Hg H Hr. rewrite bind_upd in H. injection H as <- <-. by apply Hg. Qed.
Lemma stays_store g f : (forall t, in_range t -> in_range (g t)) -> stays (store g f).
Proof. intros Hg s r s'. by apply stays_upd. Qed.
Lemma stays_store_if g ok e f : (ok = true -> forall t, in_range t -> in_range (g t)) -> stays (store_if g ok e f).
Proof.
  intros Hg s r s' H Hr. unfold store_if in H. destruct ok; [by eapply stays_upd; [exact (Hg eq_refl)|exact H|]|].
  rewrite bind_upd in H. unfold fails in H. apply mbnd_inv in H as (? & ? & _ & H). by injection H as <- _.
Qed.
Lemma stays_bind {A} (m : P A) k : (forall s a s', m s = Some (a, s') -> in_range (tst s) -> in_range (tst s')) ->
  (forall a, stays (k a)) -> stays (mbnd m k).
Proof. intros Hm Hk s f s' H Hr. apply mbnd_inv in H as (a & s1 & H1 & H2). eapply Hk; [exact H2|]. by eapply Hm. Qed.
Lemma fails_ends e s r s' : fails e s = Some (r, s') -> r = Result (-1).
Proof. intros H. unfold fails in H. apply mbnd_inv in H as (? & ? & _ & H). by injection H as <- _. Qed.

Lemma has_retransmits_range t t' : check_sender_has_retransmits t = Some t' -> in_range t -> in_range t'.
Proof.
  unfold check_sender_has_retransmits. intros H. destruct (if negb _ then _ else _) as [b|]; [|done]. injection H as <-.
  intros []. by constructor.
Qed.
Lemma role_range t c t' : iperf_set_test_role t c = Some t' -> in_range t -> in_range t'.
Proof.
  intros H Hr. refine (has_retransmits_range _ _ H _). cbn zeta. destruct Hr. clear H. repeat case_match; by constructor.
Qed.
Lemma reverse_range t t' : iperf_set_test_reverse t 1 = Some t' -> nonzero (Test.bidirectional t) = false -> in_range t -> in_range t'.
Proof.
  intros H Hb Hr. refine (has_retransmits_range _ _ H _). unfold nonzero in Hb. apply negb_false_iff, Z.eqb_eq in Hb.
  cbn zeta. destruct Hr. clear H. repeat case_match; constructor; cbn; auto.
Qed.
Lemma bidirectional_range t t' : iperf_set_test_bidirectional t 1 = Some t' -> nonzero (Test.reverse t) = false -> in_range t -> in_range t'.
Proof.
  intros [= <-] Hb []. unfold nonzero in Hb. apply negb_false_iff, Z.eqb_eq in Hb. constructor; cbn; auto.
Qed.
Lemma try_upd_inv f s s' : try_upd f s = Some (tt, s') -> exists t, f (tst s) = Some t /\ tst s' = t.
Proof.
  unfold try_upd. rewrite bind_get_test. intros H. apply mbnd_inv in H as (t & s1 & H1 & H). injection H as <-.
  unfold mopt in H1. destruct (f (tst s)) eqn:E; [|done]. injection H1 as <- <-. eauto.
Qed.
Lemma stays_try f k : (forall t t', f t = Some t' -> in_range t -> in_range t') -> stays k -> stays (try_upd f ;; k).
Proof. intros Hf Hk. apply stays_bind; [|done]. intros s [] s' H. apply try_upd_inv in H as (t & Ht & ->). by apply Hf. Qed.
Lemma stays_opt {A} (o : option A) k : (forall a, o = Some a -> stays (k a)) -> stays (mbnd (mopt o) k).
Proof.
  intros Hk s f s' H Hr. apply mbnd_inv in H as (a & s1 & H1 & H2). unfold mopt in H1. destruct o as [b|]; [|done].
  injection H1 as <- <-. by eapply Hk.
Qed.
Lemma stays_name set name f : (forall p t, in_range t -> in_range (set p t)) -> stays (store_name set name f).
Proof.
  intros Hs. unfold store_name. apply stays_bind; [intros s [] s' [= <-]; apply Hs|]. intros _. apply stays_bind.
  - intros s a s' H Hr. unfold iperf_parse_hostname in H. destruct (strtok name) as [[p rest]|]; [|by injection H as _ <-].
    destruct (strtok rest) as [[p1 r1]|]; [|by injection H as _ <-]. apply mbnd_inv in H as (r & s1 & H1 & H2).
    injection H2 as _ <-. unfold do_os, lift in H1. destruct (sys _ _) as [[x w]|]; [|done]. by injection H1 as _ <-.
  - intros [[p p1]|]; [|apply stays_go]. apply stays_bind; [intros s [] s' [= <-]; apply Hs|]. intros _.
    apply (stays_store (fun t => iperf_set_test_bind_dev t p1)). intros t []. by constructor.
Qed.

Lemma stays_guard b e g k : (forall t t', b t = false -> g t = Some t' -> in_range t -> in_range t') -> stays k ->
  stays (let! test := get_test in if b test then fails e else try_upd g ;; k).
Proof.
  intros Hg Hk s f s' H Hr. rewrite bind_get_test in H. destruct (b (tst s)) eqn:Hb; [by apply fails_ends in H as ->|].
  apply mbnd_inv in H as ([] & s1 & H1 & H2). apply try_upd_inv in H1 as (t & Ht & E). eapply Hk; [exact H2|]. rewrite E. by eapply Hg.
Qed.
Lemma set_protocol_same n s r s' : set_protocol n s = Some (r, s') -> in_range (tst s) -> in_range (tst s').
Proof.
  unfold set_protocol. rewrite bind_get_test. destruct (lookup_protocol _ _) as [p|].
  - rewrite bind_upd. intros H Hr. apply mbnd_inv in H as ([] & s1 & H1 & H2). injection H2 as _ <-.
    apply try_upd_inv in H1 as (t & Ht & ->). apply (has_retransmits_range _ _ Ht). destruct Hr. by constructor.
  - intros H Hr. apply mbnd_inv in H as ([] & s1 & H1 & H2). injection H2 as _ <-. by injection H1 as <-.
Qed.
Lemma after_slash_same (o : option string) (g : string -> iperf_test -> iperf_test) (ok : string -> bool) s b s' :
  (forall x t, ok x = true -> in_range t -> in_range (g x t)) ->
  match o with Some x => upd (g x) ;; mret (ok x) | None => mret true end s = Some (b, s') -> b = true -> in_range (tst s) -> in_range (tst s').
Proof.
  intros Hg H -> Hr. destruct o as [x|]; [|by injection H as <-]. rewrite bind_upd in H. injection H as Hok <-. by apply Hg.
Qed.
Lemma stays_slash (o : option string) (g : string -> iperf_test -> iperf_test) (ok : string -> bool) e k : (forall x t, ok x = true -> in_range t -> in_range (g x t)) -> stays k ->
  stays (let! b := match o with Some x => upd (g x) ;; mret (ok x) | None => mret true end in if negb b then fails e else k).
Proof.
  intros Hg Hk s f s' H Hr. apply mbnd_inv in H as (b & s1 & H1 & H2). destruct b; cbn [negb] in H2; [|by apply fails_ends in H2 as ->].
  eapply Hk; [exact H2|]. by eapply after_slash_same.
Qed.

(** Decides the options one by one. *)
Ltac ranges := intros; match goal with H : in_range _ |- in_range _ => destruct H; constructor; cbn; try assumption; first [lia|by eauto|repeat case_match; unfold DEBUG_LEVEL_MAX; lia] end.
Ltac stay :=
  repeat lazymatch goal with
  | |- stays (fails _) => apply stays_fails
  | |- stays (mret (Exit _)) => apply stays_exit
  | |- stays (go_on _) => apply stays_go
  | |- stays mfail => apply stays_none
  | |- stays (store _ _) => apply stays_store; ranges
  | |- stays (store_if _ _ _ _) => apply stays_store_if; intros; ranges
  | |- stays (store_name _ _ _) => apply stays_name; ranges
  | |- stays (mbnd (mopt _) _) => apply stays_opt; intros ? ?
  | |- stays (mbnd get_test _) => apply stays_guard; [intros ? ? ? ? ?; try (by eapply role_range)|]
  | |- stays (if ?b then _ else _) => destruct b eqn:?
  | |- stays (match ?o with Some _ => _ | None => _ end) => destruct o
  end.
Ltac each_option H :=
  repeat (lazymatch type of H with (if ?b then _ else _) = _ => destruct b; [injection H as <-|] end; [stay|]).
Lemma stays_role flag optarg f m : role_option flag optarg f = Some m -> stays m.
Proof. unfold role_option. intros H. each_option H. done. Qed.
Lemma stays_test flag optarg f m : test_option flag optarg f = Some m -> stays m.
Proof.
  unfold test_option. intros H. each_option H.
  - apply stays_bind; [intros ? ? ?; apply set_protocol_same|intros _; stay].
  - destruct (split_slash a) as [rate slash].
    apply (stays_slash slash set_burst burst_ok); [unfold burst_ok; ranges|stay].
  - destruct (split_slash a) as [rate slash].
    apply (stays_slash slash set_limit_interval (fun b => interval_ok (atof b))); [ranges|stay].
  - by eapply reverse_range.
  - by eapply bidirectional_range.
  - done.
Qed.
Lemma stays_socket flag optarg f m : socket_option flag optarg f = Some m -> stays m.
Proof.
  unfold socket_option. intros H. each_option H.
  - destruct (strtol 0 a) as [n endptr]. cbv zeta. destruct (bool_decide (endptr = a)); stay.
  - pose proof (proj1 (parse_qos_correct optarg)). apply stays_store_if. intros Hok. ranges.
  - done.
Qed.
Lemma stays_report flag optarg f m : report_option flag optarg f = Some m -> stays m.
Proof.
  unfold report_option. intros H. each_option H; [|done].
  pose proof (Z.div_mod (atoi a) SEC_TO_mS ltac:(done)). pose proof (Z.mod_pos_bound (atoi a) SEC_TO_mS ltac:(done)).
  apply stays_store. unfold SEC_TO_mS, MIN_NO_MSG_RCVD_TIMEOUT, MAX_TIME in *. intros t []. constructor; cbn; try assumption.
  unfold SEC_TO_mS, mS_TO_US, SEC_TO_US, MIN_NO_MSG_RCVD_TIMEOUT, MAX_TIME in *. lia.
Qed.
Lemma stays_output flag optarg f m : output_option flag optarg f = Some m -> stays m.
Proof. unfold output_option. intros H. each_option H. done. Qed.
Lemma stays_cases cases : Forall (fun c => forall m, c = Some m -> stays m) cases -> stays (first_case cases).
Proof. induction 1 as [|[m|] cases H _ IH]; [apply stays_exit|by apply H|exact IH]. Qed.
Lemma stays_option flag optarg f : stays (parse_option flag optarg f).
Proof.
  apply stays_cases. repeat (apply Forall_cons; split); [| | | | |done]; intros m H;
    eauto using stays_role, stays_test, stays_socket, stays_report, stays_output.
Qed.
Lemma stays_options opts : forall f, stays (parse_options opts f).
Proof.
  induction opts as [|[flag optarg] opts IH]; intros f; cbn [parse_options]; [apply stays_go|].
  intros s r' s' H Hr. apply mbnd_inv in H as (r & s1 & H1 & H2). apply (fun H => stays_option _ _ _ _ _ _ H Hr) in H1.
  destruct r as [f1|r|c]; [by eapply IH| |]; by injection H2 as <- <-.
Qed.

(** The end of the parse. *)
Lemma file_size_same f s s' : file_size f s = Some (tt, s') -> exists n, tst s' = in_settings (fun st => st <| Settings.bytes := n |>) (tst s).
Proof.
  intros H. assert (Hid : tst s = in_settings (fun st => st <| Settings.bytes := Settings.bytes (Test.settings (tst s)) |>) (tst s)).
  { destruct (tst s). unfold in_settings. cbn. by destruct settings. }
  unfold file_size in H. rewrite bind_get_test in H. destruct (Test.diskfile_name (tst s)) as [name|]; [|injection H as <-; eauto].
  destruct (_ && _) in H; [|injection H as <-; eauto]. apply mbnd_inv in H as (r & s1 & H1 & H).
  unfold do_os, lift in H1. destruct (sys _ _) as [[x w]|]; [|done]. injection H1 as -> <-.
  destruct (ret r =? 0); injection H as <-; [by eexists|eauto].
Qed.
Definition accepted (t : iperf_test) : Prop :=
  in_range t /\ (Test.role t = "c"%char \/ Test.role t = "s"%char) /\
  (Settings.bytes (Test.settings t) = 0 \/ Settings.blocks (Test.settings t) = 0) /\
  (Settings.bytes (Test.settings t) <> 0 \/ Settings.blocks (Test.settings t) <> 0 -> Test.duration t = 0) /\
  exists p, Test.protocol t = Some p /\ Settings.blksize (Test.settings t) <= MAX_BLOCKSIZE /\
    if Protocol.id p =? Pudp
    then Settings.blksize (Test.settings t) <= 0 \/ MIN_UDP_BLOCKSIZE <= Settings.blksize (Test.settings t) <= MAX_UDP_BLOCKSIZE
    else 0 < Settings.blksize (Test.settings t).
Lemma accepted_window n t : accepted t -> accepted (in_settings (fun s => s <| Settings.bitrate_limit_stats_per_interval := n |>) t).
Proof. intros ([] & Hro & He & Hd & p & Hp). split; [by constructor|]. split_and!; [done..|]. by exists p. Qed.

Ltac no_fail H := lazymatch type of H with fails _ _ = _ => apply fails_ends in H; discriminate H end.
Lemma parse_end_accepts f s s' : in_range (tst s) -> parse_end f s = Some (Result 0, s') -> accepted (tst s').
Proof.
  intros Hr H. unfold parse_end in H. rewrite bind_get_test in H. cbv zeta in H.
  destruct (_ && server_flag f) in H; [no_fail H|]. destruct (_ && client_flag f) in H; [no_fail H|].
  unfold check_settings in H. rewrite bind_get_test in H. cbv zeta in H.
  apply mbnd_inv in H as (p & s0 & Hp & H). unfold mopt in Hp. destruct (Test.protocol (tst s)) as [q|] eqn:Hq; [|done].
  injection Hp as -> <-. set (n := default_blksize _ _) in H. clearbody n. destruct (_ && _) in H; [no_fail H|].
  destruct (_ || _) eqn:Hb1 in H; [no_fail H|]. destruct (_ && _) eqn:Hb2 in H; [no_fail H|]. rewrite bind_upd in H.
  apply mbnd_inv in H as ([] & s1 & H1 & H). apply mbnd_inv in H as ([] & s2 & H2 & H). apply file_size_same in H2 as (m & H2).
  rewrite bind_get_test in H. apply mbnd_inv in H as ([] & s3 & H3 & H).
  destruct (_ || _) eqn:Hends in H; [no_fail H|]. destruct (_ && _) eqn:Hrole in H; [no_fail H|].
  apply mbnd_inv in H as (w & s4 & Hw & H). unfold mopt in Hw. destruct (limit_window _); [|done]. injection Hw as -> <-.
  rewrite bind_upd in H. injection H as <-. apply accepted_window.
  assert (Ht : exists t, tst s2 = t /\ in_range t /\ Test.role t = Test.role (tst s) /\ Test.protocol t = Some p /\ Settings.blksize (Test.settings t) = n).
  { eexists. split; [reflexivity|]. rewrite H2. destruct Hr.
    destruct (rate_flag f); injection H1 as <-; (split; [by constructor|done]). }
  destruct Ht as (t & E2 & Hr2 & Hro & Hp & Hn). rewrite E2 in *.
  assert (Hrole' : Test.role t = "c"%char \/ Test.role t = "s"%char).
  { rewrite Hro. destruct (Ascii.eqb_spec (Test.role (tst s)) "c"); [by left|]. destruct (Ascii.eqb_spec (Test.role (tst s)) "s"); [by right|done]. }
  assert (Hblk : exists p, Test.protocol t = Some p /\ Settings.blksize (Test.settings t) <= MAX_BLOCKSIZE /\
    if Protocol.id p =? Pudp
    then Settings.blksize (Test.settings t) <= 0 \/ MIN_UDP_BLOCKSIZE <= Settings.blksize (Test.settings t) <= MAX_UDP_BLOCKSIZE
    else 0 < Settings.blksize (Test.settings t)).
  { exists p. rewrite Hn. split; [done|]. destruct (Protocol.id p =? Pudp); cbn [negb andb orb] in *; lia. }
  unfold nonzero in *. rewrite <-!negb_andb in *.
  destruct (Z.eqb_spec (Settings.bytes (Test.settings t)) 0) as [Eb|Eb], (Z.eqb_spec (Settings.blocks (Test.settings t)) 0) as [Ek|Ek]; cbn in Hends, H3;
    rewrite ?andb_false_r, ?andb_true_r in *; cbn in Hends, H3; try done.
  all: destruct (duration_flag f); cbn in Hends, H3; try discriminate Hends; injection H3 as <-; cbn [tst modify_field prog_eta eta_of]; rewrite E2.
  all: split; [destruct Hr2; first [done|constructor; cbn; (assumption || done)]|]; split_and!; [done|cbn; tauto|cbn; tauto|exact Hblk].
Qed.

(** C20. What the parser accepts is what it checks.  When it returns 0, from the
    defaults or any test in these ranges and for every sequence of options,
    every number it checks is within the limits it is checked against (the
    number of streams, the segment size and the window have only a maximum,
    and the others that the options set are not checked), the test has a role,
    at most one end condition, which unsets the duration, and at most one
    direction flag, and the block size suits the protocol: positive for TCP
    and within the limits of a datagram for UDP, unless it is left open with a
    number that is not positive. *)
Theorem iperf_parse_arguments_in_range (opts : list (Z * option string)) (s s' : prog) :
  in_range (tst s) -> iperf_parse_arguments opts s = Some (Result 0, s') ->
  in_range (tst s') /\ (Test.role (tst s') = "c"%char \/ Test.role (tst s') = "s"%char) /\
  (Settings.bytes (Test.settings (tst s')) = 0 \/ Settings.blocks (Test.settings (tst s')) = 0) /\
  (Settings.bytes (Test.settings (tst s')) <> 0 \/ Settings.blocks (Test.settings (tst s')) <> 0 -> Test.duration (tst s') = 0) /\
  exists p, Test.protocol (tst s') = Some p /\ Settings.blksize (Test.settings (tst s')) <= MAX_BLOCKSIZE /\
    if Protocol.id p =? Pudp
    then Settings.blksize (Test.settings (tst s')) <= 0 \/ MIN_UDP_BLOCKSIZE <= Settings.blksize (Test.settings (tst s')) <= MAX_UDP_BLOCKSIZE
    else 0 < Settings.blksize (Test.settings (tst s')).
Proof.
  intros Hr H. unfold iperf_parse_arguments in H. apply mbnd_inv in H as (r & s1 & H1 & H). apply (fun H => stays_options _ _ _ _ _ H Hr) in H1.
  destruct r as [f|z|c].
  - by apply parse_end_accepts in H.
  - cbn in H1. subst z. discriminate H.
  - discriminate H.
Qed.

(** The defaults, then a UDP test of four streams. *)
Definition parsing : prog := demo_start [] <| tst := demo_defaults |>.
Definition demo_line : list (Z * option string) :=
  [(code "c", Some "server.example"); (code "u", None); (code "b", Some "10M/5"); (code "P", Some "4"); (code "l", Some "1200");
   (code "n", Some "1G"); (OPT_DSCP, Some "ef")].
Lemma defaults_in_range : in_range demo_defaults.
Proof. constructor; vm_compute; first [by left|by right|split; congruence|congruence]. Qed.
Lemma iperf_parse_arguments_in_range_witness :
  exists s', iperf_parse_arguments demo_line parsing = Some (Result 0, s') /\
  Settings.rate (Test.settings (tst s')) = 10000000 /\ Settings.bytes (Test.settings (tst s')) = 2 ^ 30 /\ Test.duration (tst s') = 0 /\
  (in_range (tst s') /\ (Test.role (tst s') = "c"%char \/ Test.role (tst s') = "s"%char) /\
  (Settings.bytes (Test.settings (tst s')) = 0 \/ Settings.blocks (Test.settings (tst s')) = 0) /\
  (Settings.bytes (Test.settings (tst s')) <> 0 \/ Settings.blocks (Test.settings (tst s')) <> 0 -> Test.duration (tst s') = 0) /\
  exists p, Test.protocol (tst s') = Some p /\ Settings.blksize (Test.settings (tst s')) <= MAX_BLOCKSIZE /\
    if Protocol.id p =? Pudp
    then Settings.blksize (Test.settings (tst s')) <= 0 \/ MIN_UDP_BLOCKSIZE <= Settings.blksize (Test.settings (tst s')) <= MAX_UDP_BLOCKSIZE
    else 0 < Settings.blksize (Test.settings (tst s'))).
Proof.
  eexists. split; [vm_compute; reflexivity|]. do 3 (split; [vm_compute; reflexivity|]).
  apply (iperf_parse_arguments_in_range demo_line parsing); [exact defaults_in_range|vm_compute; reflexivity].
Defined.

(** Sizes are cut to 32 bits before they are checked: a datagram of 3 gigabytes
    becomes a negative size that is accepted, and 4 gigabytes the default. *)
Lemma block_size_wraps :
  (exists s', iperf_parse_arguments [(code "c", Some "a"); (code "u", None); (code "l", Some "3G")] parsing = Some (Result 0, s') /\
     Settings.blksize (Test.settings (tst s')) = - 2 ^ 30) /\
  (exists s', iperf_parse_arguments [(code "c", Some "a"); (code "l", Some "4G")] parsing = Some (Result 0, s') /\
     Settings.blksize (Test.settings (tst s')) = DEFAULT_TCP_BLKSIZE).
Proof. split; eexists; (split; [vm_compute; reflexivity|reflexivity]). Qed.
(** Without statistics intervals the window of the rate limit is a quotient by
    zero, whose conversion is undefined. *)
Lemma no_interval_undefined : iperf_parse_arguments [(code "s", None); (code "i", Some "0")] parsing = None.
Proof. vm_compute. reflexivity. Qed.
(** Neither zero nor a negative number of streams is refused. *)
Lemma negative_streams_accepted :
  exists s', iperf_parse_arguments [(code "c", Some "a"); (code "P", Some "-1")] parsing = Some (Result 0, s') /\ Test.num_streams (tst s') = -1.
Proof. eexists. split; [vm_compute; reflexivity|reflexivity]. Qed.

(** ** The command line and the setters *)

Lemma atoi_dec n : 0 <= n < 2 ^ 31 -> atoi (print_nat 10 n) = n.
Proof.
  intros Hn. unfold atoi. pose proof (strtol_nat n "" ltac:(lia) eq_refl) as H. rewrite append_nil_r in H. rewrite H. cbn [fst].
  apply i32_id. unfold in_i32. lia.
Qed.
Fixpoint no_percent (s : string) : bool :=
  match s with EmptyString => true | String c s => negb (Ascii.eqb c "%") && no_percent s end.
Lemma span_no_percent s : no_percent s = true -> span_percent s = (s, "").
Proof.
  induction s as [|c s IH]; [done|]. cbn [no_percent span_percent]. rewrite andb_true_iff, negb_true_iff. intros [-> H]. by rewrite IH.
Qed.
Lemma hostname_plain s : no_percent s = true -> forall p, iperf_parse_hostname s p = Some (None, p).
Proof.
  intros H p. unfold iperf_parse_hostname, strtok. destruct s as [|c s]; [done|]. cbn [skip_percent].
  pose proof H as Hc. cbn [no_percent] in Hc. rewrite andb_true_iff, negb_true_iff in Hc. destruct Hc as [-> _]. by rewrite span_no_percent.
Qed.
Lemma run_option flag a opts f f1 s s1 : parse_option flag a f s = Some (Continue f1, s1) ->
  parse_options ((flag, a) :: opts) f s = parse_options opts f1 s1.
Proof. intros H. cbn [parse_options]. by rewrite (bind_run _ _ _ _ _ H). Qed.

Lemma run_try_upd f s t : f (tst s) = Some t -> try_upd f s = Some (tt, s <| tst := t |>).
Proof. unfold try_upd. rewrite bind_get_test. intros H. by rewrite (bind_run (mopt (f (tst s))) _ s t s) by (unfold mopt; by rewrite H). Qed.
Lemma run_client host f s t : no_percent host = true -> Ascii.eqb (Test.role (tst s)) "s" = false ->
  iperf_set_test_role (tst s) "c" = Some t ->
  parse_option (code "c") (Some host) f s = Some (Continue f, s <| tst := iperf_set_test_server_hostname t host |>).
Proof.
  intros Hh Hr Ht. change (parse_option (code "c") (Some host) f) with
    (let! test := get_test in if Ascii.eqb (Test.role test) "s" then fails IESERVCLIENT
     else try_upd (fun t => iperf_set_test_role t "c") ;; store_name set_hostname host f).
  rewrite bind_get_test, Hr. rewrite (bind_run _ _ _ _ _ (run_try_upd (fun t => iperf_set_test_role t "c") s t Ht)).
  unfold store_name. rewrite bind_upd. by rewrite (bind_run _ _ _ _ _ (hostname_plain host Hh _)).
Qed.
Lemma run_reverse f s t : nonzero (Test.bidirectional (tst s)) = false -> iperf_set_test_reverse (tst s) 1 = Some t ->
  parse_option (code "R") None f s = Some (Continue (client_option f), s <| tst := t |>).
Proof.
  intros Hr Ht. change (parse_option (code "R") None f) with
    (let! test := get_test in if nonzero (Test.bidirectional test) then fails IEREVERSEBIDIR
     else try_upd (fun t => iperf_set_test_reverse t 1) ;; go_on (client_option f)).
  rewrite bind_get_test, Hr. by rewrite (bind_run _ _ _ _ _ (run_try_upd (fun t => iperf_set_test_reverse t 1) s t Ht)).
Qed.
Lemma run_port p f s : 1 <= p <= 65535 ->
  parse_option (code "p") (Some (print_nat 10 p)) f s = Some (Continue f, s <| tst ::= fun t => iperf_set_test_server_port t p |>).
Proof.
  intros Hp. change (parse_option (code "p") (Some (print_nat 10 p)) f) with
    (let portno := atoi (print_nat 10 p) in
     if (portno <? 1) || (65535 <? portno) then fails IEBADPORT else store (fun t => t <| Test.server_port := portno |>) f).
  rewrite atoi_dec by lia. cbv zeta. by rewrite (proj2 (Z.ltb_ge _ _)), (proj2 (Z.ltb_ge _ _)) by lia.
Qed.
Lemma run_duration n f s : 0 <= n <= MAX_TIME ->
  parse_option (code "t") (Some (print_nat 10 n)) f s =
    Some (Continue (client_option (f <| duration_flag := true |>)), s <| tst ::= fun t => iperf_set_test_duration t n |>).
Proof.
  intros Hn. change (parse_option (code "t") (Some (print_nat 10 n)) f) with
    (store_if (fun t => t <| Test.duration := atoi (print_nat 10 n) |>)
       (negb ((MAX_TIME <? atoi (print_nat 10 n)) || (atoi (print_nat 10 n) <? 0))) IEDURATION (client_option (f <| duration_flag := true |>))).
  unfold MAX_TIME in *. rewrite atoi_dec by lia. unfold store_if. rewrite bind_upd.
  by rewrite (proj2 (Z.ltb_ge _ _)), (proj2 (Z.ltb_ge _ _)) by lia.
Qed.
Lemma run_parallel n f s : 0 <= n <= MAX_STREAMS ->
  parse_option (code "P") (Some (print_nat 10 n)) f s = Some (Continue (client_option f), s <| tst ::= fun t => iperf_set_test_num_streams t n |>).
Proof.
  intros Hn. change (parse_option (code "P") (Some (print_nat 10 n)) f) with
    (store_if (fun t => t <| Test.num_streams := atoi (print_nat 10 n) |>) (atoi (print_nat 10 n) <=? MAX_STREAMS) IENUMSTREAMS (client_option f)).
  unfold MAX_STREAMS in *. rewrite atoi_dec by lia. unfold store_if. rewrite bind_upd. by rewrite (proj2 (Z.leb_le _ _)) by lia.
Qed.

(** A client configured with the setters of the library, as the application
    does, and the command line that says the same. *)
Definition numbers (host : string) (port time streams : Z) (t : iperf_test) : iperf_test :=
  let t := iperf_set_test_server_port (iperf_set_test_server_hostname t host) port in
  iperf_set_test_num_streams (iperf_set_test_duration t time) streams.
Definition configured (host : string) (port time streams : Z) (reverse : bool) : option iperf_test :=
  let t := numbers host port time streams (demo_role "c") in
  if reverse then iperf_set_test_reverse t 1 else Some t.
Definition command_line (host : string) (port time streams : Z) (reverse : bool) : list (Z * option string) :=
  [(code "c", Some host); (code "p", Some (print_nat 10 port)); (code "t", Some (print_nat 10 time));
   (code "P", Some (print_nat 10 streams))] ++ (if reverse then [(code "R", None)] else []).

(** The end of the parse for a TCP client with a duration and nothing else. *)
Definition plain (t : iperf_test) (p : Protocol.protocol) : Prop :=
  Test.role t = "c"%char /\ Test.protocol t = Some p /\ Protocol.id p = Ptcp /\ Test.diskfile_name t = None /\
  Settings.bytes (Test.settings t) = 0 /\ Settings.blocks (Test.settings t) = 0 /\ limit_window t = Some 5.
Lemma parse_end_plain f s p : plain (tst s) p -> server_flag f = false -> blksize f = 0 -> rate_flag f = false -> duration_flag f = true ->
  parse_end f s = Some (Result 0, s <| tst ::= in_settings (fun s => s <| Settings.blksize := DEFAULT_TCP_BLKSIZE |> <| Settings.rate := 0 |>
    <| Settings.bitrate_limit_stats_per_interval := 5 |>) |>).
Proof.
  intros (Hro & Hp & Hid & Hfi & Hby & Hbl & Hw) Hsf Hb Hrf Hd. unfold parse_end, check_settings.
  rewrite bind_get_test, Hro, Hsf. cbn [Ascii.eqb andb Bool.eqb].
  rewrite bind_get_test, Hro, Hb, Hrf, Hd, Hfi, Hp, andb_false_r.
  cbn [Ascii.eqb andb Bool.eqb]. rewrite (bind_run (mopt (Some p)) _ s p s eq_refl). cbv beta.
  rewrite Hid. change (default_blksize Ptcp 0) with DEFAULT_TCP_BLKSIZE. rewrite andb_false_r.
  change (Ptcp =? Pudp) with false. change (DEFAULT_TCP_BLKSIZE <=? 0) with false.
  cbn [negb andb orb]. change (MAX_BLOCKSIZE <? DEFAULT_TCP_BLKSIZE) with false. cbv iota.
  rewrite !bind_upd.
  set (s1 := s <| tst ::= _ |> <| tst ::= _ |>).
  assert (Hfs : file_size f s1 = Some (tt, s1)).
  { unfold file_size. rewrite bind_get_test. change (Test.diskfile_name (tst s1)) with (Test.diskfile_name (tst s)). by rewrite Hfi. }
  rewrite (bind_run _ _ _ _ _ Hfs), bind_get_test. cbv zeta.
  change (Settings.bytes (Test.settings (tst s1))) with (Settings.bytes (Test.settings (tst s))).
  change (Settings.blocks (Test.settings (tst s1))) with (Settings.blocks (Test.settings (tst s))).
  change (limit_window (tst s1)) with (limit_window (tst s)).
  rewrite Hby, Hbl, Hw. done.
Qed.

Lemma parsing_client : iperf_set_test_role (tst parsing) "c" = Some (demo_role "c").
Proof.
  change (tst parsing) with demo_defaults. unfold demo_role.
  destruct (iperf_set_test_role demo_defaults "c") eqn:E; [done|]. by vm_compute in E.
Qed.
Lemma run_numbers host port time streams opts s t : no_percent host = true -> 1 <= port <= 65535 -> 0 <= time <= MAX_TIME ->
  0 <= streams <= MAX_STREAMS -> Ascii.eqb (Test.role (tst s)) "s" = false -> iperf_set_test_role (tst s) "c" = Some t ->
  parse_options ((code "c", Some host) :: (code "p", Some (print_nat 10 port)) :: (code "t", Some (print_nat 10 time)) ::
    (code "P", Some (print_nat 10 streams)) :: opts) (Flags 0 false false false false) s =
  parse_options opts (client_option (client_option (Flags 0 false false false false <| duration_flag := true |>)))
    (s <| tst := numbers host port time streams t |>).
Proof.
  intros Hh Hp Ht Hn Hr Hc. rewrite (run_option _ _ _ _ _ _ _ (run_client host _ s t Hh Hr Hc)).
  rewrite (run_option _ _ _ _ _ _ _ (run_port port _ _ Hp)), (run_option _ _ _ _ _ _ _ (run_duration time _ _ Ht)).
  by rewrite (run_option _ _ _ _ _ _ _ (run_parallel streams _ _ Hn)).
Qed.

Lemma plain_client : exists p, plain (demo_role "c") p.
Proof. eexists. unfold plain. split_and!; vm_compute; reflexivity. Qed.
Lemma client_one_way : nonzero (Test.bidirectional (demo_role "c")) = false.
Proof. vm_compute. reflexivity. Qed.
Lemma plain_numbers host port time streams t p : plain t p -> plain (numbers host port time streams t) p.
Proof. done. Qed.
Definition reversed (t : iperf_test) : iperf_test := t <| Test.reverse := 1 |> <| Test.mode := RECEIVER |> <| Test.sender_has_retransmits := 0 |>.
Lemma reverse_client t p : plain t p -> iperf_set_test_reverse t 1 = Some (reversed t).
Proof.
  intros [Hr _]. unfold iperf_set_test_reverse. cbv zeta. change (Test.reverse (t <| Test.reverse := 1 |>) =? 0) with false. cbv iota.
  change (Test.role (t <| Test.reverse := 1 |>)) with (Test.role t). by rewrite Hr.
Qed.
Lemma plain_reverse t p : plain t p -> plain (reversed t) p.
Proof. done. Qed.

Lemma tst_twice (s : prog) t f : s <| tst := t |> <| tst ::= f |> = s <| tst := f t |>.
Proof. done. Qed.
Lemma parse_end_at f s t p : plain t p -> server_flag f = false -> blksize f = 0 -> rate_flag f = false -> duration_flag f = true ->
  parse_end f (s <| tst := t |>) = Some (Result 0, s <| tst := in_settings (fun s => s <| Settings.blksize := DEFAULT_TCP_BLKSIZE |>
    <| Settings.rate := 0 |> <| Settings.bitrate_limit_stats_per_interval := 5 |>) t |>).
Proof. intros Hp H1 H2 H3 H4. rewrite <-tst_twice. by apply (parse_end_plain f (s <| tst := t |>) p). Qed.
(** The whole line leaves the test and only the two flags it should. *)
Lemma run_line host port time streams (reverse : bool) s t p : no_percent host = true -> 1 <= port <= 65535 -> 0 <= time <= MAX_TIME ->
  0 <= streams <= MAX_STREAMS -> Ascii.eqb (Test.role (tst s)) "s" = false -> iperf_set_test_role (tst s) "c" = Some t ->
  plain t p -> nonzero (Test.bidirectional t) = false ->
  parse_options (command_line host port time streams reverse) (Flags 0 false false false false) s =
  Some (Continue (Flags 0 false true false true),
    s <| tst := if reverse then reversed (numbers host port time streams t) else numbers host port time streams t |>).
Proof.
  intros Hh Hp Ht Hn Hr Hc Hpl Hb. unfold command_line. cbn [app]. rewrite (run_numbers _ _ _ _ _ s t Hh Hp Ht Hn Hr Hc).
  destruct reverse; [|done].
  change (Test.bidirectional t) with (Test.bidirectional (tst (s <| tst := numbers host port time streams t |>))) in Hb.
  by rewrite (run_option _ _ _ _ _ _ _ (run_reverse _ _ _ Hb (reverse_client _ p (plain_numbers host port time streams t p Hpl)))).
Qed.

(** C21. The command line configures a test as the setters do: for every host
    without a device, port, time and number of streams, in both directions, the
    parser accepts the printed numbers and leaves the test that the setters
    make, with the default block size, no rate and the window of the limit. *)
Theorem command_line_sets (host : string) (port time streams : Z) (reverse : bool) :
  no_percent host = true -> 1 <= port <= 65535 -> 0 <= time <= MAX_TIME -> 0 <= streams <= MAX_STREAMS ->
  exists t, configured host port time streams reverse = Some t /\
    iperf_parse_arguments (command_line host port time streams reverse) parsing =
      Some (Result 0, parsing <| tst := in_settings (fun s => s <| Settings.blksize := DEFAULT_TCP_BLKSIZE |> <| Settings.rate := 0 |>
        <| Settings.bitrate_limit_stats_per_interval := 5 |>) t |>).
Proof.
  intros Hh Hp Ht Hn. unfold iperf_parse_arguments, configured. destruct plain_client as (p & Hc). cbv zeta.
  rewrite (bind_run _ _ _ _ _ (run_line host port time streams reverse parsing _ p Hh Hp Ht Hn eq_refl parsing_client Hc client_one_way)).
  pose proof (plain_numbers host port time streams _ p Hc) as Hpl. destruct reverse.
  - eexists. split; [exact (reverse_client _ p Hpl)|].
    exact (parse_end_at (Flags 0 false true false true) parsing _ p (plain_reverse _ p Hpl) eq_refl eq_refl eq_refl eq_refl).
  - eexists. split; [reflexivity|]. exact (parse_end_at (Flags 0 false true false true) parsing _ p Hpl eq_refl eq_refl eq_refl eq_refl).
Qed.
Lemma command_line_sets_witness :
  no_percent "server.example" = true /\ 1 <= 5201 <= 65535 /\ 0 <= 60 <= MAX_TIME /\ 0 <= 4 <= MAX_STREAMS /\
  option_map (fun t => (Test.duration t, Test.num_streams t, Test.mode t)) (configured "server.example" 5201 60 4 true) = Some (60, 4, RECEIVER) /\
  exists t, configured "server.example" 5201 60 4 true = Some t /\
    iperf_parse_arguments (command_line "server.example" 5201 60 4 true) parsing =
      Some (Result 0, parsing <| tst := in_settings (fun s => s <| Settings.blksize := DEFAULT_TCP_BLKSIZE |> <| Settings.rate := 0 |>
        <| Settings.bitrate_limit_stats_per_interval := 5 |>) t |>).
Proof.
  split; [reflexivity|]. split; [lia|]. split; [unfold MAX_TIME; lia|]. split; [unfold MAX_STREAMS; lia|]. split; [vm_compute; reflexivity|].
  apply (command_line_sets "server.example" 5201 60 4 true); [reflexivity|lia|unfold MAX_TIME; lia|unfold MAX_STREAMS; lia].
Defined.

(** ** The table of long options *)

(** Every long option has a case in the switch, which never ends in the usage
    text and status 1, except for the send timeout. *)
Definition handled (flag : Z) : bool :=
  let f := Flags 0 false false false false in
  existsb (fun c => match c with Some _ => true | None => false end)
    [role_option flag (Some "1") f; test_option flag (Some "1") f; socket_option flag (Some "1") f; report_option flag (Some "1") f;
     output_option flag (Some "1") f].
Lemma longopts_handled : map (fun '(name, _, _) => name) (filter (fun '(_, _, flag) => handled flag = false) longopts) = ["snd-timeout"].
Proof. vm_compute. reflexivity. Qed.
