(* ===== verification/Results.v ===== *)
(** * The results of a test: send_results and get_results

    At the end of a test each side sends its counters to the other.  The text
    printed at debug level is left out; a server
    may include its text output or its JSON report. *)
From Stdlib Require Import Ascii String.
From stdpp Require Import strings.
From S2P Require Import Prelude Double Text Cjson IperfTime Timer Iperf Error Sys Net Json Util Api.
#[local] Open Scope string_scope.
#[local] Open Scope Z_scope.

Definition add_double (name : string) (v : double) (j : cJSON) : cJSON := cJSON_AddNumberToObject j name v.
Definition add_int (name : string) (v : Z) (j : cJSON) : cJSON := cJSON_AddNumberToObject j name (Z2d v).

(** ** Sending *)

(** The counters of one stream. *)
Definition sent_bytes (sp : iperf_stream) : Z :=
  let rp := Stream.result sp in
  if negb (Stream.sender sp =? 0) then u64 (Result.bytes_sent rp - Result.bytes_sent_omit rp)
  else Result.bytes_received rp.
Definition sent_retransmits (test : iperf_test) (sp : iperf_stream) : Z :=
  if negb (Stream.sender sp =? 0) && negb (Test.sender_has_retransmits test =? 0)
  then i32 (Result.stream_retrans (Stream.result sp)) else -1.
Definition elapsed (t1 t2 : iperf_time) : double := iperf_time_in_secs (iperf_time_diff t1 t2).2.

Definition stream_results (test : iperf_test) (sp : iperf_stream) : cJSON :=
  let rp := Stream.result sp in
  let j := cJSON_CreateObject in
  let j := add_int "id" (Stream.id sp) j in
  let j := add_int "bytes" (sent_bytes sp) j in
  let j := add_int "retransmits" (sent_retransmits test sp) j in
  let j := add_double "jitter" (Stream.jitter sp) j in
  let j := add_int "errors" (Stream.cnt_error sp) j in
  let j := add_int "omitted_errors" (Stream.omitted_cnt_error sp) j in
  let j := add_int "packets" (Stream.packet_count sp) j in
  let j := add_int "omitted_packets" (Stream.omitted_packet_count sp) j in
  let j := add_double "start_time" (elapsed (Result.start_time rp) (Result.start_time rp)) j in
  add_double "end_time" (elapsed (Result.start_time rp) (Result.end_time rp)) j.

Definition cpu (l : list double) (i : nat) : double := nth i l dzero.
(** [buflen] always suffices, so the lines are simply joined. *)
Definition server_output (test : iperf_test) : string := foldr String.append "" (Test.server_output_list test).

Definition results (test : iperf_test) : cJSON :=
  let j := cJSON_CreateObject in
  let j := add_double "cpu_util_total" (cpu (Test.cpu_util test) 0) j in
  let j := add_double "cpu_util_user" (cpu (Test.cpu_util test) 1) j in
  let j := add_double "cpu_util_system" (cpu (Test.cpu_util test) 2) j in
  let j := add_int "sender_has_retransmits"
    (if Test.mode test =? RECEIVER then -1 else Test.sender_has_retransmits test) j in
  let j := match Test.congestion_used test with
           | Some c => cJSON_AddStringToObject j "congestion_used" c
           | None => j
           end in
  let j := if Ascii.eqb (Test.role test) "s" && negb (Test.get_server_output test =? 0) then
             if negb (Test.json_output test =? 0) then match report_document test with Some o => cJSON_AddItemToObject j "server_output_json" o | None => j end
             else cJSON_AddStringToObject j "server_output_text" (server_output test)
           else j in
  cJSON_AddItemToObject j "streams"
    (foldl (fun j_streams sp => cJSON_AddItemToArray j_streams (stream_results test sp)) cJSON_CreateArray
       (Test.streams test)).

Definition send_results : P Z :=
  let! test := get_test in
  let! r := do_os (JSON_write (Test.ctrl_sck test) (results test)) in
  if r <? 0 then fail_with IESENDRESULTS ;; mret (-1) else mret 0.

(** ** Receiving *)

(** The counters read from one element; the three optional parts are the
    omitted counts and the two times. *)
Record report := Report {
  r_bytes : Z; r_retransmits : Z; r_jitter : double; r_errors : Z; r_packets : Z;
  r_omitted : option (Z * Z); r_duration : option double }.

(** What a stream keeps of them. *)
Definition accept_report (r : report) (sp : iperf_stream) : iperf_stream :=
  let duration := default dzero (r_duration r) in
  if negb (Stream.sender sp =? 0) then
    let sp := sp <| Stream.jitter := r_jitter r |> <| Stream.cnt_error := r_errors r |>
      <| Stream.peer_packet_count := r_packets r |>
      <| Stream.result ::= fun rp => rp <| Result.bytes_received := r_bytes r |> |> in
    let sp :=
      match r_omitted r with
      | Some (omitted_cerror, omitted_pcount) =>
          sp <| Stream.omitted_cnt_error := omitted_cerror |> <| Stream.peer_omitted_packet_count := omitted_pcount |>
      | None =>
          let sp := sp <| Stream.peer_omitted_packet_count := Stream.omitted_packet_count sp |> in
          sp <| Stream.omitted_cnt_error :=
            if 0 <? Stream.peer_omitted_packet_count sp then (if 0 <? Stream.cnt_error sp then -1 else 0)
            else Stream.cnt_error sp |>
      end in
    sp <| Stream.result ::= fun rp => rp <| Result.receiver_time := duration |> |>
  else
    let sp := sp <| Stream.peer_packet_count := r_packets r |>
      <| Stream.result ::= fun rp => rp <| Result.bytes_sent := r_bytes r |>
           <| Result.stream_retrans := r_retransmits r |> |> in
    let sp := sp <| Stream.peer_omitted_packet_count :=
      match r_omitted r with Some (_, omitted_pcount) => omitted_pcount | None => Stream.peer_packet_count sp end |> in
    sp <| Stream.result ::= fun rp => rp <| Result.sender_time := duration |> |>.

(** [SLIST_FOREACH(sp, ...) if (sp->id == sid) break;] and the update of the
    stream found, null when there is none. *)
Fixpoint update_stream (sid : Z) (f : iperf_stream -> iperf_stream) (l : list iperf_stream) : option (list iperf_stream) :=
  match l with
  | [] => None
  | sp :: l => if Stream.id sp =? sid then Some (f sp :: l)
               else l' ← update_stream sid f l; Some (sp :: l')
  end.

Definition number_of (j : cJSON) (name : string) : option cJSON := iperf_cJSON_GetObjectItemType j name Want_Number.

(** The body of the loop of [get_results]. *)
Definition get_stream_results (j_stream : cJSON) : P Z :=
  let j_omitted_errors := number_of j_stream "omitted_errors" in
  let j_omitted_packets := number_of j_stream "omitted_packets" in
  match number_of j_stream "id", number_of j_stream "bytes", number_of j_stream "retransmits",
        number_of j_stream "jitter", number_of j_stream "errors", number_of j_stream "packets" with
  | Some j_id, Some j_bytes, Some j_retransmits, Some j_jitter, Some j_errors, Some j_packets =>
      if xorb (bool_decide (is_Some j_omitted_errors)) (bool_decide (is_Some j_omitted_packets))
      then fail_with IERECVRESULTS ;; mret (-1)
      else
        let r := Report (u64 (valueint j_bytes)) (i32 (valueint j_retransmits)) (valuedouble j_jitter)
          (valueint j_errors) (valueint j_packets)
          (e ← j_omitted_errors; p ← j_omitted_packets; Some (valueint e, valueint p))
          (a ← number_of j_stream "start_time"; b ← number_of j_stream "end_time";
           Some (dsub (valuedouble b) (valuedouble a))) in
        let! test := get_test in
        match update_stream (i32 (valueint j_id)) (accept_report r) (Test.streams test) with
        | Some l => upd (fun t => t <| Test.streams := l |>) ;; mret 0
        | None => fail_with IESTREAMID ;; mret (-1)
        end
  | _, _, _, _, _, _ => fail_with IERECVRESULTS ;; mret (-1)
  end.

(** The loop: [n] elements from index [i]; an error does not end it. *)
Fixpoint get_all_results (n : nat) (i : Z) (j_streams : cJSON) (r : Z) : P Z :=
  match n with
  | O => mret r
  | S n =>
      let! r' :=
        match cJSON_GetArrayItem j_streams i with
        | None => fail_with IERECVRESULTS ;; mret (-1)
        | Some j_stream => get_stream_results j_stream
        end in
      get_all_results n (i + 1) j_streams (if r' <? 0 then r' else r)
  end.

(** The server's output, wanted by a client that asked for it. *)
Definition take_server_output (j : cJSON) : P unit :=
  let! test := get_test in
  if Ascii.eqb (Test.role test) "c" && negb (iperf_get_test_get_server_output test =? 0) then
    match cJSON_DetachItemFromObject j "server_output_json" with
    | Some (j_server_output, _) => upd (fun t => t <| Test.json_server_output := Some j_server_output |>)
    | None =>
        match iperf_cJSON_GetObjectItemType j "server_output_text" Want_String with
        | Some o => upd (fun t => t <| Test.server_output_text := Some (valuestring o) |>)
        | None => mret tt
        end
    end
  else mret tt.

Definition get_results : P Z :=
  let! test := get_test in
  let! j := do_os (JSON_read (Test.ctrl_sck test) 0) in
  match j with
  | None => fail_with IERECVRESULTS ;; mret (-1)
  | Some j =>
      let! r :=
        match number_of j "cpu_util_total", number_of j "cpu_util_user", number_of j "cpu_util_system",
              number_of j "sender_has_retransmits" with
        | Some total, Some user, Some system, Some has =>
            upd (fun t => t <| Test.remote_cpu_util := [valuedouble total; valuedouble user; valuedouble system] |>) ;;
            let result_has_retransmits := i32 (valueint has) in
            upd (fun t =>
              if Test.mode t =? RECEIVER then
                t <| Test.sender_has_retransmits := result_has_retransmits |> <| Test.other_side_has_retransmits := 0 |>
              else if Test.mode t =? BIDIRECTIONAL then t <| Test.other_side_has_retransmits := result_has_retransmits |>
              else t) ;;
            match iperf_cJSON_GetObjectItemType j "streams" Want_Array with
            | None => fail_with IERECVRESULTS ;; mret (-1)
            | Some j_streams =>
                let n := cJSON_GetArraySize j_streams in
                let! r := get_all_results (Z.to_nat n) 0 j_streams 0 in
                take_server_output j ;; mret r
            end
        | _, _, _, _ => fail_with IERECVRESULTS ;; mret (-1)
        end in
      match iperf_cJSON_GetObjectItemType j "congestion_used" Want_String with
      | Some c => upd (fun t => t <| Test.remote_congestion_used := Some (valuestring c) |>)
      | None => mret tt
      end ;; mret r
  end.

(** [iperf_exchange_results]: the client speaks first. *)
Definition iperf_exchange_results : P Z :=
  let! test := get_test in
  if Ascii.eqb (Test.role test) "c" then
    let! r := send_results in
    if r <? 0 then mret (-1)
    else let! r := get_results in mret (if r <? 0 then -1 else 0)
  else
    let! r := get_results in
    if r <? 0 then mret (-1)
    else let! r := send_results in mret (if r <? 0 then -1 else 0).

(** ** The objects as tables *)

Definition real (d : double) : cJSON := cJSON_CreateNumber d.
Definition stream_fields (test : iperf_test) (sp : iperf_stream) : list (string * option cJSON) :=
  let rp := Stream.result sp in
  [("id", Some (num (Stream.id sp))); ("bytes", Some (num (sent_bytes sp)));
   ("retransmits", Some (num (sent_retransmits test sp))); ("jitter", Some (real (Stream.jitter sp)));
   ("errors", Some (num (Stream.cnt_error sp))); ("omitted_errors", Some (num (Stream.omitted_cnt_error sp)));
   ("packets", Some (num (Stream.packet_count sp)));
   ("omitted_packets", Some (num (Stream.omitted_packet_count sp)));
   ("start_time", Some (real (elapsed (Result.start_time rp) (Result.start_time rp))));
   ("end_time", Some (real (elapsed (Result.start_time rp) (Result.end_time rp))))].
Lemma stream_results_table test sp : stream_results test sp = cJSON_Object (flatten (stream_fields test sp)).
Proof. reflexivity. Qed.

Definition sends_output (test : iperf_test) : bool :=
  Ascii.eqb (Test.role test) "s" && negb (Test.get_server_output test =? 0).
Definition result_fields (test : iperf_test) : list (string * option cJSON) :=
  let json := negb (Test.json_output test =? 0) in
  [("cpu_util_total", Some (real (cpu (Test.cpu_util test) 0)));
   ("cpu_util_user", Some (real (cpu (Test.cpu_util test) 1)));
   ("cpu_util_system", Some (real (cpu (Test.cpu_util test) 2)));
   ("sender_has_retransmits",
     Some (num (if Test.mode test =? RECEIVER then -1 else Test.sender_has_retransmits test)));
   ("congestion_used", cJSON_String <$> Test.congestion_used test);
   ("server_output_json", if sends_output test && json then report_document test else None);
   ("server_output_text", opt (sends_output test && negb json) (cJSON_String (server_output test)));
   ("streams", Some (cJSON_Array (map (stream_results test) (Test.streams test))))].

Lemma results_table test : results test = cJSON_Object (flatten (result_fields test)).
Proof.
  assert (Hs : forall l acc, foldl (fun j_streams sp => cJSON_AddItemToArray j_streams (stream_results test sp))
    (cJSON_Array acc) l = cJSON_Array (acc ++ map (stream_results test) l)).
  { induction l as [|sp l IH]; intros acc; cbn; [by rewrite app_nil_r|]. rewrite IH. by rewrite <-app_assoc. }
  unfold results. cbv zeta. unfold cJSON_CreateArray. rewrite Hs. clear Hs. unfold result_fields, sends_output.
  destruct (Test.congestion_used test), (Ascii.eqb (Test.role test) "s" && negb (Test.get_server_output test =? 0)),
    (negb (Test.json_output test =? 0)), (report_document test); reflexivity.
Qed.

Lemma stream_field test sp i k v : stream_fields test sp !! i = Some (k, Some v) -> strcaseeq k k = true ->
  has_type Want_Number v = true -> number_of (stream_results test sp) k = Some v.
Proof.
  intros Hi Hk Hv. unfold number_of, iperf_cJSON_GetObjectItemType.
  rewrite stream_results_table. change (cJSON_GetObjectItem (cJSON_Object ?l) k) with (find_item l k).
  rewrite (find_item_field (stream_fields test sp) i k (Some v)); [by rewrite Hv|lazy; reflexivity|done|done].
Qed.
Lemma result_field test i k v : result_fields test !! i = Some (k, v) -> strcaseeq k k = true ->
  cJSON_GetObjectItem (results test) k = v.
Proof.
  intros Hi Hk. rewrite results_table.
  refine (find_item_field (result_fields test) i k v _ Hk Hi). lazy. reflexivity.
Qed.

(** ** What the other side keeps *)

(** Values that fit their types and are exact as doubles, and doubles whose
    text reads back as the same number. *)
Definition exact (n : Z) : Prop := - 2 ^ 53 < n < 2 ^ 53.
Definition readable (d : double) : Prop := wire_number d (saturate d) = true.
Record stream_ok (test : iperf_test) (sp : iperf_stream) : Prop := {
  so_id : in_i32 (Stream.id sp);
  so_bytes : 0 <= sent_bytes sp < 2 ^ 53;
  so_retransmits : in_i32 (sent_retransmits test sp);
  so_counts : Forall exact [Stream.cnt_error sp; Stream.omitted_cnt_error sp; Stream.packet_count sp;
    Stream.omitted_packet_count sp];
  so_doubles : Forall readable [Stream.jitter sp; elapsed (Result.start_time (Stream.result sp)) (Result.start_time (Stream.result sp));
    elapsed (Result.start_time (Stream.result sp)) (Result.end_time (Stream.result sp))] }.
Record results_ok (test : iperf_test) : Prop := {
  ro_streams : Forall (stream_ok test) (Test.streams test);
  ro_cpu : Forall (fun i => readable (cpu (Test.cpu_util test) i)) (seq 0 3);
  ro_has : in_i32 (Test.sender_has_retransmits test);
  ro_congestion : match Test.congestion_used test with Some v => no_nul v = true | None => True end;
  ro_text : no_nul (server_output test) = true;
  ro_json : match report_document test with Some o => wire_ok o = true /\ (nesting o < CJSON_NESTING_LIMIT)%nat | None => True end }.

(** The peer [b] of the stream [a] after the report of the test [test]. *)
Definition heard (test : iperf_test) (a b : iperf_stream) : iperf_stream :=
  let rp := Stream.result a in
  accept_report (Report (sent_bytes a) (sent_retransmits test a) (Stream.jitter a) (Stream.cnt_error a)
    (Stream.packet_count a) (Some (Stream.omitted_cnt_error a, Stream.omitted_packet_count a))
    (Some (dsub (elapsed (Result.start_time rp) (Result.end_time rp))
                (elapsed (Result.start_time rp) (Result.start_time rp))))) b.

Lemma heard_id test a b : Stream.id (heard test a b) = Stream.id b.
Proof. unfold heard, accept_report. cbn. by destruct (negb _). Qed.

Lemma get_stream_results_heard test a s l : stream_ok test a ->
  update_stream (Stream.id a) (heard test a) (Test.streams (tst s)) = Some l ->
  get_stream_results (stream_results test a) s = Some (0, s <| tst ::= fun t => t <| Test.streams := l |> |>).
Proof.
  intros [Hid Hb Hr Hc Hd] Hl. unfold get_stream_results.
  repeat match goal with H : Forall _ (_ :: _) |- _ => apply Forall_cons in H as [? H] end. unfold exact in *.
  rewrite (stream_field test a 0 "id" _ eq_refl eq_refl eq_refl), (stream_field test a 1 "bytes" _ eq_refl eq_refl eq_refl),
    (stream_field test a 2 "retransmits" _ eq_refl eq_refl eq_refl), (stream_field test a 3 "jitter" _ eq_refl eq_refl eq_refl),
    (stream_field test a 4 "errors" _ eq_refl eq_refl eq_refl), (stream_field test a 5 "omitted_errors" _ eq_refl eq_refl eq_refl),
    (stream_field test a 6 "packets" _ eq_refl eq_refl eq_refl), (stream_field test a 7 "omitted_packets" _ eq_refl eq_refl eq_refl),
    (stream_field test a 8 "start_time" _ eq_refl eq_refl eq_refl), (stream_field test a 9 "end_time" _ eq_refl eq_refl eq_refl).
  rewrite !bool_decide_eq_true_2 by done. cbn [xorb mbind option_bind]. unfold num, real, cJSON_CreateNumber.
  cbn [valueint valuedouble]. rewrite !wire_i32, wire_u64, !saturate_Z2d by done.
  unfold mbnd at 1, get_test. change (accept_report _) with (heard test a). rewrite Hl. reflexivity.
Qed.

Lemma update_stream_at f b pre post : Stream.id b ∉ map Stream.id pre ->
  update_stream (Stream.id b) f (pre ++ b :: post) = Some (pre ++ f b :: post)%list.
Proof.
  induction pre as [|x pre IH]; intros Hn; cbn in *; [by rewrite Z.eqb_refl|].
  apply not_elem_of_cons in Hn as [Hx Hn]. destruct (Z.eqb_spec (Stream.id x) (Stream.id b)); [congruence|].
  by rewrite IH.
Qed.

(** Replacing the streams of the test. *)
Definition with_streams (l : list iperf_stream) (s : prog) : prog := s <| tst ::= fun t => t <| Test.streams := l |> |>.

Lemma get_all_results_heard test j_done r : forall la s pre todo,
  Forall (stream_ok test) la -> Test.streams (tst s) = (pre ++ todo)%list -> map Stream.id la = map Stream.id todo ->
  NoDup (map Stream.id (pre ++ todo)) -> r = 0 ->
  get_all_results (length la) (Z.of_nat (length j_done)) (cJSON_Array (j_done ++ map (stream_results test) la)) r s =
    Some (0, with_streams (pre ++ zip_with (heard test) la todo) s).
Proof.
  intros la; revert j_done r. induction la as [|a la IH]; intros j_done r s pre todo Hok Hs Hid Hnd ->.
  { destruct todo; [|done]. cbn. rewrite app_nil_r in *. unfold with_streams. destruct s as [t ? ?]. cbn in *.
    rewrite <-Hs. by destruct t. }
  destruct todo as [|b todo]; [done|]. cbn [map] in Hid. injection Hid as Hab Hid.
  apply Forall_cons in Hok as [Ha Hok]. cbn [length get_all_results].
  assert (Hitem : cJSON_GetArrayItem (cJSON_Array (j_done ++ map (stream_results test) (a :: la))) (Z.of_nat (length j_done)) =
    Some (stream_results test a)).
  { unfold cJSON_GetArrayItem. destruct (Z.ltb_spec (Z.of_nat (length j_done)) 0); [lia|].
    rewrite Nat2Z.id, lookup_app_r, Nat.sub_diag by lia. done. }
  unfold mbnd. cbn [map] in Hitem |- *. rewrite Hitem.
  rewrite (get_stream_results_heard test a s (pre ++ heard test a b :: todo)%list); [|done|].
  2: { rewrite Hs, Hab. apply update_stream_at. rewrite map_app in Hnd. apply NoDup_app in Hnd as (_ & Hd & _).
       intros Hin. apply (Hd _ Hin). cbn. by left. }
  change (if 0 <? 0 then 0 else 0) with 0.
  replace (j_done ++ stream_results test a :: map (stream_results test) la)%list
    with ((j_done ++ [stream_results test a]) ++ map (stream_results test) la)%list by by rewrite <-app_assoc.
  replace (Z.of_nat (length j_done) + 1) with (Z.of_nat (length (j_done ++ [stream_results test a])%list))
    by (rewrite length_app; cbn; lia).
  rewrite (IH _ 0 _ (pre ++ [heard test a b])%list todo); [|done| |done| |done].
  - cbn [zip_with]. by rewrite <-app_assoc.
  - cbn. by rewrite <-app_assoc.
  - rewrite <-app_assoc. cbn [app]. rewrite map_app in *. cbn [map] in *. by rewrite heard_id.
Qed.

(** The server's output changes none of the counters. *)
Definition same_counters (t t' : iperf_test) : Prop :=
  Test.streams t' = Test.streams t /\ Test.remote_cpu_util t' = Test.remote_cpu_util t.
Lemma take_server_output_keeps j s : exists s', take_server_output j s = Some (tt, s') /\
  same_counters (tst s) (tst s') /\ os s' = os s.
Proof.
  unfold take_server_output, mbnd, get_test. destruct (_ && _); [|by exists s].
  destruct (cJSON_DetachItemFromObject j "server_output_json") as [[x ?]|]; [by eexists|].
  destruct (iperf_cJSON_GetObjectItemType j "server_output_text" Want_String); [by eexists|by exists s].
Qed.

Lemma results_wire test : results_ok test ->
  wire_ok (results test) = true /\ (nesting (results test) <= CJSON_NESTING_LIMIT)%nat.
Proof.
  intros [Hs Hcpu Hhas Hcong Htext Hj]. rewrite results_table.
  assert (Hstreams : forall l, Forall (stream_ok test) l -> forallb wire_ok (map (stream_results test) l) = true).
  { induction 1 as [|sp l Hsp _ IH]; [done|]. cbn [map forallb]. rewrite IH, andb_true_r, stream_results_table.
    destruct Hsp as [Hid Hb Hr Hc Hd].
    repeat match goal with H : Forall _ (_ :: _) |- _ => apply Forall_cons in H as [? H] end.
    apply flatten_wire. unfold stream_fields. repeat apply Forall_cons_2; try apply Forall_nil_2; cbn [fst snd].
    all: first [ apply (num_wire _ _ true); [done|first [by apply i32_small|done|lia]] | done ]. }
  cbn [seq] in Hcpu.
  repeat match goal with H : Forall _ (_ :: _) |- _ => apply Forall_cons in H as [? H] end. split.
  - apply flatten_wire. unfold result_fields. repeat apply Forall_cons_2; try apply Forall_nil_2; cbn [fst snd].
    all: first [ done | apply text_wire; done | idtac ].
    + apply (num_wire _ _ true); [done|]. apply i32_small. destruct (Test.mode test =? RECEIVER); [done|exact Hhas].
    + destruct (sends_output test && _); [|done]. destruct (report_document test); [exact (proj1 Hj)|done].
    + destruct (sends_output test && _); [|done]. cbn -[no_nul]. exact Htext.
    + cbn -[wire_ok]. exact (Hstreams _ Hs).
  - assert (Hnest : forall l, (max_list_with nesting (map (stream_results test) l) <= 1)%nat).
    { induction l as [|sp l IH]; [cbn; lia|]. cbn [map max_list_with]. apply Nat.max_lub; [|exact IH].
      rewrite stream_results_table, flatten_flat; [lia|]. repeat constructor. }
    transitivity (S (max 2 (nesting (default cJSON_NULL (report_document test)))))%nat;
      [|destruct (report_document test); [destruct Hj as [_ Hj]|clear Hj]; cbn; unfold CJSON_NESTING_LIMIT in *; lia].
    cbn [nesting]. apply le_n_S. unfold result_fields, flatten. cbn [omap list_omap fst snd fmap option_fmap option_map].
    specialize (Hnest (Test.streams test)).
    destruct (Test.congestion_used test), (sends_output test && negb (Test.json_output test =? 0)),
      (sends_output test && negb (negb (Test.json_output test =? 0))), (report_document test); cbn -[Nat.max stream_results]; cbn [nesting] in *; lia.
Qed.

Lemma get_results_heard test txt s rest :
  results_ok test -> map Stream.id (Test.streams test) = map Stream.id (Test.streams (tst s)) ->
  NoDup (map Stream.id (Test.streams (tst s))) ->
  cJSON_PrintUnformatted (results test) = Some txt -> Z.of_nat (String.length txt) < 2 ^ 31 ->
  delivers (message txt) (os s) rest ->
  exists s', get_results s = Some (0, s') /\
    Test.streams (tst s') = zip_with (heard test) (Test.streams test) (Test.streams (tst s)) /\
    Test.remote_cpu_util (tst s') = map (cpu (Test.cpu_util test)) (seq 0 3) /\ script (os s') = rest.
Proof.
  intros Hok Hids Hnd Htxt Hlen Hd. destruct (results_wire _ Hok) as [Hwire Hnest].
  destruct (JSON_read_item (Test.ctrl_sck (tst s)) 0 _ txt rest (os s) Hwire Hnest Htxt Hlen ltac:(by left) Hd)
    as (w & Hread & Hrest).
  unfold get_results. rewrite bind_get_test, (bind_os _ _ _ _ _ Hread).
  set (s1 := s <| os := w |>). unfold number_of, iperf_cJSON_GetObjectItemType.
  rewrite (result_field test 0 "cpu_util_total" _ eq_refl eq_refl), (result_field test 1 "cpu_util_user" _ eq_refl eq_refl),
    (result_field test 2 "cpu_util_system" _ eq_refl eq_refl), (result_field test 3 "sender_has_retransmits" _ eq_refl eq_refl),
    (result_field test 7 "streams" _ eq_refl eq_refl), (result_field test 4 "congestion_used" _ eq_refl eq_refl).
  cbn [has_type real num cJSON_CreateNumber valuedouble].
  repeat first [rewrite bind_assoc | rewrite bind_upd]. cbv zeta.
  match goal with |- context [mbnd (get_all_results _ _ _ _) _ ?S] => set (s2 := S) end.
  assert (H2 : Test.streams (tst s2) = Test.streams (tst s) /\
    Test.remote_cpu_util (tst s2) = map (cpu (Test.cpu_util test)) (seq 0 3) /\ os s2 = w).
  { unfold s2. cbn. repeat case_match; done. }
  clearbody s2. destruct H2 as (Hstr & Hcpu & Hos).
  pose proof (get_all_results_heard test [] 0 (Test.streams test) s2 [] (Test.streams (tst s)) (ro_streams _ Hok)
    Hstr Hids Hnd eq_refl) as Hall.
  unfold mbnd at 1. change (Z.to_nat (cJSON_GetArraySize (cJSON_Array (map (stream_results test) (Test.streams test)))))
    with (Z.to_nat (Z.of_nat (length (map (stream_results test) (Test.streams test))))).
  rewrite Nat2Z.id, length_map. cbn [app] in Hall. change (Z.of_nat (length [])) with 0 in Hall. rewrite Hall.
  rewrite bind_assoc.
  destruct (take_server_output_keeps (results test) (with_streams (zip_with (heard test) (Test.streams test) (Test.streams (tst s))) s2))
    as (s3 & Htake & [Hs3 Hc3] & Hos3).
  unfold mbnd at 1. rewrite Htake. cbn in Hs3, Hc3, Hos3.
  destruct (Test.congestion_used test) as [c|]; cbn; eexists; (split; [reflexivity|]); cbn; rewrite Hs3, Hc3, Hos3, Hcpu, Hos; done.
Qed.

(** The stream [b'], which was [b], after hearing from its peer [a]: the
    sender's end learns what was received, the receiver's end what was sent. *)
Record mirrors (test : iperf_test) (a b b' : iperf_stream) : Prop := {
  m_id : Stream.id b' = Stream.id b /\ Stream.sender b' = Stream.sender b;
  m_packets : Stream.peer_packet_count b' = Stream.packet_count a /\
    Stream.peer_omitted_packet_count b' = Stream.omitted_packet_count a;
  m_sender : Stream.sender b <> 0 -> Stream.sender a = 0 ->
    Result.bytes_received (Stream.result b') = Result.bytes_received (Stream.result a) /\
    Result.bytes_sent (Stream.result b') = Result.bytes_sent (Stream.result b) /\
    Stream.jitter b' = Stream.jitter a /\ Stream.cnt_error b' = Stream.cnt_error a /\
    Stream.omitted_cnt_error b' = Stream.omitted_cnt_error a;
  m_receiver : Stream.sender b = 0 -> Stream.sender a <> 0 ->
    Result.bytes_sent (Stream.result b') =
      u64 (Result.bytes_sent (Stream.result a) - Result.bytes_sent_omit (Stream.result a)) /\
    Result.bytes_received (Stream.result b') = Result.bytes_received (Stream.result b) /\
    Result.stream_retrans (Stream.result b') = sent_retransmits test a /\ Stream.cnt_error b' = Stream.cnt_error b }.

Lemma heard_mirrors test a b : mirrors test a b (heard test a b).
Proof.
  constructor; unfold heard, accept_report, sent_bytes; cbn;
    destruct (Z.eqb_spec (Stream.sender b) 0), (Z.eqb_spec (Stream.sender a) 0); done.
Qed.

(** A report under way: what [a] sends, in whatever pieces, is all that [b]
    receives, in whatever pieces. *)
Record crosses (a a' b : prog) (rest : list reply) : Prop := {
  cr_ok : results_ok (tst a);
  cr_text : exists txt, cJSON_PrintUnformatted (results (tst a)) = Some txt /\ Z.of_nat (String.length txt) < 2 ^ 31;
  cr_sent : exists r, send_results a = Some (r, a');
  cr_sane : Forall sane_write (calls (os a) (os a'));
  cr_progress : Forall (fun cr => 0 < ret cr.2) (calls (os a) (os a'));
  cr_delivered : delivers (sent (calls (os a) (os a'))) (os b) rest }.
Lemma results_arrive (a a' b : prog) (rest : list reply) :
  crosses a a' b rest -> map Stream.id (Test.streams (tst a)) = map Stream.id (Test.streams (tst b)) ->
  NoDup (map Stream.id (Test.streams (tst b))) ->
  send_results a = Some (0, a') /\ tst a' = tst a /\ exists b', get_results b = Some (0, b') /\
    Test.streams (tst b') = zip_with (heard (tst a)) (Test.streams (tst a)) (Test.streams (tst b)) /\
    Test.remote_cpu_util (tst b') = map (cpu (Test.cpu_util (tst a))) (seq 0 3) /\ script (os b') = rest.
Proof.
  intros [Hok (txt & Htxt & Hlen) [r Hsend] Hsane Hprog Hd] Hids Hnd. pose proof Hsend as Hs. unfold send_results in Hsend.
  rewrite bind_get_test in Hsend. apply mbnd_inv in Hsend as (r1 & c1 & Hw & Hsend).
  unfold do_os, lift in Hw. destruct (JSON_write _ _ _) as [[r2 w1]|] eqn:Ew; [|done]. injection Hw as -> <-.
  assert (Hcalls : calls (os a) (os a') = calls (os a) w1).
  { destruct (r1 <? 0); injection Hsend as _ <-; reflexivity. }
  rewrite Hcalls in *. apply (emits_calls _ _ _ _ _ (JSON_write_sends _ _ _ Htxt Hlen)) in Ew as [[_ Hr] _].
  destruct (Hr Hsane Hprog) as [-> Hsent]. cbn in Hsend. injection Hsend as <- <-. split; [done|]. split; [done|].
  rewrite Hsent in Hd.
  destruct (get_results_heard (tst a) txt b rest Hok Hids Hnd Htxt Hlen Hd) as (b' & Hget & Hst & Hc & Hrest).
  by exists b'.
Qed.

(** C13. The results cross the connection whole.  What [send_results] writes, in
    whatever pieces, gives the other side's [get_results], in whatever other
    pieces it arrives, the sender's counters stream by stream: if both sides
    have the same streams, success is reported, every stream learns the packet
    counts of its peer, a sending one what arrived, a receiving one what was
    sent after the omitted period, and the processor times are the peer's. *)
Theorem results_exchange (a a' b : prog) (txt : string) (r : Z) (rest : list reply) :
  results_ok (tst a) ->
  map Stream.id (Test.streams (tst a)) = map Stream.id (Test.streams (tst b)) ->
  NoDup (map Stream.id (Test.streams (tst b))) ->
  cJSON_PrintUnformatted (results (tst a)) = Some txt -> Z.of_nat (String.length txt) < 2 ^ 31 ->
  send_results a = Some (r, a') -> Forall sane_write (calls (os a) (os a')) ->
  Forall (fun cr => 0 < ret cr.2) (calls (os a) (os a')) -> delivers (sent (calls (os a) (os a'))) (os b) rest ->
  r = 0 /\ exists b', get_results b = Some (0, b') /\
    Forall2 (fun xy z => mirrors (tst a) xy.1 xy.2 z)
      (zip (Test.streams (tst a)) (Test.streams (tst b))) (Test.streams (tst b')) /\
    Test.remote_cpu_util (tst b') = map (cpu (Test.cpu_util (tst a))) (seq 0 3) /\ script (os b') = rest.
Proof.
  intros Hok Hids Hnd Htxt Hlen Hsend Hsane Hprog Hd.
  destruct (results_arrive a a' b rest) as (Hs & _ & b' & Hget & Hst & Hc & Hrest); [constructor; eauto|done..|].
  rewrite Hsend in Hs. injection Hs as ->. split; [done|]. exists b'. split_and!; [done| |done|done]. rewrite Hst.
  generalize (Test.streams (tst a)) (Test.streams (tst b)). induction l as [|x l IH]; intros [|y l']; cbn; constructor.
  - apply heard_mirrors.
  - apply IH.
Qed.

(** Two streams, the client sending on the first and receiving on the second. *)
Definition demo_stream (id sender bytes packets : Z) : iperf_stream :=
  Stream.zero <| Stream.id := id |> <| Stream.sender := sender |> <| Stream.packet_count := packets |>
    <| Stream.jitter := dlit 1 8 |>
    <| Stream.result := Result.zero <| Result.bytes_sent := bytes |> <| Result.bytes_received := bytes |>
         <| Result.start_time := Time 100 0 |> <| Result.end_time := Time 110 500000 |> |>.
Definition demo_side (role : ascii) (one two : iperf_stream) : iperf_test :=
  iperf_new_test <| Test.role := role |> <| Test.streams := [one; two] |>.
Definition demo_peer : iperf_test := demo_side "s" (demo_stream 1 0 1000 7) (demo_stream 3 1 2000 9).
Definition demo_results : string := default "" (cJSON_PrintUnformatted (results demo_peer)).
Definition results_sender : prog :=
  Prog demo_peer (TS ∅ None None)
    (World [Reply 4 0 [] []; Reply (Z.of_nat (String.length demo_results)) 0 [] []] [] 0 0 0).
Definition results_reader : prog :=
  Prog (demo_side "c" (demo_stream 1 1 1500 8) (demo_stream 3 0 1900 8)) (TS ∅ None None)
    (World (Reply 1 0 [] [] :: feed [(take 4 (message demo_results), (7, 0))] ++
      Reply 1 0 [] [] :: feed [(drop 4 (message demo_results), (9, 0))] ++ []) [] 0 0 0).
Lemma results_exchange_witness :
  exists a', send_results results_sender = Some (0, a') /\
  0 = 0 /\ exists b', get_results results_reader = Some (0, b') /\
    Forall2 (fun xy z => mirrors (tst results_sender) xy.1 xy.2 z)
      (zip (Test.streams (tst results_sender)) (Test.streams (tst results_reader))) (Test.streams (tst b')) /\
    Test.remote_cpu_util (tst b') = map (cpu (Test.cpu_util (tst results_sender))) (seq 0 3) /\ script (os b') = [].
Proof.
  eexists. split; [vm_compute; reflexivity|].
  eapply (results_exchange results_sender _ results_reader demo_results 0 []).
  - constructor; try done; repeat constructor; try (vm_compute; congruence); vm_compute; reflexivity.
  - reflexivity.
  - apply (bool_decide_unpack _). vm_compute. exact I.
  - vm_compute. reflexivity.
  - vm_compute. reflexivity.
  - vm_compute. reflexivity.
  - apply (bool_decide_unpack _). vm_compute. exact I.
  - apply (bool_decide_unpack _). vm_compute. exact I.
  - exists 7, [(take 4 (message demo_results), (7, 0))], [(drop 4 (message demo_results), (9, 0))].
    split_and!; [vm_compute; reflexivity..| |lia|lia| |vm_compute; reflexivity].
    + repeat constructor; vm_compute; congruence.
    + apply (bool_decide_unpack _); vm_compute; exact I.
Defined.
