(* ===== verification/Udp.v ===== *)
(** * UDP streams: iperf_udp.c

    A datagram starts with the time it was sent and its number, counted from
    1.  The receiver keeps the highest number seen and infers losses and
    reordering from it.  The text printed at debug level is left out. *)
From Stdlib Require Import String.
From stdpp Require Import strings.
From S2P Require Import Prelude Double IperfTime Timer Iperf Error Sys Net Json Api.
#[local] Open Scope Z_scope.

(** ** The header *)

Definition htobe64 (n : Z) : list Z := htonl (n / 2 ^ 32) ++ htonl (n mod 2 ^ 32).
Definition be64toh (l : list Z) : Z := ntohl (take 4 l) * 2 ^ 32 + ntohl (drop 4 l).

Definition field (off len : nat) (buf : list Z) : list Z := take len (drop off buf).

(** The time and number read from a buffer, and the buffer with both stored;
    the counter is 64 or 32 bits wide. *)
Definition read_header (test : iperf_test) (buf : list Z) : iperf_time * Z :=
  let sent_time := Time (ntohl (field 0 4 buf)) (ntohl (field 4 4 buf)) in
  if negb (Test.udp_counters_64bit test =? 0) then (sent_time, be64toh (field 8 8 buf))
  else (sent_time, ntohl (field 8 4 buf)).
Definition write_header (test : iperf_test) (before : iperf_time) (packet_count : Z) (buf : list Z) : list Z :=
  let buf := store_bytes 0 (htonl (secs before)) buf in
  let buf := store_bytes 4 (htonl (usecs before)) buf in
  if negb (Test.udp_counters_64bit test =? 0) then store_bytes 8 (htobe64 (u64 packet_count)) buf
  else store_bytes 8 (htonl (u32 packet_count)) buf.

(** ** Receiving *)

(** Number [pcount] arrives: comparisons and the gap are unsigned, the counters
    signed 64-bit. *)
Definition count_packet (pcount : Z) (sp : iperf_stream) : iperf_stream :=
  let expected := u64 (Stream.packet_count sp + 1) in
  if expected <=? pcount then
    let sp :=
      if expected <? pcount
      then sp <| Stream.cnt_error ::= fun e => i64 (e + (pcount - 1 - Stream.packet_count sp)) |>
      else sp in
    sp <| Stream.packet_count := i64 pcount |>
  else
    sp <| Stream.outoforder_packets ::= fun n => i64 (n + 1) |>
       <| Stream.cnt_error ::= fun e => if 0 <? e then e - 1 else e |>.

(** The running estimate of RFC 1889, section 6.3.1. *)
Definition update_jitter (first_packet : bool) (arrival_time sent_time : iperf_time) (sp : iperf_stream) : iperf_stream :=
  let transit := iperf_time_in_secs (iperf_time_diff arrival_time sent_time).2 in
  let sp := if first_packet then sp <| Stream.prev_transit := transit |> else sp in
  let d := dsub transit (Stream.prev_transit sp) in
  let d := if dltb d dzero then dopp d else d in
  sp <| Stream.prev_transit := transit |>
     <| Stream.jitter ::= fun j => dadd j (ddiv (dsub d j) (Z2d 16)) |>.

Definition iperf_udp_recv (test : iperf_test) : F Z :=
  let! sp0 := get_stream in
  let skip := negb (Settings.skip_rx_copy (Test.settings test) =? 0) in
  let sock_opt := if skip then MSG_TRUNC else 0 in
  let size := if skip then 4 + 4 + 8 else Settings.blksize (Test.settings test) in
  let! (r, bytes) := do_net (Nrecv_no_select (Stream.socket sp0) size Pudp sock_opt) in
  upd_stream (fun sp => sp <| Stream.buffer ::= store_bytes 0 bytes |>) ;;
  if r <=? 0 then mret r
  else if Test.state test =? TEST_RUNNING then
    let first_packet := Result.bytes_received (Stream.result sp0) =? 0 in
    upd_stream (fun sp => sp <| Stream.result ::= fun rp =>
      rp <| Result.bytes_received ::= fun b => u64 (b + r) |>
         <| Result.bytes_received_this_interval ::= fun b => u64 (b + r) |> |>) ;;
    let! sp := get_stream in
    let '(sent_time, pcount) := read_header test (Stream.buffer sp) in
    upd_stream (count_packet pcount) ;;
    let! arrival_time := do_net time_now in
    upd_stream (update_jitter first_packet arrival_time sent_time) ;;
    mret r
  else mret r.

(** ** Sending *)

Definition iperf_udp_send (test : iperf_test) : F Z :=
  let size := Settings.blksize (Test.settings test) in
  let! before := do_net time_now in
  upd_stream (fun sp => sp <| Stream.packet_count ::= fun n => i64 (n + 1) |>) ;;
  upd_stream (fun sp => sp <| Stream.buffer ::= write_header test before (Stream.packet_count sp) |>) ;;
  let! sp := get_stream in
  let! r := do_net (Nwrite (Stream.socket sp) (take (Z.to_nat size) (Stream.buffer sp)) Pudp) in
  (if r <=? 0 then upd_stream (fun sp => sp <| Stream.packet_count ::= fun n => i64 (n - 1) |>) else mret tt) ;;
  if r <? 0 then mret r
  else
    upd_stream (fun sp => sp <| Stream.result ::= fun rp =>
      rp <| Result.bytes_sent ::= fun b => u64 (b + r) |>
         <| Result.bytes_sent_this_interval ::= fun b => u64 (b + r) |> |>) ;;
    mret r.

(** ** Losses are counted exactly *)

(** The numbers [ps] arrive in this order. *)
Definition arrivals (ps : list Z) (sp : iperf_stream) : iperf_stream := foldl (fun sp p => count_packet p sp) sp ps.
(** The highest of them, and how many come after a higher one. *)
Definition highest (ps : list Z) : Z := foldr Z.max 0 ps.
Fixpoint overtaken (top : Z) (ps : list Z) : Z :=
  match ps with [] => 0 | p :: ps => (if p <=? top then 1 else 0) + overtaken (Z.max top p) ps end.

Lemma highest_snoc ps p : highest (ps ++ [p]) = Z.max (highest ps) p \/ p < 0.
Proof.
  destruct (Z.lt_ge_cases p 0); [by right|left]. unfold highest.
  induction ps as [|q ps IH]; cbn; [lia|]. rewrite IH. lia.
Qed.
Lemma overtaken_snoc ps top p : 
  overtaken top (ps ++ [p]) = overtaken top ps + (if p <=? Z.max top (highest ps) then 1 else 0) \/ top < 0.
Proof.
  revert top; induction ps as [|q ps IH]; intros top; (destruct (Z.lt_ge_cases top 0); [by right|left]).
  - cbn. rewrite Z.max_l by lia. lia.
  - cbn [app overtaken highest foldr]. destruct (IH (Z.max top q)) as [-> | ]; [|lia].
    fold (highest ps). rewrite Z.max_assoc. lia.
Qed.
Lemma overtaken_bound ps top : 0 <= overtaken top ps <= Z.of_nat (length ps).
Proof. revert top; induction ps as [|p ps IH]; intros top; cbn; [lia|]. specialize (IH (Z.max top p)). destruct (p <=? top); lia. Qed.
Lemma highest_in ps p : p ∈ ps -> p <= highest ps.
Proof. induction ps as [|q ps IH]; [by intros ?%not_elem_of_nil|]. intros [->|Hp]%elem_of_cons; cbn; [lia|]. specialize (IH Hp). unfold highest in IH. lia. Qed.
Lemma highest_nonneg ps : 0 <= highest ps.
Proof. induction ps as [|p ps IH]; cbn; [lia|]. unfold highest in IH. lia. Qed.

(** Distinct positive numbers are no more than the highest. *)
Lemma distinct_count (ps : list Z) h : NoDup ps -> Forall (fun p => 0 < p <= h) ps -> 0 <= h -> Z.of_nat (length ps) <= h.
Proof.
  intros Hnd Hps Hh. assert (length ps <= length (map Z.of_nat (seq 1 (Z.to_nat h))))%nat as Hl.
  { apply NoDup_incl_length; [by apply NoDup_ListNoDup|]. intros p Hp%list_elem_of_In.
    rewrite Forall_forall in Hps. specialize (Hps p Hp). apply in_map_iff. exists (Z.to_nat p).
    split; [lia|]. apply in_seq. lia. }
  rewrite length_map, length_seq in Hl. lia.
Qed.

Lemma count_packet_forward p sp :
  0 <= Stream.packet_count sp < 2 ^ 62 -> Stream.packet_count sp < p < 2 ^ 62 -> 0 <= Stream.cnt_error sp < 2 ^ 62 ->
  Stream.packet_count (count_packet p sp) = p /\
  Stream.cnt_error (count_packet p sp) = Stream.cnt_error sp + (p - 1 - Stream.packet_count sp) /\
  Stream.outoforder_packets (count_packet p sp) = Stream.outoforder_packets sp.
Proof.
  intros Hc Hp He. unfold count_packet. rewrite u64_id by zlia.
  destruct (Z.leb_spec (Stream.packet_count sp + 1) p); [|lia].
  destruct (Z.ltb_spec (Stream.packet_count sp + 1) p); cbn; rewrite !i64_id by zlia; lia.
Qed.
Lemma count_packet_late p sp :
  0 < p <= Stream.packet_count sp -> Stream.packet_count sp < 2 ^ 62 -> 0 < Stream.cnt_error sp ->
  0 <= Stream.outoforder_packets sp < 2 ^ 62 ->
  Stream.packet_count (count_packet p sp) = Stream.packet_count sp /\
  Stream.cnt_error (count_packet p sp) = Stream.cnt_error sp - 1 /\
  Stream.outoforder_packets (count_packet p sp) = Stream.outoforder_packets sp + 1.
Proof.
  intros Hp Hc He Ho. unfold count_packet. rewrite u64_id by zlia.
  destruct (Z.leb_spec (Stream.packet_count sp + 1) p); [lia|]. cbn. rewrite i64_id by zlia.
  destruct (Z.ltb_spec 0 (Stream.cnt_error sp)); lia.
Qed.

(** Losses are counted exactly, in whatever order packets arrive, as long as
    none is duplicated. *)
Lemma losses_exact (ps : list Z) (sp : iperf_stream) :
  Stream.packet_count sp = 0 -> Stream.cnt_error sp = 0 -> Stream.outoforder_packets sp = 0 ->
  NoDup ps -> Forall (fun p => 0 < p < 2 ^ 62) ps ->
  Stream.packet_count (arrivals ps sp) = highest ps /\
  Stream.cnt_error (arrivals ps sp) = highest ps - Z.of_nat (length ps) /\
  Stream.outoforder_packets (arrivals ps sp) = overtaken 0 ps.
Proof.
  intros Hc He Ho. induction ps as [|p ps IH] using rev_ind; intros Hnd Hps; [cbn; lia|].
  apply NoDup_app in Hnd as (Hnd & Hnew & _). apply Forall_app in Hps as [Hps Hp].
  apply Forall_cons in Hp as [Hp _]. specialize (IH Hnd Hps) as (IHc & IHe & IHo).
  unfold arrivals in *. rewrite foldl_app, length_app. cbn [foldl length List.length].
  destruct (highest_snoc ps p) as [-> |]; [|lia]. destruct (overtaken_snoc ps 0 p) as [-> |]; [|lia].
  assert (Hbound : highest ps < 2 ^ 62).
  { clear -Hps. induction Hps as [|q qs Hq _ IH]; cbn; [lia|]. unfold highest in IH. lia. }
  assert (Hcount : Z.of_nat (length ps) <= highest ps).
  { apply distinct_count; [done| |apply highest_nonneg]. apply Forall_forall. intros q Hq.
    rewrite Forall_forall in Hps. specialize (Hps q Hq). pose proof (highest_in ps q Hq). lia. }
  pose proof (highest_nonneg ps). pose proof (overtaken_bound ps 0).
  set (s := foldl (fun sp p => count_packet p sp) sp ps) in *. rewrite (Z.max_r 0) by lia.
  destruct (Z.leb_spec p (highest ps)) as [Hle|Hgt].
  - assert (Hmiss : Z.of_nat (length (p :: ps)) <= highest ps).
    { apply distinct_count; [| |lia].
      - constructor; [|done]. intros Hin. apply (Hnew p Hin). by left.
      - constructor; [lia|]. apply Forall_forall. intros q Hq. rewrite Forall_forall in Hps.
        specialize (Hps q Hq). pose proof (highest_in ps q Hq). lia. }
    cbn [length List.length] in Hmiss. destruct (count_packet_late p s) as (-> & -> & ->); lia.
  - destruct (count_packet_forward p s) as (-> & -> & ->); lia.
Qed.
(** ** The header survives the trip *)

Lemma field_store_same off len bytes buf :
  (off + length bytes <= length buf)%nat -> length bytes = len -> field off len (store_bytes off bytes buf) = bytes.
Proof.
  intros Hl <-. unfold field, store_bytes. rewrite drop_app_length' by (rewrite length_take; lia).
  by rewrite take_app_length.
Qed.
Lemma store_bytes_length off bytes buf :
  (off + length bytes <= length buf)%nat -> length (store_bytes off bytes buf) = length buf.
Proof. intros Hl. unfold store_bytes. rewrite !length_app, length_take, length_drop. lia. Qed.
Lemma field_store_other off len off' bytes buf :
  (off' + length bytes <= length buf)%nat -> (off + len <= off')%nat ->
  field off len (store_bytes off' bytes buf) = field off len buf.
Proof.
  intros Hl Ho. unfold field, store_bytes. rewrite drop_app_le by (rewrite length_take; lia).
  rewrite skipn_take_drop || idtac.
  rewrite take_app_le by (rewrite length_drop, length_take; lia).
  rewrite <-(take_drop off' buf) at 2. rewrite drop_app_le by (rewrite length_take; lia).
  rewrite take_app_le; [done|]. rewrite length_drop, length_take; lia.
Qed.
Lemma htonl_length n : length (htonl n) = 4%nat.
Proof. done. Qed.
Lemma be64toh_htobe64 n : in_u64 n -> be64toh (htobe64 n) = n.
Proof.
  intros Hn. unfold be64toh, htobe64.
  rewrite take_app_length', drop_app_length', !ntohl_htonl by (done || zlia). zlia.
Qed.

Lemma drop_store off bytes buf k : (off + length bytes <= k)%nat -> (off + length bytes <= length buf)%nat ->
  drop k (store_bytes off bytes buf) = drop k buf.
Proof.
  intros Hk Hl. unfold store_bytes. rewrite app_assoc, drop_app_ge by (rewrite length_app, length_take; lia).
  rewrite length_app, length_take, drop_drop. f_equal. lia.
Qed.
(** Three stores in a row, read back. *)
Lemma three_fields a b c buf len : length a = 4%nat -> length b = 4%nat -> length c = len -> (8 + len <= 16)%nat ->
  (16 <= length buf)%nat ->
  let out := store_bytes 8 c (store_bytes 4 b (store_bytes 0 a buf)) in
  field 0 4 out = a /\ field 4 4 out = b /\ field 8 len out = c /\ length out = length buf /\
  drop 16 out = drop 16 buf.
Proof.
  intros Ha Hb Hc Hlen Hl. cbv zeta.
  assert (H1 : length (store_bytes 0 a buf) = length buf) by (apply store_bytes_length; lia).
  assert (H2 : length (store_bytes 4 b (store_bytes 0 a buf)) = length buf) by (rewrite store_bytes_length; lia).
  split_and!.
  - rewrite field_store_other, field_store_other, field_store_same by lia. done.
  - rewrite field_store_other, field_store_same by lia. done.
  - rewrite field_store_same by lia. done.
  - rewrite store_bytes_length; lia.
  - rewrite drop_store, drop_store, drop_store by lia. done.
Qed.

(** The receiver reads from a datagram the time and the number that the
    sender put into it, with either width of counter, as long as the number
    fits the width; the rest of the buffer is left alone. *)
Lemma udp_header_roundtrip (test : iperf_test) (now : iperf_time) (n : Z) (buf : list Z) :
  (16 <= length buf)%nat -> time_typed now -> 0 <= n ->
  n < (if Test.udp_counters_64bit test =? 0 then 2 ^ 32 else 2 ^ 64) ->
  read_header test (write_header test now n buf) = (now, n) /\
  length (write_header test now n buf) = length buf /\ drop 16 (write_header test now n buf) = drop 16 buf.
Proof.
  intros Hl [Hs Hu] Hn0 Hn. unfold read_header, write_header. destruct now as [s u]. cbn [secs usecs] in *.
  destruct (Z.eqb_spec (Test.udp_counters_64bit test) 0); cbn [negb].
  - destruct (three_fields (htonl s) (htonl u) (htonl (u32 n)) buf 4) as (-> & -> & -> & -> & ->); try done; [lia|].
    by rewrite !ntohl_htonl, u32_id by (done || zlia).
  - destruct (three_fields (htonl s) (htonl u) (htobe64 (u64 n)) buf 8) as (-> & -> & -> & -> & ->); try done.
    by rewrite !ntohl_htonl, be64toh_htobe64, u64_id by (done || zlia).
Qed.
Lemma udp_header_roundtrip_witness :
  read_header iperf_new_test (write_header iperf_new_test (Time 1700000000 5) 77 (replicate 20 9)) = (Time 1700000000 5, 77) /\
  length (write_header iperf_new_test (Time 1700000000 5) 77 (replicate 20 9)) = length (replicate 20 9) /\
  drop 16 (write_header iperf_new_test (Time 1700000000 5) 77 (replicate 20 9)) = drop 16 (replicate 20 9).
Proof.
  apply (udp_header_roundtrip iperf_new_test (Time 1700000000 5) 77 (replicate 20 9)).
  - cbn. lia.
  - split; cbn; zlia.
  - lia.
  - vm_compute. reflexivity.
Defined.

(** ** What a send and a receive count *)

Ltac step H :=
  lazymatch type of H with
  | mbnd get_stream _ _ = _ => rewrite bind_get_stream in H
  | mbnd (upd_stream _) _ _ = _ => rewrite bind_upd_stream in H
  | mbnd _ _ _ = _ => let x := fresh "x" in let s := fresh "st" in apply mbnd_inv in H as (x & s & ? & H)
  end; cbn beta in H.
Lemma do_net_inv {A} (m : M world A) s a s' : do_net m s = Some (a, s') -> sp s' = sp s /\ m (net s) = Some (a, net s').
Proof. unfold do_net, lift. destruct (m (net s)) as [[b w]|]; [|done]. intros [= -> <-]. done. Qed.

(** The effect of a send on its stream. *)
Lemma udp_send_effect (test : iperf_test) (s s' : flow) (r : Z) :
  iperf_udp_send test s = Some (r, s') ->
  (0 <= Stream.packet_count (sp s) < 2 ^ 62 ->
   Stream.packet_count (sp s') = Stream.packet_count (sp s) + (if 0 <? r then 1 else 0)) /\
  Stream.result (sp s') = (if r <? 0 then Stream.result (sp s) else Stream.result (sp s)
    <| Result.bytes_sent ::= fun b => u64 (b + r) |> <| Result.bytes_sent_this_interval ::= fun b => u64 (b + r) |>) /\
  Stream.cnt_error (sp s') = Stream.cnt_error (sp s) /\ Stream.snd (sp s') = Stream.snd (sp s) /\
  Stream.snd2 (sp s') = Stream.snd2 (sp s) /\ Stream.pending_size (sp s') = Stream.pending_size (sp s).
Proof.
  intros H. unfold iperf_udp_send in H. step H. destruct (do_net_inv _ _ _ _ H0) as [Hsp _].
  rewrite !bind_upd_stream in H. step H. step H. destruct (do_net_inv _ _ _ _ H1) as [Hsp1 _].
  apply mbnd_inv in H as (u & s2 & H2 & H). cbn in Hsp1.
  assert (Hcount : (0 <= Stream.packet_count (sp s) < 2 ^ 62 ->
     Stream.packet_count (sp s2) = Stream.packet_count (sp s) + (if 0 <? x0 then 1 else 0)) /\
    Stream.result (sp s2) = Stream.result (sp s) /\ Stream.cnt_error (sp s2) = Stream.cnt_error (sp s) /\
    Stream.snd (sp s2) = Stream.snd (sp s) /\ Stream.snd2 (sp s2) = Stream.snd2 (sp s) /\
    Stream.pending_size (sp s2) = Stream.pending_size (sp s)).
  { destruct (Z.leb_spec x0 0), (Z.ltb_spec 0 x0); try lia; injection H2 as _ <-; cbn; rewrite Hsp1; cbn; rewrite ?Hsp;
      (split; [intros Hn; rewrite ?i64_id by zlia; lia|done]). }
  destruct Hcount as (Hc & Hr & He & Hs1 & Hs2 & Hp). destruct (x0 <? 0) eqn:E.
  - injection H as <- <-. rewrite E, Hr. done.
  - injection H as <- <-. rewrite E. cbn. rewrite Hr. done.
Qed.
(** Only datagrams that went out are numbered and counted: a send that
    reports bytes advances the packet number by one and the byte counters by
    the bytes reported, any other result leaves number and counters as they
    were, so that the number is used again. *)
Lemma udp_send_counts (test : iperf_test) (s s' : flow) (r : Z) :
  iperf_udp_send test s = Some (r, s') -> 0 <= Stream.packet_count (sp s) < 2 ^ 62 ->
  Stream.packet_count (sp s') = Stream.packet_count (sp s) + (if 0 <? r then 1 else 0) /\
  Result.bytes_sent (Stream.result (sp s')) =
    (if r <? 0 then Result.bytes_sent (Stream.result (sp s)) else u64 (Result.bytes_sent (Stream.result (sp s)) + r)) /\
  Stream.cnt_error (sp s') = Stream.cnt_error (sp s).
Proof.
  intros H Hn. destruct (udp_send_effect _ _ _ _ H) as (Hc & -> & -> & _). rewrite (Hc Hn). destruct (r <? 0); done.
Qed.
Definition udp_ready : flow :=
  Flow (Stream.zero <| Stream.buffer := replicate 16 0 |>)
       (World [Reply 0 0 [] [100; 0]; Reply 16 0 [] []] [] 0 0 0).
Definition small_blocks : iperf_test := iperf_set_test_blksize iperf_new_test 16.
Lemma udp_send_counts_witness :
  exists s', iperf_udp_send small_blocks udp_ready = Some (16, s') /\
  Stream.packet_count (sp s') = Stream.packet_count (sp udp_ready) + (if 0 <? 16 then 1 else 0) /\
  Result.bytes_sent (Stream.result (sp s')) =
    (if 16 <? 0 then Result.bytes_sent (Stream.result (sp udp_ready))
     else u64 (Result.bytes_sent (Stream.result (sp udp_ready)) + 16)) /\
  Stream.cnt_error (sp s') = Stream.cnt_error (sp udp_ready).
Proof.
  eexists. split; [vm_compute; reflexivity|].
  apply (udp_send_counts small_blocks udp_ready); [vm_compute; reflexivity|cbn; lia].
Defined.

Lemma Nrecv_no_select_bounded fuel f count : forall nleft buf,
  0 <= nleft <= count -> count < 2 ^ 31 ->
  emits (Nrecv_no_select_loop fuel f MSG_TRUNC count nleft buf) (fun res _ => res.1 <= count).
Proof.
  induction fuel as [|fuel IH]; intros nleft buf Hn Hc; [apply emits_fail|]. cbn [Nrecv_no_select_loop].
  assert (Hret : i32 (count - nleft) <= count) by (rewrite i32_id by zlia; lia).
  assert (NET_HARDERROR <= count) by (unfold NET_HARDERROR; lia).
  emit; cbn [fst]; try lia; [destruct (soft_errno _); lia|].
  apply IH; [|done]. unfold copied. change (negb (Z.land MSG_TRUNC MSG_TRUNC =? 0)) with true. cbn iota.
  assert (0 < ret r) by lia. destruct (Z.ltb_spec nleft (ret r)); rewrite u64_id by zlia; lia.
Qed.

Lemma jitter_result first a b sp : Stream.result (update_jitter first a b sp) = Stream.result sp.
Proof. unfold update_jitter. by destruct first. Qed.
Lemma count_result p sp : Stream.result (count_packet p sp) = Stream.result sp.
Proof. unfold count_packet. by repeat case_match. Qed.

(** With the option to skip copying, no receive ever reports or counts more
    than the 16 bytes of the header, however long the datagram was. *)
Lemma udp_skip_counts_header (test : iperf_test) (s s' : flow) (r : Z) :
  Settings.skip_rx_copy (Test.settings test) <> 0 -> iperf_udp_recv test s = Some (r, s') ->
  r <= 16 /\
  (Result.bytes_received (Stream.result (sp s')) = Result.bytes_received (Stream.result (sp s)) \/
   Result.bytes_received (Stream.result (sp s')) = u64 (Result.bytes_received (Stream.result (sp s)) + r)).
Proof.
  intros Hskip H. unfold iperf_udp_recv in H. step H.
  destruct (Z.eqb_spec (Settings.skip_rx_copy (Test.settings test)) 0); [done|]. cbn [negb] in H.
  step H. destruct x as [r0 bytes]. destruct (do_net_inv _ _ _ _ H0) as [Hsp Hrun].
  assert (Hle : r0 <= 16).
  { unfold Nrecv_no_select in Hrun.
    apply (emits_calls _ _ _ _ _ (Nrecv_no_select_bounded _ _ (4 + 4 + 8) (4 + 4 + 8) [] ltac:(lia) ltac:(lia))) in Hrun.
    apply Hrun. }
  rewrite bind_upd_stream in H. destruct (r0 <=? 0); [injection H as <- <-; cbn; rewrite Hsp; auto|].
  destruct (Test.state test =? TEST_RUNNING); [|injection H as <- <-; cbn; rewrite Hsp; auto].
  rewrite bind_upd_stream, bind_get_stream in H. destruct (read_header _ _) as [sent pcount].
  rewrite bind_upd_stream in H. step H. destruct (do_net_inv _ _ _ _ H1) as [Hsp1 _].
  rewrite bind_upd_stream in H. injection H as <- <-. split; [done|]. right.
  cbn [sp modify_field flow_eta eta_of]. rewrite jitter_result, Hsp1. cbn [sp modify_field flow_eta eta_of].
  rewrite count_result. cbn. by rewrite Hsp.
Qed.
Definition udp_skipping : iperf_test :=
  small_blocks <| Test.state := TEST_RUNNING |>
    <| Test.settings ::= fun s => s <| Settings.skip_rx_copy := 1 |> <| Settings.blksize := 1460 |> |>.
Definition udp_incoming : flow :=
  Flow (Stream.zero <| Stream.buffer := replicate 1460 0 |>)
       (World [Reply 1460 0 (write_header small_blocks (Time 99 0) 1 (replicate 16 0)) []; Reply 0 0 [] [100; 0]] [] 0 0 0).
Lemma udp_skip_counts_header_witness :
  exists s', iperf_udp_recv udp_skipping udp_incoming = Some (16, s') /\ 16 <= 16 /\
  (Result.bytes_received (Stream.result (sp s')) = Result.bytes_received (Stream.result (sp udp_incoming)) \/
   Result.bytes_received (Stream.result (sp s')) = u64 (Result.bytes_received (Stream.result (sp udp_incoming)) + 16)).
Proof.
  eexists. split; [vm_compute; reflexivity|].
  apply (udp_skip_counts_header udp_skipping udp_incoming); [done|vm_compute; reflexivity].
Defined.

(** ** A run of receives *)

Definition counters (sp : iperf_stream) : Z * Z * Z :=
  (Stream.packet_count sp, Stream.cnt_error sp, Stream.outoforder_packets sp).
Lemma count_packet_counters p sp sp' : counters sp = counters sp' ->
  counters (count_packet p sp) = counters (count_packet p sp').
Proof. unfold counters, count_packet. intros [= Hc He Ho]. rewrite Hc. repeat case_match; cbn; by rewrite ?Hc, ?He, ?Ho. Qed.
Lemma jitter_counters first a b sp : counters (update_jitter first a b sp) = counters sp.
Proof. unfold update_jitter. by destruct first. Qed.
Lemma arrivals_counters ps : forall sp sp', counters sp = counters sp' -> counters (arrivals ps sp) = counters (arrivals ps sp').
Proof. induction ps as [|p ps IH]; intros sp sp' H; [exact H|]. apply (IH (count_packet p sp) (count_packet p sp')). by apply count_packet_counters. Qed.

Lemma field_app off len l1 l2 : (off + len <= length l1)%nat -> field off len (l1 ++ l2) = field off len l1.
Proof. intros Hl. unfold field. rewrite drop_app_le by lia. rewrite take_app_le; [done|]. rewrite length_drop. lia. Qed.
Lemma read_header_stored test d buf : (16 <= length d)%nat -> read_header test (store_bytes 0 d buf) = read_header test d.
Proof.
  intros Hl. unfold store_bytes, read_header. rewrite take_0. cbn [app]. rewrite !field_app by lia. done.
Qed.

(** The answers that deliver a datagram, and the time read afterwards. *)
Definition deliver (d : list Z * (Z * Z)) : list reply :=
  [Reply (Z.of_nat (length d.1)) 0 d.1 []; Reply 0 0 [] [d.2.1; d.2.2]].

Section recv.
Context (test : iperf_test).
Hypothesis Hrun : Test.state test = TEST_RUNNING.
Hypothesis Hskip : Settings.skip_rx_copy (Test.settings test) = 0.
Hypothesis Hblk : 16 <= Settings.blksize (Test.settings test) < 2 ^ 31.

Lemma udp_recv_one s d rest :
  Z.of_nat (length d.1) = Settings.blksize (Test.settings test) -> script (net s) = deliver d ++ rest ->
  exists s', iperf_udp_recv test s = Some (Z.of_nat (length d.1), s') /\ script (net s') = rest /\
    counters (sp s') = counters (count_packet (read_header test d.1).2 (sp s)) /\
    Result.bytes_received (Stream.result (sp s')) =
      u64 (Result.bytes_received (Stream.result (sp s)) + Z.of_nat (length d.1)).
Proof.
  intros Hd Hs. destruct d as [d [a b]].
  change (script (net s) = Reply (Z.of_nat (length d)) 0 d [] :: Reply 0 0 [] [a; b] :: rest) in Hs. cbn [fst snd] in *.
  unfold iperf_udp_recv. rewrite bind_get_stream, Hskip. cbn [Z.eqb negb].
  assert (exists w, Nrecv_no_select (Stream.socket (sp s)) (Settings.blksize (Test.settings test)) Pudp 0 (net s) =
    Some ((Z.of_nat (length d), d), w) /\ script w = Reply 0 0 [] [a; b] :: rest) as (w & Hread & Hw).
  { unfold Nrecv_no_select. rewrite Hs. cbn [length List.length app]. cbn [Nrecv_no_select_loop].
    destruct (Z.leb_spec (Settings.blksize (Test.settings test)) 0); [lia|].
    rewrite (run_sys _ _ _ _ _ Hs), run_errno. apply (script_answered (read_call (Stream.socket (sp s)) (Settings.blksize (Test.settings test)) 0) (Reply (Z.of_nat (length d)) 0 d [])) in Hs.
    set (w1 := answered _ _ (net s)) in *. clearbody w1. cbn [ret data].
    destruct (Z.ltb_spec (Z.of_nat (length d)) 0); [lia|]. destruct (Z.eqb_spec (Z.of_nat (length d)) 0); [lia|].
    change (copied 0 ?r ?n) with r. rewrite <-Hd, Z.sub_diag. change (u64 0) with 0. change (0 <=? 0) with true. cbn iota.
    exists w1. rewrite Z.sub_0_r, i32_id by zlia. done. }
  rewrite (bind_net _ _ _ _ _ Hread), bind_upd_stream.
  destruct (Z.leb_spec (Z.of_nat (length d)) 0); [lia|]. rewrite Hrun. cbn [TEST_RUNNING Z.eqb Pos.eqb].
  rewrite bind_upd_stream, bind_get_stream. cbn [sp modify_field flow_eta eta_of Stream.buffer Stream.eta net].
  cbn [Stream.buffer modify_field Stream.eta eta_of]. rewrite read_header_stored by lia.
  destruct (read_header test d) as [sent pcount]. rewrite bind_upd_stream.
  unfold mbnd at 1, do_net, lift. cbn [net]. unfold time_now. rewrite (run_sys _ _ _ _ _ Hw). cbn [ret Z.eqb].
  cbn [mret]. rewrite bind_upd_stream. eexists. split; [reflexivity|].
  split_and!.
  - cbn. by rewrite Hw.
  - cbn [sp modify_field flow_eta eta_of]. rewrite jitter_counters. cbn [sp modify_field flow_eta eta_of]. by apply count_packet_counters.
  - cbn [sp modify_field flow_eta eta_of]. rewrite jitter_result. cbn [sp modify_field flow_eta eta_of]. rewrite count_result. done.
Qed.

(** The receiver is called once per datagram. *)
Fixpoint udp_recv_times (n : nat) : F unit :=
  match n with O => mret tt | S n => iperf_udp_recv test ;; udp_recv_times n end.

Lemma udp_recv_run dgs : forall s rest,
  Forall (fun d => Z.of_nat (length d.1) = Settings.blksize (Test.settings test)) dgs ->
  script (net s) = concat (map deliver dgs) ++ rest -> in_u64 (Result.bytes_received (Stream.result (sp s))) ->
  exists s', udp_recv_times (length dgs) s = Some (tt, s') /\ script (net s') = rest /\
    counters (sp s') = counters (arrivals (map (fun d => (read_header test d.1).2) dgs) (sp s)) /\
    Result.bytes_received (Stream.result (sp s')) =
      u64 (Result.bytes_received (Stream.result (sp s)) + Z.of_nat (length dgs) * Settings.blksize (Test.settings test)).
Proof.
  induction dgs as [|d dgs IH]; intros s rest Hlen Hs Hb.
  { exists s. split_and!; [done..|]. rewrite Z.add_0_r, u64_id by done. done. }
  apply Forall_cons in Hlen as [Hd Hlen]. cbn [map concat] in Hs. rewrite <-app_assoc in Hs.
  destruct (udp_recv_one s d _ Hd Hs) as (s1 & Hrun1 & Hs1 & Hc1 & Hb1).
  destruct (IH s1 rest Hlen Hs1) as (s' & Hrun' & Hs' & Hc' & Hb'); [rewrite Hb1; apply u64_range|].
  exists s'. split_and!; [|done| |].
  - cbn [length List.length udp_recv_times]. unfold mbnd. by rewrite Hrun1.
  - rewrite Hc'. cbn [map]. unfold arrivals. cbn [foldl]. apply arrivals_counters. exact Hc1.
  - rewrite Hb', Hb1, Hd. cbn [length List.length]. unfold u64. rewrite Zplus_mod_idemp_l. f_equal. lia.
Qed.
End recv.

(** C24. The receiver's statistics are exact.  When datagrams of the block size
    with distinct numbers arrive, in any order, each call of the receive
    routine takes one, and afterwards the stream's packet count is the highest
    number, its error count the number of packets up to it that have not
    arrived, its out-of-order count the number of packets that came after a
    higher one, and its byte count the bytes of all datagrams. *)
Theorem udp_statistics_exact (test : iperf_test) (s : flow) (dgs : list (list Z * (Z * Z))) (ps : list Z) (rest : list reply) :
  Test.state test = TEST_RUNNING -> Settings.skip_rx_copy (Test.settings test) = 0 ->
  16 <= Settings.blksize (Test.settings test) < 2 ^ 31 ->
  counters (sp s) = (0, 0, 0) -> Result.bytes_received (Stream.result (sp s)) = 0 ->
  Forall (fun d => Z.of_nat (length d.1) = Settings.blksize (Test.settings test)) dgs ->
  map (fun d => (read_header test d.1).2) dgs = ps -> NoDup ps -> Forall (fun p => 0 < p < 2 ^ 62) ps ->
  script (net s) = concat (map deliver dgs) ++ rest ->
  exists s', udp_recv_times test (length dgs) s = Some (tt, s') /\ script (net s') = rest /\
    counters (sp s') = (highest ps, highest ps - Z.of_nat (length ps), overtaken 0 ps) /\
    Result.bytes_received (Stream.result (sp s')) = u64 (Z.of_nat (length ps) * Settings.blksize (Test.settings test)).
Proof.
  intros Hrun Hskip Hblk Hfresh Hb0 Hlen <- Hnd Hps Hs.
  destruct (udp_recv_run test Hrun Hskip Hblk dgs s rest Hlen Hs) as (s' & Hr & Hrest & Hc & Hb); [rewrite Hb0; zlia|].
  exists s'. split_and!; [done..| |].
  - rewrite Hc. unfold counters in Hfresh. injection Hfresh as H1 H2 H3.
    destruct (losses_exact _ _ H1 H2 H3 Hnd Hps) as (E1 & E2 & E3). unfold counters. by rewrite E1, E2, E3.
  - by rewrite Hb, Hb0, length_map.
Qed.
Definition running_test : iperf_test := small_blocks <| Test.state := TEST_RUNNING |>.
Definition datagram (n : Z) : list Z * (Z * Z) := (write_header running_test (Time 99 0) n (replicate 16 0), (100, 0)).
Definition arriving : flow :=
  Flow (Stream.zero <| Stream.buffer := replicate 16 0 |>)
       (World (concat (map deliver (map datagram [1; 2; 6; 4; 3])) ++ []) [] 0 0 0).
Lemma udp_statistics_exact_witness :
  exists s', udp_recv_times running_test 5 arriving = Some (tt, s') /\ script (net s') = [] /\
    counters (sp s') = (6, 6 - 5, 2) /\ Result.bytes_received (Stream.result (sp s')) = u64 (5 * 16).
Proof.
  apply (udp_statistics_exact running_test arriving (map datagram [1; 2; 6; 4; 3]) [1; 2; 6; 4; 3] []); try done.
  - apply (bool_decide_unpack _). vm_compute. exact I.
  - apply (bool_decide_unpack _). vm_compute. exact I.
  - repeat constructor; lia.
Defined.
