(* ===== verification/Traffic.v ===== *)
(** * The data path: iperf_tcp.c and the worker threads

    A worker thread moves the data of one stream.  It shares the test with the
    main thread; here it runs on a [worker], the test and its own stream, and
    what the other threads do to the test between two rounds is an argument.
    The text printed at debug level is left out. *)
From Stdlib Require Import String.
From stdpp Require Import strings.
From S2P Require Import Prelude Double IperfTime Timer Iperf Error Sys Net Json Util Api Params Udp.
#[local] Open Scope Z_scope.

(** ** TCP *)

Definition iperf_tcp_recv (test : iperf_test) : F Z :=
  let! sp := get_stream in
  let sock_opt := if nonzero (Settings.skip_rx_copy (Test.settings test)) then MSG_TRUNC else 0 in
  let! (r, bytes) := do_net (Nrecv_no_select (Stream.socket sp) (Settings.blksize (Test.settings test)) Ptcp sock_opt) in
  upd_stream (fun sp => sp <| Stream.buffer ::= store_bytes 0 bytes |>) ;;
  if r <? 0 then mret r
  else
    (if Test.state test =? TEST_RUNNING then
       upd_stream (fun sp => sp <| Stream.result ::= fun rp =>
         rp <| Result.bytes_received ::= fun b => u64 (b + r) |>
            <| Result.bytes_received_this_interval ::= fun b => u64 (b + r) |> |>)
     else mret tt) ;;
    mret r.

(** Writing more than the buffer holds is undefined. *)
Definition tcp_write (test : iperf_test) (sp : iperf_stream) : M world Z :=
  let n := Stream.pending_size sp in
  if nonzero (Test.zerocopy test) then Nsendfile (Stream.buffer_fd sp) (Stream.socket sp) (u64 n)
  else if (0 <=? n) && (n <=? Z.of_nat (length (Stream.buffer sp)))
  then Nwrite (Stream.socket sp) (take (Z.to_nat n) (Stream.buffer sp)) Ptcp
  else mfail.

Definition start_block (test : iperf_test) (sp : iperf_stream) : iperf_stream :=
  if Stream.pending_size sp =? 0 then sp <| Stream.pending_size := Settings.blksize (Test.settings test) |> else sp.

Definition iperf_tcp_send (test : iperf_test) : F Z :=
  upd_stream (start_block test) ;;
  let! sp := get_stream in
  let! r := do_net (tcp_write test sp) in
  if r <? 0 then mret r
  else
    upd_stream (fun sp => sp <| Stream.pending_size ::= fun n => i32 (n - r) |> <| Stream.result ::= fun rp =>
      rp <| Result.bytes_sent ::= fun b => u64 (b + r) |>
         <| Result.bytes_sent_this_interval ::= fun b => u64 (b + r) |> |>) ;;
    mret r.

(** ** Workers *)

Record worker := Worker { wtest : iperf_test; wflow : flow }.
#[export] Instance worker_eta : Settable worker := fun r => Worker (wtest r) (wflow r).
Definition W (A : Type) : Type := M worker A.

(** Code that reads the test and works on the stream. *)
Definition do_flow {A} (m : iperf_test -> F A) : W A :=
  fun s => match m (wtest s) (wflow s) with Some (a, f) => Some (a, s <| wflow := f |>) | None => None end.
Definition get_wtest : W iperf_test := fun s => Some (wtest s, s).
Definition get_wstream : W iperf_stream := fun s => Some (sp (wflow s), s).
Definition upd_wtest (f : iperf_test -> iperf_test) : W unit := mmod (fun s => s <| wtest ::= f |>).
Definition upd_wstream (f : iperf_stream -> iperf_stream) : W unit := mmod (fun s => s <| wflow ::= fun x => x <| sp ::= f |> |>).
Definition w_net {A} (m : M world A) : W A := do_flow (fun _ => do_net m).

(** Calling through [snd2] or [rcv2], which hold the routine of a protocol. *)
Definition base_routine (rt : option routine) : W Z :=
  match rt with
  | Some Iperf.iperf_tcp_send => do_flow iperf_tcp_send
  | Some Iperf.iperf_tcp_recv => do_flow iperf_tcp_recv
  | Some Iperf.iperf_udp_send => do_flow iperf_udp_send
  | Some Iperf.iperf_udp_recv => do_flow iperf_udp_recv
  | _ => mfail
  end.

(** ** Files as data *)

(** The block is read to the start of the buffer, whatever is left in it. *)
Definition fill_from_disk : W Z :=
  let! test := get_wtest in
  let! sp := get_wstream in
  let blksize := Settings.blksize (Test.settings test) in
  let left := Stream.diskfile_left sp in
  if (left <? blksize) && negb (nonzero (Test.done test)) then
    let! r := w_net (sys (Cread (Stream.diskfile_fd sp) (blksize - left))) in
    upd_wstream (fun sp => sp <| Stream.buffer ::= store_bytes 0 (data r) |>) ;;
    let buffer_left := i32 (left + ret r) in
    (if negb (buffer_left =? blksize) then upd_wstream (fun sp => sp <| Stream.pending_size := buffer_left |>) else mret tt) ;;
    (if buffer_left =? 0 then upd_wtest (fun t => t <| Test.done := 1 |>) else mret tt) ;;
    mret buffer_left
  else mret left.

(** [memcpy] of [len] bytes at [off] to the start of the buffer; undefined when
    the two overlap. *)
Definition slide (off len : Z) : W unit :=
  if len <=? off then
    upd_wstream (fun sp => sp <| Stream.buffer ::= fun b => store_bytes 0 (field (Z.to_nat off) (Z.to_nat len) b) b |>)
  else mfail.

Definition diskfile_send : W Z :=
  let! buffer_left := fill_from_disk in
  let! test := get_wtest in
  if nonzero (Test.done test) || (buffer_left =? 0) then upd_wtest (fun t => t <| Test.done := 1 |>) ;; mret 0
  else
    let! sp := get_wstream in
    let! r := base_routine (Stream.snd2 sp) in
    if r <? 0 then mret r
    else
      let blksize := Settings.blksize (Test.settings test) in
      let left := i32 (buffer_left - r) in
      upd_wstream (fun sp => sp <| Stream.diskfile_left := left |>) ;;
      (if negb (left =? 0) && (left <? blksize) then slide (blksize - left) left else mret tt) ;;
      mret r.

(** The result of the write to the file is ignored. *)
Definition diskfile_recv : W Z :=
  let! sp := get_wstream in
  let! r := base_routine (Stream.rcv2 sp) in
  (if 0 <? r then
     let! sp := get_wstream in
     w_net (sys (Cwrite (Stream.diskfile_fd sp) (take (Z.to_nat r) (Stream.buffer sp)))) ;; mret tt
   else mret tt) ;;
  mret r.

(** Calling through [snd] or [rcv]. *)
Definition run_routine (rt : option routine) : W Z :=
  match rt with
  | Some Iperf.diskfile_send => diskfile_send
  | Some Iperf.diskfile_recv => diskfile_recv
  | rt => base_routine rt
  end.

(** ** Pacing *)

(** The sleep is cut into pieces of less than a second; the result is the one
    of the last call. *)
Fixpoint sleep_loop (fuel : nat) (time_to_green_light : Z) : M world Z :=
  match fuel with
  | O => mfail
  | S fuel =>
      let tv_nsec := if SEC_TO_NS <=? time_to_green_light then SEC_TO_NS - 1 else time_to_green_light in
      let time_to_green_light := time_to_green_light - tv_nsec in
      let! r := sys (Cnanosleep tv_nsec) in
      if (ret r =? 0) && (0 <? time_to_green_light) then sleep_loop fuel time_to_green_light else mret (ret r)
  end.
Definition sleep_for (ns : Z) : M world Z := sleep_loop (S (Z.to_nat (ns / (SEC_TO_NS - 1)))) ns.

(** The bits per second of the stream so far, how far they are below the rate,
    and the nanoseconds to wait when they are above; undefined when the
    quotient does not fit. *)
Definition bits_sent (sp : iperf_stream) : Z := u64 (Result.bytes_sent (Stream.result sp) * 8).
Definition seconds_running (sp : iperf_stream) (now : iperf_time) : double :=
  iperf_time_in_secs (iperf_time_diff (Result.start_time_fixed (Stream.result sp)) now).2.
Definition missing_rate (test : iperf_test) (sp : iperf_stream) (now : iperf_time) : option Z :=
  bits_per_second ← d2u64 (ddiv (Z2d (bits_sent sp)) (seconds_running sp now));
  Some (i64 (u64 (Settings.rate (Test.settings test) - bits_per_second))).
Definition time_to_green_light (test : iperf_test) (sp : iperf_stream) (now : iperf_time) : option Z :=
  let rate := Settings.rate (Test.settings test) in
  delta_bits ← d2i64 (dsub (Z2d (bits_sent sp)) (dmul (seconds_running sp now) (Z2d rate)));
  let product := SEC_TO_NS * delta_bits in
  if (- 2 ^ 63 <=? product) && (product <? 2 ^ 63) then Some (i64 (u64 product / rate)) else None.

Definition iperf_check_throttle (test : iperf_test) (now : iperf_time) : F unit :=
  if nonzero (Test.done test) || (Settings.rate (Test.settings test) =? 0) then mret tt
  else
    let! sp := get_stream in
    let! missing := mopt (missing_rate test sp now) in
    upd_stream (fun sp => sp <| Stream.green_light := if 0 <? missing then 1 else 0 |>) ;;
    if missing <? 0 then
      let! wait := mopt (time_to_green_light test sp now) in
      if 0 <=? wait then
        let! ret := do_net (sleep_for wait) in
        if ret =? 0 then upd_stream (fun sp => sp <| Stream.green_light := 1 |>) else mret tt
      else mret tt
    else mret tt.

(** ** A round of sending *)

Definition may_multisend (test : iperf_test) : Z :=
  if nonzero (Settings.burst (Test.settings test)) then Settings.burst (Test.settings test)
  else if Settings.rate (Test.settings test) =? 0 then Test.multisend test else 1.

(** Between messages the round ends when the amount asked for is out. *)
Definition enough_sent (test : iperf_test) : bool :=
  let s := Test.settings test in
  (nonzero (Settings.bytes s) && (Settings.bytes s <=? Test.bytes_sent test)) ||
  (nonzero (Settings.blocks s) && (Settings.blocks s <=? Test.blocks_sent test)).

Definition begun (now : option iperf_time) : bool := match now with Some _ => true | None => false end.
(** The message is a whole block when nothing of it is pending. *)
Definition count_sent (r : Z) (sp : iperf_stream) (test : iperf_test) : iperf_test :=
  test <| Test.bytes_sent ::= fun b => u64 (b + r) |>
       <| Test.blocks_sent ::= fun b => if Stream.pending_size sp =? 0 then u64 (b + 1) else b |>.
(** The sends of one round, [n] at most: an error, or whether anything was
    sent.  The clock is read after the first message only. *)
Fixpoint send_loop (per_message : bool) (n : nat) (now : option iperf_time) : W (Z + bool) :=
  match n with
  | O => mret (inr (begun now))
  | S n =>
      let! sp := get_wstream in
      let! test := get_wtest in
      if Stream.green_light sp =? 0 then mret (inr (begun now))
      else if (0 <? n)%nat && enough_sent test then mret (inr (begun now))
      else
        let! r := run_routine (Stream.snd sp) in
        if r <? 0 then
          if r =? NET_SOFTERROR then mret (inr (begun now))
          else w_net (set_i_errno IESTREAMWRITE) ;; mret (inl r)
        else
          let! sp := get_wstream in
          upd_wtest (count_sent r sp) ;;
          if per_message then
            let! t := match now with Some t => mret t | None => w_net time_now end in
            do_flow (fun test => iperf_check_throttle test t) ;;
            send_loop per_message n (Some t)
          else send_loop per_message n (Some (Time 0 0))
  end.

Definition iperf_send_mt : W Z :=
  let! test := get_wtest in
  let throttle_check := nonzero (Settings.rate (Test.settings test)) in
  let per_message := throttle_check && (Settings.burst (Test.settings test) =? 0) in
  let! out := send_loop per_message (Z.to_nat (may_multisend test)) None in
  match out with
  | inl r => mret r
  | inr message_sent =>
      if throttle_check && (negb per_message || negb message_sent) then
        let! now := w_net time_now in
        do_flow (fun test => iperf_check_throttle test now) ;; mret 0
      else mret 0
  end.

Definition iperf_recv_mt : W Z :=
  let! sp := get_wstream in
  let! r := run_routine (Stream.rcv sp) in
  if r <? 0 then w_net (set_i_errno IESTREAMREAD) ;; mret r
  else
    (if 0 <? r then upd_wtest (fun t => t <| Test.bytes_received ::= fun b => u64 (b + r) |>
                                          <| Test.blocks_received ::= fun b => u64 (b + 1) |>)
     else mret tt) ;;
    mret 0.

(** ** The thread *)

(** Before each round the other threads do something to the test and to the
    flag of the stream; the thread is followed for as many rounds as there are
    entries, and the result tells if it has ended. *)
Fixpoint iperf_client_worker_run (others : list (worker -> worker)) : W bool :=
  match others with
  | [] => mret false
  | other :: others =>
      mmod other ;;
      let! test := get_wtest in
      let! sp := get_wstream in
      if nonzero (Test.done test) || nonzero (Stream.done sp) then mret true
      else
        let! r := if nonzero (Stream.sender sp) then iperf_send_mt else iperf_recv_mt in
        if r <? 0 then mret true else iperf_client_worker_run others
  end.

(** ** Running a worker *)

Lemma do_flow_inv {A} (m : iperf_test -> F A) s a s' : do_flow m s = Some (a, s') ->
  wtest s' = wtest s /\ m (wtest s) (wflow s) = Some (a, wflow s').
Proof. unfold do_flow. destruct (m _ _) as [[b f]|]; [|done]. intros [= -> <-]. done. Qed.
Lemma w_net_inv {A} (m : M world A) s a s' : w_net m s = Some (a, s') ->
  wtest s' = wtest s /\ sp (wflow s') = sp (wflow s) /\ m (net (wflow s)) = Some (a, net (wflow s')).
Proof. intros H. unfold w_net in H. apply do_flow_inv in H as [Ht Hf]. apply do_net_inv in Hf as [? ?]. done. Qed.

(** [wstep H] consumes the next command of the run [H]. *)
Ltac wstep H :=
  lazymatch type of H with
  | mbnd get_wstream _ ?s = _ => change (mbnd get_wstream ?k s) with (k (sp (wflow s)) s) in H
  | mbnd get_wtest _ ?s = _ => change (mbnd get_wtest ?k s) with (k (wtest s) s) in H
  | mbnd (upd_wtest ?f) _ ?s = _ => change (mbnd (upd_wtest f) ?k s) with (k tt (s <| wtest ::= f |>)) in H
  | mbnd (upd_wstream ?f) _ ?s = _ =>
      change (mbnd (upd_wstream f) ?k s) with (k tt (s <| wflow ::= fun x => x <| sp ::= f |> |>)) in H
  | mbnd _ _ _ = _ => let x := fresh "x" in let s := fresh "st" in let E := fresh "E" in
      apply mbnd_inv in H as (x & s & E & H)
  end; cbn beta in H.

Lemma Nwrite_bounded f buf prot w r w' : Z.of_nat (length buf) < 2 ^ 31 ->
  Nwrite f buf prot w = Some (r, w') -> r <= Z.of_nat (length buf).
Proof.
  intros Hb Hr.
  assert (H : forall fuel l count, Z.of_nat (length l) <= count < 2 ^ 31 ->
    emits (Nwrite_loop fuel f count l) (fun r _ => r <= count)).
  { clear. induction fuel as [|fuel IH]; intros l count Hc; [apply emits_fail|]. cbn [Nwrite_loop].
    emit; unfold NET_SOFTERROR, NET_HARDERROR; rewrite ?i32_id by zlia; try lia.
    - repeat case_match; rewrite ?i32_id by zlia; lia.
    - apply IH. rewrite length_drop. lia. }
  edestruct (H _ _ _ ltac:(split; [reflexivity|exact Hb]) _ _ _ Hr) as (t & _ & _ & ?). done.
Qed.

(** What one TCP send does to its stream; [p] is what it was asked to send. *)
Definition to_send (test : iperf_test) (sp : iperf_stream) : Z :=
  if Stream.pending_size sp =? 0 then Settings.blksize (Test.settings test) else Stream.pending_size sp.
Definition add_sent (r : Z) (rp : iperf_stream_result) : iperf_stream_result :=
  rp <| Result.bytes_sent ::= fun b => u64 (b + r) |> <| Result.bytes_sent_this_interval ::= fun b => u64 (b + r) |>.
Lemma tcp_send_inv test f r f' : iperf_tcp_send test f = Some (r, f') ->
  let p := to_send test (sp f) in
  sp f' = (if r <? 0 then sp f <| Stream.pending_size := p |>
           else sp f <| Stream.pending_size := i32 (p - r) |> <| Stream.result ::= add_sent r |>) /\
  (Test.zerocopy test = 0 -> Z.of_nat (length (Stream.buffer (sp f))) < 2 ^ 31 ->
   0 <= p <= Z.of_nat (length (Stream.buffer (sp f))) /\ r <= p).
Proof.
  intros H. unfold iperf_tcp_send in H. rewrite bind_upd_stream in H.
  assert (Hs0 : start_block test (sp f) = sp f <| Stream.pending_size := to_send test (sp f) |>).
  { unfold start_block, to_send. destruct (Stream.pending_size (sp f) =? 0); [done|]. by destruct (sp f). }
  rewrite bind_get_stream in H. cbn [sp modify_field flow_eta eta_of] in H. rewrite Hs0 in H.
  apply mbnd_inv in H as (x & f1 & H1 & H). apply do_net_inv in H1 as [Hsp Hw].
  cbn [sp] in Hsp. clear Hs0.
  split.
  - destruct (x <? 0) eqn:E.
    + injection H as <- <-. rewrite E, Hsp. done.
    + rewrite bind_upd_stream in H. injection H as <- <-. rewrite E. cbn [sp modify_field flow_eta eta_of].
      rewrite Hsp. done.
  - intros Hz Hb. unfold tcp_write in Hw. rewrite Hz in Hw.
    cbn [nonzero Z.eqb negb Stream.pending_size Stream.buffer modify_field Stream.eta eta_of] in Hw.
    destruct ((0 <=? to_send test (sp f)) && _) eqn:Ep in Hw; [|done].
    apply andb_prop in Ep as [Hp0 Hp1]. apply Z.leb_le in Hp0, Hp1. split; [done|].
    apply Nwrite_bounded in Hw; [|rewrite length_take; lia]. rewrite length_take in Hw.
    destruct (x <? 0); injection H as <- _; lia.
Qed.

Lemma throttle_inv test now f u f' : iperf_check_throttle test now f = Some (u, f') ->
  exists g, sp f' = sp f <| Stream.green_light := g |>.
Proof.
  unfold iperf_check_throttle. intros H. assert (Hid : sp f = sp f <| Stream.green_light := Stream.green_light (sp f) |>)
    by (by destruct (sp f)).
  destruct (nonzero _ || _); [injection H as _ <-; eauto|]. rewrite bind_get_stream in H.
  apply mbnd_inv in H as (m & f1 & H1 & H). unfold mopt in H1.
  destruct (missing_rate test (sp f) now) as [m'|]; [|done]. injection H1 as -> <-.
  rewrite bind_upd_stream in H. set (f1 := f <| sp ::= _ |>) in H.
  assert (H1 : exists g, sp f1 = sp f <| Stream.green_light := g |>) by (eexists; reflexivity).
  clearbody f1. destruct H1 as [g Hg].
  destruct (m <? 0); [|injection H as _ <-; eauto].
  apply mbnd_inv in H as (w & f2 & H2 & H). unfold mopt in H2. destruct (time_to_green_light _ _ _); [|done].
  injection H2 as -> <-. destruct (0 <=? w); [|injection H as _ <-; eauto].
  apply mbnd_inv in H as (x & f2 & H2 & H). apply do_net_inv in H2 as [Hsp _].
  destruct (x =? 0); [|injection H as _ <-; rewrite Hsp; eauto].
  injection H as _ <-. cbn [sp modify_field flow_eta eta_of]. rewrite Hsp, Hg. exists 1. done.
Qed.

(** ** The totals of the test are those of its stream *)

(** The stream sends: directly, or a file through the routine of a protocol. *)
Definition protocol_send (rt : option routine) : bool :=
  match rt with Some Iperf.iperf_tcp_send | Some Iperf.iperf_udp_send => true | _ => false end.
Definition sending (sp : iperf_stream) : bool :=
  match Stream.snd sp with
  | Some Iperf.diskfile_send => protocol_send (Stream.snd2 sp)
  | rt => protocol_send rt
  end.

(** A send that reports [r]: the stream counts it, the test does not yet. *)
Record counted (r : Z) (s s' : worker) : Prop := {
  counted_stream : u64 (Result.bytes_sent (Stream.result (sp (wflow s')))) =
    u64 (Result.bytes_sent (Stream.result (sp (wflow s))) + Z.max 0 r);
  counted_test : Test.bytes_sent (wtest s') = Test.bytes_sent (wtest s);
  counted_snd : Stream.snd (sp (wflow s')) = Stream.snd (sp (wflow s));
  counted_snd2 : Stream.snd2 (sp (wflow s')) = Stream.snd2 (sp (wflow s)) }.

Lemma counted_refl s : counted 0 s s.
Proof. split; [|done..]. by rewrite Z.add_0_r. Qed.
Lemma counted_trans r a b c : counted 0 a b -> counted r b c -> counted r a c.
Proof. intros [A1 A2 A3 A4] [B1 B2 B3 B4]. split; [|congruence..]. rewrite B1. zlia. Qed.

Lemma base_routine_counts rt s r s' : protocol_send rt = true -> base_routine rt s = Some (r, s') -> counted r s s'.
Proof.
  intros Hrt H. destruct rt as [[]|]; try done; apply do_flow_inv in H as [Ht H].
  - destruct (tcp_send_inv _ _ _ _ H) as [Hsp _]. split; [|by rewrite Ht|..]; rewrite Hsp; destruct (Z.ltb_spec r 0); cbn;
      try done; zlia.
  - destruct (udp_send_effect _ _ _ _ H) as (_ & Hr & _ & H1 & H2 & _). split; [|by rewrite Ht|done..].
    rewrite Hr. destruct (Z.ltb_spec r 0); cbn; zlia.
Qed.

Lemma fill_from_disk_counts s n s' : fill_from_disk s = Some (n, s') -> counted 0 s s'.
Proof.
  unfold fill_from_disk. intros H. wstep H. wstep H.
  destruct (_ && _); [|injection H as <- <-; apply counted_refl].
  wstep H. apply w_net_inv in E as (Et & Es & _). wstep H.
  wstep H. wstep H. injection H as <- <-.
  assert (Hst : counted 0 s st0).
  { destruct (negb _) in E; injection E as _ <-; (split; cbn; [|by rewrite ?Et|by rewrite ?Es..]; by rewrite Z.add_0_r, Es). }
  destruct (_ =? 0) in E0; injection E0 as _ <-; [|done]. destruct Hst. by split.
Qed.

Lemma routine_counts s r s' : sending (sp (wflow s)) = true -> run_routine (Stream.snd (sp (wflow s))) s = Some (r, s') ->
  counted r s s'.
Proof.
  unfold sending. intros Hs H.
  destruct (Stream.snd (sp (wflow s))) as [[]|] eqn:Hrt; try done; try exact (base_routine_counts _ _ _ _ Hs H).
  change (diskfile_send s = Some (r, s')) in H. unfold diskfile_send in H. wstep H.
  apply fill_from_disk_counts in E as Hf. wstep H.
  destruct (_ || _); [injection H as <- <-; destruct Hf; by split|].
  wstep H. wstep H. rewrite <-(counted_snd2 _ _ _ Hf) in Hs. apply base_routine_counts in E0 as Hb; [|done].
  pose proof (counted_trans _ _ _ _ Hf Hb) as Hall. destruct (x0 <? 0); [by injection H as <- <-|].
  wstep H. wstep H. injection H as <- <-.
  destruct (_ && _) in E1; [|injection E1 as _ <-; destruct Hall; by split].
  unfold slide in E1. destruct (_ <=? _) in E1; [|done]. injection E1 as _ <-. destruct Hall; by split.
Qed.

(** The bytes the test has counted over those of the stream, modulo the width
    of the counters. *)
Definition surplus (s : worker) : Z :=
  u64 (Test.bytes_sent (wtest s) - Result.bytes_sent (Stream.result (sp (wflow s)))).

Lemma wtest_upd f s : wtest (s <| wtest ::= f |>) = f (wtest s).
Proof. done. Qed.
Lemma throttle_worker now s u s' : do_flow (fun test => iperf_check_throttle test now) s = Some (u, s') ->
  wtest s' = wtest s /\ exists g, sp (wflow s') = sp (wflow s) <| Stream.green_light := g |>.
Proof. intros [Ht H]%do_flow_inv. split; [done|]. by apply throttle_inv in H. Qed.

(** One message: the routine, the counters of the test, the check of the rate. *)
Lemma message_surplus s r s1 s2 sp0 :
  counted r s s1 -> 0 <= r -> wtest s2 = count_sent r sp0 (wtest s1) -> (exists g, sp (wflow s2) = sp (wflow s1) <| Stream.green_light := g |>) ->
  surplus s2 = surplus s /\ sending (sp (wflow s2)) = sending (sp (wflow s)).
Proof.
  intros [C1 C2 C3 C4] Hr Ht [g Hg]. unfold surplus, sending. rewrite Hg, Ht. cbn. rewrite C2, C3, C4.
  split; [zlia|done].
Qed.

Lemma send_loop_surplus per n : forall now s out s', send_loop per n now s = Some (out, s') ->
  sending (sp (wflow s)) = true -> surplus s' = surplus s.
Proof.
  induction n as [|n IH]; intros now s out s' H Hs; cbn [send_loop] in H; [by injection H as _ <-|].
  wstep H. wstep H. destruct (_ =? 0); [by injection H as _ <-|].
  destruct (_ && _); [by injection H as _ <-|].
  wstep H. apply (routine_counts _ _ _ Hs) in E as Hc. destruct (Z.ltb_spec x 0).
  { assert (Hsur : surplus st = surplus s).
    { destruct Hc as [C1 C2 _ _]. unfold surplus. rewrite C2. zlia. }
    destruct (x =? NET_SOFTERROR); [by injection H as _ <-|]. wstep H. injection H as _ <-.
    apply w_net_inv in E0 as (Et & Es & _). rewrite <-Hsur. unfold surplus. by rewrite Et, Es. }
  wstep H. wstep H. destruct per.
  - wstep H. wstep H. apply throttle_worker in E1 as (Et & Eg).
    assert (Hst : wtest st0 = count_sent x (sp (wflow st)) (wtest st) /\ sp (wflow st0) = sp (wflow st)).
    { destruct now; [injection E0 as _ <-; done|]. apply w_net_inv in E0 as (Et0 & Es0 & _). by rewrite Et0, Es0. }
    destruct Hst as [Ht0 Hs0]. rewrite Ht0 in Et. rewrite Hs0 in Eg.
    destruct (message_surplus _ _ _ _ _ Hc ltac:(done) Et Eg) as [<- Hsend].
    eapply IH; [exact H|]. by rewrite Hsend.
  - match type of H with send_loop _ _ _ ?s2 = _ =>
      assert (Hg : exists g, sp (wflow s2) = sp (wflow st) <| Stream.green_light := g |>)
        by (exists (Stream.green_light (sp (wflow st))); cbn; by destruct (sp (wflow st)));
      destruct (message_surplus s x st s2 (sp (wflow st)) Hc ltac:(done) (wtest_upd _ _) Hg) as [<- Hsend] end.
    eapply IH; [exact H|]. by rewrite Hsend.
Qed.

(** C25. No byte is lost between the two counters: in a round of sending, over
    TCP, UDP or from a file, whatever the system answers and whether the round
    ends in an error or not, the bytes counted by the test grow by exactly the
    bytes counted by the stream. *)
Theorem iperf_send_mt_conserves (s s' : worker) (r : Z) :
  sending (sp (wflow s)) = true -> iperf_send_mt s = Some (r, s') -> surplus s' = surplus s.
Proof.
  intros Hs H. unfold iperf_send_mt in H. wstep H. wstep H.
  apply send_loop_surplus in E as Hsur; [|done]. destruct x as [q|sent]; [injection H as _ <-; exact Hsur|].
  clear E. destruct (_ && _); [|injection H as _ <-; exact Hsur]. wstep H. wstep H. injection H as _ <-.
  apply w_net_inv in E as (Et & Es & _). apply throttle_worker in E0 as (Et1 & g & Eg).
  rewrite <-Hsur. unfold surplus. rewrite Et1, Eg, Et, Es. done.
Qed.
Definition sender (answers : list reply) : worker :=
  Worker (iperf_new_test <| Test.multisend := 10 |> <| Test.settings ::= fun s => s <| Settings.blksize := 16 |> |>)
    (Flow (Stream.zero <| Stream.buffer := replicate 16 0 |> <| Stream.green_light := 1 |>
                       <| Stream.snd := Some Iperf.iperf_tcp_send |> <| Stream.socket := 5 |>)
          (World answers [] 0 0 0)).
Definition congested : worker := sender [Reply 16 0 [] []; Reply 6 0 [] []; Reply (-1) EAGAIN [] []; Reply (-1) EAGAIN [] []].
Lemma iperf_send_mt_conserves_witness :
  exists s', iperf_send_mt congested = Some (0, s') /\ Test.bytes_sent (wtest s') = 22 /\ surplus s' = surplus congested.
Proof.
  eexists. split; [vm_compute; reflexivity|]. split; [reflexivity|].
  apply (iperf_send_mt_conserves congested _ 0); vm_compute; reflexivity.
Defined.

(** ** Blocks and bytes *)

(** The bytes of the current block that are out already. *)
Definition block_bytes (test : iperf_test) (sp : iperf_stream) : Z :=
  if Stream.pending_size sp =? 0 then 0 else Settings.blksize (Test.settings test) - Stream.pending_size sp.
(** A TCP stream without a file, whose buffer is one block. *)
Record tcp_sender (s : worker) : Prop := {
  block_positive : 0 < Settings.blksize (Test.settings (wtest s)) < 2 ^ 31;
  buffer_is_block : Z.of_nat (length (Stream.buffer (sp (wflow s)))) = Settings.blksize (Test.settings (wtest s));
  copies : Test.zerocopy (wtest s) = 0;
  snd_is_tcp : Stream.snd (sp (wflow s)) = Some Iperf.iperf_tcp_send }.
(** The bytes sent by the test are the blocks sent and the start of one more. *)
Record in_blocks (s : worker) : Prop := {
  pending_fits : 0 <= Stream.pending_size (sp (wflow s)) <= Settings.blksize (Test.settings (wtest s));
  bytes_are_blocks : Test.bytes_sent (wtest s) =
    u64 (Settings.blksize (Test.settings (wtest s)) * Test.blocks_sent (wtest s) + block_bytes (wtest s) (sp (wflow s))) }.

Lemma in_blocks_frame s s' : wtest s' = wtest s -> (exists g, sp (wflow s') = sp (wflow s) <| Stream.green_light := g |>) ->
  tcp_sender s /\ in_blocks s -> tcp_sender s' /\ in_blocks s'.
Proof. intros Ht [g Hg] [[] []]. by repeat split; rewrite ?Ht, ?Hg; cbn; try assumption; lia. Qed.

Lemma tcp_message s r s1 : tcp_sender s -> in_blocks s -> do_flow iperf_tcp_send s = Some (r, s1) ->
  let s2 := if r <? 0 then s1 else s1 <| wtest ::= count_sent r (sp (wflow s1)) |> in
  tcp_sender s2 /\ in_blocks s2.
Proof.
  intros [Hb Hl Hz Ht] [Hp Hby] [Et H]%do_flow_inv. apply tcp_send_inv in H as [Hs Hr].
  rewrite Hl in Hr. destruct (Hr Hz ltac:(lia)) as [Hp2 Hr2]. clear Hr.
  set (p := to_send (wtest s) (sp (wflow s))) in *.
  set (B := Settings.blksize (Test.settings (wtest s))) in *.
  assert (Hbb : block_bytes (wtest s) (sp (wflow s)) = B - p \/ (p = B /\ block_bytes (wtest s) (sp (wflow s)) = 0)).
  { unfold block_bytes, p, to_send. fold B. destruct (Z.eqb_spec (Stream.pending_size (sp (wflow s))) 0); auto. }
  assert (Hp0 : 0 < p). { unfold p, to_send. fold B. destruct (Z.eqb_spec (Stream.pending_size (sp (wflow s))) 0); lia. }
  assert (HB : block_bytes (wtest s) (sp (wflow s)) = B - p) by lia. rewrite HB in Hby. clear Hbb HB.
  destruct (Z.ltb_spec r 0); cbv zeta.
  - split; split; rewrite ?Hs, ?Et; cbn; try done; try lia.
    unfold block_bytes. cbn. fold B. destruct (Z.eqb_spec p 0); [lia|exact Hby].
  - rewrite i32_id in Hs by zlia. split; split; cbn [wtest wflow modify_field worker_eta eta_of]; rewrite ?Hs, ?Et; cbn; try done; try lia.
    unfold block_bytes. cbn. fold B. rewrite Hby. destruct (Z.eqb_spec (p - r) 0) as [E|E].
    + assert (Hm : u64 (B * u64 (Test.blocks_sent (wtest s) + 1)) = u64 (B * (Test.blocks_sent (wtest s) + 1)))
        by (unfold u64; by rewrite Zmult_mod_idemp_r).
      rewrite Z.add_0_r, Hm. unfold u64. rewrite Zplus_mod_idemp_l. f_equal. lia.
    + unfold u64. rewrite Zplus_mod_idemp_l. f_equal. lia.
Qed.

Lemma time_reads (now : option iperf_time) s t s' :
  match now with Some t => mret t | None => w_net time_now end s = Some (t, s') ->
  wtest s' = wtest s /\ sp (wflow s') = sp (wflow s).
Proof. destruct now; [by intros [= _ <-]|]. intros (? & ? & _)%w_net_inv. done. Qed.
Lemma same_stream s s' : sp (wflow s') = sp (wflow s) -> exists g, sp (wflow s') = sp (wflow s) <| Stream.green_light := g |>.
Proof. intros ->. exists (Stream.green_light (sp (wflow s))). by destruct (sp (wflow s)). Qed.

Lemma send_loop_blocks per n : forall now s out s', send_loop per n now s = Some (out, s') ->
  tcp_sender s /\ in_blocks s -> tcp_sender s' /\ in_blocks s'.
Proof.
  induction n as [|n IH]; intros now s out s' H Hs; cbn [send_loop] in H; [by injection H as _ <-|].
  wstep H. wstep H. destruct (_ =? 0); [by injection H as _ <-|].
  destruct (_ && _); [by injection H as _ <-|].
  rewrite (snd_is_tcp s) in H by apply Hs. wstep H. pose proof (tcp_message s x st) as Hm. cbv zeta in Hm.
  specialize (Hm (proj1 Hs) (proj2 Hs) E). destruct (Z.ltb_spec x 0).
  { destruct (x =? NET_SOFTERROR); [by injection H as _ <-|]. wstep H. injection H as _ <-.
    apply w_net_inv in E0 as (Et & Es & _). eapply in_blocks_frame; [exact Et|by apply same_stream|exact Hm]. }
  wstep H. wstep H. fold (count_sent x (sp (wflow st))) in Hm.
  match type of H with context [st <| wtest ::= ?f |>] => set (s1 := st <| wtest ::= f |>) in * end. clearbody s1.
  destruct per; [|by apply IH in H].
  wstep H. apply time_reads in E0 as [Et Es]. wstep H. apply throttle_worker in E0 as (Et1 & Eg).
  apply IH in H; [exact H|]. eapply in_blocks_frame; [exact Et1|exact Eg|].
  eapply in_blocks_frame; [exact Et|by apply same_stream|exact Hm].
Qed.

(** Bytes and blocks agree: on a TCP stream, however the system cuts the
    writes, the bytes counted by the test are at every moment the block size
    times the blocks counted plus the part of the current block that is out,
    and no more than one block is ever pending. *)
Lemma iperf_send_mt_blocks (s s' : worker) (r : Z) :
  tcp_sender s -> in_blocks s -> iperf_send_mt s = Some (r, s') -> tcp_sender s' /\ in_blocks s'.
Proof.
  intros Hs Hb H. unfold iperf_send_mt in H. wstep H. wstep H.
  apply send_loop_blocks in E; [|done]. destruct x as [q|sent]; [injection H as _ <-; exact E|].
  destruct (_ && _); [|injection H as _ <-; exact E]. wstep H. wstep H. injection H as _ <-.
  apply w_net_inv in E0 as (Et & Es & _). apply throttle_worker in E1 as (Et1 & Eg).
  eapply in_blocks_frame; [exact Et1|exact Eg|]. eapply in_blocks_frame; [exact Et|by apply same_stream|exact E].
Qed.
Lemma iperf_send_mt_blocks_witness :
  exists s', iperf_send_mt congested = Some (0, s') /\ Test.blocks_sent (wtest s') = 1 /\ tcp_sender s' /\ in_blocks s'.
Proof.
  eexists. split; [vm_compute; reflexivity|]. split; [reflexivity|].
  apply (iperf_send_mt_blocks congested _ 0); [| |vm_compute; reflexivity].
  - split; [split; [reflexivity|vm_compute; reflexivity]|reflexivity..].
  - split; [split; vm_compute; discriminate|reflexivity].
Defined.

(** ** Sleeping until the light is green *)

Definition slept (t : list (call * reply)) : Z :=
  foldr Z.add 0 (map (fun cr => match cr.1 with Cnanosleep ns => ns | _ => 0 end) t).
(** The sleeps that [ns] nanoseconds take. *)
Definition naps (ns : Z) : nat := Z.to_nat (Z.max 1 (- (- ns / (SEC_TO_NS - 1)))).

Lemma naps_more ns : SEC_TO_NS - 1 < ns -> naps ns = S (naps (ns - (SEC_TO_NS - 1))).
Proof. unfold naps, SEC_TO_NS. intros H. rewrite <-Z2Nat.inj_succ by lia. f_equal. Z.to_euclidean_division_equations. lia. Qed.
Lemma naps_one ns : 0 <= ns <= SEC_TO_NS - 1 -> naps ns = 1%nat.
Proof. unfold naps, SEC_TO_NS. intros H. replace 1%nat with (Z.to_nat 1) by done. f_equal. Z.to_euclidean_division_equations. lia. Qed.
Lemma naps_bound ns : 0 <= ns -> (naps ns <= S (Z.to_nat (ns / (SEC_TO_NS - 1))))%nat.
Proof. unfold naps, SEC_TO_NS. intros H. rewrite <-Z2Nat.inj_succ by (Z.to_euclidean_division_equations; lia).
  apply Z2Nat.inj_le; Z.to_euclidean_division_equations; lia. Qed.

Definition awake : reply := Reply 0 0 [] [].
Lemma sleep_loop_runs fuel : forall ns w rest, 0 <= ns -> (naps ns <= fuel)%nat ->
  script w = replicate (naps ns) awake ++ rest ->
  exists w', sleep_loop fuel ns w = Some (0, w') /\ script w' = rest /\
    exists t, trace w' = trace w ++ t /\ slept t = ns.
Proof.
  induction fuel as [|fuel IH]; intros ns w rest Hns Hf Hs; [unfold naps in Hf; lia|].
  cbn [sleep_loop]. destruct (Z.le_gt_cases ns (SEC_TO_NS - 1)) as [Hle|Hgt].
  - rewrite naps_one in Hs by lia. cbn [replicate app] in Hs. rewrite (run_sys _ _ _ _ _ Hs). cbn [ret awake Z.eqb andb].
    destruct (Z.leb_spec SEC_TO_NS ns); [lia|]. rewrite Z.sub_diag. cbn [Z.ltb Z.compare andb].
    eexists. split; [reflexivity|]. split; [by apply (script_answered _ _ _ _ _ Hs)|].
    eexists. split; [reflexivity|]. cbn. lia.
  - rewrite naps_more in Hs, Hf by lia. cbn [replicate app] in Hs. rewrite (run_sys _ _ _ _ _ Hs). cbn [ret awake Z.eqb].
    destruct (Z.leb_spec SEC_TO_NS ns); [|lia].
    destruct (Z.ltb_spec 0 (ns - (SEC_TO_NS - 1))); [|lia]. cbn [andb].
    set (w1 := answered _ _ w). assert (Hs1 : script w1 = replicate (naps (ns - (SEC_TO_NS - 1))) awake ++ rest)
      by apply (script_answered _ _ _ _ _ Hs).
    destruct (IH (ns - (SEC_TO_NS - 1)) w1 rest ltac:(lia) ltac:(lia) Hs1) as (w' & Hr & Hrest & t & Ht & Hsl).
    exists w'. split_and!; [done|done|]. eexists. split.
    + rewrite Ht. cbn. by rewrite <-app_assoc.
    + cbn. fold (slept t). rewrite Hsl. lia.
Qed.

(** A stream that is ahead of its rate sleeps for exactly the time that
    brings it back to the rate, in naps of less than a second, and then has a
    green light: pacing never leaves a stream stopped and never sleeps for a
    second or more in one call. *)
Lemma throttle_sleeps_to_green (test : iperf_test) (now : iperf_time) (s : flow) (missing wait : Z) (rest : list reply) :
  Test.done test = 0 -> Settings.rate (Test.settings test) <> 0 ->
  missing_rate test (sp s) now = Some missing -> missing < 0 ->
  time_to_green_light test (sp s) now = Some wait -> 0 <= wait ->
  script (net s) = replicate (naps wait) awake ++ rest ->
  exists s', iperf_check_throttle test now s = Some (tt, s') /\ Stream.green_light (sp s') = 1 /\
    script (net s') = rest /\ exists t, trace (net s') = trace (net s) ++ t /\ slept t = wait.
Proof.
  intros Hd Hrate Hm Hneg Hw Hpos Hs. unfold iperf_check_throttle. rewrite Hd.
  destruct (Z.eqb_spec (Settings.rate (Test.settings test)) 0); [done|]. cbn [nonzero negb Z.eqb orb].
  rewrite bind_get_stream, Hm. unfold mopt at 1, mbnd at 1. rewrite bind_upd_stream.
  destruct (Z.ltb_spec missing 0); [|lia]. rewrite Hw. unfold mopt at 1, mbnd at 1. rewrite (proj2 (Z.leb_le 0 wait) Hpos).
  set (s1 := s <| sp ::= _ |>). assert (Hs1 : net s1 = net s) by done.
  destruct (sleep_loop_runs (S (Z.to_nat (wait / (SEC_TO_NS - 1)))) wait (net s1) rest Hpos (naps_bound _ Hpos))
    as (w' & Hr & Hrest & t & Ht & Hsl); [by rewrite Hs1|].
  change (sleep_loop _ _ (net s1)) with (sleep_for wait (net s1)) in Hr.
  rewrite (bind_net _ _ _ _ _ Hr). cbn [Z.eqb]. eexists. split; [reflexivity|].
  split_and!; [done|exact Hrest|]. exists t. split; [rewrite <-Hs1; exact Ht|exact Hsl].
Qed.
Definition ahead : flow :=
  Flow (Stream.zero <| Stream.result ::= fun rp => rp <| Result.bytes_sent := 500 |> <| Result.start_time_fixed := Time 100 0 |> |>)
       (World (replicate 4 awake) [] 0 0 0).
Definition paced : iperf_test := iperf_new_test <| Test.settings ::= fun s => s <| Settings.rate := 1000 |> |>.
Lemma throttle_sleeps_to_green_witness :
  exists s', iperf_check_throttle paced (Time 101 0) ahead = Some (tt, s') /\ Stream.green_light (sp s') = 1 /\
    script (net s') = [] /\ exists t, trace (net s') = trace (net ahead) ++ t /\ slept t = 3000000000.
Proof.
  apply (throttle_sleeps_to_green paced (Time 101 0) ahead (-3000) 3000000000 []); try (vm_compute; reflexivity); vm_compute; discriminate.
Defined.

(** ** A file goes out in order *)

Lemma Nwrite_whole f buf prot w p l rest : p = Z.of_nat (length buf) -> 0 < p < 2 ^ 31 -> script w = Reply p 0 l [] :: rest ->
  Nwrite f buf prot w = Some (p, answered (Cwrite f buf) (Reply p 0 l []) w).
Proof.
  intros Hp Hb Hs. unfold Nwrite. rewrite Hs. cbn [length List.length Nwrite_loop]. rewrite <-Hp.
  destruct (Z.leb_spec p 0); [lia|]. rewrite (run_sys _ _ _ _ _ Hs), run_errno. cbn [ret].
  destruct (Z.ltb_spec p 0); [lia|]. destruct (Z.eqb_spec p 0); [lia|].
  assert (drop (Z.to_nat p) buf = []) as -> by (apply skipn_all2; lia).
  destruct rest; cbn [Nwrite_loop length List.length Z.of_nat Z.leb Z.compare]; unfold mret; by rewrite i32_id by zlia.
Qed.

Lemma tcp_send_whole test f l rest :
  let p := to_send test (sp f) in
  Test.zerocopy test = 0 -> 0 < p <= Z.of_nat (length (Stream.buffer (sp f))) ->
  Z.of_nat (length (Stream.buffer (sp f))) < 2 ^ 31 -> script (net f) = Reply p 0 l [] :: rest ->
  iperf_tcp_send test f = Some (p,
    Flow (sp f <| Stream.pending_size := 0 |> <| Stream.result ::= add_sent p |>)
         (answered (Cwrite (Stream.socket (sp f)) (take (Z.to_nat p) (Stream.buffer (sp f)))) (Reply p 0 l []) (net f))).
Proof.
  intros p Hz Hp Hb Hs. unfold iperf_tcp_send. rewrite bind_upd_stream.
  assert (Hs0 : start_block test (sp f) = sp f <| Stream.pending_size := p |>).
  { unfold start_block, p, to_send. destruct (Stream.pending_size (sp f) =? 0); [done|]. by destruct (sp f). }
  rewrite bind_get_stream. cbn [sp modify_field flow_eta eta_of]. rewrite Hs0.
  unfold tcp_write. rewrite Hz. cbn [nonzero Z.eqb negb Stream.pending_size Stream.buffer Stream.socket modify_field Stream.eta eta_of].
  destruct (Z.leb_spec 0 p); [|lia]. destruct (Z.leb_spec p (Z.of_nat (length (Stream.buffer (sp f))))); [|lia].
  cbn [andb]. erewrite bind_net.
  2:{ cbn [net]. apply (Nwrite_whole _ _ _ _ p l rest); [rewrite length_take; lia|lia|exact Hs]. }
  cbn [sp net modify_field flow_eta eta_of]. destruct (Z.ltb_spec p 0); [lia|]. rewrite bind_upd_stream.
  unfold mret. do 2 f_equal. cbn. by rewrite Z.sub_diag.
Qed.

Fixpoint diskfile_times (n : nat) : W unit :=
  match n with O => mret tt | S n => diskfile_send ;; diskfile_times n end.
Definition served (chunk : list Z) : list reply :=
  let n := Z.of_nat (length chunk) in [Reply n 0 chunk []; Reply n 0 [] []].

(** Between two blocks of a file sent over TCP. *)
Record between_blocks (s : worker) : Prop := {
  disk_block : 0 < Settings.blksize (Test.settings (wtest s)) < 2 ^ 31;
  disk_buffer : Z.of_nat (length (Stream.buffer (sp (wflow s)))) = Settings.blksize (Test.settings (wtest s));
  disk_copies : Test.zerocopy (wtest s) = 0;
  disk_tcp : Stream.snd2 (sp (wflow s)) = Some Iperf.iperf_tcp_send;
  disk_going : Test.done (wtest s) = 0;
  disk_pending : Stream.pending_size (sp (wflow s)) = 0;
  disk_left : Stream.diskfile_left (sp (wflow s)) = 0 }.

Lemma w_net_run {A B} (m : M world A) (k : A -> W B) s a w : m (net (wflow s)) = Some (a, w) ->
  mbnd (w_net m) k s = k a (s <| wflow ::= fun f => f <| net := w |> |>).
Proof. intros H. unfold mbnd at 1, w_net, do_flow, do_net, lift. by rewrite H. Qed.
Lemma bind_wstream {B} (k : iperf_stream -> W B) s : mbnd get_wstream k s = k (sp (wflow s)) s.
Proof. done. Qed.
Lemma bind_wtest {B} (k : iperf_test -> W B) s : mbnd get_wtest k s = k (wtest s) s.
Proof. done. Qed.
Lemma bind_upd_wstream {B} f (k : unit -> W B) s : mbnd (upd_wstream f) k s = k tt (s <| wflow ::= fun x => x <| sp ::= f |> |>).
Proof. done. Qed.

(** Reading a chunk: the buffer starts with it and its length is to be sent. *)
Lemma fill_from_disk_runs s chunk rest :
  between_blocks s -> 0 < Z.of_nat (length chunk) <= Settings.blksize (Test.settings (wtest s)) ->
  script (net (wflow s)) = Reply (Z.of_nat (length chunk)) 0 chunk [] :: rest ->
  exists s1, fill_from_disk s = Some (Z.of_nat (length chunk), s1) /\ wtest s1 = wtest s /\
    to_send (wtest s1) (sp (wflow s1)) = Z.of_nat (length chunk) /\
    Stream.buffer (sp (wflow s1)) = store_bytes 0 chunk (Stream.buffer (sp (wflow s))) /\
    Stream.snd2 (sp (wflow s1)) = Stream.snd2 (sp (wflow s)) /\ Stream.socket (sp (wflow s1)) = Stream.socket (sp (wflow s)) /\
    script (net (wflow s1)) = rest /\
    exists c, trace (net (wflow s1)) = trace (net (wflow s)) ++ [(c, Reply (Z.of_nat (length chunk)) 0 chunk [])] /\
      forall r, sent_by c r = [].
Proof.
  intros [Hb Hl Hz Ht Hd Hp Hf] Hc Hs. unfold fill_from_disk. rewrite bind_wtest, bind_wstream, Hd, Hf.
  destruct (Z.ltb_spec 0 (Settings.blksize (Test.settings (wtest s)))); [|lia]. cbn [nonzero Z.eqb negb andb].
  set (B := Settings.blksize (Test.settings (wtest s))) in *. set (len := Z.of_nat (length chunk)) in *.
  erewrite w_net_run by (unfold sys; rewrite Hs; reflexivity).
  rewrite bind_upd_wstream. cbn [ret data]. rewrite Z.add_0_l, i32_id by zlia.
  destruct (Z.eqb_spec len 0); [lia|].
  destruct (Z.eqb_spec len B) as [->|Hne]; cbn [negb]; (eexists; split; [reflexivity|]); cbn; fold B; rewrite ?Hp.
  all: split_and!; try done; try (eexists; split; [reflexivity|done]).
  unfold to_send; cbn; destruct (Z.eqb_spec len 0); [lia|done].
Qed.

Lemma do_flow_run {A B} (m : iperf_test -> F A) (k : A -> W B) s a f : m (wtest s) (wflow s) = Some (a, f) ->
  mbnd (do_flow m) k s = k a (s <| wflow := f |>).
Proof. intros H. unfold mbnd at 1, do_flow. by rewrite H. Qed.

Lemma take_store chunk buf : (length chunk <= length buf)%nat -> take (length chunk) (store_bytes 0 chunk buf) = chunk.
Proof. intros H. unfold store_bytes. rewrite take_0. cbn [app]. by rewrite take_app_length. Qed.

(** One chunk of the file goes out whole. *)
Lemma diskfile_send_chunk s chunk rest :
  between_blocks s -> 0 < Z.of_nat (length chunk) <= Settings.blksize (Test.settings (wtest s)) ->
  script (net (wflow s)) = served chunk ++ rest ->
  exists s', diskfile_send s = Some (Z.of_nat (length chunk), s') /\ between_blocks s' /\
    Settings.blksize (Test.settings (wtest s')) = Settings.blksize (Test.settings (wtest s)) /\
    script (net (wflow s')) = rest /\
    exists t, trace (net (wflow s')) = trace (net (wflow s)) ++ t /\ sent t = chunk.
Proof.
  intros Hs Hc Hsc. destruct (fill_from_disk_runs s chunk _ Hs Hc Hsc) as (s1 & Hf & Ht & Hsend & Hbuf & Hsnd & Hsock & Hs1 & c & Htr & Hsil).
  destruct Hs as [Hb Hl Hz Htcp Hd Hp Hleft]. unfold diskfile_send, mbnd at 1. rewrite Hf.
  rewrite bind_wtest, Ht, Hd. destruct (Z.eqb_spec (Z.of_nat (length chunk)) 0); [lia|]. cbn [nonzero Z.eqb negb orb].
  rewrite bind_wstream, Hsnd, Htcp. cbn [base_routine].
  assert (Hlen : length (Stream.buffer (sp (wflow s1))) = length (Stream.buffer (sp (wflow s)))).
  { rewrite Hbuf. apply store_bytes_length. lia. }
  pose proof (tcp_send_whole (wtest s1) (wflow s1) [] rest) as Hw. cbv zeta in Hw.
  rewrite Hsend, Hlen, Ht in Hw. specialize (Hw Hz ltac:(lia) ltac:(lia) Hs1).
  rewrite Hbuf, Nat2Z.id, take_store in Hw by lia.
  erewrite do_flow_run by (rewrite Ht; exact Hw).
  destruct (Z.ltb_spec (Z.of_nat (length chunk)) 0); [lia|]. rewrite Z.sub_diag, bind_upd_wstream.
  change (i32 0) with 0. cbn [Z.eqb negb andb].
  eexists. split; [reflexivity|]. split; [|split; [|split]].
  - split; cbn; rewrite ?Ht; try done; [|congruence]. by rewrite Hlen.
  - cbn. by rewrite Ht.
  - cbn. by rewrite Hs1.
  - cbn. eexists. split; [rewrite Htr, <-app_assoc; reflexivity|]. cbn. rewrite Hsil. cbn.
    destruct (Z.ltb_spec 0 (Z.of_nat (length chunk))); [|lia]. rewrite app_nil_r, Nat2Z.id. by rewrite firstn_all.
Qed.

(** The end of the file stops the test. *)
Lemma diskfile_send_end s rest :
  between_blocks s -> script (net (wflow s)) = awake :: rest ->
  exists s', diskfile_send s = Some (0, s') /\ Test.done (wtest s') = 1 /\ script (net (wflow s')) = rest /\
    exists t, trace (net (wflow s')) = trace (net (wflow s)) ++ t /\ sent t = [].
Proof.
  intros [Hb Hl Hz Htcp Hd Hp Hleft] Hs. unfold diskfile_send, fill_from_disk. rewrite bind_assoc, bind_wtest, bind_wstream || idtac.
  unfold mbnd at 1. rewrite bind_wtest, bind_wstream, Hd, Hleft.
  destruct (Z.ltb_spec 0 (Settings.blksize (Test.settings (wtest s)))); [|lia]. cbn [nonzero Z.eqb negb andb].
  erewrite w_net_run by (unfold sys; rewrite Hs; reflexivity). rewrite bind_upd_wstream. cbn [ret awake data].
  change (i32 (0 + 0)) with 0. destruct (Z.eqb_spec 0 (Settings.blksize (Test.settings (wtest s)))); [lia|]. cbn [negb Z.eqb].
  eexists. split; [reflexivity|]. split_and!; [done|done|]. eexists. split; [reflexivity|done].
Qed.

Lemma diskfile_times_chunks chunks : forall s rest,
  between_blocks s ->
  Forall (fun c => 0 < Z.of_nat (length c) <= Settings.blksize (Test.settings (wtest s))) chunks ->
  script (net (wflow s)) = concat (map served chunks) ++ rest ->
  exists s', diskfile_times (length chunks) s = Some (tt, s') /\ between_blocks s' /\ script (net (wflow s')) = rest /\
    exists t, trace (net (wflow s')) = trace (net (wflow s)) ++ t /\ sent t = concat chunks.
Proof.
  induction chunks as [|c chunks IH]; intros s rest Hs Hc Hsc.
  { exists s. split_and!; [done..|]. exists []. by rewrite app_nil_r. }
  apply Forall_cons in Hc as [Hc Hcs]. cbn [map concat] in Hsc. rewrite <-app_assoc in Hsc.
  destruct (diskfile_send_chunk s c _ Hs Hc Hsc) as (s1 & H1 & Hs1 & Hblk & Hsc1 & t1 & Ht1 & Hsent1).
  rewrite <-Hblk in Hcs. destruct (IH s1 rest Hs1 Hcs Hsc1) as (s' & H2 & Hs' & Hsc' & t2 & Ht2 & Hsent2).
  exists s'. split_and!; [|done|done|].
  - cbn [length List.length diskfile_times]. unfold mbnd. by rewrite H1.
  - exists (t1 ++ t2). rewrite Ht2, Ht1, <-app_assoc. split; [done|]. by rewrite sent_app, Hsent1, Hsent2.
Qed.

(** A file is sent as it is: when the socket takes every write whole, the
    bytes on the wire are the chunks read from the file, of any sizes up to
    the block, in order and unaltered, and the end of the file ends the test. *)
Lemma diskfile_send_copies (s : worker) (chunks : list (list Z)) (rest : list reply) :
  between_blocks s ->
  Forall (fun c => 0 < Z.of_nat (length c) <= Settings.blksize (Test.settings (wtest s))) chunks ->
  script (net (wflow s)) = concat (map served chunks) ++ awake :: rest ->
  exists s', diskfile_times (S (length chunks)) s = Some (tt, s') /\ Test.done (wtest s') = 1 /\
    script (net (wflow s')) = rest /\
    exists t, trace (net (wflow s')) = trace (net (wflow s)) ++ t /\ sent t = concat chunks.
Proof.
  intros Hs Hc Hsc. destruct (diskfile_times_chunks chunks s _ Hs Hc Hsc) as (s1 & H1 & Hs1 & Hsc1 & t1 & Ht1 & Hsent1).
  destruct (diskfile_send_end s1 rest Hs1 Hsc1) as (s' & H2 & Hd & Hsc' & t2 & Ht2 & Hsent2).
  exists s'. split_and!; [|done|done|].
  - revert H1. generalize (length chunks) as n. clear -H2. intros n. revert s. induction n as [|n IH]; intros s H1.
    + injection H1 as <-. cbn [diskfile_times]. unfold mbnd. by rewrite H2.
    + cbn [diskfile_times] in H1. apply mbnd_inv in H1 as (a & s2 & Ha & H1). apply IH in H1.
      change (diskfile_times (S (S n))) with (diskfile_send ;; diskfile_times (S n)). unfold mbnd at 1. by rewrite Ha.
  - exists (t1 ++ t2). rewrite Ht2, Ht1, <-app_assoc. split; [done|]. by rewrite sent_app, Hsent1, Hsent2, app_nil_r.
Qed.
Definition file_sender (answers : list reply) : worker :=
  sender answers <| wflow ::= fun f => f <| sp ::= fun sp => sp <| Stream.buffer := replicate 4 0 |>
    <| Stream.snd2 := Some Iperf.iperf_tcp_send |> |> |>
    <| wtest ::= fun t => t <| Test.settings ::= fun s => s <| Settings.blksize := 4 |> |> |>.
Lemma diskfile_send_copies_witness :
  exists s', diskfile_times 3 (file_sender [Reply 4 0 [1; 2; 3; 4] []; Reply 4 0 [] []; Reply 2 0 [5; 6] []; Reply 2 0 [] []; awake])
      = Some (tt, s') /\ Test.done (wtest s') = 1 /\ script (net (wflow s')) = [] /\
    exists t, trace (net (wflow s')) = [] ++ t /\ sent t = [1; 2; 3; 4; 5; 6].
Proof.
  apply (diskfile_send_copies (file_sender [Reply 4 0 [1; 2; 3; 4] []; Reply 4 0 [] []; Reply 2 0 [5; 6] []; Reply 2 0 [] []; awake])
    [[1; 2; 3; 4]; [5; 6]] []).
  - split; try reflexivity. split; reflexivity.
  - apply (bool_decide_unpack _). vm_compute. exact I.
  - reflexivity.
Defined.

(** When the socket takes a part of a block only, the next read from the file
    goes to the start of the buffer, over the bytes left for the next pass:
    of the file 1 2 3 4 5 6 the bytes 1 2 5 6 arrive. *)
Lemma diskfile_send_overwrites :
  exists s', (diskfile_send ;; diskfile_send)
    (file_sender [Reply 4 0 [1; 2; 3; 4] []; Reply 2 0 [] []; Reply (-1) EAGAIN [] []; Reply 2 0 [5; 6] []; Reply 2 0 [] []])
      = Some (2, s') /\ sent (trace (net (wflow s'))) = [1; 2; 5; 6].
Proof. eexists. split; vm_compute; reflexivity. Qed.
