(* ===== verification/Stats.v ===== *)
(** * Statistics of a running test

    At every tick of the statistics timer the main thread closes an interval of
    each stream and, on a server, compares the traffic of the last intervals
    with the limit.  There is no TCP_INFO on the platform, so the branch that
    reads it does nothing.  Text printed at debug level is left out. *)
From Stdlib Require Import Ascii.
From stdpp Require Import strings.
From S2P Require Import Prelude Double IperfTime Timer Text Iperf Error Sys Net Json Util Api Params Printf Output Traffic.
#[local] Open Scope Z_scope.

(** ** Intervals *)

(** Only the last interval is kept. *)
Definition add_to_interval_list (new : iperf_interval_results) (rp : iperf_stream_result) : iperf_stream_result :=
  rp <| Result.interval_results ::= fun l => removelast l ++ [new] |>.

(** One stream at [now]: the record filled in so far, [temp], is reused from
    stream to stream. *)
Definition close_interval (is_tcp : bool) (now : iperf_time) (temp : iperf_interval_results) (sp : iperf_stream) : iperf_interval_results :=
  let rp := Stream.result sp in
  let irp := list.last (Result.interval_results rp) in
  let start := match irp with Some _ => Result.end_time rp | None => Result.start_time rp end in
  let temp := temp
    <| Interval.bytes_transferred := if nonzero (Stream.sender sp) then Result.bytes_sent_this_interval rp
                                     else Result.bytes_received_this_interval rp |>
    <| Interval.interval_start_time := start |> <| Interval.interval_end_time := now |>
    <| Interval.interval_duration := d2f (iperf_time_in_secs (iperf_time_diff start now).2) |> in
  if is_tcp then temp
  else
    let since (f : iperf_interval_results -> Z) (n : Z) := match irp with Some i => i64 (n - f i) | None => n end in
    temp
      <| Interval.interval_packet_count := since Interval.packet_count (Stream.packet_count sp) |>
      <| Interval.interval_outoforder_packets := since Interval.outoforder_packets (Stream.outoforder_packets sp) |>
      <| Interval.interval_cnt_error := since Interval.cnt_error (Stream.cnt_error sp) |>
      <| Interval.packet_count := Stream.packet_count sp |> <| Interval.jitter := Stream.jitter sp |>
      <| Interval.outoforder_packets := Stream.outoforder_packets sp |> <| Interval.cnt_error := Stream.cnt_error sp |>.

Definition record_interval (temp : iperf_interval_results) (sp : iperf_stream) : iperf_stream :=
  sp <| Stream.result ::= fun rp =>
    add_to_interval_list temp (rp <| Result.end_time := Interval.interval_end_time temp |>)
      <| Result.bytes_sent_this_interval := 0 |> <| Result.bytes_received_this_interval := 0 |> |>.

(** The bytes of the interval over all streams, and the streams. *)
Fixpoint close_intervals (is_tcp : bool) (temp : iperf_interval_results) (total : Z) (l : list iperf_stream)
    : M world (Z * list iperf_stream) :=
  match l with
  | [] => mret (total, [])
  | sp :: l =>
      let rp := Stream.result sp in
      let total := u64 (total + u64 (Result.bytes_sent_this_interval rp + Result.bytes_received_this_interval rp)) in
      let! now := time_now in
      let temp := close_interval is_tcp now temp sp in
      let! (total, l) := close_intervals is_tcp temp total l in
      mret (total, record_interval temp sp :: l)
  end.

(** ** The limit on the total rate *)

(** The total of the first [n] slots; undefined beyond the end. *)
Fixpoint sum_slots (n : nat) (l : list Z) : option Z :=
  match n with
  | O => Some 0
  | S n => x ← l !! n; t ← sum_slots n l; Some (u64 (t + x))
  end.

Definition count_interval (per bytes : Z) (test : iperf_test) : option iperf_test :=
  let i := u64 (Test.bitrate_limit_last_interval_index test + 1) in
  let i := if per <=? i then 0 else i in
  if i <? Z.of_nat (length (Test.bitrate_limit_intervals_traffic_bytes test)) then
    Some (test <| Test.bitrate_limit_last_interval_index := i |>
               <| Test.bitrate_limit_intervals_traffic_bytes ::= fun l => <[Z.to_nat i := bytes]> l |>
               <| Test.bitrate_limit_stats_count ::= fun n => u64 (n + 1) |>)
  else None.

(** The average over the window in bits per second. *)
Definition window_rate (test : iperf_test) (total_bytes : Z) : option Z :=
  let seconds := dmul (Test.stats_interval test) (Z2d (Settings.bitrate_limit_stats_per_interval (Test.settings test))) in
  d2u64 (ddiv (Z2d (u64 (total_bytes * 8))) seconds).

(** Over the limit the test ends; the error is noted when verbose. *)
Definition exceed_limit (bits_per_second : Z) (test : iperf_test) : iperf_test :=
  let test := if nonzero (iperf_get_verbose test)
              then add_error ("Total throughput of " ++ dec bits_per_second ++ " bps exceeded " ++
                     dec (Settings.bitrate_limit (Test.settings test)) ++ " bps limit") test
              else test in
  test <| Test.bitrate_limit_exceeded := 1 |>.

Definition iperf_check_total_rate (last_interval_bytes_transferred : Z) (test : iperf_test) : option iperf_test :=
  if nonzero (Test.done test) || (Settings.bitrate_limit (Test.settings test) =? 0) then Some test
  else
    let per := Settings.bitrate_limit_stats_per_interval (Test.settings test) in
    test ← count_interval (u64 per) last_interval_bytes_transferred test;
    if Test.bitrate_limit_stats_count test <? u64 per then Some test
    else
      total_bytes ← sum_slots (Z.to_nat per) (Test.bitrate_limit_intervals_traffic_bytes test);
      bits_per_second ← window_rate test total_bytes;
      Some (if Settings.bitrate_limit (Test.settings test) <? bits_per_second
            then exceed_limit bits_per_second test else test).

(** ** The callback *)

Definition iperf_stats_callback : P unit :=
  let! test := get_test in
  let! is_tcp := match Test.streams test, Test.protocol test with
                 | [], _ => mret false
                 | _, Some p => mret (Protocol.id p =? Ptcp)
                 | _, None => mfail
                 end in
  let temp := Interval.zero <| Interval.omitted := Test.omitting test |> in
  let! (total, l) := do_os (close_intervals is_tcp temp 0 (Test.streams test)) in
  upd (fun t => t <| Test.streams := l |>) ;;
  if Ascii.eqb (Test.role test) "s" then try_upd (iperf_check_total_rate total) else mret tt.

(** ** Starting the clocks *)

(** The hook of the protocol does nothing for TCP and UDP. *)
Definition iperf_init_test : P Z :=
  let! test := get_test in
  match Test.protocol test with
  | None => mfail
  | Some _ =>
      let! r := do_os (sys Cclock_gettime) in
      if ret r =? 0 then
        let now := (iperf_time_now (Some (nth 0 (outs r) 0, nth 1 (outs r) 0)) (Time 0 0)).2 in
        upd (fun t => t <| Test.streams ::= map (fun sp => sp <| Stream.result ::= fun rp =>
          rp <| Result.start_time := now |> <| Result.start_time_fixed := now |> |>) |>) ;;
        iperf_on_test_start ;; mret 0
      else fail_with IEINITTEST ;; mret (-1)
  end.

(** ** Every byte falls into one interval *)

Lemma exceed_limit_is b t : exists x, exceed_limit b t = t <| Test.json_top := x |> <| Test.bitrate_limit_exceeded := 1 |>.
Proof.
  exists (Test.json_top (exceed_limit b t)). unfold exceed_limit, add_error. destruct t. cbn. by repeat destruct (nonzero _).
Qed.


(** What the thread of a stream does: data sent or received, a datagram counted. *)
Inductive work := Sent (r : Z) | Received (r : Z) | Packet (pcount : Z).
Definition add_received (r : Z) (rp : iperf_stream_result) : iperf_stream_result :=
  rp <| Result.bytes_received ::= fun b => u64 (b + r) |> <| Result.bytes_received_this_interval ::= fun b => u64 (b + r) |>.
Definition do_work (sp : iperf_stream) (w : work) : iperf_stream :=
  match w with
  | Sent r => sp <| Stream.result ::= add_sent r |>
  | Received r => sp <| Stream.result ::= add_received r |>
  | Packet pcount => Udp.count_packet pcount sp
  end.
Definition works (l : list work) (sp : iperf_stream) : iperf_stream := foldl do_work sp l.

(** The main thread reads the bytes, then how far the counters of packets have
    grown, then their values, and then clears the bytes; the stream may work in
    between.  The record with what each step reads. *)
Definition read_interval (is_tcp : bool) (now : iperf_time) (temp : iperf_interval_results) (sp sp1 sp2 : iperf_stream) : iperf_interval_results :=
  let last := close_interval is_tcp now temp sp2 in
  close_interval is_tcp now temp sp1
    <| Interval.bytes_transferred := Interval.bytes_transferred (close_interval is_tcp now temp sp) |>
    <| Interval.packet_count := Interval.packet_count last |> <| Interval.jitter := Interval.jitter last |>
    <| Interval.outoforder_packets := Interval.outoforder_packets last |> <| Interval.cnt_error := Interval.cnt_error last |>.

(** What happens to a stream: work, a tick of the statistics timer, with whatever
    the record holds from the stream before and what the thread does between the
    steps of the tick, and the end of the omitted time, with what it does
    between the reset of the totals and that of the current interval. *)
Inductive event :=
| Work (w : work)
| Tick (now : iperf_time) (temp : iperf_interval_results) (w1 w2 w3 : list work)
| Reset (retrans : bool) (now : iperf_time) (w : list work).
Definition tick_interval (is_tcp : bool) now temp w1 w2 (sp : iperf_stream) : iperf_interval_results :=
  read_interval is_tcp now temp sp (works w1 sp) (works w2 (works w1 sp)).
Definition clear_interval (sp : iperf_stream) : iperf_stream :=
  sp <| Stream.result ::= fun rp => rp <| Result.bytes_received_this_interval := 0 |> <| Result.bytes_sent_this_interval := 0 |> |>.
Definition on_event (is_tcp : bool) (sp : iperf_stream) (e : event) : iperf_stream :=
  match e with
  | Work w => do_work sp w
  | Tick now temp w1 w2 w3 => record_interval (tick_interval is_tcp now temp w1 w2 sp) (works w3 (works w2 (works w1 sp)))
  | Reset retrans now w => clear_interval (works w (reset_stream_stats retrans now sp))
  end.
Definition play (is_tcp : bool) (es : list event) (sp : iperf_stream) : iperf_stream := foldl (on_event is_tcp) sp es.

Definition sum (l : list Z) : Z := foldr Z.add 0 l.
(** The bytes of a stream in its direction: all since the last reset, and those
    of the current interval. *)
Definition moved (sp : iperf_stream) : Z :=
  let rp := Stream.result sp in
  if nonzero (Stream.sender sp) then Result.bytes_sent rp - Result.bytes_sent_omit rp else Result.bytes_received rp.
Definition moved_this_interval (sp : iperf_stream) : Z :=
  if nonzero (Stream.sender sp) then Result.bytes_sent_this_interval (Stream.result sp)
  else Result.bytes_received_this_interval (Stream.result sp).
(** The counters at the last tick. *)
Definition last_counter (f : iperf_interval_results -> Z) (sp : iperf_stream) : Z :=
  match list.last (Result.interval_results (Stream.result sp)) with Some i => f i | None => 0 end.
(** What work adds in the direction of the stream. *)
Definition gain (sender : bool) (l : list work) : Z :=
  sum (map (fun w => match w with Sent r => if sender then r else 0 | Received r => if sender then 0 else r | Packet _ => 0 end) l).

(** The intervals closed since the last reset, and the bytes since then that no
    interval has: those of the work during ticks and the reset. *)
Record ledger := Ledger { entries : list iperf_interval_results; slipped : Z }.
Fixpoint book (is_tcp : bool) (es : list event) (sp : iperf_stream) (b : ledger) : ledger :=
  match es with
  | [] => b
  | e :: es => book is_tcp es (on_event is_tcp sp e)
      match e with
      | Work _ => b
      | Tick now temp w1 w2 w3 =>
          Ledger (entries b ++ [tick_interval is_tcp now temp w1 w2 sp])%list (slipped b + gain (nonzero (Stream.sender sp)) (w1 ++ w2 ++ w3))
      | Reset _ _ w => Ledger [] (gain (nonzero (Stream.sender sp)) w)
      end
  end.
(** All intervals closed. *)
Fixpoint closed (is_tcp : bool) (es : list event) (sp : iperf_stream) : list iperf_interval_results :=
  match es with
  | [] => []
  | e :: es =>
      (match e with Tick now temp w1 w2 _ => [tick_interval is_tcp now temp w1 w2 sp] | _ => [] end ++
       closed is_tcp es (on_event is_tcp sp e))%list
  end.
(** Each interval starts where the one before it ends. *)
Fixpoint tiles (start : iperf_time) (l : list iperf_interval_results) : Prop :=
  match l with
  | [] => True
  | i :: l => Interval.interval_start_time i = start /\ tiles (Interval.interval_end_time i) l
  end.
Definition contiguous (l : list iperf_interval_results) : Prop :=
  match l with [] => True | i :: l => tiles (Interval.interval_end_time i) l end.

(** A counter of the stream, its value kept with an interval and its growth
    over the interval; the growth between the two readings of a tick is in no
    interval. *)
Record counter := Counter {
  now_of : iperf_stream -> Z; at_end : iperf_interval_results -> Z; growth : iperf_interval_results -> Z }.
Definition packets := Counter Stream.packet_count Interval.packet_count Interval.interval_packet_count.
Definition losses := Counter Stream.cnt_error Interval.cnt_error Interval.interval_cnt_error.
Definition reordered := Counter Stream.outoforder_packets Interval.outoforder_packets Interval.interval_outoforder_packets.
Fixpoint missed (c : counter) (es : list event) (sp : iperf_stream) : Z :=
  match es with
  | [] => 0
  | e :: es =>
      match e with Tick _ _ w1 w2 _ => now_of c (works w2 (works w1 sp)) - now_of c (works w1 sp) | _ => 0 end +
      missed c es (on_event false sp e)
  end.

(** What work leaves alone. *)
Definition settled (sp : iperf_stream) : Z * (list iperf_interval_results * (iperf_time * (iperf_time * Z))) :=
  let rp := Stream.result sp in
  (Stream.sender sp, (Result.interval_results rp, (Result.start_time rp, (Result.end_time rp, Result.bytes_sent_omit rp)))).
Lemma packet_settled p sp : settled (Udp.count_packet p sp) = settled sp /\ Stream.result (Udp.count_packet p sp) = Stream.result sp.
Proof. unfold Udp.count_packet. by repeat case_match. Qed.
Lemma work_settled w sp : settled (do_work sp w) = settled sp.
Proof. destruct w; try done. apply packet_settled. Qed.
Lemma works_settled l : forall sp, settled (works l sp) = settled sp.
Proof. induction l as [|w l IH]; intros sp; [done|]. change (works (w :: l) sp) with (works l (do_work sp w)). by rewrite IH, work_settled. Qed.
Lemma works_app l1 l2 sp : works (l1 ++ l2) sp = works l2 (works l1 sp).
Proof. apply foldl_app. Qed.
Lemma sum_app l k : sum (l ++ k) = sum l + sum k.
Proof. unfold sum. induction l as [|x l IH]; cbn; lia. Qed.
Lemma work_gain w sp : let s := nonzero (Stream.sender sp) in
  u64 (moved (do_work sp w)) = u64 (moved sp + gain s [w]) /\
  u64 (moved_this_interval (do_work sp w)) = u64 (moved_this_interval sp + gain s [w]).
Proof.
  cbv zeta. unfold moved, moved_this_interval, gain, sum.
  assert (Stream.sender (do_work sp w) = Stream.sender sp) as -> by exact (f_equal fst (work_settled w sp)).
  destruct w; cbn [do_work map foldr].
  - cbn. destruct (nonzero _); split; zlia.
  - cbn. destruct (nonzero _); split; zlia.
  - destruct (packet_settled pcount sp) as [_ ->]. destruct (nonzero _); split; f_equal; lia.
Qed.
Lemma works_gain l : forall sp, let s := nonzero (Stream.sender sp) in
  u64 (moved (works l sp)) = u64 (moved sp + gain s l) /\
  u64 (moved_this_interval (works l sp)) = u64 (moved_this_interval sp + gain s l).
Proof.
  induction l as [|w l IH]; intros sp s; [by rewrite !Z.add_0_r|].
  change (works (w :: l) sp) with (works l (do_work sp w)). destruct (IH (do_work sp w)) as [H1 H2]. destruct (work_gain w sp) as [G1 G2].
  assert (Hs : Stream.sender (do_work sp w) = Stream.sender sp) by exact (f_equal fst (work_settled w sp)).
  rewrite Hs in H1, H2. fold s in H1, H2, G1, G2.
  assert (gain s (w :: l) = gain s [w] + gain s l) as -> by (unfold gain, sum; cbn [map foldr]; lia). split; zlia.
Qed.

(** A tick that is not disturbed reads what [close_interval] does. *)
Lemma tick_undisturbed is_tcp now temp sp : tick_interval is_tcp now temp [] [] sp = close_interval is_tcp now temp sp.
Proof. unfold tick_interval, read_interval. cbn [works foldl]. by destruct (close_interval is_tcp now temp sp). Qed.
Lemma closed_bytes is_tcp now temp sp : Interval.bytes_transferred (close_interval is_tcp now temp sp) = moved_this_interval sp.
Proof. unfold close_interval. by destruct is_tcp. Qed.
Lemma recorded temp sp : moved (record_interval temp sp) = moved sp /\ moved_this_interval (record_interval temp sp) = 0 /\
  Stream.sender (record_interval temp sp) = Stream.sender sp.
Proof. unfold moved, moved_this_interval. cbn. by destruct (nonzero _). Qed.

Lemma cleared sp : moved_this_interval (clear_interval sp) = 0.
Proof. unfold moved_this_interval. cbn. by destruct (nonzero _). Qed.

(** The books are balanced: what has moved is in an interval, in the current one
    or has slipped. *)
Definition balanced (sp : iperf_stream) (b : ledger) : Prop :=
  u64 (sum (map Interval.bytes_transferred (entries b)) + moved_this_interval sp + slipped b) = u64 (moved sp).
Lemma book_balanced is_tcp es : forall sp b, balanced sp b -> balanced (play is_tcp es sp) (book is_tcp es sp b).
Proof.
  induction es as [|e es IH]; intros sp b Hb; [done|]. cbn [book]. change (play is_tcp (e :: es) sp) with (play is_tcp es (on_event is_tcp sp e)).
  apply IH. unfold balanced in *. destruct e as [w|now temp w1 w2 w3|retrans now w]; cbn [on_event entries slipped].
  - destruct (work_gain w sp) as [G1 G2]. zlia.
  - rewrite <-!works_app. destruct (works_gain (w1 ++ w2 ++ w3) sp) as [G _].
    destruct (recorded (tick_interval is_tcp now temp w1 w2 sp) (works (w1 ++ w2 ++ w3) sp)) as (-> & -> & _).
    rewrite map_app, sum_app. unfold tick_interval, read_interval. cbn [map sum foldr].
    match goal with |- context[Interval.bytes_transferred ?i] => change (Interval.bytes_transferred i) with (Interval.bytes_transferred (close_interval is_tcp now temp sp)) end.
    rewrite closed_bytes. zlia.
  - set (sp0 := reset_stream_stats retrans now sp). destruct (works_gain w sp0) as [G _].
    assert (Hs : Stream.sender sp0 = Stream.sender sp) by done. rewrite Hs in G.
    assert (Hm : u64 (moved sp0) = u64 0) by (unfold moved, sp0; cbn; destruct (nonzero _); zlia).
    assert (moved (clear_interval (works w sp0)) = moved (works w sp0)) as -> by done.
    rewrite cleared.
    cbn [map sum foldr]. zlia.
Qed.

(** A counter between two ticks. *)
Lemma tick_growth c now temp w1 w2 sp : c = packets \/ c = losses \/ c = reordered ->
  let i := tick_interval false now temp w1 w2 sp in
  at_end c i = now_of c (works w2 (works w1 sp)) /\
  i64 (growth c i) = i64 (now_of c (works w1 sp) - last_counter (at_end c) sp).
Proof.
  intros Hc. unfold tick_interval, read_interval, close_interval, last_counter. set (sp1 := works w1 sp). set (sp2 := works w2 sp1).
  assert (H1 : Result.interval_results (Stream.result sp1) = Result.interval_results (Stream.result sp)) by exact (f_equal (fun x => x.2.1) (works_settled w1 sp)).
  rewrite H1. destruct (list.last (Result.interval_results (Stream.result sp))) as [irp|];
    destruct Hc as [-> |[-> | ->]]; (split; [done|]); cbn [growth now_of at_end packets losses reordered];
    cbn -[sp1 sp2]; rewrite ?Z.sub_0_r; zlia.
Qed.
Lemma event_last is_tcp e sp : Result.interval_results (Stream.result (on_event is_tcp sp e)) =
  match e with
  | Tick now temp w1 w2 _ => (removelast (Result.interval_results (Stream.result sp)) ++ [tick_interval is_tcp now temp w1 w2 sp])%list
  | _ => Result.interval_results (Stream.result sp)
  end.
Proof.
  destruct e as [w|now temp w1 w2 w3|retrans now w]; cbn [on_event].
  - exact (f_equal (fun x => x.2.1) (work_settled w sp)).
  - rewrite <-!works_app. unfold record_interval, add_to_interval_list. cbn -[works tick_interval removelast].
    by rewrite (f_equal (fun x => x.2.1) (works_settled (w1 ++ w2 ++ w3) sp) : Result.interval_results _ = _).
  - exact (f_equal (fun x => x.2.1) (works_settled w (reset_stream_stats retrans now sp))).
Qed.
Lemma closed_counter c es : c = packets \/ c = losses \/ c = reordered -> forall sp,
  i64 (sum (map (growth c) (closed false es sp)) + missed c es sp) =
  i64 (last_counter (at_end c) (play false es sp) - last_counter (at_end c) sp).
Proof.
  intros Hc. induction es as [|e es IH]; intros sp; [cbn; by rewrite Z.sub_diag|].
  change (play false (e :: es) sp) with (play false es (on_event false sp e)). specialize (IH (on_event false sp e)).
  cbn [closed missed]. rewrite map_app, sum_app.
  assert (Hl : last_counter (at_end c) (on_event false sp e) =
    match e with Tick now temp w1 w2 _ => now_of c (works w2 (works w1 sp)) | _ => last_counter (at_end c) sp end).
  { unfold last_counter. rewrite event_last. destruct e as [w|now temp w1 w2 w3|retrans now w]; [done| |done].
    rewrite last_snoc. by apply tick_growth. }
  rewrite Hl in IH. destruct e as [w|now temp w1 w2 w3|retrans now w]; [exact IH| |exact IH].
  destruct (tick_growth c now temp w1 w2 sp Hc) as [_ Hg]. cbn [map sum foldr]. zlia.
Qed.

(** The end of the last interval. *)
Definition interval_start (sp : iperf_stream) : iperf_time :=
  match list.last (Result.interval_results (Stream.result sp)) with
  | Some _ => Result.end_time (Stream.result sp) | None => Result.start_time (Stream.result sp)
  end.
Lemma tick_times is_tcp now temp w1 w2 sp :
  Interval.interval_start_time (tick_interval is_tcp now temp w1 w2 sp) = interval_start sp /\
  Interval.interval_end_time (tick_interval is_tcp now temp w1 w2 sp) = now.
Proof.
  pose proof (works_settled w1 sp) as H. unfold tick_interval, read_interval, close_interval, interval_start, settled in *.
  injection H as _ H1 H2 H3 _. rewrite H1, H2, H3. by destruct is_tcp.
Qed.
Lemma closed_tiles is_tcp es : forall sp, list.last (Result.interval_results (Stream.result sp)) <> None ->
  tiles (Result.end_time (Stream.result sp)) (closed is_tcp es sp).
Proof.
  induction es as [|e es IH]; intros sp Hs; [done|]. specialize (IH (on_event is_tcp sp e)). rewrite event_last in IH. cbn [closed].
  destruct e as [w|now temp w1 w2 w3|retrans now w]; cbn [app].
  - assert (Result.end_time (Stream.result (on_event is_tcp sp (Work w))) = Result.end_time (Stream.result sp)) as <-; [|by apply IH].
    exact (f_equal (fun x => x.2.2.2.1) (work_settled w sp)).
  - cbn [tiles]. destruct (tick_times is_tcp now temp w1 w2 sp) as [-> He]. split.
    + unfold interval_start. destruct (list.last (Result.interval_results (Stream.result sp))); [done|by destruct Hs].
    + apply IH. by rewrite last_snoc.
  - assert (Result.end_time (Stream.result (on_event is_tcp sp (Reset retrans now w))) = Result.end_time (Stream.result sp)) as <-; [|by apply IH].
    exact (f_equal (fun x => x.2.2.2.1) (works_settled w (reset_stream_stats retrans now sp))).
Qed.
Lemma closed_contiguous is_tcp es : forall sp, contiguous (closed is_tcp es sp).
Proof.
  induction es as [|e es IH]; intros sp; [done|]. cbn [closed]. destruct e as [w|now temp w1 w2 w3|retrans now w]; [apply IH| |apply IH].
  cbn [app contiguous]. pose proof (closed_tiles is_tcp es (on_event is_tcp sp (Tick now temp w1 w2 w3))) as H.
  rewrite event_last, last_snoc in H. exact (H ltac:(done)).
Qed.

(** All intervals, those since the last reset being the last of them. *)
Lemma book_closed is_tcp es : forall sp, exists before, closed is_tcp es sp = (before ++ entries (book is_tcp es sp (Ledger [] 0)))%list.
Proof.
  assert (H : forall es sp b, exists before, (entries b ++ closed is_tcp es sp)%list = (before ++ entries (book is_tcp es sp b))%list).
  { clear es. induction es as [|e es IH]; intros sp b; cbn [closed book].
    - exists []. by rewrite app_nil_r.
    - destruct e as [w|now temp w1 w2 w3|retrans now w]; cbn [app].
      + apply IH.
      + match goal with |- context[book _ _ ?s ?x] => destruct (IH s x) as [before E] end. exists before. rewrite <-E. cbn. by rewrite <-app_assoc.
      + match goal with |- context[book _ _ ?s ?x] => destruct (IH s x) as [before E] end. exists (entries b ++ before)%list.
        rewrite <-app_assoc, <-E. done. }
  intros sp. exact (H es sp (Ledger [] 0)).
Qed.
(** No work during a tick or a reset. *)
Definition at_rest (e : event) : Prop :=
  match e with Work _ => True | Tick _ _ w1 w2 w3 => w1 = [] /\ w2 = [] /\ w3 = [] | Reset _ _ w => w = [] end.
Lemma rest_slips is_tcp es : Forall at_rest es -> forall sp b, slipped b = 0 -> slipped (book is_tcp es sp b) = 0.
Proof.
  induction 1 as [|e es He _ IH]; intros sp b Hb; [done|]. cbn [book]. apply IH.
  destruct e as [w|now temp w1 w2 w3|retrans now w]; [done| |]; cbn in He.
  - destruct He as (-> & -> & ->). cbn. by rewrite Hb.
  - by rewrite He.
Qed.
Lemma rest_misses c es : Forall at_rest es -> forall sp, missed c es sp = 0.
Proof.
  induction 1 as [|e es He _ IH]; intros sp; [done|]. cbn [missed]. rewrite IH.
  destruct e as [w|now temp w1 w2 w3|retrans now w]; [done| |done]. destruct He as (-> & -> & _). cbn. lia.
Qed.

(** C27. The intervals account for everything.  Whatever a stream sends and
    receives, before, between and during whatever ticks of the statistics timer
    and ends of the omitted time: the bytes of the intervals since the last
    reset, those of the current interval and those counted while a tick or the
    reset was under way, which no interval has, add up to the bytes moved since
    the reset; each interval starts where the one before it ends; and on a UDP
    stream the packets, losses and reorderings of all intervals, with those
    counted between the two readings of a tick, add up to the counters at the
    last tick.  Nothing is missing when no work falls into a tick. *)
Theorem intervals_account (is_tcp : bool) (es : list event) (sp : iperf_stream) :
  Result.interval_results (Stream.result sp) = [] -> u64 (moved sp) = u64 (moved_this_interval sp) ->
  let sp' := play is_tcp es sp in
  let l := closed is_tcp es sp in
  let b := book is_tcp es sp (Ledger [] 0) in
  u64 (sum (map Interval.bytes_transferred (entries b)) + moved_this_interval sp' + slipped b) = u64 (moved sp') /\
  (exists before, l = before ++ entries b)%list /\ contiguous l /\
  (is_tcp = false ->
   i64 (sum (map Interval.interval_packet_count l) + missed packets es sp) = i64 (last_counter Interval.packet_count sp') /\
   i64 (sum (map Interval.interval_cnt_error l) + missed losses es sp) = i64 (last_counter Interval.cnt_error sp') /\
   i64 (sum (map Interval.interval_outoforder_packets l) + missed reordered es sp) = i64 (last_counter Interval.outoforder_packets sp')) /\
  (Forall at_rest es -> slipped b = 0 /\ forall c, missed c es sp = 0).
Proof.
  intros Hfresh Hm. cbv zeta. assert (H0 : forall f, last_counter f sp = 0) by (intros f; unfold last_counter; by rewrite Hfresh).
  split_and!.
  - apply book_balanced. unfold balanced. cbn. rewrite Z.add_0_r. by rewrite Hm.
  - apply book_closed.
  - apply closed_contiguous.
  - intros ->. pose proof (closed_counter packets es ltac:(auto) sp) as H1. pose proof (closed_counter losses es ltac:(auto) sp) as H2.
    pose proof (closed_counter reordered es ltac:(auto) sp) as H3. rewrite H0, Z.sub_0_r in H1, H2, H3. done.
  - intros Hr. split; [by apply rest_slips|]. intros c. by apply rest_misses.
Qed.
(** A datagram comes in while the first tick is under way, and the omitted time
    ends after the second. *)
Definition receiving : list event :=
  [Work (Received 16); Work (Packet 1); Tick (Time 11 0) Interval.zero [Received 16] [Packet 2] []; Work (Received 16); Work (Packet 5);
   Work (Received 16); Work (Packet 4); Tick (Time 12 0) Interval.zero [] [] []; Reset false (Time 12 0) [];
   Work (Received 16); Work (Packet 6); Tick (Time 13 0) Interval.zero [] [] []; Work (Received 16); Work (Packet 7)].
Lemma intervals_account_witness :
  let sp' := play false receiving Stream.zero in
  let l := closed false receiving Stream.zero in
  let b := book false receiving Stream.zero (Ledger [] 0) in
  (map Interval.bytes_transferred l = [16; 32; 16] /\ map Interval.interval_packet_count l = [1; 3; 1] /\ missed packets receiving Stream.zero = 1 /\
   entries b = drop 2 l) /\
  u64 (sum (map Interval.bytes_transferred (entries b)) + moved_this_interval sp' + slipped b) = u64 (moved sp') /\
  (exists before, l = before ++ entries b)%list /\ contiguous l /\
  (false = false ->
   i64 (sum (map Interval.interval_packet_count l) + missed packets receiving Stream.zero) = i64 (last_counter Interval.packet_count sp') /\
   i64 (sum (map Interval.interval_cnt_error l) + missed losses receiving Stream.zero) = i64 (last_counter Interval.cnt_error sp') /\
   i64 (sum (map Interval.interval_outoforder_packets l) + missed reordered receiving Stream.zero) = i64 (last_counter Interval.outoforder_packets sp')) /\
  (Forall at_rest receiving -> slipped b = 0 /\ forall c, missed c receiving Stream.zero = 0).
Proof.
  split; [vm_compute; done|]. apply (intervals_account false receiving Stream.zero); reflexivity.
Defined.

(** The counters of the interval are read and cleared in two steps, and the
    thread of the stream may count between them: those bytes are in no
    interval. *)
Lemma bytes_between_read_and_clear (is_tcp : bool) (now : iperf_time) (temp : iperf_interval_results) (sp : iperf_stream) (r : Z) :
  nonzero (Stream.sender sp) = true ->
  let sp' := on_event is_tcp sp (Tick now temp [Sent r] [] []) in
  Interval.bytes_transferred (tick_interval is_tcp now temp [Sent r] [] sp) = moved_this_interval sp /\
  moved_this_interval sp' = 0 /\ u64 (moved sp') = u64 (moved sp + r).
Proof.
  intros Hs. cbn [on_event]. split; [exact (closed_bytes is_tcp now temp sp)|].
  destruct (recorded (tick_interval is_tcp now temp [Sent r] [] sp) (works [] (works [] (works [Sent r] sp)))) as (-> & -> & _).
  split; [done|]. destruct (works_gain [Sent r] sp) as [G _]. rewrite Hs in G. cbn [works foldl] in *. rewrite G. unfold gain. cbn. f_equal. lia.
Qed.

(** ** The callback closes one interval of every stream *)

Definition this_interval (sp : iperf_stream) : Z :=
  u64 (Result.bytes_sent_this_interval (Stream.result sp) + Result.bytes_received_this_interval (Stream.result sp)).
Definition ticked (is_tcp : bool) (sp sp' : iperf_stream) : Prop :=
  exists now temp, sp' = record_interval (close_interval is_tcp now temp sp) sp.

Lemma close_intervals_ticks is_tcp l : forall temp total w total' l' w',
  close_intervals is_tcp temp total l w = Some ((total', l'), w') ->
  Forall2 (ticked is_tcp) l l' /\ u64 total' = u64 (total + sum (map this_interval l)) /\ (in_u64 total -> in_u64 total').
Proof.
  induction l as [|sp l IH]; intros temp total w total' l' w' H; cbn [close_intervals] in H.
  - injection H as -> <- _. cbn. rewrite Z.add_0_r. done.
  - apply mbnd_inv in H as (now & w1 & _ & H). apply mbnd_inv in H as ([t2 l2] & w2 & H2 & H).
    injection H as <- <- _. apply IH in H2 as (Hl & Ht & Hr). split_and!.
    + constructor; [by exists now, temp|done].
    + rewrite Ht. cbn [map sum foldr]. fold (sum (map this_interval l)). unfold this_interval. zlia.
    + intros _. apply Hr, u64_range.
Qed.

(** The callback ticks every stream once and, on a server only, hands the
    bytes that all streams moved in the interval to the check of the limit. *)
Lemma iperf_stats_callback_ticks (s s' : prog) (p : Protocol.protocol) :
  Test.protocol (tst s) = Some p -> iperf_stats_callback s = Some (tt, s') ->
  Forall2 (ticked (Protocol.id p =? Ptcp)) (Test.streams (tst s)) (Test.streams (tst s')) /\
  (Test.role (tst s) <> "s"%char -> tst s' = tst s <| Test.streams := Test.streams (tst s') |>) /\
  (Test.role (tst s) = "s"%char ->
   iperf_check_total_rate (u64 (sum (map this_interval (Test.streams (tst s)))))
     (tst s <| Test.streams := Test.streams (tst s') |>) = Some (tst s')).
Proof.
  intros Hp H. unfold iperf_stats_callback in H. rewrite bind_get_test in H.
  apply mbnd_inv in H as (is_tcp & s1 & H1 & H). apply mbnd_inv in H as ([total l] & s2 & H2 & H).
  assert (Hs1 : s1 = s /\ Forall2 (ticked (Protocol.id p =? Ptcp)) (Test.streams (tst s)) l /\
    u64 total = u64 (sum (map this_interval (Test.streams (tst s)))) /\ u64 total = total).
  { rewrite Hp in H1. destruct (Test.streams (tst s)) as [|x xs]; injection H1 as <- <-;
      unfold do_os, lift in H2; destruct (close_intervals _ _ _ _ _) as [[[t0 l0] w]|] eqn:E; try done;
      injection H2 as <- <- _; apply close_intervals_ticks in E as (? & ? & Hr);
      (split_and!; [done|first [done|match goal with F : Forall2 _ [] _ |- _ => by inversion F end]|done|]); apply u64_id, Hr; zlia. }
  destruct Hs1 as (-> & Hl & Ht & Hrange). unfold do_os, lift in H2.
  destruct (close_intervals _ _ _ _ _) as [[[t0 l0] w]|] eqn:E; [|done]. injection H2 as -> -> <-.
  rewrite bind_upd in H. destruct (Ascii.eqb_spec (Test.role (tst s)) "s") as [Hr|Hr].
  - unfold try_upd in H. rewrite bind_get_test in H. apply mbnd_inv in H as (t' & s3 & H3 & H). injection H as <-.
    unfold mopt in H3. cbn [tst modify_field prog_eta eta_of] in H3.
    destruct (iperf_check_total_rate total _) as [t|] eqn:Ec; [|done]. injection H3 as -> <-.
    cbn [tst modify_field prog_eta eta_of].
    assert (Hs : Test.streams t' = l).
    { revert Ec. unfold iperf_check_total_rate. destruct (_ || _); [by intros [= <-]|].
      unfold count_interval. destruct (_ <? _); [|done]. cbn [mbind option_bind].
      destruct (_ <? _); [by intros [= <-]|]. destruct (sum_slots _ _); [|done]. cbn [mbind option_bind].
      destruct (window_rate _ _); [|done]. cbn [mbind option_bind]. destruct (_ <? _); [|by intros [= <-]].
      intros [= <-]. match goal with |- context[exceed_limit ?b ?t] => destruct (exceed_limit_is b t) as [x ->] end. done. }
    rewrite Hs. split_and!; [done|done|]. intros _. rewrite <-Ht, Hrange. exact Ec.
  - injection H as <-. split_and!; [done|done|done].
Qed.
Definition limited : iperf_test :=
  iperf_new_test <| Test.role := "s"%char |> <| Test.protocol := Some udp_protocol |> <| Test.stats_interval := Z2d 1 |>
    <| Test.settings ::= fun s => s <| Settings.bitrate_limit := 1000 |> <| Settings.bitrate_limit_stats_per_interval := 2 |> |>.
Definition counting : prog :=
  Prog (limited <| Test.streams := [play false receiving Stream.zero; Stream.zero] |>) (TS ∅ None None)
    (World [Reply 0 0 [] [20; 0]; Reply 0 0 [] [20; 0]] [] 0 0 0).
Lemma iperf_stats_callback_ticks_witness :
  exists s', iperf_stats_callback counting = Some (tt, s') /\
  Forall2 (ticked false) (Test.streams (tst counting)) (Test.streams (tst s')) /\
  (Test.role (tst counting) <> "s"%char -> tst s' = tst counting <| Test.streams := Test.streams (tst s') |>) /\
  (Test.role (tst counting) = "s"%char ->
   iperf_check_total_rate (u64 (sum (map this_interval (Test.streams (tst counting)))))
     (tst counting <| Test.streams := Test.streams (tst s') |>) = Some (tst s')).
Proof.
  eexists. split; [vm_compute; reflexivity|].
  apply (iperf_stats_callback_ticks counting _ udp_protocol); [reflexivity|vm_compute; reflexivity].
Defined.

(** ** The limit: a window over the whole history *)

(** What the check stands for: a monitor that remembers every interval and
    trips when the rate over the last [per] of them exceeds the limit. *)
Record monitor := Monitor { history : list Z; tripped : bool }.
Definition recent (per : Z) (l : list Z) : list Z := drop (length l - Z.to_nat per) l.
Definition observe (rate : Z -> option Z) (per limit bytes : Z) (m : monitor) : option monitor :=
  let h := (history m ++ [bytes])%list in
  if Z.of_nat (length h) <? per then Some (Monitor h (tripped m))
  else r ← rate (u64 (sum (recent per h))); Some (Monitor h (tripped m || (limit <? r))).
Fixpoint run_all {A} (step : Z -> A -> option A) (l : list Z) (a : A) : option A :=
  match l with [] => Some a | b :: l => a ← step b a; run_all step l a end.


Lemma sum_slots_some n l : (n <= length l)%nat -> exists s, sum_slots n l = Some (u64 s) .
Proof.
  induction n as [|n IH]; intros Hn; [exists 0; done|]. destruct IH as [s Hs]; [lia|].
  destruct (lookup_lt_is_Some_2 l n ltac:(lia)) as [x Hx]. cbn [sum_slots]. rewrite Hx, Hs. cbn. by eexists.
Qed.
Lemma sum_slots_set n l i old new s : sum_slots n l = Some (u64 s) -> l !! i = Some old -> (n <= length l)%nat ->
  sum_slots n (<[i := new]> l) = Some (u64 (if (i <? n)%nat then s - old + new else s)).
Proof.
  intros Hs Hi. revert s Hs. induction n as [|n IH]; intros s Hs Hn; [exact Hs|].
  cbn [sum_slots] in *. destruct (l !! n) as [x|] eqn:Hx; [|done].
  destruct (sum_slots_some n l ltac:(lia)) as [q Hq]. rewrite Hq in Hs. cbn in Hs. injection Hs as Hs.
  rewrite (IH q Hq ltac:(lia)). destruct (decide (i = n)) as [->|Hne].
  - rewrite list_lookup_insert_eq by lia. rewrite Hx in Hi. injection Hi as ->. cbn [mbind option_bind].
    destruct (Nat.ltb_spec n n); [lia|]. destruct (Nat.ltb_spec n (S n)); [|lia]. f_equal. zlia.
  - rewrite list_lookup_insert_ne, Hx by done. cbn [mbind option_bind]. f_equal.
    destruct (Nat.ltb_spec i n), (Nat.ltb_spec i (S n)); try lia; zlia.
Qed.

(** The ring buffer of the test holds the window of the monitor. *)
Record holds (per : Z) (t : iperf_test) (m : monitor) : Prop := {
  ring_index : Test.bitrate_limit_last_interval_index t = Z.of_nat (length (history m)) mod per;
  ring_count : Test.bitrate_limit_stats_count t = Z.of_nat (length (history m));
  ring_size : per <= Z.of_nat (length (Test.bitrate_limit_intervals_traffic_bytes t));
  ring_slots : forall k, Z.of_nat (length (history m)) - per < k <= Z.of_nat (length (history m)) ->
    Test.bitrate_limit_intervals_traffic_bytes t !! Z.to_nat (k mod per) =
      Some (if k <=? 0 then 0 else nth (Z.to_nat (k - 1)) (history m) 0);
  ring_sum : sum_slots (Z.to_nat per) (Test.bitrate_limit_intervals_traffic_bytes t) = Some (u64 (sum (recent per (history m))));
  ring_tripped : Test.bitrate_limit_exceeded t = if tripped m then 1 else 0 }.

(** The window moves on by one interval. *)
Lemma recent_step per h b : 0 < per ->
  sum (recent per (h ++ [b])) =
  sum (recent per h) + b - (if Z.of_nat (length h) <? per then 0 else nth (length h - Z.to_nat per) h 0).
Proof.
  intros Hper. unfold recent. rewrite length_app. cbn [length List.length].
  destruct (Z.ltb_spec (Z.of_nat (length h)) per).
  - replace (length h + 1 - Z.to_nat per)%nat with 0%nat by lia. replace (length h - Z.to_nat per)%nat with 0%nat by lia.
    rewrite !drop_0, sum_app. cbn. lia.
  - replace (length h + 1 - Z.to_nat per)%nat with (S (length h - Z.to_nat per)) by lia.
    assert (Hd : (length h - Z.to_nat per < length h)%nat) by lia. set (d := (length h - Z.to_nat per)%nat) in *.
    rewrite drop_app_le by lia. destruct (lookup_lt_is_Some_2 h d ltac:(lia)) as [x Hx].
    rewrite (drop_S h x d Hx), sum_app. rewrite (nth_lookup_Some h d 0 x Hx). unfold sum. cbn [foldr]. lia.
Qed.

(** A test that checks the limit, with a window of [per] intervals. *)
Record checking (per : Z) (t : iperf_test) : Prop := {
  check_on : Test.done t = 0;
  check_limit : Settings.bitrate_limit (Test.settings t) <> 0;
  check_per : Settings.bitrate_limit_stats_per_interval (Test.settings t) = per }.

Lemma count_interval_holds per t m b : 0 < per < 2 ^ 31 -> Z.of_nat (length (history m)) < 2 ^ 63 -> holds per t m ->
  exists t1, count_interval per b t = Some t1 /\ holds per t1 (Monitor (history m ++ [b]) (tripped m)) /\
    Test.settings t1 = Test.settings t /\ Test.done t1 = Test.done t /\ Test.stats_interval t1 = Test.stats_interval t.
Proof.
  intros Hper Hlen [Hi Hc Hsz Hsl Hsum Htr]. unfold count_interval. set (n := Z.of_nat (length (history m))) in *.
  rewrite Hi. set (i := if per <=? u64 (n mod per + 1) then 0 else u64 (n mod per + 1)).
  assert (Hi1 : i = (n + 1) mod per).
  { unfold i. assert (0 <= n mod per < per) by (apply Z.mod_pos_bound; lia). rewrite u64_id by zlia.
    destruct (Z.leb_spec per (n mod per + 1)) as [Hle|Hlt].
    - apply (Z.mod_unique_pos _ _ (n / per + 1)); [lia|]. pose proof (Z.div_mod n per). lia.
    - apply (Z.mod_unique_pos _ _ (n / per)); [lia|]. pose proof (Z.div_mod n per). lia. }
  assert (Hib : 0 <= i < per) by (rewrite Hi1; apply Z.mod_pos_bound; lia).
  destruct (Z.ltb_spec i (Z.of_nat (length (Test.bitrate_limit_intervals_traffic_bytes t)))); [|lia].
  eexists. split; [reflexivity|]. split; [|done].
  assert (Hn1 : Z.of_nat (length (history m ++ [b])) = n + 1) by (rewrite length_app; cbn; lia).
  assert (Hold : Test.bitrate_limit_intervals_traffic_bytes t !! Z.to_nat i =
    Some (if n <? per then 0 else nth (length (history m) - Z.to_nat per) (history m) 0)).
  { specialize (Hsl (n + 1 - per) ltac:(lia)).
    replace ((n + 1 - per) mod per) with i in Hsl.
    2:{ rewrite Hi1. replace (n + 1) with (n + 1 - per + 1 * per) at 1 by lia. by rewrite Z_mod_plus_full. }
    rewrite Hsl. f_equal. destruct (Z.leb_spec (n + 1 - per) 0), (Z.ltb_spec n per); try lia. f_equal. lia. }
  split; cbn [history tripped Test.bitrate_limit_last_interval_index Test.bitrate_limit_stats_count
    Test.bitrate_limit_intervals_traffic_bytes Test.bitrate_limit_exceeded modify_field Test.eta eta_of].
  - by rewrite Hn1, <-Hi1.
  - rewrite Hn1, Hc, u64_id by zlia. done.
  - rewrite length_insert. exact Hsz.
  - rewrite Hn1. intros k Hk. destruct (decide (k = n + 1)) as [->|Hne].
    + rewrite <-Hi1, list_lookup_insert_eq by lia. f_equal. destruct (Z.leb_spec (n + 1) 0); [lia|].
      rewrite app_nth2 by lia. replace (Z.to_nat (n + 1 - 1) - length (history m))%nat with 0%nat by lia. done.
    + assert (Hkm : k mod per <> i).
      { rewrite Hi1. intros E. assert (Hd : ((n + 1) - k) mod per = 0) by (rewrite Zminus_mod, E, Z.sub_diag; apply Zmod_0_l).
        rewrite Z.mod_small in Hd by lia. lia. }
      assert (0 <= k mod per) by (apply Z.mod_pos_bound; lia).
      rewrite list_lookup_insert_ne by lia. rewrite Hsl by lia. f_equal. destruct (Z.leb_spec k 0); [done|].
      rewrite app_nth1 by lia. done.
  - rewrite (sum_slots_set _ _ _ _ b _ Hsum Hold) by lia. do 2 f_equal.
    destruct (Nat.ltb_spec (Z.to_nat i) (Z.to_nat per)); [|lia]. rewrite recent_step by lia. fold n. lia.
  - exact Htr.
Qed.

(** One interval: the check and the monitor go on together. *)
Lemma check_refines per t m b : 0 < per < 2 ^ 31 -> checking per t -> Z.of_nat (length (history m)) < 2 ^ 63 -> holds per t m ->
  match iperf_check_total_rate b t, observe (window_rate t) per (Settings.bitrate_limit (Test.settings t)) b m with
  | Some t', Some m' => holds per t' m' /\ Test.settings t' = Test.settings t /\ Test.done t' = Test.done t /\
      Test.stats_interval t' = Test.stats_interval t /\ history m' = (history m ++ [b])%list
  | None, None => True
  | _, _ => False
  end.
Proof.
  intros Hper [Hd Hl Hp] Hlen Hh. destruct (count_interval_holds per t m b Hper Hlen Hh) as (t1 & Hc & H1 & Hset & Hdone & Hint).
  rewrite Hd in Hdone. unfold iperf_check_total_rate, observe. rewrite Hd. destruct (Z.eqb_spec (Settings.bitrate_limit (Test.settings t)) 0); [done|].
  cbn [nonzero Z.eqb negb orb]. rewrite Hp, u64_id, Hc by zlia. cbn [mbind option_bind]. rewrite (ring_count _ _ _ H1).
  cbn [history]. destruct (_ <? per); [done|].
  rewrite (ring_sum _ _ _ H1). cbn [mbind option_bind history].
  replace (window_rate t1) with (window_rate t) by (unfold window_rate; by rewrite Hset, Hint).
  destruct (window_rate t _) as [r|]; [|done]. cbn [mbind option_bind]. rewrite Hset.
  destruct (Settings.bitrate_limit (Test.settings t) <? r).
  - rewrite orb_true_r. destruct (exceed_limit_is r t1) as [x ->]. split_and!; try done. destruct H1. by split.
  - rewrite orb_false_r. done.
Qed.

Lemma sum_slots_zeros n k : (n <= k)%nat -> sum_slots n (replicate k 0) = Some 0.
Proof.
  induction n as [|n IH]; intros Hle; [done|]. cbn [sum_slots]. rewrite lookup_replicate_2, IH by lia. done.
Qed.

(** C26. The server's limit is kept by a ring of interval totals.  Started
    empty, with a window of at most the 60 slots of the ring, the check of every
    interval in turn does what a monitor with the whole history does: it trips
    exactly when the rate over the last [per] intervals exceeds the limit, and
    it never reads or writes outside the ring. *)
Theorem total_rate_refines_monitor (per : Z) (t : iperf_test) (l : list Z) :
  checking per t -> 0 < per <= 60 -> Z.of_nat (length l) < 2 ^ 63 ->
  Test.bitrate_limit_last_interval_index t = 0 -> Test.bitrate_limit_stats_count t = 0 ->
  Test.bitrate_limit_intervals_traffic_bytes t = replicate 60 0 -> Test.bitrate_limit_exceeded t = 0 ->
  match run_all iperf_check_total_rate l t,
        run_all (observe (window_rate t) per (Settings.bitrate_limit (Test.settings t))) l (Monitor [] false) with
  | Some t', Some m => Test.bitrate_limit_exceeded t' = (if tripped m then 1 else 0) /\ history m = l
  | None, None => True
  | _, _ => False
  end.
Proof.
  intros Hc Hper Hlen Hi Hn Hb He.
  assert (H0 : holds per t (Monitor [] false)).
  { split; rewrite ?Hi, ?Hn, ?Hb, ?He; cbn [history tripped length List.length]; try done.
    - rewrite length_replicate. lia.
    - intros k Hk. destruct (Z.leb_spec k 0); [|lia]. apply lookup_replicate. split; [done|].
      assert (0 <= k mod per < per) by (apply Z.mod_pos_bound; lia). lia.
    - change (recent per []) with (drop (0 - Z.to_nat per) (@nil Z)). rewrite drop_nil. cbn [sum foldr].
      apply sum_slots_zeros. lia. }
  assert (Hgen : forall l t m, checking per t -> Z.of_nat (length (history m) + length l) < 2 ^ 63 -> holds per t m ->
    match run_all iperf_check_total_rate l t, run_all (observe (window_rate t) per (Settings.bitrate_limit (Test.settings t))) l m with
    | Some t', Some m' => Test.bitrate_limit_exceeded t' = (if tripped m' then 1 else 0) /\ history m' = (history m ++ l)%list
    | None, None => True | _, _ => False end).
  { clear -Hper. induction l as [|b l IH]; intros t m Hc Hlen Hh; cbn [run_all].
    { split; [apply Hh|by rewrite app_nil_r]. }
    cbn [length List.length] in Hlen. pose proof (check_refines per t m b ltac:(lia) Hc ltac:(lia) Hh) as Hstep.
    destruct (iperf_check_total_rate b t) as [t1|], (observe _ _ _ b m) as [m1|]; try done. cbn [mbind option_bind].
    destruct Hstep as (Hh1 & Hset & Hdone & Hint & Hhist).
    specialize (IH t1 m1). replace (window_rate t1) with (window_rate t) in IH by (unfold window_rate; by rewrite Hset, Hint).
    rewrite Hset in IH. assert (Hc1 : checking per t1) by (destruct Hc; split; by rewrite ?Hset, ?Hdone).
    specialize (IH Hc1). rewrite Hhist, length_app in IH. specialize (IH ltac:(cbn; lia) Hh1).
    destruct (run_all _ l t1), (run_all _ l m1); try done. by rewrite <-app_assoc in IH. }
  by apply (Hgen l t (Monitor [] false)).
Qed.
Lemma total_rate_refines_monitor_witness :
  match run_all iperf_check_total_rate [10; 90; 200; 0; 0] limited,
        run_all (observe (window_rate limited) 2 1000) [10; 90; 200; 0; 0] (Monitor [] false) with
  | Some t', Some m => Test.bitrate_limit_exceeded t' = (if tripped m then 1 else 0) /\ history m = [10; 90; 200; 0; 0]
  | None, None => True
  | _, _ => False
  end.
Proof.
  apply (total_rate_refines_monitor 2 limited [10; 90; 200; 0; 0]); try reflexivity; [|lia].
  split; [reflexivity|vm_compute; discriminate|reflexivity].
Defined.

(** A window longer than the ring runs off its end: an interval of 60 seconds
    with statistics every half second asks for 120 slots. *)
Lemma total_rate_overruns :
  run_all iperf_check_total_rate (replicate 60 0)
    (limited <| Test.settings ::= fun s => s <| Settings.bitrate_limit_stats_per_interval := 120 |> |>) = None.
Proof. vm_compute. reflexivity. Qed.
