(* ===== verification/Sockets.v ===== *)
(** * Data sockets: the connect, listen and accept functions of iperf_tcp.c and iperf_udp.c

    TCP streams are told apart by the cookie that the client sends first; UDP
    streams simulate a connection by an exchange of datagrams.  The functions
    run on the system; those that change the test or note something in its
    report return it.  Warnings and debug output are left out, and so is socket
    pacing, which the configuration does not have.  A null host name, which
    option parsing excludes on a client, is undefined. *)
From Stdlib Require Import Ascii String.
From stdpp Require Import strings.
From S2P Require Import Prelude Double IperfTime Timer Text Cjson Iperf Error Sys Net Json Util Api Params.
#[local] Open Scope Z_scope.

Definition IPPROTO_IP := 0.
Definition IPPROTO_TCP := 6.
Definition TCP_NODELAY := 1.
Definition TCP_MAXSEG := 2.
Definition SO_SNDBUF := 0x1001.
Definition SO_RCVBUF := 0x1002.
Definition SO_RCVTIMEO := 0x1006.
Definition IP_TOS := 3.
Definition IPV6_TCLASS := 36.
Definition IP_DONTFRAG := 28.

(** Failing with an error number; with the socket closed first. *)
Definition fail_as (e : iperf_error) : M world Z := set_i_errno e ;; mret (-1).
Definition fail_closing (s : fd) (e : iperf_error) : M world Z := close_keeping_errno s ;; fail_as e.

(** [setsockopt] with a branch for failure, and only if the value is not zero. *)
Definition set_option {A} (s : fd) (lvl opt v : Z) (fail k : M world A) : M world A :=
  let! r := sys (Csetsockopt s lvl opt v) in if ret r <? 0 then fail else k.
Definition set_option_if {A} (s : fd) (lvl opt v : Z) (fail k : M world A) : M world A :=
  if v =? 0 then k else set_option s lvl opt v fail k.
(** [getsockopt] of a buffer size. *)
Definition read_option {A} (s : fd) (opt : Z) (fail : M world A) (k : Z -> M world A) : M world A :=
  let! r := sys (Cgetsockopt s SOL_SOCKET opt) in if ret r <? 0 then fail else k (nth 0 (outs r) 0).

Definition bufsize (test : iperf_test) : Z := Settings.socket_bufsize (Test.settings test).
(** The size asked for is more than the system gave. *)
Definition too_small (test : iperf_test) (actual : Z) : bool := nonzero (bufsize test) && (actual <? bufsize test).

Definition iperf_common_sockopts (test : iperf_test) (s : fd) : M world Z :=
  let opt := Settings.tos (Test.settings test) in
  if opt =? 0 then mret 0
  else
    let! domain := getsockdomain s in
    if domain =? AF_INET6 then
      set_option s IPPROTO_IPV6 IPV6_TCLASS opt (fail_as IESETCOS)
        (if nonzero (Test.mapped_v4 test) then sys (Csetsockopt s IPPROTO_IP IP_TOS opt) ;; mret 0 else mret 0)
    else set_option s IPPROTO_IP IP_TOS opt (fail_as IESETTOS) (mret 0).

(** ** TCP *)

(** What the peer sent, as a C string. *)
Definition received_cookie (bytes : list Z) : string := c_string (string_of bytes).

(** The cookie array as it is sent. *)
Definition cookie_bytes (cookie : string) : list Z := take (Z.to_nat COOKIE_SIZE) (bytes_of cookie ++ replicate (Z.to_nat COOKIE_SIZE) 0).

(** A stream with a wrong cookie is turned away and its socket closed, but
    the descriptor is returned all the same. *)
Definition iperf_tcp_accept (test : iperf_test) : M world Z :=
  let! r := sys (Caccept (Test.listener test)) in
  let s := ret r in
  if s <? 0 then fail_as IESTREAMCONNECT
  else
    let! (n, bytes) := Nread s COOKIE_SIZE Ptcp in
    if n <? 0 then set_i_errno IERECVCOOKIE ;; sys (Cclose s) ;; mret (-1)
    else if negb (String.eqb (c_string (Test.cookie test)) (received_cookie bytes)) then
      Nwrite s [u8 ACCESS_DENIED] Ptcp ;; sys (Cclose s) ;; mret s
    else mret s.

(** The functions that note something in the JSON report return the test. *)
Definition with_test (test : iperf_test) (m : M world Z) : M world (Z * iperf_test) := let! r := m in mret (r, test).

(** The sizes of the buffers in the report of a server, and of a client, which
    notes those of its first stream; the list of connections, which the start
    of the report holds besides, has another name. *)
Definition note_size (name : string) (v : Z) : iperf_test -> iperf_test := add_start name (cJSON_CreateNumber (Z2d v)).
Definition note_new_size (name : string) (v : Z) (t : iperf_test) : iperf_test :=
  match cJSON_GetObjectItem (cJSON_Object (members (Test.json_start t))) name with None => note_size name v t | Some _ => t end.
Definition note_sizes (note : string -> Z -> iperf_test -> iperf_test) (sndbuf_actual rcvbuf_actual : Z) (test : iperf_test) : iperf_test :=
  if nonzero (Test.json_output test) then
    note "rcvbuf_actual"%string rcvbuf_actual (note "sndbuf_actual"%string sndbuf_actual (note "sock_bufsize"%string (bufsize test) test))
  else test.

(** Reading back the sizes of the socket's buffers. *)
Definition verify_buffers (test : iperf_test) (s : fd) : M world (Z * iperf_test) :=
  read_option s SO_SNDBUF (with_test test (fail_closing s IESETBUF)) (fun sndbuf_actual =>
  if too_small test sndbuf_actual then with_test test (set_i_errno IESETBUF2 ;; sys (Cclose s) ;; mret (-1))
  else read_option s SO_RCVBUF (with_test test (fail_closing s IESETBUF)) (fun rcvbuf_actual =>
  if too_small test rcvbuf_actual then with_test test (set_i_errno IESETBUF2 ;; sys (Cclose s) ;; mret (-1))
  else mret (s, note_sizes note_size sndbuf_actual rcvbuf_actual test))).

(** The options that a stream socket gets before it is used. *)
Definition stream_options {A} (test : iperf_test) (s : fd) (fail : iperf_error -> M world A) (k : M world A) : M world A :=
  let st := Test.settings test in
  set_option_if s IPPROTO_TCP TCP_NODELAY (if nonzero (Test.no_delay test) then 1 else 0) (fail IESETNODELAY)
  (set_option_if s IPPROTO_TCP TCP_MAXSEG (Settings.mss st) (fail IESETMSS)
  (set_option_if s SOL_SOCKET SO_RCVBUF (Settings.socket_bufsize st) (fail IESETBUF)
  (set_option_if s SOL_SOCKET SO_SNDBUF (Settings.socket_bufsize st) (fail IESETBUF) k))).

(** [getaddrinfo] and [socket]: the family and the socket go to [k]. *)
Definition open_socket (name : option string) (port type : Z) (e : iperf_error) (k : Z -> fd -> M world Z) : M world Z :=
  let! family := getaddrinfo name (Some port) in
  match family with
  | None => fail_as e
  | Some ai_family =>
      let! r := sys (Csocket ai_family type 0) in if ret r <? 0 then fail_as e else k ai_family (ret r)
  end.
(** Only the failure of [listen] closes without keeping [errno]. *)
Definition bind_and_listen (s : fd) : M world Z :=
  let! b := sys (Cbind s) in
  if ret b <? 0 then fail_closing s IESTREAMLISTEN
  else
    let! l := sys (Clisten s INT_MAX) in
    if ret l <? 0 then set_i_errno IESTREAMLISTEN ;; sys (Cclose s) ;; mret (-1) else mret s.
(** The new listening socket. *)
Definition tcp_relisten (test : iperf_test) : M world Z :=
  let domain := Settings.domain (Test.settings test) in
  open_socket (Test.bind_address test) (Test.server_port test) SOCK_STREAM IESTREAMLISTEN (fun ai_family s =>
    stream_options test s (fail_closing s)
    (set_option s SOL_SOCKET SO_REUSEADDR 1 (fail_closing s IEREUSEADDR)
     (if (ai_family =? AF_INET6) && ((domain =? AF_UNSPEC) || (domain =? AF_INET))
      then set_option s IPPROTO_IPV6 IPV6_V6ONLY (if domain =? AF_UNSPEC then 0 else 1) (fail_closing s IEV6ONLY) (bind_and_listen s)
      else bind_and_listen s))).

(** The listener is made again when parameters of the test concern it. *)
Definition iperf_tcp_listen (test : iperf_test) : M world (Z * iperf_test) :=
  let s := Test.listener test in
  let st := Test.settings test in
  if nonzero (Test.no_delay test) || nonzero (Test.mptcp test) || nonzero (Settings.mss st) || nonzero (Settings.socket_bufsize st) then
    let test := test <| Test.read_set ::= fun rs => rs ∖ {[s]} |> in
    sys (Cclose s) ;;
    let! s := tcp_relisten test in
    if s <? 0 then mret (-1, test)
    else verify_buffers (test <| Test.listener := s |>) s
  else verify_buffers test s.

(** A failure closes the socket. *)
Definition iperf_tcp_connect (test : iperf_test) : M world (Z * iperf_test) :=
  match Test.server_hostname test with
  | None => mfail
  | Some host =>
      let! s := create_socket (Settings.domain (Test.settings test)) SOCK_STREAM 0 (Test.bind_address test)
                  (Test.bind_dev test) (Test.bind_port test) host (Test.server_port test) in
      if s <? 0 then with_test test (fail_as IESTREAMCONNECT)
      else
        stream_options test s (fun e => with_test test (fail_closing s e))
        (read_option s SO_SNDBUF (with_test test (fail_closing s IESETBUF)) (fun sndbuf_actual =>
         if too_small test sndbuf_actual then with_test test (sys (Cclose s) ;; fail_as IESETBUF2)
         else read_option s SO_RCVBUF (with_test test (fail_closing s IESETBUF)) (fun rcvbuf_actual =>
         if too_small test rcvbuf_actual then with_test test (sys (Cclose s) ;; fail_as IESETBUF2)
         else
           let test := note_sizes note_new_size sndbuf_actual rcvbuf_actual test in
           iperf_common_sockopts test s ;;
           let! c := sys (Cconnect s) in
           let! e := get_errno in
           if (ret c <? 0) && negb (e =? EINPROGRESS) then with_test test (fail_closing s IESTREAMCONNECT)
           else
             let! n := Nwrite s (cookie_bytes (Test.cookie test)) Ptcp in
             if n <? 0 then with_test test (fail_closing s IESENDCOOKIE) else mret (s, test))))
  end.

(** ** UDP *)

(** An unsigned int in memory, least significant byte first. *)
Definition le32 (n : Z) : list Z := [n mod 2 ^ 8; n / 2 ^ 8 mod 2 ^ 8; n / 2 ^ 16 mod 2 ^ 8; n / 2 ^ 24 mod 2 ^ 8].
Definition of_le32 (l : list Z) : Z :=
  match l with [a; b; c; d] => a + b * 2 ^ 8 + c * 2 ^ 16 + d * 2 ^ 24 | _ => 0 end.

(** 0 if the buffers are set, 1 if they may be too small for a block. *)
Definition iperf_udp_buffercheck (test : iperf_test) (s : fd) : M world (Z * iperf_test) :=
  let blksize := Settings.blksize (Test.settings test) in
  let fail e := with_test test (fail_as e) in
  set_option_if s SOL_SOCKET SO_RCVBUF (bufsize test) (fail IESETBUF)
  (set_option_if s SOL_SOCKET SO_SNDBUF (bufsize test) (fail IESETBUF)
  (read_option s SO_SNDBUF (fail IESETBUF) (fun sndbuf_actual =>
   if too_small test sndbuf_actual then fail IESETBUF2
   else read_option s SO_RCVBUF (fail IESETBUF) (fun rcvbuf_actual =>
   if too_small test rcvbuf_actual then fail IESETBUF2
   else mret (if (sndbuf_actual <? blksize) || (rcvbuf_actual <? blksize) then 1 else 0,
              note_sizes note_new_size sndbuf_actual rcvbuf_actual test))))).

(** A default size that is too small is raised, once. *)
Definition check_and_grow (test : iperf_test) (s : fd) : M world (Z * iperf_test) :=
  let! (rc, test) := iperf_udp_buffercheck test s in
  if (0 <? rc) && (bufsize test =? 0) then
    iperf_udp_buffercheck (in_settings (fun st => st <| Settings.socket_bufsize := i32 (Settings.blksize st + UDP_BUFFER_EXTRA) |>) test) s
  else mret (rc, test).

Definition announce_udp (test : iperf_test) : M world Z :=
  netannounce (Settings.domain (Test.settings test)) Pudp (Test.bind_address test) (Test.bind_dev test) (Test.server_port test).

Definition iperf_udp_accept (test : iperf_test) : M world (Z * iperf_test) :=
  let s := Test.prot_listener test in
  let! r := sys (Crecvfrom s 4) in
  if ret r <? 0 then fail_as IESTREAMACCEPT ;; mret (-1, test)
  else
    let! c := sys (Cconnect s) in
    if ret c <? 0 then fail_as IESTREAMACCEPT ;; mret (-1, test)
    else
      let! (rc, test) := check_and_grow test s in
      if rc <? 0 then mret (rc, test)
      else
        let test := test <| Test.read_set ::= fun rs => rs ∖ {[s]} |> in
        let! listener := announce_udp test in
        let test := test <| Test.prot_listener := listener |> in
        if listener <? 0 then fail_as IESTREAMLISTEN ;; mret (-1, test)
        else
          let test := test <| Test.read_set ::= fun rs => {[listener]} ∪ rs |> <| Test.max_fd ::= fun m => if m <? listener then listener else m |> in
          let! n := sys (Cwrite s (le32 UDP_CONNECT_REPLY)) in
          if ret n <? 0 then fail_as IESTREAMWRITE ;; mret (-1, test) else mret (s, test).

Definition iperf_udp_listen (test : iperf_test) : M world Z :=
  let! s := announce_udp test in
  if s <? 0 then fail_as IESTREAMLISTEN else mret s.

Definition is_reply (buf : list Z) : bool :=
  (of_le32 buf =? UDP_CONNECT_REPLY) || (of_le32 buf =? LEGACY_UDP_CONNECT_REPLY).

(** Datagrams are read into the four bytes of [buf] until one is the reply or
    [limit] bytes have come; every round uses up an answer. *)
Fixpoint await_reply (fuel : nat) (s : fd) (limit i : Z) (buf : list Z) : M world (option (list Z)) :=
  match fuel with
  | O => mfail
  | S fuel =>
      let! r := sys (Crecv s 4 0) in
      if ret r <? 0 then mret None
      else
        let buf := store_bytes 0 (data r) buf in
        let i := i32 (i + ret r) in
        if negb (is_reply buf) && (i <? limit) then await_reply fuel s limit i buf else mret (Some buf)
  end.

Definition iperf_udp_connect (test : iperf_test) : M world (Z * iperf_test) :=
  match Test.server_hostname test with
  | None => mfail
  | Some host =>
      let! s := netdial (Settings.domain (Test.settings test)) Pudp (Test.bind_address test) (Test.bind_dev test)
                  (Test.bind_port test) host (Test.server_port test) (-1) in
      if s <? 0 then fail_as IESTREAMCONNECT ;; mret (-1, test)
      else
        let! (rc, test) := check_and_grow test s in
        if rc <? 0 then mret (rc, test)
        else
          iperf_common_sockopts test s ;;
          sys (Csetsockopt s SOL_SOCKET SO_RCVTIMEO 30) ;;
          let! n := sys (Cwrite s (le32 UDP_CONNECT_MSG)) in
          if ret n <? 0 then fail_as IESTREAMWRITE ;; mret (-1, test)
          else
            let limit := if nonzero (Test.reverse test)
                         then i32 (4 + MAX_REVERSE_OUT_OF_ORDER_PACKETS * Settings.blksize (Test.settings test)) else 4 in
            let! buf := (fun w => await_reply (S (length (script w))) s limit 0 (le32 UDP_CONNECT_MSG) w) in
            match buf with
            | Some buf => if is_reply buf then mret (s, test) else fail_as IESTREAMREAD ;; mret (-1, test)
            | None => fail_as IESTREAMREAD ;; mret (-1, test)
            end
  end.

(** ** Who owns a socket *)

(** Results that are a number or begin with one, a socket or -1. *)
Class Answer A := answer : A -> Z.
#[export] Instance answer_Z : Answer Z := fun r => r.
#[export] Instance answer_pair {B} : Answer (Z * B) := fst.

(** The rest of a function that holds the open socket [s]: it returns [s],
    still open, or -1 with nothing left open. *)
Definition holding {A} `{Answer A} (s : fd) (r : A) (t : list (call * reply)) : Prop :=
  if answer r <? 0 then answer r = -1 /\ open_fds [s] t = [] else answer r = s /\ open_fds [s] t = [s].
Definition owned {A} `{Answer A} (r : A) (t : list (call * reply)) : Prop := owns (answer r) t.
Definition fails {A} `{Answer A} (r : A) (t : list (call * reply)) : Prop := answer r = -1 /\ t = [].

(** A call that opens and closes nothing does not change that. *)
Definition passive (c : call) : Prop := forall r, quiet [(c, r)].
Section Holding.
Context {A : Type} `{Answer A} (s : fd).
Implicit Types (k fail : M world A).

Lemma holding_call c (k : reply -> M world A) : passive c -> (forall r, emits (k r) (holding s)) -> emits (mbnd (sys c) k) (holding s).
Proof.
  intros Hc Hk. apply emits_bind, emits_sys. intros r. eapply emits_mono; [apply Hk|]. intros a t Ht. unfold holding in *.
  cbn [app]. change ((c, r) :: t) with ([(c, r)] ++ t)%list. by rewrite open_fds_app, Hc.
Qed.
Lemma holding_quiet {B} (m : M world B) (k : B -> M world A) :
  emits m (fun _ t => quiet t) -> (forall a, emits (k a) (holding s)) -> emits (mbnd m k) (holding s).
Proof.
  intros Hm Hk. apply emits_bind. eapply emits_mono; [exact Hm|]. intros a t1 H1. eapply emits_mono; [apply Hk|].
  intros b t2 H2. unfold holding in *. by rewrite open_fds_app, H1.
Qed.
Lemma holding_ret (a : A) : 0 <= s -> answer a = s -> emits (mret a) (holding s).
Proof. intros Hs Ha. apply emits_ret. unfold holding. rewrite Ha. destruct (Z.ltb_spec s 0); [lia|done]. Qed.
Lemma close_last r t : open_fds [s] ((Cclose s, r) :: t) = open_fds [] t.
Proof. cbn. rewrite decide_False by (intros ?; auto). done. Qed.
Lemma holding_close k : emits k fails -> emits (sys (Cclose s) ;; k) (holding s).
Proof.
  intros Hk. apply emits_bind, emits_sys. intros r. eapply emits_mono; [exact Hk|]. intros a t [Ha ->].
  unfold holding. rewrite Ha. cbn [app Z.ltb Z.compare]. by rewrite close_last.
Qed.
Lemma holding_set_option lvl opt v fail k : emits fail (holding s) -> emits k (holding s) ->
  emits (set_option s lvl opt v fail k) (holding s).
Proof. intros Hf Hk. apply holding_call; [intros r ?; done|]. intros r. by destruct (_ <? _). Qed.
Lemma holding_set_option_if lvl opt v fail k : emits fail (holding s) -> emits k (holding s) ->
  emits (set_option_if s lvl opt v fail k) (holding s).
Proof. intros Hf Hk. unfold set_option_if. destruct (_ =? _); [done|by apply holding_set_option]. Qed.
Lemma holding_read_option opt fail (k : Z -> M world A) : emits fail (holding s) -> (forall v, emits (k v) (holding s)) ->
  emits (read_option s opt fail k) (holding s).
Proof. intros Hf Hk. apply holding_call; [intros r ?; done|]. intros r. destruct (_ <? _); [done|apply Hk]. Qed.
Lemma holding_if (b : bool) m k : emits m (holding s) -> emits k (holding s) -> emits (if b then m else k) (holding s).
Proof. by destruct b. Qed.
Lemma holding_options test (fail : iperf_error -> M world A) k : (forall e, emits (fail e) (holding s)) -> emits k (holding s) ->
  emits (stream_options test s fail k) (holding s).
Proof. intros Hf Hk. unfold stream_options. auto 10 using holding_set_option_if. Qed.
End Holding.

Lemma fail_as_minus e : emits (fail_as e) (fun r t => r = -1 /\ t = []).
Proof. unfold fail_as. by emit. Qed.
Lemma fail_as_fails e : emits (fail_as e) fails.
Proof. exact (fail_as_minus e). Qed.
Lemma holding_closing s e : emits (fail_closing s e) (holding s).
Proof.
  unfold fail_closing, close_keeping_errno. intros w a w' H. rewrite bind_assoc in H.
  revert w a w' H. change (emits (let! e0 := get_errno in (fun w => mbnd (sys (Cclose s) ;; set_errno e0) (fun _ => fail_as e) w)) (holding s)).
  apply emits_bind, emits_get_errno. intros e0. cbn [app]. intros w a w' H. rewrite bind_assoc in H. revert w a w' H.
  change (emits (sys (Cclose s) ;; (set_errno e0 ;; fail_as e)) (holding s)). apply holding_close.
  unfold fail_as. by emit.
Qed.
Lemma holding_close_fail s e : emits (sys (Cclose s) ;; fail_as e) (holding s).
Proof. apply holding_close, fail_as_fails. Qed.
Lemma holding_close_late s e : emits (set_i_errno e ;; sys (Cclose s) ;; mret (-1)) (holding s).
Proof. apply emits_bind, emits_set_i_errno, holding_close. by apply emits_ret. Qed.
Lemma holding_with_test test s m : emits m (holding s) -> emits (with_test test m) (holding s).
Proof.
  intros Hm. apply emits_bind. eapply emits_mono; [exact Hm|]. intros r t Hr. apply emits_ret. by rewrite app_nil_r.
Qed.
Lemma fails_with_test test m : emits m fails -> emits (with_test test m) fails.
Proof. intros Hm. apply emits_bind. eapply emits_mono; [exact Hm|]. intros r t Hr. apply emits_ret. by rewrite app_nil_r. Qed.
Create HintDb sockets.
#[export] Hint Resolve holding_closing holding_set_option holding_set_option_if holding_read_option holding_if holding_ret
  holding_close_fail holding_close_late holding_with_test : sockets.
#[export] Hint Extern 2 (forall _ : Z, emits _ (holding _)) => intros ? : sockets.

(** A function that opens a socket and goes on holding it. *)
Lemma owns_of_holding {A} `{Answer A} {m : M world Z} {k : Z -> M world A} :
  emits m owns -> (forall s, 0 <= s -> emits (k s) (holding s)) -> (forall s, s < 0 -> emits (k s) fails) ->
  emits (mbnd m k) owned.
Proof.
  intros Hm Hk Hf. apply emits_bind. eapply emits_mono; [exact Hm|]. intros s t Hs. unfold owns in Hs.
  destruct (Z.ltb_spec s 0).
  - destruct Hs as [-> Hs]. eapply emits_mono; [by apply Hf|]. intros r t2 [Hr ->]. unfold owned, owns. rewrite app_nil_r, Hr. by cbn.
  - eapply emits_mono; [by apply Hk|]. intros r t2 Hr. unfold holding in Hr. unfold owned, owns. rewrite open_fds_app, Hs.
    destruct (answer r <? 0); [exact Hr|]. destruct Hr as [Hr1 Hr2]. rewrite Hr1. exact Hr2.
Qed.

Lemma quiet_sockopts test s : emits (iperf_common_sockopts test s) (fun _ t => quiet t).
Proof. unfold iperf_common_sockopts, getsockdomain, set_option, fail_as. emit; intros ?; done. Qed.
Lemma Nwrite_quiet s buf prot : emits (Nwrite s buf prot) (fun _ t => quiet t).
Proof.
  intros w. revert w. unfold Nwrite. 
  assert (H : forall fuel count b, emits (Nwrite_loop fuel s count b) (fun _ t => quiet t)).
  { induction fuel as [|fuel IH]; intros count b; [apply emits_fail|]. cbn [Nwrite_loop].
    emit; try (intros ?; done). eapply emits_mono; [apply IH|]. intros ? ? Hq ?. cbn. apply Hq. }
  intros w a w'. apply (H _ _ _ w a w').
Qed.

Lemma iperf_tcp_connect_owns test : emits (iperf_tcp_connect test) owned.
Proof.
  unfold iperf_tcp_connect. destruct (Test.server_hostname test) as [host|]; [|apply emits_fail].
  apply owns_of_holding; [apply create_socket_owns| |].
  - intros s Hs. destruct (Z.ltb_spec s 0); [lia|]. apply holding_options; [auto with sockets|].
    apply holding_read_option; [auto with sockets|]. intros snd. apply holding_if; [auto with sockets|].
    apply holding_read_option; [auto with sockets|]. intros rcv. apply holding_if; [auto with sockets|]. cbv zeta.
    apply holding_quiet; [apply quiet_sockopts|]. intros _. apply holding_call; [intros r ?; done|]. intros c.
    apply holding_quiet; [by apply emits_get_errno|]. intros e. apply holding_if; [auto with sockets|].
    apply holding_quiet; [apply Nwrite_quiet|]. intros n. auto with sockets.
  - intros s Hs. destruct (Z.ltb_spec s 0); [|lia]. apply fails_with_test, fail_as_fails.
Qed.

Lemma emits_and {A} (m : M world A) P Q : emits m P -> emits m Q -> emits m (fun a t => P a t /\ Q a t).
Proof.
  intros HP HQ w a w' H. destruct (HP _ _ _ H) as (t & Ht & Hs & Hp). destruct (HQ _ _ _ H) as (t2 & Ht2 & _ & Hq).
  rewrite Ht in Ht2. apply app_inv_head in Ht2 as <-. by exists t.
Qed.
Lemma Nread_quiet f n prot : emits (Nread f n prot) (fun _ t => quiet t).
Proof.
  unfold Nread, Nrecv.
  assert (H : forall fuel nleft buf ft, emits (Nrecv_loop fuel f 0 n nleft buf ft) (fun _ t => quiet t)).
  { induction fuel as [|fuel IH]; intros nleft buf ft; [apply emits_fail|]. cbn [Nrecv_loop].
    change (read_call f nleft 0) with (Cread f nleft).
    emit; try (intros ?; done); (eapply emits_mono; [apply IH|]; intros ? ? Hq ?; cbn; apply Hq). }
  emit; try (intros ?; done). intros w a w' Hr. destruct (H _ _ _ _ _ _ _ Hr) as (t & ? & ? & Hq).
  exists t. split_and!; [done..|]. intros ?. cbn. apply Hq.
Qed.

Lemma open_socket_owns name port type e k : (forall f s, 0 <= s -> emits (k f s) (holding s)) -> emits (open_socket name port type e k) owns.
Proof.
  intros Hk. unfold open_socket, getaddrinfo. apply emits_bind, emits_bind, emits_sys. intros a. apply emits_bind.
  emit_step. apply emits_ret. cbn [app]. destruct (ret a =? 0).
  - apply emits_bind, emits_sys. intros r. destruct (ret r <? 0) eqn:E.
    + eapply emits_mono; [apply fail_as_minus|]. intros ? ? [-> ->]. unfold owns. cbn. by rewrite E.
    + eapply emits_mono; [apply Hk; lia|]. intros x t Hx. unfold owns, holding, answer, answer_Z in *. cbn [app open_fds]. rewrite E.
      destruct (x <? 0); [done|]. by destruct Hx as [-> ?].
  - eapply emits_mono; [apply fail_as_minus|]. intros ? ? [-> ->]. done.
Qed.

Lemma bind_and_listen_holds s : 0 <= s -> emits (bind_and_listen s) (holding s).
Proof.
  intros Hs. apply holding_call; [intros r ?; done|]. intros b. apply holding_if; [auto with sockets|].
  apply holding_call; [intros r ?; done|]. intros l. apply holding_if; auto with sockets.
Qed.
#[export] Hint Resolve bind_and_listen_holds : sockets.
Lemma tcp_relisten_owns test : emits (tcp_relisten test) owns.
Proof. apply open_socket_owns. intros f s Hs. apply holding_options; [auto with sockets|]. auto 6 with sockets. Qed.

Lemma iperf_udp_listen_owns test : emits (iperf_udp_listen test) owns.
Proof.
  apply owns_of_holding; [apply netannounce_owns| |]; intros s Hs; (destruct (Z.ltb_spec s 0); [|]); try lia;
    [auto with sockets|apply fail_as_fails].
Qed.

(** C35. Making a data socket leaks nothing: whatever the system answers and
    whatever options the test sets, connecting a TCP stream, making the TCP
    listener again and announcing the UDP port each return a socket that is the
    only descriptor they leave open, or -1 with every descriptor closed. *)
Theorem data_sockets_owned (test test' : iperf_test) (w w' : world) (s : Z) :
  iperf_tcp_connect test w = Some ((s, test'), w') \/ tcp_relisten test w = Some (s, w') \/ iperf_udp_listen test w = Some (s, w') ->
  if s <? 0 then s = -1 /\ open_fds [] (calls w w') = [] else open_fds [] (calls w w') = [s].
Proof.
  intros [H|[H|H]].
  - apply emits_calls with (Q := owned) in H as [H _]; [exact H|apply iperf_tcp_connect_owns].
  - apply emits_calls with (Q := owns) in H as [H _]; [exact H|apply tcp_relisten_owns].
  - apply emits_calls with (Q := owns) in H as [H _]; [exact H|apply iperf_udp_listen_owns].
Qed.
Definition dialling : iperf_test :=
  iperf_new_test <| Test.server_hostname := Some "host" |> <| Test.no_delay := 1 |>
    <| Test.settings ::= fun s => s <| Settings.socket_bufsize := 4096 |> <| Settings.blksize := 1460 |> |>.
Definition small_buffers : world :=
  World [Reply 0 0 [] [AF_INET]; Reply 7 0 [] []; (Reply 0 0 [] []); (Reply 0 0 [] []); (Reply 0 0 [] []); Reply 0 0 [] [2048]; (Reply 0 0 [] [])] [] 0 0 0.
Lemma data_sockets_owned_witness :
  exists w', iperf_tcp_connect dialling small_buffers = Some ((-1, dialling), w') /\ i_errno w' = IESETBUF2 /\
    (if -1 <? 0 then -1 = -1 /\ open_fds [] (calls small_buffers w') = [] else open_fds [] (calls small_buffers w') = [-1]).
Proof.
  eexists. split; [vm_compute; reflexivity|]. split; [reflexivity|].
  apply (data_sockets_owned dialling dialling small_buffers _ (-1)). left. vm_compute. reflexivity.
Defined.

(** Connecting a UDP stream does leak: the socket stays open when the server
    does not answer. *)
Lemma iperf_udp_connect_leaks :
  exists t' w', iperf_udp_connect (dialling <| Test.settings ::= fun s => s <| Settings.socket_bufsize := 0 |> |>)
      (World [Reply 0 0 [] [AF_INET]; Reply 7 0 [] []; (Reply 0 0 [] []); Reply 0 0 [] [9216]; Reply 0 0 [] [9216];
              (Reply 0 0 [] []); Reply 4 0 [] []; Reply (-1) EAGAIN [] []] [] 0 0 0) = Some ((-1, t'), w') /\
    open_fds [] (trace w') = [7].
Proof. do 2 eexists. split; vm_compute; reflexivity. Qed.

(** A UDP stream whose buffers are too small sets them again, but a JSON report
    keeps the sizes of the first attempt. *)
Example noted_once :
  let t := dialling <| Test.json_output := 1 |> <| Test.json_start := Some (cJSON_Object []) |>
             <| Test.settings ::= fun s => s <| Settings.socket_bufsize := 0 |> <| Settings.blksize := 65507 |> |> in
  let w := World [Reply 0 0 [] [9216]; Reply 0 0 [] [9216]; Reply 0 0 [] []; Reply 0 0 [] []; Reply 0 0 [] [66531]; Reply 0 0 [] [66531]] [] 0 0 0 in
  option_map (fun r => (r.1.1, bufsize r.1.2, cJSON_GetObjectItem (cJSON_Object (members (Test.json_start r.1.2))) "sock_bufsize"))
    (check_and_grow t 7 w) = Some (0, 66531, Some (cJSON_CreateNumber (Z2d 0))).
Proof. vm_compute. reflexivity. Qed.

(** ** What is noted *)

(** The functions change nothing else in the test. *)
Definition noted (t t' : iperf_test) : Prop := exists start, t' = t <| Test.json_start := start |>.
#[export] Instance noted_refl : Reflexive noted.
Proof. intros t. exists (Test.json_start t). by destruct t. Qed.
#[export] Instance noted_trans : Transitive noted.
Proof. intros a b c [x ->] [y ->]. by exists y. Qed.
Lemma note_size_notes name v t : noted t (note_size name v t).
Proof. by eexists. Qed.
Lemma note_new_size_notes name v t : noted t (note_new_size name v t).
Proof. unfold note_new_size. destruct (cJSON_GetObjectItem _ _); [reflexivity|apply note_size_notes]. Qed.
Lemma note_sizes_notes note a b t : (forall name v t, noted t (note name v t)) -> noted t (note_sizes note a b t).
Proof.
  intros Hn. unfold note_sizes. destruct (nonzero _); [|reflexivity].
  etrans; [apply (Hn "sock_bufsize"%string)|]. etrans; [apply (Hn "sndbuf_actual"%string)|apply Hn].
Qed.
Lemma with_test_same test m w r t' w' : with_test test m w = Some ((r, t'), w') -> t' = test.
Proof. intros H. apply mbnd_inv in H as (? & ? & _ & H). by injection H. Qed.
#[export] Hint Resolve note_size_notes note_new_size_notes note_sizes_notes : sockets.

(** ** The cookie of a TCP stream *)

Lemma Nwrite_receives_nothing s buf prot : emits (Nwrite s buf prot) (fun _ t => received t = []).
Proof.
  unfold Nwrite. assert (H : forall fuel count b, emits (Nwrite_loop fuel s count b) (fun _ t => received t = [])).
  { induction fuel as [|fuel IH]; intros count b; [apply emits_fail|]. cbn [Nwrite_loop].
    emit; try done. }
  intros w a w'. apply (H _ _ _ w a w').
Qed.

(** C40. Only a stream that brings the cookie of the test is kept: accepting
    returns with the stream's socket open exactly when the bytes it sent are
    the cookie, and otherwise with nothing open. *)
Theorem iperf_tcp_accept_checks_cookie (test : iperf_test) (w w' : world) (s : Z) :
  iperf_tcp_accept test w = Some (s, w') -> Forall sane_read (calls w w') ->
  if s <? 0 then s = -1 /\ open_fds [] (calls w w') = []
  else open_fds [] (calls w w') =
    (if String.eqb (c_string (Test.cookie test)) (received_cookie (received (calls w w'))) then [s] else []).
Proof.
  intros H Hsane. apply emits_calls with (Q := fun s t => Forall sane_read t ->
    if s <? 0 then s = -1 /\ open_fds [] t = []
    else open_fds [] t = (if String.eqb (c_string (Test.cookie test)) (received_cookie (received t)) then [s] else [])) in H as [H _].
  { exact (H Hsane). }
  clear. unfold iperf_tcp_accept. apply emits_bind, emits_sys. intros r. destruct (ret r <? 0) eqn:E.
  { eapply emits_mono; [apply fail_as_minus|]. intros s t [-> ->] _. cbn. by rewrite E. }
  apply emits_bind. eapply emits_mono; [apply emits_and; [apply (Nread_reads _ COOKIE_SIZE Ptcp); done|apply Nread_quiet]|].
  intros [n bytes] t [Hreads Hq]. cbn beta iota.
  assert (Hopen : forall c t2, open_fds [] ((c, r) :: t ++ t2) = open_fds (open_fds [] [(c, r)]) t2).
  { intros c t2. change ((c, r) :: t ++ t2) with ([(c, r)] ++ (t ++ t2))%list. by rewrite !open_fds_app, Hq. }
  set (A := Caccept (Test.listener test)) in *. assert (HA : open_fds [] [(A, r)] = [ret r]) by (cbn; by rewrite E).
  assert (Hrec : forall t2, received ((A, r) :: t ++ t2) = received t ++ received t2) by (intros; cbn; apply received_app).
  destruct (n <? 0).
  { emit. intros _. cbn [app]. rewrite Hopen, HA. cbn [Z.ltb Z.compare]. split; [done|]. apply close_last. }
  destruct (String.eqb _ (received_cookie bytes)) eqn:Ec; cbn [negb].
  - emit. intros Hs. cbn [app] in *. rewrite E. rewrite app_nil_r in Hs. apply Forall_cons in Hs as [_ Hs].
    destruct (Hreads Hs) as [Hb _]. cbn [snd app] in Hb. rewrite Hopen, HA, Hrec, app_nil_r, <-Hb, Ec. done.
  - apply emits_bind. eapply emits_mono; [apply emits_and; [apply Nwrite_quiet|apply Nwrite_receives_nothing]|].
    intros x t2 [Hq2 Hn2]. emit. intros Hs. cbn [app] in *. rewrite E.
    apply Forall_cons in Hs as [_ Hs]. apply Forall_app in Hs as [Hs _]. destruct (Hreads Hs) as [Hb _]. cbn [snd app] in Hb.
    rewrite Hopen, HA, open_fds_app, Hq2, close_last, Hrec, received_app, Hn2. cbn [received received_by app].
    by rewrite app_nil_r, <-Hb, Ec.
Qed.
Definition joining (cookie : string) : world :=
  World [Reply 9 0 [] []; Reply 1 0 [] []; Reply 37 0 (cookie_bytes cookie) []; Reply 1 0 [] []; Reply 0 0 [] []] [] 0 0 0.
Definition guarded : iperf_test := iperf_new_test <| Test.cookie := "sesame" |> <| Test.listener := 4 |>.
Lemma iperf_tcp_accept_checks_cookie_witness :
  exists w', iperf_tcp_accept guarded (joining "sesam") = Some (9, w') /\
  if 9 <? 0 then 9 = -1 /\ open_fds [] (calls (joining "sesam") w') = []
  else open_fds [] (calls (joining "sesam") w') =
    (if String.eqb (c_string (Test.cookie guarded)) (received_cookie (received (calls (joining "sesam") w'))) then [9] else []).
Proof.
  eexists. split; [vm_compute; reflexivity|].
  apply (iperf_tcp_accept_checks_cookie guarded (joining "sesam") _ 9); [vm_compute; reflexivity|].
  apply (bool_decide_unpack _). vm_compute. exact I.
Defined.

(** What the client sends is what the server reads back. *)
Lemma cookie_roundtrip (cookie : string) :
  Z.of_nat (String.length cookie) < COOKIE_SIZE -> forallb (fun b => negb (b =? 0)) (bytes_of cookie) = true ->
  received_cookie (cookie_bytes cookie) = cookie.
Proof.
  unfold received_cookie, cookie_bytes, COOKIE_SIZE. intros Hl Hn.
  rewrite take_app_ge by (rewrite bytes_of_length; lia).
  assert (Hk : exists k, take (Z.to_nat 37 - length (bytes_of cookie)) (replicate (Z.to_nat 37) 0) = 0 :: replicate k 0).
  { rewrite bytes_of_length, take_replicate. exists (Z.to_nat 37 - String.length cookie - 1)%nat.
    replace ((Z.to_nat 37 - String.length cookie) `min` Z.to_nat 37)%nat with (S (Z.to_nat 37 - String.length cookie - 1)) by lia. done. }
  destruct Hk as [k ->]. clear Hl. induction cookie as [|c cookie IH]; [done|]. cbn in *.
  apply andb_prop in Hn as [Hc Hn]. rewrite chr_code. apply negb_true_iff in Hc. rewrite Hc. by rewrite IH.
Qed.

(** ** The handshake of a UDP stream *)

(** The client of a UDP stream finds the server's reply among the data
    that overtook it: datagrams of four bytes or more that are not the reply
    are skipped as long as they stay under the limit, in bytes read, and the
    reply, whether of this version or of the old one, ends the wait. *)
Lemma await_reply_finds (s : fd) (limit : Z) (junk : list (list Z)) (reply : list Z) (rest : list Sys.reply) (buf : list Z) (w : world) :
  length buf = 4%nat -> Forall (fun d => length d = 4%nat /\ is_reply d = false) junk ->
  length reply = 4%nat -> is_reply reply = true -> 4 * Z.of_nat (length junk) < limit < 2 ^ 30 ->
  script w = map (fun d => Reply 4 0 d []) (junk ++ [reply]) ++ rest ->
  exists w', await_reply (S (length (script w))) s limit 0 buf w = Some (Some reply, w') /\ script w' = rest.
Proof.
  intros Hb Hj Hl Hr Hlim Hs.
  assert (Hgen : forall fuel i buf w, length buf = 4%nat -> 0 <= i -> i + 4 * Z.of_nat (length junk) < limit ->
    (length junk < fuel)%nat -> script w = map (fun d => Reply 4 0 d []) (junk ++ [reply]) ++ rest ->
    exists w', await_reply fuel s limit i buf w = Some (Some reply, w') /\ script w' = rest).
  { clear Hb Hs w buf. destruct Hlim as [_ Hlim]. induction Hj as [|d junk [Hd Hn] Hj IH]; intros fuel i buf w Hb Hi Hlt Hf Hs;
      (destruct fuel as [|fuel]; [cbn in Hf; lia|]); cbn [app map] in Hs; rewrite <-?app_comm_cons in Hs;
      cbn [await_reply]; rewrite (run_sys _ _ _ _ _ Hs);
      cbn [ret data Z.ltb Z.compare].
    - assert (store_bytes 0 reply buf = reply) as ->.
      { unfold store_bytes. rewrite take_0. cbn [app Nat.add]. rewrite skipn_all2 by lia. by rewrite app_nil_r. }
      rewrite Hr. cbn [negb andb]. eexists. split; [reflexivity|]. exact (script_answered _ _ _ _ _ Hs).
    - assert (store_bytes 0 d buf = d) as ->.
      { unfold store_bytes. rewrite take_0. cbn [app Nat.add]. rewrite skipn_all2 by lia. by rewrite app_nil_r. }
      cbn [length List.length] in *. rewrite Hn, i32_id by zlia. destruct (Z.ltb_spec (i + 4) limit); [|lia]. cbn [negb andb].
      apply IH; [done|lia|lia|lia|]. exact (script_answered _ _ _ _ _ Hs). }
  apply Hgen; [done|lia|lia| |done]. rewrite Hs, !length_app, length_map, length_app. cbn. lia.
Qed.
Lemma await_reply_finds_witness :
  let w := World (map (fun d => Reply 4 0 d []) ([[1; 2; 3; 4]; [0; 0; 0; 9]] ++ [le32 UDP_CONNECT_REPLY]) ++ []) [] 0 0 0 in
  exists w', await_reply (S (length (script w))) 7 2924 0 (le32 UDP_CONNECT_MSG) w = Some (Some (le32 UDP_CONNECT_REPLY), w') /\ script w' = [].
Proof.
  apply (await_reply_finds 7 2924 [[1; 2; 3; 4]; [0; 0; 0; 9]] (le32 UDP_CONNECT_REPLY) [] (le32 UDP_CONNECT_MSG)); try reflexivity.
  - repeat constructor.
  - cbn; lia.
Defined.
