(* ===== verification/Streams.v ===== *)
(** * Making streams: iperf_new_stream and what it calls

    A stream owns its socket, the descriptor of its buffer and that of the file
    it sends or writes.  Allocation succeeds, except for the descriptors and
    the mapping that the system may refuse; running out of random data ends the
    process, which is undefined here. *)
From Stdlib Require Import Ascii String.
From stdpp Require Import strings.
From S2P Require Import Prelude Double IperfTime Timer Text Cjson Iperf Error Sys Net Json Util Api Frame Params Printf Output Sockets.
#[local] Open Scope string_scope.
#[local] Open Scope Z_scope.

Definition O_RDONLY := 0.
Definition O_WRITE_NEW := 0x601.

(** The socket is bound on both sides; the option against fragments is set for
    UDP over IPv4 only. *)
Definition address_of (r : reply) : string * Z := (string_of (data r), nth 0 (outs r) 0).
Definition no_fragments (sp : iperf_stream) (test : iperf_test) (p : Protocol.protocol) : M world Z :=
  if Protocol.id p =? Pudp then
    let! domain := getsockdomain (Stream.socket sp) in
    if (domain =? AF_INET) && nonzero (Settings.dont_fragment (Test.settings test)) then
      set_option (Stream.socket sp) IPPROTO_IP IP_DONTFRAG 1 (fail_as IESETDONTFRAGMENT) (mret 0)
    else mret 0
  else mret 0.
Definition iperf_init_stream (sp : iperf_stream) (test : iperf_test) : M world (Z * iperf_stream) :=
  let fails : M world (Z * iperf_stream) := let! r := fail_as IEINITSTREAM in mret (r, sp) in
  let! l := sys (Cgetsockname (Stream.socket sp)) in
  if ret l <? 0 then fails
  else
    let! r := sys (Cgetpeername (Stream.socket sp)) in
    if ret r <? 0 then fails
    else
      let sp := sp <| Stream.local_addr := address_of l |> <| Stream.remote_addr := address_of r |> in
      match Test.protocol test with
      | None => mfail
      | Some p => let! r := no_fragments sp test p in mret (r, sp)
      end.

(** [getenv]: null or a string. *)
Definition getenv (name : string) : M world (option string) :=
  let! r := sys (Cgetenv name) in
  mret (if ret r =? 0 then None else Some (string_of (data r))).
Fixpoint first_set (names : list string) (otherwise : string) : M world string :=
  match names with
  | [] => mret otherwise
  | n :: names => let! v := getenv n in match v with Some s => mret s | None => first_set names otherwise end
  end.
(** The name for mkstemp, in an array of 1024 characters. *)
Definition template (test : iperf_test) : M world string :=
  match Test.tmp_template test with
  | Some t => mret (substring 0 1023 t)
  | None =>
      let! tempdir := first_set ["TMPDIR"; "TEMP"; "TMP"] "/tmp" in
      mret (substring 0 1023 (tempdir ++ "/iperf3.XXXXXX"))
  end.

(** A descriptor and a mapping of [blksize] zero bytes; on failure what was
    opened stays open. *)
Definition make_buffer (test : iperf_test) : M world (option fd) :=
  let blksize := Settings.blksize (Test.settings test) in
  let! name := template test in
  let! r := sys (Cmkstemp name) in
  let buffer_fd := ret r in
  if buffer_fd =? -1 then set_i_errno IECREATESTREAM ;; mret None
  else
    let! u := sys (Cunlink name) in
    if ret u <? 0 then set_i_errno IECREATESTREAM ;; mret None
    else
      let! f := sys (Cftruncate buffer_fd blksize) in
      if ret f <? 0 then set_i_errno IECREATESTREAM ;; mret None
      else
        let! m := sys (Cmmap buffer_fd blksize) in
        if ret m <? 0 then set_i_errno IECREATESTREAM ;; mret None else mret (Some buffer_fd).

(** The file of a stream, and the routines that go through it. *)
Definition attach_file (test : iperf_test) (sp : iperf_stream) : M world (option iperf_stream) :=
  match Test.diskfile_name test with
  | None => mret (Some (sp <| Stream.diskfile_fd := -1 |>))
  | Some name =>
      let! r := sys (Copen name (if nonzero (Stream.sender sp) then O_RDONLY else O_WRITE_NEW)) in
      if ret r =? -1 then
        set_i_errno IEFILE ;; sys (Cmunmap (Settings.blksize (Test.settings test))) ;; mret None
      else mret (Some (sp <| Stream.diskfile_fd := ret r |>
        <| Stream.snd2 := Stream.snd sp |> <| Stream.snd := Some Iperf.diskfile_send |>
        <| Stream.rcv2 := Stream.rcv sp |> <| Stream.rcv := Some Iperf.diskfile_recv |>))
  end.

(** What is sent: a pattern or random bytes. *)
Definition fill_buffer (test : iperf_test) : M world (list Z) :=
  let blksize := Settings.blksize (Test.settings test) in
  if nonzero (Test.repeating_payload test) then mret (fill_with_repeating_pattern (Z.to_nat blksize))
  else if blksize =? 0 then mret []
  else
    let! r := sys (Crandom blksize) in
    if ret r =? blksize then mret (take (Z.to_nat blksize) (data r)) else mfail.

Definition build_stream (test : iperf_test) (s : fd) (sender : Z) : M world (option iperf_stream) :=
  let! b := make_buffer test in
  match b, Test.protocol test with
  | None, _ => mret None
  | _, None => mfail
  | Some buffer_fd, Some p =>
      let sp := Stream.zero <| Stream.sender := sender |> <| Stream.buffer_fd := buffer_fd |> <| Stream.socket := s |>
        <| Stream.snd := Some (Protocol.send p) |> <| Stream.rcv := Some (Protocol.recv p) |> in
      let! f := attach_file test sp in
      match f with
      | None => mret None
      | Some sp =>
          let! bytes := fill_buffer test in
          let sp := sp <| Stream.buffer := bytes |> in
          let! (r, sp) := iperf_init_stream sp test in
          if r <? 0 then sys (Cclose buffer_fd) ;; sys (Cmunmap (Settings.blksize (Test.settings test))) ;; mret None
          else mret (Some sp)
      end
  end.

Definition iperf_new_stream (s : fd) (sender : Z) : P (option iperf_stream) :=
  let! test := get_test in
  let! o := do_os (build_stream test s sender) in
  match o with
  | Some sp => upd (iperf_add_stream sp) ;; mret (Some sp)
  | None => mret None
  end.

(** ** The functions of a protocol *)

(** The [connect], [listen] and [accept] of the protocol of the test. *)
Definition on_protocol {A} (tcp udp : iperf_test -> M world (A * iperf_test)) : P A :=
  let! test := get_test in
  match Test.protocol test with
  | None => mfail
  | Some p =>
      let! (a, test) := do_os (if Protocol.id p =? Ptcp then tcp test else udp test) in
      upd (fun _ => test) ;; mret a
  end.
Definition unchanged (m : iperf_test -> M world Z) (test : iperf_test) : M world (Z * iperf_test) :=
  let! r := m test in mret (r, test).
Definition protocol_connect : P Z := on_protocol iperf_tcp_connect iperf_udp_connect.
Definition protocol_listen : P Z := on_protocol iperf_tcp_listen (unchanged iperf_udp_listen).
Definition protocol_accept : P Z := on_protocol (unchanged iperf_tcp_accept) iperf_udp_accept.

(** ** The streams of a client *)

(** Stream number [i] of [n]: a given local port is moved on by [i], and by the
    number of streams for the second half of a bidirectional test. *)
Definition stream_port (test : iperf_test) (sender i : Z) : Z :=
  let port := Test.bind_port test in
  if nonzero port then
    let port := i32 (port + i) in
    if negb (nonzero sender) && (Test.mode test =? BIDIRECTIONAL) then i32 (port + Test.num_streams test) else port
  else port.

Fixpoint create_streams (orig_bind_port sender i : Z) (n : nat) : P Z :=
  match n with
  | O => mret 0
  | S n =>
      upd (fun t => t <| Test.bind_port := stream_port (t <| Test.bind_port := orig_bind_port |>) sender i |>) ;;
      let! s := protocol_connect in
      upd (fun t => t <| Test.bind_port := orig_bind_port |>) ;;
      if s <? 0 then mret (-1)
      else
        let! o := iperf_new_stream s sender in
        match o with
        | None => mret (-1)
        | Some sp => iperf_on_new_stream sp ;; create_streams orig_bind_port sender (i + 1) n
        end
  end.
(** The number of streams is fixed before the test starts. *)
Definition iperf_create_streams (sender : Z) : P Z :=
  let! test := get_test in
  create_streams (Test.bind_port test) sender 0 (Z.to_nat (Test.num_streams test)).

(** ** The descriptors of a stream *)

Definition opened (f : fd) : list fd := if f <? 0 then [] else [f].
Definition quiet_or (o : bool) (t : list (call * reply)) : Prop := if o then quiet t else True.

Lemma first_set_quiet names other : emits (first_set names other) (fun _ t => quiet t).
Proof.
  induction names as [|n names IH]; cbn [first_set]; [by apply emits_ret|].
  unfold getenv. apply emits_bind, emits_bind, emits_sys. intros r. apply emits_ret. cbn beta.
  destruct (ret r =? 0); [|by apply emits_ret]. eapply emits_mono; [exact IH|]. intros a t Hq open. cbn. apply Hq.
Qed.
Lemma template_quiet test : emits (template test) (fun _ t => quiet t).
Proof.
  unfold template. destruct (Test.tmp_template test); [by apply emits_ret|]. apply emits_bind.
  eapply emits_mono; [apply first_set_quiet|]. intros a t Hq. apply emits_ret. by rewrite app_nil_r.
Qed.
Lemma make_buffer_owns test :
  emits (make_buffer test) (fun o t => match o with Some f => open_fds [] t = opened f | None => True end).
Proof.
  unfold make_buffer. apply emits_bind. eapply emits_mono; [apply template_quiet|]. intros name t Hq.
  emit; try done. cbn [app]. rewrite open_fds_app, Hq. unfold opened. cbn. by destruct (ret _ <? 0).
Qed.

(** What the stream is on success, and what it has opened. *)
Record ready (test : iperf_test) (s : fd) (sender : Z) (p : Protocol.protocol) (sp : iperf_stream) (t : list (call * reply)) : Prop := {
  ready_fds : open_fds [] t = (opened (Stream.diskfile_fd sp) ++ opened (Stream.buffer_fd sp))%list;
  ready_socket : Stream.socket sp = s;
  ready_sender : Stream.sender sp = sender;
  ready_result : Stream.result sp = Result.zero;
  ready_counts : (Stream.packet_count sp, Stream.cnt_error sp, Stream.outoforder_packets sp, Stream.pending_size sp) = (0, 0, 0, 0);
  ready_routines :
    match Test.diskfile_name test with
    | None => Stream.snd sp = Some (Protocol.send p) /\ Stream.rcv sp = Some (Protocol.recv p) /\ Stream.diskfile_fd sp = -1
    | Some _ => Stream.snd sp = Some Iperf.diskfile_send /\ Stream.snd2 sp = Some (Protocol.send p) /\
                Stream.rcv sp = Some Iperf.diskfile_recv /\ Stream.rcv2 sp = Some (Protocol.recv p)
    end;
  ready_timer : Stream.send_timer sp = None }.

Lemma attach_file_owns test sp : Stream.diskfile_fd sp = 0 ->
  emits (attach_file test sp) (fun o t => match o with
    | Some sp' => (forall open, open_fds open t = (opened (Stream.diskfile_fd sp') ++ open)%list) /\
        sp' = match Test.diskfile_name test with
              | None => sp <| Stream.diskfile_fd := -1 |>
              | Some _ => sp <| Stream.diskfile_fd := Stream.diskfile_fd sp' |>
                  <| Stream.snd2 := Stream.snd sp |> <| Stream.snd := Some Iperf.diskfile_send |>
                  <| Stream.rcv2 := Stream.rcv sp |> <| Stream.rcv := Some Iperf.diskfile_recv |>
              end
    | None => True end).
Proof.
  intros _. unfold attach_file. destruct (Test.diskfile_name test); [|by apply emits_ret].
  emit; try done. split; [|done]. intros open. cbn. unfold opened. by destruct (ret _ <? 0).
Qed.
Lemma fill_buffer_quiet test : emits (fill_buffer test) (fun _ t => quiet t).
Proof. unfold fill_buffer. emit; done. Qed.
Definition addressed (sp sp' : iperf_stream) : Prop :=
  exists l r, sp' = sp <| Stream.local_addr := l |> <| Stream.remote_addr := r |>.
Lemma init_stream_quiet sp test :
  emits (iperf_init_stream sp test) (fun rs t => quiet t /\ (0 <= rs.1 -> addressed sp rs.2)).
Proof.
  unfold iperf_init_stream, no_fragments, fail_as, getsockdomain, set_option. destruct (Test.protocol test); emit;
    (split; [done|]); intros ?; first [cbn in *; lia|do 2 eexists; reflexivity].
Qed.

Lemma build_stream_ready test s sender p : Test.protocol test = Some p ->
  emits (build_stream test s sender) (fun o t => match o with Some sp => ready test s sender p sp t | None => True end).
Proof.
  intros Hp. unfold build_stream. apply emits_bind. eapply emits_mono; [apply make_buffer_owns|]. intros [b|] t1 H1; [|by apply emits_ret].
  rewrite Hp. apply emits_bind. set (sp0 := Stream.zero <| Stream.sender := sender |> <| Stream.buffer_fd := b |> <| Stream.socket := s |>
        <| Stream.snd := Some (Protocol.send p) |> <| Stream.rcv := Some (Protocol.recv p) |>).
  eapply emits_mono; [apply (attach_file_owns test sp0); done|]. intros [sp|] t2 H2; [|by apply emits_ret].
  destruct H2 as [H2 Hsp]. apply emits_bind. eapply emits_mono; [apply fill_buffer_quiet|]. intros bytes t3 H3. cbn beta.
  apply emits_bind. eapply emits_mono; [apply init_stream_quiet|]. intros [r sp'] t4 [H4 Ha]. cbn beta iota.
  destruct (Z.ltb_spec r 0); [by emit|]. apply emits_ret. destruct (Ha ltac:(done)) as (la & ra & Hsp'). cbn [snd] in Hsp'. clear Ha.
  assert (Hfds : open_fds [] (t1 ++ t2 ++ t3 ++ t4 ++ [])%list = (opened (Stream.diskfile_fd sp) ++ opened b)%list).
  { rewrite !open_fds_app, H1, H2, H3, H4. done. }
  destruct (Test.diskfile_name test) eqn:Hd.
  - set (d := Stream.diskfile_fd sp) in *. clearbody d. subst sp sp'. split; cbn; rewrite ?Hd; done.
  - rewrite Hsp in Hfds, Hsp'. subst sp'. split; cbn; rewrite ?Hd; done.
Qed.

Lemma calls_trans w1 w2 w3 : extends w1 w2 -> extends w2 w3 -> calls w1 w3 = (calls w1 w2 ++ calls w2 w3)%list.
Proof.
  intros (t1 & H1 & _) (t2 & H2 & _). rewrite (calls_app _ _ _ H1), (calls_app _ _ _ H2).
  apply calls_app. by rewrite H2, H1, app_assoc.
Qed.

(** C33. A stream comes with what it needs and leaves nothing behind.  When
    [iperf_new_stream] succeeds the stream holds the socket given to it, starts
    with all counters at zero, sends and receives through the test's protocol,
    or through a file when the test names one, and the only descriptors opened
    are those of its buffer and its file; [iperf_free_stream] closes both. *)
Theorem stream_lifecycle (p p1 p2 : prog) (s : fd) (sender : Z) (sp : iperf_stream) (proto : Protocol.protocol) :
  Test.protocol (tst p) = Some proto ->
  iperf_new_stream s sender p = Some (Some sp, p1) -> iperf_free_stream sp p1 = Some (tt, p2) ->
  ready (tst p) s sender proto sp (calls (os p) (os p1)) /\ open_fds [] (calls (os p) (os p2)) = [].
Proof.
  intros Hp Hn Hf. unfold iperf_new_stream in Hn. pstep Hn. pstep Hn. apply do_os_inv in E as (Et & _ & E).
  destruct (emits_calls _ _ _ _ _ (build_stream_ready _ _ _ _ Hp) E) as [Hr Hext].
  destruct x as [sp'|]; [|done]. pstep Hn. injection Hn as -> <-. cbn [os modify_field prog_eta eta_of] in *.
  split; [exact Hr|]. unfold iperf_free_stream in Hf. pstep Hf. apply do_os_inv in E0 as (_ & _ & E0).
  cbn [os modify_field prog_eta eta_of] in E0. pose proof (sys_extends _ _ _ _ E0) as Hx1. pstep Hf. rewrite (ready_timer _ _ _ _ _ _ Hr) in Hf.
  injection Hf as <-.
  assert (Hc1 : forall open, open_fds open (calls (os st) (os st0)) = filter (fun g => g <> Stream.buffer_fd sp) open).
  { intros open. unfold sys in E0. destruct (script (os st)) as [|y ys]; [done|]. injection E0 as _ <-.
    rewrite (calls_app _ _ [(Cclose (Stream.buffer_fd sp), y)]) by done. done. }
  assert (Hc2 : extends (os st0) (os st1) /\ forall open, open_fds open (calls (os st0) (os st1)) =
     if 0 <=? Stream.diskfile_fd sp then filter (fun g => g <> Stream.diskfile_fd sp) open else open).
  { destruct (0 <=? Stream.diskfile_fd sp).
    - pstep E1. injection E1 as _ <-. apply do_os_inv in E2 as (_ & _ & E2). split; [by eapply sys_extends|]. intros open.
      unfold sys in E2. destruct (script (os st0)) as [|y ys]; [done|]. injection E2 as _ <-.
      rewrite (calls_app _ _ [(Cclose (Stream.diskfile_fd sp), y)]) by done. done.
    - injection E1 as _ <-. split; [done|]. intros open. unfold calls. by rewrite drop_all. }
  destruct Hc2 as [Hx2 Hc2]. rewrite (calls_trans _ (os st)), (calls_trans (os st) (os st0)), !open_fds_app; [|done|done|done|by etrans].
  rewrite (ready_fds _ _ _ _ _ _ Hr), Hc1, Hc2. unfold opened.
  destruct (Z.ltb_spec (Stream.diskfile_fd sp) 0), (Z.leb_spec 0 (Stream.diskfile_fd sp)), (Z.ltb_spec (Stream.buffer_fd sp) 0);
    try lia; cbn; repeat (case_decide; cbn; try done); congruence.
Qed.
Definition streaming : iperf_test := iperf_new_test <| Test.protocol := Some udp_protocol |> <| Test.diskfile_name := Some "data" |>
  <| Test.repeating_payload := 1 |> <| Test.settings ::= fun s => s <| Settings.blksize := 12 |> |>.
Definition ok : reply := Reply 0 0 [] [].
Definition building : prog :=
  Prog streaming (TS ∅ None None)
    (World [ok; ok; ok; Reply 8 0 [] []; ok; ok; ok; Reply 9 0 [] []; ok; ok; Reply 0 0 [] [AF_INET]; ok; ok] [] 0 0 0).
Definition built : option (iperf_stream * prog * prog) :=
  match iperf_new_stream 5 1 building with
  | Some (Some sp, p1) => match iperf_free_stream sp p1 with Some (_, p2) => Some (sp, p1, p2) | None => None end
  | _ => None
  end.
Lemma stream_lifecycle_witness :
  exists sp p1 p2, built = Some (sp, p1, p2) /\
  ready streaming 5 1 udp_protocol sp (calls (os building) (os p1)) /\ open_fds [] (calls (os building) (os p2)) = [].
Proof.
  do 3 eexists. split; [vm_compute; reflexivity|].
  apply (stream_lifecycle building _ _ 5 1 _ udp_protocol); [reflexivity|vm_compute; reflexivity|vm_compute; reflexivity].
Defined.

(** A refusal after mkstemp leaves the descriptor of the buffer open. *)
Lemma iperf_new_stream_leaks :
  exists p1, iperf_new_stream 5 1 (building <| os := World [ok; ok; ok; Reply 8 0 [] []; ok; ok; Reply (-1) ENOMEM [] []] [] 0 0 0 |>)
    = Some (None, p1) /\ open_fds [] (trace (os p1)) = [8].
Proof. eexists. split; vm_compute; reflexivity. Qed.

(** ** All streams of one direction *)

(** [follow H] walks through a run [H] down to its results. *)
Ltac follow H :=
  repeat (lazymatch type of H with
  | mbnd _ _ _ = _ => let x := fresh "x" in let s := fresh "st" in let E := fresh "E" in
      apply mbnd_inv in H as (x & s & E & H)
  | (let '(_, _) := ?p in _) _ = _ => destruct p
  | (match ?o with Some _ => _ | None => _ end) _ = _ => destruct o
  | (if ?b then _ else _) _ = _ => destruct b
  end; cbn beta iota in H).

(** Connecting changes nothing in the test but the size of the buffers and
    the notes about it. *)
Definition resized (t t' : iperf_test) : Prop :=
  exists b start, t' = in_settings (fun st => st <| Settings.socket_bufsize := b |>) t <| Test.json_start := start |>.
Lemma noted_resized t t' : noted t t' -> resized t t'.
Proof.
  intros [start ->]. exists (Settings.socket_bufsize (Test.settings t)), start. unfold in_settings. destruct t. cbn. by destruct settings.
Qed.
Lemma resized_refl t : resized t t.
Proof. by apply noted_resized. Qed.
Lemma buffercheck_notes test s w r t' w' : iperf_udp_buffercheck test s w = Some ((r, t'), w') -> noted test t'.
Proof.
  intros H. unfold iperf_udp_buffercheck, set_option_if, set_option, read_option in H. cbv zeta in H.
  follow H; try (apply with_test_same in H as ->; reflexivity); injection H as _ <- _; auto with sockets.
Qed.
Lemma tcp_connect_notes test w r t' w' : iperf_tcp_connect test w = Some ((r, t'), w') -> noted test t'.
Proof.
  intros H. unfold iperf_tcp_connect, stream_options, set_option_if, set_option, read_option in H. cbv zeta in H.
  follow H; try done; first [apply with_test_same in H as -> | injection H as _ <- _]; try reflexivity; auto with sockets.
Qed.
Lemma check_and_grow_resizes test s w r t' w' : check_and_grow test s w = Some ((r, t'), w') -> resized test t'.
Proof.
  intros H. unfold check_and_grow in H. follow H.
  - apply buffercheck_notes in E as [x ->]. apply buffercheck_notes in H as [y ->]. by eexists _, y.
  - injection H as _ <- _. apply buffercheck_notes in E. by apply noted_resized.
Qed.
Lemma udp_connect_resizes test w r t' w' : iperf_udp_connect test w = Some ((r, t'), w') -> resized test t'.
Proof.
  intros H. unfold iperf_udp_connect in H. follow H; try (injection H as _ <- _; first [apply resized_refl|by eapply check_and_grow_resizes]); done.
Qed.
Lemma connect_resizes p r p' : protocol_connect p = Some (r, p') -> resized (tst p) (tst p').
Proof.
  intros H. unfold protocol_connect, on_protocol in H. pstep H. destruct (Test.protocol (tst p)) as [q|]; [|done].
  pstep H. apply do_os_inv in E as (Et & _ & E). destruct x as [r0 t0]. pstep H. injection H as <- <-. cbn [tst modify_field prog_eta eta_of].
  destruct (Protocol.id q =? Ptcp); [apply tcp_connect_notes in E; by apply noted_resized|by apply udp_connect_resizes in E].
Qed.

(** The streams are numbered as [iperf_add_stream] numbers them. *)
Definition numbered (t : iperf_test) : Prop := map Stream.id (Test.streams t) = stream_ids (length (Test.streams t)).
(** [n] streams of one direction are added to those of a test. *)
Record extended (sender : Z) (n : nat) (t t' : iperf_test) : Prop := {
  ext_streams : exists new, Test.streams t' = (Test.streams t ++ new)%list /\ length new = n /\
    Forall (fun sp => Stream.sender sp = sender /\ Stream.result sp = Result.zero) new;
  ext_numbered : numbered t -> Z.of_nat (length (Test.streams t) + n) < 2 ^ 31 - 3 -> numbered t';
  ext_protocol : Test.protocol t' = Test.protocol t;
  ext_mode : Test.mode t' = Test.mode t;
  ext_num : Test.num_streams t' = Test.num_streams t }.

Lemma new_stream_extends s sender p sp p' proto : Test.protocol (tst p) = Some proto ->
  iperf_new_stream s sender p = Some (Some sp, p') -> extended sender 1 (tst p) (tst p') /\ Test.bind_port (tst p') = Test.bind_port (tst p).
Proof.
  intros Hp H. unfold iperf_new_stream in H. pstep H. pstep H. apply do_os_inv in E as (Et & _ & E).
  destruct (emits_calls _ _ _ _ _ (build_stream_ready _ _ _ _ Hp) E) as [Hr _].
  destruct x as [sp'|]; [|done]. pstep H. injection H as -> <-. cbn [tst modify_field prog_eta eta_of]. rewrite Et.
  split; [split|].
  - exists [sp <| Stream.id := match length (Test.streams (tst p)) with O => 1 | n => i32 (2 + Z.of_nat n) end |>].
    split; [|split; [done|]].
    + unfold iperf_add_stream. destruct (Test.streams (tst p)); done.
    + constructor; [|constructor]. split; [apply (ready_sender _ _ _ _ _ _ Hr)|apply (ready_result _ _ _ _ _ _ Hr)].
  - intros Hn Hl. destruct (add_stream_streams sp (tst p)) as (i & Hi & ->); [lia|]. unfold numbered. rewrite Hi, map_app, length_app.
    cbn [map length List.length]. rewrite Nat.add_1_r, stream_ids_S, Hn. by destruct (length (Test.streams (tst p))).
  - unfold iperf_add_stream. by destruct (Test.streams (tst p)).
  - unfold iperf_add_stream. by destruct (Test.streams (tst p)).
  - unfold iperf_add_stream. by destruct (Test.streams (tst p)).
  - unfold iperf_add_stream. by destruct (Test.streams (tst p)).
Qed.
Lemma extended_trans sender n k a b c : extended sender n a b -> extended sender k b c -> extended sender (n + k) a c.
Proof.
  intros [(l1 & S1 & L1 & F1) N1 P1 M1 U1] [(l2 & S2 & L2 & F2) N2 P2 M2 U2]. split; [|intros Hn Hl|congruence..].
  - exists (l1 ++ l2)%list. rewrite S2, S1, <-app_assoc, length_app, L1, L2. split_and!; [done|done|]. by apply Forall_app.
  - apply N2; [apply N1; [done|lia]|]. rewrite S1, length_app, L1. lia.
Qed.

Lemma extended_unsaid sender t t' : unsaid t' = unsaid t -> extended sender 0 t t'.
Proof.
  intros H. assert (Hs : Test.streams t' = Test.streams t) by exact (f_equal Test.streams H). split.
  - exists []. by rewrite app_nil_r.
  - intros Hn _. unfold numbered. by rewrite Hs.
  - exact (f_equal Test.protocol H).
  - exact (f_equal Test.mode H).
  - exact (f_equal Test.num_streams H).
Qed.
Lemma create_streams_extends orig sender n : forall i p r p', is_Some (Test.protocol (tst p)) -> Test.bind_port (tst p) = orig ->
  create_streams orig sender i n p = Some (r, p') -> 0 <= r ->
  extended sender n (tst p) (tst p') /\ Test.bind_port (tst p') = orig.
Proof.
  induction n as [|n IH]; intros i p r p' [proto Hp] Hb H Hr; cbn [create_streams] in H.
  { injection H as _ <-. split; [|done]. split; try done. exists []. by rewrite app_nil_r. }
  pstep H. set (p1 := p <| tst ::= _ |>) in H. pstep H. apply connect_resizes in E as (b & start & Eb).
  pstep H. destruct (x <? 0); [injection H as <- _; lia|]. pstep H. destruct x0 as [sp|]; [|injection H as <- _; lia].
  apply (new_stream_extends _ _ _ _ _ proto) in E as [Hx Hbp]; [|by cbn; rewrite Eb].
  pstep H. apply (unsaid_new_stream sp) in E as [Et _].
  assert (H0 : extended sender 0 (tst p) (tst (st <| tst ::= fun t => t <| Test.bind_port := orig |> |>))).
  { cbn [tst modify_field prog_eta eta_of]. rewrite Eb. split; try done. exists []. by rewrite app_nil_r. }
  pose proof (extended_trans _ _ _ _ _ _ (extended_trans _ _ _ _ _ _ H0 Hx) (extended_unsaid sender _ _ Et)) as H1.
  apply (f_equal Test.bind_port) in Et. cbn in Et. rewrite <-Et in Hbp.
  apply IH in H as [H2 H3]; [|rewrite (ext_protocol _ _ _ _ H1); by eexists|by rewrite Hbp|done].
  split; [|done]. exact (extended_trans _ 1 _ _ _ _ H1 H2).
Qed.

(** In JSON the connections of the new streams are listed in their order. *)
Definition is_entry (sp : iperf_stream) (o : cJSON) : Prop :=
  cJSON_GetObjectItem o "socket" = Some (cJSON_CreateNumber (Z2d (Stream.socket sp))).
Definition announces (t t' : iperf_test) : Prop :=
  forall l, nonzero (Test.json_output t) = true -> Test.json_connected t = Some (cJSON_Array l) ->
  exists new entries, Test.streams t' = (Test.streams t ++ new)%list /\ Test.json_connected t' = Some (cJSON_Array (l ++ entries)) /\
    Forall2 is_entry new entries /\ nonzero (Test.json_output t') = true.
Lemma announces_nothing t t' : Test.streams t' = Test.streams t -> Test.json_connected t' = Test.json_connected t ->
  Test.json_output t' = Test.json_output t -> announces t t'.
Proof. intros Hs Hc Ho l. exists [], []. rewrite !app_nil_r. by split_and!; try congruence. Qed.
#[export] Instance announces_trans : Transitive announces.
Proof.
  intros a b c H1 H2 l Hj Hc. destruct (H1 l Hj Hc) as (n1 & e1 & S1 & C1 & F1 & J1). destruct (H2 _ J1 C1) as (n2 & e2 & S2 & C2 & F2 & J2).
  exists (n1 ++ n2)%list, (e1 ++ e2)%list. rewrite S2, S1, C2, <-!app_assoc. split_and!; [done|done|by apply Forall2_app|done].
Qed.
Lemma connect_msg_lists sp s s' l : connect_msg sp s = Some (tt, s') -> nonzero (Test.json_output (tst s)) = true ->
  Test.json_connected (tst s) = Some (cJSON_Array l) ->
  exists o, is_entry sp o /\ Test.json_connected (tst s') = Some (cJSON_Array (l ++ [o])).
Proof.
  intros H Hj Hc. unfold connect_msg in H. pstep H. apply do_os_inv in E as (Et & _ & _).
  destruct (Stream.local_addr sp) as [ipl lport], (Stream.remote_addr sp) as [ipr rport]. cbv zeta in H. pstep H. rewrite Et, Hj in H.
  pstep H. unfold mopt in E. destruct (iperf_json_printf _ _) as [o|] eqn:Eo; [|done]. injection E as <- <-. injection H as <-.
  exists o. split.
  - lazy -[cJSON_CreateNumber cJSON_CreateString Z2d mapped_v4_to_regular_v4] in Eo. injection Eo as <-. done.
  - cbn. by rewrite Et, Hc.
Qed.
Lemma new_stream_announces s sender p sp p1 p2 : iperf_new_stream s sender p = Some (Some sp, p1) ->
  iperf_on_new_stream sp p1 = Some (tt, p2) -> announces (tst p) (tst p2).
Proof.
  intros Hn Ha l Hj Hc. unfold iperf_new_stream in Hn. pstep Hn. pstep Hn. apply do_os_inv in E as (Et & _ & _).
  destruct x as [sp'|]; [|done]. pstep Hn. injection Hn as -> <-. pose proof (unsaid_new_stream sp _ _ _ Ha) as [Hu _].
  set (p1 := {| tst := iperf_add_stream sp (tst st); tmr := tmr st; os := os st |}) in *.
  assert (H1 : nonzero (Test.json_output (tst p1)) = true /\ Test.json_connected (tst p1) = Some (cJSON_Array l) /\
    exists i, Test.streams (tst p1) = (Test.streams (tst p) ++ [sp <| Stream.id := i |>])%list).
  { unfold p1. cbn [tst]. rewrite Et. unfold iperf_add_stream. destruct (Test.streams (tst p)); eauto. }
  destruct H1 as (Hj1 & Hc1 & i & Hs1). destruct (connect_msg_lists _ _ _ _ Ha Hj1 Hc1) as (o & Ho & Hc2).
  exists [sp <| Stream.id := i |>], [o]. split_and!; [|done|by constructor|].
  - pose proof (f_equal Test.streams Hu) as E. cbn [Test.streams unsaid] in E. rewrite <-Hs1. exact E.
  - rewrite <-Hj1. f_equal. exact (f_equal Test.json_output Hu).
Qed.
Lemma create_streams_announces orig sender n : forall i p r p',
  create_streams orig sender i n p = Some (r, p') -> 0 <= r -> announces (tst p) (tst p').
Proof.
  induction n as [|n IH]; intros i p r p' H Hr; cbn [create_streams] in H; [injection H as _ <-; by apply announces_nothing|].
  pstep H. pstep H. apply connect_resizes in E as (b & start & Eb). pstep H. destruct (x <? 0); [injection H as <- _; lia|].
  pstep H. destruct x0 as [sp|]; [|injection H as <- _; lia]. pstep H. destruct x0. apply IH in H; [|done].
  etrans; [|exact H]. etrans; [|exact (new_stream_announces _ _ _ _ _ _ E E0)].
  cbn [tst modify_field prog_eta eta_of]. rewrite Eb. by apply announces_nothing.
Qed.

(** C34. Creating the streams of one direction makes exactly the number asked
    for.  When [iperf_create_streams] succeeds it has added [num_streams] fresh
    streams of the given direction after those the test had, numbered on from
    them, and has put the local port back; a JSON report then lists their
    connections, each with its socket, in the same order. *)
Theorem iperf_create_streams_makes (p p' : prog) (sender r : Z) :
  is_Some (Test.protocol (tst p)) -> iperf_create_streams sender p = Some (r, p') -> 0 <= r ->
  extended sender (Z.to_nat (Test.num_streams (tst p))) (tst p) (tst p') /\
  Test.bind_port (tst p') = Test.bind_port (tst p) /\ announces (tst p) (tst p').
Proof.
  intros Hp H Hr. unfold iperf_create_streams in H. pstep H. pose proof (create_streams_announces _ _ _ _ _ _ _ H Hr) as Ha.
  apply create_streams_extends in H as [He Hb]; done.
Qed.
Definition client_of_two : prog :=
  Prog (demo_test <| Test.num_streams := 2 |> <| Test.server_hostname := Some "host" |> <| Test.tmp_template := Some "t" |>
        <| Test.repeating_payload := 1 |> <| Test.settings ::= fun s => s <| Settings.blksize := 4 |> |>
        <| Test.json_output := 1 |> <| Test.json_connected := Some cJSON_CreateArray |>)
    (TS ∅ None None)
    (World (concat (map (fun s => [Reply 0 0 [] [AF_INET]; Reply s 0 [] []; Reply 0 0 [] [9000]; Reply 0 0 [] [9000]; ok;
                                  Reply 37 0 [] []; Reply (s + 1) 0 [] []; ok; ok; ok; ok; ok; Reply 0 0 [] [AF_INET]]) [6; 8])) [] 0 0 0).
Lemma iperf_create_streams_makes_witness :
  exists p', iperf_create_streams 1 client_of_two = Some (0, p') /\
  map Stream.id (Test.streams (tst p')) = [1; 3] /\ map Stream.socket (Test.streams (tst p')) = [6; 8] /\
  (extended 1 2 (tst client_of_two) (tst p') /\ Test.bind_port (tst p') = Test.bind_port (tst client_of_two) /\
   announces (tst client_of_two) (tst p')).
Proof.
  eexists. split; [vm_compute; reflexivity|]. split; [reflexivity|]. split; [reflexivity|].
  apply (iperf_create_streams_makes client_of_two _ 1 0); [by eexists|vm_compute; reflexivity|lia].
Defined.
