(* ===== verification/Report.v ===== *)
(** * Reports

    The reporter callback: a row for every stream and a sum for every interval,
    and the summary at the end of the test, as text or as JSON.  Rows are built
    from the last interval of the stream; the null pointer of a stream without
    intervals is [None].  Allocation is taken to succeed and iflush, which only
    flushes, is left out. *)
From Stdlib Require Import Ascii String.
From stdpp Require Import strings.
From S2P Require Import Prelude Double IperfTime Text Units Cjson Iperf Error Sys Net Json Util Api Frame Params Printf Output.
#[local] Open Scope string_scope.
#[local] Open Scope Z_scope.

(** ** Common parts *)

Definition UNIT_LEN : nat := 32.
Definition units (n : double) (format : ascii) : string := unit_snprintf UNIT_LEN n format.
Definition seconds_between (a b : iperf_time) : double := iperf_time_in_secs (iperf_time_diff a b).2.
(** A rate, 0 when no time has passed. *)
Definition rate_of (bytes : Z) (seconds : double) : double :=
  if dltb dzero seconds then ddiv (Z2d bytes) seconds else dzero.
Definition percent (part all : Z) : double :=
  if 0 <? all then ddiv (dmul (Z2d 100) (Z2d part)) (Z2d all) else dzero.
Definition bits (bandwidth : double) : arg := Adbl (dmul bandwidth (Z2d 8)).
Definition milli (seconds : double) : arg := Adbl (dmul seconds (Z2d 1000)).

Definition last_interval (sp : iperf_stream) : option iperf_interval_results :=
  list.last (Result.interval_results (Stream.result sp)).
Definition stream_based (p : Protocol.protocol) : bool := (Protocol.id p =? Ptcp) || (Protocol.id p =? Psctp).
Definition both_ways (test : iperf_test) : bool := Test.mode test =? BIDIRECTIONAL.
Definition role_tag (test : iperf_test) (sender : Z) : string :=
  if both_ways test
  then "[" ++ (if nonzero sender then "TX" else "RX") ++ "-" ++ (if client test then "C" else "S") ++ "]" else "".
Definition filler (test : iperf_test) : string := if both_ways test then repeat_char " " 10 else "".
Definition omitted_text (omitted : Z) : string := if nonzero omitted then report_omitted else "".


(** The directions that are summed separately, the sending one of the client
    first; -1 and 1 stand for sending. *)
Definition report_modes (test : iperf_test) : list Z :=
  if both_ways test then (if client test then [-1; 0] else [0; 1]) else [Test.mode test].

(** ** One stream, one interval *)

(** Above the first row: a header in the first interval, later a separator
    between groups of rows. *)
Definition interval_header (test : iperf_test) (p : Protocol.protocol) (sp : iperf_stream) (irp : iperf_interval_results) : P unit :=
  let bidir := nonzero (Test.bidirectional test) in
  if iperf_time_compare (Result.start_time (Stream.result sp)) (Interval.interval_start_time irp) =? 0 then
    if stream_based p then
      if Test.sender_has_retransmits test =? 1
      then say "%s" [Astr (if bidir then report_bw_retrans_cwnd_header_bidir else report_bw_retrans_cwnd_header)]
      else say "%s" [Astr (if bidir then report_bw_header_bidir else report_bw_header)]
    else if Test.mode test =? SENDER then say "%s" [Astr report_bw_udp_sender_header]
    else if Test.mode test =? RECEIVER then say "%s" [Astr report_bw_udp_header]
    else say "%s" [Astr report_bw_udp_header_bidir]
  else when (1 <? Test.num_streams test) (say "%s" [Astr report_bw_separator]).

(** The row as text or as an object for the list of streams; [first] tells the
    first stream of the test. *)
Definition print_interval_results (test : iperf_test) (p : Protocol.protocol) (first : bool) (sp : iperf_stream) : P (list cJSON) :=
  match last_interval sp with
  | None => iperf_err "print_interval_results error: interval_results is NULL" ;; mret []
  | Some irp =>
      let json := nonzero (Test.json_output test) in
      when (negb json && first) (interval_header test p sp irp) ;;
      let bytes := Interval.bytes_transferred irp in
      let ubuf := units (Z2d bytes) "A" in
      let bandwidth := rate_of bytes (Interval.interval_duration irp) in
      let nbuf := units bandwidth (Settings.unit_format (Test.settings test)) in
      let st := seconds_between (Result.start_time (Stream.result sp)) (Interval.interval_start_time irp) in
      let et := seconds_between (Result.start_time (Stream.result sp)) (Interval.interval_end_time irp) in
      let row (format : string) (args : list arg) : P (list cJSON) :=
        let! o := mopt (iperf_json_printf format (([Aint (Stream.socket sp); Adbl st; Adbl et;
          Adbl (Interval.interval_duration irp); Aint (i64 bytes); bits bandwidth] ++ args)%list)) in mret [o] in
      let line (format : string) (args : list arg) : P (list cJSON) :=
        say format (([Aint (Stream.socket sp); Astr (role_tag test (Stream.sender sp)); Adbl st; Adbl et; Astr ubuf; Astr nbuf]
          ++ args ++ [Astr (omitted_text (Interval.omitted irp))])%list) ;; mret [] in
      let flags := [Aint (Interval.omitted irp); Aint (Stream.sender sp)] in
      if stream_based p then
        if ((Test.sender_has_retransmits test =? 1) || (Protocol.id p =? Psctp)) && nonzero (Stream.sender sp) then
          if json then
            row "socket: %d  start: %f  end: %f  seconds: %f  bytes: %d  bits_per_second: %f  retransmits: %d  snd_cwnd:  %d  snd_wnd:  %d  rtt:  %d  rttvar: %d  pmtu: %d  omitted: %b sender: %b"
              ([Aint (Interval.interval_retrans irp); Aint (Interval.snd_cwnd irp); Aint (Interval.snd_wnd irp);
                Aint (Interval.rtt irp); Aint (Interval.rttvar irp); Aint (Interval.pmtu irp)] ++ flags)%list
          else
            line report_bw_retrans_cwnd_format
              [Aint (Interval.interval_retrans irp); Astr (units (Z2d (Interval.snd_cwnd irp)) "A")]
        else if json then
          row "socket: %d  start: %f  end: %f  seconds: %f  bytes: %d  bits_per_second: %f  omitted: %b sender: %b" flags
        else line report_bw_format []
      else if nonzero (Stream.sender sp) then
        if json then
          row "socket: %d  start: %f  end: %f  seconds: %f  bytes: %d  bits_per_second: %f  packets: %d  omitted: %b sender: %b"
            (Aint (Interval.interval_packet_count irp) :: flags)
        else line report_bw_udp_sender_format [Astr (filler test); Aint (Interval.interval_packet_count irp)]
      else
        let lost_percent := percent (Interval.interval_cnt_error irp) (Interval.interval_packet_count irp) in
        if json then
          row "socket: %d  start: %f  end: %f  seconds: %f  bytes: %d  bits_per_second: %f  jitter_ms: %f  lost_packets: %d  packets: %d  lost_percent: %f  omitted: %b sender: %b"
            ([milli (Interval.jitter irp); Aint (Interval.interval_cnt_error irp); Aint (Interval.interval_packet_count irp);
              Adbl lost_percent] ++ flags)%list
        else
          line report_bw_udp_format [milli (Interval.jitter irp); Aint (Interval.interval_cnt_error irp);
                                     Aint (Interval.interval_packet_count irp); Adbl lost_percent]
  end.

(** ** The sum of an interval *)

Record sums := Sums { bytes : Z; retransmits : Z; total_packets : Z; lost_packets : Z; avg_jitter : double }.
Definition no_sums : sums := Sums 0 0 0 0 dzero.

Definition add_interval (test : iperf_test) (p : Protocol.protocol) (irp : iperf_interval_results) (s : sums) : sums :=
  let b := u64 (bytes s + Interval.bytes_transferred irp) in
  if Protocol.id p =? Ptcp
  then Sums b (if Test.sender_has_retransmits test =? 1 then i64 (retransmits s + Interval.interval_retrans irp) else retransmits s)
         (total_packets s) (lost_packets s) (avg_jitter s)
  else Sums b (retransmits s) (i64 (total_packets s + Interval.interval_packet_count irp))
         (i64 (lost_packets s + Interval.interval_cnt_error irp)) (dadd (avg_jitter s) (Interval.jitter irp)).

(** The rows of one direction with the sums; the first result is false after
    the error return for a stream without intervals. *)
Fixpoint interval_rows (test : iperf_test) (p : Protocol.protocol) (must : Z) (first : bool) (l : list iperf_stream) (s : sums) : P (bool * list cJSON * sums) :=
  match l with
  | [] => mret (true, [], s)
  | sp :: l =>
      if Stream.sender sp =? must then
        let! row := print_interval_results test p first sp in
        match last_interval sp with
        | None => iperf_err "iperf_print_intermediate error: interval_results is NULL" ;; mret (false, row, s)
        | Some irp =>
            let! (ok, rows, s) := interval_rows test p must false l (add_interval test p irp s) in
            mret (ok, (row ++ rows)%list, s)
        end
      else interval_rows test p must false l s
  end.

(** The name of a sum: what the server sends in a bidirectional test is the
    reverse channel. *)
Definition sum_name (test : iperf_test) (must : Z) (name : string) : string :=
  if both_ways test && (client test && (must =? 0) || negb (client test) && negb (must =? 0))
  then name ++ "_bidir_reverse" else name.

(** The sum, timed by the first stream. *)
Definition interval_sum (test : iperf_test) (p : Protocol.protocol) (must : Z) (sp : iperf_stream) (s : sums) : P (list (string * cJSON)) :=
  let! irp := mopt (last_interval sp) in
  let json := nonzero (Test.json_output test) in
  let ubuf := units (Z2d (bytes s)) "A" in
  let bandwidth := ddiv (Z2d (bytes s)) (Interval.interval_duration irp) in
  let nbuf := units bandwidth (Settings.unit_format (Test.settings test)) in
  let start := seconds_between (Result.start_time (Stream.result sp)) (Interval.interval_start_time irp) in
  let stop := seconds_between (Result.start_time (Stream.result sp)) (Interval.interval_end_time irp) in
  let obj (format : string) (args : list arg) : P (list (string * cJSON)) :=
    let! o := mopt (iperf_json_printf format (([Adbl start; Adbl stop; Adbl (Interval.interval_duration irp);
                      Aint (i64 (bytes s)); bits bandwidth] ++ args)%list)) in
    mret [(sum_name test must "sum", o)] in
  let line (format : string) (args : list arg) (omitted : Z) : P (list (string * cJSON)) :=
    say format (([Astr (role_tag test must); Adbl start; Adbl stop; Astr ubuf; Astr nbuf] ++ args ++ [Astr (omitted_text omitted)])%list) ;; mret [] in
  if stream_based p then
    if (Test.sender_has_retransmits test =? 1) && nonzero must then
      if json then
        obj "start: %f  end: %f  seconds: %f  bytes: %d  bits_per_second: %f  retransmits: %d  omitted: %b sender: %b"
          [Aint (retransmits s); Aint (Interval.omitted irp); Aint must]
      else line report_sum_bw_retrans_format [Aint (retransmits s)] (Interval.omitted irp)
    else if json then
      obj "start: %f  end: %f  seconds: %f  bytes: %d  bits_per_second: %f  omitted: %b sender: %b" [Aint (Test.omitting test); Aint must]
    else line report_sum_bw_format [] (Test.omitting test)
  else if nonzero must then
    if json then
      obj "start: %f  end: %f  seconds: %f  bytes: %d  bits_per_second: %f  packets: %d  omitted: %b sender: %b"
        [Aint (total_packets s); Aint (Test.omitting test); Aint must]
    else line report_sum_bw_udp_sender_format [Astr (filler test); Aint (total_packets s)] (Test.omitting test)
  else
    let jitter := ddiv (avg_jitter s) (Z2d (Test.num_streams test)) in
    let lost_percent := percent (lost_packets s) (total_packets s) in
    if json then
      obj "start: %f  end: %f  seconds: %f  bytes: %d  bits_per_second: %f  jitter_ms: %f  lost_packets: %d  packets: %d  lost_percent: %f  omitted: %b sender: %b"
        [milli jitter; Aint (lost_packets s); Aint (total_packets s); Adbl lost_percent; Aint (Test.omitting test); Aint must]
    else line report_sum_bw_udp_format [milli jitter; Aint (lost_packets s); Aint (total_packets s); Adbl lost_percent] (Test.omitting test).

Definition interval_direction (test : iperf_test) (p : Protocol.protocol) (mode : Z) : P (bool * list cJSON * list (string * cJSON)) :=
  let must := mode * mode in
  let! (ok, rows, s) := interval_rows test p must true (Test.streams test) no_sums in
  if negb ok then mret (false, rows, [])
  else
    let! sum := match Test.streams test with
                | sp :: _ => if (1 <? Test.num_streams test) || nonzero (Test.json_output test)
                             then interval_sum test p must sp s else mret []
                | [] => mret []
                end in
    mret (true, rows, sum).

Fixpoint interval_directions (test : iperf_test) (p : Protocol.protocol) (modes : list Z) : P (bool * list cJSON * list (string * cJSON)) :=
  match modes with
  | [] => mret (true, [], [])
  | mode :: modes =>
      let! (ok, rows, sums) := interval_direction test p mode in
      if negb ok then mret (false, rows, sums)
      else
        let! (ok, rows', sums') := interval_directions test p modes in
        mret (ok, (rows ++ rows')%list, (sums ++ sums')%list)
  end.

(** ** The interval report *)

(** Worth printing: at least a tenth of the interval, or some data. *)
Definition keep_interval (test : iperf_test) (sp : iperf_stream) : bool :=
  match last_interval sp with
  | None => false
  | Some irp =>
      dleb (dmul (Test.stats_interval test) (dlit 1 10))
        (seconds_between (Interval.interval_start_time irp) (Interval.interval_end_time irp))
      || (0 <? Interval.bytes_transferred irp)
  end.
Definition discard_json (test : iperf_test) : bool :=
  (Test.json_stream test =? 1) && negb (server test && nonzero (Test.get_server_output test)).

Definition iperf_print_intermediate : P unit :=
  let! test := get_test in
  if negb (existsb (keep_interval test) (Test.streams test)) then mret tt
  else
    let json := nonzero (Test.json_output test) in
    let! p := mopt (Test.protocol test) in
    let! (ok, rows, sums) := interval_directions test p (report_modes test) in
    let interval := if json then Some (cJSON_Object (("streams", cJSON_Array rows) :: sums)) else None in
    (match interval with
     | Some o => when (negb (discard_json test)) (upd (fun t => t <| Test.json_intervals ::= add_to_array o |>))
     | None => mret tt
     end) ;;
    when (ok && nonzero (Test.json_stream test)) (JSONStream_Output "interval" interval ;; mret tt).

(** ** The summary of the test *)

Definition summary_header (test : iperf_test) (p : Protocol.protocol) : P unit :=
  let bidir := nonzero (Test.bidirectional test) in
  say "%s" [Astr report_bw_separator] ;;
  when (nonzero (Test.verbose test)) (say "%s" [Astr report_summary]) ;;
  if stream_based p then
    if nonzero (Test.sender_has_retransmits test) || nonzero (Test.other_side_has_retransmits test)
    then say "%s" [Astr (if bidir then report_bw_retrans_header_bidir else report_bw_retrans_header)]
    else say "%s" [Astr (if bidir then report_bw_header_bidir else report_bw_header)]
  else say "%s" [Astr (if bidir then report_bw_udp_header_bidir else report_bw_udp_header)].

(** The running times kept with the first stream; a side that is not known is
    taken to be the other one. *)
Definition end_time_of (sp : iperf_stream) : double :=
  seconds_between (Result.start_time (Stream.result sp)) (Result.end_time (Stream.result sp)).
Definition fix_times (sp : iperf_stream) : iperf_stream :=
  let t := end_time_of sp in
  sp <| Stream.result ::= fun rp =>
    if nonzero (Stream.sender sp)
    then rp <| Result.sender_time := t |>
            <| Result.receiver_time ::= fun r => if deqb r dzero then t else r |>
    else rp <| Result.receiver_time := t |>
            <| Result.sender_time ::= fun s => if deqb s dzero then t else s |> |>.
Definition on_first (f : iperf_stream -> iperf_stream) (l : list iperf_stream) : list iperf_stream :=
  match l with [] => [] | sp :: l => f sp :: l end.

Record totals := Totals {
  total_sent : Z; total_received : Z; total_retransmits : Z; all_packets : Z;
  sender_total_packets : Z; receiver_total_packets : Z; total_lost : Z; total_jitter : double }.
Definition no_totals : totals := Totals 0 0 0 0 0 0 0 dzero.

(** The packet counts of the two ends: counted, and of them in the omitted time. *)
Definition sender_packet_count (sp : iperf_stream) : Z :=
  if nonzero (Stream.sender sp) then Stream.packet_count sp else Stream.peer_packet_count sp.
Definition sender_omitted_packet_count (sp : iperf_stream) : Z :=
  if nonzero (Stream.sender sp) then Stream.omitted_packet_count sp else Stream.peer_omitted_packet_count sp.
Definition receiver_packet_count (sp : iperf_stream) : Z :=
  if nonzero (Stream.sender sp) then Stream.peer_packet_count sp else Stream.packet_count sp.
Definition receiver_omitted_packet_count (sp : iperf_stream) : Z :=
  if nonzero (Stream.sender sp) then Stream.peer_omitted_packet_count sp else Stream.omitted_packet_count sp.
(** What counts: everything outside the omitted time. *)
Definition net_sent (sp : iperf_stream) : Z := i64 (sender_packet_count sp - sender_omitted_packet_count sp).
Definition net_received (sp : iperf_stream) : Z := i64 (receiver_packet_count sp - receiver_omitted_packet_count sp).
Definition net_lost (sp : iperf_stream) : Z := i64 (Stream.cnt_error sp - Stream.omitted_cnt_error sp).
(** The packets of the sender, or else of the receiver. *)
Definition net_packets (sp : iperf_stream) : Z :=
  let n := if nonzero (sender_packet_count sp) then sender_packet_count sp else receiver_packet_count sp in
  i64 (n - Stream.omitted_packet_count sp).
Definition net_reordered (sp : iperf_stream) : Z := i64 (Stream.outoforder_packets sp - Stream.omitted_outoforder_packets sp).
Definition stream_bytes_sent (sp : iperf_stream) : Z :=
  u64 (Result.bytes_sent (Stream.result sp) - Result.bytes_sent_omit (Stream.result sp)).

Definition add_stream (test : iperf_test) (p : Protocol.protocol) (sp : iperf_stream) (t : totals) : totals :=
  let sent := u64 (total_sent t + stream_bytes_sent sp) in
  let received := u64 (total_received t + Result.bytes_received (Stream.result sp)) in
  if stream_based p then
    Totals sent received
      (if nonzero (Test.sender_has_retransmits test) then i64 (total_retransmits t + Result.stream_retrans (Stream.result sp))
       else total_retransmits t)
      (all_packets t) (sender_total_packets t) (receiver_total_packets t) (total_lost t) (total_jitter t)
  else
    let lost := i64 (total_lost t + Stream.cnt_error sp) in
    Totals sent received (total_retransmits t) (i64 (all_packets t + net_packets sp))
      (i64 (sender_total_packets t + net_sent sp)) (i64 (receiver_total_packets t + net_received sp))
      (if -1 <? Stream.omitted_cnt_error sp then i64 (lost - Stream.omitted_cnt_error sp) else lost)
      (dadd (total_jitter t) (Stream.jitter sp)).

Section Summary.
Context (test : iperf_test) (p : Protocol.protocol) (must : Z) (sender_time receiver_time : double).

Definition json : bool := nonzero (Test.json_output test).
Definition unavailable (format : string) (who : arg) : P unit := when (nonzero (Test.verbose test)) (say format [who]).
Definition rate_text (bandwidth : double) : string := units bandwidth (Settings.unit_format (Test.settings test)).

(** The half of the summary about sending; the objects it adds for the stream. *)
Definition sender_summary (sp : iperf_stream) : P (list (string * cJSON)) :=
  let rp := Stream.result sp in
  let sent := stream_bytes_sent sp in
  let ubuf := units (Z2d sent) "A" in
  let bandwidth := rate_of sent sender_time in
  let nbuf := rate_text bandwidth in
  let row := [Aint (Stream.socket sp); Astr (role_tag test must); Adbl dzero; Adbl sender_time; Astr ubuf; Astr nbuf] in
  let object := [Aint (Stream.socket sp); Adbl dzero; Adbl sender_time; Adbl sender_time; Aint (i64 sent); bits bandwidth] in
  let hidden := server test && negb (nonzero (Stream.sender sp)) in
  let no_sender := unavailable report_sender_not_available_format (Aint (Stream.socket sp)) in
  if stream_based p then
    if nonzero (Test.sender_has_retransmits test) || (Protocol.id p =? Psctp) then
      if json then
        let! o := mopt (iperf_json_printf "socket: %d  start: %f  end: %f  seconds: %f  bytes: %d  bits_per_second: %f  retransmits: %d  max_snd_cwnd:  %d  max_snd_wnd:  %d  max_rtt:  %d  min_rtt:  %d  mean_rtt:  %d sender: %b"
          (object ++ [Aint (Result.stream_retrans rp); Aint (Result.stream_max_snd_cwnd rp); Aint (Result.stream_max_snd_wnd rp);
            Aint (Result.stream_max_rtt rp); Aint (Result.stream_min_rtt rp);
            Aint (if Result.stream_count_rtt rp =? 0 then 0 else Z.quot (Result.stream_sum_rtt rp) (Result.stream_count_rtt rp));
            Aint must])%list) in
        mret [(report_sender, o)]
      else if hidden then no_sender ;; mret []
      else say report_bw_retrans_format (row ++ [Aint (Result.stream_retrans rp); Astr report_sender])%list ;; mret []
    else if json then
      let! o := mopt (iperf_json_printf "socket: %d  start: %f  end: %f  seconds: %f  bytes: %d  bits_per_second: %f sender: %b" (object ++ [Aint must])%list) in
      mret [(report_sender, o)]
    else if hidden then no_sender ;; mret []
    else say report_bw_format (row ++ [Astr report_sender])%list ;; mret []
  else if json then
    let! o := mopt (iperf_json_printf "socket: %d  start: %f  end: %f  seconds: %f  bytes: %d  bits_per_second: %f  jitter_ms: %f  lost_packets: %d  packets: %d  lost_percent: %f  out_of_order: %d sender: %b"
      (object ++ [milli (Stream.jitter sp); Aint (net_lost sp); Aint (net_packets sp); Adbl (percent (net_lost sp) (net_sent sp));
        Aint (net_reordered sp); Aint must])%list) in
    mret [("udp", o)]
  else
    (if hidden then no_sender
     else say report_bw_udp_format (row ++ [Adbl dzero; Aint 0; Aint (net_sent sp); Adbl dzero; Astr report_sender])%list) ;;
    when (0 <? net_reordered sp)
      (say report_sum_outoforder [Astr (role_tag test must); Adbl dzero; Adbl sender_time; Aint (net_reordered sp)]) ;;
    mret [].

(** The share of the file that was moved; undefined when the percentage does
    not fit an integer, and without a file name. *)
Definition file_percent (part size : Z) : option Z :=
  if 0 <? size then d2i32 (dmul (ddiv (Z2d part) (Z2d size)) (Z2d 100)) else Some 100.
Definition disk_summary (sp : iperf_stream) : P (list (string * cJSON)) :=
  if 0 <=? Stream.diskfile_fd sp then
    let! r := do_os (sys (Cfstat (Stream.diskfile_fd sp))) in
    if ret r =? 0 then
      let size := nth 0 (outs r) 0 in
      let sent := stream_bytes_sent sp in
      let received := Result.bytes_received (Stream.result sp) in
      let! percent_sent := mopt (file_percent sent size) in
      let! percent_received := mopt (file_percent received size) in
      let! name := mopt (Test.diskfile_name test) in
      if json then
        let! o := mopt (iperf_json_printf "sent: %d  received: %d  size: %d  percent_sent: %d  percent_received: %d  filename: %s"
          [Aint (i64 sent); Aint (i64 received); Aint size; Aint percent_sent; Aint percent_received; Astr name]) in
        mret [("diskfile", o)]
      else
        (if nonzero must
         then say report_diskfile [Astr (units (Z2d sent) "A"); Astr (units (Z2d size) "A"); Aint percent_sent; Astr name]
         else say report_diskfile [Astr (units (Z2d received) "A"); Astr (units (Z2d size) "A"); Aint percent_received; Astr name]) ;;
        mret []
    else mret []
  else mret [].

Definition receiver_summary (sp : iperf_stream) : P (list (string * cJSON)) :=
  let received := Result.bytes_received (Stream.result sp) in
  let bandwidth := rate_of received receiver_time in
  let row := [Aint (Stream.socket sp); Astr (role_tag test must); Adbl dzero; Adbl receiver_time;
              Astr (units (Z2d received) "A"); Astr (rate_text bandwidth)] in
  let hidden := server test && nonzero (Stream.sender sp) in
  let no_receiver := unavailable report_receiver_not_available_format (Aint (Stream.socket sp)) in
  if stream_based p then
    if json then
      let! first := mopt (hd_error (Test.streams test)) in
      let! o := mopt (iperf_json_printf "socket: %d  start: %f  end: %f  seconds: %f  bytes: %d  bits_per_second: %f sender: %b"
        [Aint (Stream.socket sp); Adbl dzero; Adbl receiver_time; Adbl (end_time_of first); Aint (i64 received); bits bandwidth; Aint must]) in
      mret [(report_receiver, o)]
    else if hidden then no_receiver ;; mret []
    else say report_bw_format (row ++ [Astr report_receiver])%list ;; mret []
  else if json then mret []
  else if hidden then no_receiver ;; mret []
  else if -1 <? Stream.omitted_cnt_error sp then
    say report_bw_udp_format (row ++ [milli (Stream.jitter sp); Aint (net_lost sp); Aint (net_received sp);
                                      Adbl (percent (net_lost sp) (net_received sp)); Astr report_receiver])%list ;; mret []
  else say report_bw_udp_format_no_omitted_error (row ++ [milli (Stream.jitter sp); Aint (net_received sp); Astr report_receiver])%list ;; mret [].

(** The streams of the direction: an object for each, and the totals. *)
Fixpoint summary_rows (l : list iperf_stream) (t : totals) : P (list cJSON * totals) :=
  match l with
  | [] => mret ([], t)
  | sp :: l =>
      if Stream.sender sp =? must then
        let! s := sender_summary sp in
        let! d := disk_summary sp in
        let! r := receiver_summary sp in
        let! (rows, t) := summary_rows l (add_stream test p sp t) in
        mret (if json then cJSON_Object (s ++ d ++ r)%list :: rows else rows, t)
      else summary_rows l t
  end.

Definition stream_sum (t : totals) : P (list (string * cJSON)) :=
  let bandwidth := rate_of (total_sent t) sender_time in
  let row := [Astr (role_tag test must); Adbl dzero; Adbl sender_time; Astr (units (Z2d (total_sent t)) "A"); Astr (rate_text bandwidth)] in
  let object := [Adbl dzero; Adbl sender_time; Adbl sender_time; Aint (i64 (total_sent t)); bits bandwidth] in
  let name := sum_name test must "sum_sent" in
  let hidden := server test && (must =? 0) in
  let no_sender := unavailable report_sender_not_available_summary_format (Astr "SUM") in
  let! sent :=
    if nonzero (Test.sender_has_retransmits test) then
      if json then
        let! o := mopt (iperf_json_printf "start: %f  end: %f  seconds: %f  bytes: %d  bits_per_second: %f  retransmits: %d sender: %b"
          (object ++ [Aint (total_retransmits t); Aint must])%list) in mret [(name, o)]
      else if hidden then no_sender ;; mret []
      else say report_sum_bw_retrans_format (row ++ [Aint (total_retransmits t); Astr report_sender])%list ;; mret []
    else if json then
      let! o := mopt (iperf_json_printf "start: %f  end: %f  seconds: %f  bytes: %d  bits_per_second: %f sender: %b" (object ++ [Aint must])%list) in
      mret [(name, o)]
    else if hidden then no_sender ;; mret []
    else say report_sum_bw_format (row ++ [Astr report_sender])%list ;; mret [] in
  let bandwidth := rate_of (total_received t) receiver_time in
  let! received :=
    if json then
      let! o := mopt (iperf_json_printf "start: %f  end: %f  seconds: %f  bytes: %d  bits_per_second: %f sender: %b"
        [Adbl dzero; Adbl receiver_time; Adbl receiver_time; Aint (i64 (total_received t)); bits bandwidth; Aint must]) in
      mret [(sum_name test must "sum_received", o)]
    else if server test && nonzero must then unavailable report_receiver_not_available_summary_format (Astr "SUM") ;; mret []
    else say report_sum_bw_format [Astr (role_tag test must); Adbl dzero; Adbl receiver_time;
           Astr (units (Z2d (total_received t)) "A"); Astr (rate_text bandwidth); Astr report_receiver] ;; mret [] in
  mret (sent ++ received)%list.

Definition datagram_sum (end_time : double) (t : totals) : P (list (string * cJSON)) :=
  let bandwidth := rate_of (total_sent t) sender_time in
  let jitter := ddiv (total_jitter t) (Z2d (Test.num_streams test)) in
  let lost_percent := percent (total_lost t) (all_packets t) in
  if json then
    let format := "start: %f  end: %f  seconds: %f  bytes: %d  bits_per_second: %f  jitter_ms: %f  lost_packets: %d  packets: %d  lost_percent: %f sender: %b" in
    let! all := mopt (iperf_json_printf format [Adbl dzero; Adbl receiver_time; Adbl receiver_time; Aint (i64 (total_sent t)); bits bandwidth;
      milli jitter; Aint (total_lost t); Aint (all_packets t); Adbl lost_percent; Aint must]) in
    let! sent := mopt (iperf_json_printf format [Adbl dzero; Adbl sender_time; Adbl sender_time; Aint (i64 (total_sent t));
      Adbl (ddiv (dmul (Z2d (total_sent t)) (Z2d 8)) sender_time); Adbl dzero; Aint 0; Aint (sender_total_packets t); Adbl dzero; Aint 1]) in
    let! received := mopt (iperf_json_printf format [Adbl dzero; Adbl receiver_time; Adbl receiver_time; Aint (i64 (total_received t));
      Adbl (ddiv (dmul (Z2d (total_received t)) (Z2d 8)) receiver_time); milli jitter; Aint (total_lost t);
      Aint (receiver_total_packets t); Adbl lost_percent; Aint 0]) in
    mret [(sum_name test must "sum", all); (sum_name test must "sum_sent", sent); (sum_name test must "sum_received", received)]
  else
    when (negb (server test && (must =? 0)))
      (say report_sum_bw_udp_format [Astr (role_tag test must); Adbl dzero; Adbl sender_time; Astr (units (Z2d (total_sent t)) "A");
         Astr (rate_text bandwidth); Adbl dzero; Aint 0; Aint (sender_total_packets t); Adbl dzero; Astr report_sender]) ;;
    when (negb (server test && nonzero must))
      (let bandwidth := if dltb dzero end_time then ddiv (Z2d (total_received t)) receiver_time else dzero in
       say report_sum_bw_udp_format [Astr (role_tag test must); Adbl dzero; Adbl receiver_time; Astr (units (Z2d (total_received t)) "A");
         Astr (rate_text bandwidth); milli jitter; Aint (total_lost t); Aint (receiver_total_packets t); Adbl lost_percent; Astr report_receiver]) ;;
    mret [].
End Summary.

(** Congestion control as the sender and the receiver report it. *)
Definition congestion_pair (test : iperf_test) (must : Z) : option string * option string :=
  if nonzero must then (Test.congestion_used test, Test.remote_congestion_used test)
  else (Test.remote_congestion_used test, Test.congestion_used test).

Definition closing_json (test : iperf_test) (p : Protocol.protocol) (must : Z) : P (list (string * cJSON)) :=
  let cpu := map Adbl (take 3 (Test.cpu_util test) ++ take 3 (Test.remote_cpu_util test))%list in
  let! o := mopt (iperf_json_printf "host_total: %f  host_user: %f  host_system: %f  remote_total: %f  remote_user: %f  remote_system: %f" cpu) in
  let congestion (name : string) (c : option string) := match c with Some c => [(name, cJSON_CreateString c)] | None => [] end in
  mret (("cpu_utilization_percent", o) ::
        if Protocol.id p =? Ptcp then
          (congestion "sender_tcp_congestion" (congestion_pair test must).1 ++
           congestion "receiver_tcp_congestion" (congestion_pair test must).2)%list
        else []).

(** One line: the local end in the role [here], the remote end in [there]. *)
Definition cpu_line (test : iperf_test) (here there : string) : P unit :=
  say report_cpu ([Astr report_local; Astr here] ++ map Adbl (take 3 (Test.cpu_util test)) ++
                  [Astr report_remote; Astr there] ++ map Adbl (take 3 (Test.remote_cpu_util test)))%list.

Definition closing_text (test : iperf_test) (p : Protocol.protocol) (must : Z) : P unit :=
  when (nonzero must)
    (cpu_line test report_sender report_receiver ;;
     when (nonzero (Test.bidirectional test)) (cpu_line test report_receiver report_sender)) ;;
  when (Protocol.id p =? Ptcp)
    (match (congestion_pair test must).1 with Some c => say (nl "snd_tcp_congestion %s") [Astr c] | None => mret tt end ;;
     match (congestion_pair test must).2 with Some c => say (nl "rcv_tcp_congestion %s") [Astr c] | None => mret tt end).

(** The output of the server is printed once. *)
Definition print_server_output : P unit :=
  let! test := get_test in
  match Test.json_server_output test with
  | Some o =>
      let! str := mopt (cJSON_Print o) in
      say (newline ++ nl "Server JSON output:" ++ nl "%s") [Astr str] ;;
      upd (fun t => t <| Test.json_server_output := None |>)
  | None => mret tt
  end ;;
  match Test.server_output_text test with
  | Some text =>
      say (newline ++ nl "Server output:" ++ nl "%s") [Astr text] ;;
      upd (fun t => t <| Test.server_output_text := None |>)
  | None => mret tt
  end.

Definition add_to_end (fields : list (string * cJSON)) : P unit :=
  upd (fun t => t <| Test.json_end ::= option_map (fun o => fold_left (fun o f => cJSON_AddItemToObject o f.1 f.2) fields o) |>).

(** The sides of a bidirectional test may differ in what the sender knows. *)
Definition set_retransmits (own : Z) (must : Z) (test : iperf_test) : iperf_test :=
  if both_ways test
  then test <| Test.sender_has_retransmits := if nonzero must then own else Test.other_side_has_retransmits test |> else test.

(** One direction; [rows] are the stream objects so far, which the code has
    already linked into the end of the report. *)
Definition results_direction (own : Z) (p : Protocol.protocol) (last : bool) (mode : Z) : P (list cJSON * list (string * cJSON)) :=
  let must := mode * mode in
  upd (set_retransmits own must) ;;
  upd (fun t => t <| Test.streams ::= on_first fix_times |>) ;;
  let! test := get_test in
  let first := hd_error (Test.streams test) in
  let time (f : iperf_stream_result -> double) := match first with Some sp => f (Stream.result sp) | None => dzero end in
  let sender_time := time Result.sender_time in
  let receiver_time := time Result.receiver_time in
  let end_time := match first with Some sp => end_time_of sp | None => dzero end in
  let! (rows, t) := summary_rows test p must sender_time receiver_time (Test.streams test) no_totals in
  let! sums :=
    if (1 <? Test.num_streams test) || json test then
      if stream_based p then stream_sum test must sender_time receiver_time t
      else datagram_sum test must sender_time receiver_time end_time t
    else mret [] in
  let! closing :=
    if json test && last then closing_json test p must
    else
      when (nonzero (Test.verbose test)) (closing_text test p must) ;;
      when (client test && nonzero (iperf_get_test_get_server_output test) && negb (json test)) print_server_output ;;
      mret [] in
  mret (rows, (sums ++ closing)%list).

Fixpoint results_directions (own : Z) (p : Protocol.protocol) (modes : list Z) : P (list cJSON * list (string * cJSON)) :=
  match modes with
  | [] => mret ([], [])
  | mode :: modes =>
      let! (rows, fields) := results_direction own p (match modes with [] => true | _ => false end) mode in
      let! (rows', fields') := results_directions own p modes in
      mret ((rows ++ rows')%list, (fields ++ fields')%list)
  end.

Definition iperf_print_results : P unit :=
  let! test := get_test in
  let own := Test.sender_has_retransmits test in
  let! p := mopt (Test.protocol test) in
  when (negb (json test)) (summary_header test p) ;;
  let! (rows, fields) := results_directions own p (report_modes test) in
  when (json test) (add_to_end (("streams", cJSON_Array rows) :: fields)) ;;
  when (both_ways test) (upd (fun t => t <| Test.sender_has_retransmits := own |>)).

(** ** The callback *)

Definition STREAM_RUNNING : Z := 6.

Definition iperf_reporter_callback : P unit :=
  let! test := get_test in
  let state := Test.state test in
  if (state =? TEST_RUNNING) || (state =? STREAM_RUNNING) then iperf_print_intermediate
  else if (state =? TEST_END) || (state =? DISPLAY_RESULTS) then iperf_print_intermediate ;; iperf_print_results
  else mret tt.

(** ** Reports leave the test alone *)

(** The test without what reports may change: the output kept or consumed, the
    two running times, and the retransmit flag that is borrowed meanwhile. *)
Definition core_stream (sp : iperf_stream) : iperf_stream :=
  sp <| Stream.result ::= fun rp => rp <| Result.sender_time := dzero |> <| Result.receiver_time := dzero |> |>.
Definition core (t : iperf_test) : iperf_test :=
  t <| Test.server_output_list := [] |> <| Test.json_intervals := None |> <| Test.json_end := None |>
    <| Test.json_top := None |> <| Test.json_server_output := None |> <| Test.server_output_text := None |>
    <| Test.sender_has_retransmits := 0 |> <| Test.streams ::= map core_stream |>.

Definition unchanged (x : bool) (s s' : prog) : Prop :=
  core (tst s') = core (tst s) /\ tmr s' = tmr s /\
  (x || negb (both_ways (tst s)) = true -> Test.sender_has_retransmits (tst s') = Test.sender_has_retransmits (tst s)) /\
  exists lines, Test.server_output_list (tst s') = (Test.server_output_list (tst s) ++ lines)%list.
Lemma core_both_ways t t' : core t' = core t -> both_ways t' = both_ways t.
Proof. intros H. unfold both_ways. apply (f_equal Test.mode) in H. cbn in H. by rewrite H. Qed.
#[export] Instance unchanged_preorder x : PreOrder (unchanged x).
Proof.
  split; [intros s; split_and!; try done; exists []; by rewrite app_nil_r|].
  intros a b c (H1 & H2 & Hr & l1 & H3) (H4 & H5 & Hr' & l2 & H6). split_and!; [congruence..| |].
  - intros Hb. rewrite <-Hr by done. apply Hr'. by rewrite (core_both_ways _ _ H1).
  - exists (l1 ++ l2)%list. by rewrite H6, H3, app_assoc.
Qed.

(** In a run nothing is sent and the error of the test stays the same. *)
Definition says_nothing (w w' : world) : Prop :=
  i_errno w' = i_errno w /\ exists t, trace w' = (trace w ++ t)%list /\ sent t = [].
#[export] Instance says_nothing_preorder : PreOrder says_nothing.
Proof.
  split; [intros w; split; [done|]; exists []; by rewrite app_nil_r|]. intros a b c (E1 & t1 & H1 & S1) (E2 & t2 & H2 & S2).
  split; [congruence|]. exists (t1 ++ t2)%list. by rewrite H2, H1, app_assoc, sent_app, S1, S2.
Qed.
Lemma sys_says_nothing c w r w' : (forall r, sent [(c, r)] = []) -> sys c w = Some (r, w') -> says_nothing w w'.
Proof.
  intros Hc H. unfold sys in H. destruct (script w) as [|x rest]; [done|]. injection H as <- <-. split; [done|]. by exists [(c, x)].
Qed.

(** Both together. *)
Definition undisturbed (x : bool) : relation prog := fun s s' => unchanged x s s' /\ says_nothing (os s) (os s').
#[export] Instance undisturbed_preorder x : PreOrder (undisturbed x).
Proof. split; [done|]. intros a b c [] []. split; by etrans. Qed.
Abbreviation leaves x := (steps (undisturbed x)).
Lemma leaves_sys x c : (forall r, sent [(c, r)] = []) -> leaves x (do_os (sys c)).
Proof.
  intros Hc. apply steps_do_os. intros s a w E. apply sys_says_nothing in E; [|done]. split; [|done]. split_and!; try done.
  exists []. by rewrite app_nil_r.
Qed.
Lemma leaves_upd x (f : iperf_test -> iperf_test) :
  (forall t, core (f t) = core t) ->
  (forall t, x || negb (both_ways t) = true -> Test.sender_has_retransmits (f t) = Test.sender_has_retransmits t) ->
  (forall t, exists lines, Test.server_output_list (f t) = (Test.server_output_list t ++ lines)%list) -> leaves x (upd f).
Proof. intros Hf Hr Hl. apply steps_upd. intros s. split; [|done]. split_and!; cbn; [apply Hf|done|apply Hr|apply Hl]. Qed.
#[export] Hint Extern 2 (steps _ (do_os (sys _))) => apply leaves_sys; done : frame.

Lemma core_fix_times sp : core_stream (fix_times sp) = core_stream sp.
Proof. unfold core_stream, fix_times. destruct sp as []. cbn. by destruct (nonzero _). Qed.
Lemma core_on_first l : map core_stream (on_first fix_times l) = map core_stream l.
Proof. destruct l as [|sp l]; [done|]. cbn [on_first map]. by rewrite core_fix_times. Qed.

Ltac same_core := apply leaves_upd; [intros ?; try done|done|intros ?; exists []; by rewrite app_nil_r].

Lemma leaves_pieces x pieces : forall r, leaves x (print_pieces r pieces).
Proof. induction pieces as [|piece pieces IH]; intros r; cbn [print_pieces]; frame. Qed.
#[export] Hint Resolve leaves_pieces : frame.
Lemma leaves_printf x format args : leaves x (iperf_printf format args).
Proof.
  unfold iperf_printf, time_stamp. frame. apply leaves_upd; [done|done|]. intros ?. cbn. eauto.
Qed.
#[export] Hint Resolve leaves_printf : frame.
Lemma leaves_say x format args : leaves x (say format args).
Proof. unfold say. frame. Qed.
#[export] Hint Resolve leaves_say : frame.
Lemma leaves_err x str : leaves x (iperf_err str).
Proof.
  apply leaves_upd; intros t; unfold add_error; [by destruct (nonzero _)|by destruct (nonzero _)|].
  exists []. rewrite app_nil_r. by destruct (nonzero _).
Qed.
#[export] Hint Resolve leaves_err : frame.
Lemma leaves_row x test p first sp : leaves x (print_interval_results test p first sp).
Proof. unfold print_interval_results, interval_header. frame. Qed.
#[export] Hint Resolve leaves_row : frame.
Lemma leaves_rows x test p must l : forall first s, leaves x (interval_rows test p must first l s).
Proof. induction l as [|sp l IH]; intros first s; cbn [interval_rows]; frame. Qed.
#[export] Hint Resolve leaves_rows : frame.
Lemma leaves_directions x test p modes : leaves x (interval_directions test p modes).
Proof.
  induction modes as [|mode modes IH]; cbn [interval_directions]; [frame|].
  apply steps_bind; [apply _|unfold interval_direction, interval_sum; frame|intros ?; frame].
Qed.
#[export] Hint Resolve leaves_directions : frame.
Lemma leaves_intermediate x : leaves x iperf_print_intermediate.
Proof. unfold iperf_print_intermediate, JSONStream_Output. frame. same_core. Qed.

Section SummaryLeaves.
Context (test : iperf_test) (p : Protocol.protocol) (must : Z) (sender_time receiver_time : double).

Lemma leaves_sender x sp : leaves x (sender_summary test p must sender_time sp).
Proof. unfold sender_summary, unavailable. frame. Qed.
Lemma leaves_disk x sp : leaves x (disk_summary test must sp).
Proof. unfold disk_summary. frame. Qed.
Lemma leaves_receiver x sp : leaves x (receiver_summary test p must receiver_time sp).
Proof. unfold receiver_summary, unavailable. frame. Qed.
#[local] Hint Resolve leaves_sender leaves_disk leaves_receiver : frame.
Lemma leaves_summary_rows x l : forall t, leaves x (summary_rows test p must sender_time receiver_time l t).
Proof. induction l as [|sp l IH]; intros t; cbn [summary_rows]; frame. Qed.
Lemma leaves_stream_sum x t : leaves x (stream_sum test must sender_time receiver_time t).
Proof. unfold stream_sum, unavailable. frame. Qed.
Lemma leaves_datagram_sum x e t : leaves x (datagram_sum test must sender_time receiver_time e t).
Proof. unfold datagram_sum. frame. Qed.
Lemma leaves_closing_json x : leaves x (closing_json test p must).
Proof. unfold closing_json. frame. Qed.
Lemma leaves_closing_text x : leaves x (closing_text test p must).
Proof. unfold closing_text, cpu_line. frame. Qed.
End SummaryLeaves.
#[export] Hint Resolve leaves_summary_rows leaves_stream_sum leaves_datagram_sum leaves_closing_json leaves_closing_text : frame.

Lemma leaves_server_output x : leaves x print_server_output.
Proof. unfold print_server_output. frame; same_core. Qed.
#[export] Hint Resolve leaves_server_output : frame.
Lemma leaves_direction own p last mode : leaves false (results_direction own p last mode).
Proof.
  unfold results_direction. frame.
  - apply leaves_upd; intros ?; unfold set_retransmits; [by destruct (both_ways _)|by destruct (both_ways _)|].
    exists []. rewrite app_nil_r. by destruct (both_ways _).
  - same_core. unfold core. cbn. by rewrite core_on_first.
Qed.
#[export] Hint Resolve leaves_direction : frame.
Lemma leaves_results_directions own p modes : leaves false (results_directions own p modes).
Proof. induction modes as [|mode modes IH]; cbn [results_directions]; frame. Qed.
#[export] Hint Resolve leaves_results_directions : frame.

Lemma leaves_run {A} x (m : P A) s a s' : leaves x m -> m s = Some (a, s') -> unchanged x s s' /\ says_nothing (os s) (os s').
Proof. intros Hm. apply Hm. Qed.

Lemma print_results_unchanged s s' :
  iperf_print_results s = Some (tt, s') -> unchanged true s s' /\ says_nothing (os s) (os s').
Proof.
  intros H. change (mbnd (mopt (Test.protocol (tst s))) (fun p =>
    when (negb (json (tst s))) (summary_header (tst s) p) ;;
    let! (rows, fields) := results_directions (Test.sender_has_retransmits (tst s)) p (report_modes (tst s)) in
    when (json (tst s)) (add_to_end (("streams", cJSON_Array rows) :: fields)) ;;
    when (both_ways (tst s)) (upd (fun t => t <| Test.sender_has_retransmits := Test.sender_has_retransmits (tst s) |>))) s = Some (tt, s')) in H.
  apply mbnd_inv in H as (p & s0 & H0 & H). unfold mopt in H0. destruct (Test.protocol (tst s)); [|done].
  injection H0 as -> <-.
  apply mbnd_inv in H as ([] & s1 & H1 & H). apply (leaves_run false) in H1 as [H1 N1]; [|unfold summary_header; frame].
  apply mbnd_inv in H as ([rows fields] & s2 & H2 & H). apply (leaves_run false) in H2 as [H2 N2]; [|frame].
  apply mbnd_inv in H as ([] & s3 & H3 & H).
  apply (leaves_run false) in H3 as [H3 N3]; [|unfold add_to_end; frame; same_core].
  assert (Hu : unchanged false s s3) by (etrans; [exact H1|etrans; [exact H2|exact H3]]).
  assert (Hn : says_nothing (os s) (os s3)) by (etrans; [exact N1|etrans; [exact N2|exact N3]]).
  destruct Hu as (Hc & Ht & Hr & Hl). unfold when in H. destruct (both_ways (tst s)) eqn:Hb.
  - injection H as <-. split; [|done]. split_and!; cbn; try done.
  - injection H as <-. split; [|done]. split_and!; try done.
Qed.
Lemma reporter_leaves : leaves true iperf_reporter_callback.
Proof.
  unfold iperf_reporter_callback. apply steps_get. intros t. destruct (_ || _); [apply leaves_intermediate|].
  destruct (_ || _); [|apply steps_ret, _]. apply steps_bind; [apply _|apply leaves_intermediate|]. intros _ s [] s' H.
  by apply print_results_unchanged.
Qed.

(** A report changes nothing but what reports are for: the timers, the
    counters, the control state and everything else of the test stay as they
    are; lines kept for the client are only added, and the retransmit flag that
    the summary of a bidirectional test borrows has its value back. *)
Lemma iperf_reporter_callback_frame (s s' : prog) :
  iperf_reporter_callback s = Some (tt, s') ->
  core (tst s') = core (tst s) /\ tmr s' = tmr s /\
  Test.sender_has_retransmits (tst s') = Test.sender_has_retransmits (tst s) /\
  exists lines, Test.server_output_list (tst s') = (Test.server_output_list (tst s) ++ lines)%list.
Proof.
  intros H. apply reporter_leaves in H as [(Hc & Ht & Hr & Hl) _]. split_and!; auto.
Qed.

(** ** The sum is the sum of the rows *)

Definition number (name : string) (o : cJSON) : option double := valuedouble <$> cJSON_GetObjectItem o name.
(** Evaluates a format string, leaving numbers alone. *)
Ltac run_format := lazy -[cJSON_CreateNumber Z2d i64 u64 dmul ddiv dsub dadd seconds_between rate_of percent say interval_header].

(** The row of a stream for its last interval. *)
Definition int (z : Z) : cJSON := cJSON_CreateNumber (Z2d z).
Definition row_of (test : iperf_test) (p : Protocol.protocol) (sp : iperf_stream) (irp : iperf_interval_results) : cJSON :=
  let start := Result.start_time (Stream.result sp) in
  let bytes := Interval.bytes_transferred irp in
  cJSON_Object
    ([("socket", int (Stream.socket sp));
      ("start", cJSON_CreateNumber (seconds_between start (Interval.interval_start_time irp)));
      ("end", cJSON_CreateNumber (seconds_between start (Interval.interval_end_time irp)));
      ("seconds", cJSON_CreateNumber (Interval.interval_duration irp)); ("bytes", int (i64 bytes));
      ("bits_per_second", cJSON_CreateNumber (dmul (rate_of bytes (Interval.interval_duration irp)) (Z2d 8)))] ++
     (if stream_based p then
        if ((Test.sender_has_retransmits test =? 1) || (Protocol.id p =? Psctp)) && nonzero (Stream.sender sp)
        then [("retransmits", int (Interval.interval_retrans irp)); ("snd_cwnd", int (Interval.snd_cwnd irp));
              ("snd_wnd", int (Interval.snd_wnd irp)); ("rtt", int (Interval.rtt irp)); ("rttvar", int (Interval.rttvar irp));
              ("pmtu", int (Interval.pmtu irp))]
        else []
      else if nonzero (Stream.sender sp) then [("packets", int (Interval.interval_packet_count irp))]
      else [("jitter_ms", cJSON_CreateNumber (dmul (Interval.jitter irp) (Z2d 1000)));
            ("lost_packets", int (Interval.interval_cnt_error irp)); ("packets", int (Interval.interval_packet_count irp));
            ("lost_percent", cJSON_CreateNumber (percent (Interval.interval_cnt_error irp) (Interval.interval_packet_count irp)))]) ++
     [("omitted", cJSON_CreateBool (Interval.omitted irp)); ("sender", cJSON_CreateBool (Stream.sender sp))])%list.
Lemma row_object (test : iperf_test) p first sp irp s :
  nonzero (Test.json_output test) = true -> last_interval sp = Some irp ->
  print_interval_results test p first sp s = Some ([row_of test p sp irp], s).
Proof.
  intros Hj Hl. unfold print_interval_results, row_of. rewrite Hl, Hj. cbn [negb andb when].
  unfold mbnd at 1. cbn [mret].
  repeat match goal with |- context[if ?b then _ else _] => destruct b end;
    unfold mbnd, mopt, mret; run_format; reflexivity.
Qed.

(** The last intervals of a list of streams that all have one. *)
Definition intervals_of (l : list iperf_stream) : list iperf_interval_results := omap last_interval l.
Definition sum_of (f : iperf_interval_results -> Z) (l : list iperf_stream) : Z := foldr Z.add 0 (map f (intervals_of l)).
Definition in_direction (mode : Z) (l : list iperf_stream) : list iperf_stream := filter (fun sp => Stream.sender sp = mode * mode) l.
Definition is_row (test : iperf_test) (p : Protocol.protocol) (sp : iperf_stream) (o : cJSON) : Prop :=
  exists irp, last_interval sp = Some irp /\ o = row_of test p sp irp.
(** The sum has the time of the first stream. *)
Definition is_sum (test : iperf_test) (p : Protocol.protocol) (l : list iperf_stream) (mode : Z) (f : string * cJSON) : Prop :=
  f.1 = sum_name test (mode * mode) "sum" /\
  (exists sp irp, head l = Some sp /\ last_interval sp = Some irp /\
     number "start" f.2 = Some (seconds_between (Result.start_time (Stream.result sp)) (Interval.interval_start_time irp)) /\
     number "end" f.2 = Some (seconds_between (Result.start_time (Stream.result sp)) (Interval.interval_end_time irp)) /\
     number "seconds" f.2 = Some (Interval.interval_duration irp)) /\
  number "bytes" f.2 = Some (Z2d (i64 (u64 (sum_of Interval.bytes_transferred (in_direction mode l))))) /\
  (stream_based p = false ->
   number "packets" f.2 = Some (Z2d (i64 (sum_of Interval.interval_packet_count (in_direction mode l)))) /\
   (mode = 0 -> number "lost_packets" f.2 = Some (Z2d (i64 (sum_of Interval.interval_cnt_error (in_direction mode l)))))) /\
  (Protocol.id p = Ptcp -> Test.sender_has_retransmits test = 1 -> mode <> 0 ->
   number "retransmits" f.2 = Some (Z2d (i64 (sum_of Interval.interval_retrans (in_direction mode l))))).

Definition add_all (test : iperf_test) (p : Protocol.protocol) (l : list iperf_stream) (s : sums) : sums :=
  foldl (fun s irp => add_interval test p irp s) s (intervals_of l).
(** A field of the sums that each interval adds to, wrapping. *)
Lemma add_all_field (wrap : Z -> Z) (field : sums -> Z) (f : iperf_interval_results -> Z) test p l :
  (forall a b, wrap (wrap a + b) = wrap (a + b)) ->
  (forall irp s, field (add_interval test p irp s) = wrap (field s + f irp)) ->
  forall s, wrap (field s) = field s -> field (add_all test p l s) = wrap (field s + sum_of f l).
Proof.
  intros Hw Hf. unfold add_all, sum_of. induction (intervals_of l) as [|irp l' IH]; intros s Hs; cbn [foldl map foldr].
  - by rewrite Z.add_0_r.
  - rewrite IH, Hf, Hw; [f_equal; lia|]. rewrite Hf. pose proof (Hw (field s + f irp) 0) as H. by rewrite !Z.add_0_r in H.
Qed.
Lemma add_all_sums test p l :
  bytes (add_all test p l no_sums) = u64 (sum_of Interval.bytes_transferred l) /\
  (stream_based p = false -> total_packets (add_all test p l no_sums) = i64 (sum_of Interval.interval_packet_count l) /\
                            lost_packets (add_all test p l no_sums) = i64 (sum_of Interval.interval_cnt_error l)) /\
  (Protocol.id p = Ptcp -> Test.sender_has_retransmits test = 1 ->
   retransmits (add_all test p l no_sums) = i64 (sum_of Interval.interval_retrans l)).
Proof.
  assert (Hu : forall a b, u64 (u64 a + b) = u64 (a + b)) by (intros; zlia).
  assert (Hi : forall a b, i64 (i64 a + b) = i64 (a + b)) by (intros; zlia). split_and!.
  - rewrite (add_all_field u64 bytes Interval.bytes_transferred); [by rewrite Z.add_0_l|done| |done].
    intros irp s. unfold add_interval. by destruct (_ =? _).
  - unfold stream_based. intros [Hp _]%orb_false_iff.
    split; [rewrite (add_all_field i64 total_packets Interval.interval_packet_count)|rewrite (add_all_field i64 lost_packets Interval.interval_cnt_error)].
    2-4, 6-8: first [done | intros irp s; unfold add_interval; by rewrite Hp]. all: by rewrite Z.add_0_l.
  - intros Hp%Z.eqb_eq Hr%Z.eqb_eq. rewrite (add_all_field i64 retransmits Interval.interval_retrans); [by rewrite Z.add_0_l|done| |done].
    intros irp s. unfold add_interval. by rewrite Hp, Hr.
Qed.

Lemma rows_json (test : iperf_test) p must l s : nonzero (Test.json_output test) = true ->
  (forall sp, sp ∈ l -> is_Some (last_interval sp)) -> forall first acc,
  exists rows, interval_rows test p must first l acc s =
      Some ((true, rows, add_all test p (filter (fun sp => Stream.sender sp = must) l) acc), s) /\
    Forall2 (is_row test p) (filter (fun sp => Stream.sender sp = must) l) rows.
Proof.
  intros Hj. induction l as [|sp l IH]; intros Hl first acc; [by exists []|]. cbn [interval_rows].
  destruct (Z.eqb_spec (Stream.sender sp) must) as [Hs|Hs].
  - destruct (Hl sp) as [irp Hi]; [by left|].
    pose proof (row_object test p first sp irp s Hj Hi) as Ho.
    destruct (IH (fun x Hx => Hl x (list_elem_of_further _ _ _ Hx)) false (add_interval test p irp acc)) as (rows & Hr & HF).
    exists (row_of test p sp irp :: rows). unfold mbnd at 1. rewrite Ho, Hi. unfold mbnd. rewrite Hr. rewrite filter_cons_True by done.
    unfold add_all at 2, intervals_of. cbn [omap list_omap]. rewrite Hi. split; [done|].
    constructor; [by exists irp|done].
  - rewrite filter_cons_False by done. apply IH. intros x Hx. apply Hl. by right.
Qed.

Lemma sum_object (test : iperf_test) p must sp irp acc s :
  nonzero (Test.json_output test) = true -> last_interval sp = Some irp ->
  exists o, interval_sum test p must sp acc s = Some ([(sum_name test must "sum", o)], s) /\
    number "start" o = Some (seconds_between (Result.start_time (Stream.result sp)) (Interval.interval_start_time irp)) /\
    number "end" o = Some (seconds_between (Result.start_time (Stream.result sp)) (Interval.interval_end_time irp)) /\
    number "seconds" o = Some (Interval.interval_duration irp) /\
    number "bytes" o = Some (Z2d (i64 (bytes acc))) /\
    (stream_based p = false -> number "packets" o = Some (Z2d (total_packets acc)) /\
                              (must = 0 -> number "lost_packets" o = Some (Z2d (lost_packets acc)))) /\
    (stream_based p = true -> Test.sender_has_retransmits test = 1 -> must <> 0 -> number "retransmits" o = Some (Z2d (retransmits acc))).
Proof.
  intros Hj Hl. unfold interval_sum. rewrite Hl, Hj. unfold mbnd at 1. cbn [mopt].
  destruct (stream_based p).
  - assert (Hr : Test.sender_has_retransmits test = 1 -> must <> 0 -> (Test.sender_has_retransmits test =? 1) && nonzero must = true).
    { intros -> Hm. unfold nonzero. by rewrite (proj2 (Z.eqb_neq _ _) Hm). }
    destruct (_ && _); (eexists; split; [unfold mbnd, mopt, mret; run_format; reflexivity|split_and!; try reflexivity]); try done.
    intros _ H1 H2. by specialize (Hr H1 H2).
  - destruct (nonzero must) eqn:Hm; (eexists; split; [unfold mbnd, mopt, mret; run_format; reflexivity|split_and!; try reflexivity]); try done.
    intros _. split; [reflexivity|]. intros ->. done.
Qed.

Lemma directions_json (test : iperf_test) p s : nonzero (Test.json_output test) = true -> Test.streams test <> [] ->
  (forall sp, sp ∈ Test.streams test -> is_Some (last_interval sp)) -> forall modes,
  exists rows sums, interval_directions test p modes s = Some ((true, rows, sums), s) /\
    Forall2 (is_row test p) (concat (map (fun mode => in_direction mode (Test.streams test)) modes)) rows /\
    Forall2 (is_sum test p (Test.streams test)) modes sums.
Proof.
  intros Hj Hne Hl. induction modes as [|mode modes IH]; [by exists [], []|].
  destruct IH as (rows' & sums' & Hd & Hr' & Hs').
  destruct (rows_json test p (mode * mode) (Test.streams test) s Hj Hl true no_sums) as (rows & Hr & HF).
  destruct (Test.streams test) as [|sp l] eqn:Hst; [done|]. destruct (Hl sp) as [irp Hi]; [by left|].
  destruct (sum_object test p (mode * mode) sp irp
    (add_all test p (in_direction mode (sp :: l)) no_sums) s Hj Hi) as (o & Ho & Hts & Hte & Htd & Hb & Hp & Hq).
  destruct (add_all_sums test p (in_direction mode (sp :: l))) as (H1 & H2 & H3).
  exists (rows ++ rows')%list, ((sum_name test (mode * mode) "sum", o) :: sums')%list. split_and!.
  - cbn [interval_directions]. unfold interval_direction. rewrite Hst. unfold mbnd at 1 2. unfold in_direction in Ho.
    rewrite Hr. cbn [negb]. rewrite Hj, orb_true_r. unfold mbnd at 1. rewrite Ho. cbn [mret negb]. unfold mbnd. by rewrite Hd.
  - cbn [map concat]. by apply Forall2_app.
  - constructor; [|done]. unfold is_sum. cbn [fst snd]. split_and!; [done|by exists sp, irp|by rewrite Hb, H1| |].
    + intros Hu. destruct (H2 Hu) as [H2a H2b]. destruct (Hp Hu) as [Hpa Hpb]. rewrite Hpa, H2a. split; [done|].
      intros ->. by rewrite Hpb, H2b.
    + intros Ht Hr1 Hm. rewrite <-H3 by done. apply Hq; [unfold stream_based; by rewrite Ht|done|nia].
Qed.

(** C29. With JSON output that is not streamed, an interval for every stream and
    one of them worth printing, the report is made and added to the intervals.
    It has one row for each stream of each direction, made of the counters of
    its last interval, and for each direction a sum with the time of the first
    stream: its bytes are the sum of the bytes of the rows, for UDP its packets
    and for a receiver its losses are the sums of theirs, and for a TCP sender
    that knows them the retransmissions, all at the width of the code. *)
Theorem interval_report_adds_up (s : prog) (p : Protocol.protocol) (l : list cJSON) :
  nonzero (Test.json_output (tst s)) = true -> Test.json_stream (tst s) = 0 ->
  Test.protocol (tst s) = Some p -> Test.json_intervals (tst s) = Some (cJSON_Array l) ->
  existsb (keep_interval (tst s)) (Test.streams (tst s)) = true ->
  (forall sp, sp ∈ Test.streams (tst s) -> is_Some (last_interval sp)) ->
  exists rows sums,
    iperf_print_intermediate s = Some (tt, s <| tst ::= fun t => t <| Test.json_intervals :=
      Some (cJSON_Array (l ++ [cJSON_Object (("streams", cJSON_Array rows) :: sums)])%list) |> |>) /\
    Forall2 (is_row (tst s) p) (concat (map (fun mode => in_direction mode (Test.streams (tst s))) (report_modes (tst s)))) rows /\
    Forall2 (is_sum (tst s) p (Test.streams (tst s))) (report_modes (tst s)) sums.
Proof.
  intros Hj Hst Hp Hi Hk Hl.
  assert (Hne : Test.streams (tst s) <> []) by (intros H; by rewrite H in Hk).
  destruct (directions_json (tst s) p s Hj Hne Hl (report_modes (tst s))) as (rows & sums & Hd & Hr & Hs).
  exists rows, sums. split; [|done].
  unfold iperf_print_intermediate. rewrite bind_get_test, Hk, Hp, Hj. cbn [negb mopt]. unfold mbnd at 1 2. unfold mopt at 1. cbn match.
  rewrite Hd. unfold discard_json. rewrite Hst. cbn [Z.eqb andb negb when nonzero].
  unfold mbnd, upd, mmod. destruct s as [t tm w]. cbn in *. by rewrite Hi.
Qed.
(** Two streams, after one second of a UDP test on the receiving side. *)
Definition second (n : Z) (received packets lost : Z) : iperf_interval_results :=
  Interval.zero <| Interval.bytes_transferred := received |> <| Interval.interval_start_time := Time 100 0 |>
    <| Interval.interval_end_time := Time 101 0 |> <| Interval.interval_duration := Z2d 1 |>
    <| Interval.interval_packet_count := packets |> <| Interval.interval_cnt_error := lost |>.
Definition reported_stream (sock received packets lost : Z) : iperf_stream :=
  Stream.zero <| Stream.socket := sock |> <| Stream.diskfile_fd := -1 |> <| Stream.packet_count := packets |>
    <| Stream.cnt_error := lost |> <| Stream.result ::= fun rp =>
      rp <| Result.start_time := Time 100 0 |> <| Result.end_time := Time 101 0 |> <| Result.bytes_received := received |>
         <| Result.interval_results := [second sock received packets lost] |> |>.
Definition reported_test : iperf_test :=
  Test.zero <| Test.role := "s"%char |> <| Test.state := DISPLAY_RESULTS |> <| Test.num_streams := 2 |>
    <| Test.protocol := Some udp_protocol |> <| Test.stats_interval := Z2d 1 |> <| Test.get_server_output := 1 |>
    <| Test.settings ::= fun st => st <| Settings.unit_format := "a"%char |> |>
    <| Test.streams := [reported_stream 5 14600 11 1; reported_stream 6 29200 20 0] |>.
Definition json_report : prog :=
  Prog (reported_test <| Test.json_output := 1 |> <| Test.json_intervals := Some (cJSON_Array []) |>)
    (Timer.TS ∅ None None) (World [] [] 0 0 0).
Lemma interval_report_adds_up_witness :
  exists rows sums,
    iperf_print_intermediate json_report = Some (tt, json_report <| tst ::= fun t => t <| Test.json_intervals :=
      Some (cJSON_Array ([] ++ [cJSON_Object (("streams", cJSON_Array rows) :: sums)])%list) |> |>) /\
    Forall2 (is_row (tst json_report) udp_protocol) (concat (map (fun mode => in_direction mode (Test.streams (tst json_report))) (report_modes (tst json_report)))) rows /\
    Forall2 (is_sum (tst json_report) udp_protocol (Test.streams (tst json_report))) (report_modes (tst json_report)) sums.
Proof.
  apply interval_report_adds_up; try (vm_compute; reflexivity).
  apply Forall_forall. apply (bool_decide_unpack _). vm_compute. exact I.
Defined.

(** The same as text: nothing is said about the sender, and the client gets
    every line. *)
Definition text_report : prog := Prog reported_test (Timer.TS ∅ None None) (World (repeat (Reply 80 0 [] []) 20) [] 0 0 0).
Lemma iperf_reporter_callback_frame_witness :
  exists s', iperf_reporter_callback text_report = Some (tt, s') /\
    list.last (Test.server_output_list (tst s')) =
      Some (nl "[SUM]   0.00-1.00   sec  42.8 KBytes   350 Kbits/sec  0.000 ms  1/31 (3.2%)  receiver") /\
    (core (tst s') = core (tst text_report) /\ tmr s' = tmr text_report /\
     Test.sender_has_retransmits (tst s') = Test.sender_has_retransmits (tst text_report) /\
     exists lines, Test.server_output_list (tst s') = (Test.server_output_list (tst text_report) ++ lines)%list).
Proof.
  eexists. split; [vm_compute; reflexivity|]. split; [vm_compute; reflexivity|].
  apply iperf_reporter_callback_frame. vm_compute. reflexivity.
Defined.
