(* ===== verification/Control.v ===== *)
(** * What the two ends of the control connection share

    Timers armed on the test, the processor time, stopping threads, the timeout
    of the main loop and the exchange of parameters.  malloc is taken to
    succeed for timers; text printed at debug level and by warning is left
    out. *)
From Stdlib Require Import Ascii String.
From stdpp Require Import strings.
From S2P Require Import Prelude Double IperfTime Timer Text Cjson Iperf Error Sys Net Json Util Api Params Printf Output Results Stats Sockets Streams Report.
#[local] Open Scope string_scope.
#[local] Open Scope Z_scope.

(** ** Timers *)

(** The functions that timers call. *)
Definition test_timer_proc := 1.
Definition client_stats_timer_proc := 2.
Definition client_reporter_timer_proc := 3.
Definition client_omit_timer_proc := 4.
Definition server_timer_proc := 5.
Definition server_stats_timer_proc := 6.
Definition server_reporter_timer_proc := 7.
Definition server_omit_timer_proc := 8.

(** The address malloc returns. *)
Definition fresh_loc (st : timer_state) : loc := Pos.succ (map_fold (fun k _ m => Pos.max k m) 1%positive (heap st)).

Definition new_timer (now : iperf_time) (proc usecs per : Z) : P (option loc) :=
  lift tmr (fun x s => s <| tmr := x |>) (fun st => tmr_create (Some now) now (Some (fresh_loc st)) proc 0 usecs per st).

(** A null result is an error of the test. *)
Definition arm (now : iperf_time) (proc usecs per : Z) (set : option loc -> iperf_test -> iperf_test) : P Z :=
  let! t := new_timer now proc usecs per in
  upd (set t) ;;
  match t with Some _ => mret 0 | None => fail_with IEINITTEST ;; mret (-1) end.

(** [iperf_time_now], with the failure as [None]. *)
Definition try_now : P (option iperf_time) :=
  let! r := do_os (sys Cclock_gettime) in
  mret (if ret r =? 0 then Some (iperf_time_now (Some (nth 0 (outs r) 0, nth 1 (outs r) 0)) (Time 0 0)).2 else None).

(** A double of seconds as a number of microseconds; undefined when it does not fit. *)
Definition interval_usecs (interval : double) : option Z := d2i64 (dmul interval (Z2d SEC_TO_US)).

Definition set_timer (t : option loc) (test : iperf_test) : iperf_test := test <| Test.timer := t |>.
Definition set_stats_timer (t : option loc) (test : iperf_test) : iperf_test := test <| Test.stats_timer := t |>.
Definition set_reporter_timer (t : option loc) (test : iperf_test) : iperf_test := test <| Test.reporter_timer := t |>.
Definition set_omit_timer (t : option loc) (test : iperf_test) : iperf_test := test <| Test.omit_timer := t |>.

(** A periodic timer, unless the interval is zero. *)
Definition arm_periodic (now : iperf_time) (proc : Z) (interval : double) (set : option loc -> iperf_test -> iperf_test) : P Z :=
  if deqb interval dzero then mret 0
  else let! us := mopt (interval_usecs interval) in arm now proc us 1 set.

(** The timers of a side: its three functions, and the seconds the end of the
    test may be late. *)
Definition create_timers (p_end p_stats p_report grace : Z) : P Z :=
  let! o := try_now in
  match o with
  | None => fail_with IEINITTEST ;; mret (-1)
  | Some now =>
      upd (fun t => t <| Test.timer := None |> <| Test.stats_timer := None |> <| Test.reporter_timer := None |>) ;;
      let! test := get_test in
      let! r :=
        if nonzero (Test.duration test) then
          upd (fun t => t <| Test.done := 0 |>) ;;
          arm now p_end (i32 (Test.duration test + Test.omit test + grace) * SEC_TO_US) 0 set_timer
        else mret 0 in
      if r <? 0 then mret (-1)
      else
        let! r := arm_periodic now p_stats (Test.stats_interval test) set_stats_timer in
        if r <? 0 then mret (-1) else arm_periodic now p_report (Test.reporter_interval test) set_reporter_timer
  end.

Definition create_omit_timer (p_omit : Z) : P Z :=
  let! test := get_test in
  if Test.omit test =? 0 then upd (fun t => t <| Test.omit_timer := None |> <| Test.omitting := 0 |>) ;; mret 0
  else
    let! o := try_now in
    match o with
    | None => fail_with IEINITTEST ;; mret (-1)
    | Some now => upd (fun t => t <| Test.omitting := 1 |>) ;; arm now p_omit (Test.omit test * SEC_TO_US) 0 set_omit_timer
    end.

(** The statistics and reports of a running test. *)
Definition unless_done (m : P unit) : P unit :=
  let! test := get_test in if nonzero (Test.done test) then mret tt else m.

Definition report_omit_done := nl "Finished omit period, starting real test".
Definition reset_timer (nowP : iperf_time) (get : iperf_test -> option loc) : P unit :=
  let! test := get_test in
  match get test with Some t => do_tmr (tmr_reset (Some nowP) nowP t) | None => mret tt end.
(** The end of the omitted time. *)
Definition omit_timer_proc (nowP : iperf_time) : P unit :=
  upd (fun t => t <| Test.omit_timer := None |> <| Test.omitting := 0 |>) ;;
  iperf_reset_stats ;;
  let! test := get_test in
  when (nonzero (Test.verbose test) && negb (nonzero (Test.json_output test)) && deqb (Test.reporter_interval test) dzero)
    (say "%s" [Astr report_omit_done]) ;;
  reset_timer nowP Test.stats_timer ;;
  reset_timer nowP Test.reporter_timer.

(** [tmr_run] with the functions of a side. *)
Definition run_proc (procs : Z -> iperf_time -> P unit) (proc cd : Z) (now : iperf_time) (s : timer_state * (iperf_test * world))
    : option (timer_state * (iperf_test * world)) :=
  '(_, s') ← procs proc now (Prog s.2.1 s.1 s.2.2); Some (tmr s', (tst s', os s')).
Definition run_timers (procs : Z -> iperf_time -> P unit) (fuel : nat) (now : iperf_time) : P unit := fun s =>
  '(st, (t, w)) ← tmr_run (run_proc procs) fuel (Some now) now (tmr s, (tst s, os s)); Some (tt, Prog t st w).

(** ** Processor time *)

Definition read_usage : M world cpu_usage :=
  let! now := time_now in
  let! c := sys Cclock in
  let! r := sys Cgetrusage in
  let n i := nth i (outs r) 0 in
  mret (Usage now (ret c) (n 0%nat, n 1%nat) (n 2%nat, n 3%nat)).
(** [cpu_util(test->cpu_util)]; the static variables hold [start]. *)
Definition measure_cpu (start : cpu_usage) : P unit :=
  let! now := do_os read_usage in upd (fun t => t <| Test.cpu_util := cpu_util now start |>).

(** ** Threads *)

Definition ESRCH := 3.
Definition set_stream (i : nat) (f : iperf_stream -> iperf_stream) : P unit := upd (fun t => t <| Test.streams ::= alter f i |>).
Definition failed (rc : Z) : bool := negb (rc =? 0) && negb (rc =? ESRCH).

Fixpoint spawn_threads (i : nat) (l : list iperf_stream) : P Z :=
  match l with
  | [] => mret 0
  | sp :: l =>
      let! r := do_os (sys (Cpthread_create (Stream.id sp))) in
      if negb (ret r =? 0) then fail_with IEPTHREADCREATE ;; mret (-1)
      else set_stream i (fun sp => sp <| Stream.thread_created := 1 |>) ;; spawn_threads (S i) l
  end.

(** Cancelling and joining the threads of the chosen streams; the first
    failure ends it. *)
Definition stop_thread (caller : string) (i : nat) (sp : iperf_stream) : P Z :=
  let! r := do_os (sys (Cpthread_cancel (Stream.id sp))) in
  if failed (ret r) then fail_with IEPTHREADCANCEL ;; do_os (set_errno (ret r)) ;;
    iperf_err_errno (caller ++ " in pthread_cancel - ") ;; mret (-1)
  else
    let! r := do_os (sys (Cpthread_join (Stream.id sp))) in
    if failed (ret r) then fail_with IEPTHREADJOIN ;; do_os (set_errno (ret r)) ;;
    iperf_err_errno (caller ++ " in pthread_join - ") ;; mret (-1)
    else set_stream i (fun sp => sp <| Stream.thread_created := 0 |>) ;; mret 0.
Fixpoint stop_threads (caller : string) (which : iperf_stream -> bool) (i : nat) (l : list iperf_stream) : P Z :=
  match l with
  | [] => mret 0
  | sp :: l =>
      if which sp then
        set_stream i (fun sp => sp <| Stream.done := 1 |>) ;;
        let! r := if Stream.thread_created sp =? 1 then stop_thread caller i sp else mret 0 in
        if r <? 0 then mret (-1) else stop_threads caller which (S i) l
      else stop_threads caller which (S i) l
  end.

(** At a clean-up the failures are passed over, and [i_errno] is put back. *)
Definition kill_thread (caller : string) (i : nat) (sp : iperf_stream) : P unit :=
  let! r := do_os (sys (Cpthread_cancel (Stream.id sp))) in
  when (failed (ret r))
    (fail_with IEPTHREADCANCEL ;; do_os (set_errno (ret r)) ;; iperf_err_errno (caller ++ " in pthread_cancel - ")) ;;
  let! r := do_os (sys (Cpthread_join (Stream.id sp))) in
  when (failed (ret r))
    (fail_with IEPTHREADJOIN ;; do_os (set_errno (ret r)) ;; iperf_err_errno (caller ++ " in pthread_join - ")) ;;
  set_stream i (fun sp => sp <| Stream.thread_created := 0 |>).
Fixpoint kill_loop (caller : string) (which : iperf_stream -> bool) (i : nat) (l : list iperf_stream) : P unit :=
  match l with
  | [] => mret tt
  | sp :: l =>
      when (which sp)
        (set_stream i (fun sp => sp <| Stream.done := 1 |>) ;;
         when (Stream.thread_created sp =? 1) (kill_thread caller i sp)) ;;
      kill_loop caller which (S i) l
  end.
Definition kill_threads (caller : string) (which : iperf_stream -> bool) : P unit :=
  let! saved := do_os get_i_errno in
  let! test := get_test in
  kill_loop caller which 0 (Test.streams test) ;;
  do_os (set_i_errno saved).

(** ** The timeout of the main loop *)

(** While data should be arriving the wait is limited.  The seconds limit the
    number that is compared, not the timeout used. *)
Definition rcv_timeout_us (rcv : iperf_time) : Z := secs rcv * SEC_TO_US + usecs rcv.
Definition watched_timeout (rcv : iperf_time) (timeout : option (Z * Z)) : option (Z * Z) :=
  let timeout_us := match timeout with Some (s, u) => s * SEC_TO_US + u | None => -1 end in
  let timeout_us := if SEC_TO_US <? timeout_us then SEC_TO_US else timeout_us in
  if (timeout_us <? 0) || (rcv_timeout_us rcv <? timeout_us) then Some (secs rcv, usecs rcv) else timeout.

(** When data last arrived: the count of blocks, and the time. *)
Record progress := Progress { last_receive_time : iperf_time; last_receive_blocks : Z }.
Definition note_progress (now : iperf_time) (test : iperf_test) (p : progress) : progress :=
  if last_receive_blocks p <? Test.blocks_received test then Progress now (Test.blocks_received test) else p.
(** The microseconds since then, unless the clock went back. *)
Definition idle_usecs (now : iperf_time) (p : progress) : option Z :=
  let '(past, diff) := iperf_time_diff now (last_receive_time p) in
  if past =? 0 then Some (i64 (iperf_time_in_usecs diff)) else None.

(** ** The exchange of parameters *)

Definition send_error (n : Z) : P Z :=
  let! test := get_test in
  let! r := do_os (Nwrite (Test.ctrl_sck test) (htonl (u32 n)) Ptcp) in
  if r <? 0 then fail_with IECTRLWRITE ;; mret (-1) else mret 0.
Definition watch_read (f : fd) (t : iperf_test) : iperf_test :=
  t <| Test.read_set ::= fun r => {[ f ]} ∪ r |> <| Test.max_fd ::= fun m => Z.max f m |>.

Definition iperf_exchange_parameters : P Z :=
  let! test := get_test in
  if client test then let! r := send_parameters in mret (if r <? 0 then -1 else 0)
  else
    let! r := get_parameters in
    if r <? 0 then mret (-1)
    else
      let! s := protocol_listen in
      if s <? 0 then
        let! r := iperf_set_send_state SERVER_ERROR in
        if negb (r =? 0) then mret (-1)
        else
          let! e := do_os get_i_errno in
          let! r := send_error e in
          if r <? 0 then mret (-1)
          else let! e := do_os get_errno in let! r := send_error e in mret (-1)
      else
        upd (fun t => watch_read s t <| Test.prot_listener := s |>) ;;
        let! r := iperf_set_send_state CREATE_STREAMS in
        mret (if r =? 0 then 0 else -1).

(** No way to choose a processor exists on the platform. *)
Definition iperf_setaffinity : P Z := fail_with IEAFFINITY ;; mret (-1).
Definition iperf_clearaffinity : P Z := fail_with IEAFFINITY ;; mret (-1).
Definition iperf_open_logfile : P Z :=
  let! test := get_test in
  match Test.logfile test with
  | Some name =>
      let! r := do_os (sys (Copen name 0x20a)) in
      if ret r <? 0 then upd (fun t => t <| Test.outfile := None |>) ;; fail_with IELOGFILE ;; mret (-1)
      else upd (fun t => t <| Test.outfile := Some (ret r) |>) ;; mret 0
  | None => mfail
  end.
