(* ===== verification/Client.v ===== *)
(** * The client: iperf_client_api.c

    The handler of control messages, the connection, the end of a test and the
    main loop.  The loop runs a list of rounds: what the worker threads do to
    the shared data while the main thread waits in select, and the fuel for the
    timers of that round. *)
From Stdlib Require Import Ascii String.
From stdpp Require Import strings.
From S2P Require Import Prelude Double IperfTime Timer Text Cjson Iperf Error Sys Net Json Util Api Params Printf Output Results Stats Sockets Streams Report Control.
#[local] Open Scope string_scope.
#[local] Open Scope Z_scope.

(** ** Timers *)

Definition client_procs (proc : Z) (nowP : iperf_time) : P unit :=
  if proc =? test_timer_proc then upd (fun t => t <| Test.timer := None |> <| Test.done := 1 |>)
  else if proc =? client_stats_timer_proc then unless_done iperf_stats_callback
  else if proc =? client_reporter_timer_proc then unless_done iperf_reporter_callback
  else if proc =? client_omit_timer_proc then omit_timer_proc nowP
  else mfail.
Definition create_client_timers : P Z := create_timers test_timer_proc client_stats_timer_proc client_reporter_timer_proc 0.
Definition create_client_omit_timer : P Z := create_omit_timer client_omit_timer_proc.

(** ** The end of a test *)

Fixpoint close_sockets (l : list iperf_stream) : P unit :=
  match l with [] => mret tt | sp :: l => do_os (sys (Cclose (Stream.socket sp))) ;; close_sockets l end.

Definition iperf_client_end : P Z :=
  let! test := get_test in
  close_sockets (Test.streams test) ;;
  iperf_reporter_callback ;;
  let! test := get_test in
  let! r := if 0 <? Test.state test then iperf_set_send_state IPERF_DONE else mret 0 in
  if negb (r =? 0) then mret (-1)
  else
    let! test := get_test in
    (if 0 <=? Test.ctrl_sck test then do_os (sys (Cclose (Test.ctrl_sck test))) ;; mret tt else mret tt) ;;
    mret 0.

(** ** Messages *)

(** Reports as at the end of the test, whatever the state. *)
Definition report_as_final (start : cpu_usage) : P unit :=
  let! test := get_test in
  let oldstate := Test.state test in
  measure_cpu start ;;
  upd (fun t => t <| Test.state := DISPLAY_RESULTS |>) ;;
  iperf_reporter_callback ;;
  upd (fun t => t <| Test.state := oldstate |>).

(** The two words that follow SERVER_ERROR; undefined when the first is not
    read in full. *)
Definition read_server_error : P Z :=
  let! test := get_test in
  let! (r, bytes) := do_os (Nread (Test.ctrl_sck test) 4 Ptcp) in
  if r <? 0 then fail_with IECTRLREAD ;; mret (-1)
  else if negb (r =? 4) then mfail
  else
    do_os (set_i_errno (i32 (ntohl bytes))) ;;
    let! (r, more) := do_os (Nread (Test.ctrl_sck test) 4 Ptcp) in
    if r <? 0 then fail_with IECTRLREAD ;; mret (-1)
    else do_os (set_errno (i32 (ntohl (store_bytes 0 more bytes)))) ;; mret (-1).

(** What follows a new state. *)
Definition client_enters (start : cpu_usage) (state : Z) : P Z :=
  let ok (m : P Z) (k : P Z) : P Z := let! r := m in if r <? 0 then mret (-1) else k in
  let! test := get_test in
  if state =? PARAM_EXCHANGE then ok iperf_exchange_parameters (iperf_on_connect ;; mret 0)
  else if state =? CREATE_STREAMS then
    if Test.mode test =? BIDIRECTIONAL then ok (iperf_create_streams 1) (ok (iperf_create_streams 0) (mret 0))
    else ok (iperf_create_streams (Test.mode test)) (mret 0)
  else if state =? TEST_START then
    ok iperf_init_test (ok create_client_timers (ok create_client_omit_timer
      (if nonzero (Test.mode test) then ok iperf_create_send_timers (mret 0) else mret 0)))
  else if state =? TEST_RUNNING then mret 0
  else if state =? EXCHANGE_RESULTS then ok iperf_exchange_results (mret 0)
  else if state =? DISPLAY_RESULTS then iperf_client_end ;; mret 0
  else if state =? IPERF_DONE then mret 0
  else if state =? SERVER_TERMINATE then fail_with IESERVERTERM ;; report_as_final start ;; mret (-1)
  else if state =? ACCESS_DENIED then fail_with IEACCESSDENIED ;; mret (-1)
  else if state =? SERVER_ERROR then read_server_error
  else fail_with IEMESSAGE ;; mret (-1).

(** The state is a signed char. *)
Definition iperf_handle_message_client (start : cpu_usage) : P Z :=
  let! test := get_test in
  let! r := do_os (sys (Cread (Test.ctrl_sck test) 1)) in
  if ret r <=? 0 then (if ret r =? 0 then fail_with IECTRLCLOSE else fail_with IERECVMESSAGE) ;; mret (-1)
  else
    let state := i8 (nth 0 (data r) 0) in
    upd (fun t => t <| Test.state := state |>) ;;
    client_enters start state.

(** ** Connecting *)

(** The size of a UDP message that was not chosen is the segment size of the
    control connection, if it is known. *)
Definition choose_blksize (test : iperf_test) : iperf_test :=
  match Test.protocol test with
  | Some p =>
      if (Protocol.id p =? Pudp) && (Settings.blksize (Test.settings test) =? 0)
      then in_settings (fun s => s <| Settings.blksize := if nonzero (Test.ctrl_sck_mss test) then Test.ctrl_sck_mss test
                                                          else DEFAULT_UDP_BLKSIZE |>) test
      else test
  | None => test
  end.

Definition iperf_connect : P Z :=
  upd (fun t => t <| Test.read_set := ∅ |> <| Test.write_set := ∅ |>) ;;
  let! rnd := do_os (sys (Crandom (COOKIE_SIZE - 1))) in
  upd (fun t => t <| Test.cookie := received_cookie (make_cookie (data rnd)) |>) ;;
  let! test := get_test in
  (if Test.ctrl_sck test <? 0 then
     let! host := mopt (Test.server_hostname test) in
     let! s := do_os (netdial (Settings.domain (Test.settings test)) Ptcp (Test.bind_address test) (Test.bind_dev test) 0
                        host (Test.server_port test) (Settings.connect_timeout (Test.settings test))) in
     upd (fun t => t <| Test.ctrl_sck := s |>)
   else mret tt) ;;
  let! test := get_test in
  let s := Test.ctrl_sck test in
  if s <? 0 then fail_with IECONNECT ;; mret (-1)
  else
    let! r := do_os (sys (Csetsockopt s IPPROTO_TCP TCP_NODELAY 1)) in
    if negb (ret r =? 0) then fail_with IESETNODELAY ;; mret (-1)
    else
      let! r := do_os (Nwrite s (cookie_bytes (Test.cookie test)) Ptcp) in
      if r <? 0 then fail_with IESENDCOOKIE ;; mret (-1)
      else
        upd (watch_read s) ;;
        let! r := do_os (sys (Cgetsockopt s IPPROTO_TCP TCP_MAXSEG)) in
        let opt := nth 0 (outs r) 0 in
        upd (fun t => t <| Test.ctrl_sck_mss :=
          if ret r <? 0 then 0 else if (0 <? opt) && (opt <=? MAX_UDP_BLOCKSIZE) then opt else 0 |>) ;;
        let! test := get_test in
        let! p := mopt (Test.protocol test) in
        upd choose_blksize ;; mret 0.

(** ** The main loop *)

(** The variables of the loop: the readings of the processor time, the limit
    on waiting for data, the progress, and whether the threads are to start. *)
Record loop := Loop { cpu_start : cpu_usage; limit_us : Z; progressed : progress; startup : bool }.
#[export] Instance loop_eta : Settable loop := fun r => Loop (cpu_start r) (limit_us r) (progressed r) (startup r).

(** A round: the work of other threads during the wait, the fuel of the timers. *)
Record round := Round { others : prog -> prog; fuel : nat }.

(** Waiting: [None] is an error, otherwise the descriptors that are ready and
    the progress. *)
Definition watching (l : loop) (test : iperf_test) : bool := (Test.state test =? TEST_RUNNING) && (0 <? limit_us l).
Definition next_timeout (now : iperf_time) : P (option (Z * Z)) := fun s => t ← tmr_timeout (Some now) now (tmr s); Some (t, s).
Definition wait_for_input (timeout : option (Z * Z)) (other : prog -> prog) : P reply :=
  let! test := get_test in
  let! r := do_os (sys (Cselect (elements (Test.read_set test)) timeout)) in
  mmod other ;; mret r.
Definition select_error (r : reply) : P bool := let! e := do_os get_errno in mret ((ret r <? 0) && negb (e =? EINTR)).

Definition client_wait (l : loop) (other : prog -> prog) : P (option (list fd * loop)) :=
  let! now := do_os time_now in
  let! timeout := next_timeout now in
  let! test := get_test in
  let rcv := Settings.rcv_timeout (Test.settings test) in
  let timeout := if watching l test then watched_timeout rcv timeout else timeout in
  let! r := wait_for_input timeout other in
  let! bad := select_error r in
  if bad then fail_with IESELECT ;; mret None
  else
    let! test := get_test in
    let! (now, stuck) :=
      if (ret r =? 0) && watching l test then
        let! now := do_os time_now in
        mret (now, match idle_usecs now (progressed l) with
                   | Some us => (limit_us l <? us) && (Test.blocks_received test =? last_receive_blocks (progressed l))
                   | None => false
                   end)
      else mret (now, false) in
    if stuck then fail_with IENOMSG ;; mret None
    else mret (Some (if 0 <? ret r then outs r else [], l <| progressed ::= note_progress now test |>)).

(** The amount asked for has been sent or received. *)
Definition reached (limit sent received : Z) : bool := nonzero limit && ((limit <=? sent) || (limit <=? received)).
Definition test_complete (test : iperf_test) : bool :=
  let s := Test.settings test in
  negb (nonzero (Test.omitting test)) &&
  (nonzero (Test.done test) || reached (Settings.bytes s) (Test.bytes_sent test) (Test.bytes_received test) ||
   reached (Settings.blocks s) (Test.blocks_sent test) (Test.blocks_received test)).

Definition client_start_threads : P Z :=
  let! r := do_os (sys Cpthread_attr_init) in
  if negb (ret r =? 0) then fail_with IEPTHREADATTRINIT ;; mret (-1)
  else
    let! test := get_test in
    let! r := spawn_threads 0 (Test.streams test) in
    if r <? 0 then mret (-1)
    else
      let! r := do_os (sys Cpthread_attr_destroy) in
      if negb (ret r =? 0) then fail_with IEPTHREADATTRDESTROY ;; mret (-1) else mret 0.

(** The sending threads stop, the last interval is closed and the server told. *)
Definition client_finish (start : cpu_usage) : P Z :=
  let! test := get_test in
  let! r := stop_threads "sender cancel" (fun sp => nonzero (Stream.sender sp)) 0 (Test.streams test) in
  if r <? 0 then mret (-1)
  else
    upd (fun t => t <| Test.done := 1 |>) ;;
    measure_cpu start ;;
    iperf_stats_callback ;;
    let! r := iperf_set_send_state TEST_END in
    mret (if r =? 0 then 0 else -1).

Definition client_running (l : loop) (fuel : nat) : P (option loop) :=
  let! r := if startup l then client_start_threads else mret 0 in
  if r <? 0 then mret None
  else
    let! now := do_os time_now in
    run_timers client_procs fuel now ;;
    let! test := get_test in
    let l := l <| startup := false |> in
    if test_complete test then
      let! r := client_finish (cpu_start l) in mret (if r <? 0 then None else Some l)
    else mret (Some l).

(** One turn of the loop; [None] is the jump to the failure exit. *)
Definition client_turn (rd : round) (l : loop) : P (option loop) :=
  let! w := client_wait l (others rd) in
  match w with
  | None => mret None
  | Some (ready, l) =>
      let! test := get_test in
      let! r := if bool_decide (Test.ctrl_sck test ∈ ready) then iperf_handle_message_client (cpu_start l) else mret 0 in
      if r <? 0 then mret None
      else
        let! test := get_test in
        if Test.state test =? TEST_RUNNING then client_running l (fuel rd) else mret (Some l)
  end.

(** The result tells if the loop ended well; it is [None] when the rounds are
    over before the loop. *)
Fixpoint client_loop (rounds : list round) (l : loop) : P (option bool) :=
  let! test := get_test in
  if Test.state test =? IPERF_DONE then mret (Some true)
  else
    match rounds with
    | [] => mret None
    | rd :: rounds =>
        let! o := client_turn rd l in
        match o with Some l => client_loop rounds l | None => mret (Some false) end
    end.

Definition client_success : P Z :=
  let! test := get_test in
  let! r := stop_threads "receiver cancel" (fun sp => negb (nonzero (Stream.sender sp))) 0 (Test.streams test) in
  mret r.
Definition cleanup_and_fail : P Z :=
  kill_threads "cleanup_and_fail" (fun sp => negb (nonzero (Stream.done sp))) ;;
  iperf_client_end ;;
  let! test := get_test in
  when (nonzero (Test.json_output test))
    (let! str := error_text in upd (add_top "error" (cJSON_CreateString str)) ;; iperf_json_finish ;; mret tt) ;;
  mret (-1).

Definition report_done := nl "iperf Done.".
Definition client_goodbye : P Z :=
  let! test := get_test in
  if nonzero (Test.json_output test) then let! r := iperf_json_finish in mret (if r <? 0 then -1 else 0)
  else say newline [] ;; say "%s" [Astr report_done] ;; mret 0.

(** [None] while the test is still running after the rounds. *)
Definition iperf_run_client (rounds : list round) : P (option Z) :=
  let! test := get_test in
  let! r := match Test.logfile test with Some _ => iperf_open_logfile | None => mret 0 end in
  if r <? 0 then mret (Some (-1))
  else
    let! r := if negb (Test.affinity test =? -1) then iperf_setaffinity else mret 0 in
    if r <? 0 then mret (Some (-1))
    else
      when (nonzero (Test.json_output test)) (iperf_json_start ;; mret tt) ;;
      introduce ;;
      let! r := iperf_connect in
      if r <? 0 then let! r := cleanup_and_fail in mret (Some r)
      else
        let! start := do_os read_usage in
        let! test := get_test in
        let limit := if Test.mode test =? SENDER then 0 else rcv_timeout_us (Settings.rcv_timeout (Test.settings test)) in
        let! now := do_os time_now in
        let! o := client_loop rounds (Loop start limit (Progress now 0) true) in
        match o with
        | None => mret None
        | Some false => let! r := cleanup_and_fail in mret (Some r)
        | Some true =>
            let! r := client_success in
            if r <? 0 then let! r := cleanup_and_fail in mret (Some r)
            else let! r := client_goodbye in mret (Some r)
        end.
