(* ===== verification/Server.v ===== *)
(** * The server: iperf_server_api.c

    Listening, accepting a client, the handler of control messages, the
    clean-up and the main loop of one test.  The threads of the streams are the
    workers of Traffic.v, whose loop is the same on both sides. *)
From Stdlib Require Import Ascii String.
From stdpp Require Import strings.
From S2P Require Import Prelude Double IperfTime Timer Text Cjson Iperf Error Sys Net Json Util Api Params Printf Output Results Stats Sockets Streams Report Control Client.
#[local] Open Scope string_scope.
#[local] Open Scope Z_scope.

(** ** Timers *)

Definition unwatch (f : fd) (t : iperf_test) : iperf_test :=
  t <| Test.read_set ::= fun r => r ∖ {[ f ]} |> <| Test.write_set ::= fun r => r ∖ {[ f ]} |>.

(** The streams are freed though their threads may still be running. *)
Fixpoint drop_streams (l : list iperf_stream) : P unit :=
  match l with
  | [] => mret tt
  | sp :: l =>
      upd (fun t => t <| Test.streams := l |>) ;;
      do_os (sys (Cclose (Stream.socket sp))) ;; iperf_free_stream sp ;; drop_streams l
  end.
Definition server_end_proc : P unit :=
  upd (fun t => t <| Test.timer := None |>) ;;
  unless_done
    (upd (fun t => t <| Test.done := 1 |>) ;;
     let! test := get_test in
     drop_streams (Test.streams test) ;;
     do_os (sys (Cclose (Test.ctrl_sck test))) ;;
     upd (fun t => t <| Test.ctrl_sck := -1 |>)).

Definition server_procs (proc : Z) (nowP : iperf_time) : P unit :=
  if proc =? server_timer_proc then server_end_proc
  else if proc =? server_stats_timer_proc then unless_done iperf_stats_callback
  else if proc =? server_reporter_timer_proc then unless_done iperf_reporter_callback
  else if proc =? server_omit_timer_proc then omit_timer_proc nowP
  else mfail.

(** Four seconds for each of ten changes of state. *)
Definition grace_period : Z := 4 * 10.
Definition create_server_timers : P Z := create_timers server_timer_proc server_stats_timer_proc server_reporter_timer_proc grace_period.
Definition create_server_omit_timer : P Z := create_omit_timer server_omit_timer_proc.

(** ** Listening *)

(** Two attempts, the second for IPv4 alone. *)
Fixpoint announce (tries : nat) : P Z :=
  match tries with
  | O => mfail
  | S tries =>
      let! test := get_test in
      let domain := Settings.domain (Test.settings test) in
      let! s := do_os (netannounce domain Ptcp (Test.bind_address test) (Test.bind_dev test) (Test.server_port test)) in
      upd (fun t => t <| Test.listener := s |>) ;;
      if s <? 0 then
        let! e := do_os get_errno in
        if (e =? EAFNOSUPPORT) && ((domain =? AF_INET6) || (domain =? AF_UNSPEC))
        then upd (in_settings (fun st => st <| Settings.domain := AF_INET |>)) ;; announce tries
        else fail_with IELISTEN ;; mret (-1)
      else mret 0
  end.

Definition rule := nl "-----------------------------------------------------------".
Definition announce_test : P unit :=
  let! test := get_test in
  let fresh := negb (Test.server_last_run_rc test =? 2) in
  when fresh (upd (fun t => t <| Test.server_test_number ::= fun n => i32 (n + 1) |>)) ;;
  let! test := get_test in
  when (nonzero (Test.debug test) || fresh)
    (say rule [] ;;
     say (nl "Server listening on %d (test #%d)") [Aint (Test.server_port test); Aint (Test.server_test_number test)] ;;
     say rule []).

Definition iperf_server_listen : P Z :=
  let! r := announce 2 in
  if r <? 0 then mret (-1)
  else
    let! test := get_test in
    when (negb (nonzero (Test.json_output test))) announce_test ;;
    upd (fun t => watch_read (Test.listener t) (t <| Test.read_set := ∅ |> <| Test.write_set := ∅ |>)) ;;
    mret 0.

(** ** Accepting a client *)

(** The greeting of a new client: no delay, the cookie, the parameters. *)
Definition greet (s : fd) : P Z :=
  let ok (m : P Z) (k : P Z) : P Z := let! r := m in if r <? 0 then mret (-1) else k in
  let! r := do_os (sys (Csetsockopt s IPPROTO_TCP TCP_NODELAY 1)) in
  if negb (ret r =? 0) then fail_with IESETNODELAY ;; mret (-1)
  else
    let! (n, bytes) := do_os (Nread s COOKIE_SIZE Ptcp) in
    upd (fun t => t <| Test.cookie := received_cookie bytes |>) ;;
    if negb (n =? COOKIE_SIZE) then fail_with IERECVCOOKIE ;; mret (-1)
    else
      upd (watch_read s) ;;
      let! r := iperf_set_send_state PARAM_EXCHANGE in
      if negb (r =? 0) then mret (-1)
      else
        ok iperf_exchange_parameters
          (let! test := get_test in
           let! r := if negb (Test.server_affinity test =? -1) then iperf_setaffinity else mret 0 in
           if negb (r =? 0) then mret (-1) else iperf_on_connect ;; mret 0).

(** A second client is turned away; what becomes of the message does not
    matter. *)
Definition iperf_accept : P Z :=
  let! test := get_test in
  let! a := do_os (sys (Caccept (Test.listener test))) in
  let s := ret a in
  if s <? 0 then fail_with IEACCEPT ;; mret (-1)
  else if Test.ctrl_sck test =? -1 then
    upd (fun t => t <| Test.ctrl_sck := s |>) ;;
    let! r := greet s in
    if r <? 0 then do_os (sys (Cclose s)) ;; mret (-1) else mret 0
  else do_os (Nwrite s [u8 ACCESS_DENIED] Ptcp) ;; do_os (sys (Cclose s)) ;; mret 0.

(** ** Messages *)

(** The sockets of the streams are closed; their numbers stay in the streams. *)
Fixpoint close_streams (l : list iperf_stream) : P unit :=
  match l with
  | [] => mret tt
  | sp :: l => upd (unwatch (Stream.socket sp)) ;; do_os (sys (Cclose (Stream.socket sp))) ;; close_streams l
  end.

Definition server_test_end (start : cpu_usage) : P Z :=
  upd (fun t => t <| Test.done := 1 |>) ;;
  measure_cpu start ;;
  iperf_stats_callback ;;
  let! test := get_test in
  close_streams (Test.streams test) ;;
  iperf_reporter_callback ;;
  let! r := iperf_set_send_state EXCHANGE_RESULTS in
  if negb (r =? 0) then mret (-1)
  else
    let! r := iperf_exchange_results in
    if r <? 0 then mret (-1)
    else let! r := iperf_set_send_state DISPLAY_RESULTS in mret (if r =? 0 then 0 else -1).

Definition server_enters (start : cpu_usage) (state : Z) : P Z :=
  if state =? TEST_START then mret 0
  else if state =? TEST_END then server_test_end start
  else if state =? IPERF_DONE then mret 0
  else if state =? CLIENT_TERMINATE then
    fail_with IECLIENTTERM ;;
    report_as_final start ;;
    iperf_err "the client has terminated" ;;
    let! test := get_test in
    close_streams (Test.streams test) ;;
    upd (fun t => iperf_set_test_state t IPERF_DONE) ;; mret 0
  else fail_with IEMESSAGE ;; mret (-1).

Definition iperf_handle_message_server (start : cpu_usage) : P Z :=
  let! test := get_test in
  let! (r, bytes) := do_os (Nread (Test.ctrl_sck test) 1 Ptcp) in
  if r <=? 0 then
    if r =? 0 then iperf_err "the client has unexpectedly closed the connection" ;; fail_with IECTRLCLOSE ;; upd (fun t => iperf_set_test_state t IPERF_DONE) ;; mret 0
    else fail_with IERECVMESSAGE ;; mret (-1)
  else
    let state := i8 (nth 0 bytes 0) in
    upd (fun t => t <| Test.state := state |>) ;;
    server_enters start state.

(** ** Cleaning up *)

Fixpoint close_open_streams (i : nat) (l : list iperf_stream) : P unit :=
  match l with
  | [] => mret tt
  | sp :: l =>
      when (-1 <? Stream.socket sp)
        (upd (unwatch (Stream.socket sp)) ;; do_os (sys (Cclose (Stream.socket sp))) ;;
         set_stream i (fun sp => sp <| Stream.socket := -1 |>)) ;;
      close_open_streams (S i) l
  end.
Definition close_socket (get : iperf_test -> Z) (clear : iperf_test -> iperf_test) : P unit :=
  let! test := get_test in
  when (-1 <? get test) (do_os (sys (Cclose (get test))) ;; upd clear).
Definition close_test_sockets : P unit :=
  close_socket Test.ctrl_sck (fun t => t <| Test.ctrl_sck := -1 |>) ;;
  close_socket Test.listener (fun t => t <| Test.listener := -1 |>) ;;
  close_socket Test.prot_listener (fun t => t <| Test.prot_listener := -1 |>).

Definition cleanup_server : P unit :=
  kill_threads "cleanup_server" (fun _ => true) ;;
  let! test := get_test in
  close_open_streams 0 (Test.streams test) ;;
  close_test_sockets ;;
  cancel_timer Test.stats_timer (set_stats_timer None) ;;
  cancel_timer Test.reporter_timer (set_reporter_timer None) ;;
  cancel_timer Test.omit_timer (set_omit_timer None) ;;
  upd (fun t => t <| Test.congestion_used := None |>) ;;
  cancel_timer Test.timer (set_timer None).

(** ** The main loop *)

(** How the server's function ends: a result, or the end of the program. *)
Inductive outcome := Returned (r : Z) | Exited.

(** The variables of the loop.  [flag], which end a stream gets, is [None]
    while it is not initialised. *)
Record sloop := SLoop {
  s_cpu : cpu_usage; s_progress : progress; s_limit_us : Z;
  send_streams_accepted : Z; rec_streams_accepted : Z; streams_to_send : Z; streams_to_rec : Z; flag : option Z }.
#[export] Instance sloop_eta : Settable sloop := fun r =>
  SLoop (s_cpu r) (s_progress r) (s_limit_us r) (send_streams_accepted r) (rec_streams_accepted r) (streams_to_send r) (streams_to_rec r) (flag r).

(** A turn of the loop ends with the variables of the next one, or with the
    result of the function. *)
Definition turn : Type := sloop + outcome.
Definition abandon : P turn := cleanup_server ;; mret (inr (Returned (-1))).
Definition abandon_with (e : iperf_error) : P turn := cleanup_server ;; fail_with e ;; mret (inr (Returned (-1))).
Definition need (m : P Z) (k : P turn) : P turn := let! r := m in if r <? 0 then abandon else k.
Definition need_zero (m : P Z) (k : P turn) : P turn := let! r := m in if r =? 0 then k else abandon.

(** Waiting no longer than the state allows. *)
Definition server_timeout (test : iperf_test) (timeout : option (Z * Z)) : option (Z * Z) :=
  let st := Test.settings test in
  if Test.state test =? IPERF_START then
    match timeout with
    | None => if 0 <? Settings.idle_timeout st then Some (Settings.idle_timeout st, 0) else None
    | Some _ => timeout
    end
  else if negb (Test.mode test =? SENDER) then watched_timeout (Settings.rcv_timeout st) timeout
  else timeout.

(** Nothing arrived in time: [None] to go on. *)
Definition server_idle (l : sloop) (now : iperf_time) : P (option outcome) :=
  let! test := get_test in
  match idle_usecs now (s_progress l) with
  | None => mret None
  | Some t_usecs =>
      if Test.state test =? IPERF_START then
        let idle := Settings.idle_timeout (Test.settings test) in
        if (0 <? idle) && (idle * SEC_TO_US <=? t_usecs) then
          upd (fun t => t <| Test.server_forced_idle_restarts_count ::= fun n => i32 (n + 1) |>) ;;
          cleanup_server ;;
          mret (Some (if nonzero (iperf_get_test_one_off test) then Exited else Returned 2))
        else mret None
      else if negb (Test.mode test =? SENDER) && (s_limit_us l <? t_usecs)
              && (Test.blocks_received test =? last_receive_blocks (s_progress l)) then
        upd (fun t => t <| Test.server_forced_no_msg_restarts_count ::= fun n => i32 (n + 1) |>) ;;
        fail_with IENOMSG ;;
        let! test := get_test in
        when (nonzero (iperf_get_verbose test))
          (iperf_err ("Server restart (#" ++ dec (Test.server_forced_no_msg_restarts_count test) ++
                      ") during active test due to idle timeout for receiving data")) ;;
        cleanup_server ;; mret (Some (Returned (-1)))
      else mret None
  end.

(** The numbers of streams in each direction. *)
Definition expect_streams (test : iperf_test) (l : sloop) : sloop :=
  let n := Test.num_streams test in
  if Test.mode test =? BIDIRECTIONAL then l <| streams_to_send := n |> <| streams_to_rec := n |>
  else if Test.mode test =? RECEIVER then l <| streams_to_rec := n |> <| streams_to_send := 0 |>
  else l <| streams_to_send := n |> <| streams_to_rec := 0 |>.
Definition all_accepted (l : sloop) : bool :=
  (rec_streams_accepted l =? streams_to_rec l) && (send_streams_accepted l =? streams_to_send l).

(** Receiving streams come first. *)
Definition assign_stream (l : sloop) : sloop :=
  if negb (rec_streams_accepted l =? streams_to_rec l)
  then l <| flag := Some 0 |> <| rec_streams_accepted ::= Z.succ |>
  else if negb (send_streams_accepted l =? streams_to_send l)
  then l <| flag := Some 1 |> <| send_streams_accepted ::= Z.succ |>
  else l.

(** A connection on the listener of the streams. *)
Definition accept_stream (l : sloop) : P turn :=
  let! s := protocol_accept in
  if s <? 0 then abandon
  else
    let! test := get_test in
    let! r := do_os (iperf_common_sockopts test s) in
    if r <? 0 then abandon
    else
      let! closed := do_os (is_closed s) in
      if nonzero closed then mret (inl l)
      else
        let l := assign_stream l in
        let! flag := mopt (flag l) in
        if flag =? -1 then mret (inl l)
        else
          let! sp := iperf_new_stream s flag in
          match sp with
          | None => abandon
          | Some sp =>
              upd (fun t => t <| Test.max_fd ::= fun m => Z.max s m |>) ;;
              iperf_on_new_stream sp ;;
              mret (inl (l <| Server.flag := Some (-1) |>))
          end.

(** The listener of the streams is given up; with options that were set on the
    listener of a TCP server it is opened again without them. *)
Definition reopen_listener (k : P turn) : P turn :=
  let! test := get_test in
  let! p := mopt (Test.protocol test) in
  let st := Test.settings test in
  if negb (Protocol.id p =? Ptcp) then
    upd (fun t => t <| Test.read_set ::= fun r => r ∖ {[ Test.prot_listener test ]} |>) ;;
    do_os (sys (Cclose (Test.prot_listener test))) ;; k
  else if nonzero (Test.no_delay test) || nonzero (Settings.mss st) || nonzero (Settings.socket_bufsize st) then
    upd (fun t => t <| Test.read_set ::= fun r => r ∖ {[ Test.listener test ]} |>) ;;
    do_os (sys (Cclose (Test.listener test))) ;;
    upd (fun t => t <| Test.listener := -1 |>) ;;
    let! s := do_os (netannounce (Settings.domain st) Ptcp (Test.bind_address test) (Test.bind_dev test) (Test.server_port test)) in
    if s <? 0 then abandon_with IELISTEN
    else upd (fun t => watch_read s (t <| Test.listener := s |>)) ;; k
  else k.

(** What the client asks for over all streams. *)
Definition total_requested_rate (test : iperf_test) : Z :=
  u64 (u64 (u64 (Test.num_streams test) * Settings.rate (Test.settings test)) * (if Test.mode test =? BIDIRECTIONAL then 2 else 1)).

(** Failures around the thread attributes clean up and go on. *)
Definition server_start_threads (l : sloop) : P turn :=
  let! r := do_os (sys Cpthread_attr_init) in
  when (negb (ret r =? 0)) (fail_with IEPTHREADATTRINIT ;; cleanup_server) ;;
  let! test := get_test in
  need (spawn_threads 0 (Test.streams test))
    (let! r := do_os (sys Cpthread_attr_destroy) in
     when (negb (ret r =? 0)) (fail_with IEPTHREADATTRDESTROY ;; cleanup_server) ;;
     mret (inl l)).

Definition start_test (l : sloop) : P turn :=
  reopen_listener
    (upd (fun t => t <| Test.prot_listener := -1 |>) ;;
     let! test := get_test in
     let limit := Settings.bitrate_limit (Test.settings test) in
     if (0 <? limit) && (limit <? total_requested_rate test) then
       when (nonzero (iperf_get_verbose test))
         (iperf_err ("Client total requested throughput rate of " ++ dec (total_requested_rate test) ++ " bps exceeded " ++
                     dec limit ++ " bps limit")) ;;
       abandon_with IETOTALRATE
     else
       let! start := do_os read_usage in
       need_zero (iperf_set_send_state TEST_START)
         (need iperf_init_test (need create_server_timers (need create_server_omit_timer
            (let! test := get_test in
             need (if negb (Test.mode test =? RECEIVER) then iperf_create_send_timers else mret 0)
               (need_zero (iperf_set_send_state TEST_RUNNING) (server_start_threads (l <| s_cpu := start |>)))))))).

Definition then_ (m : P turn) (k : sloop -> P turn) : P turn :=
  let! t := m in match t with inl l => k l | inr o => mret (inr o) end.

(** Everything that is ready, in the order of the code. *)
Definition on_listener (ready : list fd) (l : sloop) : P (turn * list fd) :=
  let! test := get_test in
  if bool_decide (Test.listener test ∈ ready) && negb (Test.state test =? CREATE_STREAMS) then
    let! r := iperf_accept in
    if r <? 0 then let! t := abandon in mret (t, ready)
    else
      let! test := get_test in
      mret (inl (expect_streams test l), filter (fun f => f <> Test.listener test) ready)
  else mret (inl l, ready).
Definition on_control (ready : list fd) (l : sloop) : P (turn * list fd) :=
  let! test := get_test in
  if bool_decide (Test.ctrl_sck test ∈ ready) then
    let! r := iperf_handle_message_server (s_cpu l) in
    if r <? 0 then let! t := abandon in mret (t, ready)
    else let! test := get_test in mret (inl l, filter (fun f => f <> Test.ctrl_sck test) ready)
  else mret (inl l, ready).
Definition on_streams (ready : list fd) (l : sloop) : P turn :=
  let! test := get_test in
  if Test.state test =? CREATE_STREAMS then
    then_ (if bool_decide (Test.prot_listener test ∈ ready) then accept_stream l else mret (inl l))
      (fun l => if all_accepted l then start_test l else mret (inl l))
  else mret (inl l).

Definition server_input (ready : list fd) (l : sloop) : P turn :=
  let! (t, ready) := on_listener ready l in
  then_ (mret t) (fun l =>
    let! (t, ready) := on_control ready l in
    then_ (mret t) (on_streams ready)).

Definition server_turn (rd : round) (l : sloop) : P turn :=
  let! test := get_test in
  if nonzero (Test.bitrate_limit_exceeded test) then abandon_with IETOTALRATE
  else
    let! now := do_os time_now in
    let! timeout := next_timeout now in
    let timeout := server_timeout test timeout in
    let! r := wait_for_input timeout (others rd) in
    let! bad := select_error r in
    if bad then abandon_with IESELECT
    else
      let! (now, o) :=
        if ret r =? 0 then let! now := do_os time_now in let! o := server_idle l now in mret (now, o)
        else mret (now, None) in
      match o with
      | Some o => mret (inr o)
      | None =>
          let! test := get_test in
          let l := l <| s_progress ::= note_progress now test |> in
          then_ (if 0 <? ret r then server_input (outs r) l else mret (inl l))
            (fun l =>
               let expired := match timeout with Some (0, 0) => true | _ => false end in
               when ((ret r =? 0) || expired)
                 (let! now := do_os time_now in run_timers server_procs (fuel rd) now) ;;
               mret (inl l))
      end.

(** [None] while the test is still running after the rounds. *)
Fixpoint server_loop (rounds : list round) (l : sloop) : P (option outcome) :=
  let! test := get_test in
  if Test.state test =? IPERF_DONE then
    let! r := if nonzero (Test.json_output test) then iperf_json_finish else mret 0 in
    if r <? 0 then mret (Some (Returned (-1)))
    else
      cleanup_server ;;
      let! r := if negb (Test.server_affinity test =? -1) then iperf_clearaffinity else mret 0 in
      mret (Some (Returned (if r =? 0 then 0 else -1)))
  else
    match rounds with
    | [] => mret None
    | rd :: rounds =>
        let! t := server_turn rd l in
        match t with inl l => server_loop rounds l | inr o => mret (Some o) end
    end.

(** [static] is what an earlier test left of the processor time. *)
Definition iperf_run_server (static : cpu_usage) (rounds : list round) : P (option outcome) :=
  let! test := get_test in
  let! r := match Test.logfile test with Some _ => iperf_open_logfile | None => mret 0 end in
  if r <? 0 then mret (Some (Returned (-2)))
  else
    let! r := if negb (Test.affinity test =? -1) then iperf_setaffinity else mret 0 in
    if negb (r =? 0) then cleanup_server ;; mret (Some (Returned (-2)))
    else
      when (nonzero (Test.json_output test)) (iperf_json_start ;; mret tt) ;;
      introduce ;;
      let! r := iperf_server_listen in
      if r <? 0 then cleanup_server ;; mret (Some (Returned (-2)))
      else
        let! now := do_os time_now in
        upd (fun t => iperf_set_test_state t IPERF_START) ;;
        let limit := rcv_timeout_us (Settings.rcv_timeout (Test.settings test)) in
        server_loop rounds (SLoop static (Progress now 0) limit 0 0 0 0 None).
