(* ===== verification/Wire.v ===== *)
(** * Who talks on a descriptor

    A program [spares] a descriptor when it neither reads nor writes on it, as
    long as the system does not hand out that descriptor again while the program
    runs.  Most of the program spares the control connection; the lemmas go
    through what the handlers of messages do besides the protocol. *)
From Stdlib Require Import Ascii String.
From stdpp Require Import strings.
From S2P Require Import Prelude Double IperfTime Timer Text Cjson Iperf Error Sys Net Json Util Api Frame Params Printf Output Results Stats Sockets Streams Report Control Client Server.
#[local] Open Scope string_scope.
#[local] Open Scope Z_scope.

(** Data goes in or out; a descriptor is handed out. *)
Definition talks (f : fd) (c : call) : bool :=
  match c with
  | Cread g _ | Crecv g _ _ | Cwrite g _ | Crecvfrom g _ => g =? f
  | Csendfile from to _ _ => (from =? f) || (to =? f)
  | _ => false
  end.
Definition handed (cr : call * reply) : option fd :=
  match cr.1 with Csocket _ _ _ | Caccept _ | Copen _ _ | Cmkstemp _ => Some (ret cr.2) | _ => None end.
Definition fresh_from (f : fd) (t : list (call * reply)) : Prop := Forall (fun cr => handed cr <> Some f) t.
Definition spared (f : fd) (t : list (call * reply)) : Prop := fresh_from f t -> Forall (fun cr => talks f cr.1 = false) t.

(** The calls from one world to a later one. *)
Definition avoids (f : fd) (w w' : world) : Prop :=
  exists t, trace w' = (trace w ++ t)%list /\ script w = (map snd t ++ script w')%list /\ spared f t.
Lemma spared_app f t1 t2 : spared f t1 -> spared f t2 -> spared f (t1 ++ t2).
Proof. intros H1 H2 H. unfold fresh_from in H. apply Forall_app in H as [? ?]. apply Forall_app; auto. Qed.
#[export] Instance avoids_preorder f : PreOrder (avoids f).
Proof.
  split; [intros w; exists []; rewrite app_nil_r; split_and!; try done; by constructor|]. intros a b c (t1 & H1 & S1 & P1) (t2 & H2 & S2 & P2).
  exists (t1 ++ t2)%list. rewrite H2, H1, S1, S2, map_app, <-!app_assoc. split_and!; [done|done|by apply spared_app].
Qed.
Abbreviation spares f := (steps (on_world (avoids f))).

(** ** Programs of the system *)

Section Tame.
Context (f : fd).

(** [N] is what is known of the descriptors that the program uses. *)
Definition tame (N : Prop) {A} (m : M world A) : Prop := emits m (fun _ t => N -> spared f t).
Lemma tame_none (N : Prop) : N -> spared f [].
Proof. by constructor. Qed.
Lemma tame_ret N {A} (a : A) : tame N (mret a).
Proof. apply emits_ret, tame_none. Qed.
Lemma tame_fail N {A} : tame N (mfail (A := A)).
Proof. apply emits_fail. Qed.
Lemma tame_bind N {A B} (m : M world A) (k : A -> M world B) : tame N m -> (forall a, tame N (k a)) -> tame N (mbnd m k).
Proof.
  intros Hm Hk. apply emits_bind. eapply emits_mono; [exact Hm|]. intros a t1 H1. eapply emits_mono; [apply Hk|].
  intros b t2 H2 HN. apply spared_app; auto.
Qed.
Lemma tame_sys (N : Prop) c : (N -> talks f c = false) -> tame N (sys c).
Proof. intros Hc. apply emits_sys. intros r HN Hf. constructor; [exact (Hc HN)|constructor]. Qed.
Lemma tame_get_errno N : tame N get_errno.
Proof. apply emits_get_errno. intros e; apply tame_none. Qed.
Lemma tame_set_errno N e : tame N (set_errno e).
Proof. apply emits_set_errno, tame_none. Qed.
Lemma tame_set_i_errno N e : tame N (set_i_errno e).
Proof. apply emits_set_i_errno, tame_none. Qed.
Lemma tame_mod_gerror N g : tame N (mmod (fun w => w <| gerror ::= g |>)).
Proof. apply emits_mod_gerror, tame_none. Qed.
Lemma tame_time N : tame N time_now.
Proof. apply emits_time_now. intros t r HN Hf. by repeat constructor. Qed.
Lemma tame_less (N N' : Prop) {A} (m : M world A) : (N' -> N) -> tame N m -> tame N' m.
Proof. intros HN Hm. eapply emits_mono; [exact Hm|]. auto. Qed.

(** A descriptor that was just handed out. *)
Definition is_new (s : fd) : Prop := (s <? 0) = false -> s <> f.
Definition obtains (m : M world Z) : Prop := emits m (fun s t => spared f t /\ (fresh_from f t -> is_new s)).
Lemma tame_obtain N {B} (m : M world Z) (k : Z -> M world B) : obtains m -> (forall s, tame (is_new s) (k s)) -> tame N (mbnd m k).
Proof.
  intros Hm Hk. apply emits_bind. eapply emits_mono; [exact Hm|]. intros s t1 [H1 Hs]. eapply emits_mono; [apply Hk|].
  intros b t2 H2 _ Hf. unfold fresh_from in Hf. apply Forall_app in Hf as [F1 F2]. apply Forall_app. split; [by apply H1|]. apply H2; auto.
Qed.
Lemma open_were_handed g t : forall open, g ∈ open_fds open t -> g ∈ open \/ Exists (fun cr => handed cr = Some g) t.
Proof.
  induction t as [|[c r] t IH]; intros open; [by left|]. intros H.
  assert (Hstep : forall open', g ∈ open_fds open' t -> (g ∈ open' -> g ∈ open \/ handed (c, r) = Some g) ->
    g ∈ open \/ Exists (fun cr => handed cr = Some g) ((c, r) :: t)).
  { intros open' Hin Ho. destruct (IH _ Hin) as [Hl|Hr]; [|right; by constructor 2]. destruct (Ho Hl); [by left|right; by constructor]. }
  destruct c; cbn [open_fds] in H; try (eapply Hstep; [exact H|by left]).
  all: try (eapply Hstep; [exact H|]; destruct (ret r <? 0); [by left|]; intros [->|?]%elem_of_cons; [by right|by left]).
  eapply Hstep; [exact H|]. intros Hin. apply list_elem_of_filter in Hin as [_ Hin]. by left.
Qed.
Lemma owner_obtains m : (forall N, tame N m) -> emits m owns -> obtains m.
Proof.
  intros Ht Ho w s w' H. destruct (Ht True _ _ _ H) as (t & H1 & H2 & H3). destruct (Ho _ _ _ H) as (t' & H1' & _ & H3').
  assert (t' = t) as -> by (rewrite H1 in H1'; by apply app_inv_head in H1'). exists t. split_and!; [done|done|by apply H3|].
  intros Hf Hs ->. unfold owns in H3'. rewrite Hs in H3'. destruct (open_were_handed f t []) as [Hn|He]; [rewrite H3'; by left|by apply elem_of_nil in Hn|].
  apply Exists_exists in He as (cr & Hin & Heq). unfold fresh_from in Hf. rewrite Forall_forall in Hf. by apply (Hf cr Hin).
Qed.

End Tame.

(** ** The tactic for programs of the system *)

Ltac not_talking := intros ?; first [reflexivity | cbn [talks]; apply Z.eqb_neq; by auto].

Create HintDb tame discriminated.
Ltac tame :=
  repeat first
    [ solve [eauto 2 with tame]
    | lazymatch goal with
      | |- tame _ _ (mbnd _ _) => apply tame_bind; [|intros ?]
      | |- tame _ _ (sys _) => apply tame_sys; not_talking
      | |- tame _ _ (mret _) => apply tame_ret
      | |- tame _ _ mfail => apply tame_fail
      | |- tame _ _ get_errno => apply tame_get_errno
      | |- tame _ _ (set_errno _) => apply tame_set_errno
      | |- tame _ _ (set_i_errno _) => apply tame_set_i_errno
      | |- tame _ _ (mmod _) => apply tame_mod_gerror
      | |- tame _ _ time_now => apply tame_time
      | |- tame _ _ (if ?b then _ else _) => let E := fresh "E" in destruct b eqn:E
      | |- tame _ _ (match ?o with _ => _ end) => destruct o
      | |- tame _ _ (let '(_, _) := ?x in _) => destruct x
      end
    | progress cbv zeta ].

Section Sockets.
Context (f : fd) (N : Prop).

Lemma tame_getaddrinfo name port : tame f N (getaddrinfo name port).
Proof. unfold getaddrinfo. tame. Qed.
Lemma tame_close_keeping s : tame f N (close_keeping_errno s).
Proof. unfold close_keeping_errno. tame. Qed.
Lemma tame_timeout_connect s timeout : tame f N (timeout_connect s timeout).
Proof. unfold timeout_connect. tame. Qed.
Lemma tame_getsockdomain s : tame f N (getsockdomain s).
Proof. unfold getsockdomain. tame. Qed.
Lemma tame_fail_as e : tame f N (fail_as e).
Proof. unfold fail_as. tame. Qed.
End Sockets.
#[export] Hint Resolve tame_getaddrinfo tame_close_keeping tame_timeout_connect tame_getsockdomain tame_fail_as : tame.

Section Programs.
Context (f : fd) (N : Prop).

Lemma tame_create_socket domain type proto local bind_dev local_port server port :
  tame f N (create_socket domain type proto local bind_dev local_port server port).
Proof. unfold create_socket. tame. Qed.
Lemma tame_netannounce domain proto local bind_dev port : tame f N (netannounce domain proto local bind_dev port).
Proof. unfold netannounce. tame. Qed.
Lemma tame_set_option {A} s lvl opt v (fail k : M world A) : tame f N fail -> tame f N k -> tame f N (set_option s lvl opt v fail k).
Proof. intros Hf Hk. unfold set_option. tame. Qed.
Lemma tame_set_option_if {A} s lvl opt v (fail k : M world A) : tame f N fail -> tame f N k -> tame f N (set_option_if s lvl opt v fail k).
Proof. intros Hf Hk. unfold set_option_if. destruct (_ =? _); [done|by apply tame_set_option]. Qed.
Lemma tame_read_option {A} s opt (fail : M world A) k : tame f N fail -> (forall x, tame f N (k x)) -> tame f N (read_option s opt fail k).
Proof. intros Hf Hk. unfold read_option. tame. Qed.
Lemma tame_with_test test m : tame f N m -> tame f N (with_test test m).
Proof. intros Hm. unfold with_test. tame. Qed.
Lemma tame_fail_closing s e : tame f N (fail_closing s e).
Proof. unfold fail_closing. tame. Qed.
Lemma tame_stream_options {A} test s fail (k : M world A) : (forall e, tame f N (fail e)) -> tame f N k -> tame f N (stream_options test s fail k).
Proof. intros Hf Hk. unfold stream_options. repeat apply tame_set_option_if; auto. Qed.
Lemma tame_sockopts test s : tame f N (iperf_common_sockopts test s).
Proof. unfold iperf_common_sockopts. tame; repeat apply tame_set_option; tame. Qed.
End Programs.
#[export] Hint Resolve tame_create_socket tame_netannounce tame_fail_closing tame_sockopts : tame.

(** ** Connecting and listening *)

Ltac tame_options :=
  repeat first
    [ lazymatch goal with
      | |- tame _ _ (stream_options _ _ _ _) => apply tame_stream_options; [intros ?|]
      | |- tame _ _ (set_option_if _ _ _ _ _ _) => apply tame_set_option_if
      | |- tame _ _ (set_option _ _ _ _ _ _) => apply tame_set_option
      | |- tame _ _ (read_option _ _ _ _) => apply tame_read_option; [|intros ?]
      | |- tame _ _ (with_test _ _) => apply tame_with_test
      end
    | progress tame ].

Section Connecting.
Context (f : fd).

Lemma create_socket_obtains domain type proto local bind_dev local_port server port :
  obtains f (create_socket domain type proto local bind_dev local_port server port).
Proof. apply owner_obtains; [intros N; apply tame_create_socket|apply create_socket_owns]. Qed.
Lemma tame_netdial N domain proto local bind_dev local_port server port timeout :
  tame f N (netdial domain proto local bind_dev local_port server port timeout).
Proof. unfold netdial. tame. Qed.
Lemma netdial_obtains domain proto local bind_dev local_port server port timeout :
  obtains f (netdial domain proto local bind_dev local_port server port timeout).
Proof. apply owner_obtains; [intros N; apply tame_netdial|apply netdial_owns]. Qed.

Lemma tame_Nwrite_loop fuel s count : forall buf, tame f (s <> f) (Nwrite_loop fuel s count buf).
Proof. induction fuel as [|n IH]; intros buf; cbn [Nwrite_loop]; tame. Qed.
Lemma tame_Nwrite s buf prot : tame f (s <> f) (Nwrite s buf prot).
Proof. intros w. apply tame_Nwrite_loop. Qed.
Lemma tame_await fuel s limit : forall i buf, tame f (s <> f) (await_reply fuel s limit i buf).
Proof. induction fuel as [|n IH]; intros i buf; cbn [await_reply]; tame. Qed.

Lemma tame_tcp_connect N test : tame f N (iperf_tcp_connect test).
Proof.
  unfold iperf_tcp_connect. destruct (Test.server_hostname test); [|apply tame_fail]. apply tame_obtain; [apply create_socket_obtains|].
  intros fd. destruct (fd <? 0) eqn:Hs; [apply tame_with_test; tame|]. tame_options. eapply tame_less, tame_Nwrite. intros H. by apply H.
Qed.
Lemma tame_buffercheck N test s : tame f N (iperf_udp_buffercheck test s).
Proof. unfold iperf_udp_buffercheck. tame_options. Qed.
#[local] Hint Resolve tame_buffercheck : tame.
Lemma tame_grow N test s : tame f N (check_and_grow test s).
Proof. unfold check_and_grow. tame. Qed.
#[local] Hint Resolve tame_grow : tame.
Lemma tame_udp_connect N test : tame f N (iperf_udp_connect test).
Proof.
  unfold iperf_udp_connect. destruct (Test.server_hostname test); [|apply tame_fail]. apply tame_obtain; [apply netdial_obtains|].
  intros fd. destruct (fd <? 0) eqn:Hs; [tame|]. tame.
  intros w. eapply tame_less, tame_await. intros H. by apply H.
Qed.
Lemma tame_open_socket N name port type e k : (forall x s, tame f N (k x s)) -> tame f N (open_socket name port type e k).
Proof. intros Hk. unfold open_socket. tame. Qed.
Lemma tame_bind_and_listen N s : tame f N (bind_and_listen s).
Proof. unfold bind_and_listen. tame. Qed.
#[local] Hint Resolve tame_bind_and_listen : tame.
Lemma tame_verify N test s : tame f N (verify_buffers test s).
Proof. unfold verify_buffers. tame_options. Qed.
#[local] Hint Resolve tame_verify : tame.
Lemma tame_tcp_listen N test : tame f N (iperf_tcp_listen test).
Proof. unfold iperf_tcp_listen, tcp_relisten. tame. apply tame_open_socket. intros x s. tame_options. Qed.
Lemma tame_udp_listen N test : tame f N (iperf_udp_listen test).
Proof. unfold iperf_udp_listen, announce_udp. tame. Qed.

(** The buffer of a stream, its file and its addresses. *)
Lemma tame_first_set N names other : tame f N (first_set names other).
Proof. induction names as [|n names IH]; cbn [first_set]; unfold getenv; tame. Qed.
#[local] Hint Resolve tame_first_set : tame.
Lemma tame_build_stream N test s sender : tame f N (build_stream test s sender).
Proof.
  unfold build_stream, make_buffer, template, attach_file, fill_buffer, iperf_init_stream, no_fragments. tame.
  apply tame_set_option; tame.
Qed.
Lemma tame_close_intervals N is_tcp l : forall temp n, tame f N (close_intervals is_tcp temp n l).
Proof. induction l as [|sp l IH]; intros temp n; cbn [close_intervals]; tame. Qed.
Lemma tame_read_usage N : tame f N read_usage.
Proof. unfold read_usage. tame. Qed.
End Connecting.

(** ** Parts of the program *)

Section Spares.
Context (f : fd).

Lemma spares_os {A} (m : M world A) : tame f True m -> spares f (do_os m).
Proof. intros Hm. apply on_world_os. intros w a w' H. destruct (Hm _ _ _ H) as (t & H1 & H2 & H3). exists t. auto. Qed.
End Spares.
#[export] Hint Extern 2 (steps (on_world (avoids _)) (do_os _)) => apply spares_os; solve [tame] : frame.

Section Saying.
Context (f : fd).
Lemma spares_fail_with e : spares f (fail_with e).
Proof. unfold fail_with. frame. Qed.
Lemma spares_pieces pieces : forall r, spares f (print_pieces r pieces).
Proof. induction pieces as [|piece pieces IH]; intros r; cbn [print_pieces]; frame. Qed.
#[local] Hint Resolve spares_pieces : frame.
Lemma spares_printf format args : spares f (iperf_printf format args).
Proof. unfold iperf_printf, time_stamp. frame. Qed.
#[local] Hint Resolve spares_printf : frame.
Lemma spares_say format args : spares f (say format args).
Proof. unfold say. frame. Qed.
Lemma spares_err str : spares f (iperf_err str).
Proof. unfold iperf_err. frame. Qed.
Lemma tame_bare N {A} (m : M world A) : (forall w a w', m w = Some (a, w') -> trace w' = trace w /\ script w' = script w) -> tame f N m.
Proof. intros Hm. apply emits_silent; [exact Hm|]. intros _. apply tame_none. Qed.
Lemma spares_error_text : spares f error_text.
Proof. unfold error_text. frame; apply spares_os, tame_bare; intros ? ? ? E; by injection E as _ <-. Qed.
Lemma spares_event name j : spares f (JSONStream_Output name j).
Proof. unfold JSONStream_Output. frame. Qed.
End Saying.
#[export] Hint Resolve spares_fail_with spares_printf spares_say spares_err spares_error_text spares_event : frame.

Section Reports.
Context (f : fd).
Lemma spares_row test p first sp : spares f (print_interval_results test p first sp).
Proof. unfold print_interval_results, interval_header. frame. Qed.
#[local] Hint Resolve spares_row : frame.
Lemma spares_rows test p must l : forall first s, spares f (interval_rows test p must first l s).
Proof. induction l as [|sp l IH]; intros first s; cbn [interval_rows]; frame. Qed.
#[local] Hint Resolve spares_rows : frame.
Lemma spares_directions test p modes : spares f (interval_directions test p modes).
Proof. induction modes as [|mode modes IH]; cbn [interval_directions]; unfold interval_direction, interval_sum; frame. Qed.
#[local] Hint Resolve spares_directions : frame.
Lemma spares_intermediate : spares f iperf_print_intermediate.
Proof. unfold iperf_print_intermediate. frame. Qed.
#[local] Hint Resolve spares_intermediate : frame.

Lemma spares_summary_rows test p must st rt l : forall t, spares f (summary_rows test p must st rt l t).
Proof.
  induction l as [|sp l IH]; intros t; cbn [summary_rows]; [frame|].
  assert (spares f (sender_summary test p must st sp)) by (unfold sender_summary, unavailable; frame).
  assert (spares f (disk_summary test must sp)) by (unfold disk_summary; frame).
  assert (spares f (receiver_summary test p must rt sp)) by (unfold receiver_summary, unavailable; frame). frame.
Qed.
Lemma spares_stream_sum test must st rt t : spares f (stream_sum test must st rt t).
Proof. unfold stream_sum, unavailable. frame. Qed.
Lemma spares_datagram_sum test must st rt e t : spares f (datagram_sum test must st rt e t).
Proof. unfold datagram_sum. frame. Qed.
Lemma spares_closing_json test p must : spares f (closing_json test p must).
Proof. unfold closing_json. frame. Qed.
Lemma spares_closing_text test p must : spares f (closing_text test p must).
Proof. unfold closing_text, cpu_line. frame. Qed.
#[local] Hint Resolve spares_summary_rows spares_stream_sum spares_datagram_sum spares_closing_json spares_closing_text : frame.
Lemma spares_server_output : spares f print_server_output.
Proof. unfold print_server_output. frame. Qed.
#[local] Hint Resolve spares_server_output : frame.
Lemma spares_results_directions own p modes : spares f (results_directions own p modes).
Proof. induction modes as [|mode modes IH]; cbn [results_directions]; unfold results_direction; frame. Qed.
#[local] Hint Resolve spares_results_directions : frame.
Lemma spares_report : spares f iperf_reporter_callback.
Proof. unfold iperf_reporter_callback, iperf_print_results, summary_header, add_to_end. frame. Qed.
End Reports.
#[export] Hint Resolve spares_report : frame.

Section Handlers.
Context (f : fd).
Lemma spares_measure start : spares f (measure_cpu start).
Proof. unfold measure_cpu. apply steps_bind; [apply _|apply spares_os, tame_read_usage|intros ?; frame]. Qed.
Lemma spares_stats : spares f iperf_stats_callback.
Proof. unfold iperf_stats_callback. frame. apply spares_os, tame_close_intervals. Qed.
Lemma spares_init_test : spares f iperf_init_test.
Proof. unfold iperf_init_test, iperf_on_test_start, note. frame. Qed.
Lemma spares_arm now proc us per set : spares f (arm now proc us per set).
Proof. unfold arm, new_timer. frame. Qed.
#[local] Hint Resolve spares_arm : frame.
Lemma spares_create_timers a b c g : spares f (create_timers a b c g).
Proof. unfold create_timers, try_now, arm_periodic. frame. Qed.
Lemma spares_create_omit_timer a : spares f (create_omit_timer a).
Proof. unfold create_omit_timer, try_now. frame. Qed.
Lemma spares_client_timers : spares f create_client_timers.
Proof. apply spares_create_timers. Qed.
Lemma spares_server_timers : spares f create_server_timers.
Proof. apply spares_create_timers. Qed.
Lemma spares_client_omit : spares f create_client_omit_timer.
Proof. apply spares_create_omit_timer. Qed.
Lemma spares_server_omit : spares f create_server_omit_timer.
Proof. apply spares_create_omit_timer. Qed.
Lemma spares_send_timers : spares f iperf_create_send_timers.
Proof. unfold iperf_create_send_timers. frame. Qed.
Lemma spares_close_sockets l : spares f (close_sockets l).
Proof. induction l as [|sp l IH]; cbn [close_sockets]; frame. Qed.
Lemma spares_close_streams l : spares f (close_streams l).
Proof. induction l as [|sp l IH]; cbn [close_streams]; frame. Qed.
Lemma spares_on_connect : spares f iperf_on_connect.
Proof. unfold iperf_on_connect, note_settings, note, note_number, say_settings. frame. Qed.
Lemma spares_on_protocol {A} (tcp udp : iperf_test -> M world (A * iperf_test)) :
  (forall t, tame f True (tcp t)) -> (forall t, tame f True (udp t)) -> spares f (on_protocol tcp udp).
Proof.
  intros Ht Hu. unfold on_protocol. apply steps_get. intros t. destruct (Test.protocol t) as [p|]; [|apply steps_fail].
  apply steps_bind; [apply _|apply spares_os; by destruct (_ =? _)|]. intros [a t']. frame.
Qed.
Lemma spares_connect : spares f protocol_connect.
Proof. apply spares_on_protocol; [apply tame_tcp_connect|apply tame_udp_connect]. Qed.
Lemma spares_listen : spares f protocol_listen.
Proof.
  apply spares_on_protocol; [apply tame_tcp_listen|]. intros t. unfold Streams.unchanged. apply tame_bind; [apply tame_udp_listen|].
  intros ?. apply tame_ret.
Qed.
Lemma spares_new_stream s sender : spares f (iperf_new_stream s sender).
Proof. unfold iperf_new_stream. apply steps_get. intros t. apply steps_bind; [apply _|apply spares_os, tame_build_stream|intros ?; frame]. Qed.
Lemma spares_create_streams sender : spares f (iperf_create_streams sender).
Proof.
  unfold iperf_create_streams. apply steps_get. intros t. generalize (Test.bind_port t), 0. pose proof spares_connect.
  pose proof spares_new_stream. induction (Z.to_nat (Test.num_streams t)) as [|n IH]; intros port i; cbn [create_streams];
    unfold iperf_on_new_stream, connect_msg; frame.
Qed.
End Handlers.
#[export] Hint Resolve spares_measure spares_stats spares_init_test spares_client_timers spares_server_timers spares_client_omit spares_server_omit
  spares_send_timers   spares_close_sockets spares_close_streams spares_on_connect spares_listen spares_create_streams : frame.
