(* ===== verification/State.v ===== *)
(** * Who may change the state of a test

    The control state and the control socket of a test change only where the
    protocol says so.  [keeps] holds of the programs that leave both alone; the
    lemmas go through every component, and the two mains loops use them. *)
From Stdlib Require Import Ascii String.
From stdpp Require Import strings.
From S2P Require Import Prelude Double IperfTime Timer Text Cjson Iperf Error Sys Net Json Util Api Frame Params Printf Output Results Stats Sockets Streams Report Control Client Server Wire.
#[local] Open Scope string_scope.
#[local] Open Scope Z_scope.

Definition conn (t : iperf_test) : Z * ascii := (Test.ctrl_sck t, Test.role t).
Definition ctl (t : iperf_test) : Z * (Z * ascii) := (Test.state t, conn t).
Abbreviation keeps := (steps (same ctl)).

(** What is said and noted is no part of the state. *)
Lemma keeps_erases {A} (m : P A) : erases unsaid m -> keeps m.
Proof. apply (same_less unsaid ctl). intros t t' H. exact (f_equal ctl H). Qed.
#[export] Hint Extern 3 (steps (same ctl) _) => apply keeps_erases; solve [eauto 2 with frame] : frame.

Lemma keeps_err str : keeps (iperf_err str).
Proof. eauto with frame. Qed.

(** ** The pieces *)

Lemma check_retransmits_ctl t t' : check_sender_has_retransmits t = Some t' -> ctl t' = ctl t.
Proof.
  unfold check_sender_has_retransmits. intros H.
  destruct (if negb _ then _ else _) as [b|]; [|done]. by injection H as <-.
Qed.
Lemma set_reverse_ctl t v t' : iperf_set_test_reverse t v = Some t' -> ctl t' = ctl t.
Proof. unfold iperf_set_test_reverse. intros H%check_retransmits_ctl. rewrite H. by repeat case_match. Qed.
Lemma set_bidirectional_ctl t v t' : iperf_set_test_bidirectional t v = Some t' -> ctl t' = ctl t.
Proof.
  unfold iperf_set_test_bidirectional. destruct (negb _); [by intros [= <-]|]. intros H%set_reverse_ctl. by rewrite H.
Qed.
Lemma keeps_set_protocol n : keeps (set_protocol n).
Proof. unfold set_protocol, fail_with. frame. apply same_try_upd, check_retransmits_ctl. Qed.
Lemma keeps_fail_with e : keeps (fail_with e).
Proof. apply steps_os; apply _. Qed.
#[export] Hint Resolve keeps_set_protocol keeps_fail_with : frame.

Lemma keeps_on_number j name set : (forall n t, ctl (set n t) = ctl t) -> keeps (on_number j name set).
Proof. intros Hs. unfold on_number, on_item. frame. Qed.
Lemma keeps_on_string j name set : (forall n t, ctl (set n t) = ctl t) -> keeps (on_string j name set).
Proof. intros Hs. unfold on_string, on_item. frame. Qed.
Lemma keeps_on_true j name m : keeps m -> keeps (on_true j name m).
Proof. intros Hm. unfold on_true, on_item. frame. Qed.
Lemma keeps_apply j : keeps (apply_parameters j).
Proof.
  unfold apply_parameters, mark_retransmits.
  repeat lazymatch goal with
  | |- keeps (on_number _ _ _) => apply keeps_on_number; intros ? ?; reflexivity
  | |- keeps (on_string _ _ _) => apply keeps_on_string; intros ? ?; reflexivity
  | |- keeps (on_true _ _ _) => apply keeps_on_true
  | |- keeps (mbnd get_test _) => apply steps_get; intros ?
  | |- keeps (mbnd _ _) => apply steps_bind; [apply _| |intros ?]
  end; frame.
  - apply same_try_upd. intros t t'. apply set_reverse_ctl.
  - apply same_try_upd. intros t t'. apply set_bidirectional_ctl.
Qed.
#[export] Hint Resolve keeps_apply : frame.
Lemma keeps_get_parameters : keeps get_parameters.
Proof. unfold get_parameters, note_target_bitrate. frame. Qed.
Lemma keeps_send_parameters : keeps send_parameters.
Proof. unfold send_parameters. frame. Qed.
#[export] Hint Resolve keeps_get_parameters keeps_send_parameters : frame.

(** The functions of a protocol change the buffer size and the listeners. *)
Lemma keeps_on_protocol (tcp udp : iperf_test -> M world (Z * iperf_test)) :
  (forall t w r t' w', tcp t w = Some ((r, t'), w') -> ctl t' = ctl t) ->
  (forall t w r t' w', udp t w = Some ((r, t'), w') -> ctl t' = ctl t) -> keeps (on_protocol tcp udp).
Proof.
  intros Ht Hu s r s' H. unfold on_protocol in H. rewrite bind_get_test in H. destruct (Test.protocol (tst s)) as [q|]; [|done].
  pstep H. apply do_os_inv in E as (_ & _ & E). destruct x as [r0 t0]. pstep H. injection H as <- <-.
  unfold same. cbn [tst modify_field prog_eta eta_of]. destruct (Protocol.id q =? Ptcp); eauto.
Qed.
Lemma unchanged_ctl m t w r t' w' : Streams.unchanged m t w = Some ((r, t'), w') -> ctl t' = ctl t.
Proof. intros H. unfold Streams.unchanged in H. follow H. by injection H as _ <- _. Qed.
Lemma grow_ctl t s w r t' w' : check_and_grow t s w = Some ((r, t'), w') -> ctl t' = ctl t.
Proof. intros (b & start & ->)%check_and_grow_resizes. done. Qed.
Lemma verify_ctl t s w r t' w' : verify_buffers t s w = Some ((r, t'), w') -> ctl t' = ctl t.
Proof.
  intros H. unfold verify_buffers, read_option in H. follow H; try (by apply with_test_same in H as ->).
  injection H as _ <- _. assert (noted t (note_sizes note_size (nth 0 (outs x) 0) (nth 0 (outs x0) 0) t)) as [start ->]; [|done].
  auto with sockets.
Qed.
Lemma tcp_listen_ctl t w r t' w' : iperf_tcp_listen t w = Some ((r, t'), w') -> ctl t' = ctl t.
Proof. intros H. unfold iperf_tcp_listen in H. follow H; [by injection H as _ <- _|by apply verify_ctl in H..]. Qed.
Lemma udp_accept_ctl t w r t' w' : iperf_udp_accept t w = Some ((r, t'), w') -> ctl t' = ctl t.
Proof.
  intros H. unfold iperf_udp_accept in H. follow H; try injection H as _ <- _; try done; by match goal with E : check_and_grow _ _ _ = _ |- _ => apply grow_ctl in E end.
Qed.
Lemma keeps_connect : keeps protocol_connect.
Proof. intros s r s' (b & start & Hb)%connect_resizes. unfold same. by rewrite Hb. Qed.
Lemma keeps_listen : keeps protocol_listen.
Proof. apply keeps_on_protocol; [apply tcp_listen_ctl|apply unchanged_ctl]. Qed.
Lemma keeps_accept : keeps protocol_accept.
Proof. apply keeps_on_protocol; [apply unchanged_ctl|apply udp_accept_ctl]. Qed.
#[export] Hint Resolve keeps_connect keeps_listen keeps_accept : frame.

Lemma keeps_new_stream s sender : keeps (iperf_new_stream s sender).
Proof. unfold iperf_new_stream. frame. apply same_upd. intros ?. unfold iperf_add_stream. by destruct (Test.streams _). Qed.
#[export] Hint Resolve keeps_new_stream : frame.
Lemma keeps_create_streams sender : keeps (iperf_create_streams sender).
Proof.
  unfold iperf_create_streams. apply steps_get. intros t. generalize (Test.bind_port t), 0.
  induction (Z.to_nat (Test.num_streams t)) as [|n IH]; intros port i; cbn [create_streams]; frame.
Qed.
#[export] Hint Resolve keeps_create_streams : frame.

(** Results. *)
Lemma keeps_stream_results j : keeps (get_stream_results j).
Proof. unfold get_stream_results. frame. Qed.
#[export] Hint Resolve keeps_stream_results : frame.
Lemma keeps_all_results n : forall i j r, keeps (get_all_results n i j r).
Proof. induction n as [|n IH]; intros i j r; cbn [get_all_results]; frame. Qed.
#[export] Hint Resolve keeps_all_results : frame.
Lemma keeps_exchange_results : keeps iperf_exchange_results.
Proof. unfold iperf_exchange_results, send_results, get_results, take_server_output. frame. Qed.
#[export] Hint Resolve keeps_exchange_results : frame.

(** Statistics, reports, timers and threads. *)
Lemma exceed_limit_ctl b t : ctl (exceed_limit b t) = ctl t.
Proof. by destruct (exceed_limit_is b t) as [x ->]. Qed.
Lemma total_rate_ctl n t t' : iperf_check_total_rate n t = Some t' -> ctl t' = ctl t.
Proof.
  unfold iperf_check_total_rate, count_interval. intros H. destruct (_ || _) in H; [by injection H as <-|].
  destruct (_ <? Z.of_nat _) in H; [|done]. cbn [mbind option_bind] in H.
  destruct (_ <? u64 _) in H; [by injection H as <-|]. destruct (sum_slots _ _) in H; [|done]. cbn [mbind option_bind] in H.
  destruct (window_rate _ _) in H; [|done]. cbn [mbind option_bind] in H. injection H as <-.
  destruct (_ <? _); [by rewrite exceed_limit_ctl|done].
Qed.
Lemma keeps_stats : keeps iperf_stats_callback.
Proof. unfold iperf_stats_callback. frame. apply same_try_upd. intros ? ?. apply total_rate_ctl. Qed.
Lemma keeps_init_test : keeps iperf_init_test.
Proof. unfold iperf_init_test. frame. Qed.
Lemma keeps_reset_stats : keeps iperf_reset_stats.
Proof. unfold iperf_reset_stats. frame. Qed.
#[export] Hint Resolve keeps_stats keeps_init_test keeps_reset_stats : frame.
Lemma core_ctl t t' : core t' = core t -> ctl t' = ctl t.
Proof. intros H. assert (ctl (core t') = ctl (core t)) by (by rewrite H). done. Qed.
Lemma keeps_leaves {A} x (m : P A) : leaves x m -> keeps m.
Proof. intros Hm s a s' H. apply Hm in H as [(Hc & _) _]. by apply core_ctl. Qed.
Lemma keeps_report : keeps iperf_reporter_callback.
Proof. eapply keeps_leaves, reporter_leaves. Qed.
Lemma keeps_say format args : keeps (say format args).
Proof. apply (keeps_leaves true), leaves_say. Qed.
#[export] Hint Resolve keeps_report keeps_say : frame.

Lemma keeps_arm now proc us per set : (forall o t, ctl (set o t) = ctl t) -> keeps (arm now proc us per set).
Proof. intros Hs. unfold arm, new_timer. frame. Qed.
Lemma keeps_arm_periodic now proc us set : (forall o t, ctl (set o t) = ctl t) -> keeps (arm_periodic now proc us set).
Proof. intros Hs. unfold arm_periodic. frame. by apply keeps_arm. Qed.
Lemma keeps_create_timers a b c g : keeps (create_timers a b c g).
Proof. unfold create_timers, try_now. frame; first [by apply keeps_arm|by apply keeps_arm_periodic]. Qed.
Lemma keeps_create_omit_timer a : keeps (create_omit_timer a).
Proof. unfold create_omit_timer, try_now. frame. by apply keeps_arm. Qed.
#[export] Hint Resolve keeps_create_timers keeps_create_omit_timer : frame.
Lemma keeps_client_timers : keeps create_client_timers.
Proof. apply keeps_create_timers. Qed.
Lemma keeps_server_timers : keeps create_server_timers.
Proof. apply keeps_create_timers. Qed.
Lemma keeps_client_omit : keeps create_client_omit_timer.
Proof. apply keeps_create_omit_timer. Qed.
Lemma keeps_server_omit : keeps create_server_omit_timer.
Proof. apply keeps_create_omit_timer. Qed.
Lemma keeps_send_timers : keeps iperf_create_send_timers.
Proof. unfold iperf_create_send_timers. frame. Qed.
#[export] Hint Resolve keeps_client_timers keeps_server_timers keeps_client_omit keeps_server_omit keeps_send_timers : frame.
Lemma keeps_unless_done m : keeps m -> keeps (unless_done m).
Proof. intros Hm. unfold unless_done. frame. Qed.
#[export] Hint Resolve keeps_unless_done : frame.
Lemma keeps_omit_proc now : keeps (omit_timer_proc now).
Proof. unfold omit_timer_proc, reset_timer. frame. Qed.
#[export] Hint Resolve keeps_omit_proc : frame.
Lemma keeps_client_procs proc now : keeps (client_procs proc now).
Proof. unfold client_procs. frame. Qed.

Lemma keeps_measure start : keeps (measure_cpu start).
Proof. unfold measure_cpu. frame. Qed.
Lemma keeps_set_stream i f : keeps (set_stream i f).
Proof. unfold set_stream. frame. Qed.
#[export] Hint Resolve keeps_measure keeps_set_stream : frame.
Lemma keeps_spawn l : forall i, keeps (spawn_threads i l).
Proof. induction l as [|sp l IH]; intros i; cbn [spawn_threads]; frame. Qed.
Lemma keeps_stop caller which l : forall i, keeps (stop_threads caller which i l).
Proof. induction l as [|sp l IH]; intros i; cbn [stop_threads]; unfold stop_thread; frame. Qed.
Lemma keeps_kill caller which : keeps (kill_threads caller which).
Proof.
  unfold kill_threads. frame. match goal with |- keeps (kill_loop _ _ ?i ?l) => generalize i; generalize l end.
  induction l as [|sp l IH]; intros i; cbn [kill_loop]; unfold kill_thread; frame.
Qed.
#[export] Hint Resolve keeps_spawn keeps_stop keeps_kill : frame.
Lemma keeps_on_connect : keeps iperf_on_connect.
Proof. unfold iperf_on_connect, note_settings, note_number, say_settings. frame. Qed.
Lemma keeps_json_start : keeps iperf_json_start.
Proof. unfold iperf_json_start. frame. Qed.
Lemma keeps_json_finish : keeps iperf_json_finish.
Proof. unfold iperf_json_finish, finish_document, add_some_top, last_events, event_if, JSONStream_Output. frame. Qed.
#[export] Hint Resolve keeps_on_connect keeps_json_start keeps_json_finish : frame.
Lemma keeps_close_sockets l : keeps (close_sockets l).
Proof. induction l as [|sp l IH]; cbn [close_sockets]; frame. Qed.
Lemma keeps_close_streams l : keeps (close_streams l).
Proof. induction l as [|sp l IH]; cbn [close_streams]; frame. Qed.
#[export] Hint Resolve keeps_close_sockets keeps_close_streams : frame.

(** Running timers whose functions keep the state. *)
Lemma run_timers_ind (R : iperf_test -> iperf_test -> Prop) procs :
  PreOrder R -> (forall proc now s s', procs proc now s = Some (tt, s') -> R (tst s) (tst s')) ->
  forall fuel now s s', run_timers procs fuel now s = Some (tt, s') -> R (tst s) (tst s').
Proof.
  intros HR Hp fuel now s s' H. unfold run_timers, tmr_run in H. cbn [getnow] in H.
  assert (run_proc_inv : forall proc cd x y, run_proc procs proc cd now x = Some y -> R x.2.1 y.2.1).
  { intros proc cd x y E. unfold run_proc in E. destruct (procs proc now _) as [[[] s1]|] eqn:Ep; [|done].
    cbn [mbind option_bind] in E. injection E as <-. by apply Hp in Ep. }
  assert (Hloop : forall fuel t x y, tmr_run_loop (run_proc procs) fuel now t x = Some y -> R x.2.1 y.2.1).
  { clear H. induction fuel0 as [|n IH]; intros t x y H; [done|]. cbn [tmr_run_loop] in H.
    destruct t as [l|]; [|by injection H as <-]. destruct (load x.1 l) as [c|]; [|done]. cbn [mbind option_bind] in H.
    destruct (0 <? _) in H; [by injection H as <-|].
    destruct (run_proc procs (timer_proc (body c)) (client_data (body c)) now x) as [x1|] eqn:E; [|done].
    apply run_proc_inv in E. cbn [mbind option_bind] in H.
    destruct (load x1.1 l) as [c1|]; [|done]. cbn [mbind option_bind] in H.
    destruct (if negb _ then _ else _) as [st1|]; [|done]. cbn [mbind option_bind] in H. apply IH in H.
    etrans; [exact E|exact H]. }
  destruct (tmr_run_loop _ _ _ _ _) as [[st [t w]]|] eqn:E; [|done]. cbn [mbind option_bind] in H. injection H as <-.
  by apply Hloop in E.
Qed.
Lemma keeps_client_run_timers fuel now : keeps (run_timers client_procs fuel now).
Proof.
  intros s [] s' H. refine (run_timers_ind (fun a b => ctl b = ctl a) _ _ _ _ _ _ _ H).
  - split; [done|]. intros a b c. congruence.
  - intros proc nw s1 s2 H1. exact (keeps_client_procs proc nw _ _ _ H1).
Qed.
#[export] Hint Resolve keeps_client_run_timers : frame.

(** ** What is sent and awaited *)

(** The messages between the two ends, and a handler as the list of what it
    does on the control connection. *)
Inductive msg := State (x : Z) | Params | Results | Cookie.
Inductive action := Send (m : msg) | Await (m : msg).
#[export] Instance msg_eq_dec : EqDecision msg.
Proof. solve_decision. Defined.
#[export] Instance action_eq_dec : EqDecision action.
Proof. solve_decision. Defined.
Definition states_sent (l : list action) : list Z := omap (fun a => match a with Send (State x) => Some x | _ => None end) l.

(** An action as the code does it. *)
Definition await_cookie : P Z :=
  let! test := get_test in let! (n, _) := do_os (Nread (Test.ctrl_sck test) COOKIE_SIZE Ptcp) in mret n.
Definition perform (a : action) : P Z :=
  match a with
  | Send (State x) => iperf_set_send_state x
  | Send Params => send_parameters | Await Params => get_parameters
  | Send Results => send_results | Await Results => get_results
  | Await Cookie => await_cookie
  | Send Cookie | Await (State _) => mfail
  end.
(** The exchanges succeed and a state is sent, but for the last one of a client,
    who leaves in any case. *)
Definition performed (a : action) (r : Z) : Prop :=
  match a with Send (State x) => r = 0 \/ x = IPERF_DONE | Await Cookie => r = COOKIE_SIZE | _ => 0 <= r end.

(** What is done between the actions leaves the control state as it is and
    neither reads nor writes on the control connection. *)
Definition aside : relation prog := fun s s' => ctl (tst s') = ctl (tst s) /\ avoids (Test.ctrl_sck (tst s)) (os s) (os s').
#[export] Instance aside_preorder : PreOrder aside.
Proof.
  split; [intros s; by split|]. intros a b c [H1 A1] [H2 A2]. split; [congruence|]. etrans; [exact A1|].
  assert (Test.ctrl_sck (tst b) = Test.ctrl_sck (tst a)) as <- by exact (f_equal (fun c => c.2.1) H1). exact A2.
Qed.
Lemma aside_run {A} (m : P A) s a s' : keeps m -> (forall f, spares f m) -> m s = Some (a, s') -> aside s s'.
Proof. intros Hk Hs H. split; [by apply Hk in H|]. exact (Hs _ _ _ _ H). Qed.
Lemma aside_test s s' : ctl (tst s') = ctl (tst s) -> os s' = os s -> aside s s'.
Proof. intros H Ho. split; [done|]. by rewrite Ho. Qed.
Ltac goes_aside H := eapply aside_run; [| |exact H]; [frame|intros ?; frame].

(** The exchanges follow at once on what went before, so that their contents are
    the test's own at that point. *)
Definition at_once (a : action) : bool := match a with Send (Params | Results) | Await (Params | Results) => true | _ => false end.
(** A run that does the listed actions on the control connection and nothing
    else there. *)
Inductive sends : prog -> list action -> prog -> Prop :=
| sends_none s s' : aside s s' -> sends s [] s'
| sends_next s s1 a r s2 l s' : (if at_once a then s1 = s else aside s s1) ->
    perform a s1 = Some (r, s2) -> performed a r -> sends s2 l s' -> sends s (a :: l) s'.

Lemma send_state_ctl x s r s' : iperf_set_send_state x s = Some (r, s') ->
  ctl (tst s') = if 0 <=? Test.ctrl_sck (tst s) then (x, conn (tst s)) else ctl (tst s).
Proof.
  intros H. unfold iperf_set_send_state in H. pstep H. destruct (0 <=? _); [|by injection H as _ <-].
  pstep H. pstep H. apply do_os_inv in E as (Ht & _ & _).
  destruct (x0 <? 0); [pstep H; apply do_os_inv in E as (Ht1 & _ & _); injection H as _ <-; by rewrite Ht1, Ht|].
  injection H as _ <-. by rewrite Ht.
Qed.
Lemma keeps_send_results : keeps send_results.
Proof. unfold send_results. frame. Qed.
Lemma keeps_get_results : keeps get_results.
Proof. unfold get_results, take_server_output. frame. Qed.
(** The control state after an action. *)
Lemma perform_ctl a s r s' : perform a s = Some (r, s') -> 0 <= Test.ctrl_sck (tst s) ->
  ctl (tst s') = (default (Test.state (tst s)) (list.last (states_sent [a])), conn (tst s)).
Proof.
  intros H Hc. destruct a as [[x| | |]|[x| | |]]; cbn [perform states_sent omap list_omap list.last default] in *; try done.
  - rewrite (send_state_ctl _ _ _ _ H). by rewrite (proj2 (Z.leb_le _ _) Hc).
  - by apply keeps_send_parameters in H.
  - by apply keeps_send_results in H.
  - by apply keeps_get_parameters in H.
  - by apply keeps_get_results in H.
  - assert (keeps await_cookie) as Hk by (unfold await_cookie; frame). by apply Hk in H.
Qed.
(** The last state sent is the state of the test, while the connection is open. *)
Lemma sends_state s l s' : sends s l s' -> 0 <= Test.ctrl_sck (tst s) ->
  ctl (tst s') = (default (Test.state (tst s)) (list.last (states_sent l)), conn (tst s)).
Proof.
  induction 1 as [s s' [H _]|s s1 a r s2 l s' Ha Hp _ _ IH]; intros Hc; [by rewrite H|].
  assert (H1 : ctl (tst s1) = ctl (tst s)) by (destruct (at_once a); [by rewrite Ha|by apply Ha]).
  injection H1 as Hs Hk Hr. apply perform_ctl in Hp; [|lia]. injection Hp as Hs' Hk' Hr'.
  rewrite IH by lia. change (a :: l) with ([a] ++ l)%list.
  assert (states_sent ([a] ++ l) = states_sent [a] ++ states_sent l)%list as -> by apply omap_app.
  unfold conn. rewrite last_app, Hs', Hk', Hr', Hk, Hr, Hs. by destruct (list.last (states_sent l)).
Qed.
Lemma sends_after s s1 l s' : aside s s1 -> match l with a :: _ => at_once a = false | [] => True end -> sends s1 l s' -> sends s l s'.
Proof.
  intros Ha Hl H. destruct H as [s1 s' H|s1 s2 a r s3 l s' Hb Hp Hr H]; [apply sends_none; by etrans|].
  eapply (sends_next _ s2); [|exact Hp|exact Hr|exact H]. rewrite Hl in Hb |- *. by etrans.
Qed.
Lemma sends_state_next s s1 x r s2 l s' : aside s s1 -> iperf_set_send_state x s1 = Some (r, s2) -> r = 0 \/ x = IPERF_DONE ->
  sends s2 l s' -> sends s (Send (State x) :: l) s'.
Proof. intros Ha H Hr Hl. by eapply (sends_next s s1 (Send (State x)) r). Qed.
Lemma aside_role s s' : aside s s' -> Test.role (tst s') = Test.role (tst s).
Proof. intros [H _]. exact (f_equal (fun c => c.2.2) H). Qed.
Lemma send_state_role x s r s' : iperf_set_send_state x s = Some (r, s') -> Test.role (tst s') = Test.role (tst s).
Proof. intros H%send_state_ctl. apply (f_equal (fun c => c.2.2)) in H. cbn -[Z.leb] in H. rewrite H. by destruct (0 <=? _). Qed.

(** On the wire the state is one byte. *)
Lemma send_state_byte x s s' : 0 <= Test.ctrl_sck (tst s) -> iperf_set_send_state x s = Some (0, s') ->
  Forall sane_write (calls (os s) (os s')) -> Forall (fun cr => 0 < ret cr.2) (calls (os s) (os s')) ->
  sent (calls (os s) (os s')) = [u8 x].
Proof.
  intros Hc H Hs Hp. unfold iperf_set_send_state in H. pstep H. rewrite (proj2 (Z.leb_le _ _) Hc) in H.
  pstep H. pstep H. apply do_os_inv in E as (_ & _ & E). cbn [os modify_field prog_eta eta_of] in E.
  apply (emits_calls _ _ _ _ _ (Nwrite_writes _ [u8 x] Ptcp ltac:(cbn; lia))) in E as [Hw _].
  destruct (x0 <? 0); [pstep H; discriminate H|]. injection H as <-.
  destruct (Hw Hs) as (k & _ & Ht & _ & Hall). destruct (Hall Hp) as [_ ->]. by rewrite Ht, firstn_all.
Qed.

(** ** What the handlers do to the state *)

(** What a client does for a new state; [None] where the handler fails. *)
Definition client_script (x : Z) : option (list action) :=
  if x =? PARAM_EXCHANGE then Some [Send Params]
  else if x =? CREATE_STREAMS then Some []
  else if x =? TEST_START then Some []
  else if x =? TEST_RUNNING then Some []
  else if x =? EXCHANGE_RESULTS then Some [Send Results; Await Results]
  else if x =? DISPLAY_RESULTS then Some [Send (State IPERF_DONE)]
  else if x =? IPERF_DONE then Some []
  else None.
Definition client_finishes : list action := [Send (State TEST_END)].

(** What a server does for a new client, with all streams there, and for a
    state sent by the client. *)
Definition server_accepts : list action := [Send (State PARAM_EXCHANGE); Await Params; Send (State CREATE_STREAMS)].
Definition server_starts : list action := [Send (State TEST_START); Send (State TEST_RUNNING)].
Definition server_script (x : Z) : option (list action) :=
  if x =? TEST_START then Some []
  else if x =? TEST_END then Some [Send (State EXCHANGE_RESULTS); Await Results; Send Results; Send (State DISPLAY_RESULTS)]
  else if x =? IPERF_DONE then Some []
  else None.

Lemma client_end_sends s r s' : iperf_client_end s = Some (r, s') -> 0 < Test.state (tst s) ->
  sends s [Send (State IPERF_DONE)] s'.
Proof.
  intros H Hst. unfold iperf_client_end in H. pstep H. pstep H.
  assert (A1 : aside s st) by goes_aside E.
  pstep H. assert (A2 : aside st st0) by goes_aside E0. pstep H.
  assert (K : ctl (tst st0) = ctl (tst s)) by (destruct A1 as [A1 _], A2 as [A2 _]; congruence).
  injection K as Ks _ _. rewrite Ks, (proj2 (Z.ltb_lt _ _) Hst) in H. pstep H.
  eapply (sends_state_next s st0); [by etrans|exact E1|by right|]. apply sends_none.
  destruct (negb _); [by injection H as _ <-|]. goes_aside H.
Qed.

Lemma exchange_client s r s' : client (tst s) = true -> iperf_exchange_parameters s = Some (r, s') -> 0 <= r ->
  exists n, send_parameters s = Some (n, s') /\ 0 <= n.
Proof.
  intros Hc H Hr. unfold iperf_exchange_parameters in H. pstep H. rewrite Hc in H. pstep H. injection H as <- <-.
  exists x. split; [done|]. destruct (Z.ltb_spec x 0); lia.
Qed.
Lemma results_client s r s' : client (tst s) = true -> iperf_exchange_results s = Some (r, s') -> 0 <= r ->
  sends s [Send Results; Await Results] s'.
Proof.
  intros Hc H Hr. unfold iperf_exchange_results in H. pstep H. unfold client in Hc. rewrite Hc in H. pstep H.
  destruct (Z.ltb_spec x 0) as [|Hx]; [injection H as <- _; lia|]. pstep H. injection H as <- <-.
  eapply (sends_next _ s); [done|exact E|exact Hx|]. eapply (sends_next _ st); [done|exact E0| |by apply sends_none].
  cbn. destruct (Z.ltb_spec x0 0); lia.
Qed.
Lemma results_server s r s1 l s' : client (tst s) = false -> iperf_exchange_results s = Some (r, s1) -> 0 <= r ->
  sends s1 l s' -> sends s (Await Results :: Send Results :: l) s'.
Proof.
  intros Hc H Hr Hl. unfold iperf_exchange_results in H. pstep H. unfold client in Hc. rewrite Hc in H. pstep H.
  destruct (Z.ltb_spec x 0) as [|Hx]; [injection H as <- _; lia|]. pstep H. injection H as <- <-.
  eapply (sends_next _ s); [done|exact E|exact Hx|]. eapply (sends_next _ st); [done|exact E0| |exact Hl].
  cbn. destruct (Z.ltb_spec x0 0); lia.
Qed.

Ltac quietly H := eexists; split; [done|]; apply sends_none; goes_aside H.
Lemma client_enters_sends s start x r s' :
  client_enters start x s = Some (r, s') -> 0 <= r -> client (tst s) = true -> Test.state (tst s) = x ->
  exists acts, client_script x = Some acts /\ sends s acts s'.
Proof.
  intros H Hr Hcl Hx. unfold client_enters in H. cbv zeta in H. pstep H. unfold client_script.
  destruct (x =? PARAM_EXCHANGE).
  { eexists. split; [done|]. pstep H. destruct (Z.ltb_spec x0 0); [injection H as <- _; lia|].
    apply exchange_client in E as (n & E & Hn); [|done..]. eapply (sends_next _ s); [done|exact E|exact Hn|].
    apply sends_none. goes_aside H. }
  destruct (x =? CREATE_STREAMS); [quietly H|].
  destruct (x =? TEST_START); [quietly H|].
  destruct (x =? TEST_RUNNING); [quietly H|].
  destruct (x =? EXCHANGE_RESULTS).
  { eexists. split; [done|]. pstep H. destruct (Z.ltb_spec x0 0); injection H as <- <-; [lia|]. by apply results_client in E. }
  destruct (Z.eqb_spec x DISPLAY_RESULTS) as [->|].
  { eexists; split; [done|]. pstep H. injection H as _ <-. eapply client_end_sends; [exact E|rewrite Hx; done]. }
  destruct (x =? IPERF_DONE); [quietly H|].
  exfalso. unfold read_server_error in H. follow H; first [done | pstep H; follow H; by injection H as <- _; lia | injection H as <- _; lia].
Qed.

(** The byte read is the state of the client, and what follows is the script
    for it. *)
Definition takes_over (s : prog) (x : Z) (s1 : prog) : Prop :=
  exists rp w, sys (Cread (Test.ctrl_sck (tst s)) 1) (os s) = Some (rp, w) /\ 0 < ret rp /\ x = i8 (nth 0 (data rp) 0) /\
    s1 = Prog (tst s <| Test.state := x |>) (tmr s) w.

(** C3. A message that the client handles without an error is a state that the
    protocol knows: the client takes it over, and from there does on the control
    connection what the script for it lists, in that order and at once where it
    is an exchange, and nothing else; the state of the test changes only by the
    states that are sent, the last of which it has at the end, and the control
    connection stays the same. *)
Theorem client_follows_protocol (start : cpu_usage) (s s' : prog) (r : Z) :
  iperf_handle_message_client start s = Some (r, s') -> 0 <= r ->
  client (tst s) = true -> 0 <= Test.ctrl_sck (tst s) ->
  exists x acts s1, takes_over s x s1 /\ client_script x = Some acts /\ sends s1 acts s' /\
    ctl (tst s') = (default x (list.last (states_sent acts)), conn (tst s)).
Proof.
  intros H Hr Hcl Hc. unfold iperf_handle_message_client in H. pstep H. pstep H. apply do_os_inv in E as (Et & Em & E).
  destruct (Z.leb_spec (ret x) 0); [exfalso; follow H; injection H as <- _; lia|].
  rewrite bind_upd in H. set (s1 := st <| tst ::= _ |>) in H.
  destruct (client_enters_sends s1 start (i8 (nth 0 (data x) 0)) r s' H Hr) as (acts & Ha & Hsends); [unfold client; cbn; by rewrite Et|done|].
  exists (i8 (nth 0 (data x) 0)), acts, s1. split_and!; [|done|done|].
  - exists x, (os st). split_and!; [exact E|done|done|]. subst s1. destruct st; cbn in *. by rewrite Et, Em.
  - rewrite (sends_state _ _ _ Hsends) by (cbn; by rewrite Et). cbn. by rewrite Et.
Qed.

(** A client that is told to display the results. *)
Definition no_usage : cpu_usage := Usage (Time 100 0) 0 (0, 0) (0, 0).
Definition wrote (n : Z) : reply := Reply n 0 [] [].
Definition leaving : prog :=
  Prog (reported_test <| Test.role := "c"%char |> <| Test.state := EXCHANGE_RESULTS |> <| Test.ctrl_sck := 4 |>) (TS ∅ None None)
    (World (Reply 1 0 [DISPLAY_RESULTS] [] :: repeat (wrote 1) 20) [] 0 0 0).
Lemma client_follows_protocol_witness :
  exists s', iperf_handle_message_client no_usage leaving = Some (0, s') /\ Test.state (tst s') = IPERF_DONE /\
  exists x acts s1, takes_over leaving x s1 /\ client_script x = Some acts /\ sends s1 acts s' /\
    ctl (tst s') = (default x (list.last (states_sent acts)), conn (tst leaving)).
Proof.
  eexists. split; [vm_compute; reflexivity|]. split; [vm_compute; reflexivity|].
  apply (client_follows_protocol no_usage leaving _ 0); [vm_compute; reflexivity|lia|reflexivity|vm_compute; congruence].
Defined.

(** ** The server *)

Lemma exchange_server s r s1 s' : client (tst s) = false -> iperf_exchange_parameters s = Some (r, s1) -> 0 <= r -> aside s1 s' ->
  sends s [Await Params; Send (State CREATE_STREAMS)] s'.
Proof.
  intros Hc H Hr Ha. unfold iperf_exchange_parameters in H. pstep H. rewrite Hc in H. pstep H.
  destruct (Z.ltb_spec x 0) as [|Hx]; [injection H as <- _; lia|]. pstep H. assert (A : aside st st0) by goes_aside E0.
  destruct (x0 <? 0); [exfalso; follow H; injection H as <- _; lia|]. pstep H. pstep H. destruct (Z.eqb_spec x1 0) as [->|]; [|injection H as <- _; lia].
  injection H as _ <-. eapply (sends_next _ s); [done|exact E|exact Hx|]. eapply (sends_state_next st); [|exact E1|by left|by apply sends_none].
  etrans; [exact A|]. by apply aside_test.
Qed.

(** A free server takes the client on. *)
Lemma greet_sends s r s' : client (tst s) = false -> greet (Test.ctrl_sck (tst s)) s = Some (r, s') -> 0 <= r ->
  sends s (Await Cookie :: server_accepts) s'.
Proof.
  intros Hc H Hr. unfold greet in H. cbv zeta in H. pstep H. assert (A : aside s st) by goes_aside E. apply do_os_inv in E as (Et & _ & _).
  destruct (negb _); [follow H; injection H as <- _; lia|]. pstep H. destruct x0 as [n bytes].
  assert (P : perform (Await Cookie) st = Some (n, st0)).
  { cbn [perform]. unfold await_cookie. rewrite bind_get_test, Et. by rewrite (bind_run _ _ _ _ _ E). }
  apply do_os_inv in E as (Et0 & _ & _). pstep H.
  destruct (Z.eqb_spec n COOKIE_SIZE) as [->|]; [cbn [negb] in H|cbn [negb] in H; follow H; injection H as <- _; lia]. pstep H. pstep H.
  destruct (Z.eqb_spec x0 0) as [->|]; [cbn [negb] in H|cbn [negb] in H; injection H as <- _; lia].
  pstep H. destruct (x0 <? 0) eqn:Ex; [injection H as <- _; lia|].
  assert (Hcl : Test.role (tst st1) = Test.role (tst s)) by (apply send_state_role in E; rewrite E; cbn; by rewrite Et0, Et).
  eapply (sends_next _ st); [exact A|exact P|done|]. eapply sends_state_next; [|exact E|by left|].
  { by apply aside_test. }
  unfold client in Hc. rewrite <-Hcl in Hc. eapply exchange_server; [exact Hc|exact E0|lia|].
  unfold iperf_setaffinity in H. goes_aside H.
Qed.

Lemma server_end_sends start s r s' : client (tst s) = false -> server_test_end start s = Some (r, s') -> 0 <= r ->
  sends s [Send (State EXCHANGE_RESULTS); Await Results; Send Results; Send (State DISPLAY_RESULTS)] s'.
Proof.
  intros Hc H Hr. unfold server_test_end in H. pstep H. set (s0 := s <| tst ::= _ |>) in H.
  assert (A0 : aside s s0) by (by apply aside_test). clearbody s0.
  pstep H. assert (A1 : aside s0 st) by goes_aside E. pstep H. assert (A2 : aside st st0) by goes_aside E0.
  pstep H. pstep H. assert (A3 : aside st0 st1) by goes_aside E1. pstep H. assert (A4 : aside st1 st2) by goes_aside E2.
  assert (A : aside s st2) by (etrans; [exact A0|]; etrans; [exact A1|]; etrans; [exact A2|]; by etrans). clear A0 A1 A2 A3 A4 E E0 E1 E2.
  pstep H. destruct (Z.eqb_spec x3 0) as [->|]; [cbn [negb] in H|cbn [negb] in H; injection H as <- _; lia].
  eapply sends_state_next; [exact A|exact E|by left|]. apply send_state_role in E. apply aside_role in A.
  pstep H. destruct (x3 <? 0) eqn:Hx; [injection H as <- _; lia|]. pstep H. destruct (Z.eqb_spec x4 0) as [->|]; [|injection H as <- _; lia].
  injection H as _ <-. eapply results_server; [unfold client in *; by rewrite E, A|exact E0|lia|].
  eapply sends_state_next; [reflexivity|exact E1|by left|by apply sends_none].
Qed.

Lemma report_as_final_ctl start : keeps (report_as_final start).
Proof.
  intros s [] s' H. unfold report_as_final in H. pstep H. pstep H. apply keeps_measure in E. pstep H.
  pstep H. apply keeps_report in E0. injection H as <-. unfold same, ctl, conn in *. cbn in *. congruence.
Qed.

(** C4. A message that the server handles without an error ends the test, when
    the connection is closed or the client gives up, or is a state of the
    protocol: the server takes it over and does on the control connection what
    the script for it lists, in that order and with the exchanges at once, and
    nothing else; the state changes only by the states that are sent. *)
Theorem server_follows_protocol (start : cpu_usage) (s s' : prog) (r : Z) :
  iperf_handle_message_server start s = Some (r, s') -> 0 <= r -> client (tst s) = false -> 0 <= Test.ctrl_sck (tst s) ->
  exists n bytes w, Nread (Test.ctrl_sck (tst s)) 1 Ptcp (os s) = Some ((n, bytes), w) /\
    let x := i8 (nth 0 bytes 0) in
    if (n =? 0) || (x =? CLIENT_TERMINATE) then ctl (tst s') = (IPERF_DONE, conn (tst s))
    else 0 < n /\ exists acts, server_script x = Some acts /\ sends (Prog (tst s <| Test.state := x |>) (tmr s) w) acts s' /\
      ctl (tst s') = (default x (list.last (states_sent acts)), conn (tst s)).
Proof.
  intros H Hr Hcl Hc. unfold iperf_handle_message_server in H. pstep H. pstep H. apply do_os_inv in E as (Et & Em & E). destruct x as [n bytes].
  exists n, bytes, (os st). split; [exact E|]. cbv zeta.
  destruct (Z.leb_spec n 0).
  { destruct (Z.eqb_spec n 0) as [->|]; cbn [orb].
    - pstep H. apply keeps_err in E0. pstep H. apply keeps_fail_with in E1. pstep H. injection H as _ <-.
      unfold same, ctl, conn in *. rewrite Et in E0. cbn. destruct x, x0. congruence.
    - exfalso. follow H. injection H as <- _. lia. }
  destruct (Z.eqb_spec n 0); [lia|]. cbn [orb]. rewrite bind_upd in H. set (x := i8 (nth 0 bytes 0)) in *. set (s1 := st <| tst ::= _ |>) in H.
  replace (Prog _ _ _) with s1 by (subst s1; destruct st; cbn in *; by rewrite Et, Em).
  assert (Hs1 : ctl (tst s1) = (x, conn (tst s))) by (unfold ctl, conn; cbn; by rewrite Et). unfold server_enters in H. clearbody s1.
  pose proof (f_equal fst Hs1) as Hst. pose proof (f_equal snd Hs1) as Hk. cbn [ctl fst snd] in Hst, Hk.
  assert (Hc1 := f_equal fst Hk). assert (Hr1 := f_equal snd Hk). cbn [conn fst snd] in Hc1, Hr1.
  assert (Hfin : forall acts, sends s1 acts s' ->
    ctl (tst s') = (default x (list.last (states_sent acts)), conn (tst s))).
  { intros acts Ha. by rewrite (sends_state _ _ _ Ha), Hst, Hk by (by rewrite Hc1). }
  destruct (Z.eqb_spec x TEST_START) as [Hx|_].
  { rewrite Hx in *. split; [done|]. exists []. split_and!; [done|injection H as _ <-; by apply sends_none|].
    apply (Hfin []). injection H as _ <-. by apply sends_none. }
  destruct (Z.eqb_spec x TEST_END) as [Hx|_].
  { rewrite Hx in *. apply server_end_sends in H; [|unfold client; by rewrite Hr1|done]. split; [done|]. eexists.
    split_and!; [reflexivity|exact H|]. by apply (Hfin [Send (State EXCHANGE_RESULTS); Await Results; Send Results; Send (State DISPLAY_RESULTS)]). }
  destruct (Z.eqb_spec x IPERF_DONE) as [Hx|_].
  { rewrite Hx in *. split; [done|]. exists []. split_and!; [done|injection H as _ <-; by apply sends_none|].
    apply (Hfin []). injection H as _ <-. by apply sends_none. }
  destruct (Z.eqb_spec x CLIENT_TERMINATE) as [Hx|_]; [|exfalso; follow H; injection H as <- _; lia].
  pstep H. apply keeps_fail_with in E0. pstep H. apply report_as_final_ctl in E1. pstep H. apply keeps_err in E2. pstep H.
  pstep H. apply keeps_close_streams in E3. pstep H. injection H as _ <-. unfold same, ctl, conn in *. cbn. destruct x0, x1, x2, x3. congruence.
Qed.

(** A server that is told that the test is over. *)
Definition clock_reads (n : Z) : reply := Reply 0 0 [] [n; 0].
Definition serving (state : Z) (l : list reply) : prog :=
  Prog (demo_role "s" <| Test.ctrl_sck := 4 |> <| Test.state := state |> <| Test.num_streams := 0 |>) (TS ∅ None None) (World l [] 0 0 0).
Definition incoming (text : string) : list reply :=
  (wrote 1 :: feed [(take 4 (message text), (7, 0))] ++ wrote 1 :: feed [(drop 4 (message text), (9, 0))])%list.
Definition client_results : string := default "" (cJSON_PrintUnformatted (results (demo_role "c"))).
Definition ending : prog := serving TEST_RUNNING
  (wrote 1 :: feed [([TEST_END], (7, 0))] ++ [clock_reads 101; ok; ok; ok; ok; wrote 1] ++ incoming client_results ++ [wrote 4; wrote 99; wrote 1])%list.
Lemma server_follows_protocol_witness :
  exists s', iperf_handle_message_server no_usage ending = Some (0, s') /\ Test.state (tst s') = DISPLAY_RESULTS /\
  exists n bytes w, Nread (Test.ctrl_sck (tst ending)) 1 Ptcp (os ending) = Some ((n, bytes), w) /\
    let x := i8 (nth 0 bytes 0) in
    if (n =? 0) || (x =? CLIENT_TERMINATE) then ctl (tst s') = (IPERF_DONE, conn (tst ending))
    else 0 < n /\ exists acts, server_script x = Some acts /\ sends (Prog (tst ending <| Test.state := x |>) (tmr ending) w) acts s' /\
      ctl (tst s') = (default x (list.last (states_sent acts)), conn (tst ending)).
Proof.
  eexists. split; [vm_compute; reflexivity|]. split; [vm_compute; reflexivity|].
  apply (server_follows_protocol no_usage ending _ 0); [vm_compute; reflexivity|lia|reflexivity|vm_compute; congruence].
Defined.
