(* ===== verification/Exit.v ===== *)
(** * The ends of the program: signals, exits and the file with its number

    iperf_got_sigend and what it calls, from iperf_api.c and iperf_error.c, and
    the file in which a process leaves its number for others.  What is written
    to standard error or a log file at the exit is left out. *)
From Stdlib Require Import Ascii String.
From stdpp Require Import strings.
From S2P Require Import Prelude Double IperfTime Timer Text Cjson Iperf Error Sys Net Json Util Api Frame Params Printf Output Results Stats Sockets Streams Report Control Client Server Wire State.
#[local] Open Scope string_scope.
#[local] Open Scope Z_scope.

(** A function comes back or ends the program. *)
Inductive ending := Back (r : Z) | Exit (code : Z).

(** ** Exits *)

Definition iperf_delete_pidfile : P Z :=
  let! test := get_test in
  match Test.pidfile test with
  | Some pidfile => let! r := do_os (sys (Cunlink pidfile)) in mret (if ret r <? 0 then -1 else 0)
  | None => mret 0
  end.

Definition iperf_exit (exit_code : Z) (str : string) : P ending :=
  let! test := get_test in
  when (nonzero (Test.json_output test)) (iperf_err str ;; iperf_json_finish ;; mret tt) ;;
  iperf_delete_pidfile ;; mret (Exit exit_code).
Definition iperf_signormalexit (str : string) : P ending := iperf_exit 0 str.
Definition iperf_errexit (str : string) : P ending := iperf_exit 1 str.

(** ** Signals *)

Definition SIGHUP := 1.
Definition SIGINT := 2.
Definition SIGTERM := 15.
Definition iperf_catch_sigend : P unit :=
  do_os (sys (Csignal SIGINT)) ;; do_os (sys (Csignal SIGTERM)) ;; do_os (sys (Csignal SIGHUP)) ;; mret tt.
Definition exit_normal (sig : Z) : bool := (sig =? SIGTERM) || (sig =? SIGINT) || (sig =? SIGHUP).

(** The statistics so far are reported, unless a server has no test running. *)
Definition last_report (start : cpu_usage) : P unit :=
  upd (fun t => t <| Test.done := 1 |>) ;;
  measure_cpu start ;;
  iperf_stats_callback ;;
  upd (fun t => iperf_set_test_state t DISPLAY_RESULTS) ;;
  iperf_on_test_finish ;;
  iperf_reporter_callback.
(** The other end is told. *)
Definition tell_terminated : P unit :=
  let! test := get_test in
  when (0 <=? Test.ctrl_sck test)
    (upd (fun t => iperf_set_test_state t (if client test then CLIENT_TERMINATE else SERVER_TERMINATE)) ;;
     let! test := get_test in
     do_os (Nwrite (Test.ctrl_sck test) [u8 (Test.state test)] Ptcp) ;; mret tt).
Definition iperf_got_sigend (start : cpu_usage) (sig : Z) : P ending :=
  let! test := get_test in
  when (client test || (server test && (Test.state test =? TEST_RUNNING))) (last_report start) ;;
  tell_terminated ;;
  fail_with (if client test then IECLIENTTERM else IESERVERTERM) ;;
  let! str := error_text in
  let! name := do_os (sys (Cstrsignal sig)) in
  let str := "interrupt - " ++ str ++ " by signal " ++ string_of (data name) ++ "(" ++ dec sig ++ ")" in
  if exit_normal sig then iperf_signormalexit str else iperf_errexit str.

(** ** The file with the number of the process *)

(** The number in the eight bytes of the buffer, of which read filled the first;
    undefined if the digits go on behind them. *)
Definition number_in (buf : list Z) : option Z :=
  let text := string_of buf in
  if existsb (Z.eqb 0) buf || negb (String.eqb (strtol 10 text).2 "") then Some (atoi (c_string text)) else None.

(** Another instance is running if the file has the number of a process.  The
    descriptor is left to the exit then, and the name of the file is forgotten
    so that the exit does not remove it. *)
Definition check_instance (pidfile : string) (stack : list Z) : P (option ending) :=
  let! r := do_os (sys (Copen pidfile O_RDONLY)) in
  let fd := ret r in
  if fd <? 0 then mret None
  else
    let! r := do_os (sys (Cread fd 7)) in
    let! running :=
      if ret r <? 0 then mret false
      else
        let! pid := mopt (number_in (store_bytes 0 (data r) stack)) in
        if 0 <? pid then let! k := do_os (sys (Ckill pid 0)) in mret (ret k =? 0) else mret false in
    if running then
      upd (fun t => t <| Test.pidfile := None |>) ;;
      let! e := iperf_errexit "Another instance of iperf3 appears to be running" in mret (Some e)
    else do_os (sys (Cclose fd)) ;; mret None.

(** [stack] is what the buffer held before. *)
Definition iperf_create_pidfile (stack : list Z) : P ending :=
  let! test := get_test in
  match Test.pidfile test with
  | None => mret (Back 0)
  | Some pidfile =>
      let! e := check_instance pidfile stack in
      match e with
      | Some e => mret e
      | None =>
          let! r := do_os (sys (Copen pidfile O_WRITE_NEW)) in
          let fd := ret r in
          if fd <? 0 then mret (Back (-1))
          else
            let! pid := do_os (sys Cgetpid) in
            let! r := do_os (sys (Cwrite fd (bytes_of (truncate 8 (dec (ret pid)))))) in
            if ret r <? 0 then do_os (sys (Cclose fd)) ;; mret (Back (-1))
            else
              let! r := do_os (sys (Cclose fd)) in
              mret (Back (if ret r <? 0 then -1 else 0))
      end
  end.

(** ** What is said at the exit *)

(** Nothing is sent and the error stays; no file is opened, made, written, cut or
    removed. *)
Abbreviation silent := (steps (on_world says_nothing)).
Definition changes_file (c : call) : bool :=
  match c with Cunlink _ | Copen _ _ | Cmkstemp _ | Cftruncate _ _ | Cwrite _ _ | Csendfile _ _ _ _ => true | _ => false end.
Definition keeps_files (w w' : world) : Prop :=
  exists t, trace w' = (trace w ++ t)%list /\ Forall (fun cr => changes_file cr.1 = false) t.
#[export] Instance keeps_files_preorder : PreOrder keeps_files.
Proof.
  split; [intros w; exists []; by rewrite app_nil_r|]. intros a b c (t1 & H1 & S1) (t2 & H2 & S2).
  exists (t1 ++ t2)%list. rewrite H2, H1, app_assoc. split; [done|by apply Forall_app].
Qed.
Lemma sys_keeps_files c w r w' : changes_file c = false -> sys c w = Some (r, w') -> keeps_files w w'.
Proof.
  intros Hc H. unfold sys in H. destruct (script w) as [|x rest]; [done|]. injection H as <- <-. exists [(c, x)]. split; [done|by constructor].
Qed.
Lemma silent_sys c : (forall r, sent [(c, r)] = []) -> silent (do_os (sys c)).
Proof. intros Hc. apply on_world_os. intros w a w'. by apply sys_says_nothing. Qed.
#[export] Hint Extern 2 (steps (on_world says_nothing) (do_os (sys _))) => apply silent_sys; done : frame.
#[export] Hint Extern 2 (steps (on_world keeps_files) (do_os (sys _))) => apply on_world_os; intros ? ? ?; apply sys_keeps_files; done : frame.

Lemma time_says_nothing w t w' : time_now w = Some (t, w') -> says_nothing w w'.
Proof.
  intros H. unfold time_now in H. apply mbnd_inv in H as (r & w1 & H & H1). apply sys_says_nothing in H; [|done].
  destruct (ret r =? 0); [|done]. by injection H1 as _ <-.
Qed.
Lemma silent_measure start : silent (measure_cpu start).
Proof.
  unfold measure_cpu. frame. apply on_world_os. intros w a w' H. unfold read_usage in H.
  apply mbnd_inv in H as (t & w1 & H1 & H). apply mbnd_inv in H as (c & w2 & H2 & H). apply mbnd_inv in H as (r & w3 & H3 & H).
  injection H as _ <-. apply time_says_nothing in H1. apply sys_says_nothing in H2, H3; [|done..]. etrans; [exact H1|]. by etrans.
Qed.
Lemma intervals_say_nothing is_tcp l : forall temp n w a w', close_intervals is_tcp temp n l w = Some (a, w') -> says_nothing w w'.
Proof.
  induction l as [|sp l IH]; intros temp n w a w' H; cbn [close_intervals] in H; [by injection H as _ <-|].
  apply mbnd_inv in H as (t & w1 & H1 & H). apply time_says_nothing in H1. apply mbnd_inv in H as ([m l'] & w2 & H2 & H). apply IH in H2.
  injection H as _ <-. by etrans.
Qed.
Lemma silent_stats : silent iperf_stats_callback.
Proof. unfold iperf_stats_callback. frame. apply on_world_os, intervals_say_nothing. Qed.
Lemma silent_report : silent iperf_reporter_callback.
Proof. intros s a s' H. by apply reporter_leaves in H as [_ H]. Qed.
Lemma silent_errno (m : M world Z) : (forall w a w', m w = Some (a, w') -> w' = w) -> silent (do_os m).
Proof. intros Hm. apply on_world_os. by intros w a w' ->%Hm. Qed.
Lemma silent_error_text : silent error_text.
Proof.
  unfold error_text. frame; try (apply silent_errno; by intros ? ? ? [= _ <-]).
  apply on_world_os. intros w [] w' H. injection H as <-. split; [done|]. exists []. by rewrite app_nil_r.
Qed.
Lemma silent_json_finish : silent iperf_json_finish.
Proof. unfold iperf_json_finish, finish_document, add_some_top, last_events, event_if, JSONStream_Output. frame. Qed.
Lemma silent_exit code str : silent (iperf_exit code str).
Proof. unfold iperf_exit, iperf_err, iperf_delete_pidfile. pose proof silent_json_finish. frame. Qed.
Lemma silent_last_report start : silent (last_report start).
Proof.
  unfold last_report, iperf_on_test_finish. pose proof (silent_measure start). pose proof silent_stats. pose proof silent_report. frame.
Qed.
Lemma exit_is_exit code str s e s' : iperf_exit code str s = Some (e, s') -> e = Exit code.
Proof. intros H. unfold iperf_exit in H. pstep H. pstep H. pstep H. by injection H. Qed.

Lemma silent_close_streams l : silent (close_streams l).
Proof. induction l as [|sp l IH]; cbn [close_streams]; frame. Qed.

(** ** An interrupted test *)

Lemma tell_terminated_sends s s' : tell_terminated s = Some (tt, s') -> 0 <= Test.ctrl_sck (tst s) ->
  let x := if client (tst s) then CLIENT_TERMINATE else SERVER_TERMINATE in
  exists n, Nwrite (Test.ctrl_sck (tst s)) [x] Ptcp (os s) = Some (n, os s').
Proof.
  intros H Hc x. unfold tell_terminated in H. pstep H. rewrite (proj2 (Z.leb_le _ _) Hc) in H. cbn [when] in H.
  pstep H. pstep H. pstep H. injection H as <-. apply do_os_inv in E as (_ & _ & E). exists x0.
  assert (u8 x = x) as Hx by (subst x; by destruct (client _)). rewrite <-Hx. exact E.
Qed.
Lemma spares_last_report f start : spares f (last_report start).
Proof. unfold last_report, iperf_on_test_finish. frame. Qed.
Lemma spares_exit f code str : spares f (iperf_exit code str).
Proof.
  unfold iperf_exit, iperf_delete_pidfile, iperf_json_finish, finish_document, add_some_top, last_events, event_if, JSONStream_Output. frame.
Qed.

(** The client's side: the report goes out first, then one byte, at most, and
    the exit says nothing more. *)
Lemma interrupted start sig c e c' :
  client (tst c) = true -> 0 <= Test.ctrl_sck (tst c) -> iperf_got_sigend start sig c = Some (e, c') ->
  e = Exit (if exit_normal sig then 0 else 1) /\ i_errno (os c') = IECLIENTTERM /\
  exists w1 n w2, avoids (Test.ctrl_sck (tst c)) (os c) w1 /\ Nwrite (Test.ctrl_sck (tst c)) [CLIENT_TERMINATE] Ptcp w1 = Some (n, w2) /\
    avoids (Test.ctrl_sck (tst c)) w2 (os c') /\ sent (calls (os c) (os c')) = sent (calls w1 w2).
Proof.
  intros Hcl Hc H. set (f := Test.ctrl_sck (tst c)) in *. unfold iperf_got_sigend in H. pstep H. rewrite Hcl in H. cbn [orb when] in H. pstep H. destruct x.
  assert (Hk : conn (tst st) = conn (tst c)).
  { clear -E. unfold last_report in E. pstep E. pstep E. apply keeps_measure in E0. pstep E. apply keeps_stats in E1. pstep E. pstep E.
    injection E2 as _ <-. apply keeps_report in E. unfold same, ctl, conn in *. cbn in *. congruence. }
  pose proof (spares_last_report f start _ _ _ E) as A1. apply silent_last_report in E as (_ & t1 & Ht1 & S1).
  injection Hk as Hf Hr. assert (Hcl1 : client (tst st) = true) by (unfold client in *; by rewrite Hr).
  pstep H. destruct x. apply tell_terminated_sends in E as (n & E); [|lia]. rewrite Hcl1, Hf in E.
  pstep H. injection E0 as <- <-. pstep H. pose proof (spares_error_text f _ _ _ E0) as A2. apply silent_error_text in E0 as (I3 & t3 & Ht3 & S3).
  pstep H. assert (A3 : avoids f (os st1) (os st2)). { revert E0. apply (spares_os f (sys (Cstrsignal sig))). tame. }
  apply (silent_sys (Cstrsignal sig)) in E0 as (I4 & t4 & Ht4 & S4); [|done]. cbv zeta in H.
  set (str := ("interrupt - " ++ _)%string) in H. clearbody str.
  assert (He : iperf_exit (if exit_normal sig then 0 else 1) str st2 = Some (e, c')) by (by destruct (exit_normal sig)).
  split; [by apply exit_is_exit in He|]. pose proof (spares_exit f _ _ _ _ _ He) as A4. apply silent_exit in He as (I5 & t5 & Ht5 & S5).
  split; [rewrite I5, I4, I3; done|]. exists (os st), n, (os st0). split; [exact A1|]. split; [exact E|].
  split; [etrans; [exact A2|]; etrans; [exact A3|exact A4]|].
  destruct (Nwrite_writes f [CLIENT_TERMINATE] Ptcp ltac:(cbn; lia) _ _ _ E) as (t2 & Ht2 & _ & _). rewrite (calls_app _ _ _ Ht2).
  assert (Ht : trace (os c') = (trace (os c) ++ t1 ++ t2 ++ t3 ++ t4 ++ t5)%list).
  { rewrite Ht5, Ht4, Ht3. cbn [os modify_field prog_eta eta_of trace world_eta]. rewrite Ht2, Ht1. by rewrite <-!app_assoc. }
  rewrite (calls_app _ _ _ Ht), !sent_app, S1, S3, S4, S5, !app_nil_r. done.
Qed.

(** The server's side. *)
Lemma terminated_by_client start s r s' : server_enters start CLIENT_TERMINATE s = Some (r, s') ->
  r = 0 /\ Test.state (tst s') = IPERF_DONE /\ i_errno (os s') = IECLIENTTERM.
Proof.
  intros H. change (server_enters start CLIENT_TERMINATE) with
    (fail_with IECLIENTTERM ;; report_as_final start ;; iperf_err "the client has terminated" ;;
     let! test := get_test in close_streams (Test.streams test) ;; upd (fun t => iperf_set_test_state t IPERF_DONE) ;; mret 0) in H.
  pstep H. assert (Hi : i_errno (os st) = IECLIENTTERM) by (by injection E as _ <-). clear E.
  assert (Hsilent : silent (report_as_final start ;; iperf_err "the client has terminated" ;;
    let! test := get_test in close_streams (Test.streams test))).
  { unfold report_as_final, iperf_err. pose proof (silent_measure start). pose proof silent_report. pose proof silent_close_streams. frame. }
  assert (Hs : exists s1, (report_as_final start ;; iperf_err "the client has terminated" ;;
    let! test := get_test in close_streams (Test.streams test)) st = Some (tt, s1) /\
    (upd (fun t => iperf_set_test_state t IPERF_DONE) ;; mret 0) s1 = Some (r, s')).
  { clear -H. pstep H. pstep H. pstep H. pstep H. destruct x, x0, x1. exists st2. split; [|exact H].
    unfold mbnd at 1. rewrite E. unfold mbnd at 1. rewrite E0, bind_get_test. exact E1. }
  destruct Hs as (s1 & H1 & H2). apply Hsilent in H1 as [I1 _]. pstep H2. injection H2 as <- <-. split_and!; [done|done|]. exact (eq_trans I1 Hi).
Qed.

Lemma told_by_client start s s' r rest : script (os s) = Reply 1 0 [] [] :: Reply 1 0 [CLIENT_TERMINATE] [] :: rest ->
  iperf_handle_message_server start s = Some (r, s') ->
  r = 0 /\ Test.state (tst s') = IPERF_DONE /\ i_errno (os s') = IECLIENTTERM.
Proof.
  intros Hscript H. unfold iperf_handle_message_server in H. pstep H. pstep H. apply do_os_inv in E as (_ & _ & E).
  destruct (Nread_fed (Test.ctrl_sck (tst s)) Ptcp 1 [([CLIENT_TERMINATE], (1, 0))] rest (os s)) as (w1 & Hr & _); try done.
  { by repeat constructor. } { by repeat constructor. }
  change (Z.of_nat (length (chunk_bytes [([CLIENT_TERMINATE], (1, 0))]))) with 1 in Hr. rewrite Hr in E. injection E as <- _.
  cbn [Z.leb Z.compare] in H. change (i8 (nth 0 (chunk_bytes [([CLIENT_TERMINATE], (1, 0))]) 0)) with CLIENT_TERMINATE in H.
  pstep H. by apply terminated_by_client in H.
Qed.
(** A write of one byte. *)
Lemma one_byte_sent f x w w' n : Nwrite f [x] Ptcp w = Some (n, w') -> Forall sane_write (calls w w') ->
  sent (calls w w') = if 0 <? n then [x] else [].
Proof.
  intros H Hs. assert (Hb : forall fuel, emits (Nwrite_loop fuel f 1 [x]) (fun n t => Forall sane_write t -> sent t = if 0 <? n then [x] else [])).
  { intros [|fuel]; [apply emits_fail|]. cbn [Nwrite_loop length]. change (Z.of_nat 1 <=? 0) with false. cbv iota.
    apply emits_bind, emits_sys. intros r. apply emits_bind, emits_get_errno. intros e.
    destruct (Z.ltb_spec (ret r) 0) as [Hn|Hp].
    { assert (Hr : sent [(Cwrite f [x], r)] = []) by (cbn; destruct (Z.ltb_spec 0 (ret r)); [lia|done]).
      repeat (case_match; try apply emits_ret; try done). }
    destruct (Z.eqb_spec (ret r) 0) as [Hz|Hz]; [apply emits_ret; cbn; by rewrite Hz|].
    destruct fuel as [|fuel]; [apply emits_fail|]. destruct (Z.to_nat (ret r)) as [|k] eqn:Hk; [lia|].
    cbn [drop Nwrite_loop length]. rewrite drop_nil. cbn. apply emits_ret. intros Hs'. cbn. destruct (Z.ltb_spec 0 (ret r)); [|lia].
    rewrite Hk. cbn. by rewrite take_nil. }
  apply (emits_calls _ _ _ _ _ (Hb _)) in H as [H _]. by apply H.
Qed.

(** C22. An interrupted client ends the test on the server.  A client that gets a
    signal always exits, with success for the three signals of a user, and with
    its own error.  Whatever happens while the last report is made, it writes
    nothing but the byte that says that it terminates, once, on the control
    connection, and neither reads nor writes anything else there; if the system
    takes the byte, that is all that is sent.  A server that reads the byte ends
    the test with the error that the client has terminated. *)
Theorem interrupt_ends_test (start : cpu_usage) (sig : Z) (c c' : prog) (e : ending) :
  client (tst c) = true -> 0 <= Test.ctrl_sck (tst c) -> iperf_got_sigend start sig c = Some (e, c') ->
  e = Exit (if exit_normal sig then 0 else 1) /\ i_errno (os c') = IECLIENTTERM /\
  (exists w1 n w2, avoids (Test.ctrl_sck (tst c)) (os c) w1 /\
     Nwrite (Test.ctrl_sck (tst c)) [CLIENT_TERMINATE] Ptcp w1 = Some (n, w2) /\ avoids (Test.ctrl_sck (tst c)) w2 (os c') /\
     (Forall sane_write (calls w1 w2) ->
      sent (calls (os c) (os c')) = if 0 <? n then [CLIENT_TERMINATE] else [])) /\
  (forall start' s s' r rest, script (os s) = Reply 1 0 [] [] :: Reply 1 0 [CLIENT_TERMINATE] [] :: rest ->
     iperf_handle_message_server start' s = Some (r, s') ->
     r = 0 /\ Test.state (tst s') = IPERF_DONE /\ i_errno (os s') = IECLIENTTERM).
Proof.
  intros Hcl Hc Hgot. destruct (interrupted _ _ _ _ _ Hcl Hc Hgot) as (He & Hi & w1 & n & w2 & A1 & Hw & A2 & Hs).
  split_and!; [done|done| |apply told_by_client].
  exists w1, n, w2. split; [done|]. split; [done|]. split; [done|]. intros Hsane. rewrite Hs. by eapply one_byte_sent.
Qed.
Definition interrupted_client : prog :=
  Prog (demo_role "c" <| Test.state := TEST_RUNNING |> <| Test.ctrl_sck := 4 |> <| Test.num_streams := 0 |>) (TS ∅ None None)
    (World (repeat ok 5 ++ wrote 1 :: repeat ok 9)%list [] 0 0 0).
Definition watching_server : prog := serving TEST_RUNNING (Reply 1 0 [] [] :: Reply 1 0 [CLIENT_TERMINATE] [] :: repeat ok 9).
Lemma interrupt_ends_test_witness :
  exists c' s', iperf_got_sigend no_usage SIGINT interrupted_client = Some (Exit 0, c') /\
    iperf_handle_message_server no_usage watching_server = Some (0, s') /\
    Exit 0 = Exit (if exit_normal SIGINT then 0 else 1) /\ i_errno (os c') = IECLIENTTERM /\
    (exists w1 n w2, avoids 4 (os interrupted_client) w1 /\ Nwrite 4 [CLIENT_TERMINATE] Ptcp w1 = Some (n, w2) /\ avoids 4 w2 (os c') /\
      (Forall sane_write (calls w1 w2) ->
       sent (calls (os interrupted_client) (os c')) = if 0 <? n then [CLIENT_TERMINATE] else [])) /\
    (0 = 0 /\ Test.state (tst s') = IPERF_DONE /\ i_errno (os s') = IECLIENTTERM).
Proof.
  do 2 eexists. split; [vm_compute; reflexivity|]. split; [vm_compute; reflexivity|].
  edestruct (interrupt_ends_test no_usage SIGINT interrupted_client) as (H1 & H2 & H3 & H4); [vm_compute; reflexivity|vm_compute; congruence|vm_compute; reflexivity|].
  split; [exact H1|]. split; [exact H2|]. split; [exact H3|].
  apply (H4 no_usage watching_server _ 0 (repeat ok 9)); vm_compute; reflexivity.
Defined.

(** ** One instance *)

(** The file is not terminated and neither is what is read of it, so digits
    that the buffer held before go on behind the number. *)
Example stale_digits : number_in (store_bytes 0 (bytes_of "12") (bytes_of "99934" ++ [0; 0; 0])) = Some 12934.
Proof. reflexivity. Qed.

Lemma does_sys c s x s' : do_os (sys c) s = Some (x, s') ->
  tst s' = tst s /\ trace (os s') = (trace (os s) ++ [(c, x)])%list.
Proof.
  intros (Ht & _ & H)%do_os_inv. split; [done|]. unfold sys in H. destruct (script (os s)); [done|]. by injection H as <- <-.
Qed.

(** Exiting without the name of the file leaves the file alone. *)
Definition file_of (t : iperf_test) : iperf_test := Test.zero <| Test.pidfile := Test.pidfile t |>.
Lemma exit_forgotten code str s e s' : iperf_exit code str s = Some (e, s') -> Test.pidfile (tst s) = None ->
  Test.pidfile (tst s') = None /\ keeps_files (os s) (os s').
Proof.
  intros H Hn. unfold iperf_exit in H. pstep H. pstep H.
  assert (Hf : Test.pidfile (tst st) = None /\ keeps_files (os s) (os st)).
  { split.
    - assert (He : erases file_of (when (nonzero (Test.json_output (tst s))) (iperf_err str ;; iperf_json_finish ;; mret tt))).
      { unfold iperf_err, iperf_json_finish, finish_document, add_some_top, last_events, event_if, JSONStream_Output. frame.
        apply same_timed_upd. intros t. unfold add_error. by destruct (nonzero (Test.json_output t)). }
      apply He in E as [E _]. apply (f_equal Test.pidfile) in E. cbn in E. congruence.
    - assert (Hs : steps (on_world keeps_files) (when (nonzero (Test.json_output (tst s))) (iperf_err str ;; iperf_json_finish ;; mret tt))).
      { unfold iperf_err, iperf_json_finish, finish_document, add_some_top, last_events, event_if, JSONStream_Output. frame. }
      by apply Hs in E. }
  destruct Hf as [Hp Hk]. unfold iperf_delete_pidfile in H. pstep H. pstep E0. rewrite Hp in E0. injection E0 as <- <-. by injection H as _ <-.
Qed.
(** A process answers. *)
Definition nobody (cr : call * reply) : Prop := match cr.1 with Ckill _ _ => ret cr.2 <> 0 | _ => True end.
Lemma instance_found rd stack s b s' :
  (if ret rd <? 0 then mret false
   else let! pid := mopt (number_in (store_bytes 0 (data rd) stack)) in
        if 0 <? pid then let! k := do_os (sys (Ckill pid 0)) in mret (ret k =? 0) else mret false) s = Some (b, s') ->
  tst s' = tst s /\ exists t, trace (os s') = (trace (os s) ++ t)%list /\
    if b then exists pid k, 0 <= ret rd /\ number_in (store_bytes 0 (data rd) stack) = Some pid /\ 0 < pid /\ ret k = 0 /\ t = [(Ckill pid 0, k)]
    else Forall nobody t /\ (t = [] \/ exists pid k, t = [(Ckill pid 0, k)]).
Proof.
  intros H. destruct (Z.ltb_spec (ret rd) 0) as [Hn|Hp].
  { injection H as <- <-. split; [done|]. exists []. rewrite app_nil_r. split_and!; [done|done|by left]. }
  pstep H. unfold mopt in E. destruct (number_in _) as [n|]; [|done]. injection E as <- <-.
  destruct (Z.ltb_spec 0 n).
  - pstep H. apply does_sys in E as [T C]. injection H as <- <-. split; [done|]. eexists. split; [exact C|].
    destruct (Z.eqb_spec (ret x) 0) as [Hk|Hk]; [by exists n, x|]. split; [by repeat constructor|by right; eauto].
  - injection H as <- <-. split; [done|]. exists []. rewrite app_nil_r. split_and!; [done|done|by left].
Qed.
Lemma check_instance_outcome pidfile stack s o s' : check_instance pidfile stack s = Some (o, s') ->
  match o with
  | None => tst s' = tst s /\ exists t, trace (os s') = (trace (os s) ++ t)%list /\ open_fds [] t = [] /\ Forall nobody t
  | Some e => e = Exit 1 /\ Test.pidfile (tst s') = None /\
      exists f rd pid k s1, 0 <= ret f /\ 0 <= ret rd /\ number_in (store_bytes 0 (data rd) stack) = Some pid /\ 0 < pid /\ ret k = 0 /\
        trace s1 = (trace (os s) ++ [(Copen pidfile O_RDONLY, f); (Cread (ret f) 7, rd); (Ckill pid 0, k)])%list /\ keeps_files s1 (os s')
  end.
Proof.
  intros H. unfold check_instance in H. pstep H. apply does_sys in E as [T1 C1].
  destruct (Z.ltb_spec (ret x) 0) as [|Hfd].
  { injection H as <- <-. split; [done|]. eexists. split; [exact C1|]. cbn. destruct (Z.ltb_spec (ret x) 0); [|lia].
    split; [done|by repeat constructor]. }
  pstep H. apply does_sys in E as [T2 C2].
  pstep H. rename x1 into running. destruct (instance_found _ _ _ _ _ E) as (T3 & t3 & C3 & Hrun). destruct running.
  - destruct Hrun as (pid & k & Hrd & Hnum & Hpid & Hk & ->). pstep H. pstep H. injection H as <- <-. unfold iperf_errexit in E0.
    split; [f_equal; by apply exit_is_exit in E0|]. apply exit_forgotten in E0 as [Hp F4]; [|done]. split; [done|].
    exists x, x0, pid, k, (os st1). split_and!; [done..| |exact F4]. by rewrite C3, C2, C1, <-!app_assoc.
  - pstep H. apply does_sys in E0 as [T4 C4]. injection H as <- <-. split; [congruence|]. eexists. split.
    { rewrite C4, C3, C2, C1, <-!app_assoc. reflexivity. }
    destruct Hrun as [Hq Q3]. split.
    + cbn [app open_fds]. destruct (Z.ltb_spec (ret x) 0); [lia|].
      destruct Q3 as [-> |(n & r & ->)]; cbn; by rewrite decide_False by (intros ?; done).
    + do 2 (constructor; [done|]). apply Forall_app. split; [done|by repeat constructor].
Qed.

(** C23. One process per file.  Writing the file leaves no descriptor open,
    whatever the system answers, and changes nothing in the test; when it
    succeeds with a file, the last thing done was to write the number of the
    process to it, and no process answered to the number that was found.  The
    program ends, with a failure, only when a process answers to the number
    that its buffer holds after reading the file, that is of the bytes of the
    file followed by what the buffer held before; from then on no file is
    opened, written, cut or removed. *)
Theorem iperf_create_pidfile_outcome (stack : list Z) (s s' : prog) (e : ending) :
  iperf_create_pidfile stack s = Some (e, s') ->
  match e with
  | Back r => tst s' = tst s /\ open_fds [] (calls (os s) (os s')) = [] /\ Forall nobody (calls (os s) (os s')) /\
      (r = -1 \/ r = 0 /\ (Test.pidfile (tst s) = None /\ os s' = os s \/
        exists name t f pid n c, Test.pidfile (tst s) = Some name /\ 0 <= ret f /\ 0 <= ret n /\ 0 <= ret c /\
          calls (os s) (os s') = (t ++ [(Copen name O_WRITE_NEW, f); (Cgetpid, pid);
            (Cwrite (ret f) (bytes_of (truncate 8 (dec (ret pid)))), n); (Cclose (ret f), c)])%list))
  | Exit code => code = 1 /\ Test.pidfile (tst s') = None /\
      exists name f rd pid k t, Test.pidfile (tst s) = Some name /\ 0 <= ret f /\ 0 <= ret rd /\
        number_in (store_bytes 0 (data rd) stack) = Some pid /\ 0 < pid /\ ret k = 0 /\
        calls (os s) (os s') = ([(Copen name O_RDONLY, f); (Cread (ret f) 7, rd); (Ckill pid 0, k)] ++ t)%list /\
        Forall (fun cr => changes_file cr.1 = false) t
  end.
Proof.
  intros H. unfold iperf_create_pidfile in H. pstep H. destruct (Test.pidfile (tst s)) as [name|] eqn:Hn.
  2: { injection H as <- <-. rewrite (calls_app _ _ []) by (by rewrite app_nil_r). split_and!; [done|done|done|by right; auto]. }
  pstep H. apply check_instance_outcome in E. destruct x as [e'|].
  { injection H as <- <-. destruct E as (-> & Hp & f & rd & pid & k & w1 & Hf & Hrd & Hnum & Hpid & Hk & C & t & Ht & Hkeep).
    split_and!; [done|done|]. exists name, f, rd, pid, k, t. split_and!; try done. apply calls_app. by rewrite Ht, C, <-app_assoc. }
  destruct E as (T0 & t0 & C0 & O0 & N0). pstep H. apply does_sys in E as [T1 C1].
  destruct (Z.ltb_spec (ret x) 0) as [Hf|Hf].
  { injection H as <- <-. rewrite (calls_app _ _ (t0 ++ [(Copen name O_WRITE_NEW, x)])) by (by rewrite C1, C0, app_assoc).
    split_and!; [congruence| |apply Forall_app; split; [done|by repeat constructor]|by left].
    rewrite open_fds_app, O0. cbn. destruct (Z.ltb_spec (ret x) 0); [done|lia]. }
  pstep H. apply does_sys in E as [T2 C2]. pstep H. apply does_sys in E as [T3 C3].
  assert (Hw : exists c st4, trace (os st4) = (trace (os st2) ++ [(Cclose (ret x), c)])%list /\ tst st4 = tst st2 /\
    s' = st4 /\ (e = Back (-1) \/ e = Back 0 /\ 0 <= ret x1 /\ 0 <= ret c)).
  { destruct (Z.ltb_spec (ret x1) 0); pstep H; apply does_sys in E as [T4 C4]; injection H as <- <-; eexists _, _; (split_and!; [exact C4|exact T4|done|]).
    - by left.
    - destruct (Z.ltb_spec (ret x2) 0); auto. }
  destruct Hw as (c & st4 & C4 & T4 & -> & He).
  set (new := (t0 ++ [(Copen name O_WRITE_NEW, x); (Cgetpid, x0); (Cwrite (ret x) (bytes_of (truncate 8 (dec (ret x0)))), x1); (Cclose (ret x), c)])%list).
  assert (C : calls (os s) (os st4) = new) by (apply calls_app; rewrite C4, C3, C2, C1, C0; unfold new; by rewrite <-!app_assoc).
  assert (O : open_fds [] new = []).
  { unfold new. rewrite open_fds_app, O0. cbn [open_fds]. destruct (Z.ltb_spec (ret x) 0); [lia|]. exact (close_last (ret x) c []). }
  assert (N : Forall nobody new) by (unfold new; apply Forall_app; split; [done|by repeat constructor]).
  destruct He as [-> |(-> & Hn1 & Hc)]; rewrite C; (split; [congruence|split; [exact O|split; [exact N|]]]); [by left|].
  right. split; [done|]. right. exists name, t0, x, x0, x1, c. by split_and!.
Qed.
Definition with_pidfile (l : list reply) : prog :=
  Prog (demo_role "s" <| Test.pidfile := Some "iperf3.pid" |>) (TS ∅ None None) (World l [] 0 0 0).
(** The file has the number of a process that is gone. *)
Definition stale_file : prog := with_pidfile [Reply 3 0 [] []; Reply 5 0 (bytes_of "4711" ++ [10]) []; Reply (-1) 3 [] []; ok; Reply 3 0 [] []; Reply 815 0 [] []; Reply 3 0 [] []; ok].
Lemma iperf_create_pidfile_outcome_witness :
  exists s', iperf_create_pidfile (repeat 0 8) stale_file = Some (Back 0, s') /\
  (tst s' = tst stale_file /\ open_fds [] (calls (os stale_file) (os s')) = [] /\ Forall nobody (calls (os stale_file) (os s')) /\
      (0 = -1 \/ 0 = 0 /\ (Test.pidfile (tst stale_file) = None /\ os s' = os stale_file \/
        exists name t f pid n c, Test.pidfile (tst stale_file) = Some name /\ 0 <= ret f /\ 0 <= ret n /\ 0 <= ret c /\
          calls (os stale_file) (os s') = (t ++ [(Copen name O_WRITE_NEW, f); (Cgetpid, pid);
            (Cwrite (ret f) (bytes_of (truncate 8 (dec (ret pid)))), n); (Cclose (ret f), c)])%list))).
Proof.
  eexists. split; [vm_compute; reflexivity|].
  apply (iperf_create_pidfile_outcome (repeat 0 8) stale_file _ (Back 0)). vm_compute. reflexivity.
Defined.
