(* ===== verification/Restart.v ===== *)
(** * One test after another

    A server resets its test before it takes the next client.  What a client
    can change in it is set back, but for a few fields. *)
From Stdlib Require Import Ascii String.
From stdpp Require Import strings.
From S2P Require Import Prelude Double IperfTime Timer Text Cjson Iperf Error Sys Net Json Util Api Frame Params Printf Output Results Stats Sockets Streams Report Control Client Server State.
#[local] Open Scope string_scope.
#[local] Open Scope Z_scope.

(** The fields that the parameters of a client are written over. *)
Definition view (affinity mode no_delay reverse bidirectional output counters payload zerocopy : Z)
    (title extra congestion congestion_used : option string)
    (mss window blksize rate fqrate pacing burst tos flowlabel fragment skip : Z) : iperf_test :=
  Test.zero <| Test.server_affinity := affinity |> <| Test.mode := mode |> <| Test.no_delay := no_delay |>
    <| Test.reverse := reverse |> <| Test.bidirectional := bidirectional |> <| Test.get_server_output := output |>
    <| Test.udp_counters_64bit := counters |> <| Test.repeating_payload := payload |> <| Test.zerocopy := zerocopy |>
    <| Test.title := title |> <| Test.extra_data := extra |> <| Test.congestion := congestion |>
    <| Test.congestion_used := congestion_used |>
    <| Test.settings := Settings.zero <| Settings.mss := mss |> <| Settings.socket_bufsize := window |> <| Settings.blksize := blksize |>
         <| Settings.rate := rate |> <| Settings.fqrate := fqrate |> <| Settings.pacing_timer := pacing |> <| Settings.burst := burst |>
         <| Settings.tos := tos |> <| Settings.flowlabel := flowlabel |> <| Settings.dont_fragment := fragment |>
         <| Settings.skip_rx_copy := skip |> |>.
Definition client_view (t : iperf_test) : iperf_test :=
  let s := Test.settings t in
  view (Test.server_affinity t) (Test.mode t) (Test.no_delay t) (Test.reverse t) (Test.bidirectional t) (Test.get_server_output t)
    (Test.udp_counters_64bit t) (Test.repeating_payload t) (Test.zerocopy t) (Test.title t) (Test.extra_data t) (Test.congestion t)
    (Test.congestion_used t) (Settings.mss s) (Settings.socket_bufsize s) (Settings.blksize s) (Settings.rate s) (Settings.fqrate s)
    (Settings.pacing_timer s) (Settings.burst s) (Settings.tos s) (Settings.flowlabel s) (Settings.dont_fragment s) (Settings.skip_rx_copy s).

(** A new server with the fields that no reset touches. *)
Definition afresh (t : iperf_test) : iperf_test :=
  demo_role "s" <| Test.get_server_output := Test.get_server_output t |> <| Test.repeating_payload := Test.repeating_payload t |>
    <| Test.congestion_used := Test.congestion_used t |>
    <| Test.settings ::= fun s => s <| Settings.pacing_timer := Settings.pacing_timer (Test.settings t) |>
         <| Settings.flowlabel := Settings.flowlabel (Test.settings t) |> |>.

(** The server takes parameters the same when these fields agree. *)
Lemma took_client_view c a s' : took c a s' <-> took c (client_view a) s'.
Proof. split; intros []; split; assumption. Qed.
Lemma took_view c a b s' : client_view a = client_view b -> took c a s' -> took c b s'.
Proof. rewrite (took_client_view c a), (took_client_view c b). by intros ->. Qed.

(** ** What a reset leaves *)

(** The fields that it does not set, and those it sets before the others. *)
Definition surviving (t : iperf_test) : iperf_test :=
  view 0 0 0 0 0 (Test.get_server_output t) 0 (Test.repeating_payload t) 0 None None None (Test.congestion_used t)
    0 0 0 0 0 (Settings.pacing_timer (Test.settings t)) 0 0 (Settings.flowlabel (Test.settings t)) 0 0.
Definition halfway (t : iperf_test) : iperf_test := surviving t <| Test.mode := Test.mode t |> <| Test.congestion := Test.congestion t |>.
(** Programs that keep what [e] shows of the test, whatever the timers do. *)
Abbreviation shows e := (steps (same (B := iperf_test) e)).

Lemma free_streams_shows l : shows surviving (free_streams l).
Proof. induction l as [|sp l IH]; cbn [free_streams]; unfold iperf_free_stream; frame; exact IH. Qed.
Lemma check_retransmits_is t t' : check_sender_has_retransmits t = Some t' -> exists x, t' = t <| Test.sender_has_retransmits := x |>.
Proof.
  unfold check_sender_has_retransmits. intros H. destruct (if negb _ then _ else _) as [b|]; [|discriminate H].
  injection H as <-. by eexists.
Qed.
Lemma protocol_shows n : shows halfway (set_protocol n).
Proof.
  unfold set_protocol, fail_with. frame. apply same_try_upd. intros u u' [x ->]%check_retransmits_is. reflexivity.
Qed.
(** The rest is set to constants. *)
Definition set_back (t : iperf_test) : iperf_test :=
  let s := Test.settings t in
  view (-1) (Test.mode t) 0 0 0 (Test.get_server_output t) 0 (Test.repeating_payload t) 0 None None (Test.congestion t) (Test.congestion_used t)
    0 0 DEFAULT_TCP_BLKSIZE 0 0 (Settings.pacing_timer s) 0 0 (Settings.flowlabel s) 0 0.
Lemma close_logfile_shows : shows surviving iperf_close_logfile.
Proof. unfold iperf_close_logfile. frame. Qed.
Lemma cancel_shows get clear : (forall t, surviving (clear t) = surviving t) -> shows surviving (cancel_timer get clear).
Proof. intros Hc%same_upd. unfold cancel_timer. frame. Qed.
Lemma reset_view (s s' : prog) : iperf_reset_test s = Some (tt, s') -> client_view (tst s') = client_view (afresh (tst s)).
Proof.
  intros H. unfold iperf_reset_test in H. pstep H. apply close_logfile_shows in E. pstep H. pstep H. apply free_streams_shows in E0.
  do 4 (pstep H; match goal with E : cancel_timer _ _ _ = _ |- _ => apply cancel_shows in E; [|intros ?; reflexivity] end).
  pstep H. pstep H. apply protocol_shows in E5. injection H as <-. unfold same in *.
  transitivity (set_back (halfway (tst st5))); [reflexivity|]. rewrite E5.
  transitivity (set_back (surviving (tst st4) <| Test.mode := RECEIVER |> <| Test.congestion := None |>)); [reflexivity|].
  rewrite E4, E3, E2, E1, E0, E. reflexivity.
Qed.

(** What the server does before it reads the parameters shows the same. *)
Lemma unsaid_shows {A} (m : P A) : erases unsaid m -> shows client_view m.
Proof. apply (same_less unsaid client_view). intros t t' H. exact (f_equal client_view H). Qed.
#[local] Hint Extern 3 (steps (same client_view) _) => apply unsaid_shows; solve [eauto 2 with frame] : frame.
Lemma announce_shows n : shows client_view (announce n).
Proof. induction n as [|n IH]; cbn [announce]; [done|]. unfold fail_with. frame. Qed.
Lemma announce_test_shows : shows client_view announce_test.
Proof.
  unfold announce_test. cbv zeta. frame.
Qed.
Lemma listen_shows : shows client_view iperf_server_listen.
Proof.
  unfold iperf_server_listen. pose proof announce_shows. pose proof announce_test_shows. frame.
Qed.

(** C12. The next client finds a new server.  After a reset, whatever the client
    before it asked for and however its test ended, the server takes the
    parameters of a client as it would when it was new; only five fields, which
    no reset sets back, are taken from the test before when the client leaves
    them out: the wish for the server's output, the repeating payload, the
    pacing timer, the flow label and the congestion algorithm in use. *)
Theorem next_client_starts_afresh (x x' y c c' s : prog) (p : Protocol.protocol) (txt : string) (heard r : Z) (rest : list reply) :
  iperf_reset_test x = Some (tt, x') -> iperf_server_listen x' = Some (heard, y) -> client_view (tst s) = client_view (tst y) ->
  params_ok (tst c) -> Test.protocol (tst c) = Some p -> p = tcp_protocol \/ p = udp_protocol ->
  Test.protocols (tst s) = [tcp_protocol; udp_protocol] -> Test.role (tst s) = "s"%char ->
  cJSON_PrintUnformatted (parameters (Protocol.id p) (tst c)) = Some txt ->
  Z.of_nat (String.length txt) <= MAX_PARAMS_JSON_STRING ->
  send_parameters c = Some (r, c') -> Forall sane_write (calls (os c) (os c')) ->
  Forall (fun cr => 0 < ret cr.2) (calls (os c) (os c')) ->
  delivers (sent (calls (os c) (os c'))) (os s) rest ->
  exists s', get_parameters s = Some (0, s') /\ took (tst c) (afresh (tst x)) (tst s') /\ script (os s') = rest.
Proof.
  intros Hreset Hlisten Hview Hok Hp Hpp Hps Hrole Htxt Hlen Hsend Hsane Hprog Hd.
  destruct (parameters_arrive c c' s p txt r rest Hok Hp Hpp Hps Hrole Htxt Hlen Hsend Hsane Hprog Hd) as (_ & s' & Hg & Ht & Hs).
  exists s'. split; [done|]. split; [|done]. eapply took_view; [|exact Ht]. rewrite Hview.
  rewrite (listen_shows _ _ _ Hlisten). exact (reset_view _ _ Hreset).
Qed.
(** A server that has just run a reverse test with its output wished for. *)
Definition worn : prog :=
  demo_start (Reply 0 0 [] [AF_INET6] :: Reply 5 0 [] [] :: replicate 7 (Reply 0 0 [] []))
    <| tst := demo_role "s" <| Test.get_server_output := 1 |> <| Test.reverse := 1 |> <| Test.title := Some "one" |>
                <| Test.settings ::= fun st => st <| Settings.blksize := 1200 |> <| Settings.tos := 4 |> |> |>.
Definition next_server (txt : string) (y : prog) : prog :=
  demo_start (Reply 1 0 [] [] :: feed [(take 4 (message txt), (7, 0))] ++ Reply 1 0 [] [] :: feed [(drop 4 (message txt), (9, 0))])
    <| tst := tst y |>.
Definition resettled : prog := match iperf_reset_test worn with Some (_, x') => x' | None => worn end.
Definition listening : prog := match iperf_server_listen resettled with Some (_, y) => y | None => worn end.
Lemma next_client_starts_afresh_witness :
  Test.reverse (tst listening) = 0 /\ Test.get_server_output (tst listening) = 1 /\
  exists c', send_parameters demo_client = Some (0, c') /\
  exists s', get_parameters (next_server demo_text listening) = Some (0, s') /\
    took (tst demo_client) (afresh (tst worn)) (tst s') /\ script (os s') = [].
Proof.
  split; [vm_compute; reflexivity|]. split; [vm_compute; reflexivity|].
  eexists. split; [vm_compute; reflexivity|].
  eapply (next_client_starts_afresh worn resettled listening demo_client _ (next_server demo_text listening) tcp_protocol demo_text 0 0 []).
  - vm_compute. reflexivity.
  - vm_compute. reflexivity.
  - vm_compute. reflexivity.
  - constructor; repeat constructor; vm_compute; congruence.
  - vm_compute. reflexivity.
  - by left.
  - vm_compute. reflexivity.
  - vm_compute. reflexivity.
  - vm_compute. reflexivity.
  - vm_compute. congruence.
  - vm_compute. reflexivity.
  - apply (bool_decide_unpack _). vm_compute. exact I.
  - apply (bool_decide_unpack _). vm_compute. exact I.
  - exists 7, [(take 4 (message demo_text), (7, 0))], [(drop 4 (message demo_text), (9, 0))].
    split_and!; [vm_compute; reflexivity..| |lia|lia| |vm_compute; reflexivity].
    + repeat constructor; vm_compute; congruence.
    + apply (bool_decide_unpack _); vm_compute; exact I.
Defined.
