(* ===== verification/Destroy.v ===== *)
(** * The end of a test object

    [iperf_free_test] gives back what a test holds.  The model follows what is
    seen outside of the process and the timers that tests share; blocks of
    memory are only taken out of the test.  Nothing is left of it afterwards, so
    the result is the timers and the world. *)
From Stdlib Require Import Ascii String.
From S2P Require Import Prelude Double IperfTime Timer Text Cjson Iperf Error Sys Net Json Util Api Frame.
#[local] Open Scope Z_scope.

Definition free_members : P unit :=
  let! test := get_test in
  free_streams (Test.streams test) ;;
  cancel_timer Test.omit_timer (fun t => t) ;;
  cancel_timer Test.timer (fun t => t) ;;
  cancel_timer Test.stats_timer (fun t => t) ;;
  cancel_timer Test.reporter_timer (fun t => t) ;;
  upd (fun t => t <| Test.protocols := [] |>) ;;
  let! test := get_test in
  match Test.logfile test with
  | Some _ => upd (fun t => t <| Test.logfile := None |>) ;; iperf_close_logfile
  | None => mret tt
  end ;;
  upd (fun t => t <| Test.server_output_text := None |> <| Test.server_output_list := [] |>).
Definition iperf_free_test (s : prog) : option (timer_state * world) :=
  match free_members s with Some (_, s') => Some (tmr s', os s') | None => None end.

(** ** What a test holds *)

Definition maybe {A} (o : option A) : list A := match o with Some a => [a] | None => [] end.
Definition stream_files (sp : iperf_stream) : list fd :=
  Stream.buffer_fd sp :: (if 0 <=? Stream.diskfile_fd sp then [Stream.diskfile_fd sp] else []).
Definition log_file (t : iperf_test) : list fd := match Test.logfile t with Some _ => maybe (Test.outfile t) | None => [] end.
Definition files_of (t : iperf_test) : list fd := flat_map stream_files (Test.streams t) ++ log_file t.
Definition timers_of (t : iperf_test) : list loc :=
  flat_map (fun sp => maybe (Stream.send_timer sp)) (Test.streams t) ++
  maybe (Test.omit_timer t) ++ maybe (Test.timer t) ++ maybe (Test.stats_timer t) ++ maybe (Test.reporter_timer t).
(** The timers that are left without those at [ls]. *)
Definition without (ls : list loc) (ts : list atimer) : list atimer := foldl (fun ts l => remove_loc l ts) ts ls.

Lemma without_app ls ls' ts : without (ls ++ ls') ts = without ls' (without ls ts).
Proof. apply foldl_app. Qed.
Lemma without_elem ls : forall ts x, x ∈ without ls ts <-> x ∈ ts /\ x.1 ∉ ls.
Proof.
  induction ls as [|l ls IH]; intros ts x; [cbn; set_solver|]. change (without (l :: ls) ts) with (without ls (remove_loc l ts)). rewrite IH. unfold remove_loc. rewrite list_elem_of_filter. set_solver.
Qed.

(** With the timers [ls] running, the program closes [fs] and cancels [ls], and
    turns the test [t] into [t']. *)
Definition frees (t : iperf_test) (m : P unit) (t' : iperf_test) (fs : list fd) (ls : list loc) : Prop :=
  forall s ts free, tst s = t -> timers_repr (tmr s) ts free -> NoDup ls -> ls ⊆ ts.*1 ->
  (List.length fs <= List.length (script (os s)))%nat ->
  exists s' free', m s = Some (tt, s') /\ tst s' = t' /\ timers_repr (tmr s') (without ls ts) free' /\
    (trace (os s')).*1 = ((trace (os s)).*1 ++ map Cclose fs)%list /\
    List.length (script (os s)) = (List.length fs + List.length (script (os s')))%nat.

Lemma frees_then t t1 t2 m k fs1 fs2 ls1 ls2 : frees t m t1 fs1 ls1 -> frees t1 k t2 fs2 ls2 ->
  frees t (m ;; k) t2 (fs1 ++ fs2) (ls1 ++ ls2).
Proof.
  intros Hm Hk s ts free Ht Hr [Hd1 [Hdis Hd2]]%NoDup_app Hin Hlen. rewrite length_app in Hlen.
  destruct (Hm s ts free Ht Hr Hd1 ltac:(set_solver) ltac:(lia)) as (s1 & free1 & Hr1 & Ht1 & Hp1 & Htr1 & Hl1).
  destruct (Hk s1 (without ls1 ts) free1 Ht1 Hp1 Hd2) as (s2 & free2 & Hr2 & Ht2 & Hp2 & Htr2 & Hl2); [|lia|].
  { intros l Hl. assert (l ∈ ts.*1) as ([l' d] & -> & Hx)%list_elem_of_fmap by set_solver.
    apply list_elem_of_fmap. exists (l', d). split; [done|]. apply without_elem. cbn in *. set_solver. }
  exists s2, free2. rewrite (bind_run _ _ _ _ _ Hr1), without_app. split; [done|]. split; [done|]. split; [done|].
  rewrite Htr2, Htr1, map_app, length_app, app_assoc. split; [done|lia].
Qed.
(** A part that closes nothing, and one that cancels nothing either. *)
Lemma frees_quiet t t1 t2 m k fs ls1 ls2 : frees t m t1 [] ls1 -> frees t1 k t2 fs ls2 -> frees t (m ;; k) t2 fs (ls1 ++ ls2).
Proof. exact (frees_then t t1 t2 m k [] fs ls1 ls2). Qed.
Lemma frees_plain t t1 t2 m k fs ls : frees t m t1 [] [] -> frees t1 k t2 fs ls -> frees t (m ;; k) t2 fs ls.
Proof. exact (frees_then t t1 t2 m k [] fs [] ls). Qed.
Lemma frees_test t k t' fs ls : frees t (k t) t' fs ls -> frees t (mbnd get_test k) t' fs ls.
Proof. intros Hk s ts free Ht. rewrite bind_get_test, Ht. by apply Hk. Qed.
Lemma frees_upd t f : frees t (upd f) (f t) [] [].
Proof. intros s ts free <- Hr _ _ _. exists (s <| tst ::= f |>), free. cbn. by rewrite app_nil_r. Qed.
Lemma frees_nothing t : frees t (mret tt) t [] [].
Proof. intros s ts free <- Hr _ _ _. exists s, free. cbn. by rewrite app_nil_r. Qed.
Lemma frees_close t f k t' fs ls : frees t k t' fs ls -> frees t (do_os (sys (Cclose f)) ;; k) t' (f :: fs) ls.
Proof.
  intros Hk s ts free Ht Hr Hd Hin Hl. destruct (script (os s)) as [|x rest] eqn:E; [cbn in Hl; lia|].
  eassert (do_os (sys (Cclose f)) s = Some (x, _)) as Hc by (unfold do_os, lift, sys; rewrite E; reflexivity).
  rewrite (bind_run _ _ _ _ _ Hc). match type of Hc with _ = Some (_, ?u) => set (s1 := u) in * end.
  destruct (Hk s1 ts free Ht Hr Hd Hin) as (s' & free' & Hr' & Ht' & Hp' & Htr' & Hl'); [cbn in *; lia|]. exists s', free'.
  split; [exact Hr'|]. split; [done|]. split; [done|]. rewrite Htr'. cbn in *. rewrite fmap_app, <-app_assoc. split; [done|lia].
Qed.
Lemma frees_timer t l : frees t (do_tmr (tmr_cancel l)) t [] [l].
Proof.
  intros s ts free <- Hr _ Hin _. assert (l ∈ ts.*1) as ([l' d] & -> & Hx)%list_elem_of_fmap by set_solver.
  destruct (tmr_cancel_refines _ _ _ _ _ Hr Hx) as (st' & Hc & Hr'). exists (s <| tmr := st' |>), (l' :: free).
  unfold do_tmr, lift. cbn -[tmr_cancel] in Hc |- *. rewrite Hc. cbn. by rewrite app_nil_r.
Qed.
Lemma frees_maybe t get : frees t (cancel_timer get (fun t => t)) t [] (maybe (get t)).
Proof.
  unfold cancel_timer. apply frees_test. destruct (get t) as [l|]; [|apply frees_nothing].
  apply (frees_then t t t _ _ [] [] [l] []); [apply frees_timer|]. exact (frees_upd t (fun t => t)).
Qed.
Lemma frees_stream t sp : frees t (iperf_free_stream sp) t (stream_files sp) (maybe (Stream.send_timer sp)).
Proof.
  unfold iperf_free_stream, stream_files. apply frees_close.
  rewrite <-(app_nil_r (if 0 <=? _ then _ else _)). apply (frees_then t t t _ _ _ [] [] _).
  - destruct (_ <=? _); [by apply frees_close, frees_nothing|apply frees_nothing].
  - destruct (Stream.send_timer sp); [apply frees_timer|apply frees_nothing].
Qed.
Lemma frees_streams l : forall t, Test.streams t = l -> frees t (free_streams l) (t <| Test.streams := [] |>)
  (flat_map stream_files l) (flat_map (fun sp => maybe (Stream.send_timer sp)) l).
Proof.
  induction l as [|sp l IH]; intros t Hs; cbn [free_streams].
  - replace (t <| Test.streams := [] |>) with t by (destruct t; cbn in Hs; by subst). apply frees_nothing.
  - eapply frees_plain; [apply (frees_upd t)|].
    apply (frees_then _ _ _ _ _ (stream_files sp) (flat_map stream_files l) _ _ (frees_stream _ sp)). exact (IH (t <| Test.streams := l |>) eq_refl).
Qed.
Lemma frees_log t : frees t
  (match Test.logfile t with
   | Some _ => upd (fun t => t <| Test.logfile := None |>) ;; iperf_close_logfile
   | None => mret tt
   end)
  (match Test.logfile t with Some _ => t <| Test.logfile := None |> <| Test.outfile := None |> | None => t end) (log_file t) [].
Proof.
  unfold log_file. destruct (Test.logfile t); [|apply frees_nothing]. set (t1 := t <| Test.logfile := None |>).
  apply (frees_plain t t1); [exact (frees_upd t _)|]. unfold iperf_close_logfile. apply frees_test.
  change (Test.outfile t) with (Test.outfile t1). destruct (Test.outfile t1) as [o|] eqn:E.
  - by apply frees_close, frees_upd.
  - replace (t1 <| Test.outfile := None |>) with t1 by (destruct t; cbn in *; by subst). apply frees_nothing.
Qed.
Lemma frees_members t : exists t', frees t free_members t' (files_of t) (timers_of t).
Proof.
  eexists. unfold free_members, files_of, timers_of. apply frees_test. eapply frees_then; [by apply frees_streams|].
  set (t1 := t <| Test.streams := [] |>).
  eapply frees_quiet; [apply (frees_maybe t1 Test.omit_timer)|]. eapply frees_quiet; [apply (frees_maybe t1 Test.timer)|].
  eapply frees_quiet; [apply (frees_maybe t1 Test.stats_timer)|].
  rewrite <-(app_nil_r (maybe (Test.reporter_timer t))). eapply frees_quiet; [apply (frees_maybe t1 Test.reporter_timer)|].
  eapply frees_plain; [apply (frees_upd t1)|]. apply frees_test. change (log_file t) with (log_file (t1 <| Test.protocols := [] |>)). rewrite <-(app_nil_r (log_file _)).
  eapply (frees_then _ _ _ _ _ _ _ [] []); [apply (frees_log (t1 <| Test.protocols := [] |>))|apply frees_upd].
Qed.

(** C6. Destroying a test.  With the timers of the test and its streams running,
    each its own, and a system that answers, [iperf_free_test] comes to its end,
    never through a null or dangling pointer; it closes exactly the files behind
    the buffers of the streams, their data files and the log file, and of the
    timers exactly those of the test are gone: the others still run. *)
Theorem iperf_free_test_releases (s : prog) (ts : list atimer) (free : list loc) :
  timers_repr (tmr s) ts free -> NoDup (timers_of (tst s)) -> timers_of (tst s) ⊆ ts.*1 ->
  (List.length (files_of (tst s)) <= List.length (script (os s)))%nat ->
  exists st w ts' free', iperf_free_test s = Some (st, w) /\ timers_repr st ts' free' /\
    (forall x, x ∈ ts' <-> x ∈ ts /\ x.1 ∉ timers_of (tst s)) /\
    (trace w).*1 = (trace (os s)).*1 ++ map Cclose (files_of (tst s)).
Proof.
  intros Hr Hd Hin Hl. destruct (frees_members (tst s)) as (t' & Hf).
  destruct (Hf s ts free eq_refl Hr Hd Hin Hl) as (s' & free' & Hrun & _ & Hr' & Htr & _).
  exists (tmr s'), (os s'), (without (timers_of (tst s)) ts), free'. unfold iperf_free_test. rewrite Hrun. split; [done|]. split; [done|].
  split; [|done]. intros x. apply without_elem.
Qed.
(** A test with a timer of its own beside another one, a stream with two files
    and a log file. *)
Definition holding : prog :=
  Prog (Test.zero <| Test.stats_timer := Some 2%positive |> <| Test.logfile := Some "log"%string |> <| Test.outfile := Some 6 |>
          <| Test.streams := [Stream.zero <| Stream.buffer_fd := 8 |> <| Stream.diskfile_fd := 9 |>] |>)
       (two_timers d_once d_per) (World (repeat (Reply 0 0 [] []) 3) [] 0 0 0).
Lemma iperf_free_test_releases_witness :
  exists st w ts' free', iperf_free_test holding = Some (st, w) /\ timers_repr st ts' free' /\
    (forall x, x ∈ ts' <-> x ∈ [(1%positive, d_once); (2%positive, d_per)] /\ x.1 ∉ [2%positive]) /\
    (trace w).*1 = [Cclose 8; Cclose 9; Cclose 6].
Proof.
  apply (iperf_free_test_releases holding [(1%positive, d_once); (2%positive, d_per)] []).
  - exact demo_repr.
  - apply NoDup_singleton.
  - intros x ->%list_elem_of_singleton. right. by left.
  - cbn. lia.
Defined.
