(* ===== verification/Summary.v ===== *)
(** * The summary of a test

    What iperf_print_results of iperf_api.c puts at the end of the JSON report:
    its objects hold the counters of the streams and their sums, and after the
    exchange of results both ends report the same figures. *)
From Stdlib Require Import Ascii String.
From stdpp Require Import strings.
From S2P Require Import Prelude Double IperfTime Timer Text Cjson Iperf Error Sys Net Json Util Api Params Printf Output Results Stats Report.
#[local] Open Scope string_scope.
#[local] Open Scope Z_scope.

(** ** What the summary says *)

Definition holds (o : cJSON) (name : string) (n : Z) : Prop := number name o = Some (Z2d n).
(** The object of a stream: both ends' bytes, for UDP what arrived of them. *)
Definition is_summary (p : Protocol.protocol) (sp : iperf_stream) (o : cJSON) : Prop :=
  if stream_based p then
    exists snd rcv, cJSON_GetObjectItem o "sender" = Some snd /\ cJSON_GetObjectItem o "receiver" = Some rcv /\
      holds snd "socket" (Stream.socket sp) /\ holds snd "bytes" (i64 (stream_bytes_sent sp)) /\
      holds rcv "socket" (Stream.socket sp) /\ holds rcv "bytes" (i64 (Result.bytes_received (Stream.result sp)))
  else
    exists udp, cJSON_GetObjectItem o "udp" = Some udp /\
      holds udp "socket" (Stream.socket sp) /\ holds udp "bytes" (i64 (stream_bytes_sent sp)) /\
      holds udp "lost_packets" (net_lost sp) /\ holds udp "packets" (net_packets sp) /\ holds udp "out_of_order" (net_reordered sp).

(** The sum of a figure over the streams of a direction. *)
Definition tally (f : iperf_stream -> Z) (mode : Z) (l : list iperf_stream) : Z := foldr Z.add 0 (map f (in_direction mode l)).
(** What a sum takes for lost: an end that does not know what was lost in the
    omitted time has -1 there. *)
Definition lost_in_sum (sp : iperf_stream) : Z :=
  Stream.cnt_error sp - (if -1 <? Stream.omitted_cnt_error sp then Stream.omitted_cnt_error sp else 0).
Definition is_total (test : iperf_test) (p : Protocol.protocol) (l : list iperf_stream) (mode : Z) (fields : list (string * cJSON)) : Prop :=
  let sent := i64 (u64 (tally stream_bytes_sent mode l)) in
  let received := i64 (u64 (tally (fun sp => Result.bytes_received (Stream.result sp)) mode l)) in
  let lost := i64 (tally lost_in_sum mode l) in
  let name s := sum_name test (mode * mode) s in
  if stream_based p then
    exists a b, fields = [(name "sum_sent", a); (name "sum_received", b)] /\ holds a "bytes" sent /\ holds b "bytes" received
  else
    exists all a b, fields = [(name "sum", all); (name "sum_sent", a); (name "sum_received", b)] /\
      holds all "bytes" sent /\ holds all "packets" (i64 (tally net_packets mode l)) /\ holds all "lost_packets" lost /\
      holds a "bytes" sent /\ holds a "packets" (i64 (tally net_sent mode l)) /\
      holds b "bytes" received /\ holds b "packets" (i64 (tally net_received mode l)) /\ holds b "lost_packets" lost.

(** ** Rows and totals *)

(** What is needed to print: no text, no files, and the arrays of the code. *)
Record printable (t : iperf_test) : Prop := {
  pr_json : nonzero (Test.json_output t) = true;
  pr_quiet : Test.verbose t = 0;
  pr_files : Forall (fun sp => Stream.diskfile_fd sp < 0) (Test.streams t);
  pr_cpu : length (Test.cpu_util t) = 3%nat /\ length (Test.remote_cpu_util t) = 3%nat }.

Ltac run_summary := lazy -[cJSON_CreateNumber Z2d i64 u64 dmul ddiv dsub dadd seconds_between rate_of percent end_time_of stream_bytes_sent
  net_lost net_packets net_sent net_reordered say milli bits].

Lemma sender_object test p must st sp s : nonzero (Test.json_output test) = true ->
  exists name o, sender_summary test p must st sp s = Some ([(name, o)], s) /\
    holds o "socket" (Stream.socket sp) /\ holds o "bytes" (i64 (stream_bytes_sent sp)) /\
    if stream_based p then name = "sender"
    else name = "udp" /\ holds o "lost_packets" (net_lost sp) /\ holds o "packets" (net_packets sp) /\ holds o "out_of_order" (net_reordered sp).
Proof.
  intros Hj. unfold sender_summary, json. rewrite Hj. destruct (stream_based p).
  - destruct (_ || _); do 2 eexists; (split; [unfold mbnd, mopt, mret; run_summary; reflexivity|split_and!; reflexivity]).
  - do 2 eexists. split; [unfold mbnd, mopt, mret; run_summary; reflexivity|split_and!; reflexivity].
Qed.
Lemma receiver_object test p must rt sp s : nonzero (Test.json_output test) = true -> is_Some (hd_error (Test.streams test)) ->
  exists fields, receiver_summary test p must rt sp s = Some (fields, s) /\
    if stream_based p then exists o, fields = [("receiver", o)] /\
      holds o "socket" (Stream.socket sp) /\ holds o "bytes" (i64 (Result.bytes_received (Stream.result sp)))
    else fields = [].
Proof.
  intros Hj [first Hf]. unfold receiver_summary, json. rewrite Hj. destruct (stream_based p); [|by exists []].
  rewrite Hf. unfold mopt at 1. eexists. split; [unfold mbnd, mopt, mret; run_summary; reflexivity|].
  eexists. split_and!; reflexivity.
Qed.

(** Totals are sums modulo their width. *)
Definition sum_over {A} (f : A -> Z) (l : list A) : Z := foldr Z.add 0 (map f l).
Definition total_all (test : iperf_test) (p : Protocol.protocol) (l : list iperf_stream) (t : totals) : totals :=
  foldl (fun t sp => add_stream test p sp t) t l.
Lemma foldl_wraps {A} (wrap : Z -> Z) (step : totals -> A -> totals) (f : A -> Z) (field : totals -> Z) (l : list A) :
  (forall a b, wrap (wrap a + b) = wrap (a + b)) -> (forall t x, field (step t x) = wrap (field t + f x)) ->
  forall t, wrap (field t) = field t -> field (foldl step t l) = wrap (field t + sum_over f l).
Proof.
  intros Hw Hs. induction l as [|x l IH]; intros t Ht; cbn [foldl]; unfold sum_over; cbn [map foldr]; [by rewrite Z.add_0_r|].
  rewrite IH; rewrite Hs; [|specialize (Hw (field t + f x) 0); by rewrite !Z.add_0_r in Hw].
  rewrite Hw. unfold sum_over. f_equal. lia.
Qed.
Lemma i64_wraps a b : i64 (i64 a + b) = i64 (a + b).
Proof. zlia. Qed.
Lemma u64_wraps a b : u64 (u64 a + b) = u64 (a + b).
Proof. zlia. Qed.

Section Totals.
Context (test : iperf_test) (p : Protocol.protocol) (l : list iperf_stream).
Lemma total_sent_sum : total_sent (total_all test p l no_totals) = u64 (sum_over stream_bytes_sent l).
Proof.
  apply (foldl_wraps u64 _ stream_bytes_sent total_sent l u64_wraps); [|done].
  intros t' sp. unfold add_stream. by destruct (stream_based p).
Qed.
Lemma total_received_sum : total_received (total_all test p l no_totals) = u64 (sum_over (fun sp => Result.bytes_received (Stream.result sp)) l).
Proof.
  apply (foldl_wraps u64 _ (fun sp => Result.bytes_received (Stream.result sp)) total_received l u64_wraps); [|done].
  intros t' sp. unfold add_stream. by destruct (stream_based p).
Qed.
Lemma packets_sum : stream_based p = false ->
  all_packets (total_all test p l no_totals) = i64 (sum_over net_packets l) /\ sender_total_packets (total_all test p l no_totals) = i64 (sum_over net_sent l) /\
  receiver_total_packets (total_all test p l no_totals) = i64 (sum_over net_received l) /\ total_lost (total_all test p l no_totals) = i64 (sum_over lost_in_sum l).
Proof.
  intros Hu. split_and!.
  - apply (foldl_wraps i64 _ net_packets all_packets l i64_wraps); [|done]. intros t' sp. unfold add_stream. by rewrite Hu.
  - apply (foldl_wraps i64 _ net_sent sender_total_packets l i64_wraps); [|done]. intros t' sp. unfold add_stream. by rewrite Hu.
  - apply (foldl_wraps i64 _ net_received receiver_total_packets l i64_wraps); [|done]. intros t' sp. unfold add_stream. by rewrite Hu.
  - apply (foldl_wraps i64 _ lost_in_sum total_lost l i64_wraps); [|done]. intros t' sp. unfold add_stream, lost_in_sum.
    rewrite Hu. cbn. destruct (-1 <? _); [zlia|by rewrite Z.sub_0_r].
Qed.
End Totals.

Lemma rows_summary test p must st rt s l : printable test -> is_Some (hd_error (Test.streams test)) -> Forall (fun sp => Stream.diskfile_fd sp < 0) l ->
  forall t, exists rows,
  summary_rows test p must st rt l t s =
    Some ((rows, total_all test p (filter (fun sp => Stream.sender sp = must) l) t), s) /\
  Forall2 (is_summary p) (filter (fun sp => Stream.sender sp = must) l) rows.
Proof.
  intros Hpr Hne. destruct Hpr as [Hj _ _ _]. induction l as [|sp l IH]; intros Hd t; [by exists []|].
  apply Forall_cons in Hd as [Hfd Hd]. cbn [summary_rows].
  destruct (Z.eqb_spec (Stream.sender sp) must) as [Hs|Hs]; [|rewrite filter_cons_False by done; by apply IH].
  rewrite filter_cons_True by done.
  destruct (sender_object test p must st sp s Hj) as (name & a & Ha & Hsock & Hb & Hkind).
  destruct (receiver_object test p must rt sp s Hj Hne) as (fields & Hr & Hf).
  destruct (IH Hd (add_stream test p sp t)) as (rows & Hrows & HF).
  unfold mbnd at 1. rewrite Ha. unfold disk_summary. destruct (Z.leb_spec 0 (Stream.diskfile_fd sp)); [lia|].
  unfold mbnd at 1. cbn [mret]. unfold mbnd at 1. rewrite Hr. unfold mbnd. rewrite Hrows. unfold json. rewrite Hj.
  eexists. split; [reflexivity|]. constructor; [|done]. unfold is_summary. destruct (stream_based p).
  - subst name. destruct Hf as (b & -> & Hbs & Hbb). exists a, b. by split_and!.
  - destruct Hkind as (-> & Hl & Hp & Ho). subst fields. exists a. by split_and!.
Qed.

Lemma totals_object test p st rt et mode s : nonzero (Test.json_output test) = true ->
  let t := total_all test p (in_direction mode (Test.streams test)) no_totals in
  exists fields, (if stream_based p then stream_sum test (mode * mode) st rt t else datagram_sum test (mode * mode) st rt et t) s = Some (fields, s) /\
    is_total test p (Test.streams test) mode fields.
Proof.
  intros Hj t. pose proof (total_sent_sum test p (in_direction mode (Test.streams test))) as Hs.
  pose proof (total_received_sum test p (in_direction mode (Test.streams test))) as Hr.
  pose proof (packets_sum test p (in_direction mode (Test.streams test))) as Hk. fold t in Hs, Hr, Hk. clearbody t.
  unfold is_total, tally. unfold sum_over in Hs, Hr, Hk. destruct (stream_based p) eqn:Hp.
  - unfold stream_sum, json. rewrite Hj. unfold is_total. rewrite <-Hs, <-Hr.
    destruct (nonzero (Test.sender_has_retransmits test));
      (eexists; split; [unfold mbnd, mopt, mret; run_summary; reflexivity|do 2 eexists; split_and!; reflexivity]).
  - destruct (Hk eq_refl) as (Ha & Hse & Hre & Hl). unfold datagram_sum, json. rewrite Hj, <-Hs, <-Hr, <-Ha, <-Hse, <-Hre, <-Hl.
    eexists. split; [unfold mbnd, mopt, mret; run_summary; reflexivity|]. do 3 eexists. split_and!; reflexivity.
Qed.

(** ** The running times do not matter *)

Lemma in_direction_core mode l : map core_stream (in_direction mode l) = in_direction mode (map core_stream l).
Proof.
  unfold in_direction. induction l as [|sp l IH]; [done|]. cbn [map]. destruct (decide (Stream.sender sp = mode * mode)) as [H|H].
  - rewrite !filter_cons_True by done. cbn [map]. by rewrite IH.
  - by rewrite !filter_cons_False by done.
Qed.
Lemma tally_core f mode l l' : (forall sp, f (core_stream sp) = f sp) -> map core_stream l = map core_stream l' ->
  tally f mode l = tally f mode l'.
Proof.
  intros Hf Hl. unfold tally.
  assert (H : forall x, map f x = map f (map core_stream x)) by (intros x; rewrite map_map; by apply map_ext).
  by rewrite (H (in_direction mode l)), (H (in_direction mode l')), !in_direction_core, Hl.
Qed.
Lemma is_total_core test test' p l l' mode fields : map core_stream l = map core_stream l' ->
  (forall must name, sum_name test must name = sum_name test' must name) -> is_total test p l mode fields -> is_total test' p l' mode fields.
Proof.
  intros Hl Hn. unfold is_total.
  rewrite (tally_core stream_bytes_sent mode l l'), (tally_core (fun sp => Result.bytes_received (Stream.result sp)) mode l l'),
    (tally_core net_packets mode l l'), (tally_core net_sent mode l l'), (tally_core net_received mode l l'),
    (tally_core lost_in_sum mode l l') by done.
  by rewrite !Hn.
Qed.
Lemma is_summary_core p l l' mode rows : map core_stream l = map core_stream l' ->
  Forall2 (is_summary p) (in_direction mode l) rows -> Forall2 (is_summary p) (in_direction mode l') rows.
Proof.
  intros Hl H.
  assert (Hc : forall x, Forall2 (is_summary p) x rows <-> Forall2 (is_summary p) (map core_stream x) rows).
  { intros x. rewrite Forall2_fmap_l. split; intros HF; (eapply Forall2_impl; [exact HF|]); done. }
  by rewrite Hc, in_direction_core, <-Hl, <-in_direction_core, <-Hc.
Qed.
Lemma summaries_core p l l' modes : map core_stream l = map core_stream l' -> forall rows,
  Forall2 (is_summary p) (concat (map (fun mode => in_direction mode l) modes)) rows ->
  Forall2 (is_summary p) (concat (map (fun mode => in_direction mode l') modes)) rows.
Proof.
  intros Hl. induction modes as [|m modes IH]; intros rows H; [exact H|]. cbn [map concat] in *.
  apply Forall2_app_inv_l in H as (r1 & r2 & H1 & H2 & ->). apply Forall2_app; [|by apply IH]. by eapply is_summary_core.
Qed.

(** ** Directions *)


Definition prepared (own mode : Z) (t : iperf_test) : iperf_test :=
  (set_retransmits own (mode * mode) t) <| Test.streams ::= on_first fix_times |>.
Lemma prepared_streams own mode t : map core_stream (Test.streams (prepared own mode t)) = map core_stream (Test.streams t).
Proof. unfold prepared, set_retransmits. destruct (both_ways t); apply core_on_first. Qed.
Lemma fix_times_file sp : Stream.diskfile_fd (fix_times sp) = Stream.diskfile_fd sp.
Proof. reflexivity. Qed.
Lemma prepared_printable own mode t : printable t -> printable (prepared own mode t).
Proof.
  intros [Hj Hq Hf Hc]. unfold prepared, set_retransmits. constructor; try (by destruct (both_ways t)).
  assert (H : Forall (fun sp => Stream.diskfile_fd sp < 0) (on_first fix_times (Test.streams t))) by (by destruct Hf; constructor).
  by destruct (both_ways t).
Qed.
Lemma prepared_name own mode t must name : sum_name (prepared own mode t) must name = sum_name t must name.
Proof. unfold prepared, set_retransmits. by destruct (both_ways t). Qed.
Lemma prepared_json own mode t : json (prepared own mode t) = json t.
Proof. unfold prepared, set_retransmits. by destruct (both_ways t). Qed.

(** The members of the report that are sums. *)
Definition is_sum_name (name : string) : bool := String.prefix "sum" name.
Lemma closing_fields test p must s : printable test -> exists fields, closing_json test p must s = Some (fields, s) /\
  Forall (fun f => is_sum_name f.1 = false) fields.
Proof.
  intros [_ _ _ [H1 H2]]. unfold closing_json.
  destruct (Test.cpu_util test) as [|a [|b [|c [|]]]]; try done. destruct (Test.remote_cpu_util test) as [|d [|e [|f [|]]]]; try done.
  eexists. split; [unfold mbnd, mopt; cbn [take app map]; reflexivity|]. constructor; [done|].
  destruct (Protocol.id p =? Ptcp); [|done]. apply Forall_app_2; (destruct (_ : option string); by repeat constructor).
Qed.

Lemma direction_summary own p last mode s : printable (tst s) -> Test.streams (tst s) <> [] ->
  exists rows fields closing, results_direction own p last mode s = Some ((rows, (fields ++ closing)%list), s <| tst ::= prepared own mode |>) /\
    Forall2 (is_summary p) (in_direction mode (Test.streams (tst s))) rows /\ is_total (tst s) p (Test.streams (tst s)) mode fields /\
    (last = false -> closing = []) /\ Forall (fun f => is_sum_name f.1 = false) closing.
Proof.
  intros Hpr Hne. pose proof (prepared_printable own mode _ Hpr) as Hpr'. pose proof (prepared_streams own mode (tst s)) as Hst.
  unfold results_direction. rewrite !bind_upd, bind_get_test. cbv zeta.
  match goal with |- context [summary_rows (tst ?S)] => set (s1 := S) end.
  assert (Hs1 : tst s1 = prepared own mode (tst s)) by reflexivity. rewrite Hs1. set (t1 := prepared own mode (tst s)) in *.
  assert (Hhd : is_Some (hd_error (Test.streams t1))).
  { destruct (Test.streams t1) eqn:E; [|by eexists]. destruct (Test.streams (tst s)); [done|]. discriminate Hst. }
  match goal with |- context [summary_rows t1 p _ ?st ?rt] =>
    destruct (rows_summary t1 p (mode * mode) st rt s1 (Test.streams t1) Hpr' Hhd (pr_files _ Hpr') no_totals) as (rows & Hr & HF) end.
  rewrite (bind_run _ _ _ _ _ Hr). clear Hr. unfold json. rewrite (pr_json _ Hpr'), orb_true_r.
  match goal with |- context [stream_sum t1 _ ?st ?rt] => match goal with |- context [datagram_sum t1 _ _ _ ?et] =>
    destruct (totals_object t1 p st rt et mode s1 (pr_json _ Hpr')) as (fields & Ht & Htot) end end.
  rewrite (bind_run _ _ _ _ _ Ht). clear Ht.
  assert (Hclose : exists closing, (if true && last then closing_json t1 p (mode * mode)
      else when (nonzero (Test.verbose t1)) (closing_text t1 p (mode * mode)) ;;
           when (client t1 && nonzero (iperf_get_test_get_server_output t1) && negb true) print_server_output ;; mret []) s1 = Some (closing, s1) /\
      (last = false -> closing = []) /\ Forall (fun f => is_sum_name f.1 = false) closing).
  { destruct last.
    - destruct (closing_fields t1 p (mode * mode) s1 Hpr') as (c & Hc & Hn). by exists c.
    - exists []. split; [|by split]. rewrite (pr_quiet _ Hpr').
      by destruct (client t1), (nonzero (iperf_get_test_get_server_output t1)). }
  destruct Hclose as (closing & Hc & Hlast & Hn). rewrite (bind_run _ _ _ _ _ Hc).
  exists rows, fields, closing. split_and!; [reflexivity| | |exact Hlast|exact Hn].
  - eapply is_summary_core; [exact Hst|exact HF].
  - eapply is_total_core; [exact Hst| |exact Htot]. intros ??. apply prepared_name.
Qed.

Definition prepare_all (own : Z) (modes : list Z) (t : iperf_test) : iperf_test := foldl (fun t mode => prepared own mode t) t modes.
Lemma prepare_all_end own modes t : Test.json_end (prepare_all own modes t) = Test.json_end t.
Proof.
  revert t. induction modes as [|mode modes IH]; intros t; [done|]. cbn [prepare_all foldl]. fold (prepare_all own modes (prepared own mode t)).
  rewrite IH. unfold prepared, set_retransmits. by destruct (both_ways t).
Qed.
Lemma directions_summary own p modes : modes <> [] -> forall s, printable (tst s) -> Test.streams (tst s) <> [] ->
  exists rows sums closing,
    results_directions own p modes s = Some ((rows, (concat sums ++ closing)%list), s <| tst ::= prepare_all own modes |>) /\
    Forall2 (is_summary p) (concat (map (fun mode => in_direction mode (Test.streams (tst s))) modes)) rows /\
    Forall2 (is_total (tst s) p (Test.streams (tst s))) modes sums /\ Forall (fun f => is_sum_name f.1 = false) closing.
Proof.
  induction modes as [|mode modes IH]; [done|]. intros _ s Hpr Hne. cbn [results_directions].
  destruct (direction_summary own p (match modes with [] => true | _ => false end) mode s Hpr Hne)
    as (rows & fields & closing & Hd & Hr & Ht & Hc & Hn).
  rewrite (bind_run _ _ _ _ _ Hd). cbv beta iota.
  destruct modes as [|mode' modes].
  { exists rows, [fields], closing. split_and!; [|cbn [map concat]; by rewrite app_nil_r|by repeat constructor|done].
    cbn [results_directions concat]. unfold mbnd, mret. by rewrite !app_nil_r. }
  rewrite (Hc eq_refl) in *. set (s1 := s <| tst ::= prepared own mode |>) in *.
  assert (Hcore : map core_stream (Test.streams (tst s1)) = map core_stream (Test.streams (tst s))) by apply prepared_streams.
  destruct (IH ltac:(done) s1) as (rows' & sums & closing' & Hd' & Hr' & Hs' & Hn').
  { by apply prepared_printable. }
  { intros E. rewrite E in Hcore. by destruct (Test.streams (tst s)). }
  rewrite (bind_run _ _ _ _ _ Hd'). cbv beta iota. exists (rows ++ rows')%list, (fields :: sums), closing'. split_and!.
  - rewrite app_nil_r. cbn [concat]. by rewrite <-app_assoc.
  - cbn [map concat]. apply Forall2_app; [done|]. exact (summaries_core p _ _ (mode' :: modes) Hcore _ Hr').
  - constructor; [done|]. eapply Forall2_impl; [exact Hs'|]. intros m f. apply is_total_core; [done|]. intros ??. apply prepared_name.
  - done.
Qed.

Lemma add_fields l fields : fold_left (fun o f => cJSON_AddItemToObject o f.1 f.2) fields (cJSON_Object l) = cJSON_Object (l ++ fields).
Proof.
  revert l. induction fields as [|[name o] fields IH]; intros l; cbn [fold_left]; [by rewrite app_nil_r|].
  cbn [cJSON_AddItemToObject fst snd]. by rewrite IH, <-app_assoc.
Qed.
Lemma report_modes_some t : report_modes t <> [].
Proof. unfold report_modes. by destruct (both_ways t), (client t). Qed.

Lemma summary_written (s : prog) (p : Protocol.protocol) (l : list (string * cJSON)) :
  printable (tst s) -> Test.streams (tst s) <> [] -> Test.protocol (tst s) = Some p ->
  Test.json_end (tst s) = Some (cJSON_Object l) ->
  exists s' rows sums closing, iperf_print_results s = Some (tt, s') /\ os s' = os s /\
    Test.json_end (tst s') = Some (cJSON_Object (l ++ ("streams", cJSON_Array rows) :: concat sums ++ closing)%list) /\
    Forall2 (is_summary p) (concat (map (fun mode => in_direction mode (Test.streams (tst s))) (report_modes (tst s)))) rows /\
    Forall2 (is_total (tst s) p (Test.streams (tst s))) (report_modes (tst s)) sums /\ Forall (fun f => is_sum_name f.1 = false) closing.
Proof.
  intros Hpr Hne Hp Hend. unfold iperf_print_results. rewrite bind_get_test, Hp. rewrite (bind_run (mopt (Some p)) _ s p s) by done.
  unfold json. rewrite (pr_json _ Hpr). cbn [negb when].
  destruct (directions_summary (Test.sender_has_retransmits (tst s)) p (report_modes (tst s)) (report_modes_some _) s Hpr Hne)
    as (rows & sums & closing & Hd & Hr & Hs & Hn).
  rewrite (bind_run (mret tt) _ s tt s) by done. rewrite (bind_run _ _ _ _ _ Hd). cbv beta iota. unfold add_to_end.
  pose proof (prepare_all_end (Test.sender_has_retransmits (tst s)) (report_modes (tst s)) (tst s)) as He. rewrite Hend in He.
  rewrite bind_upd. match goal with |- context [when ?b ?m ?S] => set (s1 := S);
    assert (Hw : exists s2, when b m s1 = Some (tt, s2) /\ os s2 = os s1 /\ Test.json_end (tst s2) = Test.json_end (tst s1))
      by (destruct b; by eexists) end.
  destruct Hw as (s2 & Hw & Hos & Hj). exists s2, rows, sums, closing. split_and!; [exact Hw|exact Hos| |exact Hr|exact Hs|exact Hn].
  rewrite Hj. unfold s1. cbn [tst modify_field prog_eta eta_of].
  change (option_map (fun o => fold_left (fun o f => cJSON_AddItemToObject o f.1 f.2) (("streams", cJSON_Array rows) :: concat sums ++ closing)%list o)
    (Test.json_end (prepare_all (Test.sender_has_retransmits (tst s)) (report_modes (tst s)) (tst s))) =
    Some (cJSON_Object (l ++ ("streams", cJSON_Array rows) :: concat sums ++ closing)%list)).
  rewrite He. cbn [option_map]. by rewrite add_fields.
Qed.
(** C28. The final report adds up.  With JSON output the summary is written
    without fail at the end of the report: an object for every stream of each
    direction with the bytes that the sending and the receiving end counted
    (for UDP also the packets and what was lost), and for each direction sums
    whose bytes, packets and losses are the sums over the streams. *)
Theorem final_report_adds_up (s : prog) (p : Protocol.protocol) (l : list (string * cJSON)) :
  printable (tst s) -> Test.streams (tst s) <> [] -> Test.protocol (tst s) = Some p ->
  Test.json_end (tst s) = Some (cJSON_Object l) ->
  exists s' rows sums closing, iperf_print_results s = Some (tt, s') /\ os s' = os s /\
    Test.json_end (tst s') = Some (cJSON_Object (l ++ ("streams", cJSON_Array rows) :: concat sums ++ closing)%list) /\
    Forall2 (is_summary p) (concat (map (fun mode => in_direction mode (Test.streams (tst s))) (report_modes (tst s)))) rows /\
    Forall2 (is_total (tst s) p (Test.streams (tst s))) (report_modes (tst s)) sums.
Proof.
  intros Hpr Hne Hp Hend. destruct (summary_written s p l Hpr Hne Hp Hend) as (s' & rows & sums & closing & H & Hos & Hj & Hr & Hs & _).
  by exists s', rows, sums, closing.
Qed.
(** The server of a UDP test with two streams. *)
Definition summary_report : prog :=
  json_report <| tst ::= fun t => t <| Test.json_end := Some (cJSON_Object []) |>
    <| Test.cpu_util := replicate 3 dzero |> <| Test.remote_cpu_util := replicate 3 dzero |> |>.
Lemma final_report_adds_up_witness :
  exists s' rows sums closing, iperf_print_results summary_report = Some (tt, s') /\ os s' = os summary_report /\
    Test.json_end (tst s') = Some (cJSON_Object ([] ++ ("streams", cJSON_Array rows) :: concat sums ++ closing)%list) /\
    Forall2 (is_summary udp_protocol) (concat (map (fun mode => in_direction mode (Test.streams (tst summary_report))) (report_modes (tst summary_report)))) rows /\
    Forall2 (is_total (tst summary_report) udp_protocol (Test.streams (tst summary_report))) (report_modes (tst summary_report)) sums.
Proof.
  apply (final_report_adds_up summary_report udp_protocol []).
  - constructor; [done|done|by repeat constructor|done].
  - discriminate.
  - reflexivity.
  - reflexivity.
Defined.

(** ** Both ends report the same

    The server prints its report before the results are exchanged, the client
    after: what both can show is what the server counted itself. *)

(** Members of a report with one of their numbers, as a reader finds them. *)
Definition figures (keep : string -> bool) (field : string) (l : list (string * cJSON)) : list (string * option double) :=
  map (fun f => (f.1, number field f.2)) (filter (fun f => keep f.1 = true) l).
Definition members (o : option cJSON) : list (string * cJSON) := match o with Some (cJSON_Object l) => l | _ => [] end.
(** The report has exactly one member [name], whose [field] is [n]. *)
Definition reports (s : prog) (name field : string) (n : Z) : Prop :=
  figures (String.eqb name) field (members (Test.json_end (tst s))) = [(name, Some (Z2d n))].

(** The streams of the two ends of one connection, each the other's. *)
Definition opposite (u v : iperf_stream) : Prop :=
  Stream.sender u = 1 /\ Stream.sender v = 0 /\ Result.bytes_sent_omit (Stream.result v) = 0 \/
  Stream.sender u = 0 /\ Stream.sender v = 1 /\ Result.bytes_sent_omit (Stream.result u) = 0.
(** [u] has the figures that its peer [v] counted as the end it is. *)
Record knows (u v : iperf_stream) : Prop := {
  kn_sender : Stream.sender u = 1 /\ Stream.sender v = 0 \/ Stream.sender u = 0 /\ Stream.sender v = 1;
  kn_sent : Stream.sender v = 1 -> stream_bytes_sent u = stream_bytes_sent v /\ net_sent u = net_sent v;
  kn_received : Stream.sender v = 0 ->
    Result.bytes_received (Stream.result u) = Result.bytes_received (Stream.result v) /\
    net_received u = net_received v /\ lost_in_sum u = lost_in_sum v }.
(** It learns them from what its peer says, whatever the peer has heard before. *)
Lemma heard_knows test test' u v : opposite u v -> knows (heard test' (heard test u v) u) v.
Proof.
  assert (Hw : forall a b, u64 (u64 (a - b) - 0) = u64 (a - b)) by (intros; zlia).
  intros [(Hu & Hv & Ho)|(Hu & Hv & Ho)]; unfold heard, accept_report, sent_bytes; cbn; rewrite !Hu, !Hv; cbn; rewrite ?Hu, ?Hv; cbn;
    constructor; unfold stream_bytes_sent, net_sent, net_received, sender_packet_count, receiver_packet_count,
      sender_omitted_packet_count, receiver_omitted_packet_count, lost_in_sum; cbn; rewrite ?Hu, ?Hv, ?Ho, ?Hw; auto; done.
Qed.
Lemma core_knows u u' v v' : core_stream u = core_stream u' -> core_stream v = core_stream v' -> knows u v -> knows u' v'.
Proof.
  assert (H : forall A (f : iperf_stream -> A) a b, (forall x, f (core_stream x) = f x) -> core_stream a = core_stream b -> f a = f b).
  { intros A f a b Hf E. by rewrite <-(Hf a), <-(Hf b), E. }
  intros Eu Ev [K1 K2 K3].
  rewrite (H _ Stream.sender u u'), (H _ Stream.sender v v') in K1 by done.
  rewrite (H _ Stream.sender v v'), (H _ stream_bytes_sent u u'), (H _ stream_bytes_sent v v'), (H _ net_sent u u'), (H _ net_sent v v') in K2 by done.
  rewrite (H _ Stream.sender v v'), (H _ (fun sp => Result.bytes_received (Stream.result sp)) u u'),
    (H _ (fun sp => Result.bytes_received (Stream.result sp)) v v'), (H _ net_received u u'), (H _ net_received v v'),
    (H _ lost_in_sum u u'), (H _ lost_in_sum v v') in K3 by done.
  by constructor.
Qed.
Lemma core_all_knows lu lu' lv lv' : map core_stream lu = map core_stream lu' -> map core_stream lv = map core_stream lv' ->
  Forall2 knows lu lv -> Forall2 knows lu' lv'.
Proof.
  intros Hu Hv H. revert lu' lv' Hu Hv. induction H as [|u v lu lv Hk _ IH]; intros [|u' lu'] [|v' lv'] Hu Hv; try done.
  apply list.cons_eq_inj in Hu as [Hu Hu'], Hv as [Hv Hv']. constructor; [by eapply core_knows|by apply IH].
Qed.

(** The row of a stream takes -1 for a number: one packet too many is lost. *)
Lemma unknown_losses sp : Stream.omitted_cnt_error sp = -1 -> in_i64 (Stream.cnt_error sp + 1) -> net_lost sp = lost_in_sum sp + 1.
Proof. intros H Hr. unfold net_lost, lost_in_sum. rewrite H. cbn. rewrite i64_id by (zlia || by rewrite Z.sub_opp_r). lia. Qed.
(** The packets of a row and of the plain sum are the sender's, but without the
    omitted ones of the end that reports: when packets were lost in the omitted
    time the ends do not agree on them. *)
Example plain_packets_differ :
  let u := demo_stream 1 1 1500 8 <| Stream.omitted_packet_count := 4 |> in
  let v := demo_stream 1 0 1000 7 <| Stream.omitted_packet_count := 3 |> in
  let v' := heard iperf_new_test u v in
  net_packets (heard iperf_new_test v' u) = 4 /\ net_packets v' = 5.
Proof. split; vm_compute; reflexivity. Qed.

(** Directions of the two ends that carry the same data. *)
Definition facing (m m' : Z) : Prop := m * m + m' * m' = 1.
Lemma facing_cases m m' : facing m m' -> m * m = 1 /\ m' * m' = 0 \/ m * m = 0 /\ m' * m' = 1.
Proof. unfold facing. nia. Qed.
Lemma tally_known f m m' lu lv : (forall u v, knows u v -> Stream.sender v = m' * m' -> f u = f v) -> facing m m' -> Forall2 knows lu lv ->
  tally f m lu = tally f m' lv.
Proof.
  intros Hf Hm%facing_cases.
  unfold tally, in_direction. induction 1 as [|u v lu lv Ha _ IH]; [done|].
  destruct (decide (Stream.sender u = m * m)) as [Hu|Hu]; destruct (decide (Stream.sender v = m' * m')) as [Hv|Hv];
    destruct (kn_sender _ _ Ha) as [[]|[]]; try (exfalso; lia).
  1,2: rewrite !filter_cons_True by done; cbn [map foldr]; by rewrite IH, (Hf _ _ Ha).
  all: by rewrite !filter_cons_False by done.
Qed.

(** The sums of a direction: what was sent and what was received in it, without
    a stream also in packets, and what was lost. *)
Definition sent_figures (p : Protocol.protocol) (l : list iperf_stream) (mode : Z) : list (string * Z) :=
  ("bytes", i64 (u64 (tally stream_bytes_sent mode l))) ::
  (if stream_based p then [] else [("packets", i64 (tally net_sent mode l))]).
Definition received_figures (p : Protocol.protocol) (l : list iperf_stream) (mode : Z) : list (string * Z) :=
  ("bytes", i64 (u64 (tally (fun sp => Result.bytes_received (Stream.result sp)) mode l))) ::
  (if stream_based p then [] else [("packets", i64 (tally net_received mode l)); ("lost_packets", i64 (tally lost_in_sum mode l))]).
(** What an end counts itself in a direction, and under which name it shows it. *)
Definition own_sum (test : iperf_test) (mode : Z) : string :=
  sum_name test (mode * mode) (if mode * mode =? 0 then "sum_received" else "sum_sent").
Definition own_figures (p : Protocol.protocol) (l : list iperf_stream) (mode : Z) : list (string * Z) :=
  if mode * mode =? 0 then received_figures p l mode else sent_figures p l mode.

Definition shown_in (l : list (string * cJSON)) (name : string) (f : string * Z) : Prop :=
  figures (String.eqb name) f.1 l = [(name, Some (Z2d f.2))].
Ltac read_figures := unfold figures; cbn [fst snd];
  repeat first [rewrite filter_cons_True by done | rewrite filter_cons_False by done]; cbn [map filter list_filter fst snd].
Lemma total_shown test p l mode fields : is_total test p l mode fields ->
  Forall (shown_in fields (sum_name test (mode * mode) "sum_sent")) (sent_figures p l mode) /\
  Forall (shown_in fields (sum_name test (mode * mode) "sum_received")) (received_figures p l mode).
Proof.
  unfold is_total, sent_figures, received_figures, sum_name, holds.
  destruct (stream_based p);
    [intros (a & b & -> & Ha & Hb)|intros (al & a & b & -> & _ & _ & _ & H1 & H2 & H3 & H4 & H5)];
    destruct (both_ways test && _); split; repeat constructor; unfold shown_in; read_figures; congruence.
Qed.
Lemma total_elsewhere test p l mode other fields name field : both_ways test = true -> facing mode other ->
  name = "sum_sent" \/ name = "sum_received" ->
  is_total test p l mode fields -> figures (String.eqb (sum_name test (other * other) name)) field fields = [].
Proof.
  intros Hb Hm%facing_cases Hn. unfold is_total, sum_name. rewrite Hb. cbn [andb].
  destruct (stream_based p); [intros (a & b & -> & _)|intros (al & a & b & -> & _)];
    destruct Hm as [[-> ->]|[-> ->]], Hn as [-> | ->], (client test); cbn; by read_figures.
Qed.
Lemma figures_app keep field l l' : figures keep field (l ++ l')%list = (figures keep field l ++ figures keep field l')%list.
Proof. unfold figures. by rewrite filter_app, map_app. Qed.
Lemma sums_shown test p l sums mode : Forall2 (is_total test p l) (report_modes test) sums -> mode ∈ report_modes test ->
  Forall (shown_in (concat sums) (sum_name test (mode * mode) "sum_sent")) (sent_figures p l mode) /\
  Forall (shown_in (concat sums) (sum_name test (mode * mode) "sum_received")) (received_figures p l mode).
Proof.
  assert (H2 : forall m1 m2 f1 f2, both_ways test = true -> facing m1 m2 -> is_total test p l m1 f1 -> is_total test p l m2 f2 -> mode = m1 \/ mode = m2 ->
    Forall (shown_in (f1 ++ f2)%list (sum_name test (mode * mode) "sum_sent")) (sent_figures p l mode) /\
    Forall (shown_in (f1 ++ f2)%list (sum_name test (mode * mode) "sum_received")) (received_figures p l mode)).
  { intros m1 m2 f1 f2 Hb Hf T1 T2 Hm. assert (Hf' : facing m2 m1) by (unfold facing in *; lia).
    destruct (total_shown _ _ _ _ _ T1), (total_shown _ _ _ _ _ T2). unfold shown_in.
    destruct Hm as [-> | ->]; (split; (eapply Forall_impl; [eassumption|]); intros f Hs; rewrite figures_app; unfold shown_in in Hs; rewrite Hs).
    1,2: rewrite (total_elsewhere test p l m2 m1 f2); auto.
    all: rewrite (total_elsewhere test p l m1 m2 f1); auto. }
  unfold report_modes. destruct (both_ways test) eqn:Hb.
  - destruct (client test); intros (f1 & ? & T1 & (f2 & ? & T2 & ->%Forall2_nil_inv_l & ->)%Forall2_cons_inv_l & ->)%Forall2_cons_inv_l Hm;
      cbn [concat]; rewrite app_nil_r; [apply (H2 (-1) 0)|apply (H2 0 1)]; try done; set_solver.
  - intros (f1 & ? & T1 & ->%Forall2_nil_inv_l & ->)%Forall2_cons_inv_l ->%list_elem_of_singleton.
    cbn [concat]. rewrite app_nil_r. by apply total_shown.
Qed.

(** An end shows its own figures. *)
Lemma own_shown ts p lv m' ss : Forall2 (is_total ts p lv) (report_modes ts) ss -> m' ∈ report_modes ts ->
  Forall (shown_in (concat ss) (own_sum ts m')) (own_figures p lv m').
Proof.
  intros Hs Hm. destruct (sums_shown _ _ _ _ _ Hs Hm). unfold own_sum, own_figures. by destruct (m' * m' =? 0).
Qed.

Definition matched (tc ts : iperf_test) (m m' : Z) : Prop :=
  m ∈ report_modes tc /\ facing m m' /\ forall name, sum_name tc (m * m) name = sum_name ts (m' * m') name.
Lemma matched_mode tc ts m' : client tc = true -> client ts = false -> both_ways tc = both_ways ts ->
  (both_ways tc = false -> facing (Test.mode tc) (Test.mode ts)) -> m' ∈ report_modes ts -> exists m, matched tc ts m m'.
Proof.
  intros Hc Hs Hb Hm. unfold report_modes at 1, matched, sum_name. unfold report_modes. rewrite Hc, Hs, Hb in *. destruct (both_ways ts).
  - rewrite !elem_of_cons. intros [->|[->|[]%not_elem_of_nil]]; [exists (-1)|exists 0]; split_and!; (set_solver || done).
  - intros ->%list_elem_of_singleton. exists (Test.mode tc). split_and!; [set_solver|by apply Hm|done].
Qed.

Section Agreement.
Context (tc ts : iperf_test) (p : Protocol.protocol) (lu lv : list iperf_stream).
Context (Hknows : Forall2 knows lu lv).

(** The client shows in its direction [m] what the server counted in [m']. *)
Lemma client_shows m m' sc : facing m m' -> (forall name, sum_name tc (m * m) name = sum_name ts (m' * m') name) ->
  Forall2 (is_total tc p lu) (report_modes tc) sc -> m ∈ report_modes tc -> Forall (shown_in (concat sc) (own_sum ts m')) (own_figures p lv m').
Proof.
  intros Hf Hn Hs Hm. destruct (sums_shown _ _ _ _ _ Hs Hm) as [H1 H2]. rewrite Hn in H1, H2. unfold own_sum, own_figures.
  destruct (facing_cases _ _ Hf) as [[E E']|[E E']]; rewrite !E' in *; cbn [Z.eqb].
  - unfold received_figures in *. rewrite (tally_known _ m m' lu lv) in H2; [|intros u v K Hv; apply (kn_received _ _ K); lia|done|done].
    rewrite (tally_known net_received m m' lu lv), (tally_known lost_in_sum m m' lu lv) in H2;
      [done|intros u v K Hv; apply (kn_received _ _ K); lia|done|done|intros u v K Hv; apply (kn_received _ _ K); lia|done|done].
  - unfold sent_figures in *. rewrite (tally_known stream_bytes_sent m m' lu lv), (tally_known net_sent m m' lu lv) in H1;
      [done|intros u v K Hv; apply (kn_sent _ _ K); lia|done|done|intros u v K Hv; apply (kn_sent _ _ K); lia|done|done].
Qed.
End Agreement.

Lemma own_sum_is_sum test mode name : String.eqb (own_sum test mode) name = true -> is_sum_name name = true.
Proof. intros <-%String.eqb_eq. unfold own_sum, sum_name. by destruct (mode * mode =? 0), (both_ways test && _). Qed.

(** The sums of the report are all that it shows of them. *)
Lemma report_figures keep field rows sums closing : (forall name, keep name = true -> is_sum_name name = true) ->
  Forall (fun f => is_sum_name f.1 = false) closing ->
  figures keep field (members (Some (cJSON_Object (("streams", cJSON_Array rows) :: concat sums ++ closing)%list))) = figures keep field (concat sums).
Proof.
  intros Hk Hc. unfold figures, members. rewrite filter_cons_False, filter_app.
  - assert (Hn : filter (fun f => keep f.1 = true) closing = []).
    { induction Hc as [|f l Hf _ IH]; [done|]. rewrite filter_cons_False; [done|]. intros H%Hk. congruence. }
    by rewrite Hn, app_nil_r.
  - intros H%Hk. discriminate H.
Qed.
Lemma report_shows s' test mode f rows sums closing :
  Test.json_end (tst s') = Some (cJSON_Object (("streams", cJSON_Array rows) :: concat sums ++ closing)%list) ->
  Forall (fun f => is_sum_name f.1 = false) closing -> shown_in (concat sums) (own_sum test mode) f -> reports s' (own_sum test mode) f.1 f.2.
Proof. intros Hj Hc Hf. unfold reports. rewrite Hj, report_figures; [exact Hf|apply own_sum_is_sum|exact Hc]. Qed.

(** C14. Both JSON reports show what the server counted.  The server prints its final
    report, before any result is exchanged; then the results go both ways in
    whatever pieces, and the client prints its report.  In every direction of
    the test both reports have one sum under the name of what the server did
    there, sending or receiving, and it has the same bytes in both, for UDP the
    same packets and, where the server received, the same losses: the sums of
    what the server counted itself. *)
Theorem final_reports_agree (sr s s1 s2 c c1 c2 cr : prog) (p : Protocol.protocol) (rest rest' : list reply) :
  map core_stream (Test.streams (tst sr)) = map core_stream (Test.streams (tst s)) ->
  crosses c c1 s rest -> get_results s = Some (0, s1) -> crosses s1 s2 c1 rest' -> get_results c1 = Some (0, c2) ->
  map core_stream (Test.streams (tst c2)) = map core_stream (Test.streams (tst cr)) ->
  map Stream.id (Test.streams (tst c)) = map Stream.id (Test.streams (tst s)) -> NoDup (map Stream.id (Test.streams (tst s))) ->
  Forall2 opposite (Test.streams (tst c)) (Test.streams (tst s)) -> Test.streams (tst c) <> [] ->
  printable (tst cr) -> printable (tst sr) -> Test.protocol (tst cr) = Some p -> Test.protocol (tst sr) = Some p ->
  Test.json_end (tst cr) = Some cJSON_CreateObject -> Test.json_end (tst sr) = Some cJSON_CreateObject ->
  client (tst cr) = true -> client (tst sr) = false -> both_ways (tst cr) = both_ways (tst sr) ->
  (both_ways (tst cr) = false -> facing (Test.mode (tst cr)) (Test.mode (tst sr))) ->
  exists sr' cr', iperf_print_results sr = Some (tt, sr') /\ iperf_print_results cr = Some (tt, cr') /\
    forall mode, mode ∈ report_modes (tst sr) ->
      Forall (fun f => reports sr' (own_sum (tst sr) mode) f.1 f.2 /\ reports cr' (own_sum (tst sr) mode) f.1 f.2)
        (own_figures p (Test.streams (tst sr)) mode).
Proof.
  intros Hsr Hx Hg1 Hx' Hg2 Hcr Hids Hnd Hopp Hne Pc Ps Ec Es Jc Js Rc Rs Hb Hm.
  destruct (results_arrive _ _ _ _ Hx Hids Hnd) as (_ & T1 & s1' & G1 & S1 & _). rewrite Hg1 in G1. injection G1 as <-.
  assert (Hids1 : map Stream.id (Test.streams (tst s1)) = map Stream.id (Test.streams (tst c))).
  { rewrite S1, Hids. clear -Hopp. induction Hopp as [|u v lu lv _ _ IH]; [done|]. cbn. by rewrite heard_id, IH. }
  destruct (results_arrive _ _ _ _ Hx') as (_ & T2 & c2' & G2 & S2 & _); [by rewrite T1|by rewrite T1, Hids|].
  rewrite Hg2 in G2. injection G2 as <-.
  assert (Hk : Forall2 knows (Test.streams (tst cr)) (Test.streams (tst sr))).
  { eapply core_all_knows; [exact Hcr|symmetry; exact Hsr|]. rewrite S2, T1, S1. clear -Hopp.
    induction Hopp; cbn; constructor; [by apply heard_knows|done]. }
  assert (Hnec : Test.streams (tst cr) <> []).
  { intros E. rewrite E, S2, T1, S1 in Hcr. destruct Hopp; [done|discriminate Hcr]. }
  assert (Hnes : Test.streams (tst sr) <> []) by (intros E; rewrite E in Hk; by apply Forall2_nil_inv_r in Hk).
  destruct (summary_written cr p [] Pc Hnec Ec Jc) as (cr' & rc & sc & kc & Hpc & _ & Jc' & _ & Tc & Nc).
  destruct (summary_written sr p [] Ps Hnes Es Js) as (sr' & rs & ss & ks & Hps & _ & Js' & _ & Ts & Ns).
  exists sr', cr'. split; [done|]. split; [done|]. intros mode Hin.
  destruct (matched_mode (tst cr) (tst sr) mode Rc Rs Hb Hm Hin) as (m & Hm1 & Hm2 & Hm3).
  pose proof (own_shown _ _ _ _ _ Ts Hin) as H1. pose proof (client_shows _ _ _ _ _ Hk m mode sc Hm2 Hm3 Tc Hm1) as H2.
  rewrite Forall_forall in H1, H2 |- *. intros f Hf. split; eapply report_shows; eauto.
Qed.

(** A client and a server after a test in both directions. *)
Definition two_ways (role : ascii) (one two : iperf_stream) : iperf_test :=
  demo_side role one two <| Test.mode := BIDIRECTIONAL |> <| Test.streams ::= map (fun sp => sp <| Stream.diskfile_fd := -1 |>) |>
    <| Test.cpu_util := replicate 3 dzero |>.
Definition text_of (t : iperf_test) : string := default "" (cJSON_PrintUnformatted (results t)).
Definition arriving (txt : string) : list reply :=
  (Reply 1 0 [] [] :: feed [(take 4 (message txt), (7, 0))] ++ Reply 1 0 [] [] :: feed [(drop 4 (message txt), (9, 0))])%list.
Definition leaving (txt : string) : list reply := [Reply 4 0 [] []; Reply (Z.of_nat (String.length txt)) 0 [] []].
Definition client_side : iperf_test := Eval vm_compute in two_ways "c" (demo_stream 1 1 1500 8) (demo_stream 3 0 1900 8).
Definition server_side : iperf_test := Eval vm_compute in two_ways "s" (demo_stream 1 0 1000 7) (demo_stream 3 1 2000 9).
Definition on_script (t : iperf_test) (l : list reply) : prog := Prog t (TS ∅ None None) (World l [] 0 0 0).
Definition after {A} (m : P A) (s : prog) : prog := match m s with Some (_, s') => s' | None => s end.
(** The server's report, which the client has not seen yet. *)
Definition server_heard : iperf_test := Eval vm_compute in tst (after get_results (on_script server_side (arriving (text_of client_side)))).
Definition ends_client : prog := on_script client_side (leaving (text_of client_side) ++ arriving (text_of server_heard)).
Definition ends_server : prog := on_script server_side (arriving (text_of client_side) ++ leaving (text_of server_heard)).
Definition reporting (s : prog) : prog :=
  s <| tst ::= fun t => t <| Test.json_output := 1 |> <| Test.json_end := Some cJSON_CreateObject |> <| Test.protocol := Some udp_protocol |> |>.
Lemma two_ways_ok : results_ok client_side /\ results_ok server_heard.
Proof.
  split; constructor; try done; repeat constructor; try (vm_compute; congruence); vm_compute; reflexivity.
Qed.
Definition client_told : prog := after send_results ends_client.
Definition server_knows : prog := after get_results ends_server.
Definition server_told : prog := after send_results server_knows.
Definition client_knows : prog := after get_results client_told.
Lemma final_reports_agree_witness :
  exists sr' cr', iperf_print_results (reporting ends_server) = Some (tt, sr') /\ iperf_print_results (reporting client_knows) = Some (tt, cr') /\
    forall mode, mode ∈ report_modes (tst (reporting ends_server)) ->
      Forall (fun f => reports sr' (own_sum (tst (reporting ends_server)) mode) f.1 f.2 /\ reports cr' (own_sum (tst (reporting ends_server)) mode) f.1 f.2)
        (own_figures udp_protocol (Test.streams (tst (reporting ends_server))) mode).
Proof.
  apply (final_reports_agree (reporting ends_server) ends_server server_knows server_told ends_client client_told client_knows
    (reporting client_knows) udp_protocol (leaving (text_of server_heard)) []).
  - vm_compute. reflexivity.
  - constructor.
    + exact (proj1 two_ways_ok).
    + exists (text_of client_side). split; [vm_compute; reflexivity|vm_compute; reflexivity].
    + exists 0. vm_compute. reflexivity.
    + apply (bool_decide_unpack _). vm_compute. exact I.
    + apply (bool_decide_unpack _). vm_compute. exact I.
    + exists 7, [(take 4 (message (text_of client_side)), (7, 0))], [(drop 4 (message (text_of client_side)), (9, 0))].
      split_and!; [vm_compute; reflexivity..| |lia|lia| |vm_compute; reflexivity].
      * repeat constructor; vm_compute; congruence.
      * apply (bool_decide_unpack _); vm_compute; exact I.
  - vm_compute. reflexivity.
  - constructor.
    + assert (E : tst server_knows = server_heard) by (vm_compute; reflexivity). rewrite E. exact (proj2 two_ways_ok).
    + exists (text_of server_heard). split; [vm_compute; reflexivity|vm_compute; reflexivity].
    + exists 0. vm_compute. reflexivity.
    + apply (bool_decide_unpack _). vm_compute. exact I.
    + apply (bool_decide_unpack _). vm_compute. exact I.
    + exists 7, [(take 4 (message (text_of server_heard)), (7, 0))], [(drop 4 (message (text_of server_heard)), (9, 0))].
      split_and!; [vm_compute; reflexivity..| |lia|lia| |vm_compute; reflexivity].
      * repeat constructor; vm_compute; congruence.
      * apply (bool_decide_unpack _); vm_compute; exact I.
  - vm_compute. reflexivity.
  - vm_compute. reflexivity.
  - vm_compute. reflexivity.
  - apply (bool_decide_unpack _). vm_compute. exact I.
  - constructor; [left; by split_and!|constructor; [right; by split_and!|constructor]].
  - vm_compute. discriminate.
  - constructor; [vm_compute; reflexivity..| |split; vm_compute; reflexivity].
    apply (bool_decide_unpack _). vm_compute. exact I.
  - constructor; [vm_compute; reflexivity..| |split; vm_compute; reflexivity].
    apply (bool_decide_unpack _). vm_compute. exact I.
  - vm_compute. reflexivity.
  - vm_compute. reflexivity.
  - vm_compute. reflexivity.
  - vm_compute. reflexivity.
  - vm_compute. reflexivity.
  - vm_compute. reflexivity.
  - vm_compute. reflexivity.
  - vm_compute. discriminate.
Defined.
