(* ===== verification/Session.v ===== *)
(** * Sessions of the server

    How a test begins on the server, when a client is accepted and when all
    streams are there, and what is left when it has been cleaned up. *)
From Stdlib Require Import Ascii String.
From stdpp Require Import strings.
From S2P Require Import Prelude Double IperfTime Timer Text Cjson Iperf Error Sys Net Json Util Api Frame Destroy Params Printf Output Results Stats Sockets Streams Report Control Client Server Wire State.
#[local] Open Scope string_scope.
#[local] Open Scope Z_scope.

Lemma sys_inv c w r w' : sys c w = Some (r, w') ->
  script w = r :: script w' /\ trace w' = (trace w ++ [(c, r)])%list.
Proof. unfold sys. destruct (script w) as [|x rest]; [done|]. intros [= <- <-]. done. Qed.

(** C8. A server that accepts a connection and has no client takes it as the
    control connection and on it does exactly this: it reads the whole cookie,
    asks for the parameters, reads them and asks for the streams.  A server that
    has a client keeps it: it tells the new one that access is denied, closes
    that connection and is as it was. *)
Theorem iperf_accept_protocol (s s' : prog) (r : Z) :
  iperf_accept s = Some (r, s') -> 0 <= r -> client (tst s) = false ->
  exists rp w, sys (Caccept (Test.listener (tst s))) (os s) = Some (rp, w) /\ 0 <= ret rp /\
    if Test.ctrl_sck (tst s) =? -1 then
      sends (Prog (tst s <| Test.ctrl_sck := ret rp |>) (tmr s) w) (Await Cookie :: server_accepts) s' /\
      ctl (tst s') = (CREATE_STREAMS, (ret rp, Test.role (tst s)))
    else exists n w1 rc, Nwrite (ret rp) [u8 ACCESS_DENIED] Ptcp w = Some (n, w1) /\
      sys (Cclose (ret rp)) w1 = Some (rc, os s') /\ tst s' = tst s /\ tmr s' = tmr s.
Proof.
  intros H Hr Hc. unfold iperf_accept in H. pstep H. pstep H. apply do_os_inv in E as (Et & Etm & E).
  exists x, (os st). split; [exact E|].
  destruct (Z.ltb_spec (ret x) 0); [exfalso; follow H; injection H as <- _; lia|]. split; [done|].
  destruct (Test.ctrl_sck (tst s) =? -1).
  - pstep H. pstep H. set (s1 := st <| tst ::= _ |>) in E0.
    destruct (x0 <? 0) eqn:Hx; [pstep H; injection H as <- _; lia|]. injection H as _ <-.
    replace (Prog _ _ _) with s1 by (subst s1; destruct st; cbn in *; by rewrite Et, Etm).
    assert (Hsends : sends s1 (Await Cookie :: server_accepts) st0).
    { apply (greet_sends s1 x0 st0); [unfold client in *; cbn; by rewrite Et|exact E0|lia]. }
    split; [exact Hsends|]. rewrite (sends_state _ _ _ Hsends) by (cbn; lia). unfold conn. cbn. by rewrite Et.
  - pstep H. apply do_os_inv in E0 as (Et1 & Etm1 & E0). pstep H. apply do_os_inv in E1 as (Et2 & Etm2 & E1).
    injection H as _ <-. exists x0, (os st0), x1. split_and!; [exact E0|exact E1|congruence|congruence].
Qed.
Definition arriving : prog := serving IPERF_START
  ([wrote 5; ok; wrote 1] ++ feed [(cookie_bytes "abcdefghijklmnopqrstuvwxyz0123456789", (7, 0))] ++ [wrote 1] ++ incoming demo_text ++
   Reply 0 0 [] [1000] :: Reply 0 0 [] [1000] :: wrote 1 :: repeat ok 5)%list
    <| tst ::= fun t => t <| Test.ctrl_sck := -1 |> <| Test.listener := 3 |> |>.
Lemma iperf_accept_protocol_witness :
  exists s', iperf_accept arriving = Some (0, s') /\
  exists rp w, sys (Caccept (Test.listener (tst arriving))) (os arriving) = Some (rp, w) /\ 0 <= ret rp /\
    if Test.ctrl_sck (tst arriving) =? -1 then
      sends (Prog (tst arriving <| Test.ctrl_sck := ret rp |>) (tmr arriving) w) (Await Cookie :: server_accepts) s' /\
      ctl (tst s') = (CREATE_STREAMS, (ret rp, Test.role (tst arriving)))
    else exists n w1 rc, Nwrite (ret rp) [u8 ACCESS_DENIED] Ptcp w = Some (n, w1) /\
      sys (Cclose (ret rp)) w1 = Some (rc, os s') /\ tst s' = tst arriving /\ tmr s' = tmr arriving.
Proof.
  eexists. split; [vm_compute; reflexivity|].
  apply (iperf_accept_protocol arriving _ 0); [vm_compute; reflexivity|lia|reflexivity].
Defined.

(** ** Cleaning up *)

(** The calls made from [s] to [s'], whatever the answers were, but for the
    texts of error numbers. *)
Definition asked (l : list call) : list call := List.filter (fun c => match c with Cstrerror _ _ => false | _ => true end) l.
Definition made (s s' : prog) (cs : list call) : Prop := asked (trace (os s')).*1 = (asked (trace (os s)).*1 ++ cs)%list.
Lemma made_trans s s1 s' cs1 cs2 : made s s1 cs1 -> made s1 s' cs2 -> made s s' (cs1 ++ cs2)%list.
Proof. unfold made. intros H1 H2. by rewrite H2, H1, app_assoc. Qed.
Lemma made_none s s' : os s' = os s -> made s s' [].
Proof. unfold made. intros ->. by rewrite app_nil_r. Qed.

Lemma does_call c s x s' : do_os (sys c) s = Some (x, s') ->
  tst s' = tst s /\ made s s' (asked [c]) /\ i_errno (os s') = i_errno (os s).
Proof.
  intros H. apply do_os_inv in H as (-> & _ & H). split; [done|]. split.
  - apply sys_inv in H as [_ H]. unfold made, asked. by rewrite H, fmap_app, List.filter_app.
  - unfold sys in H. destruct (script (os s)) as [|r rest]; [done|]. by injection H as _ <-.
Qed.
Lemma does_cancel get clear s s' : cancel_timer get clear s = Some (tt, s') ->
  tst s' = match get (tst s) with Some _ => clear (tst s) | None => tst s end /\ os s' = os s.
Proof.
  intros H. unfold cancel_timer in H. pstep H. destruct (get (tst s)); [|by injection H as <-].
  pstep H. injection H as <-. unfold do_tmr, lift in E. destruct (tmr_cancel _ _); [|done]. by injection E as _ <-.
Qed.
Lemma does_close get clear s s' : close_socket get clear s = Some (tt, s') ->
  tst s' = (if -1 <? get (tst s) then clear (tst s) else tst s) /\
  made s s' (if -1 <? get (tst s)%Z then [Cclose (get (tst s))] else []) /\ i_errno (os s') = i_errno (os s).
Proof.
  intros H. unfold close_socket in H. pstep H. unfold when in H. destruct (_ <? _); [|injection H as <-; split_and!; [done|by apply made_none|done]].
  pstep H. apply does_call in E as (Et & Ec & Ei). injection H as <-. cbn. by rewrite Et.
Qed.

(** The calls that end a thread, and the stream without it. *)
Definition kill_calls (sp : iperf_stream) : list call :=
  if Stream.thread_created sp =? 1 then [Cpthread_cancel (Stream.id sp); Cpthread_join (Stream.id sp)] else [].
Definition killed (sp : iperf_stream) : iperf_stream :=
  sp <| Stream.done := 1 |> <| Stream.thread_created ::= fun c => if c =? 1 then 0 else c |>.
Lemma alter_middle {A} (f : A -> A) (l1 l2 : list A) x : alter f (length l1) (l1 ++ x :: l2)%list = (l1 ++ f x :: l2)%list.
Proof. rewrite <-(Nat.add_0_r (length l1)). by rewrite alter_app_r. Qed.
Definition with_streams (l : list iperf_stream) (t : iperf_test) : iperf_test := t <| Test.streams := l |>.
Lemma with_streams_id t : with_streams (Test.streams t) t = t.
Proof. by destruct t. Qed.
Lemma does_set_stream pre sp l f s s' : Test.streams (tst s) = (pre ++ sp :: l)%list ->
  set_stream (length pre) f s = Some (tt, s') -> tst s' = with_streams (pre ++ f sp :: l) (tst s) /\ os s' = os s.
Proof.
  intros Hl H. unfold set_stream in H. injection H as <-. split; [|done].
  change (with_streams (alter f (length pre) (Test.streams (tst s))) (tst s) = with_streams (pre ++ f sp :: l) (tst s)).
  by rewrite Hl, alter_middle.
Qed.
(** The errors that end up in a JSON report. *)
Definition with_errors (errors : list string) (t : iperf_test) : iperf_test := fold_left (fun t e => add_error e t) errors t.
Lemma with_errors_app es1 es2 t : with_errors (es1 ++ es2) t = with_errors es2 (with_errors es1 t).
Proof. apply fold_left_app. Qed.
Lemma with_errors_streams es : forall l t, with_errors es (with_streams l t) = with_streams l (with_errors es t).
Proof.
  induction es as [|e es IH]; intros l t; [done|]. cbn [with_errors fold_left]. unfold with_errors in IH. rewrite <-IH.
  f_equal. unfold add_error. change (Test.json_output (with_streams l t)) with (Test.json_output t). by destruct (nonzero _).
Qed.
Lemma errors_same {A} (f : iperf_test -> A) es : (forall x t, f (t <| Test.json_top := x |>) = f t) -> forall t, f (with_errors es t) = f t.
Proof.
  intros Hf. induction es as [|e es IH]; intros t; [done|]. cbn [with_errors fold_left]. unfold with_errors in IH. rewrite IH.
  unfold add_error. destruct (nonzero _); [|done]. unfold add_top. exact (Hf _ t).
Qed.

Lemma does_report_failure b e x message s s' :
  when b (fail_with e ;; do_os (set_errno x) ;; iperf_err_errno message) s = Some (tt, s') ->
  exists errors, tst s' = with_errors errors (tst s) /\ made s s' [].
Proof.
  unfold when. destruct b; intros H; [|injection H as <-; exists []; split; [done|by apply made_none]].
  pstep H. injection E as <- <-. pstep H. injection E as <- <-. unfold iperf_err_errno in H. pstep H. injection H as <-.
  unfold error_text in E. do 3 pstep E. injection E0 as <- <-. injection E1 as <- <-. injection E2 as <- <-.
  pstep E. apply does_call in E0 as (Et & M & _). destruct (iperf_strerror _ _ _ _ _) as [str g]. pstep E. injection E0 as <- <-. injection E as <- <-.
  exists [message ++ str]. split; [cbn [tst modify_field prog_eta eta_of]; by rewrite Et|exact M].
Qed.
Lemma does_kill_thread caller pre sp sp1 l s s' : Test.streams (tst s) = (pre ++ sp1 :: l)%list ->
  kill_thread caller (length pre) sp s = Some (tt, s') ->
  exists errors, tst s' = with_streams (pre ++ (sp1 <| Stream.thread_created := 0 |>) :: l) (with_errors errors (tst s)) /\
  made s s' [Cpthread_cancel (Stream.id sp); Cpthread_join (Stream.id sp)].
Proof.
  intros Hl H. unfold kill_thread in H.
  pstep H. apply does_call in E as (E1 & M1 & _). pstep H. destruct x0. apply does_report_failure in E as (es1 & E2 & M2).
  pstep H. apply does_call in E as (E3 & M3 & _). pstep H. destruct x1. apply does_report_failure in E as (es2 & E4 & M4).
  assert (Et : tst st2 = with_errors (es1 ++ es2) (tst s)) by (rewrite with_errors_app; congruence).
  exists (es1 ++ es2)%list. rewrite <-Et. rewrite <-(errors_same Test.streams (es1 ++ es2)), <-Et in Hl by done.
  destruct (does_set_stream _ _ _ _ _ _ Hl H) as [-> Eo]. split; [done|].
  assert (M : made s st2 [Cpthread_cancel (Stream.id sp); Cpthread_join (Stream.id sp)]).
  { apply (made_trans _ _ _ [Cpthread_cancel (Stream.id sp)] [Cpthread_join (Stream.id sp)] M1).
    apply (made_trans _ _ _ [] [_] M2). apply (made_trans _ _ _ [_] [] M3 M4). }
  unfold made. by rewrite Eo.
Qed.

Lemma does_kill_loop caller l : forall pre s s', Test.streams (tst s) = (pre ++ l)%list ->
  kill_loop caller (fun _ => true) (length pre) l s = Some (tt, s') ->
  exists errors, tst s' = with_streams (pre ++ map killed l) (with_errors errors (tst s)) /\ made s s' (flat_map kill_calls l).
Proof.
  induction l as [|sp l IH]; intros pre s s' Hl H; cbn [kill_loop map flat_map] in *.
  { injection H as <-. exists []. rewrite <-Hl, with_streams_id. split; [done|]. by apply made_none. }
  pstep H. destruct x. unfold when in E. pstep E. destruct x.
  destruct (does_set_stream _ _ _ _ _ _ Hl E0) as [E1 O1].
  assert (Hk : exists errors, tst st = with_streams (pre ++ killed sp :: l) (with_errors errors (tst s)) /\ made s st (kill_calls sp)).
  { unfold kill_calls. destruct (Stream.thread_created sp =? 1) eqn:Ht.
    - assert (killed sp = sp <| Stream.done := 1 |> <| Stream.thread_created := 0 |>) as ->.
      { unfold killed. destruct sp; cbn in *. by rewrite Ht. }
      assert (Hl1 : Test.streams (tst st0) = (pre ++ (sp <| Stream.done := 1 |>) :: l)%list) by (by rewrite E1).
      destruct (does_kill_thread _ _ _ _ _ _ _ Hl1 E) as (es & -> & M). exists es. rewrite E1, with_errors_streams. split; [done|].
      exact (made_trans _ _ _ [] _ (made_none _ _ O1) M).
    - assert (killed sp = sp <| Stream.done := 1 |>) as ->.
      { unfold killed. destruct sp; cbn in *. by rewrite Ht. }
      injection E as <-. exists []. split; [done|by apply made_none]. }
  destruct Hk as (es1 & Ek & Mk).
  assert (Hl2 : Test.streams (tst st) = ((pre ++ [killed sp]) ++ l)%list) by (by rewrite Ek, <-app_assoc).
  destruct (IH (pre ++ [killed sp])%list st s' Hl2) as (es2 & -> & M).
  { rewrite length_app, Nat.add_comm. exact H. }
  exists (es1 ++ es2)%list. rewrite Ek, with_errors_streams, <-with_errors_app, <-app_assoc. split; [done|]. by eapply made_trans.
Qed.

(** Ending the threads leaves the error of the test as it was. *)
Lemma does_kill caller s s' : kill_threads caller (fun _ => true) s = Some (tt, s') ->
  exists errors, tst s' = with_streams (map killed (Test.streams (tst s))) (with_errors errors (tst s)) /\
  made s s' (flat_map kill_calls (Test.streams (tst s))) /\ i_errno (os s') = i_errno (os s).
Proof.
  intros H. unfold kill_threads in H. pstep H. injection E as <- <-. cbn [tst os modify_field prog_eta eta_of] in *.
  pstep H. pstep H. destruct x. destruct (does_kill_loop _ _ [] _ _ eq_refl E) as (es & Et & M). injection H as <-. exists es. done.
Qed.

(** The sockets of the streams. *)
Definition is_open (f : fd) : bool := -1 <? f.
Definition shut (sp : iperf_stream) : iperf_stream := sp <| Stream.socket ::= fun f => if is_open f then -1 else f |>.
Definition sockets_of (l : list iperf_stream) : list fd := flat_map (fun sp => if is_open (Stream.socket sp) then [Stream.socket sp] else []) l.
Definition unwatch_all (l : list fd) (t : iperf_test) : iperf_test := fold_left (fun t f => unwatch f t) l t.

Lemma unwatch_streams f l t : unwatch f (with_streams l t) = with_streams l (unwatch f t).
Proof. done. Qed.
Lemma unwatch_all_streams fs : forall l t, unwatch_all fs (with_streams l t) = with_streams l (unwatch_all fs t).
Proof. induction fs as [|f fs IH]; intros l t; [done|]. apply (IH l (unwatch f t)). Qed.

Lemma does_close_open l : forall pre s s', Test.streams (tst s) = (pre ++ l)%list ->
  close_open_streams (length pre) l s = Some (tt, s') ->
  tst s' = with_streams (pre ++ map shut l) (unwatch_all (sockets_of l) (tst s)) /\ made s s' (map Cclose (sockets_of l)) /\
  i_errno (os s') = i_errno (os s).
Proof.
  induction l as [|sp l IH]; intros pre s s' Hl H; cbn [close_open_streams map] in *.
  { injection H as <-. cbn. rewrite <-Hl, with_streams_id.
    split_and!; [done|by apply made_none|done]. }
  pstep H. destruct x. unfold when in E.
  assert (Hk : tst st = with_streams (pre ++ shut sp :: l) (unwatch_all (sockets_of [sp]) (tst s)) /\
               made s st (map Cclose (sockets_of [sp])) /\ i_errno (os st) = i_errno (os s)).
  { unfold sockets_of. cbn [flat_map]. rewrite app_nil_r. fold (is_open (Stream.socket sp)) in E. destruct (is_open (Stream.socket sp)) eqn:Ho.
    - assert (shut sp = sp <| Stream.socket := -1 |>) as ->.
      { unfold shut. destruct sp; cbn in *. by rewrite Ho. }
      pstep E. pstep E. apply does_call in E0 as (E0 & M0 & I0).
      assert (Hl1 : Test.streams (tst st0) = (pre ++ sp :: l)%list) by (by rewrite E0).
      destruct (does_set_stream _ _ _ _ _ _ Hl1 E) as [E1 O1]. rewrite E1, E0. cbn [unwatch_all fold_left map].
      split_and!; [done|unfold made; by rewrite O1|by rewrite O1].
    - assert (shut sp = sp) as -> by (unfold shut; destruct sp; cbn in *; by rewrite Ho).
      injection E as <-. rewrite <-Hl. cbn [unwatch_all fold_left map]. rewrite with_streams_id. split_and!; [done|by apply made_none|done]. }
  destruct Hk as (Ek & Mk & Ik).
  assert (Hl2 : Test.streams (tst st) = ((pre ++ [shut sp]) ++ l)%list) by (by rewrite Ek, <-app_assoc).
  destruct (IH (pre ++ [shut sp])%list st s' Hl2) as (-> & M & I).
  { rewrite length_app, Nat.add_comm. exact H. }
  assert (Hs : sockets_of (sp :: l) = (sockets_of [sp] ++ sockets_of l)%list).
  { unfold sockets_of. cbn [flat_map]. by rewrite app_nil_r. }
  rewrite Ek, <-app_assoc, Hs, unwatch_all_streams. unfold unwatch_all. rewrite fold_left_app, map_app.
  split_and!; [done|by eapply made_trans|congruence].
Qed.

(** The sockets of the test itself. *)
Definition test_sockets (t : iperf_test) : list fd :=
  List.filter is_open [Test.ctrl_sck t; Test.listener t; Test.prot_listener t].
Definition down (f : fd) : fd := if is_open f then -1 else f.
Definition without_sockets (t : iperf_test) : iperf_test :=
  t <| Test.ctrl_sck ::= down |> <| Test.listener ::= down |> <| Test.prot_listener ::= down |>.
Lemma does_close_socket get clear (put : Z -> iperf_test -> iperf_test) s s' :
  (forall t, clear t = put (-1) t) -> (forall t, put (get t) t = t) ->
  close_socket get clear s = Some (tt, s') ->
  tst s' = put (down (get (tst s))) (tst s) /\ made s s' (map Cclose (List.filter is_open [get (tst s)])) /\ i_errno (os s') = i_errno (os s).
Proof.
  intros Hc Hp H. apply does_close in H as (-> & M & I). unfold down, made. cbn [List.filter]. fold (is_open (get (tst s))) in *.
  destruct (is_open _); [by rewrite Hc|]. by rewrite Hp.
Qed.
Lemma does_close_test s s' : close_test_sockets s = Some (tt, s') ->
  tst s' = without_sockets (tst s) /\ made s s' (map Cclose (test_sockets (tst s))) /\ i_errno (os s') = i_errno (os s).
Proof.
  intros H. unfold close_test_sockets in H. pstep H. destruct x.
  apply (does_close_socket _ _ (fun f t => t <| Test.ctrl_sck := f |>)) in E as (E1 & M1 & I1); [|done|by intros []].
  pstep H. destruct x. apply (does_close_socket _ _ (fun f t => t <| Test.listener := f |>)) in E as (E2 & M2 & I2); [|done|by intros []].
  apply (does_close_socket _ _ (fun f t => t <| Test.prot_listener := f |>)) in H as (E3 & M3 & I3); [|done|by intros []].
  rewrite E3, E2, E1. split_and!; [done| |congruence].
  assert (Hs : test_sockets (tst s) = (List.filter is_open [Test.ctrl_sck (tst s)] ++ List.filter is_open [Test.listener (tst s)] ++
                                       List.filter is_open [Test.prot_listener (tst s)])%list).
  { unfold test_sockets. cbn [List.filter]. by destruct (is_open _), (is_open _), (is_open _). }
  rewrite Hs, !map_app. rewrite E2, E1 in M3. rewrite E1 in M2.
  exact (made_trans _ _ _ _ _ M1 (made_trans _ _ _ _ _ M2 M3)).
Qed.

(** What is left of a test. *)
Definition without_timers (t : iperf_test) : iperf_test :=
  set_timer None (set_omit_timer None (set_reporter_timer None (set_stats_timer None t))).
Definition released (t : iperf_test) : iperf_test :=
  without_timers (without_sockets
    (with_streams (map (fun sp => shut (killed sp)) (Test.streams t)) (unwatch_all (sockets_of (Test.streams t)) t))
      <| Test.congestion_used := None |>).

Lemma cancel_clears get set s s' : (forall o t, get (set o t) = o) -> (forall t, set (get t) t = t) ->
  cancel_timer get (set None) s = Some (tt, s') -> tst s' = set None (tst s) /\ os s' = os s.
Proof.
  intros Hg Hs H. apply does_cancel in H as [-> Ho]. split; [|done]. destruct (get (tst s)) eqn:E; [done|].
  rewrite <-E at 1. by rewrite Hs.
Qed.
Lemma sockets_of_killed l : sockets_of (map killed l) = sockets_of l.
Proof. induction l as [|sp l IH]; [done|]. unfold sockets_of in *. cbn [map flat_map]. by rewrite IH. Qed.
Lemma sockets_of_shut l : sockets_of (map (fun sp => shut (killed sp)) l) = [].
Proof.
  induction l as [|sp l IH]; [done|]. unfold sockets_of in *. cbn [map flat_map]. rewrite IH, app_nil_r.
  assert (is_open (Stream.socket (shut (killed sp))) = false) as ->; [|done].
  unfold shut, killed. cbn. by destruct (is_open (Stream.socket sp)) eqn:E.
Qed.
Lemma is_open_down f : is_open (down f) = false.
Proof. unfold down. by destruct (is_open f) eqn:E. Qed.
Lemma with_streams_twice l l' t : with_streams l (with_streams l' t) = with_streams l t.
Proof. done. Qed.
Lemma test_sockets_unwatch l : forall t, test_sockets (unwatch_all l t) = test_sockets t.
Proof. induction l as [|f l IH]; intros t; [done|]. apply (IH (unwatch f t)). Qed.

(** The four timers of a test. *)
Definition test_timers (t : iperf_test) : list loc :=
  (maybe (Test.stats_timer t) ++ maybe (Test.reporter_timer t) ++ maybe (Test.omit_timer t) ++ maybe (Test.timer t))%list.
Lemma cancel_frees get clear s s' ts free rest : cancel_timer get clear s = Some (tt, s') ->
  timers_repr (tmr s) ts free -> NoDup (maybe (get (tst s)) ++ rest)%list -> (maybe (get (tst s)) ++ rest)%list ⊆ ts.*1 ->
  exists free', timers_repr (tmr s') (without (maybe (get (tst s))) ts) free' /\ NoDup rest /\ rest ⊆ (without (maybe (get (tst s))) ts).*1.
Proof.
  intros H Hr Hd Hin. unfold cancel_timer in H. pstep H. destruct (get (tst s)) as [l|]; [|injection H as <-; by exists free].
  pstep H. injection H as <-. assert (l ∈ ts.*1) as ([l' d] & -> & Hx)%list_elem_of_fmap by set_solver.
  destruct (cancel_repr _ _ _ _ _ Hr Hx) as (st' & Hc & Hr'). unfold do_tmr, lift in E. cbn [fst] in *. rewrite Hc in E. injection E as _ <-.
  exists (l' :: free). apply NoDup_cons in Hd as [Hn Hd]. split_and!; [exact Hr'|exact Hd|]. intros l Hl.
  assert (l ∈ ts.*1) as ([l1 d1] & -> & Hx1)%list_elem_of_fmap by set_solver. apply list_elem_of_fmap. exists (l1, d1). split; [done|].
  apply without_elem. split; [done|]. cbn in *. set_solver.
Qed.
Definition cancel_all : P unit :=
  cancel_timer Test.stats_timer (set_stats_timer None) ;;
  cancel_timer Test.reporter_timer (set_reporter_timer None) ;;
  cancel_timer Test.omit_timer (set_omit_timer None) ;;
  upd (fun t => t <| Test.congestion_used := None |>) ;;
  cancel_timer Test.timer (set_timer None).
Lemma cancels_clear s s' : cancel_all s = Some (tt, s') ->
  tst s' = without_timers (tst s) <| Test.congestion_used := None |> /\ os s' = os s.
Proof.
  intros H. unfold cancel_all in H. do 3 (pstep H; destruct x; apply cancel_clears in E as [? ?]; [|done|by intros []]). pstep H.
  match type of H with _ ?x = _ => set (s5 := x) in H end.
  assert (Ht : tst s5 = tst st1 <| Test.congestion_used := None |>) by reflexivity.
  assert (Ho : os s5 = os st1) by reflexivity. clearbody s5.
  apply cancel_clears in H as [-> ->]; [|done|by intros []]. split; [|congruence]. rewrite Ht, H4, H2, H0. generalize (tst s). intros []. vm_compute. reflexivity.
Qed.
Lemma cancels_frees s s' : cancel_all s = Some (tt, s') -> forall ts free,
  timers_repr (tmr s) ts free -> NoDup (test_timers (tst s)) -> test_timers (tst s) ⊆ ts.*1 ->
  exists free', timers_repr (tmr s') (without (test_timers (tst s)) ts) free'.
Proof.
  intros H ts free Hr Hd Hin. unfold cancel_all in H. unfold test_timers in *.
  pstep H. destruct x. destruct (cancel_frees _ _ _ _ _ _ _ E Hr Hd Hin) as (f1 & R1 & D1 & N1). rewrite without_app.
  apply cancel_clears in E as [K _]; [|done|by intros []].
  replace (Test.reporter_timer (tst s)) with (Test.reporter_timer (tst st)) in * by exact (f_equal Test.reporter_timer K).
  replace (Test.omit_timer (tst s)) with (Test.omit_timer (tst st)) in * by exact (f_equal Test.omit_timer K).
  replace (Test.timer (tst s)) with (Test.timer (tst st)) in * by exact (f_equal Test.timer K). clear K.
  pstep H. destruct x. destruct (cancel_frees _ _ _ _ _ _ _ E R1 D1 N1) as (f2 & R2 & D2 & N2). rewrite without_app.
  apply cancel_clears in E as [K _]; [|done|by intros []].
  replace (Test.omit_timer (tst st)) with (Test.omit_timer (tst st0)) in * by exact (f_equal Test.omit_timer K).
  replace (Test.timer (tst st)) with (Test.timer (tst st0)) in * by exact (f_equal Test.timer K). clear K.
  pstep H. destruct x. destruct (cancel_frees _ _ _ _ _ _ _ E R2 D2 N2) as (f3 & R3 & D3 & N3). rewrite without_app.
  apply cancel_clears in E as [K _]; [|done|by intros []].
  replace (Test.timer (tst st0)) with (Test.timer (tst st1)) in * by exact (f_equal Test.timer K). clear K. pstep H.
  destruct (cancel_frees _ _ _ _ _ _ [] H R3) as (f4 & R4 & _); [by rewrite app_nil_r|by rewrite app_nil_r|]. by exists f4.
Qed.
(** Where nothing but the timers is cancelled, they stay. *)
Definition same_tmr : relation prog := fun s s' => tmr s' = tmr s.
#[export] Instance same_tmr_preorder : PreOrder same_tmr.
Proof. split; [done|]. unfold same_tmr. intros a b c. congruence. Qed.
#[export] Instance same_tmr_world : IgnoresWorld same_tmr.
Proof. done. Qed.
#[export] Instance same_tmr_test : IgnoresTest same_tmr.
Proof. done. Qed.
Lemma kill_tmr caller which : steps same_tmr (kill_threads caller which).
Proof.
  unfold kill_threads. frame. match goal with |- steps _ (kill_loop _ _ ?i ?l) => generalize i; generalize l end.
  induction l as [|sp l IH]; intros i; cbn [kill_loop]; unfold kill_thread, set_stream, iperf_err_errno, error_text, iperf_err, fail_with; frame.
Qed.
Lemma close_open_tmr l : forall i, steps same_tmr (close_open_streams i l).
Proof. induction l as [|sp l IH]; intros i; cbn [close_open_streams]; unfold set_stream; frame. Qed.
Lemma close_test_tmr : steps same_tmr close_test_sockets.
Proof. unfold close_test_sockets, close_socket. frame. Qed.

(** What a clean-up has done: the threads are ended and the sockets closed, in
    this order; the timers of the test are gone from the timers that run, the
    others are not. *)
Record cleaned (s s' : prog) : Prop := {
  cleaned_test : exists errors, tst s' = released (with_errors errors (tst s));
  cleaned_calls : made s s' (flat_map kill_calls (Test.streams (tst s)) ++ map Cclose (sockets_of (Test.streams (tst s)) ++ test_sockets (tst s)));
  cleaned_sockets : sockets_of (Test.streams (tst s')) = [] /\ test_sockets (tst s') = [];
  cleaned_timers : test_timers (tst s') = [] /\
    forall ts free, timers_repr (tmr s) ts free -> NoDup (test_timers (tst s)) -> test_timers (tst s) ⊆ ts.*1 ->
      exists free', timers_repr (tmr s') (without (test_timers (tst s)) ts) free';
  cleaned_error : i_errno (os s') = i_errno (os s) }.
Lemma cleanup_effect (s s' : prog) : cleanup_server s = Some (tt, s') -> cleaned s s'.
Proof.
  intros H. unfold cleanup_server in H. pstep H. destruct x. apply kill_tmr in E as T1. apply does_kill in E as (es & E1 & M1 & I1).
  pstep H. pstep H. destruct x. apply close_open_tmr in E as T2. apply (does_close_open _ []) in E as (E2 & M2 & I2); [|done].
  pstep H. destruct x. apply close_test_tmr in E as T3. apply does_close_test in E as (E3 & M3 & I3).
  assert (Hs : Test.streams (with_errors es (tst s)) = Test.streams (tst s)) by (by apply (errors_same Test.streams)).
  assert (E0 : tst st1 = without_sockets (with_streams (map (fun sp => shut (killed sp)) (Test.streams (tst s)))
                           (unwatch_all (sockets_of (Test.streams (tst s))) (with_errors es (tst s))))).
  { rewrite E3, E2, E1. cbn [app]. rewrite unwatch_all_streams, with_streams_twice. change (Test.streams (with_streams ?l _)) with l.
    by rewrite sockets_of_killed, map_map. }
  assert (Hk : test_timers (tst st1) = test_timers (tst s)).
  { rewrite E0. change (test_timers (without_sockets (with_streams ?l ?t))) with (test_timers t).
    transitivity (test_timers (with_errors es (tst s))); [|by apply (errors_same test_timers)].
    generalize (sockets_of (Test.streams (tst s))), (with_errors es (tst s)). intros l. induction l as [|f l IH]; intros t; [done|]. exact (IH (unwatch f t)). }
  pose proof (cancels_frees _ _ H) as T. apply cancels_clear in H as [Et Eo].
  assert (M : made s st1 (flat_map kill_calls (Test.streams (tst s)) ++ map Cclose (sockets_of (Test.streams (tst s)) ++ test_sockets (tst s)))).
  { rewrite map_app. eapply made_trans, made_trans; [exact M1| |].
    - rewrite E1 in M2. change (Test.streams (with_streams ?l _)) with l in M2. by rewrite sockets_of_killed in M2.
    - rewrite E2 in M3. change (test_sockets (with_streams ?l ?t)) with (test_sockets t) in M3. rewrite test_sockets_unwatch, E1 in M3.
      change (test_sockets (with_streams ?l ?t)) with (test_sockets t) in M3. by rewrite (errors_same test_sockets) in M3. }
  assert (Er : tst s' = released (with_errors es (tst s))) by (rewrite Et, E0; unfold released; by rewrite Hs).
  split.
  - by exists es.
  - unfold made. by rewrite Eo.
  - rewrite Er. split; [apply sockets_of_shut|]. unfold released, test_sockets. cbn -[is_open down]. by rewrite !is_open_down.
  - split; [by rewrite Er|]. intros ts free Hr Hd Hin. rewrite <-Hk in Hd, Hin |- *. eapply T; [|exact Hd|exact Hin].
    unfold same_tmr in *. by rewrite T3, T2, T1.
  - rewrite Eo. congruence.
Qed.

(** C7. Cleaning up releases what the test holds and nothing else: every thread
    that runs is cancelled and joined, in the order of the streams, then every
    open socket of a stream, the control connection and the listeners are
    closed, whatever the system answers.  The streams stay in the list, done,
    without threads and sockets; of the timers exactly those of the test are
    gone, the others still run; no socket and no timer is recorded in the test
    any more and the error that led here is still there.  A JSON report may have
    got the errors of threads that did not end. *)
Theorem cleanup_server_releases (s s' : prog) :
  cleanup_server s = Some (tt, s') ->
  (exists errors, tst s' = released (with_errors errors (tst s))) /\
  made s s' (flat_map kill_calls (Test.streams (tst s)) ++ map Cclose (sockets_of (Test.streams (tst s)) ++ test_sockets (tst s))) /\
  sockets_of (Test.streams (tst s')) = [] /\ test_sockets (tst s') = [] /\ test_timers (tst s') = [] /\
  (forall ts free, timers_repr (tmr s) ts free -> NoDup (test_timers (tst s)) -> test_timers (tst s) ⊆ ts.*1 ->
     exists ts' free', timers_repr (tmr s') ts' free' /\ forall x, x ∈ ts' <-> x ∈ ts /\ x.1 ∉ test_timers (tst s)) /\
  i_errno (os s') = i_errno (os s).
Proof.
  intros H%cleanup_effect. destruct H as [H1 H2 [H3 H4] [H5 H6] H7]. split_and!; [done..| |done].
  intros ts free Hr Hd Hin. destruct (H6 ts free Hr Hd Hin) as (free' & R). exists (without (test_timers (tst s)) ts), free'.
  split; [exact R|]. apply without_elem.
Qed.
(** Two timers run, of which the second is the test's. *)
Definition cleaning : prog := serving TEST_RUNNING (repeat ok 20)
  <| tst ::= fun t => t <| Test.listener := 3 |> <| Test.prot_listener := 3 |> <| Test.stats_timer := Some 2%positive |>
       <| Test.streams := [Stream.zero <| Stream.id := 1 |> <| Stream.socket := 5 |> <| Stream.thread_created := 1 |>;
                           Stream.zero <| Stream.id := 3 |> <| Stream.socket := -1 |>] |> |>
  <| tmr := two_timers d_once d_per |>.
Lemma cleanup_server_releases_witness :
  exists s', cleanup_server cleaning = Some (tt, s') /\ (trace (os s')).*1 = [Cpthread_cancel 1; Cpthread_join 1; Cclose 5; Cclose 4; Cclose 3; Cclose 3] /\
  ((exists errors, tst s' = released (with_errors errors (tst cleaning))) /\
  made cleaning s' (flat_map kill_calls (Test.streams (tst cleaning)) ++ map Cclose (sockets_of (Test.streams (tst cleaning)) ++ test_sockets (tst cleaning))) /\
  sockets_of (Test.streams (tst s')) = [] /\ test_sockets (tst s') = [] /\ test_timers (tst s') = [] /\
  (exists ts' free', timers_repr (tmr s') ts' free' /\
     forall x, x ∈ ts' <-> x ∈ [(1%positive, d_once); (2%positive, d_per)] /\ x.1 ∉ [2%positive]) /\
  i_errno (os s') = i_errno (os cleaning)).
Proof.
  eexists. split; [vm_compute; reflexivity|]. split; [vm_compute; reflexivity|].
  edestruct (cleanup_server_releases cleaning) as (H1 & H2 & H3 & H4 & H5 & H6 & H7); [vm_compute; reflexivity|].
  split; [exact H1|]. split; [exact H2|]. split; [exact H3|]. split; [exact H4|]. split; [exact H5|]. split; [|exact H7].
  apply (H6 [(1%positive, d_once); (2%positive, d_per)] []); [exact demo_repr|apply NoDup_singleton|].
  intros x ->%list_elem_of_singleton. right. by left.
Defined.

(** ** Starting the test *)

Abbreviation holds_state := (steps (same Test.state)).
Lemma holds_cleanup : holds_state cleanup_server.
Proof.
  unfold same. intros s [] s' H. destruct (cleaned_test _ _ (cleanup_effect _ _ H)) as [es ->]. rewrite <-(errors_same Test.state es (fun _ _ => eq_refl) (tst s)).
  unfold released. cbn. generalize (with_errors es (tst s)) as t. intros t.
  generalize (sockets_of (Test.streams t)) as l. intros l. revert t.
  induction l as [|f l IH]; intros t; [done|]. apply (IH (unwatch f t)).
Qed.
Lemma holds_failure b e : holds_state (when b (fail_with e ;; cleanup_server)).
Proof.
  pose proof holds_cleanup. unfold fail_with. frame.
Qed.

(** A step of the start that went on. *)
Lemma abandon_inv s l s' : abandon s = Some (inl l, s') -> False.
Proof. intros H. unfold abandon in H. by pstep H. Qed.
Lemma abandon_with_inv e s l s' : abandon_with e s = Some (inl l, s') -> False.
Proof. intros H. unfold abandon_with in H. by do 2 pstep H. Qed.
Lemma need_inv m k s l s' : need m k s = Some (inl l, s') -> exists r s1, m s = Some (r, s1) /\ 0 <= r /\ k s1 = Some (inl l, s').
Proof.
  intros H. unfold need in H. pstep H. destruct (Z.ltb_spec x 0); [by apply abandon_inv in H|]. by exists x, st.
Qed.
Lemma need_zero_inv m k s l s' : need_zero m k s = Some (inl l, s') -> exists s1, m s = Some (0, s1) /\ k s1 = Some (inl l, s').
Proof.
  intros H. unfold need_zero in H. pstep H. destruct (Z.eqb_spec x 0) as [->|]; [by exists st|by apply abandon_inv in H].
Qed.
Lemma reopen_inv k s l s' : reopen_listener k s = Some (inl l, s') -> exists s1, aside s s1 /\ k s1 = Some (inl l, s').
Proof.
  intros H. unfold reopen_listener in H. pstep H. pstep H. assert (A : aside s st) by goes_aside E. destruct (negb _).
  - pstep H. pstep H. exists st0. split; [|exact H]. etrans; [exact A|]. etrans; [|goes_aside E0]. by apply aside_test.
  - destruct (_ || _); [|by exists st].
    pstep H. pstep H. assert (A1 : aside (st <| tst ::= fun t => t <| Test.read_set ::= fun r => r ∖ {[ Test.listener (tst s) ]} |> |>) st0) by goes_aside E0.
    pstep H. pstep H. apply (aside_run _ _ _ _ (steps_os (same ctl) _)) in E1 as A2; [|intros ?; apply spares_os, tame_netannounce].
    destruct (x1 <? 0); [by apply abandon_with_inv in H|]. pstep H. eexists. split; [|exact H].
    etrans; [exact A|]. etrans; [|etrans; [exact A1|]]; [by apply aside_test|]. etrans; [|etrans; [exact A2|]]; by apply aside_test.
Qed.

(** C9. A server that has all its streams and does not give up does on the
    control connection exactly this: it sends the two states that start the
    test, the first before its timers are made and the second after; the test is
    running then, if the connection is there.  What is left to do is the start
    of the threads, and of its variables the loop changes only the reading of
    the processor time. *)
Theorem start_test_protocol (s s' : prog) (l l' : sloop) :
  start_test l s = Some (inl l', s') ->
  exists s1 start, sends s server_starts s1 /\ l' = l <| s_cpu := start |> /\ server_start_threads l' s1 = Some (inl l', s') /\
    Test.state (tst s') = Test.state (tst s1) /\ (0 <= Test.ctrl_sck (tst s) -> Test.state (tst s') = TEST_RUNNING).
Proof.
  intros H. unfold start_test in H. apply reopen_inv in H as (s1 & A1 & H). pstep H. pstep H. cbv zeta in H.
  destruct (_ && _); [pstep H; by apply abandon_with_inv in H|]. pstep H.
  assert (A2 : aside (s1 <| tst ::= fun t => t <| Test.prot_listener := -1 |> |>) st).
  { eapply aside_run; [| |exact E]; [frame|]. intros f. apply spares_os, tame_read_usage. }
  apply need_zero_inv in H as (s2 & E2 & H). apply need_inv in H as (r3 & s3 & E3 & _ & H).
  apply need_inv in H as (r4 & s4 & E4 & _ & H). apply need_inv in H as (r5 & s5 & E5 & _ & H). pstep H.
  apply need_inv in H as (r6 & s6 & E6 & _ & H). apply need_zero_inv in H as (s7 & E7 & H).
  assert (Hsends : sends s server_starts s7).
  { eapply (sends_state_next s st); [|exact E2|by left|].
    - etrans; [exact A1|]. etrans; [|exact A2]. by apply aside_test.
    - eapply (sends_state_next s2 s6); [|exact E7|by left|by apply sends_none].
      etrans; [goes_aside E3|]. etrans; [goes_aside E4|]. etrans; [goes_aside E5|]. goes_aside E6. }
  assert (Hst : Test.state (tst s') = Test.state (tst s7) /\ l' = l <| s_cpu := x |>).
  { clear -H. unfold server_start_threads in H. pstep H. apply (steps_os (same ctl)) in E. pstep H.
    apply holds_failure in E0. pstep H. apply need_inv in H as (r8 & s8 & E8 & _ & H). apply keeps_spawn in E8.
    pstep H. apply (steps_os (same ctl)) in E1. pstep H.
    apply holds_failure in E2. injection H as <- <-. split; [|done]. injection E as E _. injection E8 as E8 _. injection E1 as E1 _. congruence. }
  destruct Hst as [Hst ->]. exists s7, x. split_and!; [done|done|exact H|done|].
  intros Hc. rewrite Hst. apply sends_state in Hsends; [|done]. by injection Hsends.
Qed.
Definition starting : prog := serving CREATE_STREAMS [clock_reads 100; ok; ok; wrote 1; clock_reads 100; clock_reads 100; wrote 1; ok; ok].
Definition waiting : sloop := SLoop no_usage (Progress (Time 100 0) 0) 1000000 0 0 0 0 None.
Lemma start_test_protocol_witness :
  exists l' s', start_test waiting starting = Some (inl l', s') /\
  exists s1 start, sends starting server_starts s1 /\ l' = waiting <| s_cpu := start |> /\ server_start_threads l' s1 = Some (inl l', s') /\
    Test.state (tst s') = Test.state (tst s1) /\ (0 <= Test.ctrl_sck (tst starting) -> Test.state (tst s') = TEST_RUNNING).
Proof.
  do 2 eexists. split; [vm_compute; reflexivity|].
  apply (start_test_protocol starting _ waiting). vm_compute. reflexivity.
Defined.

(** ** Every way out of the server *)

(** Nothing is left of a test but its memory. *)
Definition clean (t : iperf_test) : Prop :=
  sockets_of (Test.streams t) = [] /\ test_sockets t = [] /\
  Test.timer t = None /\ Test.stats_timer t = None /\ Test.reporter_timer t = None /\ Test.omit_timer t = None.
Lemma cleanup_clean s s' : cleanup_server s = Some (tt, s') -> clean (tst s').
Proof.
  intros H%cleanup_effect. destruct (cleaned_test _ _ H) as [es Et]. destruct (cleaned_sockets _ _ H) as [Hs Ht]. split_and!; [done|done|..]; by rewrite Et.
Qed.

(** Why the function ends, as its result says: the test is done, nobody came in
    the time for that, or something failed. *)
Definition nobody_came (t : iperf_test) : Prop := Test.state t = IPERF_START /\ 0 < Settings.idle_timeout (Test.settings t).
Definition reason (o : outcome) (t : iperf_test) : Prop :=
  match o with
  | Returned r => r = 0 /\ Test.state t = IPERF_DONE \/ r = 2 /\ nobody_came t /\ Test.one_off t = 0 \/ r = -1 \/ r = -2
  | Exited => nobody_came t /\ Test.one_off t <> 0
  end.
Definition ended (o : outcome) (t : iperf_test) : Prop := clean t /\ reason o t.
Definition leaves_clean {A} (m : P A) : Prop := forall s a s', m s = Some (a, s') -> clean (tst s').
Lemma cleanup_leaves : leaves_clean cleanup_server.
Proof. intros s [] s' H. by eapply cleanup_clean. Qed.
(** What the reason looks at is not cleaned up. *)
Definition looked_at (t : iperf_test) := (Test.state t, Settings.idle_timeout (Test.settings t), Test.one_off t).
Lemma looked_at_unwatch l : forall t, looked_at (unwatch_all l t) = looked_at t.
Proof. induction l as [|f l IH]; intros t; [done|]. exact (IH (unwatch f t)). Qed.
Lemma cleanup_keeps s s' : cleanup_server s = Some (tt, s') -> looked_at (tst s') = looked_at (tst s).
Proof.
  intros H%cleanup_effect. destruct (cleaned_test _ _ H) as [es ->].
  transitivity (looked_at (with_errors es (tst s))); [|by apply (errors_same looked_at)].
  generalize (with_errors es (tst s)). intros t. exact (looked_at_unwatch (sockets_of (Test.streams t)) t).
Qed.

(** A turn that ends the server ends it clean, for its reason. *)
Definition clean_end {A} (ends : A -> option outcome) (m : P A) : Prop :=
  forall s a s' o, m s = Some (a, s') -> ends a = Some o -> ended o (tst s').
Definition is_end (t : turn) : option outcome := match t with inr o => Some o | inl _ => None end.
Lemma clean_bind {A B} ends (m : P A) (k : A -> P B) : (forall a, clean_end ends (k a)) -> clean_end ends (mbnd m k).
Proof. intros Hk s b s' o H He. apply mbnd_inv in H as (a & s1 & _ & H). by eapply Hk. Qed.
Lemma clean_ret {A} ends (a : A) : ends a = None -> clean_end ends (mret a).
Proof. intros Ha s b s' o H He. injection H as <- _. congruence. Qed.
Lemma clean_fail {A} ends : clean_end ends (mfail (A := A)).
Proof. done. Qed.
Lemma clean_failed {A B} ends (m : P A) (k : A -> P B) : leaves_clean m ->
  (forall a s b s', k a s = Some (b, s') -> tst s' = tst s /\ ends b = Some (Returned (-1))) -> clean_end ends (mbnd m k).
Proof.
  intros Hm Hk s b s' o H He. apply mbnd_inv in H as (a & s1 & H1 & H2). destruct (Hk _ _ _ _ H2) as [Et Eo].
  rewrite Eo in He. injection He as <-. split; [rewrite Et; by eapply Hm|cbn; auto].
Qed.
Lemma clean_abandon : clean_end is_end abandon.
Proof. apply clean_failed; [apply cleanup_leaves|]. by intros _ s b s' [= <- <-]. Qed.
Lemma clean_abandon_with e : clean_end is_end (abandon_with e).
Proof. apply clean_failed; [apply cleanup_leaves|]. intros _ s b s' H. pstep H. injection E as _ <-. by injection H as <- <-. Qed.
Lemma clean_need m k : clean_end is_end k -> clean_end is_end (need m k).
Proof. intros Hk. apply clean_bind. intros r. destruct (r <? 0); [apply clean_abandon|done]. Qed.
Lemma clean_need_zero m k : clean_end is_end k -> clean_end is_end (need_zero m k).
Proof. intros Hk. apply clean_bind. intros r. destruct (r =? 0); [done|apply clean_abandon]. Qed.
Lemma clean_then m k : clean_end is_end m -> (forall l, clean_end is_end (k l)) -> clean_end is_end (then_ m k).
Proof.
  intros Hm Hk s t s' o H He. unfold then_ in H. apply mbnd_inv in H as (a & s1 & H1 & H2). destruct a as [l|o']; [by eapply Hk|].
  injection H2 as <- <-. by eapply Hm.
Qed.
Create HintDb clean.
#[export] Hint Resolve clean_abandon clean_abandon_with clean_fail : clean.
Ltac cleans :=
  repeat first
    [ solve [eauto 2 with clean]
    | apply clean_ret; reflexivity
    | apply clean_need | apply clean_need_zero
    | lazymatch goal with
      | |- clean_end _ (then_ _ _) => apply clean_then; [|intros ?]
      | |- clean_end _ (mbnd _ _) => apply clean_bind; intros ?
      | |- clean_end _ (if ?b then _ else _) => destruct b
      | |- clean_end _ (match ?o with _ => _ end) => destruct o
      end
    | progress cbv zeta ].
Lemma clean_accept_stream l : clean_end is_end (accept_stream l).
Proof. unfold accept_stream. cleans. Qed.
Lemma clean_reopen k : clean_end is_end k -> clean_end is_end (reopen_listener k).
Proof. intros Hk. unfold reopen_listener. cleans. Qed.
Lemma clean_start_threads l : clean_end is_end (server_start_threads l).
Proof. unfold server_start_threads. cleans. Qed.
#[export] Hint Resolve clean_accept_stream clean_reopen clean_start_threads : clean.
Lemma clean_start_test l : clean_end is_end (start_test l).
Proof. unfold start_test. apply clean_reopen. cleans. Qed.
#[export] Hint Resolve clean_start_test : clean.
Lemma clean_streams ready l : clean_end is_end (on_streams ready l).
Proof. unfold on_streams. cleans. Qed.
#[export] Hint Resolve clean_streams : clean.

(** A step that may have ended the server before the rest is looked at. *)
Lemma clean_step {A B} stop ends (m : P A) (k : A -> P B) : clean_end stop m ->
  (forall a o s b s', stop a = Some o -> k a s = Some (b, s') -> tst s' = tst s /\ ends b = Some o) ->
  (forall a, stop a = None -> clean_end ends (k a)) -> clean_end ends (mbnd m k).
Proof.
  intros Hm Hs Hk s b s' o H He. apply mbnd_inv in H as (a & s1 & H1 & H2). destruct (stop a) as [o'|] eqn:Ha.
  - destruct (Hs _ _ _ _ _ Ha H2) as [-> Eo]. assert (o' = o) as -> by congruence. by eapply Hm.
  - by eapply Hk.
Qed.
Lemma clean_abandoned {A} (ready : A) ends : (forall o, ends (inr o, ready) = Some o) -> clean_end ends (let! t := abandon in mret (t, ready)).
Proof.
  intros Hends s b s' o H He. apply mbnd_inv in H as (t & s1 & H1 & H2). injection H2 as <- <-.
  apply (clean_abandon s t s1 o H1). unfold abandon in H1. apply mbnd_inv in H1 as (? & ? & _ & H1). injection H1 as <- _.
  by rewrite Hends in He.
Qed.
Definition ends_first (p : turn * list fd) : option outcome := is_end p.1.
Lemma clean_abandoned_first (ready : list fd) : clean_end ends_first (let! t := abandon in mret (t, ready)).
Proof. by apply clean_abandoned. Qed.
#[export] Hint Resolve clean_abandoned_first : clean.
Lemma clean_listener ready l : clean_end ends_first (on_listener ready l).
Proof. unfold on_listener. cleans. Qed.
Lemma clean_control ready l : clean_end ends_first (on_control ready l).
Proof. unfold on_control. cleans. Qed.
Lemma clean_pass m (k : list fd -> sloop -> P turn) : clean_end ends_first m -> (forall ready l, clean_end is_end (k ready l)) ->
  clean_end is_end (let! (t, ready) := m in then_ (mret t) (k ready)).
Proof.
  intros Hm Hk. apply (clean_step ends_first); [done| |].
  - intros [[l|o] ready] o' s b s' He H; [done|]. unfold then_ in H. apply mbnd_inv in H as (a & s1 & H1 & H2).
    injection H1 as <- <-. by injection H2 as <- <-.
  - intros [[l|o] ready] He; [|done]. apply clean_then; [by apply clean_ret|apply Hk].
Qed.
Lemma clean_input ready l : clean_end is_end (server_input ready l).
Proof.
  unfold server_input. apply clean_pass; [apply clean_listener|]. intros ready1 l1.
  apply clean_pass; [apply clean_control|]. intros ready2 l2. apply clean_streams.
Qed.
#[export] Hint Resolve clean_input : clean.

Lemma clean_idle l now : clean_end (fun o => o) (server_idle l now).
Proof.
  unfold server_idle. intros s a s' o H He. pstep H. destruct (idle_usecs _ _) as [n|]; [|injection H as <- _; done].
  destruct (Z.eqb_spec (Test.state (tst s)) IPERF_START) as [Hst|].
  - cbv zeta in H. destruct (_ && _) eqn:Hidle; [|injection H as <- _; done]. apply andb_true_iff in Hidle as [Hidle%Z.ltb_lt _].
    pstep H. pstep H. destruct x. injection H as <- <-. injection He as <-. pose proof (cleanup_keeps _ _ E) as Hk.
    split; [by eapply cleanup_clean|]. unfold looked_at in Hk. cbn in Hk. injection Hk as K1 K2 K3.
    assert (Hn : nobody_came (tst st)) by (unfold nobody_came; by rewrite K1, K2). unfold iperf_get_test_one_off, nonzero.
    destruct (Z.eqb_spec (Test.one_off (tst s)) 0); cbn; rewrite K3; auto.
  - destruct (_ && _); [|injection H as <- _; done]. pstep H. pstep H. pstep H. pstep H. pstep H. destruct x1. injection H as <- <-.
    injection He as <-. split; [by eapply cleanup_clean|cbn; auto].
Qed.
Lemma clean_turn rd l : clean_end is_end (server_turn rd l).
Proof.
  unfold server_turn. apply clean_bind. intros t. destruct (nonzero _); [apply clean_abandon_with|].
  apply clean_bind. intros now. apply clean_bind. intros timeout. cbv zeta. apply clean_bind. intros r. apply clean_bind. intros bad.
  destruct bad; [apply clean_abandon_with|]. apply (clean_step (fun p : iperf_time * option outcome => p.2)).
  - destruct (ret r =? 0); [|by apply clean_ret]. apply clean_bind. intros now1. apply (clean_step (fun o => o)).
    + apply clean_idle.
    + intros a o s b s' Ha H. by injection H as <- <-.
    + intros a Ha. by apply clean_ret.
  - intros [now1 [o|]] o' s b s' He H; [|done]. injection He as ->. by injection H as <- <-.
  - intros [now1 [o|]] He; [done|]. cleans.
Qed.

Lemma affinity_same (b : bool) s r s' : (if b then iperf_clearaffinity else mret 0) s = Some (r, s') -> tst s' = tst s /\ (r = 0 \/ r = -1).
Proof. destruct b; intros H; [|injection H as <- <-; auto]. unfold iperf_clearaffinity in H. pstep H. injection E as _ <-. injection H as <- <-. auto. Qed.
(** The one way out that does not clean up: the report cannot be printed. *)
Definition unprintable (t : iperf_test) : Prop := exists document, report_document t = Some document /\ cJSON_Print document = None.
Lemma json_finish_fails s r s' : iperf_json_finish s = Some (r, s') -> r < 0 -> unprintable (tst s').
Proof.
  intros H Hr. unfold iperf_json_finish in H. pstep H. pstep H. destruct (Z.ltb_spec x 0) as [Hx|]; [|pstep H; injection H as <- _; lia].
  injection H as _ <-. destruct (Test.json_top (tst s)); [|injection E as <- _; lia].
  pstep E. pstep E. pstep E. unfold mopt in E1. destruct (report_document _) as [document|] eqn:Ed; [|done]. injection E1 as <- <-.
  destruct (nonzero _); [pstep E; injection E as <- _; lia|].
  destruct (cJSON_Print document) eqn:Ep; [pstep E; injection E as <- _; lia|]. injection E as _ <-. by exists document.
Qed.
(** It ends with a failure. *)
Definition unreported (o : outcome) (t : iperf_test) : Prop := o = Returned (-1) /\ Test.state t = IPERF_DONE /\ unprintable t.
Lemma loop_done s o s' :
  (let! test := get_test in
   let! r := if nonzero (Test.json_output test) then iperf_json_finish else mret 0 in
   if r <? 0 then mret (Some (Returned (-1)))
   else cleanup_server ;;
     let! r := if negb (Test.server_affinity test =? -1) then iperf_clearaffinity else mret 0 in
     mret (Some (Returned (if r =? 0 then 0 else -1)))) s = Some (Some o, s') ->
  Test.state (tst s) = IPERF_DONE -> ended o (tst s') \/ unreported o (tst s').
Proof.
  intros H Hd. pstep H. pstep H.
  assert (Hd1 : Test.state (tst st) = IPERF_DONE).
  { destruct (nonzero _); [|by injection E as _ <-]. apply keeps_json_finish in E. unfold same, ctl in E. congruence. }
  destruct (Z.ltb_spec x 0).
  - injection H as <- <-. right. split_and!; [done|done|]. destruct (nonzero _); [by eapply json_finish_fails|injection E as <- _; lia].
  - pstep H. destruct x0. pstep H. injection H as <- <-. apply affinity_same in E1 as [E1 Hr]. left. split; [rewrite E1; by eapply cleanup_clean|].
    pose proof (cleanup_keeps _ _ E0) as Hk. unfold looked_at in Hk. injection Hk as K1 _ _. cbn. rewrite E1, K1, Hd1.
    destruct Hr as [-> | ->]; cbn; auto.
Qed.
Lemma loop_ends rounds : forall l s o s', server_loop rounds l s = Some (Some o, s') -> ended o (tst s') \/ unreported o (tst s').
Proof.
  induction rounds as [|rd rounds IH]; intros l s o s' H; cbn [server_loop] in H; rewrite bind_get_test in H;
    destruct (Z.eqb_spec (Test.state (tst s)) IPERF_DONE).
  1, 3: by apply (loop_done s).
  - done.
  - pstep H. destruct x as [l'|o']; [by eapply IH|]. injection H as <- <-. left. by eapply (clean_turn rd l).
Qed.

(** The log file could not be opened. *)
Definition no_logfile (o : outcome) (s s' : prog) : Prop :=
  o = Returned (-2) /\ exists name r, Test.logfile (tst s) = Some name /\ ret r < 0 /\ made s s' [Copen name 0x20a] /\
    tst s' = tst s <| Test.outfile := None |> /\ i_errno (os s') = IELOGFILE.

(** C5. The server's function cleans up on every way out.  Whichever way it ends,
    whatever the system answered and whatever the threads did meanwhile, the
    test records no socket and no timer any more, and the result tells why: 0
    when the test is done, 2 when nobody came in time, which ends the program
    when it serves only one test, else -1 or -2.  Two ways out are different:
    the log file cannot be opened, when nothing else was done, and the JSON
    report of a finished test cannot be printed.  It is about what the test
    records: a connection that was accepted and is given up before it is
    recorded in a stream is not closed (accept_stream_leaks below). *)
Theorem iperf_run_server_ends_clean (static : cpu_usage) (rounds : list round) (s s' : prog) (o : outcome) :
  iperf_run_server static rounds s = Some (Some o, s') ->
  clean (tst s') /\ reason o (tst s') \/ unreported o (tst s') \/ no_logfile o s s'.
Proof.
  intros H. unfold iperf_run_server in H. pstep H. pstep H. destruct (x <? 0) eqn:Hx.
  { right. right. injection H as <- <-. split; [done|]. destruct (Test.logfile (tst s)) as [name|] eqn:El; [|injection E as <- _; discriminate Hx].
    unfold iperf_open_logfile in E. rewrite bind_get_test, El in E. pstep E. apply do_os_inv in E0 as (Et & _ & E0).
    destruct (Z.ltb_spec (ret x0) 0); [|pstep E; injection E as <- _; discriminate Hx].
    pstep E. pstep E. injection E1 as _ <-. injection E as <- <-. exists name, x0. cbn. rewrite Et. split_and!; [done|done| |done|done].
    apply sys_inv in E0 as [_ E0]. unfold made, asked. cbn. by rewrite E0, map_app, List.filter_app. }
  assert (Hclean : forall st st', cleanup_server st = Some (tt, st') -> o = Returned (-2) -> clean (tst st') /\ reason o (tst st')).
  { intros st0 st' Hc ->. split; [by eapply cleanup_clean|cbn; auto]. }
  pstep H. destruct (negb (x0 =? 0)).
  { left. pstep H. destruct x1. injection H as <- <-. by eapply Hclean. }
  pstep H. pstep H. pstep H. destruct (x3 <? 0).
  { left. pstep H. destruct x4. injection H as <- <-. by eapply Hclean. }
  pstep H. pstep H. apply loop_ends in H as [H|H]; auto.
Qed.
(** Nobody comes for ten seconds. *)
Definition idle : prog :=
  Prog (demo_role "s" <| Test.settings ::= fun st => st <| Settings.idle_timeout := 5 |> |>) (TS ∅ None None)
    (World ([ok; wrote 3; ok; ok; ok] ++ repeat ok 3 ++ [clock_reads 100; clock_reads 100; ok; clock_reads 110; ok])%list [] 0 0 0).
Lemma iperf_run_server_ends_clean_witness :
  exists s', iperf_run_server no_usage [Client.Round id 3] idle = Some (Some (Returned 2), s') /\
  (trace (os s')).*1 !! 12%nat = Some (Cclose 3) /\
  (clean (tst s') /\ reason (Returned 2) (tst s') \/ unreported (Returned 2) (tst s') \/ no_logfile (Returned 2) idle s').
Proof.
  eexists. split; [vm_compute; reflexivity|]. split; [reflexivity|].
  apply (iperf_run_server_ends_clean no_usage [Client.Round id 3] idle _ (Returned 2)). vm_compute. reflexivity.
Defined.

(** A stream whose options cannot be set is given up without closing its
    connection: the clean-up does not know it. *)
Definition unlucky : prog :=
  serving CREATE_STREAMS ([Reply 9 0 [] []; Reply 1 0 [] []; Reply 37 0 (cookie_bytes "sesame") []; Reply 0 0 [] [AF_INET]; Reply (-1) 1 [] []] ++ repeat ok 6)%list
    <| tst ::= fun t => t <| Test.cookie := "sesame" |> <| Test.listener := 3 |> <| Test.settings ::= fun st => st <| Settings.tos := 8 |> |> |>.
Lemma accept_stream_leaks :
  exists s', accept_stream waiting unlucky = Some (inr (Returned (-1)), s') /\ clean (tst s') /\ open_fds [] (calls (os unlucky) (os s')) = [9].
Proof. eexists. split; [vm_compute; reflexivity|]. split; [by split_and!|vm_compute; reflexivity]. Qed.

(** ** Which end of a stream *)

(** The ends the client makes, in the order of its connections. *)
Definition client_senders (mode n : Z) : list Z :=
  if mode =? BIDIRECTIONAL then (repeat 1 (Z.to_nat n) ++ repeat 0 (Z.to_nat n))%list else repeat mode (Z.to_nat n).
(** The ends the server gives to the next [m] connections. *)
Fixpoint server_senders (l : sloop) (m : nat) : list (option Z) :=
  match m with O => [] | S m => let l := assign_stream l in flag l :: server_senders (l <| Server.flag := Some (-1) |>) m end.
Fixpoint after_streams (l : sloop) (m : nat) : sloop :=
  match m with O => l | S m => after_streams (assign_stream l <| Server.flag := Some (-1) |>) m end.

Lemma assigned m : forall l r q, streams_to_rec l = rec_streams_accepted l + Z.of_nat r ->
  streams_to_send l = send_streams_accepted l + Z.of_nat q -> (m <= r + q)%nat ->
  server_senders l m = take m (repeat (Some 0) r ++ repeat (Some 1) q)%list /\ all_accepted (after_streams l m) = bool_decide (m = (r + q)%nat).
Proof.
  induction m as [|m IH]; intros l r q Hr Hq Hm; cbn [server_senders after_streams take].
  { split; [done|]. unfold all_accepted. rewrite Hr, Hq.
    destruct (Z.eqb_spec (rec_streams_accepted l) (rec_streams_accepted l + Z.of_nat r)),
      (Z.eqb_spec (send_streams_accepted l) (send_streams_accepted l + Z.of_nat q)); case_bool_decide; cbn; lia || done. }
  unfold assign_stream. rewrite Hr, Hq. destruct r as [|r].
  - destruct q as [|q]; [lia|]. rewrite (proj2 (Z.eqb_eq _ _)) by lia. rewrite (proj2 (Z.eqb_neq _ _)) by lia. cbn [negb].
    set (l1 := l <| flag := Some 1 |> <| send_streams_accepted ::= Z.succ |>).
    destruct (IH (l1 <| flag := Some (-1) |>) 0%nat q) as [H1 H2]; [cbn; lia|cbn; lia|lia|].
    rewrite H1, H2. cbn [repeat app take]. split; [done|]. by apply bool_decide_ext; lia.
  - rewrite (proj2 (Z.eqb_neq _ _)) by lia. cbn [negb]. set (l1 := l <| flag := Some 0 |> <| rec_streams_accepted ::= Z.succ |>).
    destruct (IH (l1 <| flag := Some (-1) |>) r q) as [H1 H2]; [cbn; lia|cbn; lia|lia|].
    rewrite H1, H2. cbn [repeat app take]. split; [done|]. by apply bool_decide_ext; lia.
Qed.

(** C10. The two ends of every stream fit: the streams that a server takes on, in
    the order in which the client connects them, receive where the client
    sends and send where it receives, in either direction and in both, and the
    server has all its streams after the last of them and not before. *)
Theorem server_assigns_opposite (test : iperf_test) (l : sloop) (mode : Z) (m : nat) :
  Test.mode test = (if mode =? BIDIRECTIONAL then BIDIRECTIONAL else 1 - mode) ->
  mode = SENDER \/ mode = RECEIVER \/ mode = BIDIRECTIONAL -> 0 <= Test.num_streams test ->
  rec_streams_accepted l = 0 -> send_streams_accepted l = 0 ->
  (m <= length (client_senders mode (Test.num_streams test)))%nat ->
  server_senders (expect_streams test l) m = map (fun sender => Some (1 - sender)) (take m (client_senders mode (Test.num_streams test))) /\
  all_accepted (after_streams (expect_streams test l) m) = bool_decide (m = length (client_senders mode (Test.num_streams test))).
Proof.
  intros Hmode Hm Hn Hr Hq Hlen. set (n := Z.to_nat (Test.num_streams test)).
  assert (Hcases : exists r q, (Z.of_nat r, Z.of_nat q) = (streams_to_rec (expect_streams test l), streams_to_send (expect_streams test l)) /\
    map (fun sender => Some (1 - sender)) (client_senders mode (Test.num_streams test)) = (repeat (Some 0) r ++ repeat (Some 1) q)%list).
  { unfold expect_streams, client_senders. rewrite Hmode. destruct Hm as [-> | [-> | ->]]; cbn -[Z.of_nat Z.to_nat repeat Z.sub].
    - exists n, 0%nat. rewrite app_nil_r, map_repeat. cbn. unfold n. by rewrite Z2Nat.id.
    - exists 0%nat, n. rewrite map_repeat. cbn. unfold n. by rewrite Z2Nat.id.
    - exists n, n. rewrite map_app, !map_repeat. unfold n. by rewrite Z2Nat.id. }
  destruct Hcases as (r & q & Hrq & Hs). injection Hrq as Hr' Hq'.
  assert (Hacc : rec_streams_accepted (expect_streams test l) = 0 /\ send_streams_accepted (expect_streams test l) = 0).
  { unfold expect_streams. by repeat case_match. }
  destruct Hacc as [Ha Hb].
  assert (Hl : length (client_senders mode (Test.num_streams test)) = (r + q)%nat).
  { rewrite <-(length_map (fun sender => Some (1 - sender))), Hs, length_app, !repeat_length. done. }
  destruct (assigned m (expect_streams test l) r q) as [H1 H2]; [lia|lia|lia|]. rewrite <-firstn_map, Hs, Hl. done.
Qed.
Definition two_ways : iperf_test := Test.zero <| Test.mode := BIDIRECTIONAL |> <| Test.num_streams := 2 |>.
Lemma server_assigns_opposite_witness :
  client_senders BIDIRECTIONAL 2 = [1; 1; 0; 0] /\ server_senders (expect_streams two_ways waiting) 4 = [Some 0; Some 0; Some 1; Some 1] /\
  server_senders (expect_streams two_ways waiting) 3 = map (fun sender => Some (1 - sender)) (take 3 (client_senders BIDIRECTIONAL (Test.num_streams two_ways))) /\
  all_accepted (after_streams (expect_streams two_ways waiting) 3) = bool_decide (3%nat = length (client_senders BIDIRECTIONAL (Test.num_streams two_ways))).
Proof.
  split; [reflexivity|]. split; [reflexivity|].
  apply (server_assigns_opposite two_ways waiting BIDIRECTIONAL 3); [reflexivity|auto|vm_compute; congruence|reflexivity|reflexivity|vm_compute; lia].
Defined.

(** ** The wait for data *)

(** The cap of one second limits a number that is only compared: for any
    receive timeout of a second or more the wait is the one of the timers. *)
Lemma watched_timeout_uncapped rcv s u : SEC_TO_US <= rcv_timeout_us rcv -> 0 <= s * SEC_TO_US + u ->
  watched_timeout rcv (Some (s, u)) = Some (s, u).
Proof.
  intros Hr Hp. unfold watched_timeout. destruct (Z.ltb_spec SEC_TO_US (s * SEC_TO_US + u)); destruct (Z.ltb_spec (rcv_timeout_us rcv) SEC_TO_US);
    repeat (match goal with |- context [?a <? ?b] => destruct (Z.ltb_spec a b) end); cbn; try done; unfold SEC_TO_US in *; lia.
Qed.
