(* ===== verification/Protocol.v ===== *)
(** * The two ends together

    A client and a server on one control connection, each as the scripts of
    State.v, which the handlers of the code follow (State.client_follows_protocol,
    State.server_follows_protocol, Session.iperf_accept_protocol and
    Session.start_test_protocol).  The connection is two queues of messages;
    the [n] connections for data are counted.  Every order of the steps of the
    two ends is a run.  The cookie, with which the client opens the connection
    and which the server reads before its first state, is left out. *)
From Stdlib Require Import Ascii String.
From stdpp Require Import strings.
From S2P Require Import Prelude Iperf State.
#[local] Open Scope Z_scope.

(** ** The steps *)

(** An end: the state of its test, and what is left of the script it follows. *)
Record side := Side { st : Z; todo : list action }.
(** The client, the server, what is under way to the server and to the client,
    and whether the server has taken the client on. *)
Record net := Net { cl : side; sv : side; up : list msg; dn : list msg; greeted : bool }.
#[export] Instance side_eq_dec : EqDecision side.
Proof. solve_decision. Defined.
#[export] Instance net_eq_dec : EqDecision net.
Proof. solve_decision. Defined.
#[export] Instance side_eta : Settable side := fun r => Side (st r) (todo r).
#[export] Instance net_eta : Settable net := fun r => Net (cl r) (sv r) (up r) (dn r) (greeted r).

(** The next action of an end, given what is under way to it: the end, what it
    puts on the connection and what it leaves of the input; [None] is a message
    that is not the one awaited. *)
Definition entered (m : msg) (s : side) (rest : list action) : side :=
  Side (match m with State x => x | _ => st s end) rest.
Definition act (s : side) (input : list msg) : list (option (side * list msg * list msg)) :=
  match todo s, input with
  | Send m :: rest, _ => [Some (entered m s rest, [m], input)]
  | Await m :: rest, m' :: input => [if decide (m = m') then Some (Side (st s) rest, [], input) else None]
  | _, _ => []
  end.
(** Reading a state; one that the script does not know, or another message, is
    an error. *)
Definition read_state (script : Z -> option (list action)) (input : list msg) : list (option (side * list msg)) :=
  match input with
  | [] => []
  | State x :: input => [match script x with Some acts => Some (Side x acts, input) | None => None end]
  | _ :: _ => [None]
  end.
Definition free (s : side) : bool := match todo s with [] => negb (st s =? IPERF_DONE) | _ => false end.

(** A client that makes its streams does not read before all are connected; a
    running client may end the test at any time. *)
Definition creating (w : net) : bool := free (cl w) && (st (cl w) =? CREATE_STREAMS).
Definition client_moves (connected : bool) (w : net) : list (option net) :=
  map (option_map (fun '(s, out, rest) => w <| cl := s |> <| up ::= fun q => (q ++ out)%list |> <| dn := rest |>)) (act (cl w) (dn w)) ++
  (if free (cl w) && (st (cl w) =? TEST_RUNNING) then [Some (w <| cl ::= fun s => s <| todo := client_finishes |> |>)] else []) ++
  (if free (cl w) && (connected || negb (creating w))
   then map (option_map (fun '(s, rest) => w <| cl := s |> <| dn := rest |>)) (read_state client_script (dn w)) else []).

(** A server with all streams starts the test. *)
Definition accepting (w : net) : bool := free (sv w) && (st (sv w) =? CREATE_STREAMS).
Definition server_moves (accepted : bool) (w : net) : list (option net) :=
  if negb (greeted w) then [Some (w <| sv ::= fun s => s <| todo := server_accepts |> |> <| greeted := true |>)]
  else
    map (option_map (fun '(s, out, rest) => w <| sv := s |> <| dn ::= fun q => (q ++ out)%list |> <| up := rest |>)) (act (sv w) (up w)) ++
    (if accepting w && accepted then [Some (w <| sv ::= fun s => s <| todo := server_starts |> |>)] else []) ++
    (if free (sv w) then map (option_map (fun '(s, rest) => w <| sv := s |> <| up := rest |>)) (read_state server_script (up w)) else []).
Definition moves (connected accepted : bool) (w : net) : list (option net) := client_moves connected w ++ server_moves accepted w.

Definition start : net := Net (Side 0 []) (Side IPERF_START []) [] [] false.
Definition done (w : net) : Prop := cl w = Side IPERF_DONE [] /\ sv w = Side IPERF_DONE [] /\ up w = [] /\ dn w = [].
#[export] Instance done_dec w : Decision (done w).
Proof. unfold done. apply _. Defined.

(** The connections for data: made by the client, accepted by the server. *)
Record system := Sys { ends : net; offered : nat; taken : nat }.
Inductive step (n : nat) : system -> option system -> Prop :=
| step_ends w o t w' : In w' (moves (bool_decide (o = n)) (bool_decide (t = n)) w) ->
    step n (Sys w o t) (option_map (fun w => Sys w o t) w')
| step_connect w o t : creating w = true -> (o < n)%nat -> step n (Sys w o t) (Some (Sys w (S o) t))
| step_accept w o t : accepting w = true -> (t < o)%nat -> step n (Sys w o t) (Some (Sys w o (S t))).
(** [runs n k s]: after [k] steps. *)
Inductive runs (n : nat) : nat -> system -> Prop :=
| runs_start : runs n 0 (Sys start 0 0)
| runs_step k s s' : runs n k s -> step n s (Some s') -> runs n (S k) s'.

(** ** The states of the two ends *)

Definition all_moves (w : net) : list (option net) :=
  moves false false w ++ moves false true w ++ moves true false w ++ moves true true w.
(** Level by level, with any answer to whether the streams are there. *)
Definition next (l : list net) : list net := remove_dups (omap id (flat_map all_moves l)).
Fixpoint level (k : nat) : list net := match k with O => [start] | S k => next (level k) end.

(** The client has left the making of streams; the server has begun the test. *)
Definition late (w : net) : bool := negb (bool_decide (st (cl w) ∈ [0; PARAM_EXCHANGE; CREATE_STREAMS])).
Definition begun (w : net) : bool :=
  bool_decide (todo (sv w) = server_starts) || negb (bool_decide (st (sv w) ∈ [IPERF_START; PARAM_EXCHANGE; CREATE_STREAMS])).
Definition bools : list bool := [false; true].

(** No message is a wrong one, and who goes on had reason to. *)
Definition sound (w : net) : bool :=
  forallb (fun c => forallb (fun a => forallb (fun o =>
    match o with
    | Some w' => implb (late w') (late w || c) && implb (begun w') (begun w || a)
    | None => false
    end) (moves c a w)) bools) bools.
(** Somebody can go on, if only by making or taking a connection. *)
Definition alive (w : net) : bool :=
  forallb (fun c => forallb (fun a =>
    bool_decide (done w) || negb (bool_decide (moves c a w = [])) || (negb c && creating w) || (c && negb a && accepting w)) bools) bools.
(** While the client runs the test the server does, or is about to. *)
Definition agree (w : net) : bool :=
  implb (bool_decide (st (cl w) = TEST_RUNNING)) (begun w && bool_decide (st (sv w) = TEST_RUNNING) && bool_decide (dn w = [])) &&
  implb (bool_decide (done w)) (late w && begun w).
Definition protocol_steps : nat := 25.
Definition checked (k : nat) (w : net) : bool :=
  sound w && alive w && agree w && eqb (bool_decide (done w)) (k =? protocol_steps)%nat.

Lemma levels_checked : forallb (fun k => forallb (checked k) (level k)) (seq 0 26) = true.
Proof. vm_compute. reflexivity. Qed.
Lemma levels_end : level 26 = [].
Proof. vm_compute. reflexivity. Qed.
Lemma levels_empty k : (26 <= k)%nat -> level k = [].
Proof.
  intros Hk. replace k with ((k - 26) + 26)%nat by lia. induction (k - 26)%nat as [|j IH]; [apply levels_end|].
  cbn [Nat.add level]. by rewrite IH.
Qed.
Lemma level_checked k w : w ∈ level k -> (k <= protocol_steps)%nat /\ checked k w = true.
Proof.
  intros Hw. assert (Hk : (k < 26)%nat).
  { destruct (Nat.lt_ge_cases k 26) as [|H]; [done|]. rewrite (levels_empty k H) in Hw. by apply elem_of_nil in Hw. }
  split; [unfold protocol_steps; lia|]. pose proof levels_checked as H. rewrite forallb_forall in H.
  specialize (H k (proj2 (in_seq _ _ _) (conj (Nat.le_0_l k) Hk))). rewrite forallb_forall in H. apply H. by apply list_elem_of_In.
Qed.
Lemma level_next k w c a w' : w ∈ level k -> In (Some w') (moves c a w) -> w' ∈ level (S k).
Proof.
  intros Hw Hm. cbn [level]. unfold next. apply elem_of_remove_dups, list_elem_of_omap. exists (Some w'). split; [|done].
  apply list_elem_of_In, in_flat_map. exists w. split; [by apply list_elem_of_In|].
  unfold all_moves. rewrite !in_app_iff. destruct c, a; auto.
Qed.
Lemma in_bools b : In b bools.
Proof. destruct b; cbn; auto. Qed.
Lemma sound_inv w c a o : sound w = true -> In o (moves c a w) ->
  exists w', o = Some w' /\ (late w' = true -> late w = true \/ c = true) /\ (begun w' = true -> begun w = true \/ a = true).
Proof.
  unfold sound. intros Hs Ho. rewrite forallb_forall in Hs. specialize (Hs c (in_bools c)). rewrite forallb_forall in Hs.
  specialize (Hs a (in_bools a)). rewrite forallb_forall in Hs. specialize (Hs o Ho). destruct o as [w'|]; [|done]. exists w'.
  by destruct (late w'), (late w), (begun w'), (begun w), c, a; naive_solver.
Qed.
Lemma alive_inv w c a : alive w = true ->
  done w \/ moves c a w <> [] \/ (c = false /\ creating w = true) \/ (c = true /\ a = false /\ accepting w = true).
Proof.
  unfold alive. intros Hs. rewrite forallb_forall in Hs. specialize (Hs c (in_bools c)). rewrite forallb_forall in Hs.
  specialize (Hs a (in_bools a)). repeat case_bool_decide; destruct c, a, (creating w), (accepting w); naive_solver.
Qed.

(** ** Runs *)

(** What holds after [k] steps. *)
Record reached (n k : nat) (s : system) : Prop := {
  reached_at : exists j, ends s ∈ level j /\ k = (j + offered s + taken s)%nat;
  reached_counts : (taken s <= offered s <= n)%nat;
  reached_late : late (ends s) = true -> offered s = n;
  reached_begun : begun (ends s) = true -> taken s = n }.
Lemma checked_inv k w : checked k w = true ->
  sound w = true /\ alive w = true /\ agree w = true /\ (done w <-> k = protocol_steps).
Proof.
  unfold checked. rewrite !andb_true_iff, eqb_true_iff. intros (((H1 & H2) & H3) & H4). split_and!; [done..|].
  destruct (Nat.eqb_spec k protocol_steps), (decide (done w)); [done| | |done]; [rewrite bool_decide_eq_false_2 in H4|rewrite bool_decide_eq_true_2 in H4]; done.
Qed.
Lemma runs_reached n k s : runs n k s -> reached n k s.
Proof.
  induction 1 as [|k s s' _ IH Hs].
  - split; cbn; [exists 0%nat; split; [by left|done]|lia|done|done].
  - destruct IH as [(j & Hw & Hk) Hc Hl Hb]. destruct (level_checked _ _ Hw) as [_ (Hso & _)%checked_inv].
    inversion Hs as [w o t w' Hin E1 E2|w o t Hcr Ho E1 E2|w o t Hac Ht E1 E2]; subst; cbn in *.
    + destruct w' as [w'|]; [|done]. injection E2 as <-. cbn.
      destruct (sound_inv _ _ _ _ Hso Hin) as (w1 & [= <-] & Hl' & Hb'). split; cbn; [|done| |].
      * exists (S j). split; [by eapply level_next|lia].
      * intros H. destruct (Hl' H) as [|H1]; [auto|by apply bool_decide_eq_true in H1].
      * intros H. destruct (Hb' H) as [|H1]; [auto|by apply bool_decide_eq_true in H1].
    + split; cbn; [exists j; split; [done|lia]|lia|intros H; specialize (Hl H); lia|exact Hb].
    + split; cbn; [exists j; split; [done|lia]|lia|exact Hl|intros H; specialize (Hb H); lia].
Qed.

(** C2. The two ends understand each other: in no order of the steps of client
    and server does either read a message that it does not expect.  The server
    takes no more connections than the client makes, and while the client runs
    the test the server does so too, with all [n] connections made and taken. *)
Theorem protocol_safe (n k : nat) (s : system) : runs n k s ->
  (forall o, step n s o -> o <> None) /\ (taken s <= offered s <= n)%nat /\
  (st (cl (ends s)) = TEST_RUNNING -> st (sv (ends s)) = TEST_RUNNING /\ dn (ends s) = [] /\ offered s = n /\ taken s = n).
Proof.
  intros H%runs_reached. destruct H as [(j & Hw & Hk) Hc Hl Hb]. destruct (level_checked _ _ Hw) as [_ (Hso & _ & Hag & _)%checked_inv].
  split_and!; [|lia|lia|].
  - intros o Ho. destruct Ho as [w o t w' Hin| |]; [|done..]. by destruct (sound_inv _ _ _ _ Hso Hin) as (w1 & -> & _).
  - intros Hrun. unfold agree in Hag. rewrite bool_decide_eq_true_2 in Hag by done. rewrite andb_true_iff in Hag.
    destruct Hag as [H1 _]. cbn [implb] in H1. rewrite !andb_true_iff, !bool_decide_eq_true in H1. destruct H1 as [[Hbe Hst] Hdn].
    specialize (Hb Hbe). split_and!; [done|done|lia|done].
Qed.

(** C1. Every test completes: whatever the order of the steps, an end that is not
    done can go on or wait for one that can, after exactly [25 + 2 n] steps and
    never later both ends are done, with nothing left on the connection and all
    [n] connections for data made and taken. *)
Theorem protocol_completes (n k : nat) (s : system) : runs n k s ->
  (k <= protocol_steps + 2 * n)%nat /\ (k = (protocol_steps + 2 * n)%nat <-> done (ends s)) /\
  (k <> (protocol_steps + 2 * n)%nat -> exists s', step n s (Some s')) /\
  (done (ends s) -> offered s = n /\ taken s = n).
Proof.
  intros H%runs_reached. destruct H as [(j & Hw & Hk) Hc Hl Hb]. destruct (level_checked _ _ Hw) as [Hj (_ & Hal & Hag & Hd)%checked_inv].
  assert (Hdone : done (ends s) -> offered s = n /\ taken s = n).
  { intros Hdo. unfold agree in Hag. apply andb_true_iff in Hag as [_ Hag]. rewrite bool_decide_eq_true_2 in Hag by done.
    cbn [implb] in Hag. apply andb_true_iff in Hag as [H1 H2]. auto. }
  assert (Hiff : k = (protocol_steps + 2 * n)%nat <-> done (ends s)).
  { split; [intros ->; apply Hd; lia|]. intros Hdo. destruct (Hdone Hdo) as [Ho Ht]. apply Hd in Hdo. lia. }
  split_and!; [lia|exact Hiff| |exact Hdone]. intros Hne. destruct s as [w o t]. cbn [ends offered taken] in *.
  destruct (alive_inv w (bool_decide (o = n)) (bool_decide (t = n)) Hal) as [Hdo|[Hm|[[Hf Hcr]|(Hf & Hf' & Hac)]]].
  - exfalso. by apply Hne, Hiff.
  - destruct (moves _ _ w) as [|o1 l] eqn:Em; [done|].
    assert (Hin : In o1 (moves (bool_decide (o = n)) (bool_decide (t = n)) w)) by (rewrite Em; by left).
    destruct (level_checked _ _ Hw) as [_ (Hso & _)%checked_inv]. destruct (sound_inv _ _ _ _ Hso Hin) as (w1 & -> & _).
    exists (Sys w1 o t). by apply (step_ends n w o t (Some w1)).
  - apply bool_decide_eq_false in Hf. exists (Sys w (S o) t). apply step_connect; [done|lia].
  - apply bool_decide_eq_true in Hf. apply bool_decide_eq_false in Hf'. exists (Sys w o (S t)). apply step_accept; [done|lia].
Qed.

(** ** A run *)

Definition go (n : nat) (s : system) : option system :=
  let '(Sys w o t) := s in
  match moves (bool_decide (o = n)) (bool_decide (t = n)) w with
  | Some w' :: _ => Some (Sys w' o t)
  | None :: _ => None
  | [] => if creating w && (o <? n)%nat then Some (Sys w (S o) t)
          else if accepting w && (t <? o)%nat then Some (Sys w o (S t)) else None
  end.
Lemma go_step n s s' : go n s = Some s' -> step n s (Some s').
Proof.
  destruct s as [w o t]. unfold go. destruct (moves _ _ w) as [|[w'|] l] eqn:Em; [| |done].
  - destruct (creating w && _) eqn:Hc; [|destruct (accepting w && _) eqn:Ha; [|done]]; intros [= <-].
    + apply andb_true_iff in Hc as [Hc Ho%Nat.ltb_lt]. by apply step_connect.
    + apply andb_true_iff in Ha as [Ha Ho%Nat.ltb_lt]. by apply step_accept.
  - intros [= <-]. apply (step_ends n w o t (Some w')). rewrite Em. by left.
Qed.
Fixpoint drive (n k : nat) : option system :=
  match k with O => Some (Sys start 0 0) | S k => s ← drive n k; go n s end.
Lemma drive_runs n k : forall s, drive n k = Some s -> runs n k s.
Proof.
  induction k as [|k IH]; intros s H; cbn [drive] in H; [injection H as <-; constructor|].
  destruct (drive n k) as [s0|]; [|done]. cbn [mbind option_bind] in H. eapply runs_step; [by apply IH|by apply go_step].
Qed.

(** With three streams the run has 31 steps. *)
Lemma protocol_safe_witness :
  exists s, drive 3 19 = Some s /\ st (cl (ends s)) = TEST_RUNNING /\
  (forall o, step 3 s o -> o <> None) /\ (taken s <= offered s <= 3)%nat /\
  (st (cl (ends s)) = TEST_RUNNING -> st (sv (ends s)) = TEST_RUNNING /\ dn (ends s) = [] /\ offered s = 3%nat /\ taken s = 3%nat).
Proof. eexists. split; [vm_compute; reflexivity|]. split; [reflexivity|]. apply (protocol_safe 3 19), drive_runs. vm_compute. reflexivity. Defined.
Lemma protocol_completes_witness :
  exists s, drive 3 31 = Some s /\ done (ends s) /\
  (31 <= protocol_steps + 2 * 3)%nat /\ (31%nat = (protocol_steps + 2 * 3)%nat <-> done (ends s)) /\
  (31%nat <> (protocol_steps + 2 * 3)%nat -> exists s', step 3 s (Some s')) /\
  (done (ends s) -> offered s = 3%nat /\ taken s = 3%nat).
Proof.
  eexists. split; [vm_compute; reflexivity|]. split; [vm_compute; repeat split|].
  apply (protocol_completes 3 31), drive_runs. vm_compute. reflexivity.
Defined.
